(* ===== verification/_CoqProject ===== *)
-Q . S2P
Prelude.v
GoStrings.v
Labels.v
Url.v
Strconv.v
Json.v
Http.v
Tenant.v
Authz.v
LogqlAst.v
Scanner.v
ScannerFacts.v
CookieCipher.v
Duration.v
LogqlTables.v
LogqlLexer.v
LogqlActions.v
LogqlParser.v
LogqlGrammar.v
LogqlLexerFacts.v
LogqlSemantics.v
LogqlAutomaton.v
LogqlRun.v
LogqlSoundness.v
LogsEnforcer.v
LogqlGateway.v
MetricsEnforcer.v
RateLimit.v
Proxy.v
Router.v
Login.v
Oidc.v
OpenShiftDiscovery.v
OpenShift.v
Traces.v
Tls.v
Providers.v
Rules.v
RulesApi.v
PromRules.v
Config.v
Flags.v
MetricsRoutes.v
Instrumentation.v
LogsRoutes.v
TracesRoutes.v
AlertsProbes.v
Gateway.v
Isolation.v
LogsIsolation.v
GatewayFacts.v
GatewayRuns.v
