(* ===== verification/Prelude.v ===== *)
(** * The MCOA gateway: a verification library

    The gateway is an HTTP and gRPC reverse proxy in front of Thanos, Loki, Tempo
    and Alertmanager.  A request passes a chain of middlewares: its tenant is
    taken from a header, a URL parameter or the client certificate; it is
    authenticated and rate limited; the tenant becomes a label matcher in the
    request context; an enforcer parses the query or the body and puts that matcher
    into it; a director rewrites the URL and the request goes to an upstream.  The
    main promise is isolation: whatever a caller sends, what reaches an upstream
    is restricted to the caller's tenants.

    ** Files

    Foundations:
    - [Prelude]: errors as values ([result]), tactics, the class [MapRange] of the
      iteration order of Go maps, list lemmas.
    - [GoStrings], [Strconv], [Url], [Json], [Duration], [Scanner] with
      [ScannerFacts]: what the source uses of the packages [strings], [strconv],
      [unicode/utf8], [net/url], [encoding/json], [time] and [text/scanner], with
      the round trips the components rely on ([query_values_Encode],
      [decode_encode]).
    - [Labels]: Prometheus label matchers and [AuthzResponseData]; the RE2 engine
      is the class [RegexEngine].
    - [Http]: requests, response writers, the handler monad [M] (writer, closure
      state, panics), [httperr/httperr.go], and the relations [forwards] and
      [rejects] in which the properties of middlewares are stated.

    Tenants and authentication:
    - [Tenant]: [authentication/http.go], [tenant_header.go], [mtls_tenant.go],
      [mtls.go], [mtls_grpc.go], [grpc.go].
    - [Authz]: [authorization/].  [WithTenantLabel] turns the tenants of the
      context into a matcher and stores it as JSON; [Unmarshal] reads it back.
    - [Login], [Oidc]: [authentication/var.go] and [oidc.go], with what both login
      flows use of [net/http] (redirects, cookies).
    - [CookieCipher], [OpenShiftDiscovery], [OpenShift]:
      [authentication/openshift.go] and [authentication/openshift/].
    - [Providers]: [authentication/authentication.go] and the goroutines of
      [main.go] that start one provider per tenant, as a step relation.

    LogQL, [logql/v2/]:
    - [LogqlAst]: [ast.go], the syntax tree, its printer and its walk.
    - [LogqlLexer]: [lexer.go] on top of [Scanner]; [LogqlLexerFacts].
    - [LogqlTables], [LogqlActions], [LogqlParser]: [expr.y.go], its tables, its
      semantic actions and its loop, and [parser.go].  Every access to a table, to
      the value stack and to [exprDollar] is checked and panics out of range.
    - [LogqlGrammar]: the productions of [expr.y] and the values of derivations.
    - [LogqlSemantics], [LogqlAutomaton], [LogqlRun], [LogqlSoundness]: the actions
      depend on their symbols only; checks on the tables; the invariant of the
      loop; the parser against the grammar.

    Enforcers and other handlers:
    - [LogsEnforcer]: [api/logs/v1/labels_enforcer.go], [rules_labels_enforcer.go]
      and [authorization/query.go]; [LogqlGateway] runs it with the real parser.
    - [MetricsEnforcer]: [api/metrics/v1/labels_enforcer.go] and
      [alertmanager_enforcer.go]; the PromQL packages are the class [PromQL], the
      Alertmanager packages the class [Alertmanager].
    - [Rules]: [rules/rules.go] (types), [custom_types.go],
      [api/metrics/v1/rules.go], [api/logs/v1/rules.go]; [RulesApi]: the client
      and the server of [rules/rules.go]; [PromRules]:
      [api/logs/v1/rules_prometheus_labels_enforcer.go].
    - [RateLimit]: [ratelimit/]; durations are 64-bit integers with wrap-around.
    - [Proxy]: [proxy/proxy.go], [server/paths.go], [proxy/fanout_proxy.go]; the
      goroutines of the fan-out are the step relation of [Module Fanout].
    - [Traces]: [api/traces/v1/trace_rbac.go] and the upstream template of
      [http.go].
    - [Tls]: [tls/config.go], [ca_watcher.go], [options.go]; files and certificates
      are the class [TlsEnv].

    The gateway:
    - [Router]: route tables and reverse proxies, with what [httputil] does to the
      headers behind the director ([outgoing]: the [Connection] header and what it
      names are removed); the route search of chi is the class [Chi].  [passes P mw Q]
      says with which requests a middleware calls its next handler; chains and groups
      compose it.
    - [MetricsRoutes], [LogsRoutes], [TracesRoutes], [AlertsProbes]: the [http.go]
      files of [api/], a Module per package: options, route tables, directors.
    - [Instrumentation]: [server/http_instrumentation.go] and the tables of series
      in [main.go]; the label maps that contexts share are a store with
      references, the Prometheus client is the class [Prometheus].
    - [Config]: [parseFlags] and the tenants file of [main.go].
    - [Flags]: the declared flags and package [flag], so that [configure] goes
      from the command line to the configuration; [logger/logger.go]; the TLS and
      timeouts of the servers and of the health check, and the server side of the
      handshake.
    - [Gateway]: the wiring of [main.go]; [rootRouter] is the handler of the HTTP
      server, as a list of routes, with the two limiters as arguments;
      [startRouters] makes the limiters and then the routers.
    - [Isolation], [LogsIsolation]: what the read upstreams of the metrics and of
      the logs can be asked.
    - [GatewayFacts]: the gRPC server, the start, writes, open and broken routes,
      the slash that avoids the enforcement.
    - [GatewayRuns]: runs of a small gateway and the witnesses of these files.

    ** State

    Most middlewares are pure in the request; a Go closure that keeps state has it
    in the state component of [M] (the trackers of [RateLimit], the URL cache of
    [TracesRoutes]) or passes it explicitly (the CA watcher of [Tls]).  Shared
    state of goroutines is the state of a step relation ([Fanout.step] in [Proxy],
    [step] in [Providers]); a block that holds a lock is one step.  The LogQL
    parser keeps its stack between runs ([ParserState]); a tree refers to numbers
    by the stack slot they are in ([NumberRef]), so a later run changes them, and
    [NumberMemory] is the content of the slots.

    ** What the theorems show

    - Isolation of a chain: [logs_tenant_isolation], [metrics_tenant_isolation],
      [tenant_label_exact], from the tenant header, through the matcher and its
      JSON, to the query sent upstream, which for logs is the caller's own tree with
      nothing but its stream selectors changed; [metrics_rules_enforced],
      [rules_endpoints], [logs_rules_enforced], [silence_creation],
      [silence_by_id], [alertmanager_filters], [rules_read_authorized],
      [trace_redaction], [search_redaction].
    - Isolation of the gateway, as non-interference: [metrics_gateway_isolated],
      [logs_gateway_isolated], [writes_need_certificate] (two upstreams that agree
      on the requests that may be sent make the same gateway; a write may also lose
      its tenant header, to a [Connection] header that names it), [grpc_write], and
      where it ends: [slash_avoids_enforcement], [series_selectors_unenforced],
      [tempo_unauthenticated], [several_tenants_use_default].
    - Tenants: [tenant_header_validation], [mtls_tenant_extraction],
      [certificate_tenants] (from the command line to the tenants a certificate
      can name),
      [grpc_mtls_tenant_extraction], [url_param_tenant].
    - Authentication: [oidc_authentication], [oidc_callback],
      [oidc_grpc_like_http], [openshift_authentication], [openshift_callback],
      [openshift_session], [openshift_session_forgeable], [openshift_grpc],
      [openshift_constructed], [cookie_round_trip], [login_routes_fail].
    - The LogQL parser: [ParseExpr_refines_grammar],
      [ParseExpr_panics_only_on_regexp], [ParseExpr_terminates],
      [ParseExpr_hangs_on_dashes]; what is sent is the printed tree:
      [enforced_query_injection].
    - Transparency of enforcement: [combine_exact], [or_enforcement],
      [rules_response_filtered], [rules_response_modified].
    - The rules client and its server agree: [rules_client_server].
    - Concurrency: [fanout_status], [no_cross_tenant_provider],
      [providers_order_independent], [providers_start_terminates].
    - Rate limits: [shared_limiter_selection], [limiter_outcomes],
      [retry_after_backoff], [unbounded_retry_after_overflows].
    - Routing: [upstream_path], [strip_prefix], [tempo_routes],
      [templated_upstream_cache].
    - Metrics: [instrumented_request], [tenant_of_recorded_requests],
      [series_made_at_start], [request_size_negative].
    - Start: [command_line], [parsed_flags], [gateway_starts].
    - TLS: [server_config], [ca_watcher], [client_config].
    - Divergences, proved on concrete inputs: [combine_drops_repeated_labels],
      [negated_silence_accepted], [upstream_path_escapes],
      [unattributed_spans_not_redacted], [empty_namespace_leaks], [probes_runs],
      [slash_run], [dot_avoids_enforcement], [connection_removes_tenant].

    ** Parameters and hypotheses

    Code outside the repository is a class or an argument: [RegexEngine] (its law
    is the meaning of alternations of quoted literals), [PromQL] (every selector of
    an enforced expression holds the enforced matchers), [MatcherPrinter],
    [Unicode], [Mime], [Yaml], [TempoCodec], [Alertmanager], [TlsEnv], [PromText],
    [UnicodeTables], [Aes], [OAuth2], [Oidc], [Pem], [UrlCodec], [Jwt] (laws
    [JwtLaws]: what was signed is read back until it expires), [Kube], [Pod],
    [KubeLibs], [HttpTime], [ParamCodec], [RulesJson], [Chi], [Prometheus] (law
    [PrometheusLaws]), the rate limit services, the transports to the
    upstreams ([World]).  Each class has an instance on which the witnesses run.
    [LogsEnforcer] takes the parser as an argument.

    ** Bounds and fuel

    The string functions that do not recur on the tail of their argument take the
    length of the text as fuel; each call consumes at least one byte, so this is
    enough, and the round-trip lemmas prove it for the texts the gateway prints.
    [Lex] and [Parse] may run forever and return [None] when the fuel ends;
    [parse_fuel] is enough for every text without a dash ([ParseExpr_terminates]).
    The stack of a parser of the pool is an array of Go, which is never empty
    ([pool_stack], a hypothesis of [ParseExpr_hangs_on_dashes]).
    [Json] refuses nesting beyond 10000 as Go does.  The JSON round trip, and with
    it the reading back of enforced rules, is proved for ASCII strings.  Durations
    are [Z] wrapped to 64 bits, the fan-out counter is wrapped to 32 bits.

    ** Not modelled

    The handlers of the internal server, the run group and the shutdown of
    [main.go], which only call libraries; flags that imported packages
    declare; log lines and spans; the timeouts, throttling and recovery
    middlewares of chi, and the panics of its [Mount] on a pattern mounted before;
    what the reverse proxy does to responses, and [X-Forwarded-For], as requests
    have no remote address; the generated API client for other programs
    ([client/client.gen.go]) and the protobuf messages of gubernator, which are
    tables for their runtimes.  The path of
    a URL is its decoded form: requests with an escaped path are not distinguished.
    A slice element that is a nil pointer is modelled only where the source tests
    for it or the element comes from a client or the tenants file. *)

From stdpp Require Import base tactics option list gmap strings pretty.
From Stdlib Require Import ZArith Lia.

Declare Scope go_scope.
Delimit Scope go_scope with go.

(** ** Errors as values

    Go functions that return [(T, error)] are modelled in [result]; the error
    carries the message the code formats. *)

Inductive result (A : Type) : Type :=
  | Ok (a : A)
  | Err (e : string).
Arguments Ok {A} a.
Arguments Err {A} e.

Global Instance result_eq_dec `{EqDecision A} : EqDecision (result A).
Proof. solve_decision. Defined.

Global Instance result_ret : MRet result := fun A a => Ok a.
Global Instance result_bind : MBind result := fun A B f m =>
  match m with Ok a => f a | Err e => Err e end.
Global Instance result_fmap : FMap result := fun A B f m =>
  match m with Ok a => Ok (f a) | Err e => Err e end.

(** [fmt.Errorf("msg: %w", err)]: the error of [m] with a prefix. *)
Definition wrap_err {A} (msg : string) (m : result A) : result A :=
  match m with Ok a => Ok a | Err e => Err (msg +:+ ": " +:+ e) end.

Definition is_ok {A} (m : result A) : bool :=
  match m with Ok _ => true | Err _ => false end.

Lemma bind_ok {A B} (m : result A) (f : A -> result B) b :
  m ≫= f = Ok b <-> exists a, m = Ok a /\ f a = Ok b.
Proof.
  split.
  - destruct m as [a|e]; [eauto|discriminate].
  - by intros (a & -> & ?).
Qed.

Lemma wrap_err_ok {A} msg (m : result A) a : wrap_err msg m = Ok a <-> m = Ok a.
Proof. destruct m; simpl; naive_solver. Qed.

(** [mapM] over [result]: the loops that return at the first error. *)
Fixpoint traverse {A B} (f : A -> result B) (l : list A) : result (list B) :=
  match l with
  | [] => Ok []
  | x :: l => y ← f x; ys ← traverse f l; Ok (y :: ys)
  end.

Lemma traverse_ok {A B} (f : A -> result B) l ys :
  traverse f l = Ok ys <-> Forall2 (fun x y => f x = Ok y) l ys.
Proof.
  revert ys. induction l as [|x l IH]; intros ys; simpl.
  - split; [intros [= <-]; constructor|by inversion 1].
  - rewrite bind_ok. setoid_rewrite bind_ok. setoid_rewrite IH. split.
    + intros (y & ? & zs & ? & [= <-]). by constructor.
    + inversion 1; subst. eauto 10.
Qed.

(** ** Tactics

    [cases] splits every [match] and [if] of the goal and the context and
    closes the impossible branches; [go_simpl] also unfolds the given heads. *)

Ltac cases_step :=
  match goal with
  | |- context [match ?x with _ => _ end] => destruct x eqn:?
  | H : context [match ?x with _ => _ end] |- _ => destruct x eqn:?
  end.

Ltac cases := repeat (cases_step; simplify_eq/=; try done).

(** [bind_inv H x Hx]: from [H : m ≫= f = Ok b], the value [x] of [m] with
    [Hx : m = Ok x] (a [wrap_err] around [m] removed), and [H : f x = Ok b]. *)
Tactic Notation "bind_inv" hyp(H) ident(x) ident(Hx) :=
  apply bind_ok in H as (x & Hx & H); try apply wrap_err_ok in Hx.

Ltac bool_to_prop :=
  repeat match goal with
  | H : _ && _ = true |- _ => apply andb_true_iff in H as [? ?]
  | H : _ && _ = false |- _ => apply andb_false_iff in H
  | H : _ || _ = false |- _ => apply orb_false_iff in H as [? ?]
  | H : negb _ = true |- _ => apply negb_true_iff in H
  | H : negb _ = false |- _ => apply negb_false_iff in H
  | H : bool_decide _ = true |- _ => apply bool_decide_eq_true_1 in H
  | H : bool_decide _ = false |- _ => apply bool_decide_eq_false_1 in H
  end.

(** The database of the rewriting and resolution lemmas the components share. *)
Create HintDb gateway discriminated.
Create Rewrite HintDb gateway.
#[export] Hint Constructors Forall Forall2 : gateway.
#[export] Hint Resolve eq_refl : gateway.

(** ** Ranging over a Go map

    The iteration order of a Go map is unspecified.  A definition that ranges
    over a map takes the order as the instance of [MapRange]; the only thing a
    theorem may use is that it enumerates the map. *)

Class MapRange := {
  map_range : forall {V : Type}, gmap string V -> list (string * V);
  map_range_perm : forall V (m : gmap string V), map_range m ≡ₚ map_to_list m
}.

(** One admissible order, for concrete runs. *)
Definition canonical_range : MapRange :=
  {| map_range := fun V m => map_to_list m;
     map_range_perm := fun V m => reflexivity _ |}.

Lemma elem_of_map_range `{MapRange} {V} (m : gmap string V) k v :
  (k, v) ∈ map_range m <-> m !! k = Some v.
Proof. rewrite map_range_perm. apply elem_of_map_to_list. Qed.

(** ** List lemmas *)

Lemma foldl_app_acc {A B} (f : A -> list B) (l : list A) (acc : list B) :
  foldl (fun acc x => acc ++ f x) acc l = acc ++ concat (f <$> l).
Proof.
  revert acc. induction l as [|x l IH]; intros acc; simpl.
  - by rewrite app_nil_r.
  - by rewrite IH, app_assoc.
Qed.

Lemma Forall2_Forall_r {A B} (P : B -> Prop) (Q : A -> B -> Prop) l1 l2 :
  Forall2 Q l1 l2 -> (forall a b, Q a b -> P b) -> Forall P l2.
Proof. induction 1; eauto with gateway. Qed.
