(* ===== verification/GoStrings.v ===== *)
(** * The parts of Go's [strings], [regexp] and [net/textproto] the gateway uses

    Go strings are byte sequences; a [string] of this development is the list
    of its bytes.  Every separator the gateway passes to [strings.Split] is one
    byte, so [Split] takes that byte. *)

From stdpp Require Import base tactics option list gmap strings pretty.
From Stdlib Require Import ZArith Lia Ascii.
From S2P Require Import Prelude.

Local Open Scope string_scope.

Abbreviation len s := (String.length s).

(** ** Characters *)

Definition in_range (lo hi c : ascii) : bool :=
  (N_of_ascii lo <=? N_of_ascii c)%N && (N_of_ascii c <=? N_of_ascii hi)%N.

Definition is_lower : ascii -> bool := in_range "a" "z".
Definition is_upper : ascii -> bool := in_range "A" "Z".
Definition is_digit : ascii -> bool := in_range "0" "9".

Definition to_upper (c : ascii) : ascii :=
  if is_lower c then ascii_of_N (N_of_ascii c - 32) else c.
Definition to_lower (c : ascii) : ascii :=
  if is_upper c then ascii_of_N (N_of_ascii c + 32) else c.

Definition mem_char (c : ascii) (l : list ascii) : bool := bool_decide (c ∈ l).

(** ** Traversals *)

Fixpoint str_forallb (p : ascii -> bool) (s : string) : bool :=
  match s with
  | EmptyString => true
  | String c s => p c && str_forallb p s
  end.

Fixpoint str_existsb (p : ascii -> bool) (s : string) : bool :=
  match s with
  | EmptyString => false
  | String c s => p c || str_existsb p s
  end.

Fixpoint str_drop (n : nat) (s : string) : string :=
  match n, s with
  | S n, String _ s => str_drop n s
  | _, _ => s
  end.

Fixpoint str_rev (s : string) : string :=
  match s with
  | EmptyString => EmptyString
  | String c s => str_rev s ++ String c EmptyString
  end.

(** [strings.HasPrefix], [strings.HasSuffix], [strings.TrimPrefix]. *)
Definition HasPrefix (s p : string) : bool := String.prefix p s.

Definition HasSuffix (s p : string) : bool :=
  (len p <=? len s)%nat && (str_drop (len s - len p) s =? p).

Definition TrimPrefix (s p : string) : string :=
  if HasPrefix s p then str_drop (len p) s else s.

(** [strings.Contains] and [strings.ContainsAny]. *)
Fixpoint Contains (s sub : string) : bool :=
  String.prefix sub s ||
  match s with EmptyString => false | String _ s' => Contains s' sub end.

Definition ContainsAny (s : string) (chars : list ascii) : bool :=
  str_existsb (fun c => mem_char c chars) s.

(** [strings.Split(s, string(sep))]: always at least one part. *)
Fixpoint Split (sep : ascii) (s : string) : list string :=
  match s with
  | EmptyString => [EmptyString]
  | String c s =>
      if Ascii.eqb c sep then EmptyString :: Split sep s
      else match Split sep s with
           | [] => [String c EmptyString]
           | p :: ps => String c p :: ps
           end
  end.

(** [strings.Join]. *)
Fixpoint Join (l : list string) (sep : string) : string :=
  match l with
  | [] => EmptyString
  | [x] => x
  | x :: l => x ++ sep ++ Join l sep
  end.

(** [strings.TrimLeft], [strings.TrimRight] and [strings.Trim] take a cutset,
    here the list of its (single byte) characters. *)
Fixpoint TrimLeft (s : string) (cutset : list ascii) : string :=
  match s with
  | EmptyString => EmptyString
  | String c s' => if mem_char c cutset then TrimLeft s' cutset else s
  end.

Definition TrimRight (s : string) (cutset : list ascii) : string :=
  str_rev (TrimLeft (str_rev s) cutset).

Definition Trim (s : string) (cutset : list ascii) : string :=
  TrimRight (TrimLeft s cutset) cutset.

(** [strings.Replace(s, old, new, 1)] for a non-empty [old]. *)
Fixpoint Replace1 (s old new : string) : string :=
  if String.prefix old s then new ++ str_drop (len old) s
  else match s with
       | EmptyString => EmptyString
       | String c s' => String c (Replace1 s' old new)
       end.

(** What follows the last [c] of [s], the whole of [s] when there is none:
    [s[strings.LastIndex(s, string(c))+1:]]. *)
Fixpoint after_last (c : ascii) (s : string) : string :=
  match s with
  | EmptyString => EmptyString
  | String d s' =>
      if str_existsb (Ascii.eqb c) s' then after_last c s'
      else if Ascii.eqb c d then s' else s
  end.

(** ** [strings.TrimSpace]

    The UTF-8 encodings of the runes with the Unicode White_Space property. *)
Definition byte (n : N) : ascii := ascii_of_N n.

Definition bytes (l : list N) : string :=
  foldr (fun n s => String (byte n) s) EmptyString l.

Definition unicode_spaces : list string :=
  ((fun n => bytes [n]) <$> [9; 10; 11; 12; 13; 32]%N)
  ++ [bytes [194; 133]%N; bytes [194; 160]%N; bytes [225; 154; 128]%N]
  ++ ((fun n => bytes [226; 128; n]%N) <$>
        [128; 129; 130; 131; 132; 133; 134; 135; 136; 137; 138; 168; 169; 175]%N)
  ++ [bytes [226; 129; 159]%N; bytes [227; 128; 128]%N].

(** The length of the space rune [s] starts with, if it starts with one. *)
Definition space_len (spaces : list string) (s : string) : option nat :=
  (fun p => len p) <$> head (filter (fun p => String.prefix p s = true) spaces).

Fixpoint trim_left_space (spaces : list string) (fuel : nat) (s : string) : string :=
  match fuel with
  | O => s
  | S fuel =>
      match space_len spaces s with
      | Some n => trim_left_space spaces fuel (str_drop n s)
      | None => s
      end
  end.

Definition TrimSpace (s : string) : string :=
  let l := trim_left_space unicode_spaces (len s) s in
  str_rev (trim_left_space (str_rev <$> unicode_spaces) (len l) (str_rev l)).

(** ** [regexp.QuoteMeta] *)
Definition regexp_special : list ascii :=
  ["\"; "."; "+"; "*"; "?"; "("; ")"; "|"; "["; "]"; "{"; "}"; "^"; "$"]%char.

Fixpoint QuoteMeta (s : string) : string :=
  match s with
  | EmptyString => EmptyString
  | String c s =>
      if mem_char c regexp_special
      then String "\" (String c (QuoteMeta s))
      else String c (QuoteMeta s)
  end.

(** ** [textproto.CanonicalMIMEHeaderKey] *)
Definition is_token_char (c : ascii) : bool :=
  is_lower c || is_upper c || is_digit c ||
  mem_char c ["!"; "#"; "$"; "%"; "&"; "'"; "*"; "+"; "-"; "."; "^"; "_"; "`"; "|"; "~"]%char.

Fixpoint canonical_go (upper : bool) (s : string) : string :=
  match s with
  | EmptyString => EmptyString
  | String c s =>
      String (if upper then to_upper c else to_lower c)
             (canonical_go (Ascii.eqb c "-") s)
  end.

Definition CanonicalKey (s : string) : string :=
  if str_forallb is_token_char s then canonical_go true s else s.

(** ** Lemmas *)

Lemma str_app_cons c s t : String c s ++ t = String c (s ++ t).
Proof. done. Qed.

Lemma str_nil_app s : "" ++ s = s.
Proof. done. Qed.

Lemma str_app_nil s : s ++ "" = s.
Proof. induction s as [|c s IH]; [done|]. by rewrite str_app_cons, IH. Qed.

Lemma str_app_assoc s t u : s ++ (t ++ u) = (s ++ t) ++ u.
Proof. induction s as [|c s IH]; [done|]. by rewrite !str_app_cons, IH. Qed.

Lemma str_len_app s t : len (s ++ t) = (len s + len t)%nat.
Proof. induction s as [|c s IH]; [done|]. rewrite str_app_cons. simpl. by rewrite IH. Qed.

Lemma str_rev_app s t : str_rev (s ++ t) = str_rev t ++ str_rev s.
Proof.
  induction s as [|c s IH]; [by rewrite str_app_nil|].
  rewrite str_app_cons. simpl. by rewrite IH, str_app_assoc.
Qed.

Lemma str_rev_involutive s : str_rev (str_rev s) = s.
Proof. induction s as [|c s IH]; [done|]. simpl. by rewrite str_rev_app, IH. Qed.

Lemma str_len_rev s : len (str_rev s) = len s.
Proof.
  induction s as [|c s IH]; [done|].
  simpl. rewrite str_len_app, IH. simpl. lia.
Qed.

Lemma str_drop_app s t : str_drop (len s) (s ++ t) = t.
Proof. induction s as [|c s IH]; [by destruct t|]. apply IH. Qed.

Lemma str_forallb_app p s t :
  str_forallb p (s ++ t) = str_forallb p s && str_forallb p t.
Proof.
  induction s as [|c s IH]; [done|].
  rewrite str_app_cons. simpl. by rewrite IH, andb_assoc.
Qed.

Lemma str_forallb_rev p s : str_forallb p (str_rev s) = str_forallb p s.
Proof.
  induction s as [|c s IH]; [done|].
  simpl. rewrite str_forallb_app, IH. simpl.
  by rewrite andb_true_r, andb_comm.
Qed.

Lemma str_forallb_impl p q s :
  (forall c, p c = true -> q c = true) -> str_forallb p s = true -> str_forallb q s = true.
Proof.
  intros Hpq. induction s as [|c s IH]; simpl; [done|].
  rewrite !andb_true_iff. naive_solver.
Qed.

Lemma prefix_app s t : String.prefix s (s ++ t) = true.
Proof. induction s as [|c s IH]; [by destruct t|]. rewrite str_app_cons. simpl. by destruct (ascii_dec c c). Qed.

Lemma prefix_app_inv p s : String.prefix p s = true -> s = p ++ str_drop (len p) s.
Proof.
  revert s. induction p as [|c p IH]; intros [|d s]; simpl; try done.
  destruct (ascii_dec c d) as [->|]; [|done]. intros H. rewrite str_app_cons. f_equal. by apply IH.
Qed.

(** *** Split and Join *)

Definition lacks (sep : ascii) (s : string) : bool :=
  str_forallb (fun c => negb (Ascii.eqb c sep)) s.

Lemma Split_nonempty sep s : Split sep s <> [].
Proof. destruct s as [|c s]; simpl; [done|]. destruct (Ascii.eqb c sep); [done|]. by destruct (Split sep s). Qed.

Lemma Split_lacks sep s : lacks sep s = true -> Split sep s = [s].
Proof.
  induction s as [|c s IH]; [done|]. unfold lacks in *. simpl.
  intros [Hc Hs]%andb_true_iff. apply negb_true_iff in Hc.
  by rewrite Hc, IH.
Qed.

Lemma Split_app sep s t :
  lacks sep s = true -> Split sep (s ++ String sep t) = s :: Split sep t.
Proof.
  induction s as [|c s IH].
  - intros _. simpl. by rewrite Ascii.eqb_refl.
  - unfold lacks. simpl. intros [Hc Hs]%andb_true_iff. apply negb_true_iff in Hc.
    rewrite Hc. change (String.append s (String sep t)) with (s ++ String sep t).
    by rewrite IH.
Qed.

Lemma Split_concat sep s t : Split sep (s ++ String sep t) = (Split sep s ++ Split sep t)%list.
Proof.
  induction s as [|c s IH].
  - simpl. by rewrite Ascii.eqb_refl.
  - rewrite str_app_cons. simpl. rewrite IH. destruct (Ascii.eqb c sep); [done|].
    by destruct (Split sep s) as [|p ps] eqn:E; [by apply Split_nonempty in E|].
Qed.

Lemma Split_parts_lack sep s : Forall (fun p => lacks sep p = true) (Split sep s).
Proof.
  induction s as [|c s IH]; simpl; [by constructor|].
  destruct (Ascii.eqb c sep) eqn:Hc; [by constructor|].
  destruct (Split sep s) as [|p ps]; inversion_clear IH;
    repeat constructor; try done; unfold lacks in *; simpl; by rewrite Hc.
Qed.

(** Splitting what [Join] put together gives the parts back. *)
Lemma Split_Join sep l :
  l <> [] -> Forall (fun p => lacks sep p = true) l ->
  Split sep (Join l (String sep "")) = l.
Proof.
  intros Hne Hl. induction Hl as [|p l Hp Hl IH]; [done|].
  destruct l as [|q l]; [by apply Split_lacks|].
  etrans; [by apply (Split_app sep p (Join (q :: l) (String sep "")))|].
  f_equal. by apply IH.
Qed.

(** Joining the parts [Split] produced gives the string back. *)
Lemma Join_Split sep s : Join (Split sep s) (String sep "") = s.
Proof.
  induction s as [|c s IH]; simpl; [done|].
  destruct (Ascii.eqb c sep) eqn:Hc.
  - apply Ascii.eqb_eq in Hc as ->.
    destruct (Split sep s) as [|p ps] eqn:E; [by apply Split_nonempty in E|].
    change (String sep (Join (p :: ps) (String sep "")) = String sep s). by rewrite IH.
  - destruct (Split sep s) as [|p ps] eqn:E; [by apply Split_nonempty in E|].
    rewrite <-IH. by destruct ps.
Qed.

Lemma str_forallb_Join p l sep :
  Forall (fun s => str_forallb p s = true) l -> str_forallb p sep = true ->
  str_forallb p (Join l sep) = true.
Proof.
  intros Hl Hsep. induction Hl as [|x l Hx Hl IH]; [done|].
  destruct l as [|y l]; [done|].
  change (str_forallb p (x ++ sep ++ Join (y :: l) sep) = true).
  by rewrite !str_forallb_app, Hx, Hsep, IH.
Qed.

(** *** TrimSpace is the identity on text without white space *)

Definition space_bytes : list ascii :=
  byte <$> [9; 10; 11; 12; 13; 32; 194; 225; 226; 227; 133; 160; 128; 129; 130;
    131; 132; 134; 135; 136; 137; 138; 168; 169; 175; 159]%N.

Definition no_space_byte (c : ascii) : bool := negb (mem_char c space_bytes).

Lemma space_len_none spaces s :
  Forall (fun p => match p with String c _ => mem_char c space_bytes = true | _ => False end) spaces ->
  str_forallb no_space_byte s = true -> space_len spaces s = None.
Proof.
  intros Hsp Hs. unfold space_len.
  enough (filter (fun p => String.prefix p s = true) spaces = []) as -> by done.
  induction Hsp as [|p ps Hp _ IH]; [done|].
  rewrite filter_cons, IH. rewrite decide_False; [done|].
  destruct p as [|c p]; [done|]. destruct s as [|d s]; simpl; [done|].
  destruct (ascii_dec c d) as [->|]; [|done].
  simpl in Hs. unfold no_space_byte in Hs. rewrite Hp in Hs. done.
Qed.

Lemma trim_left_space_id spaces fuel s :
  Forall (fun p => match p with String c _ => mem_char c space_bytes = true | _ => False end) spaces ->
  str_forallb no_space_byte s = true -> trim_left_space spaces fuel s = s.
Proof. intros ??. destruct fuel; simpl; [done|]. by rewrite space_len_none. Qed.

Lemma TrimSpace_id s : str_forallb no_space_byte s = true -> TrimSpace s = s.
Proof.
  intros Hs. unfold TrimSpace.
  rewrite (trim_left_space_id unicode_spaces); [|by repeat constructor|done].
  rewrite trim_left_space_id; [by rewrite str_rev_involutive|by repeat constructor|].
  by rewrite str_forallb_rev.
Qed.

(** *** QuoteMeta is the identity on text without metacharacters *)

Lemma QuoteMeta_id s :
  str_forallb (fun c => negb (mem_char c regexp_special)) s = true -> QuoteMeta s = s.
Proof.
  induction s as [|c s IH]; [done|]. simpl.
  intros [Hc Hs]%andb_true_iff. apply negb_true_iff in Hc.
  by rewrite Hc, IH.
Qed.

#[export] Hint Rewrite str_app_nil str_len_app str_rev_involutive str_len_rev : gateway.
