(* ===== verification/Labels.v ===== *)
(** * Label matchers and the authorization data built from them

    The matcher type and [Matches] belong to Prometheus' [model/labels]; what
    the gateway relies on is documented there: the four operators, and that the
    regular expression operators match anchored RE2 expressions.  The RE2
    engine itself is the instance of [RegexEngine]; the one law it carries is
    the meaning of an alternation of literals. *)

From stdpp Require Import base tactics option list gmap strings.
From Stdlib Require Import Ascii Lia.
From S2P Require Import Prelude GoStrings.

Inductive MatchType := MatchEqual | MatchNotEqual | MatchRegexp | MatchNotRegexp.

Global Instance MatchType_eq_dec : EqDecision MatchType.
Proof. solve_decision. Defined.

(** [MatchType.String()]. *)
Definition MatchType_String (t : MatchType) : string :=
  match t with
  | MatchEqual => "="
  | MatchNotEqual => "!="
  | MatchRegexp => "=~"
  | MatchNotRegexp => "!~"
  end.

Record Matcher := mkMatcher { m_type : MatchType; m_name : string; m_value : string }.

Global Instance Matcher_eq_dec : EqDecision Matcher.
Proof. solve_decision. Defined.

(** [authorization.AuthzResponseData]. *)
Record AuthzResponseData := mkAuthz {
  ad_matchers : list Matcher;
  ad_matcherOp : string
}.

Global Instance AuthzResponseData_eq_dec : EqDecision AuthzResponseData.
Proof. solve_decision. Defined.

(** ** The literal alternations of RE2

    [literal_alternatives p] is the list of the alternatives of [p] when [p]
    is an alternation of ASCII literals, each metacharacter escaped by a
    backslash; [None] for any other expression. *)

Definition is_ascii (c : ascii) : bool := (N_of_ascii c <? 128)%N.

Fixpoint literal_alternatives (p : string) : option (list string) :=
  match p with
  | EmptyString => Some [EmptyString]
  | String c p' =>
      if Ascii.eqb c "\" then
        match p' with
        | EmptyString => None
        | String d p'' =>
            if mem_char d regexp_special then
              match literal_alternatives p'' with
              | Some (a :: l) => Some (String d a :: l)
              | _ => None
              end
            else None
        end
      else if Ascii.eqb c "|" then
        l ← literal_alternatives p'; Some (EmptyString :: l)
      else if mem_char c regexp_special || negb (is_ascii c) then None
      else match literal_alternatives p' with
           | Some (a :: l) => Some (String c a :: l)
           | _ => None
           end
  end.

Class RegexEngine := {
  re_compiles : string -> bool;
  re_matches : string -> string -> bool;
  re_literal_compiles : forall p alts,
    literal_alternatives p = Some alts -> re_compiles p = true;
  re_literal_matches : forall p alts s,
    literal_alternatives p = Some alts -> re_matches p s = true <-> s ∈ alts
}.

(** An engine that only knows the literal alternations, for concrete runs. *)
Program Definition literal_engine : RegexEngine := {|
  re_compiles := fun p => bool_decide (is_Some (literal_alternatives p));
  re_matches := fun p s =>
    match literal_alternatives p with
    | Some alts => bool_decide (s ∈ alts)
    | None => false
    end
|}.
Next Obligation. intros p alts H. apply bool_decide_eq_true_2. by rewrite H. Qed.
Next Obligation. intros p alts s H. simpl. rewrite H. apply bool_decide_eq_true. Qed.

Section matching.
Context `{RegexEngine}.

(** [Matcher.Matches]. *)
Definition Matches (m : Matcher) (s : string) : bool :=
  match m_type m with
  | MatchEqual => bool_decide (s = m_value m)
  | MatchNotEqual => bool_decide (s <> m_value m)
  | MatchRegexp => re_matches (m_value m) s
  | MatchNotRegexp => negb (re_matches (m_value m) s)
  end.

(** [labels.NewMatcher]: only the regular expression operators can fail. *)
Definition NewMatcher (t : MatchType) (n v : string) : result Matcher :=
  match t with
  | MatchEqual | MatchNotEqual => Ok (mkMatcher t n v)
  | MatchRegexp | MatchNotRegexp =>
      if re_compiles v then Ok (mkMatcher t n v)
      else Err "error parsing regexp"
  end.

Lemma NewMatcher_ok t n v m : NewMatcher t n v = Ok m -> m = mkMatcher t n v.
Proof. unfold NewMatcher. intros. cases. Qed.

(** A label set satisfies a matcher list when every matcher accepts the value
    of its label; an absent label has the empty value. *)
Definition label_value (ls : gmap string string) (n : string) : string :=
  default EmptyString (ls !! n).

Definition satisfies (ms : list Matcher) (ls : gmap string string) : Prop :=
  Forall (fun m => Matches m (label_value ls (m_name m)) = true) ms.

Lemma satisfies_app ms1 ms2 ls :
  satisfies (ms1 ++ ms2) ls <-> satisfies ms1 ls /\ satisfies ms2 ls.
Proof. apply Forall_app. Qed.

Global Instance satisfies_proper :
  Proper ((≡ₚ) ==> eq ==> iff) satisfies.
Proof. intros ms1 ms2 Hms ls ? <-. unfold satisfies. by rewrite Hms. Qed.
End matching.

(** ** Quoting builds literal alternations *)

Definition ascii_only (s : string) : bool := str_forallb is_ascii s.

Lemma special_not_special c : mem_char c regexp_special = false ->
  Ascii.eqb c "\" = false /\ Ascii.eqb c "|" = false.
Proof.
  unfold mem_char. intros Hc%bool_decide_eq_false_1.
  split; apply Ascii.eqb_neq; intros ->; apply Hc; vm_compute; set_solver.
Qed.

Lemma literal_QuoteMeta_app t q a l :
  ascii_only t = true -> literal_alternatives q = Some (a :: l) ->
  literal_alternatives (QuoteMeta t +:+ q) = Some ((t +:+ a) :: l).
Proof.
  intros Ht Hq. induction t as [|c t IH]; [done|].
  unfold ascii_only in *. simpl in Ht. apply andb_true_iff in Ht as [Hc Ht].
  rewrite str_app_cons. simpl QuoteMeta. destruct (mem_char c regexp_special) eqn:Hsp.
  - rewrite !str_app_cons. cbn -[literal_alternatives].
    change (literal_alternatives (String "\" (String c (QuoteMeta t +:+ q)))) with
      (if mem_char c regexp_special then
              match literal_alternatives (QuoteMeta t +:+ q) with
              | Some (a :: l) => Some (String c a :: l)
              | _ => None
              end
            else None).
    by rewrite Hsp, IH.
  - rewrite !str_app_cons. cbn [literal_alternatives].
    destruct (special_not_special _ Hsp) as [-> ->].
    by rewrite Hsp, Hc, IH.
Qed.

Lemma literal_QuoteMeta t :
  ascii_only t = true -> literal_alternatives (QuoteMeta t) = Some [t].
Proof.
  intros Ht. pose proof (literal_QuoteMeta_app t "" "" [] Ht eq_refl) as E.
  by rewrite !str_app_nil in E.
Qed.

(** The expression the multi-tenant branch builds has exactly the tenants as
    its alternatives, whatever metacharacters they contain. *)
Lemma literal_quoted_tenants ts :
  ts <> [] -> Forall (fun t => ascii_only t = true) ts ->
  literal_alternatives (Join (QuoteMeta <$> ts) "|") = Some ts.
Proof.
  intros Hne Hts. induction Hts as [|t ts Ht Hts IH]; [done|].
  destruct ts as [|t' ts]; [by apply literal_QuoteMeta|].
  rewrite !fmap_cons in *.
  change (Join (QuoteMeta t :: QuoteMeta t' :: (QuoteMeta <$> ts)) "|")
    with (QuoteMeta t +:+ String "|" (Join (QuoteMeta t' :: (QuoteMeta <$> ts)) "|")).
  rewrite (literal_QuoteMeta_app t _ "" (t' :: ts)); [by rewrite str_app_nil|done|].
  cbn [literal_alternatives]. rewrite IH by done. done.
Qed.
