(* ===== verification/Url.v ===== *)
(** * [net/url]: query escaping, [Values], [Encode] and [ParseQuery]

    The enforcers read selectors with [URL.Query()], change the values and write
    them back with [Values.Encode()].  That the upstream sees the value the
    enforcer wrote is the round trip proved here. *)

From stdpp Require Import base tactics option list gmap strings sorting.
From Stdlib Require Import Ascii Lia.
From S2P Require Import Prelude GoStrings.

Abbreviation Values := (gmap string (list string)).

(** ** Escaping *)

Definition unreserved (c : ascii) : bool :=
  is_lower c || is_upper c || is_digit c || mem_char c ["-"; "_"; "."; "~"]%char.

Definition hex_digit (n : N) : ascii :=
  if (n <? 10)%N then ascii_of_N (48 + n) else ascii_of_N (55 + n).

Definition unhex (c : ascii) : option N :=
  let n := N_of_ascii c in
  if is_digit c then Some (n - 48)%N
  else if in_range "a" "f" c then Some (n - 87)%N
  else if in_range "A" "F" c then Some (n - 55)%N
  else None.

Definition escape_char (c : ascii) : string :=
  if unreserved c then String c ""
  else if Ascii.eqb c " " then "+"
  else String "%" (String (hex_digit (N_of_ascii c / 16))
                          (String (hex_digit (N_of_ascii c mod 16)) "")).

Fixpoint QueryEscape (s : string) : string :=
  match s with
  | EmptyString => EmptyString
  | String c s => escape_char c +:+ QueryEscape s
  end.

Fixpoint QueryUnescape (s : string) : result string :=
  match s with
  | EmptyString => Ok EmptyString
  | String c s =>
      if Ascii.eqb c "%" then
        match s with
        | String a (String b s') =>
            match unhex a, unhex b with
            | Some x, Some y =>
                r ← QueryUnescape s'; Ok (String (ascii_of_N (16 * x + y)) r)
            | _, _ => Err "invalid URL escape"
            end
        | _ => Err "invalid URL escape"
        end
      else r ← QueryUnescape s; Ok (String (if Ascii.eqb c "+" then " "%char else c) r)
  end.

(** ** [Values] *)

Definition values_get (v : Values) (k : string) : string :=
  match v !! k with Some (x :: _) => x | _ => EmptyString end.

Definition values_set (v : Values) (k x : string) : Values := <[k := [x]]> v.
Definition values_del (v : Values) (k : string) : Values := delete k v.
Definition values_all (v : Values) (k : string) : list string := default [] (v !! k).
Definition values_add (v : Values) (k x : string) : Values :=
  <[k := values_all v k ++ [x]]> v.

Definition sorted_keys {V} (v : gmap string V) : list string :=
  merge_sort String.le (elements (dom v)).

Definition encode_pairs (v : Values) : list (string * string) :=
  concat ((fun k => (fun x => (k, x)) <$> values_all v k) <$> sorted_keys v).

Definition encode_pair (kx : string * string) : string :=
  QueryEscape kx.1 +:+ "=" +:+ QueryEscape kx.2.

(** [Values.Encode]. *)
Definition Encode (v : Values) : string := Join (encode_pair <$> encode_pairs v) "&".

(** [strings.Cut(s, "=")]. *)
Fixpoint cut_eq (s : string) : string * string :=
  match s with
  | EmptyString => (EmptyString, EmptyString)
  | String c s =>
      if Ascii.eqb c "=" then (EmptyString, s)
      else let '(a, b) := cut_eq s in (String c a, b)
  end.

(** One turn of the loop of [url.parseQuery]: the values so far and the first
    error so far. *)
Definition parse_part (acc : Values * option string) (part : string) : Values * option string :=
  let '(m, err) := acc in
  if Contains part ";" then (m, Some "invalid semicolon separator in query")
  else if String.eqb part "" then (m, err)
  else
    let '(k, x) := cut_eq part in
    let fail e := (m, match err with None => Some e | Some _ => err end) in
    match QueryUnescape k with
    | Err e => fail e
    | Ok k =>
        match QueryUnescape x with
        | Err e => fail e
        | Ok x => (values_add m k x, err)
        end
    end.

Definition ParseQuery (q : string) : Values * option string :=
  foldl parse_part (∅, None) (Split "&" q).

(** [URL.Query()] ignores the error. *)
Definition query_values (q : string) : Values := (ParseQuery q).1.

(** ** The escape round trip *)

Definition escaped_char (c : ascii) : bool :=
  unreserved c || Ascii.eqb c "+" || Ascii.eqb c "%".

Lemma escape_char_escaped c : str_forallb escaped_char (escape_char c) = true.
Proof. destruct c as [[] [] [] [] [] [] [] []]; vm_compute; done. Qed.

Lemma QueryEscape_escaped s : str_forallb escaped_char (QueryEscape s) = true.
Proof.
  induction s as [|c s IH]; [done|]. simpl.
  by rewrite str_forallb_app, escape_char_escaped, IH.
Qed.

Lemma unescape_escape_char c s :
  QueryUnescape (escape_char c +:+ s) = r ← QueryUnescape s; Ok (String c r).
Proof. destruct c as [[] [] [] [] [] [] [] []]; reflexivity. Qed.

Lemma QueryUnescape_escape s : QueryUnescape (QueryEscape s) = Ok s.
Proof.
  induction s as [|c s IH]; [done|]. simpl.
  by rewrite unescape_escape_char, IH.
Qed.

Lemma escaped_lacks c s :
  escaped_char c = false -> str_forallb escaped_char s = true -> lacks c s = true.
Proof.
  intros Hc. apply str_forallb_impl. intros d Hd.
  destruct (Ascii.eqb d c) eqn:E; [|done].
  apply Ascii.eqb_eq in E as ->. congruence.
Qed.

Lemma cut_eq_app a b : lacks "=" a = true -> cut_eq (a +:+ "=" +:+ b) = (a, b).
Proof.
  induction a as [|c a IH]; [done|].
  rewrite str_app_cons. unfold lacks in *. simpl.
  intros [Hc Ha]%andb_true_iff. apply negb_true_iff in Hc.
  change (String.append a (String "=" b)) with (a +:+ "=" +:+ b).
  by rewrite Hc, IH.
Qed.

Lemma Contains_char_lacks c s : lacks c s = true -> Contains s (String c "") = false.
Proof.
  induction s as [|d s IH]; [done|]. unfold lacks in *. simpl.
  intros [Hd Hs]%andb_true_iff. apply negb_true_iff, Ascii.eqb_neq in Hd.
  destruct (ascii_dec c d); [congruence|]. by apply IH.
Qed.

Lemma encode_pair_lacks c kx :
  escaped_char c = false -> c <> "="%char -> lacks c (encode_pair kx) = true.
Proof.
  intros Hc Hne. unfold encode_pair, lacks. rewrite !str_forallb_app.
  pose proof (fun s => escaped_lacks c _ Hc (QueryEscape_escaped s)) as HL.
  unfold lacks in HL. rewrite !HL.
  cbn [str_forallb]. apply Ascii.eqb_neq in Hne. by rewrite Ascii.eqb_sym, Hne.
Qed.

Lemma parse_part_encode m err kx :
  parse_part (m, err) (encode_pair kx) = (values_add m kx.1 kx.2, err).
Proof.
  unfold parse_part.
  rewrite Contains_char_lacks by (apply encode_pair_lacks; done).
  assert (String.eqb (encode_pair kx) "" = false) as ->.
  { apply String.eqb_neq. intros E. unfold encode_pair in E.
    apply (f_equal String.length) in E. rewrite !str_len_app in E. simpl in E. lia. }
  unfold encode_pair at 1. rewrite cut_eq_app by (apply escaped_lacks, QueryEscape_escaped; done).
  by rewrite !QueryUnescape_escape.
Qed.

Lemma foldl_parse_encode ps m err :
  foldl parse_part (m, err) (encode_pair <$> ps) =
  (foldl (fun m kx => values_add m kx.1 kx.2) m ps, err).
Proof.
  revert m. induction ps as [|kx ps IH]; intros m; [done|].
  rewrite fmap_cons. cbn [foldl]. by rewrite parse_part_encode, IH.
Qed.

Lemma Split_encode v :
  encode_pairs v <> [] -> Split "&" (Encode v) = encode_pair <$> encode_pairs v.
Proof.
  intros Hne. apply Split_Join.
  - by destruct (encode_pairs v).
  - apply Forall_fmap, Forall_true. intros kx. by apply encode_pair_lacks.
Qed.

(** Adding all the values of one key. *)
Lemma foldl_add_key m k xs j :
  values_all (foldl (fun m kx => values_add m kx.1 kx.2) m ((fun x => (k, x)) <$> xs)) j =
  if decide (j = k) then values_all m k ++ xs else values_all m j.
Proof.
  revert m. induction xs as [|x xs IH]; intros m; simpl.
  - case_decide; [subst; by rewrite app_nil_r|done].
  - rewrite IH. unfold values_all, values_add. case_decide as Hj.
    + subst. rewrite lookup_insert_eq. simpl. by rewrite <-app_assoc.
    + by rewrite lookup_insert_ne.
Qed.

Lemma foldl_add_keys v ks m j :
  NoDup ks ->
  values_all (foldl (fun m kx => values_add m kx.1 kx.2) m
     (concat ((fun k => (fun x => (k, x)) <$> values_all v k) <$> ks))) j =
  values_all m j ++ (if decide (j ∈ ks) then values_all v j else []).
Proof.
  revert m. induction ks as [|k ks IH]; intros m Hnd.
  - rewrite decide_False by set_solver. by rewrite app_nil_r.
  - rewrite fmap_cons. cbn [concat]. inversion_clear Hnd. rewrite foldl_app, IH by done. rewrite foldl_add_key.
    repeat case_decide; subst; try set_solver; by rewrite ?app_nil_r.
Qed.

Lemma foldl_add_is_Some m ps j :
  (forall xs, m !! j = Some xs -> xs <> []) ->
  forall xs, foldl (fun m kx => values_add m kx.1 kx.2) m ps !! j = Some xs -> xs <> [].
Proof.
  revert m. induction ps as [|[k x] ps IH]; intros m Hm; simpl; [done|].
  apply IH. unfold values_add. intros xs.
  destruct (decide (k = j)) as [->|].
  - rewrite lookup_insert_eq. intros [= <-]. by destruct (values_all m j).
  - rewrite lookup_insert_ne by done. apply Hm.
Qed.

(** Reading back what [Encode] wrote: the same values under every key, in
    order, and no error. *)
Lemma ParseQuery_Encode v :
  (forall k xs, v !! k = Some xs -> xs <> []) -> ParseQuery (Encode v) = (v, None).
Proof.
  intros Hv. unfold ParseQuery.
  assert (foldl parse_part (∅, None) (Split "&" (Encode v)) =
    (foldl (fun m kx => values_add m kx.1 kx.2) (∅ : Values) (encode_pairs v), None)) as ->.
  { destruct (decide (encode_pairs v = [])) as [E|E].
    - unfold Encode. by rewrite E.
    - by rewrite Split_encode, foldl_parse_encode. }
  f_equal. apply map_eq. intros j.
  set (w := foldl _ _ _).
  assert (Hall : values_all w j = values_all v j).
  { unfold w, encode_pairs. rewrite foldl_add_keys.
    - unfold values_all at 1. rewrite lookup_empty. simpl.
      case_decide as Hj; [done|]. unfold sorted_keys in Hj.
      rewrite merge_sort_Permutation, elem_of_elements, not_elem_of_dom in Hj.
      unfold values_all. by rewrite Hj.
    - unfold sorted_keys. rewrite merge_sort_Permutation. apply NoDup_elements. }
  assert (Hw : forall xs, w !! j = Some xs -> xs <> []).
  { apply foldl_add_is_Some. by intros xs; rewrite lookup_empty. }
  unfold values_all in Hall. specialize (Hv j).
  destruct (w !! j) as [xs|], (v !! j) as [ys|]; simpl in Hall; naive_solver.
Qed.

(** Every value list [ParseQuery] produces is non-empty, so the round trip
    applies to what the enforcers got from [URL.Query()]. *)
Definition no_empty_values (v : Values) : Prop := forall k xs, v !! k = Some xs -> xs <> [].

Lemma query_values_Encode v :
  no_empty_values v -> query_values (Encode v) = v.
Proof. intros Hv. unfold query_values. by rewrite ParseQuery_Encode. Qed.

Lemma no_empty_add v k x : no_empty_values v -> no_empty_values (values_add v k x).
Proof.
  intros Hv j xs. unfold values_add. destruct (decide (k = j)) as [->|].
  - rewrite lookup_insert_eq. intros [= <-]. by destruct (values_all v j).
  - rewrite lookup_insert_ne by done. apply Hv.
Qed.

Lemma no_empty_set v k x : no_empty_values v -> no_empty_values (values_set v k x).
Proof.
  intros Hv j xs. unfold values_set. destruct (decide (k = j)) as [->|].
  - rewrite lookup_insert_eq. by intros [= <-].
  - rewrite lookup_insert_ne by done. apply Hv.
Qed.

Lemma no_empty_del v k : no_empty_values v -> no_empty_values (values_del v k).
Proof. intros Hv j xs. unfold values_del. rewrite lookup_delete_Some. intros [_ ?]. by apply (Hv j). Qed.

Lemma no_empty_insert v k xs :
  xs <> [] -> no_empty_values v -> no_empty_values (<[k := xs]> v).
Proof.
  intros Hx Hv j ys. destruct (decide (k = j)) as [->|].
  - rewrite lookup_insert_eq. by intros [= <-].
  - rewrite lookup_insert_ne by done. apply Hv.
Qed.

Lemma no_empty_query_values q : no_empty_values (query_values q).
Proof.
  unfold query_values, ParseQuery.
  assert (no_empty_values (∅ : Values, @None string).1) as H by (intros k xs; simpl; by rewrite lookup_empty).
  revert H. generalize (∅ : Values, @None string).
  induction (Split "&" q) as [|p ps IH]; intros acc H; [done|].
  simpl. apply IH. destruct acc as [m err]. unfold parse_part.
  repeat case_match; simpl in *; auto using no_empty_add.
Qed.

#[export] Hint Resolve no_empty_add no_empty_set no_empty_del no_empty_insert
  no_empty_query_values : gateway.
