(* ===== verification/Strconv.v ===== *)
(** * UTF-8 and [strconv]

    Decoding and encoding of runes as [unicode/utf8] does it, the quoting of
    [strconv.Quote] and [%q], and decimal integers.  [strconv.IsPrint] is exact
    for the ASCII runes; its Unicode tables are the instance of [Unicode]. *)

From stdpp Require Import base tactics option list gmap strings pretty.
From Stdlib Require Import ZArith Lia Ascii.
From S2P Require Import Prelude GoStrings Labels.

(** ** [unicode/utf8] *)

Definition RuneError : N := 65533.

Definition in_n (lo hi n : N) : bool := (lo <=? n)%N && (n <=? hi)%N.

(** The admissible second bytes after a first byte, and the number of bytes. *)
Definition utf8_class (b : N) : option (nat * N * N) :=
  if (b <? 128)%N then Some (1%nat, 0%N, 0%N)
  else if in_n 194 223 b then Some (2%nat, 128, 191)%N
  else if (b =? 224)%N then Some (3%nat, 160, 191)%N
  else if (b =? 237)%N then Some (3%nat, 128, 159)%N
  else if in_n 225 239 b then Some (3%nat, 128, 191)%N
  else if (b =? 240)%N then Some (4%nat, 144, 191)%N
  else if in_n 241 243 b then Some (4%nat, 128, 191)%N
  else if (b =? 244)%N then Some (4%nat, 128, 143)%N
  else None.

Definition cont (c : ascii) : bool := in_n 128 191 (N_of_ascii c).
Definition low6 (c : ascii) : N := N.land (N_of_ascii c) 63.

(** [utf8.DecodeRuneInString]: the rune and its width; [RuneError] of width 1
    for an invalid encoding, and of width 0 for the empty string. *)
Definition DecodeRune (s : string) : N * nat :=
  match s with
  | EmptyString => (RuneError, 0%nat)
  | String a s1 =>
      let n := N_of_ascii a in
      match utf8_class n, s1 with
      | Some (1%nat, _, _), _ => (n, 1%nat)
      | Some (2%nat, lo, hi), String b _ =>
          if in_n lo hi (N_of_ascii b)
          then (N.lor (N.shiftl (N.land n 31) 6) (low6 b), 2%nat) else (RuneError, 1%nat)
      | Some (3%nat, lo, hi), String b (String c _) =>
          if in_n lo hi (N_of_ascii b) && cont c
          then (N.lor (N.shiftl (N.land n 15) 12) (N.lor (N.shiftl (low6 b) 6) (low6 c)), 3%nat)
          else (RuneError, 1%nat)
      | Some (4%nat, lo, hi), String b (String c (String d _)) =>
          if in_n lo hi (N_of_ascii b) && cont c && cont d
          then (N.lor (N.shiftl (N.land n 7) 18)
                  (N.lor (N.shiftl (low6 b) 12) (N.lor (N.shiftl (low6 c) 6) (low6 d))), 4%nat)
          else (RuneError, 1%nat)
      | _, _ => (RuneError, 1%nat)
      end
  end.

(** [utf8.AppendRune]: surrogates and runes out of range become [RuneError]. *)
Definition EncodeRune (r : N) : string :=
  let r := if in_n 55296 57343 r || (1114111 <? r)%N then RuneError else r in
  if (r <? 128)%N then bytes [r]
  else if (r <? 2048)%N then bytes [N.lor 192 (N.shiftr r 6); N.lor 128 (N.land r 63)]
  else if (r <? 65536)%N then
    bytes [N.lor 224 (N.shiftr r 12); N.lor 128 (N.land (N.shiftr r 6) 63);
           N.lor 128 (N.land r 63)]
  else bytes [N.lor 240 (N.shiftr r 18); N.lor 128 (N.land (N.shiftr r 12) 63);
              N.lor 128 (N.land (N.shiftr r 6) 63); N.lor 128 (N.land r 63)].

Fixpoint str_take (n : nat) (s : string) : string :=
  match n, s with
  | S n, String c s => String c (str_take n s)
  | _, _ => EmptyString
  end.

(** Every rune of [s] with its width, from the left: [for i, r := range s]. *)
Fixpoint runes_go (fuel : nat) (s : string) : list (N * nat) :=
  match fuel, s with
  | S fuel, String _ _ =>
      let '(r, w) := DecodeRune s in (r, w) :: runes_go fuel (str_drop w s)
  | _, _ => []
  end.
Definition runes (s : string) : list (N * nat) := runes_go (String.length s) s.

(** ** Hexadecimal *)

Definition hex_lower (n : N) : ascii :=
  if (n <? 10)%N then ascii_of_N (48 + n) else ascii_of_N (87 + n).

(** [n] in [k] lower-case hexadecimal digits. *)
Fixpoint hex_digits (k : nat) (n : N) : string :=
  match k with
  | O => EmptyString
  | S k => hex_digits k (N.shiftr n 4) +:+ String (hex_lower (N.land n 15)) ""
  end.

(** ** [strconv.Quote] *)

(** The printable runes beyond ASCII. *)
Class Unicode := { isPrintWide : N -> bool }.

Definition latin1 : Unicode := {| isPrintWide := fun r => in_n 161 255 r && negb (r =? 173)%N |}.

Section quote.
Context `{Unicode}.

Definition IsPrint (r : N) : bool :=
  if (r <? 128)%N then in_n 32 126 r else isPrintWide r.

Definition quote_rune (r : N) : string :=
  if (r =? 34)%N || (r =? 92)%N then String "\" (EncodeRune r)
  else if IsPrint r then EncodeRune r
  else if (r =? 7)%N then "\a"
  else if (r =? 8)%N then "\b"
  else if (r =? 12)%N then "\f"
  else if (r =? 10)%N then "\n"
  else if (r =? 13)%N then "\r"
  else if (r =? 9)%N then "\t"
  else if (r =? 11)%N then "\v"
  else if (r <? 32)%N || (r =? 127)%N then "\x" +:+ hex_digits 2 r
  else if (r <? 65536)%N then "\u" +:+ hex_digits 4 r
  else "\U" +:+ hex_digits 8 r.

Fixpoint quote_go (fuel : nat) (s : string) : string :=
  match fuel, s with
  | S fuel, String c _ =>
      let '(r, w) := DecodeRune s in
      (if (w =? 1)%nat && (r =? RuneError)%N then "\x" +:+ hex_digits 2 (N_of_ascii c)
       else quote_rune r)
      +:+ quote_go fuel (str_drop w s)
  | _, _ => EmptyString
  end.

Definition Quote (s : string) : string :=
  String (byte 34) (quote_go (String.length s) s) +:+ String (byte 34) "".
End quote.

(** The one-character string of the double quote. *)
Definition dquote : string := String (byte 34) "".

(** ** Printing matchers

    [labels.Matcher.String] belongs to Prometheus.  [simple_printer] writes name,
    operator and quoted value, for concrete runs. *)
Class MatcherPrinter := { Matcher_String : Matcher -> string }.

Definition simple_printer : MatcherPrinter := {|
  Matcher_String := fun m =>
    m_name m +:+ MatchType_String (m_type m) +:+ @Quote latin1 (m_value m) |}.

(** ** Decimal integers: [strconv.Itoa] and [%d] *)

Definition Itoa (z : Z) : string := pretty z.

(** ** ASCII text *)

Lemma DecodeRune_ascii c s : is_ascii c = true -> DecodeRune (String c s) = (N_of_ascii c, 1%nat).
Proof.
  intros Hc. unfold DecodeRune, utf8_class. unfold is_ascii in Hc. by rewrite Hc.
Qed.

Lemma runes_ascii s : ascii_only s = true ->
  runes s = (fun c => (N_of_ascii c, 1%nat)) <$> String.list_ascii_of_string s.
Proof.
  unfold runes, ascii_only. induction s as [|c s IH]; intros Hs; [done|].
  cbn [str_forallb] in Hs. apply andb_true_iff in Hs as [Hc Hs].
  cbn [runes_go String.length]. rewrite DecodeRune_ascii by done.
  cbn [str_drop String.list_ascii_of_string]. by rewrite IH.
Qed.

(** Quoting an ASCII text character by character. *)
Fixpoint quote_ascii `{Unicode} (s : string) : string :=
  match s with
  | EmptyString => EmptyString
  | String c s => quote_rune (N_of_ascii c) +:+ quote_ascii s
  end.

Lemma Quote_ascii `{Unicode} s : ascii_only s = true ->
  Quote s = String (byte 34) (quote_ascii s) +:+ dquote.
Proof.
  intros Hs. unfold Quote. do 2 f_equal. revert Hs.
  unfold ascii_only. induction s as [|c s IH]; intros Hs; [done|].
  cbn [str_forallb] in Hs. apply andb_true_iff in Hs as [Hc Hs].
  cbn [quote_go String.length quote_ascii]. rewrite DecodeRune_ascii by done.
  assert ((N_of_ascii c =? RuneError)%N = false) as ->.
  { unfold is_ascii in Hc. apply N.ltb_lt in Hc. apply N.eqb_neq. unfold RuneError. lia. }
  rewrite andb_false_r. cbn [str_drop]. by rewrite IH.
Qed.
