(* ===== verification/Json.v ===== *)
(** * [encoding/json]

    JSON texts as [json.Marshal] writes them and [json.Unmarshal] reads them.
    A [json] value keeps what the gateway needs of a text: numbers as their
    literals (as [json.RawMessage] and [json.Number] do) and object members in
    the order of the text, duplicates included.  The round trip at the end is
    what the enforcers rely on when they hand matchers on as JSON. *)

From stdpp Require Import base tactics option list gmap strings pretty.
From Stdlib Require Import ZArith Lia Ascii.
From S2P Require Import Prelude GoStrings Labels Url Strconv.

#[warnings="-register-all"]
Inductive json :=
  | JNull
  | JBool (b : bool)
  | JNum (lit : string)
  | JStr (s : string)
  | JArr (l : list json)
  | JObj (l : list (string * json)).

(** ** Encoding *)

(** [appendString] with HTML escaping: the escape of one ASCII byte. *)
Definition json_escape_ascii (c : ascii) : string :=
  let n := N_of_ascii c in
  if (n =? 34)%N || (n =? 92)%N then String "\" (String c "")
  else if (n =? 8)%N then "\b"
  else if (n =? 12)%N then "\f"
  else if (n =? 10)%N then "\n"
  else if (n =? 13)%N then "\r"
  else if (n =? 9)%N then "\t"
  else if (n <? 32)%N || mem_char c ["<"; ">"; "&"]%char then "\u00" +:+ hex_digits 2 n
  else String c "".

Fixpoint json_escape_go (fuel : nat) (s : string) : string :=
  match fuel, s with
  | S fuel, String c s' =>
      if is_ascii c then json_escape_ascii c +:+ json_escape_go fuel s'
      else
        let '(r, w) := DecodeRune s in
        (if (w =? 1)%nat && (r =? RuneError)%N then "\ufffd"
         else if (r =? 8232)%N then "\u2028"
         else if (r =? 8233)%N then "\u2029"
         else str_take w s)
        +:+ json_escape_go fuel (str_drop w s)
  | _, _ => EmptyString
  end.

Definition json_string (s : string) : string :=
  String (byte 34) (json_escape_go (String.length s) s +:+ dquote).

(** The compact text of a value. *)
Fixpoint encode (j : json) : string :=
  match j with
  | JNull => "null"
  | JBool b => if b then "true" else "false"
  | JNum lit => lit
  | JStr s => json_string s
  | JArr l => String "[" (Join (map encode l) "," +:+ "]")
  | JObj l => String "{" (Join (map (fun kv => json_string kv.1 +:+ ":" +:+ encode kv.2) l) ","
                           +:+ "}")
  end.

(** ** Decoding

    Invalid UTF-8 inside strings reads as U+FFFD, one per byte; as every
    structural character is ASCII, the replacement is done on the whole text
    first. *)

Fixpoint sanitize_go (fuel : nat) (s : string) : string :=
  match fuel, s with
  | S fuel, String _ _ =>
      let '(r, w) := DecodeRune s in
      EncodeRune r +:+ sanitize_go fuel (str_drop w s)
  | _, _ => EmptyString
  end.
Definition sanitize (s : string) : string := sanitize_go (String.length s) s.

Definition is_ws (c : ascii) : bool := mem_char c [byte 32; byte 9; byte 10; byte 13].

Fixpoint skip_ws (s : string) : string :=
  match s with
  | String c s' => if is_ws c then skip_ws s' else s
  | EmptyString => EmptyString
  end.

(** Four hexadecimal digits. *)
Definition getu4 (s : string) : option (N * string) :=
  match s with
  | String a (String b (String c (String d s))) =>
      a ← unhex a; b ← unhex b; c ← unhex c; d ← unhex d;
      Some (a * 4096 + b * 256 + c * 16 + d, s)%N
  | _ => None
  end.

(** After a backslash: the text the escape stands for and the rest; a high
    surrogate takes the low surrogate that follows it along. *)
Definition parse_escape (s : string) : option (string * string) :=
  match s with
  | EmptyString => None
  | String c s =>
      if mem_char c [byte 34; "\"; "/"]%char then Some (String c "", s)
      else if Ascii.eqb c "b" then Some (bytes [8]%N, s)
      else if Ascii.eqb c "f" then Some (bytes [12]%N, s)
      else if Ascii.eqb c "n" then Some (bytes [10]%N, s)
      else if Ascii.eqb c "r" then Some (bytes [13]%N, s)
      else if Ascii.eqb c "t" then Some (bytes [9]%N, s)
      else if Ascii.eqb c "u" then
        '(r, s) ← getu4 s;
        let low := match s with
          | String b (String u s') =>
              if Ascii.eqb b "\" && Ascii.eqb u "u" then getu4 s' else None
          | _ => None
          end in
        match low with
        | Some (r2, s'') =>
            if in_n 55296 56319 r && in_n 56320 57343 r2
            then Some (EncodeRune (65536 + (r - 55296) * 1024 + (r2 - 56320))%N, s'')
            else Some (EncodeRune r, s)
        | None => Some (EncodeRune r, s)
        end
      else None
  end.

Fixpoint parse_chars (fuel : nat) (s : string) : option (string * string) :=
  match fuel, s with
  | S fuel, String c s =>
      if (N_of_ascii c =? 34)%N then Some (EmptyString, s)
      else if Ascii.eqb c "\" then
        '(t, s) ← parse_escape s;
        '(u, s) ← parse_chars fuel s;
        Some (t +:+ u, s)
      else if (N_of_ascii c <? 32)%N then None
      else '(u, s) ← parse_chars fuel s; Some (String c u, s)
  | _, _ => None
  end.

(** *** Numbers *)

Fixpoint span (p : ascii -> bool) (s : string) : string * string :=
  match s with
  | String c s' => if p c then let '(a, b) := span p s' in (String c a, b) else (EmptyString, s)
  | EmptyString => (EmptyString, EmptyString)
  end.

Definition scan_int (s : string) : option (string * string) :=
  match s with
  | String c s' =>
      if Ascii.eqb c "0" then Some ("0", s')
      else if is_digit c then Some (span is_digit s)
      else None
  | EmptyString => None
  end.

Definition scan_frac (s : string) : option (string * string) :=
  match s with
  | String c s' =>
      if Ascii.eqb c "." then
        let '(ds, r) := span is_digit s' in
        if String.eqb ds "" then None else Some (String c ds, r)
      else Some (EmptyString, s)
  | EmptyString => Some (EmptyString, s)
  end.

Definition scan_exp (s : string) : option (string * string) :=
  match s with
  | String e s' =>
      if Ascii.eqb e "e" || Ascii.eqb e "E" then
        let '(sgn, s'') := match s' with
          | String g t => if Ascii.eqb g "+" || Ascii.eqb g "-" then (String g "", t)
                          else (EmptyString, s')
          | EmptyString => (EmptyString, s')
          end in
        let '(ds, r) := span is_digit s'' in
        if String.eqb ds "" then None else Some (String e (sgn +:+ ds), r)
      else Some (EmptyString, s)
  | EmptyString => Some (EmptyString, s)
  end.

Definition scan_number (s : string) : option (string * string) :=
  let '(sgn, s) := match s with
    | String c s' => if Ascii.eqb c "-" then ("-", s') else (EmptyString, s)
    | EmptyString => (EmptyString, s)
    end in
  '(i, s) ← scan_int s; '(f, s) ← scan_frac s; '(e, s) ← scan_exp s;
  Some (sgn +:+ i +:+ f +:+ e, s).

(** *** Values

    [depth] counts the open arrays and objects; the scanner refuses more than
    10000.  Every recursive call has consumed a character, so the length of the
    text is enough fuel. *)

Definition maxNestingDepth : N := 10000.

Fixpoint parse_value (fuel : nat) (depth : N) (s : string) : option (json * string) :=
  match fuel with
  | O => None
  | S fuel =>
      match skip_ws s with
      | EmptyString => None
      | String c s' as s =>
          if Ascii.eqb c "[" then
            if (maxNestingDepth <=? depth)%N then None
            else match skip_ws s' with
              | EmptyString => None
              | String d r as s' =>
                  if Ascii.eqb d "]" then Some (JArr [], r)
                  else '(l, r) ← parse_elems fuel (depth + 1) s'; Some (JArr l, r)
              end
          else if Ascii.eqb c "{" then
            if (maxNestingDepth <=? depth)%N then None
            else match skip_ws s' with
              | EmptyString => None
              | String d r as s' =>
                  if Ascii.eqb d "}" then Some (JObj [], r)
                  else '(l, r) ← parse_members fuel (depth + 1) s'; Some (JObj l, r)
              end
          else if (N_of_ascii c =? 34)%N then
            '(t, r) ← parse_chars (String.length s) s'; Some (JStr t, r)
          else if HasPrefix s "null" then Some (JNull, str_drop 4 s)
          else if HasPrefix s "true" then Some (JBool true, str_drop 4 s)
          else if HasPrefix s "false" then Some (JBool false, str_drop 5 s)
          else '(n, r) ← scan_number s; Some (JNum n, r)
      end
  end
with parse_elems (fuel : nat) (depth : N) (s : string) : option (list json * string) :=
  match fuel with
  | O => None
  | S fuel =>
      '(v, r) ← parse_value fuel depth s;
      match skip_ws r with
      | EmptyString => None
      | String d r =>
          if Ascii.eqb d "]" then Some ([v], r)
          else if Ascii.eqb d "," then
            '(l, r) ← parse_elems fuel depth r; Some (v :: l, r)
          else None
      end
  end
with parse_members (fuel : nat) (depth : N) (s : string) :
    option (list (string * json) * string) :=
  match fuel with
  | O => None
  | S fuel =>
      match skip_ws s with
      | String q s' =>
          if (N_of_ascii q =? 34)%N then
            '(k, r) ← parse_chars (String.length s) s';
            match skip_ws r with
            | EmptyString => None
            | String d r =>
                if negb (Ascii.eqb d ":") then None
                else
                  '(v, r) ← parse_value fuel depth r;
                  match skip_ws r with
                  | EmptyString => None
                  | String d r =>
                      if Ascii.eqb d "}" then Some ([(k, v)], r)
                      else if Ascii.eqb d "," then
                        '(l, r) ← parse_members fuel depth r; Some ((k, v) :: l, r)
                      else None
                  end
            end
          else None
      | EmptyString => None
      end
  end.

(** The value a text holds; nothing but white space may follow it. *)
Definition decode (s : string) : option json :=
  let s := sanitize s in
  '(j, r) ← parse_value (S (String.length s)) 0 s;
  match skip_ws r with EmptyString => Some j | _ => None end.

(** ** Decoding what was encoded *)

Section json_ind.
Context (P : json -> Prop).
Context (Hnull : P JNull) (Hbool : forall b, P (JBool b)) (Hnum : forall n, P (JNum n))
        (Hstr : forall s, P (JStr s)) (Harr : forall l, Forall P l -> P (JArr l))
        (Hobj : forall l, Forall (fun kv => P kv.2) l -> P (JObj l)).

Fixpoint json_ind' (j : json) : P j :=
  match j with
  | JNull => Hnull
  | JBool b => Hbool b
  | JNum n => Hnum n
  | JStr s => Hstr s
  | JArr l => Harr l ((fix go l := match l return Forall P l with
                        | [] => List.Forall_nil _
                        | j :: l => List.Forall_cons _ _ _ (json_ind' j) (go l)
                        end) l)
  | JObj l => Hobj l ((fix go l := match l return Forall (fun kv => P kv.2) l with
                        | [] => List.Forall_nil _
                        | kv :: l => List.Forall_cons _ _ _ (json_ind' kv.2) (go l)
                        end) l)
  end.
End json_ind.

(** The values the round trip covers: ASCII strings and keys, number literals
    that the scanner accepts as a whole, and no nesting beyond the limit. *)
Definition num_ok (lit : string) : bool :=
  match scan_number lit with
  | Some (n, EmptyString) => String.eqb n lit
  | _ => false
  end.

Fixpoint plain (depth : N) (j : json) : bool :=
  match j with
  | JNull | JBool _ => true
  | JNum lit => num_ok lit && ascii_only lit
  | JStr s => ascii_only s
  | JArr l => (depth <? maxNestingDepth)%N && forallb (plain (depth + 1)) l
  | JObj l => (depth <? maxNestingDepth)%N &&
              forallb (fun kv => ascii_only kv.1 && plain (depth + 1) kv.2) l
  end.

(** What may follow a value inside a text. *)
Definition delimiter (rest : string) : Prop :=
  match rest with
  | EmptyString => True
  | String c _ => c ∈ [","; "]"; "}"]%char
  end.

Lemma span_app p s a b rest :
  span p s = (a, b) ->
  match rest with String c _ => p c = false | EmptyString => True end ->
  span p (s +:+ rest) = (a, b +:+ rest).
Proof.
  intros E Hr. revert a b E. induction s as [|c s IH]; intros a b E; simpl in E.
  - simplify_eq. rewrite !str_nil_app. destruct rest as [|d rest]; [done|].
    cbn [span]. by rewrite Hr.
  - rewrite str_app_cons. cbn [span]. destruct (p c); [|by simplify_eq].
    destruct (span p s) as [a' b']. simplify_eq. by rewrite (IH a' b).
Qed.

Lemma delimiter_facts c rest : delimiter (String c rest) ->
  is_digit c = false /\ Ascii.eqb c "." = false /\
  (Ascii.eqb c "e" || Ascii.eqb c "E") = false.
Proof.
  unfold delimiter. rewrite !elem_of_cons, elem_of_nil. intros [->|[->|[->|[]]]];
    split_and!; reflexivity.
Qed.

Lemma scan_digits_app s a b rest : delimiter rest ->
  span is_digit s = (a, b) -> span is_digit (s +:+ rest) = (a, b +:+ rest).
Proof.
  intros Hd E. apply span_app; [done|]. destruct rest; [done|]. exact (proj1 (delimiter_facts _ _ Hd)).
Qed.

Lemma scan_int_app s a b rest : delimiter rest ->
  scan_int s = Some (a, b) -> scan_int (s +:+ rest) = Some (a, b +:+ rest).
Proof.
  intros Hd. destruct s as [|c s]; [done|]. rewrite str_app_cons. unfold scan_int.
  destruct (Ascii.eqb c "0"); [by intros [= <- <-]|]. destruct (is_digit c) eqn:Hc; [|done].
  intros [= E]. f_equal. rewrite <-str_app_cons. by apply scan_digits_app.
Qed.

Lemma scan_frac_app s a b rest : delimiter rest ->
  scan_frac s = Some (a, b) -> scan_frac (s +:+ rest) = Some (a, b +:+ rest).
Proof.
  intros Hd. destruct s as [|c s].
  - intros [= <- <-]. destruct rest as [|c rest]; [done|].
    apply delimiter_facts in Hd as (_ & Hc & _). rewrite !str_nil_app.
    cbn [scan_frac]. by rewrite Hc.
  - rewrite str_app_cons. cbn [scan_frac]. destruct (Ascii.eqb c ".").
    + destruct (span is_digit s) as [ds r] eqn:E.
      rewrite (scan_digits_app _ _ _ _ Hd E). by destruct (String.eqb ds ""); [|intros [= <- <-]].
    + intros [= <- <-]. by rewrite str_app_cons.
Qed.

Lemma scan_exp_app s a b rest : delimiter rest ->
  scan_exp s = Some (a, b) -> scan_exp (s +:+ rest) = Some (a, b +:+ rest).
Proof.
  intros Hd. destruct s as [|c s].
  - intros [= <- <-]. destruct rest as [|c rest]; [done|].
    apply delimiter_facts in Hd as (_ & _ & Hc).
    rewrite !str_nil_app. cbn [scan_exp]. by rewrite Hc.
  - rewrite str_app_cons. cbn [scan_exp].
    destruct (Ascii.eqb c "e" || Ascii.eqb c "E"); cycle 1.
    { intros [= <- <-]. by rewrite str_app_cons. }
    destruct s as [|g t]; [done|]. rewrite str_app_cons.
    destruct (Ascii.eqb g "+" || Ascii.eqb g "-").
    + destruct (span is_digit t) as [ds r] eqn:E. rewrite (scan_digits_app _ _ _ _ Hd E).
      by destruct (String.eqb ds ""); [|intros [= <- <-]].
    + destruct (span is_digit (String g t)) as [ds r] eqn:E.
      rewrite <-(str_app_cons g t rest), (scan_digits_app _ _ _ _ Hd E).
      by destruct (String.eqb ds ""); [|intros [= <- <-]].
Qed.

Lemma scan_number_app s a b rest : delimiter rest ->
  scan_number s = Some (a, b) -> scan_number (s +:+ rest) = Some (a, b +:+ rest).
Proof.
  intros Hd. unfold scan_number. destruct s as [|c s]; [done|]. rewrite str_app_cons.
  set (sgn := if Ascii.eqb c "-" then "-" else ""). set (t := if Ascii.eqb c "-" then s else String c s).
  assert ((if Ascii.eqb c "-" then ("-", s) else ("", String c s)) = (sgn, t)) as ->
    by (subst sgn t; by destruct (Ascii.eqb c "-")).
  assert ((if Ascii.eqb c "-" then ("-", s +:+ rest) else ("", String c (s +:+ rest)))
          = (sgn, t +:+ rest)) as ->
    by (subst sgn t; destruct (Ascii.eqb c "-"); by rewrite ?str_app_cons).
  clearbody sgn t. cbn. intros E.
  destruct (scan_int t) as [[i t1]|] eqn:E1; [|done]. cbn in E.
  destruct (scan_frac t1) as [[f t2]|] eqn:E2; [|done]. cbn in E.
  destruct (scan_exp t2) as [[x t3]|] eqn:E3; [|done]. cbn in E. simplify_eq.
  rewrite (scan_int_app _ _ _ _ Hd E1). cbn. rewrite (scan_frac_app _ _ _ _ Hd E2). cbn.
  by rewrite (scan_exp_app _ _ _ _ Hd E3).
Qed.

(** *** Strings *)

Lemma parse_escape_u4 t r s :
  getu4 t = Some (r, s) -> (r <? 55296)%N = true ->
  parse_escape (String "u" t) = Some (EncodeRune r, s).
Proof.
  intros E Hr. unfold parse_escape.
  change (mem_char "u" [byte 34; "\"; "/"]%char) with false.
  cbn [Ascii.eqb Bool.eqb]. rewrite E. cbn.
  assert (in_n 55296 56319 r = false) as ->.
  { apply N.ltb_lt in Hr. unfold in_n. apply andb_false_iff. left. apply N.leb_gt. lia. }
  by repeat case_match.
Qed.

Lemma parse_escape_ascii c s : is_ascii c = true ->
  (json_escape_ascii c = String c "" /\ (N_of_ascii c =? 34)%N = false /\
     Ascii.eqb c "\" = false /\ (N_of_ascii c <? 32)%N = false) \/
  (exists e, json_escape_ascii c = String "\" e /\
     parse_escape (e +:+ s) = Some (String c "", s)).
Proof.
  destruct c as [[] [] [] [] [] [] [] []]; intros Hc; try discriminate Hc;
    first [left; split_and!; reflexivity
          |right; eexists; split; [vm_compute; reflexivity|]; rewrite !str_app_cons, str_nil_app;
           first [reflexivity|etransitivity; [apply parse_escape_u4; reflexivity|reflexivity]]].
Qed.

Lemma parse_chars_escape fuel s rest : ascii_only s = true ->
  (String.length (json_escape_go (String.length s) s) < fuel)%nat ->
  parse_chars fuel (json_escape_go (String.length s) s +:+ String (byte 34) rest) = Some (s, rest).
Proof.
  unfold ascii_only. revert fuel. induction s as [|c s IH]; intros fuel Hs Hf.
  { destruct fuel; [simpl in Hf; lia|]. reflexivity. }
  cbn [str_forallb] in Hs. apply andb_true_iff in Hs as [Hc Hs].
  cbn [String.length json_escape_go] in Hf |- *. rewrite Hc in Hf |- *.
  rewrite str_len_app in Hf. rewrite <-str_app_assoc.
  destruct fuel as [|fuel]; [lia|].
  destruct (parse_escape_ascii c (json_escape_go (String.length s) s +:+ String (byte 34) rest) Hc)
    as [(E & Hq & Hb & Hctl)|(e & E & Hp)].
  - rewrite E in *. rewrite str_app_cons. cbn [parse_chars]. rewrite Hq, Hb, Hctl, str_nil_app.
    simpl in Hf. rewrite IH by (done || lia). done.
  - rewrite E in *. rewrite str_app_cons. cbn [parse_chars]. rewrite Hp.
    simpl in Hf. cbn. rewrite IH by (done || lia). done.
Qed.

Lemma json_string_app s rest :
  json_string s +:+ rest = String (byte 34) (json_escape_go (String.length s) s +:+ String (byte 34) rest).
Proof.
  unfold json_string, dquote. rewrite str_app_cons, <-str_app_assoc. done.
Qed.

(** *** Values *)

Lemma span_head p c s : p c = true -> exists a b, span p (String c s) = (String c a, b).
Proof. intros Hc. cbn. rewrite Hc. destruct (span p s). eauto. Qed.

Definition value_start (c : ascii) : Prop :=
  is_ws c = false /\ Ascii.eqb c "]" = false /\ Ascii.eqb c "}" = false.

Definition number_start (c : ascii) : bool := is_digit c || Ascii.eqb c "-".

Lemma number_start_facts c : number_start c = true ->
  value_start c /\ Ascii.eqb c "[" = false /\ Ascii.eqb c "{" = false /\
  (N_of_ascii c =? 34)%N = false /\ forall s,
  HasPrefix (String c s) "null" = false /\ HasPrefix (String c s) "true" = false /\
  HasPrefix (String c s) "false" = false.
Proof.
  destruct c as [[] [] [] [] [] [] [] []]; intros Hc; try discriminate Hc;
    unfold value_start; split_and!; try reflexivity; intros; split_and!; reflexivity.
Qed.

Lemma num_ok_spec lit : num_ok lit = true -> scan_number lit = Some (lit, EmptyString).
Proof.
  unfold num_ok. destruct (scan_number lit) as [[n [|]]|]; try done.
  by intros ->%String.eqb_eq.
Qed.

Lemma scan_number_start s n r : scan_number s = Some (n, r) ->
  exists c t, s = String c t /\ number_start c = true.
Proof.
  destruct s as [|c t]; [done|]. intros E. exists c, t. split; [done|].
  unfold scan_number in E. unfold number_start. destruct (Ascii.eqb c "-"); [apply orb_true_r|].
  unfold scan_int in E. destruct (Ascii.eqb_spec c "0") as [->|]; [done|].
  by destruct (is_digit c).
Qed.

Lemma encode_start d j : plain d j = true -> exists c t, encode j = String c t /\ value_start c.
Proof.
  destruct j as [|[]|lit|s|l|l]; intros Hp; try by repeat eexists.
  cbn in Hp. apply andb_true_iff in Hp as [Hp _]. apply num_ok_spec, scan_number_start in Hp.
  destruct Hp as (c & t & E & Hc). exists c, t. split; [done|]. by apply number_start_facts.
Qed.

Lemma skip_ws_start c s : is_ws c = false -> skip_ws (String c s) = String c s.
Proof. intros Hc. cbn. by rewrite Hc. Qed.

Definition parses (d : N) (j : json) : Prop := forall fuel rest,
  (String.length (encode j) < fuel)%nat -> delimiter rest ->
  parse_value fuel d (encode j +:+ rest) = Some (j, rest).

Definition encode_member (kv : string * json) : string :=
  json_string kv.1 +:+ ":" +:+ encode kv.2.

Lemma parse_elems_encode d l : l <> [] -> Forall (parses d) l -> forall fuel rest,
  (1 + String.length (Join (map encode l) ",") < fuel)%nat ->
  parse_elems fuel d (Join (map encode l) "," +:+ String "]" rest) = Some (l, rest).
Proof.
  intros Hne Hl. induction Hl as [|j l Hj Hl IH]; [done|]. intros fuel rest Hf.
  destruct fuel as [|fuel]; [lia|]. destruct l as [|j' l].
  - cbn [map Join] in Hf |- *. cbn [parse_elems].
    rewrite Hj by (lia || (simpl; set_solver)). reflexivity.
  - change (Join (map encode (j :: j' :: l)) ",")
      with (encode j +:+ String "," (Join (map encode (j' :: l)) ",")) in Hf |- *.
    rewrite <-str_app_assoc, str_app_cons. rewrite str_len_app in Hf. cbn [String.length] in Hf.
    cbn [parse_elems]. rewrite Hj by (lia || (simpl; set_solver)).
    cbn [mbind option_bind]. rewrite skip_ws_start by done.
    change (Ascii.eqb "," "]") with false. change (Ascii.eqb "," ",") with true. cbv iota.
    rewrite IH by (done || lia). reflexivity.
Qed.

Lemma parse_members_encode d l : l <> [] ->
  Forall (fun kv => ascii_only kv.1 = true /\ parses d kv.2) l -> forall fuel rest,
  (1 + String.length (Join (map encode_member l) ",") < fuel)%nat ->
  parse_members fuel d (Join (map encode_member l) "," +:+ String "}" rest) = Some (l, rest).
Proof.
  intros Hne Hl. induction Hl as [|[k v] l [Hk Hv] Hl IH]; [done|]. intros fuel rest Hf.
  destruct fuel as [|fuel]; [lia|]. cbn [fst snd] in *.
  set (tail := match l with [] => EmptyString | _ => String "," (Join (map encode_member l) ",") end).
  assert (Join (map encode_member ((k, v) :: l)) ","
          = json_string k +:+ String ":" (encode v +:+ tail)) as E.
  { subst tail. destruct l as [|kv' l].
    - cbn [map Join]. unfold encode_member. cbn [fst snd]. by rewrite str_app_nil.
    - change (Join (map encode_member ((k, v) :: kv' :: l)) ",")
        with (encode_member (k, v) +:+ String "," (Join (map encode_member (kv' :: l)) ",")).
      unfold encode_member at 1. cbn [fst snd]. by rewrite <-str_app_assoc. }
  rewrite E in Hf |- *. rewrite <-str_app_assoc, json_string_app.
  rewrite str_len_app in Hf. cbn [String.length] in Hf. rewrite str_len_app in Hf.
  cbn [parse_members]. rewrite skip_ws_start by done.
  change ((N_of_ascii (byte 34) =? 34)%N) with true. cbv iota.
  rewrite str_app_cons, parse_chars_escape; [|done|cbn [String.length]; rewrite str_len_app; lia].
  cbn [mbind option_bind]. rewrite skip_ws_start by done.
  change (Ascii.eqb ":" ":") with true. cbn [negb]. rewrite <-str_app_assoc.
  subst tail. destruct l as [|kv' l].
  - rewrite Hv by (lia || (simpl; set_solver)). reflexivity.
  - rewrite str_app_cons. rewrite Hv by (lia || (simpl; set_solver)). cbn [mbind option_bind].
    rewrite skip_ws_start by done. change (Ascii.eqb "," "}") with false.
    change (Ascii.eqb "," ",") with true. cbv iota. cbn [String.length] in Hf.
    rewrite IH by (done || lia). reflexivity.
Qed.

Lemma nesting_ok d : (d <? maxNestingDepth)%N = true -> (maxNestingDepth <=? d)%N = false.
Proof. intros H. apply N.leb_gt, N.ltb_lt, H. Qed.

Lemma parses_num d lit : num_ok lit = true -> parses d (JNum lit).
Proof.
  intros Hp%num_ok_spec fuel rest Hf Hd. destruct fuel as [|fuel]; [lia|].
  pose proof (scan_number_start _ _ _ Hp) as (c & t & E & Hc).
  pose proof (scan_number_app _ _ _ _ Hd Hp) as Hs. rewrite str_nil_app in Hs.
  cbn [encode]. rewrite E in Hs |- *. rewrite str_app_cons in Hs |- *.
  apply number_start_facts in Hc as ((Hws & _) & H1 & H2 & H3 & H4).
  destruct (H4 (t +:+ rest)) as (H5 & H6 & H7).
  cbn [parse_value]. rewrite skip_ws_start by done. by rewrite H1, H2, H3, H5, H6, H7, Hs.
Qed.

Lemma parses_str d s : ascii_only s = true -> parses d (JStr s).
Proof.
  intros Hp fuel rest Hf Hd. destruct fuel as [|fuel]; [lia|].
  cbn [encode] in Hf |- *. rewrite json_string_app. cbn [parse_value].
  rewrite skip_ws_start by done. cbn -[parse_chars json_escape_go String.app String.length].
  rewrite parse_chars_escape; [done|done|]. cbn [String.length]. rewrite str_len_app. lia.
Qed.

Lemma Join_start (p : ascii -> Prop) x xs :
  (exists c t, x = String c t /\ p c) ->
  exists c t, Join (x :: xs) "," = String c t /\ p c.
Proof.
  intros (c & t & -> & Hc). exists c. destruct xs as [|y xs]; [by exists t|].
  eexists. split; [|done]. cbn [Join]. by rewrite !str_app_cons.
Qed.

Lemma parses_arr d l : (d <? maxNestingDepth)%N = true ->
  Forall (fun j => plain (d + 1) j = true /\ parses (d + 1) j) l -> parses d (JArr l).
Proof.
  intros Hlt%nesting_ok Hl fuel rest Hf Hd. destruct fuel as [|fuel]; [lia|].
  cbn [encode] in Hf |- *. rewrite str_app_cons, <-str_app_assoc.
  change ("]" +:+ rest) with (String "]" rest).
  cbn [String.length] in Hf. rewrite str_len_app in Hf. cbn [String.length] in Hf.
  cbn [parse_value]. rewrite skip_ws_start by done. change (Ascii.eqb "[" "[") with true.
  rewrite Hlt. destruct l as [|j l]; [reflexivity|].
  destruct (Join_start value_start (encode j) (map encode l)) as (c & t & E & Hws & Hb & _).
  { apply (encode_start (d + 1)). by apply Forall_cons in Hl as [[Hj _] _]. }
  change (Join (map encode (j :: l)) ",") with (Join (encode j :: map encode l) ",") in *.
  rewrite E, str_app_cons, skip_ws_start by done. rewrite Hb, <-str_app_cons, <-E.
  change (Join (encode j :: map encode l) ",") with (Join (map encode (j :: l)) ",") in *.
  rewrite (parse_elems_encode (d + 1)); [reflexivity|done| |lia].
  eapply Forall_impl; [done|]. naive_solver.
Qed.

Lemma parses_obj d l : (d <? maxNestingDepth)%N = true ->
  Forall (fun kv => ascii_only kv.1 = true /\ parses (d + 1) kv.2) l -> parses d (JObj l).
Proof.
  intros Hlt%nesting_ok Hl fuel rest Hf Hd. destruct fuel as [|fuel]; [lia|].
  cbn [encode] in Hf |- *. rewrite str_app_cons, <-str_app_assoc.
  change ("}" +:+ rest) with (String "}" rest).
  cbn [String.length] in Hf. rewrite str_len_app in Hf. cbn [String.length] in Hf.
  cbn [parse_value]. rewrite skip_ws_start by done. change (Ascii.eqb "{" "[") with false.
  change (Ascii.eqb "{" "{") with true. rewrite Hlt. destruct l as [|kv l]; [reflexivity|].
  change (map (fun kv => json_string kv.1 +:+ ":" +:+ encode kv.2) (kv :: l))
    with (encode_member kv :: map encode_member l) in *.
  destruct (Join_start (fun c => c = byte 34) (encode_member kv) (map encode_member l))
    as (c & t & E & ->).
  { unfold encode_member, json_string. rewrite str_app_cons. eauto. }
  rewrite E, str_app_cons, skip_ws_start by done. change (Ascii.eqb (byte 34) "}") with false.
  rewrite <-str_app_cons, <-E. cbv iota.
  change (encode_member kv :: map encode_member l) with (map encode_member (kv :: l)) in *.
  rewrite (parse_members_encode (d + 1)) by (done || lia). reflexivity.
Qed.

Lemma parse_value_encode j : forall d, plain d j = true -> parses d j.
Proof.
  induction j as [|b|lit|s|l IH|l IH] using json_ind'; intros d Hp.
  - intros fuel rest Hf _. destruct fuel; [lia|]. cbn [encode].
    rewrite !str_app_cons, str_nil_app. by destruct rest.
  - intros fuel rest Hf _. destruct fuel; [lia|].
    destruct b; cbn [encode]; rewrite !str_app_cons, str_nil_app; by destruct rest.
  - cbn in Hp. apply andb_true_iff in Hp as [Hp _]. by apply parses_num.
  - by apply parses_str.
  - cbn in Hp. apply andb_true_iff in Hp as [Hlt Hp]. apply parses_arr; [done|].
    rewrite Forall_forall in IH |- *. intros j Hj. rewrite forallb_forall in Hp.
    apply list_elem_of_In in Hj as Hj'. naive_solver.
  - cbn in Hp. apply andb_true_iff in Hp as [Hlt Hp]. apply parses_obj; [done|].
    rewrite Forall_forall in IH |- *. intros kv Hkv. rewrite forallb_forall in Hp.
    apply list_elem_of_In in Hkv as Hkv'. specialize (Hp kv Hkv').
    apply andb_true_iff in Hp as [Hk Hv]. split; [done|]. by apply IH.
Qed.

(** *** The whole text *)

Lemma sanitize_ascii s : ascii_only s = true -> sanitize s = s.
Proof.
  unfold sanitize, ascii_only. induction s as [|c s IH]; intros Hs; [done|].
  cbn [str_forallb] in Hs. apply andb_true_iff in Hs as [Hc Hs].
  cbn [String.length sanitize_go]. rewrite DecodeRune_ascii by done. cbn [str_drop].
  rewrite IH by done. clear IH Hs.
  assert (EncodeRune (N_of_ascii c) = String c "") as ->; [|by rewrite str_app_cons].
  by destruct c as [[] [] [] [] [] [] [] []].
Qed.

Lemma json_escape_ascii_only c : is_ascii c = true -> ascii_only (json_escape_ascii c) = true.
Proof. by destruct c as [[] [] [] [] [] [] [] []]. Qed.

Lemma json_string_ascii s : ascii_only s = true -> ascii_only (json_string s) = true.
Proof.
  intros Hs. unfold json_string, dquote, ascii_only. cbn [str_forallb].
  rewrite str_forallb_app. apply andb_true_iff; split; [done|]. apply andb_true_iff; split; [|done].
  unfold ascii_only in Hs. induction s as [|c s IH]; [done|].
  cbn [str_forallb] in Hs. apply andb_true_iff in Hs as [Hc Hs].
  cbn [String.length json_escape_go]. rewrite Hc, str_forallb_app, IH by done.
  rewrite andb_true_r. by apply json_escape_ascii_only.
Qed.

Lemma Join_ascii l sep : Forall (fun s => ascii_only s = true) l -> ascii_only sep = true ->
  ascii_only (Join l sep) = true.
Proof.
  intros Hl Hsep. induction Hl as [|s l Hs Hl IH]; [done|].
  destruct l as [|s' l]; [done|]. unfold ascii_only in *.
  change (Join (s :: s' :: l) sep) with (s +:+ sep +:+ Join (s' :: l) sep).
  by rewrite !str_forallb_app, Hs, Hsep, IH.
Qed.

Lemma encode_ascii j : forall d, plain d j = true -> ascii_only (encode j) = true.
Proof.
  induction j as [|[]|lit|s|l IH|l IH] using json_ind'; intros d Hp; try done.
  - cbn in Hp. by apply andb_true_iff in Hp as [_ Hp].
  - by apply json_string_ascii.
  - cbn in Hp. apply andb_true_iff in Hp as [_ Hp]. cbn [encode]. unfold ascii_only.
    cbn [str_forallb]. rewrite str_forallb_app. apply andb_true_iff. split; [done|].
    apply andb_true_iff. split; [|done]. apply Join_ascii; [|done].
    apply Forall_map, Forall_forall. intros j Hj. rewrite Forall_forall in IH.
    rewrite forallb_forall in Hp. apply list_elem_of_In in Hj as Hj'. eauto.
  - cbn in Hp. apply andb_true_iff in Hp as [_ Hp]. cbn [encode]. unfold ascii_only.
    cbn [str_forallb]. rewrite str_forallb_app. apply andb_true_iff. split; [done|].
    apply andb_true_iff. split; [|done]. apply Join_ascii; [|done].
    apply Forall_map, Forall_forall. intros kv Hkv. rewrite Forall_forall in IH.
    rewrite forallb_forall in Hp. apply list_elem_of_In in Hkv as Hkv'. specialize (Hp kv Hkv').
    apply andb_true_iff in Hp as [Hk Hv].
    pose proof (json_string_ascii kv.1 Hk). pose proof (IH kv Hkv _ Hv). unfold ascii_only in *.
    rewrite !str_forallb_app. rewrite !andb_true_iff. done.
Qed.

(** [json.Unmarshal] reads back what [json.Marshal] wrote. *)
Lemma decode_encode j : plain 0 j = true -> decode (encode j) = Some j.
Proof.
  intros Hp. unfold decode. rewrite (sanitize_ascii _ (encode_ascii _ _ Hp)).
  pose proof (parse_value_encode _ _ Hp (S (String.length (encode j))) "") as E.
  rewrite str_app_nil in E. rewrite E by (done || lia). done.
Qed.
