(* ===== verification/Http.v ===== *)
(** * Requests, response writers, handlers and middlewares

    A Go handler [func(w http.ResponseWriter, r *http.Request)] is a [Handler]:
    a computation in the monad [M] below, whose state holds the response writer
    and the mutable state [S] of the closures in the chain, and which may panic.
    A middleware is a function from handlers to handlers, as in the source.

    Request values are passed on by [Request] records.  [r.WithContext(ctx)],
    [r.Header.Set(...)] and the assignments to [r.URL.RawQuery] and [r.Body] are
    record updates handed to the next handler: no handler of the gateway reads
    these fields of its own request again after it has called the next one,
    except the loggers; the metrics instrumentation is [Instrumentation.v]. *)

From stdpp Require Import base tactics option list gmap strings pretty.
From Stdlib Require Import ZArith Lia.
From S2P Require Import Prelude GoStrings Labels Url.

(** ** Headers *)

Abbreviation Header := (gmap string (list string)).

Definition header_get (h : Header) (k : string) : string := values_get h (CanonicalKey k).
Definition header_values (h : Header) (k : string) : list string := values_all h (CanonicalKey k).
Definition header_set (h : Header) (k v : string) : Header := values_set h (CanonicalKey k) v.
Definition header_add (h : Header) (k v : string) : Header := values_add h (CanonicalKey k) v.
Definition header_del (h : Header) (k : string) : Header := values_del h (CanonicalKey k).

(** ** The TLS connection

    The fields of [x509.Certificate] the gateway reads; URIs and IP addresses
    in the form their [String] methods print. *)

Record Certificate := mkCert {
  EmailAddresses : list string;
  URIs : list string;
  DNSNames : list string;
  IPAddresses : list string;
  CommonName : string;
  OrganizationalUnit : list string
}.

Record ConnectionState := mkTLS { PeerCertificates : list Certificate }.

(** ** The request context

    One field per context key; [None] when no value was stored.  The label map of
    the metrics is shared by everything that holds the context, so the context has
    a reference to it; [Instrumentation.v] keeps the maps. *)

Record Context := mkCtx {
  ctx_tenant : option string;
  ctx_subject : option string;
  ctx_groups : option (list string);
  ctx_accessToken : option string;
  ctx_data : option string;
  ctx_prefix : option string;
  ctx_matchers : option AuthzResponseData;
  ctx_extraLabels : option nat
}.

Definition background : Context := mkCtx None None None None None None None None.

Definition with_tenant (t : string) (c : Context) : Context :=
  mkCtx (Some t) (ctx_subject c) (ctx_groups c) (ctx_accessToken c) (ctx_data c)
        (ctx_prefix c) (ctx_matchers c) (ctx_extraLabels c).
Definition with_subject (s : string) (c : Context) : Context :=
  mkCtx (ctx_tenant c) (Some s) (ctx_groups c) (ctx_accessToken c) (ctx_data c)
        (ctx_prefix c) (ctx_matchers c) (ctx_extraLabels c).
Definition with_groups (g : list string) (c : Context) : Context :=
  mkCtx (ctx_tenant c) (ctx_subject c) (Some g) (ctx_accessToken c) (ctx_data c)
        (ctx_prefix c) (ctx_matchers c) (ctx_extraLabels c).
Definition with_accessToken (t : string) (c : Context) : Context :=
  mkCtx (ctx_tenant c) (ctx_subject c) (ctx_groups c) (Some t) (ctx_data c)
        (ctx_prefix c) (ctx_matchers c) (ctx_extraLabels c).
Definition with_data (d : string) (c : Context) : Context :=
  mkCtx (ctx_tenant c) (ctx_subject c) (ctx_groups c) (ctx_accessToken c) (Some d)
        (ctx_prefix c) (ctx_matchers c) (ctx_extraLabels c).
Definition with_prefix (p : string) (c : Context) : Context :=
  mkCtx (ctx_tenant c) (ctx_subject c) (ctx_groups c) (ctx_accessToken c) (ctx_data c)
        (Some p) (ctx_matchers c) (ctx_extraLabels c).
Definition with_matchers (a : AuthzResponseData) (c : Context) : Context :=
  mkCtx (ctx_tenant c) (ctx_subject c) (ctx_groups c) (ctx_accessToken c) (ctx_data c)
        (ctx_prefix c) (Some a) (ctx_extraLabels c).
Definition with_extraLabels (l : nat) (c : Context) : Context :=
  mkCtx (ctx_tenant c) (ctx_subject c) (ctx_groups c) (ctx_accessToken c) (ctx_data c)
        (ctx_prefix c) (ctx_matchers c) (Some l).

(** ** Requests *)

Record URL := mkURL { u_scheme : string; u_host : string; u_path : string; u_rawQuery : string }.

(** [r_body] is what [io.ReadAll(r.Body)] yields; [r_params] are the chi URL
    parameters of the matched route; [r_cookies] the cookies of the request. *)
Record Request := mkReq {
  r_method : string;
  r_url : URL;
  r_header : Header;
  r_body : result string;
  r_contentLength : Z;
  r_tls : option ConnectionState;
  r_ctx : Context;
  r_params : gmap string string;
  r_cookies : list (string * string)
}.

Definition set_ctx (c : Context) (r : Request) : Request :=
  mkReq (r_method r) (r_url r) (r_header r) (r_body r) (r_contentLength r) (r_tls r) c
        (r_params r) (r_cookies r).
Definition set_header (h : Header) (r : Request) : Request :=
  mkReq (r_method r) (r_url r) h (r_body r) (r_contentLength r) (r_tls r) (r_ctx r)
        (r_params r) (r_cookies r).
Definition set_url (u : URL) (r : Request) : Request :=
  mkReq (r_method r) u (r_header r) (r_body r) (r_contentLength r) (r_tls r) (r_ctx r)
        (r_params r) (r_cookies r).
Definition set_rawQuery (q : string) (r : Request) : Request :=
  set_url (mkURL (u_scheme (r_url r)) (u_host (r_url r)) (u_path (r_url r)) q) r.
Definition set_path (p : string) (r : Request) : Request :=
  set_url (mkURL (u_scheme (r_url r)) (u_host (r_url r)) p (u_rawQuery (r_url r))) r.

(** [r.Body = io.NopCloser(...)] and [r.ContentLength = int64(len(body))]. *)
Definition set_body (b : string) (r : Request) : Request :=
  mkReq (r_method r) (r_url r) (r_header r) (Ok b) (Z.of_nat (String.length b)) (r_tls r)
        (r_ctx r) (r_params r) (r_cookies r).

(** [context.WithValue] on the request's context, then [r.WithContext]. *)
Definition map_ctx (f : Context -> Context) (r : Request) : Request := set_ctx (f (r_ctx r)) r.

(** [chi.URLParam]: the empty string for an absent parameter. *)
Definition URLParam (r : Request) (k : string) : string := default "" (r_params r !! k).

(** [r.URL.Query()]. *)
Definition URL_Query (r : Request) : Values := query_values (u_rawQuery (r_url r)).

(** [r.Cookie(name)]. *)
Definition Cookie (r : Request) (name : string) : option string :=
  snd <$> head (filter (fun c => c.1 = name) (r_cookies r)).

(** ** [http.Request.ParseForm] for a POST request

    [mime.ParseMediaType] gives the lower-case media type without its parameters
    and possibly an error.  The body is parsed only under the urlencoded content
    type and up to 10 MiB; the first error of the media type, the body and the
    query string is returned. *)

Class Mime := { ParseMediaType : string -> string * option string }.

(** The media type of a content type without parameters, for concrete runs. *)
Definition plain_mime : Mime := {| ParseMediaType := fun ct => (ct, None) |}.

Definition maxFormSize : Z := 10485760.

Definition first_err (e1 e2 : option string) : option string :=
  match e1 with Some _ => e1 | None => e2 end.

Definition parsePostForm `{Mime} (r : Request) : Values * option string :=
  let ct := header_get (r_header r) "Content-Type" in
  let '(ct, err) := ParseMediaType (if String.eqb ct "" then "application/octet-stream" else ct) in
  if String.eqb ct "application/x-www-form-urlencoded" then
    match r_body r with
    | Err e => (∅, first_err err (Some e))
    | Ok b =>
        if (maxFormSize <? Z.of_nat (String.length b))%Z then (∅, Some "http: POST too large")
        else let '(v, e) := ParseQuery b in (v, first_err err e)
    end
  else (∅, err).

(** The form of the body after a successful [r.ParseForm()]. *)
Definition ParsePostForm `{Mime} (r : Request) : result Values :=
  let '(v, err) := parsePostForm r in
  match first_err err (ParseQuery (u_rawQuery (r_url r))).2 with
  | None => Ok v
  | Some e => Err e
  end.

Lemma ParsePostForm_no_empty `{Mime} r v : ParsePostForm r = Ok v -> no_empty_values v.
Proof.
  unfold ParsePostForm, parsePostForm. intros E.
  assert (forall b v' e, ParseQuery b = (v', e) -> no_empty_values v') as Hq.
  { intros b v' e Hb. pose proof (no_empty_query_values b) as Hn.
    unfold query_values in Hn. by rewrite Hb in Hn. }
  repeat case_match; simplify_eq; eauto; intros k xs; by rewrite lookup_empty.
Qed.

(** ** The response writer

    [w_sent] is the status and the header map as they were when the status line
    was written; later changes of [w_header] do not reach the client. *)

Inductive Chunk :=
  | Raw (s : string)
  | JsonMap (m : list (string * string)).

Record Writer := mkWriter {
  w_header : Header;
  w_sent : option (Z * Header);
  w_body : list Chunk
}.

Definition fresh_writer : Writer := mkWriter ∅ None [].

Record Conn (S : Type) := mkConn { conn_w : Writer; conn_st : S }.
Arguments mkConn {S} _ _.
Arguments conn_w {S} _.
Arguments conn_st {S} _.

(** ** The monad of handlers *)

Inductive flow (A : Type) := Return (a : A) | Panic (msg : string).
Arguments Return {A} a.
Arguments Panic {A} msg.

Global Instance flow_ret : MRet flow := fun A a => Return a.
Global Instance flow_bind : MBind flow := fun A B f m =>
  match m with Return a => f a | Panic msg => Panic msg end.

Lemma flow_bind_return {A B} (m : flow A) (f : A -> flow B) b :
  m ≫= f = Return b <-> exists a, m = Return a /\ f a = Return b.
Proof.
  split; [|by intros (a & -> & ?)].
  destruct m as [a|msg]; [eauto|discriminate].
Qed.

(** Code that returns an error or panics, outside of a handler. *)
Definition fallible (A : Type) : Type := flow (result A).

Global Instance fallible_ret : MRet fallible := fun A a => Return (Ok a).
Global Instance fallible_bind : MBind fallible := fun A B f m =>
  match m with
  | Return (Ok a) => f a
  | Return (Err e) => Return (Err e)
  | Panic msg => Panic msg
  end.
Definition from_result {A} (m : result A) : fallible A := Return m.
Definition wrap_fallible {A} (msg : string) (m : fallible A) : fallible A :=
  match m with Return r => Return (wrap_err msg r) | Panic p => Panic p end.

Lemma fallible_bind_ok {A B} (m : fallible A) (f : A -> fallible B) b :
  m ≫= f = Return (Ok b) <-> exists a, m = Return (Ok a) /\ f a = Return (Ok b).
Proof.
  split; [|by intros (a & -> & ?)].
  destruct m as [[a|e]|msg]; [eauto|discriminate|discriminate].
Qed.

Lemma wrap_fallible_ok {A} msg (m : fallible A) a :
  wrap_fallible msg m = Return (Ok a) <-> m = Return (Ok a).
Proof. destruct m as [[b|e]|p]; simpl; naive_solver. Qed.

Definition M (S A : Type) : Type := Conn S -> flow A * Conn S.

Global Instance M_ret S : MRet (M S) := fun A a c => (Return a, c).
Global Instance M_bind S : MBind (M S) := fun A B f m c =>
  match m c with
  | (Return a, c') => f a c'
  | (Panic msg, c') => (Panic msg, c')
  end.

Definition panic {S A} (msg : string) : M S A := fun c => (Panic msg, c).

Definition get_st {S} : M S S := fun c => (Return (conn_st c), c).
Definition put_st {S} (s : S) : M S unit := fun c => (Return tt, mkConn (conn_w c) s).

Definition mod_writer {S} (f : Writer -> Writer) : M S unit :=
  fun c => (Return tt, mkConn (f (conn_w c)) (conn_st c)).

(** [w.Header().Set(k, v)]. *)
Definition w_set {S} (k v : string) : M S unit :=
  mod_writer (fun w => mkWriter (header_set (w_header w) k v) (w_sent w) (w_body w)).

(** [w.WriteHeader(code)]: only the first call has an effect. *)
Definition write_header (code : Z) (w : Writer) : Writer :=
  match w_sent w with
  | None => mkWriter (w_header w) (Some (code, w_header w)) (w_body w)
  | Some _ => w
  end.

Definition WriteHeader {S} (code : Z) : M S unit := mod_writer (write_header code).

(** [w.Write]: writes a 200 status line first when none was written. *)
Definition Write {S} (ch : Chunk) : M S unit :=
  mod_writer (fun w => let w := write_header 200 w in
    mkWriter (w_header w) (w_sent w) (w_body w ++ [ch])).

Definition Handler (S : Type) : Type := Request -> M S unit.
Definition Middleware (S : Type) : Type := Handler S -> Handler S.

(** The status the client sees: [net/http] sends 200 when the handler returned
    without writing a status. *)
Definition response_status {S} (c : Conn S) : Z :=
  match w_sent (conn_w c) with Some (code, _) => code | None => 200 end.

(** ** [httperr.PrometheusAPIError] *)

Definition PrometheusAPIError {S} (errorMessage : string) (code : Z) : M S unit :=
  _ ← w_set "Content-Type" "application/json; charset=utf-8";
  _ ← WriteHeader code;
  Write (JsonMap [("error", errorMessage); ("errorType", "mcoa-gateway"); ("status", "error")]).

(** [http.Error]. *)
Definition http_Error {S} (msg : string) (code : Z) : M S unit :=
  _ ← mod_writer (fun w => mkWriter (header_del (w_header w) "Content-Length") (w_sent w) (w_body w));
  _ ← w_set "Content-Type" "text/plain; charset=utf-8";
  _ ← w_set "X-Content-Type-Options" "nosniff";
  _ ← WriteHeader code;
  Write (Raw (msg +:+ String (byte 10) "")).

(** ** What a middleware may do with a request

    [forwards mw r r']: the next handler is called with [r'], and nothing else
    happens before or after.  [rejects mw r code]: an API error with that status
    is written and the next handler is not called; [panics mw r]: nothing is
    written and the next handler is not called. *)

Definition forwards (mw : forall S, Middleware S) (r r' : Request) : Prop :=
  forall S (next : Handler S), mw S next r = next r'.

Definition rejects (mw : forall S, Middleware S) (r : Request) (code : Z) : Prop :=
  exists msg, forall S (next : Handler S), mw S next r = PrometheusAPIError msg code.

Definition panics (mw : forall S, Middleware S) (r : Request) : Prop :=
  exists msg, forall S (next : Handler S), mw S next r = panic msg.

Lemma PrometheusAPIError_status {S} msg code (c : Conn S) :
  w_sent (conn_w c) = None ->
  exists c', PrometheusAPIError msg code c = (Return tt, c') /\ response_status c' = code /\
             conn_st c' = conn_st c.
Proof.
  destruct c as [[h [s|] b] st]; [done|]. intros _.
  eexists. split; [reflexivity|]. done.
Qed.

(** A middleware that answers by itself, or panics, does not call the next
    handler; and the request it calls the next handler with is unique. *)
Lemma api_error_not_next msg code r :
  ~ (forall S (next : Handler S), PrometheusAPIError msg code = next r).
Proof.
  intros E. specialize (E unit (fun _ => panic "")).
  by apply (f_equal (fun h => (h (mkConn fresh_writer tt)).1)) in E.
Qed.

Lemma panic_not_next msg r : ~ (forall S (next : Handler S), panic msg = next r).
Proof.
  intros E. specialize (E unit (fun _ => mret tt)).
  by apply (f_equal (fun h => (h (mkConn fresh_writer tt)).1)) in E.
Qed.

Lemma next_inj r1 r2 : (forall S (next : Handler S), next r1 = next r2) -> r1 = r2.
Proof.
  intros E. specialize (E Request put_st).
  by apply (f_equal (fun h => conn_st (h (mkConn fresh_writer r1)).2)) in E.
Qed.

Lemma rejects_not_forwards mw r r' code : rejects mw r code -> ~ forwards mw r r'.
Proof.
  intros [msg Hr] Hf. eapply (api_error_not_next msg code r').
  intros S next. by rewrite <-(Hr S next), Hf.
Qed.

Lemma forwards_inj mw r r1 r2 : forwards mw r r1 -> forwards mw r r2 -> r1 = r2.
Proof. intros H1 H2. apply next_inj. intros S next. by rewrite <-(H1 S next), H2. Qed.

(** Composition: [chain] applies the first middleware of the list outermost,
    as [chi.Router.Use] does. *)
Fixpoint chain {S} (mws : list (Middleware S)) (h : Handler S) : Handler S :=
  match mws with
  | [] => h
  | mw :: mws => mw (chain mws h)
  end.

Lemma chain_app {S} (m1 m2 : list (Middleware S)) h :
  chain (m1 ++ m2) h = chain m1 (chain m2 h).
Proof. induction m1 as [|m m1 IH]; simpl; [done|by rewrite IH]. Qed.
