(* ===== verification/Tenant.v ===== *)
(** * Authentication: how a request gets its tenant

    [authentication/http.go], [tenant_header.go], [mtls_tenant.go], [mtls.go],
    [mtls_grpc.go] and [grpc.go]: the middlewares that put the tenant, the
    subject, the groups and the access token into the request context. *)

From stdpp Require Import base tactics option list gmap strings pretty.
From Stdlib Require Import ZArith Lia Ascii.
From S2P Require Import Prelude GoStrings Labels Url Http.

(** ** Context accessors *)

Definition GetTenant (c : Context) : option string := ctx_tenant c.
Definition GetSubject (c : Context) : option string := ctx_subject c.
Definition GetGroups (c : Context) : option (list string) := ctx_groups c.
Definition GetAccessToken (c : Context) : option string := ctx_accessToken c.

Definition DefaultTenantName : string := "__mcoa_default__".

(** [WithTenant]: the tenant of the URL parameter. *)
Definition WithTenant {S} (next : Handler S) : Handler S := fun r =>
  next (map_ctx (with_tenant (URLParam r "tenant")) r).

(** [WithAccessToken]. *)
Definition WithAccessToken {S} (next : Handler S) : Handler S := fun r =>
  let rawToken := header_get (r_header r) "Authorization" in
  let token := TrimPrefix rawToken "Bearer " in
  let proxyToken := header_get (r_header r) "X-Forwarded-Access-Token" in
  if String.eqb rawToken "" && negb (String.eqb proxyToken "") then
    let r := set_header (header_set (r_header r) "Authorization" ("Bearer " +:+ proxyToken)) r in
    next (map_ctx (with_accessToken proxyToken) r)
  else next (map_ctx (with_accessToken token) r).

(** [MiddlewareFunc]: the middleware of a tenant, if there is one. *)
Definition MiddlewareFunc (S : Type) : Type := string -> option (Middleware S).

Fixpoint first_middleware {S} (mwFns : list (MiddlewareFunc S)) (tenant : string) :
    option (Middleware S) :=
  match mwFns with
  | [] => None
  | mwFn :: mwFns =>
      match mwFn tenant with
      | Some m => Some m
      | None => first_middleware mwFns tenant
      end
  end.

(** [WithTenantMiddlewares]. *)
Definition WithTenantMiddlewares {S} (mwFns : list (MiddlewareFunc S)) (next : Handler S) :
    Handler S := fun r =>
  match GetTenant (r_ctx r) with
  | None => PrometheusAPIError "error finding tenant" 400
  | Some tenant =>
      match first_middleware mwFns tenant with
      | Some m => m next r
      | None => PrometheusAPIError "tenant not found, have you registered it?" 401
      end
  end.

(** [EnforceAccessTokenPresentOnSignalWrite]. *)
Definition EnforceAccessTokenPresentOnSignalWrite {S} (oidcTenants : gset string)
    (next : Handler S) : Handler S := fun r =>
  let tenant := URLParam r "tenant" in
  if String.eqb tenant "" then next r
  else if negb (bool_decide (tenant ∈ oidcTenants)) then next r
  else if String.eqb (header_get (r_header r) "Authorization") ""
  then PrometheusAPIError "couldn't find the authorization header" 400
  else next r.

(** ** Tenants named by a header: [tenant_header.go] *)

Module TenantHeader.

Definition maxTenantNameLength : nat := 256.
Definition maxTenants : nat := 100.

Definition tenant_char (c : ascii) : bool :=
  is_lower c || is_upper c || is_digit c || Ascii.eqb c "_" || Ascii.eqb c "-".

(** [tenantNameRegex.MatchString]: [^[a-zA-Z0-9_-]+$] matches the whole text. *)
Definition tenantNameRegex (s : string) : bool :=
  negb (String.eqb s "") && str_forallb tenant_char s.

(** The two nested loops that flatten the header values. *)
Definition add_part (ts : list string) (part : string) : list string :=
  let tenant := TrimSpace part in
  if negb (String.eqb tenant "") then ts ++ [tenant] else ts.

Definition collect_tenants (tenantValues : list string) : list string :=
  foldl (fun ts value => foldl add_part ts (Split "|" value)) [] tenantValues.

(** The validation loop; [Some msg] when it returns with an error. *)
Fixpoint validate_tenants (seen : gset string) (tenants : list string) : option string :=
  match tenants with
  | [] => None
  | tenant :: tenants =>
      if (maxTenantNameLength <? String.length tenant)%nat then
        Some ("tenant name too long (max " +:+ pretty maxTenantNameLength
              +:+ " characters): " +:+ tenant)
      else if negb (tenantNameRegex tenant) then
        Some ("invalid tenant name '" +:+ tenant +:+ "' (allowed: a-z, A-Z, 0-9, _, -)")
      else if bool_decide (tenant ∈ seen) then
        Some ("duplicate tenant name: " +:+ tenant)
      else validate_tenants ({[tenant]} ∪ seen) tenants
  end.

(** [WithTenantFromHeader]. *)
Definition WithTenantFromHeader (tenantHeader : string) {S} (next : Handler S) : Handler S :=
  fun r =>
  let tenantValues := header_values (r_header r) tenantHeader in
  if (length tenantValues =? 0)%nat then
    PrometheusAPIError ("tenant header '" +:+ tenantHeader +:+ "' is required") 400
  else
    let tenants := collect_tenants tenantValues in
    if (length tenants =? 0)%nat then
      PrometheusAPIError "empty tenant name not allowed" 400
    else if (maxTenants <? length tenants)%nat then
      PrometheusAPIError ("too many tenants (max " +:+ pretty maxTenants +:+ ")") 400
    else
      match validate_tenants ∅ tenants with
      | Some msg => PrometheusAPIError msg 400
      | None => next (map_ctx (with_tenant (Join tenants "|")) r)
      end.

(** [WithTenantFromURLParam]: the header of the cloned request is replaced. *)
Definition WithTenantFromURLParam (paramName tenantHeader : string) {S} (next : Handler S) :
    Handler S := fun r =>
  let tenant := URLParam r paramName in
  if String.eqb tenant "" then PrometheusAPIError "tenant is required" 400
  else WithTenantFromHeader tenantHeader next
         (set_header (header_set (r_header r) tenantHeader tenant) r).

(** [WithOptionalTenantFromHeader]. *)
Definition WithOptionalTenantFromHeader (tenantHeader : string) {S} (next : Handler S) :
    Handler S := fun r =>
  let tenant := header_get (r_header r) tenantHeader in
  if negb (String.eqb tenant "") then next (map_ctx (with_tenant tenant) r)
  else next r.

(** What the gateway promises about the tenants of a request. *)
Definition valid_tenant (t : string) : Prop :=
  (0 < String.length t <= maxTenantNameLength)%nat /\ str_forallb tenant_char t = true.

Definition valid_tenants (ts : list string) : Prop :=
  (0 < length ts <= maxTenants)%nat /\ Forall valid_tenant ts /\ NoDup ts.

Lemma tenantNameRegex_spec t :
  tenantNameRegex t = true <-> (0 < String.length t)%nat /\ str_forallb tenant_char t = true.
Proof.
  unfold tenantNameRegex. rewrite andb_true_iff, negb_true_iff, String.eqb_neq.
  destruct t; simpl; intuition (try done; lia).
Qed.

Lemma validate_tenants_spec seen ts :
  validate_tenants seen ts = None <->
  Forall valid_tenant ts /\ NoDup ts /\ Forall (fun t => t ∉ seen) ts.
Proof.
  revert seen. induction ts as [|t ts IH]; intros seen; simpl.
  { split; [by repeat constructor|done]. }
  rewrite NoDup_cons, !Forall_cons. unfold valid_tenant at 1.
  destruct (Nat.ltb_spec maxTenantNameLength (String.length t)) as [Hl|Hl].
  { split; [done|]. lia. }
  destruct (tenantNameRegex t) eqn:Hre; simpl; cycle 1.
  { split; [done|]. intros [[[? ?] ?] ?]. exfalso.
    assert (tenantNameRegex t = true) by (apply tenantNameRegex_spec; split; [lia|done]).
    congruence. }
  apply tenantNameRegex_spec in Hre as [Hpos Hch].
  case_bool_decide as Hin.
  { split; [done|]. naive_solver. }
  rewrite IH. split.
  - intros (? & ? & Hs). split_and!; try done; try lia.
    + intros Ht. rewrite Forall_forall in Hs. apply (Hs t); [done|set_solver].
    + eapply Forall_impl; [done|]. set_solver.
  - intros ([[? ?] ?] & [Ht ?] & _ & Hs). split_and!; try done.
    rewrite Forall_forall in Hs |- *. intros u Hu. specialize (Hs u Hu). set_solver.
Qed.

Lemma valid_tenants_iff ts :
  (0 < length ts)%nat ->
  (length ts <= maxTenants)%nat /\ validate_tenants ∅ ts = None <-> valid_tenants ts.
Proof.
  intros Hpos. unfold valid_tenants. rewrite validate_tenants_spec.
  assert (Forall (fun t => t ∉ (∅ : gset string)) ts) by (apply Forall_true; set_solver).
  intuition.
Qed.

(** A valid tenant name survives every later transformation: it holds no
    separator, no white space, no regular expression metacharacter and only
    ASCII bytes. *)
Lemma tenant_char_lacks_pipe c : tenant_char c = true -> negb (Ascii.eqb c "|") = true.
Proof. destruct c as [[] [] [] [] [] [] [] []]; vm_compute; done. Qed.
Lemma tenant_char_no_space c : tenant_char c = true -> no_space_byte c = true.
Proof. destruct c as [[] [] [] [] [] [] [] []]; vm_compute; done. Qed.
Lemma tenant_char_no_meta c : tenant_char c = true -> negb (mem_char c regexp_special) = true.
Proof. destruct c as [[] [] [] [] [] [] [] []]; vm_compute; done. Qed.
Lemma tenant_char_ascii c : tenant_char c = true -> is_ascii c = true.
Proof. destruct c as [[] [] [] [] [] [] [] []]; vm_compute; done. Qed.

Lemma valid_tenant_facts t : valid_tenant t ->
  t <> "" /\ lacks "|" t = true /\ TrimSpace t = t /\ QuoteMeta t = t /\ ascii_only t = true.
Proof.
  intros [Hl Hc]. split_and!.
  - by intros ->; simpl in Hl; lia.
  - revert Hc. apply str_forallb_impl, tenant_char_lacks_pipe.
  - apply TrimSpace_id. revert Hc. apply str_forallb_impl, tenant_char_no_space.
  - apply QuoteMeta_id. revert Hc. apply str_forallb_impl, tenant_char_no_meta.
  - revert Hc. apply str_forallb_impl, tenant_char_ascii.
Qed.

Lemma valid_tenants_lack ts :
  Forall valid_tenant ts -> Forall (fun t => lacks "|" t = true) ts.
Proof. intros H. eapply Forall_impl; [done|]. intros t Ht. by apply valid_tenant_facts. Qed.

Lemma Split_valid_tenants ts : valid_tenants ts -> Split "|" (Join ts "|") = ts.
Proof.
  intros (Hl & Hv & _). apply Split_Join; [by destruct ts; simpl in *; [lia|]|].
  by apply valid_tenants_lack.
Qed.

End TenantHeader.

(** ** Tenants of client certificates: [mtls_tenant.go] and [mtls_grpc.go] *)

Module MTLSTenant.

(** [MTLSTenantExtractor.Middleware], [WithMTLSTenantExtraction]. *)
Definition WithMTLSTenantExtraction (tenantHeader : string) {S} (next : Handler S) :
    Handler S := fun r =>
  match r_tls r with
  | None => PrometheusAPIError "TLS connection required" 401
  | Some tls =>
      match PeerCertificates tls with
      | [] => PrometheusAPIError "client certificate required" 401
      | cert :: _ =>
          match OrganizationalUnit cert with
          | [] => PrometheusAPIError "tenant not found in certificate OU" 400
          | tenant :: _ =>
              let r := set_header (header_set (r_header r) tenantHeader tenant) r in
              next (map_ctx (with_tenant tenant) r)
          end
      end
  end.

(** *** gRPC

    The context of a stream: the values of the HTTP context, the peer (whose
    [AuthInfo] is a [credentials.TLSInfo] or something else) and the incoming
    metadata, whose keys [metadata.MD] keeps in lower case. *)

Inductive Code :=
  | Unknown | InvalidArgument | PermissionDenied | Unimplemented | Internal | Unauthenticated.

Definition Status : Type := option (Code * string).

Abbreviation MD := (gmap string (list string)).

Record GrpcCtx := mkGrpcCtx {
  g_ctx : Context;
  g_peer : option (option ConnectionState);
  g_md : option MD
}.

Definition StreamHandler : Type := GrpcCtx -> Status.
Definition Interceptor : Type := GrpcCtx -> StreamHandler -> Status.

Definition lower (s : string) : string :=
  String.string_of_list_ascii (to_lower <$> String.list_ascii_of_string s).

Definition md_set (md : MD) (k v : string) : MD := <[lower k := [v]]> md.
Definition md_get (md : MD) (k : string) : list string := default [] (md !! lower k).

(** [WithGRPCMTLSTenantExtraction]. *)
Definition WithGRPCMTLSTenantExtraction (tenantHeader : string) : Interceptor :=
  fun ctx handler =>
  match g_peer ctx with
  | None => Some (Unauthenticated, "no peer information")
  | Some None => Some (Unauthenticated, "TLS connection required")
  | Some (Some tlsInfo) =>
      match PeerCertificates tlsInfo with
      | [] => Some (Unauthenticated, "client certificate required")
      | cert :: _ =>
          match OrganizationalUnit cert with
          | [] => Some (InvalidArgument, "tenant not found in certificate OU")
          | tenant :: _ =>
              let md := default ∅ (g_md ctx) in
              handler (mkGrpcCtx (with_tenant tenant (g_ctx ctx)) (g_peer ctx)
                                 (Some (md_set md tenantHeader tenant)))
          end
      end
  end.

(** [grpc_middleware_auth.StreamServerInterceptor]: runs the handler in the
    context the function returns, or returns its error. *)
Definition AuthInterceptor (f : GrpcCtx -> GrpcCtx * Status) : Interceptor :=
  fun ctx handler =>
  match f ctx with
  | (_, Some e) => Some e
  | (ctx, None) => handler ctx
  end.

Definition g_map_ctx (f : Context -> Context) (c : GrpcCtx) : GrpcCtx :=
  mkGrpcCtx (f (g_ctx c)) (g_peer c) (g_md c).

(** [WithGRPCAccessToken]: the last authorization value, from its last space. *)
Definition WithGRPCAccessToken : Interceptor :=
  AuthInterceptor (fun ctx =>
    match g_md ctx with
    | None => (ctx, Some (Internal, "metadata error"))
    | Some md =>
        match last (default [] (md !! "authorization")) with
        | None => (ctx, Some (Unauthenticated, "error no access token"))
        | Some rawToken =>
            (g_map_ctx (with_accessToken (after_last " " rawToken)) ctx, None)
        end
    end).

(** [WithGRPCTenantInterceptors]. *)
Fixpoint first_interceptor (mwFns : list (string -> option Interceptor)) (tenant : string) :
    option Interceptor :=
  match mwFns with
  | [] => None
  | mwFn :: mwFns =>
      match mwFn tenant with
      | Some m => Some m
      | None => first_interceptor mwFns tenant
      end
  end.

Definition WithGRPCTenantInterceptors (mwFns : list (string -> option Interceptor)) :
    Interceptor := fun ctx handler =>
  match GetTenant (g_ctx ctx) with
  | None => Some (InvalidArgument, "error finding tenant")
  | Some tenant =>
      match first_interceptor mwFns tenant with
      | Some m => m ctx handler
      | None => Some (PermissionDenied, "tenant not found, have you registered it?")
      end
  end.

End MTLSTenant.

(** ** The mTLS authenticator: [mtls.go] *)

Module MTLSAuth.
Import MTLSTenant.

(** The subject of a certificate, by the [switch] of [Middleware]. *)
Definition cert_subject (cert : Certificate) : option string :=
  match EmailAddresses cert, URIs cert, DNSNames cert, IPAddresses cert with
  | e :: _, _, _, _ => Some e
  | [], u :: _, _, _ => Some u
  | [], [], d :: _, _ => Some d
  | [], [], [], i :: _ => Some i
  | [], [], [], [] => if negb (String.eqb (CommonName cert) "") then Some (CommonName cert) else None
  end.

(** [MTLSAuthenticator.Middleware]. *)
Definition MTLS_Middleware {S} (next : Handler S) : Handler S := fun r =>
  match r_tls r with
  | None => PrometheusAPIError "TLS connection required" 401
  | Some tls =>
      match PeerCertificates tls with
      | [] => PrometheusAPIError "client certificate required" 401
      | cert :: _ =>
          match cert_subject cert with
          | None => PrometheusAPIError "could not determine subject from certificate" 400
          | Some sub =>
              next (map_ctx (fun c => with_groups (OrganizationalUnit cert) (with_subject sub c)) r)
          end
      end
  end.

(** [MTLSAuthenticator.GRPCMiddleware]. *)
Definition MTLS_GRPCMiddleware : Interceptor :=
  AuthInterceptor (fun ctx => (ctx, Some (Unimplemented, "mTLS authentication not implemented for gRPC"))).

End MTLSAuth.

(** ** Properties *)

Import TenantHeader MTLSTenant MTLSAuth.

(** Both forms the header may take: the tenants of all values, split at the
    pipes, trimmed, and the empty ones dropped. *)
Lemma collect_tenants_concat vs :
  collect_tenants vs =
  concat ((fun v => filter (fun t => t <> "") (TrimSpace <$> Split "|" v)) <$> vs).
Proof.
  unfold collect_tenants.
  assert (forall parts ts, foldl add_part ts parts =
            ts ++ filter (fun t => t <> "") (TrimSpace <$> parts)) as Hinner.
  { induction parts as [|p ps IH]; intros ts; simpl; [by rewrite app_nil_r|].
    rewrite IH. unfold add_part. destruct (String.eqb_spec (TrimSpace p) "") as [E|E]; simpl.
    - rewrite filter_cons_False; [done|]. intros Hn. by apply Hn.
    - rewrite filter_cons_True by done. by rewrite <-app_assoc. }
  assert (forall ts, foldl (fun ts value => foldl add_part ts (Split "|" value)) ts vs =
            ts ++ concat ((fun v => filter (fun t => t <> "") (TrimSpace <$> Split "|" v)) <$> vs))
    as Houter; [|apply Houter].
  induction vs as [|v vs IH]; intros ts; simpl; [by rewrite app_nil_r|].
  by rewrite IH, Hinner, <-app_assoc.
Qed.

Lemma tenant_header_facts (h : string) (r : Request) :
  let ts := collect_tenants (header_values (r_header r) h) in
  (valid_tenants ts ->
     forwards (@WithTenantFromHeader h) r (map_ctx (with_tenant (Join ts "|")) r)) /\
  (~ valid_tenants ts -> rejects (@WithTenantFromHeader h) r 400).
Proof.
  intros ts. unfold forwards, rejects, WithTenantFromHeader. fold ts.
  destruct (Nat.eqb_spec (length (header_values (r_header r) h)) 0) as [Hv|Hv].
  { apply nil_length_inv in Hv. unfold ts. rewrite Hv.
    split; [intros ([Hpos _] & _); vm_compute in Hpos; lia|]. intros _. by eexists. }
  clearbody ts. clear Hv.
  destruct (Nat.eqb_spec (length ts) 0) as [Hl|Hl].
  { split; [intros ([Hpos _] & _); lia|]. intros _. by eexists. }
  assert (0 < length ts)%nat as Hpos by lia.
  pose proof (valid_tenants_iff ts Hpos) as Hiff.
  destruct (Nat.ltb_spec maxTenants (length ts)).
  { split; [intros Hv; apply Hiff in Hv; lia|]. intros _. by eexists. }
  destruct (validate_tenants ∅ ts) as [msg|] eqn:Hval.
  { split; [intros Hv; apply Hiff in Hv; naive_solver|]. intros _. by eexists. }
  split; [done|]. intros Hn. exfalso. apply Hn, Hiff. split; [lia|done].
Qed.

(** C19: tenant header validation is exact.  The request is passed on precisely
    when the tenants collected from the header values are between one and a
    hundred distinct names of 1 to 256 characters from [a-zA-Z0-9_-]; the
    context then carries the names joined by pipes and nothing else of the
    request changes.  In every other case the answer is 400 and the next
    handler is not called. *)
Theorem tenant_header_validation (h : string) (r : Request) :
  let ts := collect_tenants (header_values (r_header r) h) in
  (valid_tenants ts ->
     forwards (@WithTenantFromHeader h) r (map_ctx (with_tenant (Join ts "|")) r)) /\
  (~ valid_tenants ts -> rejects (@WithTenantFromHeader h) r 400).
Proof. apply tenant_header_facts. Qed.

(** The tenant a client certificate names: the first organizational unit of the
    leaf certificate. *)
Definition cert_tenant (tls : option ConnectionState) : option string :=
  tls ← tls; cert ← head (PeerCertificates tls); head (OrganizationalUnit cert).

(** The two outcomes of the extraction. *)
Lemma extraction_forwards h r ou : cert_tenant (r_tls r) = Some ou ->
  forwards (@WithMTLSTenantExtraction h) r
    (map_ctx (with_tenant ou) (set_header (header_set (r_header r) h ou) r)).
Proof.
  unfold cert_tenant, forwards, WithMTLSTenantExtraction.
  destruct (r_tls r) as [[[|cert certs]]|]; simpl; [done| |done].
  by destruct (OrganizationalUnit cert); [|intros [= ->]].
Qed.

Lemma extraction_rejects h r : cert_tenant (r_tls r) = None ->
  rejects (@WithMTLSTenantExtraction h) r 401 \/ rejects (@WithMTLSTenantExtraction h) r 400.
Proof.
  unfold cert_tenant, rejects, WithMTLSTenantExtraction.
  destruct (r_tls r) as [[[|cert certs]]|]; simpl; [left; by eexists| |left; by eexists].
  destruct (OrganizationalUnit cert); [right; by eexists|done].
Qed.

Lemma header_values_set (h v : string) (H : Header) : header_values (header_set H h v) h = [v].
Proof. unfold header_values, header_set, values_all, values_set. by rewrite lookup_insert_eq. Qed.

(** C20: on the write path the tenant is the first organizational unit of the
    client certificate and nothing the client sends in the request.  With such a
    certificate the next handler sees that tenant in the context, and the tenant
    header holds exactly that value, whatever values the client put there;
    method, URL and body are untouched.  Without one the request is refused
    with 401 or 400. *)
Theorem mtls_tenant_extraction (h : string) (r : Request) :
  match cert_tenant (r_tls r) with
  | Some ou => exists r',
      forwards (@WithMTLSTenantExtraction h) r r' /\
      GetTenant (r_ctx r') = Some ou /\
      header_values (r_header r') h = [ou] /\
      r_method r' = r_method r /\ r_url r' = r_url r /\ r_body r' = r_body r
  | None => rejects (@WithMTLSTenantExtraction h) r 401 \/
            rejects (@WithMTLSTenantExtraction h) r 400
  end.
Proof.
  destruct (cert_tenant (r_tls r)) as [ou|] eqn:E; [|by apply extraction_rejects].
  eexists. split; [by apply extraction_forwards|]. split_and!; try done. apply header_values_set.
Qed.

(** The gRPC interceptor makes the same decision as the HTTP middleware:
    the certificate's tenant goes into the context and replaces any metadata the
    client sent under the tenant header; without a certificate tenant the handler
    is never run. *)
Theorem grpc_mtls_tenant_extraction (h : string) (ctx : GrpcCtx) :
  match cert_tenant (default None (g_peer ctx)) with
  | Some ou => exists ctx',
      (forall handler, WithGRPCMTLSTenantExtraction h ctx handler = handler ctx') /\
      GetTenant (g_ctx ctx') = Some ou /\
      md_get (default ∅ (g_md ctx')) h = [ou]
  | None => exists e, forall handler, WithGRPCMTLSTenantExtraction h ctx handler = Some e
  end.
Proof.
  unfold cert_tenant, WithGRPCMTLSTenantExtraction.
  destruct (g_peer ctx) as [[[[|cert certs]]|]|]; simpl; try by eexists.
  destruct (OrganizationalUnit cert) as [|ou ous]; simpl; [by eexists|].
  eexists. split; [reflexivity|]. split; [done|].
  unfold md_get, md_set. simpl. by rewrite lookup_insert_eq.
Qed.

(** The tenant of a URL parameter is validated like a header and replaces
    whatever the client sent as the tenant header: the request is passed on
    exactly when the parameter names valid tenants, and the upstream sees the
    parameter as the only value of the header. *)
Theorem url_param_tenant (p h : string) (r : Request) :
  let ts := collect_tenants [URLParam r p] in
  let r' := set_header (header_set (r_header r) h (URLParam r p)) r in
  (valid_tenants ts ->
     forwards (@WithTenantFromURLParam p h) r (map_ctx (with_tenant (Join ts "|")) r')) /\
  (~ valid_tenants ts -> rejects (@WithTenantFromURLParam p h) r 400) /\
  header_values (r_header r') h = [URLParam r p].
Proof.
  intros ts r'.
  assert (header_values (r_header r') h = [URLParam r p]) as Hh.
  { unfold header_values, r', header_set, values_all, values_set. simpl.
    by rewrite lookup_insert_eq. }
  pose proof (tenant_header_facts h r') as [Hf Hr]. rewrite Hh in Hf, Hr. fold ts in Hf, Hr.
  unfold forwards, rejects, WithTenantFromURLParam. fold r'. split_and!; [| |done].
  - intros Hv S next. destruct (String.eqb_spec (URLParam r p) "") as [E|E].
    + exfalso. destruct Hv as ([Hpos _] & _). unfold ts in Hpos. rewrite E in Hpos.
      vm_compute in Hpos. lia.
    + by apply Hf.
  - intros Hv. destruct (String.eqb_spec (URLParam r p) "") as [E|E].
    + by eexists.
    + by apply Hr.
Qed.
