(* ===== verification/Authz.v ===== *)
(** * Authorization: from the tenants of a request to label matchers

    [authorization/http.go], [authz.go] and [tenant.go].  [WithTenantLabel]
    turns the tenant string of the context into one label matcher and stores it
    as JSON in the context, where the label enforcers of the APIs read it. *)

From stdpp Require Import base tactics option list gmap strings pretty.
From Stdlib Require Import ZArith Lia Ascii.
From S2P Require Import Prelude GoStrings Labels Url Strconv Json Http Tenant.

(** [WithData] and [GetData]. *)
Definition WithData (c : Context) (data : string) : Context := with_data data c.
Definition GetData (c : Context) : option string := ctx_data c.

(** ** The JSON form of [AuthzResponseData]

    [labels.Matcher] has the exported fields [Type] (an integer), [Name] and
    [Value]; both fields of [AuthzResponseData] are [omitempty]. *)

Definition match_type_int (t : MatchType) : string :=
  match t with
  | MatchEqual => "0" | MatchNotEqual => "1" | MatchRegexp => "2" | MatchNotRegexp => "3"
  end.

Definition matcher_json (m : Matcher) : json :=
  JObj [("Type", JNum (match_type_int (m_type m))); ("Name", JStr (m_name m));
        ("Value", JStr (m_value m))].

Definition authz_json (d : AuthzResponseData) : json :=
  JObj ((if (length (ad_matchers d) =? 0)%nat then []
         else [("matchers", JArr (map matcher_json (ad_matchers d)))]) ++
        (if String.eqb (ad_matcherOp d) "" then []
         else [("matcherOp", JStr (ad_matcherOp d))])).

Definition Marshal (d : AuthzResponseData) : result string := Ok (encode (authz_json d)).

(** Struct fields are found by their name up to case folding: ASCII letters,
    the long s (U+017F) and the Kelvin sign (U+212A). *)
Fixpoint fold_name (s : string) : string :=
  match s with
  | EmptyString => EmptyString
  | String a s1 =>
      match s1 with
      | String b s2 =>
          if (N_of_ascii a =? 197)%N && (N_of_ascii b =? 191)%N then String "s" (fold_name s2)
          else match s2 with
            | String c s3 =>
                if (N_of_ascii a =? 226)%N && (N_of_ascii b =? 132)%N && (N_of_ascii c =? 170)%N
                then String "k" (fold_name s3)
                else String (to_lower a) (fold_name s1)
            | EmptyString => String (to_lower a) (fold_name s1)
            end
      | EmptyString => String (to_lower a) ""
      end
  end.

Definition is_field (name key : string) : bool := String.eqb (fold_name key) (fold_name name).

(** Decoding into the fields.  [null] leaves a field as it is, unknown members
    are skipped, a repeated member overrides.  A matcher that is [null] or has a
    type outside the four operators is refused here; the text the enforcers
    decode is what [WithTenantLabel] encoded, which has neither. *)
Definition json_type_err {A} : result A := Err "json: cannot unmarshal".

Definition set_string (j : json) (old : string) : result string :=
  match j with JStr s => Ok s | JNull => Ok old | _ => json_type_err end.

Definition set_match_type (j : json) (old : MatchType) : result MatchType :=
  match j with
  | JNum lit =>
      if String.eqb lit "0" || String.eqb lit "-0" then Ok MatchEqual
      else if String.eqb lit "1" then Ok MatchNotEqual
      else if String.eqb lit "2" then Ok MatchRegexp
      else if String.eqb lit "3" then Ok MatchNotRegexp
      else json_type_err
  | JNull => Ok old
  | _ => json_type_err
  end.

Definition set_matcher_field (m : result Matcher) (kv : string * json) : result Matcher :=
  m ← m;
  if is_field "Type" kv.1 then
    t ← set_match_type kv.2 (m_type m); Ok (mkMatcher t (m_name m) (m_value m))
  else if is_field "Name" kv.1 then
    n ← set_string kv.2 (m_name m); Ok (mkMatcher (m_type m) n (m_value m))
  else if is_field "Value" kv.1 then
    v ← set_string kv.2 (m_value m); Ok (mkMatcher (m_type m) (m_name m) v)
  else Ok m.

Definition json_matcher (j : json) : result Matcher :=
  match j with
  | JObj l => foldl set_matcher_field (Ok (mkMatcher MatchEqual "" "")) l
  | _ => json_type_err
  end.

Definition set_authz_field (d : result AuthzResponseData) (kv : string * json) :
    result AuthzResponseData :=
  d ← d;
  if is_field "matchers" kv.1 then
    match kv.2 with
    | JArr l => ms ← traverse json_matcher l; Ok (mkAuthz ms (ad_matcherOp d))
    | JNull => Ok (mkAuthz [] (ad_matcherOp d))
    | _ => json_type_err
    end
  else if is_field "matcherOp" kv.1 then
    op ← set_string kv.2 (ad_matcherOp d); Ok (mkAuthz (ad_matchers d) op)
  else Ok d.

Definition Unmarshal (data : string) : result AuthzResponseData :=
  match decode data with
  | None => Err "invalid JSON"
  | Some (JObj l) => foldl set_authz_field (Ok (mkAuthz [] "")) l
  | Some JNull => Ok (mkAuthz [] "")
  | Some _ => json_type_err
  end.

(** ** [WithTenantLabel] *)

Definition quote_tenant (t : string) : result string :=
  let t := TrimSpace t in
  if String.eqb t "" then Err "empty tenant name not allowed" else Ok (QuoteMeta t).

Definition tenant_matchers (tenantLabelName tenant : string) : result (list Matcher) :=
  tenants ← traverse quote_tenant (Split "|" tenant);
  Ok (if (length tenants =? 1)%nat then
        let originalTenant := TrimSpace (default "" (head (Split "|" tenant))) in
        [mkMatcher MatchEqual tenantLabelName originalTenant]
      else [mkMatcher MatchRegexp tenantLabelName (Join tenants "|")]).

(** The constructor panics on an empty label name. *)
Definition WithTenantLabel {S} (tenantLabelName : string) : flow (Middleware S) :=
  if String.eqb tenantLabelName "" then Panic "tenantLabelName cannot be empty"
  else Return (fun next r =>
    match GetTenant (r_ctx r) with
    | None => PrometheusAPIError "error finding tenant in request context" 400
    | Some tenant =>
        match tenant_matchers tenantLabelName tenant with
        | Err e => PrometheusAPIError e 400
        | Ok matchers =>
            match Marshal (mkAuthz matchers "") with
            | Err _ => PrometheusAPIError "error encoding tenant matchers" 500
            | Ok matchersJSON => next (map_ctx (fun c => WithData c matchersJSON) r)
            end
        end
    end).

(** ** Lemmas *)

Definition ascii_matcher (m : Matcher) : Prop :=
  ascii_only (m_name m) = true /\ ascii_only (m_value m) = true.

Lemma json_matcher_json m : json_matcher (matcher_json m) = Ok m.
Proof. by destruct m as [[] n v]. Qed.

Lemma traverse_matcher_json ms : traverse json_matcher (map matcher_json ms) = Ok ms.
Proof.
  induction ms as [|m ms IH]; [done|]. cbn [map traverse]. by rewrite json_matcher_json, IH.
Qed.

Lemma authz_json_plain d :
  Forall ascii_matcher (ad_matchers d) -> ascii_only (ad_matcherOp d) = true ->
  plain 0 (authz_json d) = true.
Proof.
  intros Hm Hop. unfold authz_json. cbn [plain].
  rewrite forallb_app, !andb_true_iff. split_and!; [done| |].
  - destruct (_ =? 0)%nat; [done|]. cbn [forallb fst snd]. rewrite andb_true_r.
    cbn [plain]. rewrite !andb_true_iff. split_and!; try done.
    apply forallb_forall. intros j Hj. apply in_map_iff in Hj as (m & <- & Hin).
    apply list_elem_of_In in Hin. rewrite Forall_forall in Hm.
    destruct (Hm m Hin) as [Hn Hv]. destruct m as [t n v]. cbn [m_name m_value] in *.
    unfold matcher_json. cbn [plain forallb fst snd m_name m_value m_type].
    rewrite Hn, Hv. by destruct t.
  - destruct (String.eqb _ _); [done|]. cbn [forallb fst snd plain]. by rewrite Hop.
Qed.

(** The enforcers read back the data that was stored. *)
Lemma Unmarshal_Marshal d data :
  Forall ascii_matcher (ad_matchers d) -> ascii_only (ad_matcherOp d) = true ->
  Marshal d = Ok data -> Unmarshal data = Ok d.
Proof.
  intros Hm Hop E. assert (data = encode (authz_json d)) as -> by (unfold Marshal in E; congruence).
  unfold Unmarshal. rewrite decode_encode by by apply authz_json_plain.
  destruct d as [ms op]. unfold authz_json. cbn [ad_matchers ad_matcherOp].
  rewrite foldl_app. destruct ms as [|m ms]; cbn [length Nat.eqb foldl].
  - destruct (String.eqb_spec op "") as [->|]; done.
  - unfold set_authz_field at 2. cbn [fst snd mbind result_bind].
    change (is_field "matchers" "matchers") with true. cbv iota.
    rewrite traverse_matcher_json. cbn [mbind result_bind].
    destruct (String.eqb_spec op "") as [->|]; done.
Qed.

Lemma Marshal_nonempty d data : Marshal d = Ok data -> data <> "".
Proof. by intros [= <-]. Qed.

(** The matcher built for a list of valid tenants accepts these tenants only. *)
Definition tenant_matcher (lbl : string) (ts : list string) : Matcher :=
  match ts with
  | [t] => mkMatcher MatchEqual lbl t
  | _ => mkMatcher MatchRegexp lbl (Join (QuoteMeta <$> ts) "|")
  end.

Import TenantHeader.

Lemma traverse_quote_valid ts : Forall valid_tenant ts ->
  traverse quote_tenant ts = Ok (QuoteMeta <$> ts).
Proof.
  induction 1 as [|t ts Ht Hts IH]; [done|]. cbn [traverse]. rewrite IH.
  destruct (valid_tenant_facts t Ht) as (Hne & _ & Htr & _ & _).
  unfold quote_tenant. rewrite Htr. by rewrite (proj2 (String.eqb_neq t "") Hne).
Qed.

Lemma tenant_matchers_valid lbl ts : valid_tenants ts ->
  tenant_matchers lbl (Join ts "|") = Ok [tenant_matcher lbl ts].
Proof.
  intros Hts. unfold tenant_matchers. rewrite Split_valid_tenants by done.
  destruct Hts as ([Hpos _] & Hv & _). rewrite traverse_quote_valid by done. simpl.
  destruct ts as [|t [|t' ts]]; [simpl in Hpos; lia| |done].
  rewrite Forall_singleton in Hv. simpl. destruct (valid_tenant_facts t Hv) as (_ & _ & -> & _). done.
Qed.

Lemma tenant_matcher_ascii lbl ts : ascii_only lbl = true -> Forall valid_tenant ts ->
  ascii_matcher (tenant_matcher lbl ts).
Proof.
  intros Hl Hv. split; [by destruct ts as [|? [|? ?]]|].
  assert (Forall (fun s => ascii_only s = true) (QuoteMeta <$> ts)) as Hq.
  { apply Forall_fmap. eapply Forall_impl; [done|]. intros t Ht. simpl.
    by destruct (valid_tenant_facts t Ht) as (_ & _ & _ & -> & ?). }
  destruct ts as [|t [|t' ts]]; [done| |by apply Join_ascii].
  rewrite Forall_singleton in Hv. by destruct (valid_tenant_facts t Hv) as (_ & _ & _ & _ & ?).
Qed.

Lemma tenant_matcher_exact `{RegexEngine} lbl ts v : ts <> [] -> Forall valid_tenant ts ->
  Matches (tenant_matcher lbl ts) v = true <-> v ∈ ts.
Proof.
  intros Hne Hv. unfold tenant_matcher.
  assert (Forall (fun t => ascii_only t = true) ts) as Ha.
  { eapply Forall_impl; [done|]. intros t Ht. by destruct (valid_tenant_facts t Ht) as (_ & _ & _ & _ & ?). }
  destruct ts as [|t [|t' ts]]; [done| |].
  - unfold Matches. cbn [m_type m_value]. rewrite bool_decide_eq_true. set_solver.
  - unfold Matches. cbn [m_type m_value]. by apply re_literal_matches, literal_quoted_tenants.
Qed.

Lemma tenant_matcher_compiles `{RegexEngine} lbl ts : ts <> [] -> Forall valid_tenant ts ->
  let m := tenant_matcher lbl ts in NewMatcher (m_type m) (m_name m) (m_value m) = Ok m.
Proof.
  intros Hne Hv. unfold tenant_matcher.
  assert (Forall (fun t => ascii_only t = true) ts) as Ha.
  { eapply Forall_impl; [done|]. intros t Ht. by destruct (valid_tenant_facts t Ht) as (_ & _ & _ & _ & ?). }
  destruct ts as [|t [|t' ts]]; [done|done|]. simpl.
  by rewrite (re_literal_compiles _ _ (literal_quoted_tenants _ Hne Ha)).
Qed.

Lemma tenant_label_forwards lbl ts r : lbl <> "" -> ascii_only lbl = true -> valid_tenants ts ->
  GetTenant (r_ctx r) = Some (Join ts "|") ->
  exists data, Unmarshal data = Ok (mkAuthz [tenant_matcher lbl ts] "") /\ data <> "" /\
    forall S, exists mw, @WithTenantLabel S lbl = Return mw /\
      forall next, mw next r = next (map_ctx (fun c => WithData c data) r).
Proof.
  intros Hne Hl Hts Ht. eexists (encode (authz_json (mkAuthz [tenant_matcher lbl ts] ""))).
  split_and!.
  - eapply Unmarshal_Marshal; [..|reflexivity]; [|done]. apply Forall_singleton.
    apply tenant_matcher_ascii; [done|by destruct Hts as (_ & ? & _)].
  - by eapply Marshal_nonempty.
  - intros S. unfold WithTenantLabel. rewrite (proj2 (String.eqb_neq lbl "") Hne).
    eexists. split; [reflexivity|]. intros next. cbv beta.
    by rewrite Ht, tenant_matchers_valid.
Qed.

(** C10: from the tenant header to the matcher the enforcers apply, end to end.
    A request whose header names the valid tenants [ts] reaches the handler
    behind the two middlewares with authorization data that decodes to a single
    matcher on the tenant label; the matcher compiles, and it accepts a label
    value exactly when the value is one of the tenants named, whatever regular
    expression the RE2 engine would otherwise see in them. *)
Theorem tenant_label_exact `{RegexEngine} (h lbl : string) (r : Request) :
  let ts := collect_tenants (header_values (r_header r) h) in
  lbl <> "" -> ascii_only lbl = true -> valid_tenants ts ->
  exists data m,
    Unmarshal data = Ok (mkAuthz [m] "") /\ m_name m = lbl /\
    NewMatcher (m_type m) (m_name m) (m_value m) = Ok m /\
    (forall v, Matches m v = true <-> v ∈ ts) /\
    forall S, exists mw, @WithTenantLabel S lbl = Return mw /\ forall next,
      chain [WithTenantFromHeader h; mw] next r =
      next (map_ctx (fun c => WithData c data) (map_ctx (with_tenant (Join ts "|")) r)).
Proof.
  intros ts Hne Hl Hts.
  destruct (tenant_label_forwards lbl ts (map_ctx (with_tenant (Join ts "|")) r))
    as (data & Hd & _ & Hmw); [done..|].
  exists data, (tenant_matcher lbl ts).
  assert (ts <> []) as Hn by (destruct Hts as ([Hpos _] & _); by destruct ts; simpl in *; [lia|]).
  assert (Forall valid_tenant ts) as Hv by by destruct Hts as (_ & ? & _).
  split_and!; [done|by unfold tenant_matcher; destruct ts as [|? [|? ?]]
              |by apply tenant_matcher_compiles|intros; by apply tenant_matcher_exact|].
  intros S. destruct (Hmw S) as (mw & E & Hf). exists mw. split; [done|]. intros next.
  cbn [chain]. rewrite (proj1 (tenant_header_facts h r) Hts). apply Hf.
Qed.

(** A request with two tenants in its header. *)
Definition two_tenants : Request :=
  mkReq "GET" (mkURL "" "" "/api/metrics/v1/api/v1/query" "query=up")
    (header_add (header_add ∅ "x-tenant" "team-a") "X-Tenant" "|team_c ") (Ok "") 0 None
    background ∅ [].

Lemma tenant_label_exact_witness :
  exists data m, Unmarshal data = Ok (mkAuthz [m] "") /\ m_name m = "tenant_id" /\
    (forall v, @Matches literal_engine m v = true <-> v ∈ ["team-a"; "team_c"]).
Proof.
  destruct (@tenant_label_exact literal_engine "X-Tenant" "tenant_id" two_tenants)
    as (data & m & Hd & Hn & _ & Hm & _); [done|done| |].
  - apply valid_tenants_iff; [vm_compute; lia|]. split; [vm_compute; lia|vm_compute; reflexivity].
  - exists data, m. split; [done|]. split; [done|]. intros v. rewrite Hm.
    replace (collect_tenants _) with ["team-a"; "team_c"] by (vm_compute; reflexivity). done.
Defined.
