(* ===== verification/LogqlAst.v ===== *)
(** * The LogQL syntax tree: [logql/v2/ast.go]

    Every expression type of the source with its constructors, [String] and
    [Walk].  The parser never shares a node between two places of a tree, and of
    the fields [Expr] and [left] of a [LogMetricExpr] it sets exactly one, so a
    tree of values stands for the tree of pointers, and a callback of [Walk] that
    changes a node is a function that returns the node it leaves behind.  The one
    pointer that is shared is the number of a label filter: it points into the
    value stack of the parser, whose slots are written again, so a tree holds the
    slot ([NumberRef]) and printing reads it in a [NumberMemory]. *)

From stdpp Require Import base tactics option list gmap strings pretty.
From Stdlib Require Import ZArith Lia Ascii.
From S2P Require Import Prelude GoStrings Labels Url Strconv Http.

(** ** What the tree takes from elsewhere

    [float64] with [strconv.ParseFloat(_, 64)] (its error is ignored) and [%f],
    and the [String] method of Prometheus' [labels.Matcher]. *)

Class LogqlEnv := {
  float64 : Type;
  float_zero : float64;
  ParseFloat : string -> float64;
  SprintfF : float64 -> string;
  #[global] logql_printer :: MatcherPrinter;
  #[global] logql_unicode :: Unicode
}.

(** For concrete runs: numbers as the literals they were read from. *)
Definition simple_env : LogqlEnv := {|
  float64 := string;
  float_zero := "0.000000";
  ParseFloat := fun s => s;
  SprintfF := fun s => if Contains s "." then s else s +:+ ".000000";
  logql_printer := simple_printer;
  logql_unicode := latin1
|}.

(** ** [time.Duration.String] *)

Definition Duration : Type := Z.

Fixpoint pad_zeros (n : nat) (s : string) : string :=
  match n with O => s | S n => String "0" (pad_zeros n s) end.

(** [fmtFrac]: the last [prec] digits of [v] as a fraction without trailing
    zeros, after the rest of [v]. *)
Definition fmtFrac (v : Z) (prec : nat) : string * Z :=
  let p := (10 ^ Z.of_nat prec)%Z in
  let f := pretty (v mod p)%Z in
  let digits := TrimRight (pad_zeros (prec - String.length f) f) ["0"%char] in
  ((if String.eqb digits "" then "" else "." +:+ digits), (v / p)%Z).

Definition Duration_String (d : Duration) : string :=
  if (d =? 0)%Z then "0s" else
  let u := Z.abs d in
  let sign := if (d <? 0)%Z then "-" else "" in
  sign +:+
  (if (u <? 1000000000)%Z then
     let '(prec, unit) :=
       if (u <? 1000)%Z then (0%nat, "ns")
       else if (u <? 1000000)%Z then (3%nat, bytes [194; 181; 115]%N)
       else (6%nat, "ms") in
     let '(frac, v) := fmtFrac u prec in pretty v +:+ frac +:+ unit
   else
     let '(frac, secs) := fmtFrac u 9 in
     let s := pretty (secs mod 60)%Z +:+ frac +:+ "s" in
     let mins := (secs / 60)%Z in
     if (mins =? 0)%Z then s else
     let s := pretty (mins mod 60)%Z +:+ "m" +:+ s in
     let hours := (mins / 60)%Z in
     if (hours =? 0)%Z then s else pretty hours +:+ "h" +:+ s).

(** ** Constants of [lexer.go] *)

Definition ParserLogFMT : string := "logfmt".
Definition ParserJSON : string := "json".
Definition ParserUnpack : string := "unpack".
Definition ParserUnwrap : string := "unwrap".
Definition ParserRegExp : string := "regexp".
Definition ParserPattern : string := "pattern".
Definition ParserLineFormat : string := "line_format".
Definition ParserLabelFormat : string := "label_format".
Definition ParserDrop : string := "drop".
Definition ParserKeep : string := "keep".
Definition OpLabelReplace : string := "label_replace".
Definition OpIP : string := "ip".
Definition OpTypeVector : string := "vector".
Definition OpConvBytes : string := "bytes".
Definition OpConvDuration : string := "duration".
Definition OpConvDurationSeconds : string := "duration_seconds".
Definition OpLogFMTStrict : string := "--strict".
Definition OpLogFMTKeepEmpty : string := "--keep-empty".

(** ** Data *)

Section ast.
Context `{LogqlEnv}.

(** [StreamMatcherExpr]. *)
Record StreamMatcherExpr := mkStream { matchers : list Matcher }.

(** [LogFilterExpr]: a line filter with the filters chained to it. *)
#[warnings="-register-all"]
Inductive LogFilterExpr := mkLogFilter {
  lf_filter : string;
  lf_filterOp : string;
  lf_value : string;
  lf_isNested : bool;
  lf_chainOp : string;
  lf_right : list LogFilterExpr
}.

(** [LogNumberExpr]. *)
Record LogNumber := mkNumber { num_value : float64; num_isNeg : bool }.

(** A slot of the parser's value stack.  The stack is an array that is replaced
    by one of twice the size when it is full: [ref_array] counts the arrays. *)
Record NumberRef := mkRef { ref_array : nat; ref_slot : nat }.

(** What the slots hold when a tree is printed. *)
Class NumberMemory := { number_at : NumberRef -> LogNumber }.

(** [LogLabelFilterValue], by its [filterType]. *)
Inductive LogLabelFilterValue :=
  | TypeNumber (numberVal : NumberRef)
  | TypeDuration (durVal : Duration)
  | TypeText (strVal : string)
  | TypeNone.

(** [LogLabelFilterExpr]. *)
#[warnings="-register-all"]
Inductive LogLabelFilterExpr := mkLabelFilter {
  ll_labelName : string;
  ll_comparisonOp : string;
  ll_filterOp : string;
  ll_labelValue : LogLabelFilterValue;
  ll_isNested : bool;
  ll_chainOp : string;
  ll_right : list LogLabelFilterExpr
}.

(** [LogFormatValue], [LogFormatValues], [LogFormatExpr]. *)
Record LogFormatValue := mkFormatValue { fv_Value : string; fv_IsIdentifier : bool }.
Abbreviation LogFormatValues := (gmap string LogFormatValue).
Record LogFormatExpr := mkFormat {
  fmt_kv : LogFormatValues; fmt_sep : string; fmt_operation : string }.

(** [LogParserExpr]. *)
Record LogParserExpr := mkParser {
  lp_identifier : string; lp_parser : string; lp_operation : string }.

(** [LogLabel], [LogLabelList], [LogLabelExpr]. *)
Record LogLabel := mkLabel { lb_identifier : string; lb_matcher : option Matcher }.
Abbreviation LogLabelList := (list LogLabel).
Record LogLabelExpr := mkLabelExpr {
  le_parser : string; le_flags : list string; le_labels : LogLabelList }.

(** [LogStageExpr] and [LogPipelineExpr]. *)
Inductive LogStageExpr :=
  | StFilter (e : LogFilterExpr)
  | StLabelFilter (e : LogLabelFilterExpr)
  | StFormat (e : LogFormatExpr)
  | StParser (e : LogParserExpr)
  | StDecolorize
  | StLabel (e : LogLabelExpr).
Abbreviation LogPipelineExpr := (list LogStageExpr).

(** [LogQueryExpr]; a nil pipeline is [None]. *)
Record LogQueryExpr := mkQuery {
  q_left : StreamMatcherExpr; q_filter : option LogPipelineExpr }.

(** [grouping]. *)
Record grouping := mkGrouping { gr_without : bool; gr_groups : list string }.

(** The implementations of [LogSelectorExpr]. *)
Inductive LogSelectorExpr :=
  | SelStream (s : StreamMatcherExpr)
  | SelQuery (q : LogQueryExpr)
  | SelRange (left : LogSelectorExpr) (rng : string) (g : option grouping) (rngLast : bool)
  | SelParenthesis (inner : LogSelectorExpr).

(** [OnOption], [IgnoringOption] and [BinaryOpOptions]. *)
Inductive GroupingOptionType := NoGroupingOption | GroupLeftOption | GroupRightOption.
Record VectorMatchOption := mkVectorMatch {
  vm_Enabled : bool; vm_Labels : list string;
  vm_GroupingType : GroupingOptionType; vm_IncludeLabels : list string }.
Record BinaryOpOptions := mkBinOpts {
  bo_ReturnBool : bool; bo_Ignoring : VectorMatchOption; bo_On : VectorMatchOption }.

(** The implementations of [Expr]; [LogMetricSampleExpr] has two of its own.
    [m_expr] and [m_left] are the fields [Expr] and [left]. *)
#[warnings="-register-all"]
Inductive Expr :=
  | ParenthesisExpr (inner : Expr)
  | ESelector (s : LogSelectorExpr)
  | EMetric (m : LogMetricSampleExpr)
  | LogBinaryOpExpr (op : string) (modifier : BinaryOpOptions) (left right : Expr)
  | LogNumberExpr (n : LogNumber)
  | VectorExpr (Value : string)
with LogMetricSampleExpr :=
  | LogMetricExpr (m_expr : option Expr) (m_left : option LogSelectorExpr)
      (metricOp preamble : string) (g : option grouping) (groupingAfterOp : bool)
      (params : list string) (offset : Duration)
  | ParenthesisLogMetricExpr (inner : LogMetricSampleExpr).

(** ** Constructors and updates *)

Definition newStreamMatcherExpr (ms : list Matcher) : StreamMatcherExpr := mkStream ms.
Definition Stream_Matchers (s : StreamMatcherExpr) : list Matcher := matchers s.
Definition Stream_AppendMatchers (s : StreamMatcherExpr) (m : list Matcher) : StreamMatcherExpr :=
  mkStream (matchers s ++ m).
Definition Stream_SetMatchers (s : StreamMatcherExpr) (m : list Matcher) : StreamMatcherExpr :=
  mkStream m.

(** [newLabelMatcher] panics when the expression does not compile. *)
Definition newLabelMatcher `{RegexEngine} (t : MatchType) (n v : string) : flow Matcher :=
  match NewMatcher t n v with Ok m => Return m | Err e => Panic e end.

Definition newLogFilterExpr (filter filterOp value : string) : LogFilterExpr :=
  mkLogFilter filter filterOp value false "" [].

Definition LogFilter_chain (l : LogFilterExpr) (op : string) (e : LogFilterExpr) : LogFilterExpr :=
  let e := mkLogFilter (lf_filter e) (lf_filterOp e) (lf_value e) true op (lf_right e) in
  mkLogFilter (lf_filter l) (lf_filterOp l) (lf_value l) (lf_isNested l) (lf_chainOp l)
              (lf_right l ++ [e]).

Definition newLogLabelFilter (identifier comparisonOp filterOp : string)
    (value : LogLabelFilterValue) : LogLabelFilterExpr :=
  mkLabelFilter identifier comparisonOp filterOp value false "" [].

Definition LogLabelFilter_chain (l : LogLabelFilterExpr) (op : string) (e : LogLabelFilterExpr) :
    LogLabelFilterExpr :=
  let e := mkLabelFilter (ll_labelName e) (ll_comparisonOp e) (ll_filterOp e) (ll_labelValue e)
             true op (ll_right e) in
  mkLabelFilter (ll_labelName l) (ll_comparisonOp l) (ll_filterOp l) (ll_labelValue l)
    (ll_isNested l) (ll_chainOp l) (ll_right l ++ [e]).

Definition newLogFormatExpr (sep : string) (kv : LogFormatValues) (operation : string) :
    LogFormatExpr := mkFormat kv sep operation.

(** The values of [rhs] win. *)
Definition mergeLogFormatValues (lhs rhs : LogFormatValues) : LogFormatValues := rhs ∪ lhs.

Definition newLogParserExpr (parser identifier operation : string) : LogParserExpr :=
  mkParser identifier parser operation.

Definition newLogLabel (identifier : string) (m : option Matcher) : LogLabel :=
  mkLabel identifier m.
Definition newLogLabelList (label : LogLabel) : LogLabelList := [label].
Definition mergeLabels (lhs rhs : LogLabelList) : LogLabelList := lhs ++ rhs.
Definition newLogLabelExpr (parser : string) (flags : list string) (labels : LogLabelList) :
    LogLabelExpr := mkLabelExpr parser flags labels.
Definition mergeParserFlags (lhs rhs : list string) : list string := lhs ++ rhs.

Definition newLogQueryExpr (m : StreamMatcherExpr) (filter : option LogPipelineExpr) :
    LogSelectorExpr := SelQuery (mkQuery m filter).

Definition Query_SetMatchers (l : LogQueryExpr) (lm : list Matcher) : LogQueryExpr :=
  mkQuery (Stream_SetMatchers (q_left l) lm) (q_filter l).

(** [AppendPipelineMatchers]: one label filter stage in front of the others. *)
Definition pipeline_matcher (m : Matcher) (isNested : bool) (chainOp : string) :
    LogLabelFilterExpr :=
  mkLabelFilter (m_name m) (MatchType_String (m_type m)) "" (TypeText (m_value m))
    isNested chainOp [].

Definition AppendPipelineMatchers (l : LogQueryExpr) (ms : list Matcher) (chainOp : string) :
    LogQueryExpr :=
  match ms with
  | [] => l
  | m :: ms =>
      let f := pipeline_matcher m false "" in
      let f := mkLabelFilter (ll_labelName f) (ll_comparisonOp f) (ll_filterOp f)
                 (ll_labelValue f) (ll_isNested f) (ll_chainOp f)
                 ((fun m => pipeline_matcher m true chainOp) <$> ms) in
      mkQuery (q_left l) (Some (StLabelFilter f :: default [] (q_filter l)))
  end.

Definition newLogRangeQueryExpr (m : LogSelectorExpr) (rng : string) (g : option grouping)
    (rngLast : bool) : LogSelectorExpr := SelRange m rng g rngLast.
Definition newParenthesisLogRangeQueryExpr (e : LogSelectorExpr) : LogSelectorExpr :=
  SelParenthesis e.

(** [Matchers] of a selector. *)
Fixpoint Selector_Matchers (s : LogSelectorExpr) : list Matcher :=
  match s with
  | SelStream s => matchers s
  | SelQuery q => matchers (q_left q)
  | SelRange lft _ _ _ => Selector_Matchers lft
  | SelParenthesis inner => Selector_Matchers inner
  end.

Definition newLogMetricExpr (e : option Expr) (m : option LogSelectorExpr) (op preamble : string)
    (g : option grouping) (groupingAfterOp : bool) (params : list string) (o : option Duration) :
    LogMetricSampleExpr :=
  LogMetricExpr e m op preamble g groupingAfterOp params (default 0%Z o).

(** [Selector] of a metric expression. *)
Fixpoint Metric_Selector (m : LogMetricSampleExpr) : option LogSelectorExpr :=
  match m with
  | LogMetricExpr _ lft _ _ _ _ _ _ => lft
  | ParenthesisLogMetricExpr inner => Metric_Selector inner
  end.

Definition newParenthesisExpr (e : Expr) : Expr := ParenthesisExpr e.
Definition newParenthesisLogMetricExpr (e : LogMetricSampleExpr) : LogMetricSampleExpr :=
  ParenthesisLogMetricExpr e.
Definition newVectorExpr (val : string) : Expr := VectorExpr val.
Definition newLogOffsetExpr (offset : Duration) : Duration := offset.
Definition newLogDecolorizeExpr : LogStageExpr := StDecolorize.

Definition newLogBinaryOpExpr (op : string) (modifier : BinaryOpOptions) (left right : Expr) :
    Expr := LogBinaryOpExpr op modifier left right.

Definition newLogNumberExpr (value : string) (isNegative : bool) : LogNumber :=
  mkNumber (ParseFloat value) isNegative.

(** ** [String] *)

Section print.
Context `{NumberMemory}.

(** Writing the elements of a slice with a separator between them. *)
Definition Stream_String (s : StreamMatcherExpr) : string :=
  "{" +:+ Join (Matcher_String <$> matchers s) ", " +:+ "}".

Fixpoint LogFilter_String (l : LogFilterExpr) : string :=
  let 'mkLogFilter filter filterOp value isNested _ chained := l in
  (if isNested then "" else filter +:+ " ") +:+
  (if negb (String.eqb filterOp "") then filterOp +:+ "(" +:+ Quote value +:+ ")"
   else Quote value) +:+
  String.concat "" (map (fun r =>
    if String.eqb (lf_chainOp r) "or" then " " +:+ lf_chainOp r +:+ " " +:+ LogFilter_String r
    else "") chained).

(** [%f] without trailing zeros and then without trailing dots. *)
Definition LogNumber_String (l : LogNumber) : string :=
  TrimRight (TrimRight ((if num_isNeg l then "-" else "") +:+ SprintfF (num_value l))
               ["0"%char]) ["."%char].

(** The text is written between quotes as it is. *)
Definition LogLabelFilterValue_String (l : LogLabelFilterValue) : string :=
  match l with
  | TypeNumber n => LogNumber_String (number_at n)
  | TypeDuration d => Duration_String d
  | TypeText s => dquote +:+ s +:+ dquote
  | TypeNone => ""
  end.

Fixpoint LogLabelFilter_String (l : LogLabelFilterExpr) : string :=
  let 'mkLabelFilter labelName comparisonOp filterOp labelValue isNested _ chained := l in
  (if isNested then "" else "| ") +:+ labelName +:+ " " +:+ comparisonOp +:+ " " +:+
  (if negb (String.eqb filterOp "")
   then filterOp +:+ "(" +:+ LogLabelFilterValue_String labelValue +:+ ")"
   else LogLabelFilterValue_String labelValue) +:+
  String.concat "" (map (fun r =>
    if String.eqb (ll_chainOp r) "and" || String.eqb (ll_chainOp r) "or"
    then " " +:+ ll_chainOp r +:+ " " +:+ LogLabelFilter_String r
    else if String.eqb (ll_chainOp r) ","
    then ll_chainOp r +:+ " " +:+ LogLabelFilter_String r
    else "") chained).

(** One assignment of a [label_format] stage. *)
Definition format_value (l : LogFormatExpr) (key : string) : string :=
  let lmv := default (mkFormatValue "" false) (fmt_kv l !! key) in
  (if negb (String.eqb key "") then key +:+ "=" else "") +:+
  (if negb (String.eqb (fmt_operation l) "") then fmt_operation l +:+ "(" else "") +:+
  (if fv_IsIdentifier lmv then fv_Value lmv else Quote (fv_Value lmv)) +:+
  (if negb (String.eqb (fmt_operation l) "") then ")" else "").

Definition LogFormat_String (l : LogFormatExpr) : string :=
  "| " +:+ ParserLabelFormat +:+ " " +:+
  Join (format_value l <$> sorted_keys (fmt_kv l)) (fmt_sep l).

Definition LogParser_String (l : LogParserExpr) : string :=
  let p := lp_parser l in
  let id := lp_identifier l in
  let noop := String.eqb (lp_operation l) "" in
  "| " +:+ p +:+ (if noop then "" else " " +:+ lp_operation l +:+ "(") +:+
  (if String.eqb p ParserRegExp || String.eqb p ParserLineFormat then " " +:+ Quote id
   else if String.eqb p ParserPattern then
     " " +:+ (if Contains id dquote then "`" +:+ id +:+ "`" else Quote id)
   else if String.eqb p ParserUnwrap then (if noop then " " else "") +:+ id
   else id) +:+
  (if noop then "" else ")").

Definition LogLabel_String (l : LogLabel) : string :=
  (if negb (String.eqb (lb_identifier l) "") then " " +:+ lb_identifier l else "") +:+
  match lb_matcher l with Some m => " " +:+ Matcher_String m | None => "" end.

Definition LogLabelExpr_String (l : LogLabelExpr) : string :=
  "| " +:+ le_parser l +:+ String.concat "" ((fun flag => " " +:+ flag) <$> le_flags l) +:+
  Join (LogLabel_String <$> le_labels l) ",".

Definition LogStage_String (st : LogStageExpr) : string :=
  match st with
  | StFilter e => LogFilter_String e
  | StLabelFilter e => LogLabelFilter_String e
  | StFormat e => LogFormat_String e
  | StParser e => LogParser_String e
  | StDecolorize => "| decolorize"
  | StLabel e => LogLabelExpr_String e
  end.

Definition LogPipeline_String (l : list LogStageExpr) : string :=
  Join (LogStage_String <$> l) " ".

Definition LogQuery_String (l : LogQueryExpr) : string :=
  Stream_String (q_left l) +:+
  match q_filter l with Some f => " " +:+ LogPipeline_String f | None => "" end.

Definition grouping_String (g : grouping) : string :=
  (if gr_without g then " without"
   else if (0 <? length (gr_groups g))%nat then " by" else "") +:+
  (if (0 <? length (gr_groups g))%nat then "(" +:+ Join (gr_groups g) "," +:+ ")" else "").

Fixpoint Selector_String (s : LogSelectorExpr) : string :=
  match s with
  | SelStream s => Stream_String s
  | SelQuery q => LogQuery_String q
  | SelRange lft rng g rngLast =>
      (match g with Some _ => "(" | None => "" end) +:+
      (if rngLast then "(" +:+ Selector_String lft +:+ ") " +:+ rng
       else Replace1 (Selector_String lft) "}" ("}" +:+ rng)) +:+
      (match g with Some g => ") " +:+ grouping_String g | None => "" end)
  | SelParenthesis inner => "(" +:+ Selector_String inner +:+ ")"
  end.

Definition LogOffset_String (o : Duration) : string := " offset " +:+ Duration_String o.

Definition match_option_String (kw : string) (o : VectorMatchOption) : string :=
  if vm_Enabled o then
    kw +:+ "(" +:+ Join (vm_Labels o) "," +:+ ")" +:+
    (match vm_GroupingType o with
     | GroupLeftOption => " group_left(" +:+ Join (vm_IncludeLabels o) "," +:+ ")"
     | GroupRightOption => " group_right(" +:+ Join (vm_IncludeLabels o) "," +:+ ")"
     | NoGroupingOption => ""
     end) +:+ " "
  else "".

(** A metric expression with neither field set would dereference nil; the
    parser sets one of them. *)
Fixpoint Expr_String (e : Expr) : string :=
  match e with
  | ParenthesisExpr inner => "(" +:+ Expr_String inner +:+ ")"
  | ESelector s => Selector_String s
  | EMetric m => Metric_String m
  | LogBinaryOpExpr op modifier l r =>
      Expr_String l +:+ " " +:+ op +:+ " " +:+
      (if bo_ReturnBool modifier then "bool " else "") +:+
      match_option_String "ignoring" (bo_Ignoring modifier) +:+
      match_option_String "on" (bo_On modifier) +:+ Expr_String r
  | LogNumberExpr n => LogNumber_String n
  | VectorExpr v => v
  end
with Metric_String (m : LogMetricSampleExpr) : string :=
  match m with
  | LogMetricExpr e lft metricOp preamble g groupingAfterOp params offset =>
      metricOp +:+
      (match g with
       | Some g => if groupingAfterOp then grouping_String g +:+ " " else ""
       | None => "" end) +:+
      "(" +:+
      (if negb (String.eqb preamble "") then preamble +:+ "," else "") +:+
      (match e with
       | Some e => Expr_String e
       | None => match lft with Some s => Selector_String s | None => "" end
       end) +:+
      (if String.eqb metricOp OpLabelReplace
       then "," +:+ Join ((fun p => dquote +:+ p +:+ dquote) <$> params) "," else "") +:+
      (if negb (offset =? 0)%Z then LogOffset_String offset else "") +:+
      ")" +:+
      (match g with
       | Some g => if groupingAfterOp then "" else grouping_String g
       | None => "" end)
  | ParenthesisLogMetricExpr inner => "(" +:+ Metric_String inner +:+ ")"
  end.
End print.

(** ** [Walk]

    A visitor threads a state through the nodes in the order of the calls to
    the callback.  The callbacks of the gateway act on stream matchers and
    queries; on any other node they do nothing. *)

Section walk.
Context {St : Type}.

Record Visitor := mkVisitor {
  on_stream : StreamMatcherExpr -> St -> StreamMatcherExpr * St;
  on_query : LogQueryExpr -> St -> LogQueryExpr * St
}.

Context (fn : Visitor).

Definition Query_Walk (q : LogQueryExpr) (st : St) : LogQueryExpr * St :=
  let '(q, st) := on_query fn q st in
  let '(left', st) := on_stream fn (q_left q) st in
  (mkQuery left' (q_filter q), st).

Fixpoint Selector_Walk (s : LogSelectorExpr) (st : St) : LogSelectorExpr * St :=
  match s with
  | SelStream s => let '(s, st) := on_stream fn s st in (SelStream s, st)
  | SelQuery q => let '(q, st) := Query_Walk q st in (SelQuery q, st)
  | SelRange lft rng g rngLast =>
      let '(lft, st) := Selector_Walk lft st in (SelRange lft rng g rngLast, st)
  | SelParenthesis inner =>
      let '(inner, st) := Selector_Walk inner st in (SelParenthesis inner, st)
  end.

Fixpoint Walk (e : Expr) (st : St) : Expr * St :=
  match e with
  | ParenthesisExpr inner => let '(inner, st) := Walk inner st in (ParenthesisExpr inner, st)
  | ESelector s => let '(s, st) := Selector_Walk s st in (ESelector s, st)
  | EMetric m => let '(m, st) := Metric_Walk m st in (EMetric m, st)
  | LogBinaryOpExpr op modifier l r =>
      let '(l, st) := Walk l st in
      let '(r, st) := Walk r st in (LogBinaryOpExpr op modifier l r, st)
  | LogNumberExpr n => (LogNumberExpr n, st)
  | VectorExpr v => (VectorExpr v, st)
  end
with Metric_Walk (m : LogMetricSampleExpr) (st : St) : LogMetricSampleExpr * St :=
  match m with
  | LogMetricExpr e lft op preamble g after params offset =>
      let '(e, st) := match e with
        | Some e => let '(e, st) := Walk e st in (Some e, st)
        | None => (None, st)
        end in
      let '(lft, st) := match lft with
        | Some s => let '(s, st) := Selector_Walk s st in (Some s, st)
        | None => (None, st)
        end in
      (LogMetricExpr e lft op preamble g after params offset, st)
  | ParenthesisLogMetricExpr inner =>
      let '(inner, st) := Metric_Walk inner st in (ParenthesisLogMetricExpr inner, st)
  end.
End walk.
End ast.

Arguments Visitor St : clear implicits.

(** A memory in which every slot holds the zero value. *)
Definition zero_memory `{LogqlEnv} : NumberMemory :=
  {| number_at := fun _ => mkNumber float_zero false |}.

(** ** Induction over the two mutual types *)

Section expr_ind.
Context `{LogqlEnv} (P : Expr -> Prop) (Q : LogMetricSampleExpr -> Prop).
Context (Hparen : forall e, P e -> P (ParenthesisExpr e))
        (Hsel : forall s, P (ESelector s))
        (Hmet : forall m, Q m -> P (EMetric m))
        (Hbin : forall op md l r, P l -> P r -> P (LogBinaryOpExpr op md l r))
        (Hnum : forall n, P (LogNumberExpr n))
        (Hvec : forall v, P (VectorExpr v))
        (Hmetric : forall e s op pre g after ps o,
           from_option P True e -> Q (LogMetricExpr e s op pre g after ps o))
        (Hmparen : forall m, Q m -> Q (ParenthesisLogMetricExpr m)).

Fixpoint Expr_ind' (e : Expr) : P e :=
  match e with
  | ParenthesisExpr e => Hparen e (Expr_ind' e)
  | ESelector s => Hsel s
  | EMetric m => Hmet m (Metric_ind' m)
  | LogBinaryOpExpr op md l r => Hbin op md l r (Expr_ind' l) (Expr_ind' r)
  | LogNumberExpr n => Hnum n
  | VectorExpr v => Hvec v
  end
with Metric_ind' (m : LogMetricSampleExpr) : Q m :=
  match m with
  | LogMetricExpr e s op pre g after ps o =>
      Hmetric e s op pre g after ps o
        (match e return from_option P True e with Some e => Expr_ind' e | None => I end)
  | ParenthesisLogMetricExpr m => Hmparen m (Metric_ind' m)
  end.

Lemma Expr_Metric_ind : (forall e, P e) /\ (forall m, Q m).
Proof. split; [apply Expr_ind'|apply Metric_ind']. Qed.
End expr_ind.

(** ** The stream selectors and the log queries of a tree

    [streams] lists the selectors of the log streams a query reads and [queries]
    the log queries with their pipelines, from left to right and independently of
    [Walk]; [map_nodes fs fq] is the tree with [fq] applied to the queries, [fs]
    to the selectors and nothing else changed. *)

Section streams.
Context `{LogqlEnv}.

Fixpoint selector_stream (s : LogSelectorExpr) : StreamMatcherExpr :=
  match s with
  | SelStream s => s
  | SelQuery q => q_left q
  | SelRange lft _ _ _ => selector_stream lft
  | SelParenthesis inner => selector_stream inner
  end.

Fixpoint selector_query (s : LogSelectorExpr) : list LogQueryExpr :=
  match s with
  | SelStream _ => []
  | SelQuery q => [q]
  | SelRange lft _ _ _ => selector_query lft
  | SelParenthesis inner => selector_query inner
  end.

(** What [f] collects from the selectors of a tree. *)
Section collect.
Context {A : Type} (f : LogSelectorExpr -> list A).
Fixpoint collect (e : Expr) : list A :=
  match e with
  | ParenthesisExpr e => collect e
  | ESelector s => f s
  | EMetric m => metric_collect m
  | LogBinaryOpExpr _ _ l r => collect l ++ collect r
  | LogNumberExpr _ | VectorExpr _ => []
  end
with metric_collect (m : LogMetricSampleExpr) : list A :=
  match m with
  | LogMetricExpr e s _ _ _ _ _ _ =>
      (match e with Some e => collect e | None => [] end) ++
      (match s with Some s => f s | None => [] end)
  | ParenthesisLogMetricExpr m => metric_collect m
  end.
End collect.

Definition streams : Expr -> list StreamMatcherExpr := collect (fun s => [selector_stream s]).
Definition queries : Expr -> list LogQueryExpr := collect selector_query.

Section map.
Context (fs : StreamMatcherExpr -> StreamMatcherExpr) (fq : LogQueryExpr -> LogQueryExpr).

Definition map_query (q : LogQueryExpr) : LogQueryExpr :=
  mkQuery (fs (q_left (fq q))) (q_filter (fq q)).

Fixpoint map_selector (s : LogSelectorExpr) : LogSelectorExpr :=
  match s with
  | SelStream s => SelStream (fs s)
  | SelQuery q => SelQuery (map_query q)
  | SelRange lft rng g last => SelRange (map_selector lft) rng g last
  | SelParenthesis inner => SelParenthesis (map_selector inner)
  end.

Fixpoint map_nodes (e : Expr) : Expr :=
  match e with
  | ParenthesisExpr e => ParenthesisExpr (map_nodes e)
  | ESelector s => ESelector (map_selector s)
  | EMetric m => EMetric (map_metric m)
  | LogBinaryOpExpr op md l r => LogBinaryOpExpr op md (map_nodes l) (map_nodes r)
  | LogNumberExpr n => LogNumberExpr n
  | VectorExpr v => VectorExpr v
  end
with map_metric (m : LogMetricSampleExpr) : LogMetricSampleExpr :=
  match m with
  | LogMetricExpr e s op pre g after ps o =>
      LogMetricExpr (match e with Some e => Some (map_nodes e) | None => None end)
        (map_selector <$> s) op pre g after ps o
  | ParenthesisLogMetricExpr m => ParenthesisLogMetricExpr (map_metric m)
  end.

Lemma collect_map {A} (f : LogSelectorExpr -> list A) (h : A -> A) :
  (forall s, f (map_selector s) = h <$> f s) ->
  forall e, collect f (map_nodes e) = h <$> collect f e.
Proof.
  intros Hf. apply (Expr_Metric_ind (fun e => collect f (map_nodes e) = h <$> collect f e)
    (fun m => metric_collect f (map_metric m) = h <$> metric_collect f m)); simpl; auto.
  - intros op md l r -> ->. by rewrite fmap_app.
  - intros [e|] [s|] op pre g after ps o He; simpl in *; rewrite ?fmap_app, ?He, ?Hf; done.
Qed.

Context (Hfq : forall q, q_left (fq q) = q_left q).

Lemma selector_stream_map s : selector_stream (map_selector s) = fs (selector_stream s).
Proof. induction s; simpl; rewrite ?Hfq; auto. Qed.

Lemma streams_map e : streams (map_nodes e) = fs <$> streams e.
Proof.
  unfold streams. rewrite (collect_map _ fs); [done|].
  intros s. cbn. by rewrite selector_stream_map.
Qed.

Lemma queries_map e : queries (map_nodes e) = map_query <$> queries e.
Proof. unfold queries. apply collect_map. intros s. induction s; simpl; auto. Qed.

(** A visitor whose state only depends on the streams folds over them from
    the left and leaves a map behind. *)
Definition node_visitor {St} (g : St -> StreamMatcherExpr -> St) : Visitor St :=
  mkVisitor (fun s st => (fs s, g st s)) (fun q st => (fq q, st)).

Lemma Selector_Walk_nodes {St} (g : St -> _) s st :
  Selector_Walk (node_visitor g) s st = (map_selector s, g st (selector_stream s)).
Proof.
  induction s as [s|q|lft IH rng gr lst|inner IH]; simpl; rewrite ?IH; try done.
  unfold Query_Walk, map_query. simpl. by rewrite Hfq.
Qed.

Lemma Walk_nodes {St} (g : St -> _) e st :
  Walk (node_visitor g) e st = (map_nodes e, foldl g st (streams e)).
Proof.
  revert e st. apply (Expr_Metric_ind
    (fun e => forall st, Walk (node_visitor g) e st = (map_nodes e, foldl g st (streams e)))
    (fun m => forall st, Metric_Walk (node_visitor g) m st =
       (map_metric m, foldl g st (metric_collect (fun s => [selector_stream s]) m))));
    unfold streams; simpl; auto.
  - intros e IH st. by rewrite IH.
  - intros s st. by rewrite Selector_Walk_nodes.
  - intros m IH st. by rewrite IH.
  - intros op md l r Hl Hr st. by rewrite Hl, Hr, foldl_app.
  - intros [e|] [s|] op pre gr after ps o He st; simpl in *;
      rewrite ?He, ?Selector_Walk_nodes, ?foldl_app; done.
  - intros m IH st. by rewrite IH.
Qed.
End map.
End streams.
