(* ===== verification/Scanner.v ===== *)
(** * Go's [text/scanner]

    The lexer of [logql/v2/lexer.go] embeds a [scanner.Scanner] in its initial
    mode ([GoTokens], [GoWhitespace]) and copies it to look ahead.  A copy has
    its own buffer and position, but it shares with the original the reader the
    text comes from, of which [next] takes up to 1024 bytes at a time, and the
    error handler, which reports the position of the original. *)

From stdpp Require Import base tactics option list strings pretty.
From Stdlib Require Import ZArith Lia Ascii.
From S2P Require Import Prelude GoStrings Strconv.

(** ** Runes

    A rune is a [Z]; the scanner also uses two negative values. *)

Definition rune (c : ascii) : Z := Z.of_N (N_of_ascii c).
Arguments rune c%_char_scope.

Definition EOF : Z := -1.
Definition NoChar : Z := -2.

(** [WriteRune] and [string(r)]: a negative rune is not valid. *)
Definition rune_bytes (r : Z) : string :=
  if (r <? 0)%Z then EncodeRune RuneError else EncodeRune (Z.to_N r).

Definition in_z (lo hi r : Z) : bool := (lo <=? r)%Z && (r <=? hi)%Z.

(** The tables of [unicode] beyond ASCII; white space is written out. *)
Class UnicodeTables := {
  isLetterWide : Z -> bool;
  isDigitWide : Z -> bool;
  isNumberWide : Z -> bool
}.

(** The letters of Latin-1, for concrete runs. *)
Definition latin1_tables : UnicodeTables := {|
  isLetterWide := fun r => in_z 192 255 r && negb (r =? 215)%Z && negb (r =? 247)%Z;
  isDigitWide := fun _ => false;
  isNumberWide := fun r => (r =? 178)%Z || (r =? 179)%Z || (r =? 185)%Z || in_z 188 190 r
|}.

Definition IsSpace (r : Z) : bool :=
  in_z 9 13 r || (r =? 32)%Z || (r =? 133)%Z || (r =? 160)%Z || (r =? 5760)%Z
  || in_z 8192 8202 r || (r =? 8232)%Z || (r =? 8233)%Z || (r =? 8239)%Z
  || (r =? 8287)%Z || (r =? 12288)%Z.

Section scanner.
Context `{UnicodeTables}.

Definition IsLetter (r : Z) : bool :=
  in_z 65 90 r || in_z 97 122 r || (128 <=? r)%Z && isLetterWide r.
Definition IsDigit (r : Z) : bool := in_z 48 57 r || (128 <=? r)%Z && isDigitWide r.
Definition IsNumber (r : Z) : bool := in_z 48 57 r || (128 <=? r)%Z && isNumberWide r.

(** ** State

    [s_ch] is the last rune [next] returned and [s_chb] its bytes; [s_buf] are
    the bytes of the buffer after it.  [s_tok] is the text of the token so far,
    [None] when no token text is collected.  [s_src], [s_errs] and the position
    [s_Line], [s_Column] of the original belong to all copies; [s_own] tells the
    original from a copy. *)

Record Scanner := mkScanner {
  s_ch : Z;
  s_chb : string;
  s_buf : string;
  s_line : Z;
  s_column : Z;
  s_lastLineLen : Z;
  s_tok : option string;
  s_own : bool;
  s_src : string;
  s_errs : list string;
  s_Line : Z;
  s_Column : Z
}.

Definition bufLen : nat := 1024.

(** [Scanner.Init] on a reader that holds [text]; [Column] is not reset. *)
Definition Init (text : string) (column : Z) : Scanner :=
  mkScanner NoChar "" "" 1 0 0 None true text [] 0 column.

Definition set_tok (t : option string) (s : Scanner) : Scanner :=
  mkScanner (s_ch s) (s_chb s) (s_buf s) (s_line s) (s_column s) (s_lastLineLen s) t (s_own s)
    (s_src s) (s_errs s) (s_Line s) (s_Column s).

Definition set_pos (ln col : Z) (s : Scanner) : Scanner :=
  if s_own s then
    mkScanner (s_ch s) (s_chb s) (s_buf s) (s_line s) (s_column s) (s_lastLineLen s) (s_tok s)
      (s_own s) (s_src s) (s_errs s) ln col
  else s.

(** The error handler [ParseExpr] installs: [lexer.Error]. *)
Definition Scanner_error (msg : string) (s : Scanner) : Scanner :=
  mkScanner (s_ch s) (s_chb s) (s_buf s) (s_line s) (s_column s) (s_lastLineLen s) (s_tok s)
    (s_own s) (s_src s)
    (s_errs s ++ [msg +:+ ": " +:+ pretty (s_Line s) +:+ ":" +:+ pretty (s_Column s)])
    (s_Line s) (s_Column s).

(** What [f] does on a copy: the shared fields keep its effects. *)
Definition on_copy {A} (f : Scanner -> A * Scanner) (s : Scanner) : A * Scanner :=
  let '(a, c) := f (mkScanner (s_ch s) (s_chb s) (s_buf s) (s_line s) (s_column s)
                      (s_lastLineLen s) (s_tok s) false (s_src s) (s_errs s)
                      (s_Line s) (s_Column s)) in
  (a, mkScanner (s_ch s) (s_chb s) (s_buf s) (s_line s) (s_column s) (s_lastLineLen s)
        (s_tok s) (s_own s) (s_src c) (s_errs c) (s_Line s) (s_Column s)).

(** ** Reading *)

(** [utf8.FullRune]: the bytes begin with a full encoding or an invalid one. *)
Definition FullRune (s : string) : bool :=
  match s with
  | EmptyString => false
  | String a s1 =>
      match utf8_class (N_of_ascii a) with
      | None => true
      | Some (w, lo, hi) =>
          (w <=? String.length s)%nat ||
          match s1 with
          | EmptyString => false
          | String b s2 =>
              negb (in_n lo hi (N_of_ascii b)) ||
              match s2 with EmptyString => false | String c _ => negb (cont c) end
          end
      end
  end.

(** The refilling loop of [next]: a second read happens only at the end of the
    text, where it leaves the buffer as it is. *)
Definition fill (buf src : string) : string * string :=
  let more := match buf with
    | EmptyString => true
    | String c _ => (128 <=? N_of_ascii c)%N && (String.length buf <? 4)%nat
                    && negb (FullRune buf)
    end in
  if more then
    let n := (bufLen - String.length buf)%nat in
    (buf +:+ str_take n src, str_drop n src)
  else (buf, src).

(** [next]: reads the next rune. *)
Definition next (s : Scanner) : Scanner :=
  let tok := (fun t => t +:+ s_chb s) <$> s_tok s in
  let '(buf, src) := fill (s_buf s) (s_src s) in
  match buf with
  | EmptyString =>
      mkScanner EOF "" "" (s_line s)
        (if String.eqb (s_chb s) "" then s_column s else s_column s + 1)%Z
        (s_lastLineLen s) tok (s_own s) src (s_errs s) (s_Line s) (s_Column s)
  | String _ _ =>
      let '(r, w) := DecodeRune buf in
      let s' := mkScanner (Z.of_N r) (str_take w buf) (str_drop w buf) (s_line s) (s_column s + 1)
                  (s_lastLineLen s) tok (s_own s) src (s_errs s) (s_Line s) (s_Column s) in
      if (r =? RuneError)%N && (w =? 1)%nat then Scanner_error "invalid UTF-8 encoding" s'
      else if (r =? 0)%N then Scanner_error "invalid character NUL" s'
      else if (r =? 10)%N then
        mkScanner (s_ch s') (s_chb s') (s_buf s') (s_line s' + 1) 0 (s_column s') tok (s_own s)
          src (s_errs s) (s_Line s) (s_Column s)
      else s'
  end.

(** [Scanner.Peek]: reads the very first character, ignoring a byte order mark. *)
Definition Peek (s : Scanner) : Scanner :=
  if (s_ch s =? NoChar)%Z then
    let s := next s in
    if (s_ch s =? 65279)%Z then next s else s
  else s.

(** [Scanner.Next]: the rune before the one it reads. *)
Definition Next (s : Scanner) : Z * Scanner :=
  let s := set_pos 0 (s_Column s) (set_tok None s) in
  let s := Peek s in
  let ch := s_ch s in
  (ch, if (ch =? EOF)%Z then s else next s).

Definition TokenText (s : Scanner) : string := default "" (s_tok s).

(** The bytes not passed yet: every loop below passes one of them in each
    round, so one round more than that is enough. *)
Definition remaining (s : Scanner) : nat :=
  (String.length (s_chb s) + String.length (s_buf s) + String.length (s_src s))%nat.

Fixpoint scan_while (fuel : nat) (p : Z -> bool) (s : Scanner) : Scanner :=
  match fuel with
  | O => s
  | S fuel => if p (s_ch s) then scan_while fuel p (next s) else s
  end.

Definition skip_while (p : Z -> bool) (s : Scanner) : Scanner :=
  scan_while (S (remaining s)) p s.

(** ** Numbers *)

Definition lower (ch : Z) : Z := Z.lor 32 ch.
Definition isDecimal (ch : Z) : bool := in_z 48 57 ch.
Definition isHex (ch : Z) : bool := isDecimal ch || in_z 97 102 (lower ch).

(** [digits]: what it saw (bit 0: a digit, bit 1: a separator) and the first
    digit that does not belong to the base, 0 when there is none. *)
Fixpoint digits_go (fuel : nat) (base digsep invalid : Z) (s : Scanner) : Z * Z * Scanner :=
  match fuel with
  | O => (digsep, invalid, s)
  | S fuel =>
      let ch := s_ch s in
      if (if (base <=? 10)%Z then isDecimal ch else isHex ch) || (ch =? rune "_")%Z then
        let ds := if (ch =? rune "_")%Z then 2%Z else 1%Z in
        let invalid :=
          if (base <=? 10)%Z && negb (ch =? rune "_")%Z && (rune "0" + base <=? ch)%Z
             && (invalid =? 0)%Z
          then ch else invalid in
        digits_go fuel base (Z.lor digsep ds) invalid (next s)
      else (digsep, invalid, s)
  end.

Definition digits (base invalid : Z) (s : Scanner) : Z * Z * Scanner :=
  digits_go (S (remaining s)) base 0 invalid s.

Definition litname (prefix : Z) : string :=
  if (prefix =? rune "x")%Z then "hexadecimal literal"
  else if (prefix =? rune "o")%Z || (prefix =? rune "0")%Z then "octal literal"
  else if (prefix =? rune "b")%Z then "binary literal"
  else "decimal literal".

(** [invalidSep(x) >= 0]: some [_] does not separate two digits; [d] is the
    class of the byte before [x] ([0] for a digit or prefix, [_], or [.]). *)
Fixpoint invalidSep_go (hex : bool) (d : Z) (x : string) : bool :=
  match x with
  | EmptyString => (d =? rune "_")%Z
  | String c x =>
      let c := rune c in
      if (c =? rune "_")%Z then negb (d =? rune "0")%Z || invalidSep_go hex c x
      else if isDecimal c || hex && isHex c then invalidSep_go hex (rune "0") x
      else (d =? rune "_")%Z || invalidSep_go hex (rune ".") x
  end.

Definition invalidSep (x : string) : bool :=
  match x with
  | String z (String c x') =>
      let x1 := lower (rune c) in
      if Ascii.eqb z "0" && ((x1 =? rune "x")%Z || (x1 =? rune "o")%Z || (x1 =? rune "b")%Z)
      then invalidSep_go (x1 =? rune "x")%Z (rune "0") x'
      else invalidSep_go false (rune ".") x
  | _ => invalidSep_go false (rune ".") x
  end.

(** [%q] of a printable ASCII rune. *)
Definition QuoteRune (ch : Z) : string := "'" +:+ rune_bytes ch +:+ "'".

Definition error_if (b : bool) (msg : string) (s : Scanner) : Scanner :=
  if b then Scanner_error msg s else s.

(** [scanNumber]: prefix, integer part, fraction, exponent and the checks on
    them; whether it is a float. *)
Definition number_prefix (s : Scanner) : Z * Z * Z * Scanner :=
  if (s_ch s =? rune "0")%Z then
    let s := next s in
    let c := lower (s_ch s) in
    if (c =? rune "x")%Z then (16%Z, rune "x", 0%Z, next s)
    else if (c =? rune "o")%Z then (8%Z, rune "o", 0%Z, next s)
    else if (c =? rune "b")%Z then (2%Z, rune "b", 0%Z, next s)
    else (8%Z, rune "0", 1%Z, s)
  else (10%Z, 0%Z, 0%Z, s).

Definition number_exponent (prefix digsep : Z) (float : bool) (s : Scanner) : bool * Z * Scanner :=
  let ch := s_ch s in
  let e := lower ch in
  if (e =? rune "e")%Z || (e =? rune "p")%Z then
    let s :=
      if (e =? rune "e")%Z && negb (prefix =? 0)%Z && negb (prefix =? rune "0")%Z
      then Scanner_error (QuoteRune ch +:+ " exponent requires decimal mantissa") s
      else if (e =? rune "p")%Z && negb (prefix =? rune "x")%Z
      then Scanner_error (QuoteRune ch +:+ " exponent requires hexadecimal mantissa") s
      else s in
    let s := next s in
    let s := if (s_ch s =? rune "+")%Z || (s_ch s =? rune "-")%Z then next s else s in
    let '(ds, _, s) := digits 10 0 s in
    (true, Z.lor digsep ds, error_if (Z.even ds) "exponent has no digits" s)
  else
    (float, digsep,
     error_if ((prefix =? rune "x")%Z && float) "hexadecimal mantissa requires a 'p' exponent" s).

Definition number_integer (seenDot : bool) (s : Scanner) : Z * Z * Z * Z * bool * Scanner :=
  if seenDot then (10, 0, 0, 0, true, s)%Z
  else
    let '(base, prefix, digsep, s) := number_prefix s in
    let '(ds, invalid, s) := digits base 0 s in
    if (s_ch s =? rune ".")%Z then (base, prefix, Z.lor digsep ds, invalid, true, next s)
    else (base, prefix, Z.lor digsep ds, invalid, false, s).

Definition number_fraction (base prefix digsep invalid : Z) (seenDot : bool) (s : Scanner) :
    Z * Z * Scanner :=
  if seenDot then
    let s := error_if ((prefix =? rune "o")%Z || (prefix =? rune "b")%Z)
               ("invalid radix point in " +:+ litname prefix) s in
    let '(ds, invalid, s) := digits base invalid s in
    (Z.lor digsep ds, invalid, s)
  else (digsep, invalid, s).

Definition number_tail (base prefix digsep invalid : Z) (seenDot : bool) (s : Scanner) :
    bool * Scanner :=
  let '(digsep, invalid, s) := number_fraction base prefix digsep invalid seenDot s in
  let s := error_if (Z.even digsep) (litname prefix +:+ " has no digits") s in
  let '(float, digsep, s) := number_exponent prefix digsep seenDot s in
  let s := error_if (negb float && negb (invalid =? 0)%Z)
             ("invalid digit " +:+ QuoteRune invalid +:+ " in " +:+ litname prefix) s in
  let s := error_if (Z.testbit digsep 1 && invalidSep (TokenText s))
             "'_' must separate successive digits" s in
  (float, s).

Definition scanNumber (seenDot : bool) (s : Scanner) : bool * Scanner :=
  let '(base, prefix, digsep, invalid, seenDot, s) := number_integer seenDot s in
  number_tail base prefix digsep invalid seenDot s.

(** ** Strings, characters and comments *)

Definition digitVal (ch : Z) : Z :=
  if in_z 48 57 ch then (ch - 48)%Z
  else if in_z 97 102 (lower ch) then (lower ch - 97 + 10)%Z
  else 16%Z.

Fixpoint scanDigits (base : Z) (n : nat) (s : Scanner) : Scanner :=
  match n with
  | O => s
  | S n' =>
      if (digitVal (s_ch s) <? base)%Z then scanDigits base n' (next s)
      else Scanner_error "invalid char escape" s
  end.

Definition scanEscape (quote : Z) (s : Scanner) : Scanner :=
  let s := next s in
  let ch := s_ch s in
  if existsb (Z.eqb ch) [rune "a"; rune "b"; rune "f"; rune "n"; rune "r"; rune "t"; rune "v";
                         rune "\"; quote] then next s
  else if in_z 48 55 ch then scanDigits 8 3 s
  else if (ch =? rune "x")%Z then scanDigits 16 2 (next s)
  else if (ch =? rune "u")%Z then scanDigits 16 4 (next s)
  else if (ch =? rune "U")%Z then scanDigits 16 8 (next s)
  else Scanner_error "invalid char escape" s.

(** The number of characters up to the closing quote. *)
Fixpoint scanString_go (fuel : nat) (quote : Z) (n : Z) (s : Scanner) : Z * Scanner :=
  match fuel with
  | O => (n, s)
  | S fuel =>
      let ch := s_ch s in
      if (ch =? quote)%Z then (n, s)
      else if (ch =? 10)%Z || (ch <? 0)%Z then (n, Scanner_error "literal not terminated" s)
      else if (ch =? rune "\")%Z then scanString_go fuel quote (n + 1) (scanEscape quote s)
      else scanString_go fuel quote (n + 1) (next s)
  end.

Definition scanString (quote : Z) (s : Scanner) : Z * Scanner :=
  let s := next s in scanString_go (S (remaining s)) quote 0 s.

Definition scanRawString (s : Scanner) : Scanner :=
  let s := skip_while (fun ch => negb (ch =? rune "`")%Z && negb (ch <? 0)%Z) (next s) in
  error_if (s_ch s <? 0)%Z "literal not terminated" s.

Definition scanChar (s : Scanner) : Scanner :=
  let '(n, s) := scanString (rune "'") s in
  error_if (negb (n =? 1)%Z) "invalid char literal" s.

Fixpoint general_comment (fuel : nat) (s : Scanner) : Scanner :=
  match fuel with
  | O => s
  | S fuel =>
      let ch0 := s_ch s in
      if (ch0 <? 0)%Z then Scanner_error "comment not terminated" s
      else
        let s := next s in
        if (ch0 =? rune "*")%Z && (s_ch s =? rune "/")%Z then next s
        else general_comment fuel s
  end.

Definition scanComment (s : Scanner) : Scanner :=
  if (s_ch s =? rune "/")%Z
  then skip_while (fun ch => negb (ch =? 10)%Z && negb (ch <? 0)%Z) (next s)
  else let s := next s in general_comment (S (remaining s)) s.

(** ** [Scan]

    The token is a rune, or one of the classes below. *)

Definition Ident : Z := -2.
Definition Int : Z := -3.
Definition Float : Z := -4.
Definition Char : Z := -5.
Definition Str : Z := -6.
Definition RawString : Z := -7.

Definition isIdentRune (ch : Z) (first : bool) : bool :=
  (ch =? rune "_")%Z || IsLetter ch || IsDigit ch && negb first.

Definition isWhitespace (ch : Z) : bool :=
  (ch =? 9)%Z || (ch =? 10)%Z || (ch =? 13)%Z || (ch =? 32)%Z.

(** The position of the lookahead becomes the position of the token. *)
Definition mark (s : Scanner) : Scanner :=
  let s := set_tok (Some "") s in
  if (0 <? s_column s)%Z then set_pos (s_line s) (s_column s) s
  else set_pos (s_line s - 1) (s_lastLineLen s) s.

Definition number_token (r : bool * Scanner) : Z * Scanner :=
  (if r.1 then Float else Int, r.2).

(** One round of [Scan]; [None] when it skipped a comment and starts again. *)
Definition scan_token (s : Scanner) : option Z * Scanner :=
  let s := mark (skip_while isWhitespace s) in
  let ch := s_ch s in
  if isIdentRune ch true then
    (Some Ident, skip_while (fun ch => isIdentRune ch false) (next s))
  else if isDecimal ch then
    let '(tok, s) := number_token (scanNumber false s) in (Some tok, s)
  else if (ch =? EOF)%Z then (Some EOF, s)
  else if (ch =? 34)%Z then (Some Str, next (scanString ch s).2)
  else if (ch =? rune "'")%Z then (Some Char, next (scanChar s))
  else if (ch =? rune ".")%Z then
    let s := next s in
    if isDecimal (s_ch s) then
      let '(tok, s) := number_token (scanNumber true s) in (Some tok, s)
    else (Some ch, s)
  else if (ch =? rune "/")%Z then
    let s := next s in
    if (s_ch s =? rune "/")%Z || (s_ch s =? rune "*")%Z
    then (None, scanComment (set_tok None s))
    else (Some ch, s)
  else if (ch =? rune "`")%Z then (Some RawString, next (scanRawString s))
  else (Some ch, next s).

Fixpoint scan_go (fuel : nat) (s : Scanner) : Z * Scanner :=
  match fuel with
  | O => (EOF, s)
  | S fuel =>
      match scan_token s with
      | (Some tok, s) => (tok, s)
      | (None, s) => scan_go fuel s
      end
  end.

Definition Scan (s : Scanner) : Z * Scanner :=
  let s := Peek s in
  let s := set_pos 0 (s_Column s) (set_tok None s) in
  scan_go (S (remaining s)) s.
End scanner.
