(* ===== verification/ScannerFacts.v ===== *)
(** * What scanning does to the text

    Every function of [Scanner] that reads is a sequence of [next] and of error
    reports ([steps]); so the text only shrinks, a token text only grows, and no
    byte appears that was not in the text.  The loops end at their condition and
    not for want of fuel. *)

From stdpp Require Import base tactics option list relations strings pretty.
From Stdlib Require Import ZArith Lia Ascii.
From S2P Require Import Prelude GoStrings Labels Strconv Scanner.

(** ** Strings and runes *)

Lemma str_take_drop n s : str_take n s +:+ str_drop n s = s.
Proof.
  revert s. induction n as [|n IH]; intros [|c s]; try done.
  cbn [str_take str_drop]. by rewrite str_app_cons, IH.
Qed.

Lemma str_len_take n s : String.length (str_take n s) = Nat.min n (String.length s).
Proof. revert s. induction n as [|n IH]; intros [|c s]; simpl; auto. Qed.

Lemma str_forallb_take p n s : str_forallb p s = true -> str_forallb p (str_take n s) = true.
Proof.
  rewrite <-(str_take_drop n s) at 1. rewrite str_forallb_app. by intros [? _]%andb_true_iff.
Qed.

Lemma str_forallb_drop p n s : str_forallb p s = true -> str_forallb p (str_drop n s) = true.
Proof.
  rewrite <-(str_take_drop n s) at 1. rewrite str_forallb_app. by intros [_ ?]%andb_true_iff.
Qed.

Lemma lor_ge a b : (a <= N.lor a b)%N.
Proof.
  assert (a = N.land a (N.lor a b)) as E; [|rewrite E at 1; apply N.land_le_r].
  apply N.bits_inj. intros n. rewrite N.land_spec, N.lor_spec. by destruct (N.testbit a n).
Qed.

Lemma shiftl_ge a k : (1 <= a -> 2 ^ k <= N.shiftl a k)%N.
Proof. intros Ha. rewrite N.shiftl_mul_pow2. nia. Qed.

Lemma byte_cases (p : N -> bool) (c : ascii) :
  forallb (fun n => p (N.of_nat n)) (seq 0 256) = true -> p (N_of_ascii c) = true.
Proof.
  intros Hp. rewrite forallb_forall in Hp.
  rewrite <-(N2Nat.id (N_of_ascii c)). apply Hp. apply in_seq.
  pose proof (N_ascii_bounded c). lia.
Qed.

Ltac n_to_prop :=
  repeat match goal with
  | H : (_ <? _)%N = true |- _ => apply N.ltb_lt in H
  | H : (_ <=? _)%N = true |- _ => apply N.leb_le in H
  | H : (_ =? _)%N = true |- _ => apply N.eqb_eq in H
  end.

(** The rune of an encoding is below 128 only if it is its single byte; an
    encoding takes at least one byte, and no more than there are. *)
Lemma utf8_class_spec n w lo hi :
  utf8_class n = Some (w, lo, hi) ->
  (w = 1%nat /\ n < 128)%N \/
  (w = 2%nat /\ 194 <= n <= 223)%N \/
  (w = 3%nat /\ 225 <= n <= 239)%N \/ (w = 3%nat /\ n = 224 /\ lo = 160 /\ hi = 191)%N \/
  (w = 4%nat /\ 241 <= n <= 244)%N \/ (w = 4%nat /\ n = 240 /\ lo = 144 /\ hi = 191)%N.
Proof.
  unfold utf8_class, in_n. intros E.
  repeat match type of E with
  | (if ?b then _ else _) = _ => destruct b eqn:?
  end; (injection E as <- <- <- || discriminate E); bool_to_prop; n_to_prop; lia.
Qed.

Lemma low_bits_ge (m lo hi k : N) (c : ascii) :
  forallb (fun n => negb ((lo <=? N.of_nat n)%N && (N.of_nat n <=? hi)%N)
                    || (k <=? N.land (N.of_nat n) m)%N) (seq 0 256) = true ->
  (lo <= N_of_ascii c <= hi)%N -> (k <= N.land (N_of_ascii c) m)%N.
Proof.
  intros Hb Hc.
  apply (byte_cases (fun n => negb ((lo <=? n)%N && (n <=? hi)%N) || (k <=? N.land n m)%N) c) in Hb.
  apply orb_true_iff in Hb as [Hb|Hb]; [|by apply N.leb_le].
  apply negb_true_iff, andb_false_iff in Hb as [Hb%N.leb_gt|Hb%N.leb_gt]; lia.
Qed.

Lemma in_n_spec lo hi n : in_n lo hi n = true -> (lo <= n <= hi)%N.
Proof. unfold in_n. intros [? ?]%andb_true_iff. n_to_prop. lia. Qed.

Ltac high_rune :=
  match goal with
  | H : (_ < 128)%N |- _ => exfalso; revert H; apply N.le_ngt
  end.

Lemma DecodeRune_spec c s r w :
  DecodeRune (String c s) = (r, w) ->
  (1 <= w <= String.length (String c s))%nat /\ ((r < 128)%N -> w = 1%nat /\ r = N_of_ascii c).
Proof.
  unfold DecodeRune. intros E.
  assert (forall s', (r, w) = (RuneError, 1%nat) ->
    (1 <= w <= String.length (String c s'))%nat /\ ((r < 128)%N -> w = 1%nat /\ r = N_of_ascii c))
    as Herr.
  { intros s' [= -> ->]. split; [simpl; lia|]. unfold RuneError. lia. }
  destruct (utf8_class (N_of_ascii c)) as [[[n lo] hi]|] eqn:Ec; [|by apply Herr].
  destruct (utf8_class_spec _ _ _ _ Ec)
    as [[-> ?]|[[-> Hr]|[[-> Hr]|[(-> & Hr & -> & ->)|[[-> Hr]|(-> & Hr & -> & ->)]]]]].
  - injection E as <- <-. split; [simpl; lia|done].
  - destruct s as [|b s]; [by apply Herr|].
    destruct (in_n lo hi (N_of_ascii b)); [|by apply Herr]. injection E as <- <-.
    split; [simpl; lia|]. intros H. high_rune. etrans; [|apply lor_ge].
    pose proof (low_bits_ge 31 194 223 2 c eq_refl Hr). rewrite N.shiftl_mul_pow2. lia.
  - destruct s as [|b [|d s]]; [by apply Herr..|].
    destruct (in_n lo hi (N_of_ascii b) && cont d); [|by apply Herr]. injection E as <- <-.
    split; [simpl; lia|]. intros H. high_rune. etrans; [|apply lor_ge].
    pose proof (low_bits_ge 15 225 239 1 c eq_refl Hr). rewrite N.shiftl_mul_pow2. lia.
  - destruct s as [|b [|d s]]; [by apply Herr..|].
    destruct (in_n _ _ (N_of_ascii b) && cont d) eqn:Eb; [|by apply Herr]. injection E as <- <-.
    split; [simpl; lia|]. intros H. high_rune.
    apply andb_true_iff in Eb as [Eb%in_n_spec _].
    rewrite N.lor_comm. etrans; [|apply lor_ge]. etrans; [|apply lor_ge].
    pose proof (low_bits_ge 63 160 191 32 b eq_refl Eb).
    unfold low6. rewrite N.shiftl_mul_pow2. lia.
  - destruct s as [|b [|d [|e s]]]; [by apply Herr..|].
    destruct (in_n lo hi (N_of_ascii b) && cont d && cont e); [|by apply Herr]. injection E as <- <-.
    split; [simpl; lia|]. intros H. high_rune. etrans; [|apply lor_ge].
    pose proof (low_bits_ge 7 241 244 1 c eq_refl Hr). rewrite N.shiftl_mul_pow2. lia.
  - destruct s as [|b [|d [|e s]]]; [by apply Herr..|].
    destruct (in_n _ _ (N_of_ascii b) && cont d && cont e) eqn:Eb; [|by apply Herr].
    injection E as <- <-.
    split; [simpl; lia|]. intros H. high_rune.
    apply andb_true_iff in Eb as [Eb _]. apply andb_true_iff in Eb as [Eb%in_n_spec _].
    rewrite N.lor_comm. etrans; [|apply lor_ge]. etrans; [|apply lor_ge].
    pose proof (low_bits_ge 63 144 191 16 b eq_refl Eb).
    unfold low6. rewrite N.shiftl_mul_pow2. lia.
Qed.

(** ** [next] *)

Lemma fill_spec buf src buf' src' :
  fill buf src = (buf', src') ->
  buf' +:+ src' = buf +:+ src /\ (buf' = "" -> buf = "" /\ src = "" /\ src' = "").
Proof.
  unfold fill. destruct (match buf with EmptyString => _ | _ => _ end) eqn:Em.
  - intros [= <- <-]. rewrite <-str_app_assoc, str_take_drop. split; [done|].
    destruct buf as [|c buf]; [|done]. destruct src as [|c src]; [done|].
    change (bufLen - String.length "")%nat with 1024%nat. by cbn [str_take String.append].
  - intros [= <- <-]. split; [done|]. intros ->. done.
Qed.

(** The bytes that are left, the lookahead first. *)
Definition rest (s : Scanner) : string := s_chb s +:+ s_buf s +:+ s_src s.

Lemma remaining_rest s : remaining s = String.length (rest s).
Proof. unfold remaining, rest. rewrite !str_len_app. lia. Qed.

(** A lookahead that was read is a rune with its bytes, or the end. *)
Definition read (s : Scanner) : Prop :=
  match s_chb s with
  | EmptyString => s_ch s = EOF /\ s_buf s = "" /\ s_src s = ""
  | String c b => (0 <= s_ch s)%Z /\ ((s_ch s < 128)%Z -> b = "" /\ s_ch s = rune c)
                  /\ ((rune c < 128)%Z -> s_ch s = rune c)
  end.

Lemma next_spec s :
  s_buf s +:+ s_src s = rest (next s) /\ read (next s) /\
  s_tok (next s) = (fun t => t +:+ s_chb s) <$> s_tok s.
Proof.
  unfold next. destruct (fill (s_buf s) (s_src s)) as [buf src] eqn:Ef.
  apply fill_spec in Ef as [Ef Ee]. destruct buf as [|c buf].
  { destruct (Ee eq_refl) as (-> & -> & ->). done. }
  destruct (DecodeRune (String c buf)) as [r w] eqn:Ed.
  assert ((rune c < 128)%Z -> Z.of_N r = rune c) as Hasc.
  { intros Hc. rewrite DecodeRune_ascii in Ed; [by injection Ed as <- _|].
    unfold is_ascii. apply N.ltb_lt. unfold rune in Hc. lia. }
  apply DecodeRune_spec in Ed as [Hw Hr]. unfold rest, read. rewrite <-Ef.
  assert (exists b, str_take w (String c buf) = String c b /\ (w = 1%nat -> b = "")) as (b & Et & Hb).
  { destruct w as [|w]; [lia|]. exists (str_take w buf). split; [done|]. by intros [= ->]. }
  assert (str_take w (String c buf) +:+ str_drop w (String c buf) +:+ src
          = String c buf +:+ src) as Ea by (by rewrite str_app_assoc, str_take_drop).
  assert ((0 <= Z.of_N r)%Z /\ ((Z.of_N r < 128)%Z -> b = "" /\ Z.of_N r = rune c)
          /\ ((rune c < 128)%Z -> Z.of_N r = rune c)) as Hc.
  { split_and!; [lia| |done]. intros Hl. destruct (Hr ltac:(lia)) as [-> ->]. by rewrite Hb. }
  destruct ((r =? RuneError)%N && (w =? 1)%nat); [|destruct (r =? 0)%N; [|destruct (r =? 10)%N]];
    cbn [Scanner_error s_chb s_buf s_src s_ch s_tok]; rewrite Et in *; by rewrite Ea.
Qed.

Lemma next_rest s : rest s = s_chb s +:+ rest (next s).
Proof. destruct (next_spec s) as (E & _). unfold rest at 1. by rewrite <-E. Qed.

Lemma next_read s : read (next s).
Proof. apply next_spec. Qed.

Lemma next_remaining s : (remaining (next s) + String.length (s_chb s) = remaining s)%nat.
Proof. rewrite !remaining_rest, (next_rest s), str_len_app. lia. Qed.

Lemma read_nonempty s : read s -> s_ch s <> EOF -> (1 <= String.length (s_chb s))%nat.
Proof. unfold read. destruct (s_chb s); simpl; [naive_solver|lia]. Qed.

Lemma next_progress s : read s -> s_ch s <> EOF -> (remaining (next s) < remaining s)%nat.
Proof. intros Hr Hc. pose proof (next_remaining s). pose proof (read_nonempty s Hr Hc). lia. Qed.

(** ** Sequences of reads *)

Inductive steps : Scanner -> Scanner -> Prop :=
  | steps_refl s : steps s s
  | steps_next s s' : steps (next s) s' -> steps s s'
  | steps_error msg s s' : steps (Scanner_error msg s) s' -> steps s s'.

Lemma steps_trans s1 s2 s3 : steps s1 s2 -> steps s2 s3 -> steps s1 s3.
Proof. induction 1; eauto using steps. Qed.

Lemma steps_one s : steps s (next s).
Proof. eauto using steps. Qed.

Lemma steps_err msg s : steps s (Scanner_error msg s).
Proof. eauto using steps. Qed.

Lemma steps_invariant (P : Scanner -> Prop) s s' :
  (forall s, P s -> P (next s)) -> (forall msg s, P s -> P (Scanner_error msg s)) ->
  steps s s' -> P s -> P s'.
Proof. induction 3; eauto. Qed.

Create HintDb steps discriminated.
#[export] Hint Constructors steps : steps.
#[export] Hint Resolve steps_one : steps.

Lemma steps_while fuel p s : steps s (scan_while fuel p s).
Proof. revert s. induction fuel as [|n IH]; intros s; simpl; [|destruct (p _)]; auto with steps. Qed.

Lemma steps_skip p s : steps s (skip_while p s).
Proof. apply steps_while. Qed.

Lemma steps_digits_go fuel base ds inv s : steps s (digits_go fuel base ds inv s).2.
Proof.
  revert ds inv s. induction fuel as [|n IH]; intros ds inv s; [constructor|].
  cbn [digits_go]. destruct (_ || _); [|constructor]. eapply steps_next, IH.
Qed.

Lemma steps_digits base inv s ds i s' : digits base inv s = (ds, i, s') -> steps s s'.
Proof.
  intros E. change s' with (ds, i, s').2. rewrite <-E. apply steps_digits_go.
Qed.

Lemma steps_error_if b msg s : steps s (error_if b msg s).
Proof. destruct b; [apply steps_err|apply steps_refl]. Qed.
#[export] Hint Resolve steps_skip steps_error_if : steps.

Ltac steps_tac :=
  repeat match goal with
  | |- steps ?s ?s => apply steps_refl
  | H : digits ?b ?i ?s = (?ds, ?j, ?s') |- steps ?s _ =>
      eapply steps_trans; [eapply steps_digits, H|]
  | |- steps ?s (next ?s) => apply steps_one
  | |- steps _ (next _) => eapply steps_trans; [|apply steps_one]
  | |- steps _ (Scanner_error _ _) => eapply steps_trans; [|apply steps_err]
  | |- steps _ (error_if _ _ _) => eapply steps_trans; [|apply steps_error_if]
  | |- steps _ (skip_while _ _) => eapply steps_trans; [|apply steps_skip]
  end.

Lemma steps_prefix s base prefix digsep s' :
  number_prefix s = (base, prefix, digsep, s') -> steps s s'.
Proof.
  unfold number_prefix. destruct (s_ch s =? rune "0")%Z; [|by intros [= <- <- <- <-]; steps_tac].
  repeat match goal with |- context [if ?b then _ else _] => destruct b end;
    intros [= <- <- <- <-]; steps_tac.
Qed.

Lemma steps_exponent prefix digsep fl s fl' ds' s' :
  number_exponent prefix digsep fl s = (fl', ds', s') -> steps s s'.
Proof.
  unfold number_exponent. destruct (_ || _); [|intros [= <- <- <-]; steps_tac].
  match goal with |- context [digits 10 0 ?x] => destruct (digits 10 0 x) as [[ds i] s1] eqn:Ed end.
  intros [= <- <- <-]. eapply steps_trans; [|apply steps_error_if].
  eapply steps_trans; [|eapply steps_digits, Ed].
  repeat match goal with |- context [if ?b then _ else _] => destruct b end; steps_tac.
Qed.

Section scanner.
Context `{UnicodeTables}.

Lemma steps_fraction base prefix ds inv dot s ds' inv' s' :
  number_fraction base prefix ds inv dot s = (ds', inv', s') -> steps s s'.
Proof.
  unfold number_fraction. destruct dot; [|intros [= <- <- <-]; steps_tac].
  match goal with |- context [digits ?b ?i ?x] => destruct (digits b i x) as [[d i2] s2] eqn:Ed end.
  intros [= <- <- <-]. eapply steps_trans; [apply steps_error_if|]. eapply steps_digits, Ed.
Qed.

Lemma steps_tail base prefix ds inv dot s : steps s (number_tail base prefix ds inv dot s).2.
Proof.
  unfold number_tail.
  destruct (number_fraction base prefix ds inv dot s) as [[ds2 inv2] s2] eqn:E2.
  apply steps_fraction in E2. eapply steps_trans; [exact E2|].
  match goal with |- context [number_exponent ?p ?d ?f ?x] =>
    destruct (number_exponent p d f x) as [[fl ds3] s3] eqn:E3 end.
  apply steps_exponent in E3. cbn [snd].
  eapply steps_trans; [apply steps_error_if|]. eapply steps_trans; [exact E3|]. steps_tac.
Qed.

(** A number that starts with a digit reads it. *)
Lemma steps_integer s base prefix ds inv dot s' :
  number_integer false s = (base, prefix, ds, inv, dot, s') ->
  steps s s' /\ (isDecimal (s_ch s) = true -> steps (next s) s').
Proof.
  unfold number_integer. destruct (number_prefix s) as [[[b p] d] s2] eqn:Ep.
  destruct (digits b 0 s2) as [[d2 i2] s3] eqn:Ed.
  assert (isDecimal (s_ch s) = true -> steps (next s) s3) as Hn.
  { intros Hd. change s3 with (d2, i2, s3).2. rewrite <-Ed. clear Ed. unfold number_prefix in Ep.
    destruct (s_ch s =? rune "0")%Z.
    - eapply steps_trans; [|apply steps_digits_go].
      repeat match type of Ep with (if ?b then _ else _) = _ => destruct b end;
        injection Ep as <- <- <- <-; steps_tac.
    - injection Ep as <- <- <- <-. unfold digits. cbn [digits_go]. change (10 <=? 10)%Z with true.
      cbv iota. rewrite Hd. cbn [orb]. apply steps_digits_go. }
  apply steps_prefix in Ep. apply steps_digits in Ed.
  destruct (s_ch s3 =? rune ".")%Z; intros [= <- <- <- <- <- <-].
  - split; [eapply steps_trans; [eapply steps_trans; [exact Ep|exact Ed]|apply steps_one]|].
    intros Hd. eapply steps_trans; [by apply Hn|apply steps_one].
  - split; [eapply steps_trans; [exact Ep|exact Ed]|done].
Qed.

Lemma steps_scanNumber seenDot s : steps s (scanNumber seenDot s).2.
Proof.
  unfold scanNumber. destruct seenDot; [apply steps_tail|].
  destruct (number_integer false s) as [[[[[b p] d] i] dot] s1] eqn:E.
  eapply steps_trans; [eapply steps_integer, E|apply steps_tail].
Qed.

Lemma steps_scanNumber_next s :
  isDecimal (s_ch s) = true -> steps (next s) (scanNumber false s).2.
Proof.
  intros Hd. unfold scanNumber.
  destruct (number_integer false s) as [[[[[b p] d] i] dot] s1] eqn:E.
  eapply steps_trans; [eapply steps_integer; [exact E|exact Hd]|apply steps_tail].
Qed.

Lemma steps_scanDigits base n s : steps s (scanDigits base n s).
Proof.
  revert s. induction n as [|n IH]; intros s; [constructor|]. cbn [scanDigits].
  destruct (_ <? _)%Z; [eapply steps_next, IH|apply steps_err].
Qed.

Lemma steps_scanEscape q s : steps s (scanEscape q s).
Proof.
  unfold scanEscape. eapply steps_next.
  repeat match goal with |- context [if ?b then _ else _] => destruct b end;
    steps_tac; try apply steps_scanDigits;
    (eapply steps_trans; [apply steps_one|apply steps_scanDigits]).
Qed.

Lemma steps_scanString_go fuel q n s : steps s (scanString_go fuel q n s).2.
Proof.
  revert n s. induction fuel as [|fuel IH]; intros n s; [constructor|]. cbn [scanString_go].
  destruct (_ =? q)%Z; [constructor|]. destruct (_ || _); [apply steps_err|].
  destruct (_ =? _)%Z; [|eapply steps_next, IH].
  eapply steps_trans; [apply steps_scanEscape|apply IH].
Qed.

Lemma steps_scanString q s : steps (next s) (scanString q s).2.
Proof. apply steps_scanString_go. Qed.

Lemma steps_scanRawString s : steps (next s) (scanRawString s).
Proof. unfold scanRawString. steps_tac. Qed.

Lemma steps_scanChar s : steps (next s) (scanChar s).
Proof.
  unfold scanChar. pose proof (steps_scanString (rune "'") s) as Hs.
  destruct (scanString (rune "'") s) as [n s']. cbn [snd] in Hs.
  eapply steps_trans; [exact Hs|steps_tac].
Qed.

Lemma steps_general_comment fuel s : steps s (general_comment fuel s).
Proof.
  revert s. induction fuel as [|fuel IH]; intros s; [constructor|]. cbn [general_comment].
  destruct (_ <? _)%Z; [apply steps_err|].
  destruct (_ && _); [steps_tac; apply steps_one|eapply steps_next, IH].
Qed.

Lemma steps_scanComment s : steps s (scanComment s).
Proof.
  unfold scanComment. destruct (_ =? _)%Z.
  - eapply steps_next, steps_skip.
  - eapply steps_next, steps_general_comment.
Qed.
End scanner.

(** ** Everything the lexer does with a scanner

    Besides reading: forgetting the token text, noting a position, and whatever
    happens to the shared fields while a copy is used. *)

Definition share (src : string) (errs : list string) (s : Scanner) : Scanner :=
  mkScanner (s_ch s) (s_chb s) (s_buf s) (s_line s) (s_column s) (s_lastLineLen s) (s_tok s)
    (s_own s) src errs (s_Line s) (s_Column s).

Definition suffix_of (s t : string) : Prop := exists p, t = p +:+ s.

Inductive move : Scanner -> Scanner -> Prop :=
  | move_next s : move s (next s)
  | move_error msg s : move s (Scanner_error msg s)
  | move_tok t s : move s (set_tok t s)
  | move_pos ln col s : move s (set_pos ln col s)
  | move_share src errs s :
      suffix_of src (s_src s) -> (exists es, errs = s_errs s ++ es) -> move s (share src errs s).

Definition moves : Scanner -> Scanner -> Prop := rtc move.

Lemma steps_moves s s' : steps s s' -> moves s s'.
Proof.
  induction 1; [apply rtc_refl|..]; (eapply rtc_l; [|eassumption]); constructor.
Qed.

Lemma moves_one s s' : move s s' -> moves s s'.
Proof. apply rtc_once. Qed.

Lemma moves_trans s1 s2 s3 : moves s1 s2 -> moves s2 s3 -> moves s1 s3.
Proof. intros. by etrans. Qed.

Lemma moves_invariant (P : Scanner -> Prop) s s' :
  (forall s s', move s s' -> P s -> P s') -> moves s s' -> P s -> P s'.
Proof. intros Hm. induction 1; eauto. Qed.

Lemma suffix_refl s : suffix_of s s.
Proof. by exists "". Qed.
Lemma suffix_trans s t u : suffix_of s t -> suffix_of t u -> suffix_of s u.
Proof. intros [p ->] [q ->]. exists (q +:+ p). by rewrite str_app_assoc. Qed.

Lemma next_shared s :
  suffix_of (s_src (next s)) (s_src s) /\ exists es, s_errs (next s) = s_errs s ++ es.
Proof.
  unfold next. destruct (fill (s_buf s) (s_src s)) as [buf src] eqn:Ef.
  assert (suffix_of src (s_src s)) as Hs.
  { unfold fill in Ef. destruct (match s_buf s with EmptyString => _ | _ => _ end).
    - injection Ef as <- <-. eexists. symmetry. apply str_take_drop.
    - injection Ef as <- <-. apply suffix_refl. }
  destruct buf as [|c buf]; [split; [done|]; exists []; by rewrite app_nil_r|].
  destruct (DecodeRune (String c buf)) as [r w].
  destruct (_ && _); [|destruct (r =? 0)%N; [|destruct (r =? 10)%N]];
    (split; [exact Hs|]); cbn; eauto; exists []; by rewrite app_nil_r.
Qed.

Lemma set_pos_fields ln col s :
  s_ch (set_pos ln col s) = s_ch s /\ s_chb (set_pos ln col s) = s_chb s /\
  s_buf (set_pos ln col s) = s_buf s /\ s_src (set_pos ln col s) = s_src s /\
  s_errs (set_pos ln col s) = s_errs s /\ s_tok (set_pos ln col s) = s_tok s.
Proof. unfold set_pos. by destruct (s_own s). Qed.

Lemma set_pos_rest ln col s : rest (set_pos ln col s) = rest s.
Proof. unfold rest. destruct (set_pos_fields ln col s) as (_ & -> & -> & -> & _). done. Qed.

Lemma set_pos_read ln col s : read (set_pos ln col s) <-> read s.
Proof. unfold read. destruct (set_pos_fields ln col s) as (-> & -> & -> & -> & _). done. Qed.

Lemma move_read s s' : move s s' -> read s -> read s'.
Proof.
  destruct 1 as [s|msg s|t s|ln col s|src errs s [p Hsrc] _]; intros Hr.
  - apply next_read.
  - exact Hr.
  - exact Hr.
  - by apply set_pos_read.
  - unfold read in *. cbn. destruct (s_chb s); [|done]. destruct Hr as (? & ? & Hr).
    rewrite Hr in Hsrc. destruct p; [|done]. split_and!; [done|done|]. symmetry. exact Hsrc.
Qed.

Lemma moves_read s s' : moves s s' -> read s -> read s'.
Proof. apply moves_invariant, move_read. Qed.

Lemma move_remaining s s' : move s s' -> (remaining s' <= remaining s)%nat.
Proof.
  destruct 1 as [s|msg s|t s|ln col s|src errs s [p Hsrc] _].
  - pose proof (next_remaining s). lia.
  - done.
  - done.
  - by rewrite !remaining_rest, set_pos_rest.
  - unfold remaining. cbn. rewrite Hsrc, str_len_app. lia.
Qed.

Lemma moves_remaining s s' : moves s s' -> (remaining s' <= remaining s)%nat.
Proof. induction 1 as [|s s1 s' Hm _ IH]; [done|]. apply move_remaining in Hm. lia. Qed.

Lemma move_bytes p s s' :
  move s s' -> str_forallb p (rest s) = true -> str_forallb p (rest s') = true.
Proof.
  destruct 1 as [s|msg s|t s|ln col s|src errs s [q Hsrc] _].
  - rewrite (next_rest s), str_forallb_app. by intros [_ ?]%andb_true_iff.
  - done.
  - done.
  - by rewrite set_pos_rest.
  - unfold rest. cbn. rewrite Hsrc, !str_forallb_app.
    rewrite !andb_true_iff. tauto.
Qed.

Lemma moves_bytes p s s' :
  moves s s' -> str_forallb p (rest s) = true -> str_forallb p (rest s') = true.
Proof.
  apply (moves_invariant (fun s => str_forallb p (rest s) = true)). intros ? ?. apply move_bytes.
Qed.

Lemma moves_errs s s' : moves s s' -> exists es, s_errs s' = s_errs s ++ es.
Proof.
  intros Hms. refine (moves_invariant (fun s' => exists es, s_errs s' = s_errs s ++ es) _ _ _ Hms _).
  - intros s1 s2 Hm [es He].
    assert (exists es', s_errs s2 = s_errs s1 ++ es') as [es' He'].
    { destruct Hm as [s1|msg s1|t s1|ln col s1|src errs s1 _ Herr].
      - apply next_shared.
      - by eexists.
      - exists []. by rewrite app_nil_r.
      - exists []. destruct (set_pos_fields ln col s1) as (_ & _ & _ & _ & -> & _).
        by rewrite app_nil_r.
      - exact Herr. }
    exists (es ++ es'). by rewrite He', He, app_assoc.
  - exists []. by rewrite app_nil_r.
Qed.

Lemma moves_src s s' : moves s s' -> suffix_of (s_src s') (s_src s).
Proof.
  intros Hms.
  refine (moves_invariant (fun s' => suffix_of (s_src s') (s_src s)) _ _ _ Hms (suffix_refl _)).
  intros s1 s2 Hm Hs. eapply suffix_trans; [|exact Hs].
  destruct Hm as [s1|msg s1|t s1|ln col s1|src errs s1 Hsrc _]; try apply suffix_refl.
  - apply next_shared.
  - destruct (set_pos_fields ln col s1) as (_ & _ & _ & -> & _). apply suffix_refl.
  - done.
Qed.

(** A copy: the original only sees what happens to the shared fields. *)
Lemma moves_copy {A} (f : Scanner -> A * Scanner) s :
  (forall c, rest c = rest s -> (read s -> read c) -> moves c (f c).2) ->
  moves s (on_copy f s).2 /\ s_ch (on_copy f s).2 = s_ch s /\ s_chb (on_copy f s).2 = s_chb s /\
  s_buf (on_copy f s).2 = s_buf s /\ s_tok (on_copy f s).2 = s_tok s.
Proof.
  intros Hf. unfold on_copy.
  match goal with |- context [f ?c] => specialize (Hf c eq_refl (fun Hr => Hr)); destruct (f c) as [a c'] end.
  cbn [snd] in *. split; [|done]. apply moves_one.
  apply moves_src in Hf as Hs. apply moves_errs in Hf. by apply move_share.
Qed.

(** ** The scanner before its first character *)

Definition ready (s : Scanner) : Prop := read s \/ s_ch s = NoChar /\ s_chb s = "".

Lemma read_started s : read s -> s_ch s <> NoChar.
Proof.
  unfold read, NoChar, EOF. destruct (s_chb s); [intros [-> _]; lia|]. intros [? _]. lia.
Qed.

Lemma Peek_read s : read s -> Peek s = s.
Proof. intros Hr. unfold Peek. by rewrite (proj2 (Z.eqb_neq _ _) (read_started s Hr)). Qed.

Lemma Peek_ready s : ready s -> moves s (Peek s) /\ read (Peek s).
Proof.
  intros [Hr|[Hc _]]; [by rewrite Peek_read; [split; [apply rtc_refl|]|]|].
  unfold Peek. rewrite Hc. change (NoChar =? NoChar)%Z with true. cbv iota zeta.
  destruct (s_ch (next s) =? 65279)%Z.
  - split; [apply steps_moves; do 2 eapply steps_next; apply steps_refl|apply next_read].
  - split; [apply moves_one, move_next|apply next_read].
Qed.

Lemma set_tok_ready t s : ready s -> ready (set_tok t s).
Proof. done. Qed.

Lemma set_pos_ready ln col s : ready s -> ready (set_pos ln col s).
Proof.
  unfold ready. rewrite set_pos_read. destruct (set_pos_fields ln col s) as (-> & -> & _). done.
Qed.

Lemma Next_spec s ch s' :
  ready s -> Next s = (ch, s') ->
  moves s s' /\ read s' /\ (read s -> ch = s_ch s) /\
  (ch <> EOF -> (remaining s' < remaining s)%nat) /\ (ch = EOF -> s_ch s' = EOF).
Proof.
  intros Hr. unfold Next. set (s1 := set_pos 0 (s_Column s) (set_tok None s)).
  assert (moves s s1) as H1
    by (eapply rtc_l; [apply (move_tok None)|]; apply moves_one, move_pos).
  assert (ready s1) as Hr1 by (by apply set_pos_ready).
  destruct (Peek_ready s1 Hr1) as [H2 Hp]. intros [= <- <-].
  assert (read s -> s_ch (Peek s1) = s_ch s) as Hch.
  { intros Hrs. rewrite Peek_read by (by apply set_pos_read).
    unfold s1. by destruct (set_pos_fields 0 (s_Column s) (set_tok None s)) as (-> & _). }
  apply moves_remaining in H1 as Hm1. apply moves_remaining in H2 as Hm2.
  destruct (Z.eqb_spec (s_ch (Peek s1)) EOF) as [He|He].
  - split_and!; [by eapply moves_trans|done|done|done|done].
  - pose proof (next_progress _ Hp He).
    split_and!; [|apply next_read|done|intros _; lia|done].
    eapply moves_trans; [exact H1|]. eapply moves_trans; [exact H2|]. apply moves_one, move_next.
Qed.

(** ** [Scan] *)

Lemma mark_moves s : moves s (mark s).
Proof.
  unfold mark. eapply rtc_l; [apply (move_tok (Some ""))|]. destruct (_ <? _)%Z;
    apply moves_one, move_pos.
Qed.

Lemma mark_fields s :
  s_ch (mark s) = s_ch s /\ s_chb (mark s) = s_chb s /\ s_tok (mark s) = Some "" /\
  rest (mark s) = rest s.
Proof.
  unfold mark. destruct (_ <? _)%Z;
    match goal with |- context [set_pos ?a ?b ?x] =>
      destruct (set_pos_fields a b x) as (-> & -> & _ & _ & _ & ->); rewrite set_pos_rest end; done.
Qed.

(** The token text begins with the bytes of the first rune. *)
Definition token_starts (b : string) (s : Scanner) : Prop := exists u, s_tok s = Some (b +:+ u).

Lemma steps_token_starts b s s' : steps s s' -> token_starts b s -> token_starts b s'.
Proof.
  apply steps_invariant; [|done]. intros s1 [u Hu].
  destruct (next_spec s1) as (_ & _ & E). rewrite Hu in E. eexists. rewrite E. simpl.
  by rewrite <-str_app_assoc.
Qed.

(** A rune is returned with its own bytes as token text, and no other token text
    starts with a dash. *)
Definition dash_free (r : Z) (s : Scanner) : Prop :=
  TokenText s = "" \/ (r = rune "-" /\ TokenText s = "-") \/
  exists c u, TokenText s = String c u /\ c <> "-"%char.

Lemma first_byte s : read s -> s_ch s <> EOF ->
  exists c b, s_chb s = String c b /\ (s_ch s <> rune "-" -> c <> "-"%char) /\
    (s_ch s = rune "-" -> c = "-"%char /\ b = "").
Proof.
  unfold read. intros Hr He. destruct (s_chb s) as [|c b]; [naive_solver|].
  destruct Hr as (_ & Hlt & Hgt). exists c, b. split_and!; [done| |].
  - intros Hd ->. apply Hd. by apply Hgt.
  - intros Hd. destruct Hlt as [-> Hc]; [rewrite Hd; vm_compute; reflexivity|].
    split; [|done]. rewrite Hd in Hc. unfold rune in Hc. apply N2Z.inj in Hc.
    by rewrite <-(ascii_N_embedding c), <-Hc.
Qed.

Lemma first_rune_dash_free s :
  read s -> s_ch s <> EOF -> s_tok s = Some "" -> dash_free (s_ch s) (next s).
Proof.
  intros Hr He Htok. destruct (first_byte s Hr He) as (c & b & Hc & Hne & Heq).
  unfold dash_free, TokenText. destruct (next_spec s) as (_ & _ & ->). rewrite Htok, Hc. simpl.
  destruct (Z.eq_dec (s_ch s) (rune "-")) as [Hd|Hd]; [|right; right; eauto].
  right. left. by destruct (Heq Hd) as [-> ->].
Qed.

Lemma other_token_dash_free s s' r :
  read s -> s_ch s <> EOF -> s_ch s <> rune "-" -> s_tok s = Some "" -> steps (next s) s' ->
  dash_free r s'.
Proof.
  intros Hr He Hd Htok Hst. destruct (first_byte s Hr He) as (c & b & Hc & Hne & _).
  apply (steps_token_starts (s_chb s)) in Hst as [u Hu].
  - unfold dash_free, TokenText. rewrite Hu, Hc. simpl. right. right. eauto.
  - destruct (next_spec s) as (_ & _ & Ht). rewrite Htok in Ht. exists "". rewrite Ht. simpl.
    by rewrite str_app_nil.
Qed.

Section scan.
Context `{UnicodeTables}.

Lemma scan_token_spec s o s' :
  read s -> scan_token s = (o, s') ->
  let s1 := mark (skip_while isWhitespace s) in
  read s1 /\ moves s s1 /\
  ((o = Some EOF /\ s' = s1) \/
   (o = Some (s_ch s1) /\ s' = next s1 /\ s_ch s1 <> EOF) \/
   (o = None /\ s_ch s1 <> EOF /\ moves (next s1) s') \/
   (exists tok, o = Some tok /\ (tok < 0)%Z /\ s_ch s1 <> EOF /\ s_ch s1 <> rune "-" /\
      steps (next s1) s')).
Proof.
  intros Hr E s1.
  assert (moves s s1) as Hm.
  { eapply moves_trans; [apply steps_moves, steps_skip|apply mark_moves]. }
  assert (read s1) as Hr1 by (by eapply moves_read).
  split; [done|]. split; [done|]. unfold scan_token in E. fold s1 in E.
  assert (forall tok s2, (tok < 0)%Z -> s_ch s1 <> EOF -> s_ch s1 <> rune "-" ->
    (Some tok, s2) = (o, s') -> steps (next s1) s2 ->
    exists tok, o = Some tok /\ (tok < 0)%Z /\ s_ch s1 <> EOF /\ s_ch s1 <> rune "-" /\
      steps (next s1) s') as Hcase by (intros tok s2 ? ? ? [= <- <-] ?; by exists tok).
  destruct (isIdentRune (s_ch s1) true) eqn:Ei.
  { do 3 right. eapply Hcase; [|..|exact E|apply steps_skip]; [done|..];
      intros Hc; rewrite Hc in Ei; vm_compute in Ei; discriminate. }
  destruct (isDecimal (s_ch s1)) eqn:Ed.
  { pose proof (steps_scanNumber_next s1 Ed) as Hn. destruct (scanNumber false s1) as [fl s2].
    do 3 right. eapply Hcase; [|..|exact E|exact Hn]; [by destruct fl|..];
      intros Hc; rewrite Hc in Ed; discriminate. }
  destruct (Z.eqb_spec (s_ch s1) EOF) as [He|He]; [left; by simplify_eq|].
  destruct (Z.eqb_spec (s_ch s1) 34) as [Hq|_].
  { pose proof (steps_scanString (s_ch s1) s1) as Hs. do 3 right.
    eapply Hcase; [|..|exact E|]; [done|done|by rewrite Hq|].
    eapply steps_trans; [exact Hs|apply steps_one]. }
  destruct (Z.eqb_spec (s_ch s1) (rune "'")) as [Hq|_].
  { do 3 right. eapply Hcase; [|..|exact E|]; [done|done|by rewrite Hq|].
    eapply steps_trans; [apply steps_scanChar|apply steps_one]. }
  destruct (Z.eqb_spec (s_ch s1) (rune ".")) as [Hq|_].
  { destruct (isDecimal (s_ch (next s1))); [|right; left; by simplify_eq].
    pose proof (steps_scanNumber true (next s1)) as Hn. destruct (scanNumber true (next s1)) as [fl s2].
    do 3 right. eapply Hcase; [|..|exact E|exact Hn]; [by destruct fl|done|by rewrite Hq]. }
  destruct (Z.eqb_spec (s_ch s1) (rune "/")) as [Hq|_].
  { destruct (_ || _); [|right; left; by simplify_eq].
    right. right. left. simplify_eq. split_and!; [done|done|].
    eapply rtc_l; [apply (move_tok None)|]. apply steps_moves, steps_scanComment. }
  destruct (Z.eqb_spec (s_ch s1) (rune "`")) as [Hq|_].
  { do 3 right. eapply Hcase; [|..|exact E|]; [done|done|by rewrite Hq|].
    eapply steps_trans; [apply steps_scanRawString|apply steps_one]. }
  right. left. by simplify_eq.
Qed.

Lemma scan_go_spec fuel s r s' :
  read s -> scan_go fuel s = (r, s') ->
  moves s s' /\ read s' /\ (r <> EOF -> (remaining s' < remaining s)%nat /\ dash_free r s').
Proof.
  revert s. induction fuel as [|fuel IH]; intros s Hr E.
  { injection E as <- <-. split_and!; [apply rtc_refl|done|done]. }
  cbn [scan_go] in E. destruct (scan_token s) as [o s2] eqn:Et.
  destruct (scan_token_spec _ _ _ Hr Et) as (Hr1 & Hm1 & Hcase).
  set (s1 := mark (skip_while isWhitespace s)) in *.
  destruct (mark_fields (skip_while isWhitespace s)) as (_ & _ & Htok & _). fold s1 in Htok.
  apply moves_remaining in Hm1 as Hrem1.
  assert (moves (next s1) s2 -> moves s s2) as Htrans.
  { intros Hm. eapply moves_trans; [exact Hm1|]. eapply rtc_l; [apply move_next|exact Hm]. }
  destruct Hcase as [[-> ->]|[(-> & -> & He)|[(-> & He & Hm2)|(tok & -> & Ht & He & Hd & Hst)]]].
  - by injection E as <- <-.
  - injection E as <- <-. pose proof (next_progress _ Hr1 He).
    split_and!; [apply Htrans, rtc_refl|apply next_read|].
    intros _. split; [lia|]. by apply first_rune_dash_free.
  - apply IH in E as (Hm3 & Hr3 & Hres); [|eapply moves_read; [exact Hm2|apply next_read]].
    pose proof (next_progress _ Hr1 He). apply moves_remaining in Hm2 as Hrem2.
    split_and!; [eapply moves_trans; [by apply Htrans|done]|done|].
    intros Hne. destruct (Hres Hne). split; [lia|done].
  - injection E as <- <-. pose proof (next_progress _ Hr1 He).
    apply steps_moves in Hst as Hm2. apply moves_remaining in Hm2 as Hrem2.
    split_and!; [by apply Htrans|eapply moves_read; [exact Hm2|apply next_read]|].
    intros _. split; [lia|]. by eapply other_token_dash_free.
Qed.

Lemma Scan_spec s r s' :
  ready s -> Scan s = (r, s') ->
  moves s s' /\ read s' /\ (r <> EOF -> (remaining s' < remaining s)%nat /\ dash_free r s').
Proof.
  intros Hr E. unfold Scan in E. destruct (Peek_ready s Hr) as [Hp Hrp].
  set (s1 := set_pos 0 (s_Column (Peek s)) (set_tok None (Peek s))) in *.
  assert (moves (Peek s) s1) as H1
    by (eapply rtc_l; [apply (move_tok None)|]; apply moves_one, move_pos).
  apply scan_go_spec in E as (Hm & Hr' & Hres); [|by apply set_pos_read].
  apply moves_remaining in H1 as Hrem1. apply moves_remaining in Hp as Hremp.
  split_and!; [eapply moves_trans; [exact Hp|]; by eapply moves_trans|done|].
  intros Hne. destruct (Hres Hne). split; [lia|done].
Qed.

(** A dash comes from the text. *)
Definition no_dash (s : Scanner) : Prop :=
  str_forallb (fun c => negb (Ascii.eqb c "-")) (rest s) = true.

Lemma moves_no_dash s s' : moves s s' -> no_dash s -> no_dash s'.
Proof. apply moves_bytes. Qed.

Lemma no_dash_rune s : read s -> no_dash s -> s_ch s <> rune "-".
Proof.
  intros Hr Hn Hd. destruct (first_byte s Hr) as (c & b & Hc & _ & Heq); [by rewrite Hd|].
  destruct (Heq Hd) as [-> ->]. unfold no_dash, rest in Hn. by rewrite Hc in Hn.
Qed.

Lemma scan_go_no_dash fuel s r s' :
  read s -> no_dash s -> scan_go fuel s = (r, s') -> r <> rune "-".
Proof.
  revert s. induction fuel as [|fuel IH]; intros s Hr Hn E; [by injection E as <- <-|].
  cbn [scan_go] in E. destruct (scan_token s) as [o s2] eqn:Et.
  destruct (scan_token_spec _ _ _ Hr Et) as (Hr1 & Hm1 & Hcase).
  apply (moves_no_dash _ _ Hm1) in Hn as Hn1.
  destruct Hcase as [[-> _]|[(-> & -> & He)|[(-> & He & Hm2)|(tok & -> & Ht & _)]]].
  - by injection E as <- <-.
  - injection E as <- <-. by apply no_dash_rune.
  - apply IH in E; [done|eapply moves_read; [exact Hm2|apply next_read]|].
    eapply moves_no_dash; [exact Hm2|]. eapply moves_no_dash; [apply moves_one, move_next|done].
  - injection E as <- <-. intros ->. vm_compute in Ht. discriminate.
Qed.

Lemma Scan_no_dash s r s' : ready s -> no_dash s -> Scan s = (r, s') -> r <> rune "-".
Proof.
  intros Hr Hn E. destruct (Peek_ready s Hr) as [Hp Hrp].
  eapply scan_go_no_dash; [| |exact E]; [by apply set_pos_read|].
  eapply moves_no_dash; [|exact Hn]. eapply moves_trans; [exact Hp|].
  eapply rtc_l; [apply (move_tok None)|]; apply moves_one, move_pos.
Qed.
End scan.
