(* ===== verification/CookieCipher.v ===== *)
(** * The cookie cipher: [authentication/openshift/cookie.go]

    [Encrypt] and [Decrypt] on models of [encoding/base64] and of the counter mode
    of [crypto/cipher].  The block cipher of [crypto/aes] is the class [Aes]. *)

From stdpp Require Import base tactics option list strings pretty.
From Stdlib Require Import ZArith Lia Ascii.
From S2P Require Import Prelude GoStrings Labels Strconv Scanner ScannerFacts.

Local Open Scope N_scope.

(** ** [base64.StdEncoding] *)

Definition base64_char (n : N) : ascii :=
  ascii_of_N (if n <? 26 then 65 + n else if n <? 52 then 71 + n else if n <? 62 then n - 4
              else if n =? 62 then 43 else 47).

Definition base64_digit (c : ascii) : option N :=
  let n := N_of_ascii c in
  if in_n 65 90 n then Some (n - 65)
  else if in_n 97 122 n then Some (n - 71)
  else if in_n 48 57 n then Some (n + 4)
  else if n =? 43 then Some 62
  else if n =? 47 then Some 63
  else None.

(** Four digits of 24 bits, and the three bytes of them. *)
Definition digits_of (v : N) : ascii * ascii * ascii * ascii :=
  (base64_char (v / 262144), base64_char (v / 4096 mod 64), base64_char (v / 64 mod 64),
   base64_char (v mod 64)).
Definition bits_of (a b c : N) : N := a * 65536 + b * 256 + c.
Definition bytes_of (v : N) : string :=
  String (byte (v / 65536)) (String (byte (v / 256 mod 256)) (String (byte (v mod 256)) "")).

Fixpoint EncodeToString (s : string) : string :=
  match s with
  | String a (String b (String c s)) =>
      let '(w, x, y, z) := digits_of (bits_of (N_of_ascii a) (N_of_ascii b) (N_of_ascii c)) in
      String w (String x (String y (String z (EncodeToString s))))
  | String a (String b EmptyString) =>
      let '(w, x, y, _) := digits_of (bits_of (N_of_ascii a) (N_of_ascii b) 0) in
      String w (String x (String y "="))
  | String a EmptyString =>
      let '(w, x, _, _) := digits_of (bits_of (N_of_ascii a) 0 0) in
      String w (String x "==")
  | EmptyString => ""
  end.

Definition corrupt : string := "illegal base64 data".

(** Groups of four digits; padding ends the text. *)
Fixpoint decode_groups (s : string) : result string :=
  match s with
  | EmptyString => Ok ""
  | String w (String x (String y (String z s))) =>
      match base64_digit w, base64_digit x with
      | Some w, Some x =>
          match base64_digit y, base64_digit z with
          | Some y, Some z =>
              t ← decode_groups s;
              Ok (bytes_of (w * 262144 + x * 4096 + y * 64 + z) +:+ t)
          | Some y, None =>
              if Ascii.eqb z "=" && String.eqb s "" then
                Ok (str_take 2 (bytes_of (w * 262144 + x * 4096 + y * 64)))
              else Err corrupt
          | None, _ =>
              if Ascii.eqb y "=" && Ascii.eqb z "=" && String.eqb s "" then
                Ok (str_take 1 (bytes_of (w * 262144 + x * 4096)))
              else Err corrupt
          end
      | _, _ => Err corrupt
      end
  | _ => Err corrupt
  end.

Fixpoint str_filter (p : ascii -> bool) (s : string) : string :=
  match s with
  | EmptyString => ""
  | String c s => if p c then String c (str_filter p s) else str_filter p s
  end.

(** Line breaks are skipped. *)
Definition no_break (c : ascii) : bool := negb (Ascii.eqb c (byte 10) || Ascii.eqb c (byte 13)).

Definition DecodeString (s : string) : result string := decode_groups (str_filter no_break s).

Lemma byte_value n : n < 256 -> N_of_ascii (byte n) = n.
Proof. intros Hn. unfold byte. by apply N_ascii_embedding. Qed.

Lemma byte_of_ascii c : byte (N_of_ascii c) = c.
Proof. unfold byte. apply ascii_N_embedding. Qed.

Definition digit_ok (n : N) : bool :=
  no_break (base64_char n) && negb (Ascii.eqb (base64_char n) "=") &&
  match base64_digit (base64_char n) with Some m => m =? n | None => false end.

Lemma base64_char_spec n : n < 64 ->
  no_break (base64_char n) = true /\ base64_digit (base64_char n) = Some n.
Proof.
  intros Hn.
  assert (forallb digit_ok (N.of_nat <$> seq 0 64) = true) as Hall by (vm_compute; reflexivity).
  rewrite forallb_forall in Hall. assert (digit_ok n = true) as Hok.
  { apply Hall, list_elem_of_In, list_elem_of_fmap. exists (N.to_nat n).
    split; [by rewrite N2Nat.id|]. apply elem_of_seq. lia. }
  unfold digit_ok in Hok. apply andb_true_iff in Hok as [Hok Hd].
  apply andb_true_iff in Hok as [Hb _]. split; [done|].
  destruct (base64_digit _); [|done]. f_equal. by apply N.eqb_eq.
Qed.

Lemma digits_bits v : v < 16777216 ->
  v / 262144 < 64 /\ v / 4096 mod 64 < 64 /\ v / 64 mod 64 < 64 /\ v mod 64 < 64 /\
  v / 262144 * 262144 + (v / 4096 mod 64) * 4096 + (v / 64 mod 64) * 64 + v mod 64 = v.
Proof.
  intros Hv. replace (v / 262144) with (v / 64 / 64 / 64)
    by (by rewrite !N.Div0.div_div).
  replace (v / 4096) with (v / 64 / 64) by (by rewrite N.Div0.div_div).
  assert (forall x, x = 64 * (x / 64) + x mod 64 /\ x mod 64 < 64) as Hdm.
  { intros x. split; [by apply N.div_mod'|by apply N.mod_lt]. }
  pose proof (Hdm v) as [E0 L0]. pose proof (Hdm (v / 64)) as [E1 L1].
  pose proof (Hdm (v / 64 / 64)) as [E2 L2]. clear Hdm. revert E0 L0 E1 L1 E2 L2.
  generalize (v / 64 / 64 mod 64) (v / 64 mod 64) (v mod 64) (v / 64 / 64 / 64).
  generalize (v / 64 / 64). generalize (v / 64). intros a b m2 m1 m0 c. lia.
Qed.

Lemma bytes_bits a b c :
  bytes_of (bits_of (N_of_ascii a) (N_of_ascii b) (N_of_ascii c)) = String a (String b (String c "")).
Proof.
  pose proof (N_ascii_bounded a). pose proof (N_ascii_bounded b). pose proof (N_ascii_bounded c).
  unfold bytes_of, bits_of. repeat f_equal.
  all: match goal with |- byte ?x = ?c => transitivity (byte (N_of_ascii c));
    [f_equal|apply byte_of_ascii] end.
  - symmetry. apply N.div_unique with (N_of_ascii b * 256 + N_of_ascii c); lia.
  - rewrite <- (N.div_unique _ 256 (N_of_ascii a * 256 + N_of_ascii b) (N_of_ascii c)) by lia.
    symmetry. apply N.mod_unique with (N_of_ascii a); lia.
  - symmetry. apply N.mod_unique with (N_of_ascii a * 256 + N_of_ascii b); lia.
Qed.

Lemma bits_bound a b c :
  bits_of (N_of_ascii a) (N_of_ascii b) (N_of_ascii c) < 16777216.
Proof.
  pose proof (N_ascii_bounded a). pose proof (N_ascii_bounded b). pose proof (N_ascii_bounded c).
  unfold bits_of. lia.
Qed.

(** A digit read back. *)
Ltac read_digit n :=
  let Hb := fresh in let Hd := fresh in
  destruct (base64_char_spec n) as [Hb Hd]; [lia|]; cbn [str_filter]; rewrite Hb; clear Hb.

Lemma decode_digits v s t :
  v < 16777216 -> DecodeString s = Ok t ->
  (let '(w, x, y, z) := digits_of v in
   DecodeString (String w (String x (String y (String z s)))) = Ok (bytes_of v +:+ t)) /\
  (v mod 64 = 0 -> let '(w, x, y, _) := digits_of v in
   DecodeString (String w (String x (String y "="))) = Ok (str_take 2 (bytes_of v))) /\
  (v mod 4096 = 0 -> let '(w, x, _, _) := digits_of v in
   DecodeString (String w (String x "==")) = Ok (str_take 1 (bytes_of v))).
Proof.
  intros Hv Ht. destruct (digits_bits v Hv) as (H1 & H2 & H3 & H4 & Hsum).
  unfold DecodeString, digits_of in *. cbn [str_filter].
  destruct (base64_char_spec _ H1) as [-> E1]. destruct (base64_char_spec _ H2) as [-> E2].
  destruct (base64_char_spec _ H3) as [-> E3]. destruct (base64_char_spec _ H4) as [-> E4].
  change (no_break "=") with true. cbv iota. split_and!.
  - cbn [decode_groups]. rewrite E1, E2, E3, E4, Ht. cbn. by rewrite Hsum.
  - intros Hz. cbn [decode_groups]. rewrite E1, E2, E3. change (base64_digit "=") with (@None N).
    change (Ascii.eqb "=" "=" && String.eqb "" "") with true. cbv iota.
    by rewrite Hz, N.add_0_r in Hsum; rewrite Hsum.
  - intros Hz. cbn [decode_groups]. rewrite E1, E2. change (base64_digit "=") with (@None N).
    change (Ascii.eqb "=" "=" && Ascii.eqb "=" "=" && String.eqb "" "") with true. cbv iota.
    change 4096 with (64 * 64) in Hz. rewrite N.Div0.mod_mul_r in Hz.
    apply N.eq_add_0 in Hz as [Hz0 Hz1]. apply N.eq_mul_0_r in Hz1; [|done].
    by rewrite Hz0, Hz1, N.mul_0_l, !N.add_0_r in Hsum; rewrite Hsum.
Qed.

(** The round trip of the encoding. *)
Lemma Decode_Encode s : DecodeString (EncodeToString s) = Ok s.
Proof.
  assert (forall n s, (String.length s <= n)%nat -> DecodeString (EncodeToString s) = Ok s) as Hn;
    [|by eapply Hn].
  intros n. induction n as [|n IH]; intros [|a [|b [|c t]]] Hl; cbn [String.length] in Hl;
    try lia; try done.
  - destruct (decode_digits (bits_of (N_of_ascii a) 0 0) "" "") as (_ & _ & H1);
      [apply (bits_bound a (byte 0) (byte 0))|done|].
    cbn [EncodeToString]. unfold digits_of in *. rewrite H1.
    + pose proof (bytes_bits a (byte 0) (byte 0)) as E.
      change (N_of_ascii (byte 0)) with 0 in E. by rewrite E.
    + unfold bits_of. replace (N_of_ascii a * 65536 + 0 * 256 + 0) with (N_of_ascii a * 16 * 4096) by lia.
      apply N.Div0.mod_mul.
  - destruct (decode_digits (bits_of (N_of_ascii a) (N_of_ascii b) 0) "" "") as (_ & H1 & _);
      [apply (bits_bound a b (byte 0))|done|].
    cbn [EncodeToString]. unfold digits_of in *. rewrite H1.
    + pose proof (bytes_bits a b (byte 0)) as E.
      change (N_of_ascii (byte 0)) with 0 in E. by rewrite E.
    + unfold bits_of. replace (N_of_ascii a * 65536 + N_of_ascii b * 256 + 0)
        with ((N_of_ascii a * 1024 + N_of_ascii b * 4) * 64) by lia.
      apply N.Div0.mod_mul.
  - destruct (decode_digits (bits_of (N_of_ascii a) (N_of_ascii b) (N_of_ascii c))
      (EncodeToString t) t) as (H1 & _ & _); [apply bits_bound|apply IH; lia|].
    cbn [EncodeToString]. unfold digits_of in *. by rewrite H1, bytes_bits.
Qed.

(** The encoding is ASCII. *)
Lemma base64_char_ascii n : is_ascii (base64_char n) = true.
Proof.
  assert (forall m, m < 128 -> is_ascii (ascii_of_N m) = true) as Ha.
  { intros m Hm. unfold is_ascii. rewrite N_ascii_embedding by lia. by apply N.ltb_lt. }
  unfold base64_char. apply Ha.
  destruct (N.ltb_spec n 26); [lia|]. destruct (N.ltb_spec n 52); [lia|].
  destruct (N.ltb_spec n 62); [lia|]. destruct (n =? 62); lia.
Qed.

Lemma EncodeToString_ascii s : ascii_only (EncodeToString s) = true.
Proof.
  assert (forall n s, (String.length s <= n)%nat -> ascii_only (EncodeToString s) = true) as Hn;
    [|by eapply Hn].
  unfold ascii_only. intros n. induction n as [|n IH]; intros [|a [|b [|c t]]] Hl;
    cbn [String.length] in Hl; try lia; try done.
  all: cbn [EncodeToString digits_of str_forallb]; rewrite !base64_char_ascii; cbn [andb];
    try reflexivity.
  apply IH. lia.
Qed.

(** ** Counter mode *)

Definition BlockSize : nat := 16.

(** [aes.NewCipher]: the block function of a key of 16, 24 or 32 bytes. *)
Class Aes := {
  aes_block : string -> string -> string;
  aes_block_length : forall key b,
    String.length b = BlockSize -> String.length (aes_block key b) = BlockSize
}.

Fixpoint big_endian (n : nat) (v : N) : string :=
  match n with
  | O => ""
  | S n => big_endian n (v / 256) +:+ String (byte (v mod 256)) ""
  end.

Fixpoint number_of (acc : N) (s : string) : N :=
  match s with EmptyString => acc | String c s => number_of (acc * 256 + N_of_ascii c) s end.

Fixpoint xor_bytes (s k : string) : string :=
  match s, k with
  | String a s, String b k => String (byte (N.lxor (N_of_ascii a) (N_of_ascii b))) (xor_bytes s k)
  | _, _ => ""
  end.

Section cipher.
Context `{Aes}.

(** The blocks of the counters from [ctr] on, which wraps at 128 bits. *)
Fixpoint key_stream (blocks : nat) (key : string) (ctr : N) : string :=
  match blocks with
  | O => ""
  | S n => aes_block key (big_endian BlockSize (ctr mod 2 ^ 128)) +:+ key_stream n key (ctr + 1)
  end.

(** [cipher.NewCTR] with [XORKeyStream]. *)
Definition XORKeyStream (key iv s : string) : string :=
  xor_bytes s (key_stream (S (String.length s / BlockSize)) key (number_of 0 iv)).

(** ** [Cipher] *)

Definition Cipher : Type := string.

Definition NewCipher (secret : string) : result Cipher :=
  if bool_decide (String.length secret ∈ [16; 24; 32]%nat) then Ok secret
  else Err ("crypto/aes: invalid key size " +:+ pretty (String.length secret)).

(** [random] is what [rand.Reader] gives for the initialization vector. *)
Definition Encrypt (c : Cipher) (random : result string) (value : string) : result string :=
  iv ← wrap_err "failed to create initialization vector" random;
  Ok (EncodeToString (iv +:+ XORKeyStream c iv value)).

Definition Decrypt (c : Cipher) (s : string) : result string :=
  encrypted ← wrap_err "failed to decrypt cookie value %s" (DecodeString s);
  if (String.length encrypted <? BlockSize)%nat then
    Err ("encrypted cookie value should be at least 16 bytes, but is only "
         +:+ pretty (String.length encrypted) +:+ " bytes")
  else Ok (XORKeyStream c (str_take BlockSize encrypted) (str_drop BlockSize encrypted)).

Lemma big_endian_length n v : String.length (big_endian n v) = n.
Proof.
  revert v. induction n as [|n IH]; intros v; [done|]. cbn [big_endian].
  rewrite str_len_app, IH. cbn. lia.
Qed.

Lemma key_stream_length n key ctr : String.length (key_stream n key ctr) = (n * BlockSize)%nat.
Proof.
  revert ctr. induction n as [|n IH]; intros ctr; [done|]. cbn [key_stream].
  rewrite str_len_app, IH, aes_block_length by apply big_endian_length. done.
Qed.

Lemma xor_bytes_length s k :
  (String.length s <= String.length k)%nat -> String.length (xor_bytes s k) = String.length s.
Proof.
  revert k. induction s as [|a s IH]; intros [|b k] Hl; simpl in *; try lia. rewrite IH; lia.
Qed.

Lemma lxor_byte a b : a < 256 -> b < 256 -> N.lxor a b < 256.
Proof.
  intros Ha Hb. change 256 with (2 ^ 8) in *.
  assert (forall x, x < 2 ^ 8 -> N.log2 x < 8) as Hlog.
  { intros x Hx. destruct (N.eq_0_gt_0_cases x) as [->|Hp]; [done|by apply N.log2_lt_pow2]. }
  destruct (N.eq_0_gt_0_cases (N.lxor a b)) as [->|Hp]; [done|]. apply N.log2_lt_pow2; [done|].
  pose proof (N.log2_lxor a b). pose proof (Hlog a Ha). pose proof (Hlog b Hb). lia.
Qed.

Lemma xor_bytes_twice s k :
  (String.length s <= String.length k)%nat -> xor_bytes (xor_bytes s k) k = s.
Proof.
  revert k. induction s as [|a s IH]; intros [|b k] Hl; simpl in *; try lia; [done..|].
  rewrite IH by lia. f_equal.
  rewrite byte_value by (apply lxor_byte; apply N_ascii_bounded). rewrite N.lxor_assoc, N.lxor_nilpotent, N.lxor_0_r.
  apply byte_of_ascii.
Qed.

Lemma key_stream_enough key ctr s :
  (String.length s <= String.length (key_stream (S (String.length s / BlockSize)) key ctr))%nat.
Proof.
  rewrite key_stream_length. pose proof (Nat.mul_succ_div_gt (String.length s) BlockSize).
  unfold BlockSize in *. lia.
Qed.

Lemma XORKeyStream_length key iv s : String.length (XORKeyStream key iv s) = String.length s.
Proof. apply xor_bytes_length, key_stream_enough. Qed.

Lemma XORKeyStream_twice key iv s : XORKeyStream key iv (XORKeyStream key iv s) = s.
Proof.
  unfold XORKeyStream at 1. rewrite XORKeyStream_length. apply xor_bytes_twice, key_stream_enough.
Qed.

Lemma str_take_app s t : str_take (String.length s) (s +:+ t) = s.
Proof. induction s as [|c s IH]; [by destruct t|]. simpl. by rewrite IH. Qed.

Lemma Decrypt_Encrypt (c : Cipher) iv value :
  String.length iv = BlockSize ->
  exists s, Encrypt c (Ok iv) value = Ok s /\ Decrypt c s = Ok value.
Proof.
  intros Hiv. eexists. split; [reflexivity|].
  unfold Decrypt. rewrite Decode_Encode. cbn [wrap_err mbind result_bind].
  rewrite str_len_app, Hiv. rewrite (proj2 (Nat.ltb_ge _ _)) by lia.
  rewrite <- Hiv at 1 2. rewrite str_take_app, str_drop_app. by rewrite XORKeyStream_twice.
Qed.

(** What [Encrypt] writes into a cookie, [Decrypt] reads back, for every key
    the cipher accepts, every initialization vector and every value, the empty
    one and those with bytes that are not text included.  [Encrypt] fails only
    when there is no randomness, and [Decrypt] refuses a value that is not base64
    or shorter than the vector. *)
Theorem cookie_round_trip (secret : string) (c : Cipher) (random : result string) (value : string) :
  NewCipher secret = Ok c ->
  match random with
  | Ok iv => String.length iv = BlockSize ->
      exists s, Encrypt c random value = Ok s /\ Decrypt c s = Ok value
  | Err e => Encrypt c random value = Err ("failed to create initialization vector: " +:+ e)
  end /\
  (forall s, is_ok (Decrypt c s) = true <->
     exists e, DecodeString s = Ok e /\ (BlockSize <= String.length e)%nat).
Proof.
  intros Hc. split.
  - destruct random as [iv|e]; [apply Decrypt_Encrypt|done].
  - intros s. unfold Decrypt. destruct (DecodeString s) as [e|e]; cbn [wrap_err mbind result_bind].
    + destruct (Nat.ltb_spec (String.length e) BlockSize) as [Hl|Hl].
      * split; [discriminate|]. intros (e' & [= <-] & ?). lia.
      * split; [by exists e|reflexivity].
    + split; [discriminate|]. by intros (e' & ? & _).
Qed.
End cipher.

(** A block function of the right length, for concrete runs. *)
Definition demo_block (key b : string) : string := xor_bytes b (key +:+ b).

Lemma demo_block_length key b :
  String.length b = BlockSize -> String.length (demo_block key b) = BlockSize.
Proof. intros Hb. unfold demo_block. rewrite xor_bytes_length; [done|]. rewrite str_len_app. lia. Qed.

Definition demo_aes : Aes :=
  {| aes_block := demo_block; aes_block_length := demo_block_length |}.

Lemma cookie_round_trip_witness :
  exists s, @Encrypt demo_aes "0123456789abcdef" (Ok "fedcba9876543210") "sha256~token" = Ok s /\
    @Decrypt demo_aes "0123456789abcdef" s = Ok "sha256~token".
Proof.
  destruct (@cookie_round_trip demo_aes "0123456789abcdef" "0123456789abcdef"
    (Ok "fedcba9876543210") "sha256~token") as [Hr _]; [vm_compute; reflexivity|].
  exact (Hr eq_refl).
Defined.
