(* ===== verification/Duration.v ===== *)
(** * [time.ParseDuration]

    Integers are unsigned 64-bit values with their overflow checks as the
    package writes them; the fraction of a number is scaled in [float64]
    arithmetic, for which [SpecFloat] is the executable definition. *)

From stdpp Require Import base tactics option list strings.
From Stdlib Require Import ZArith Lia Ascii SpecFloat.
From S2P Require Import Prelude GoStrings.

Local Open Scope Z_scope.

Definition f64_of_Z (z : Z) : spec_float := binary_normalize 53 1024 z 0 false.
Definition f64_mul : spec_float -> spec_float -> spec_float := SFmul 53 1024.
Definition f64_div : spec_float -> spec_float -> spec_float := SFdiv 53 1024.

(** [uint64(f)] for a float that fits: the fraction is dropped. *)
Definition Z_of_f64 (f : spec_float) : Z :=
  match f with
  | S754_finite false m e =>
      if 0 <=? e then Z.pos m * 2 ^ e else Z.pos m / 2 ^ (- e)
  | _ => 0
  end.

Definition digit_val (c : ascii) : Z := Z.of_N (N_of_ascii c) - 48.

(** [leadingInt]: the leading digits and the rest; [None] on overflow. *)
Fixpoint leadingInt (x : Z) (s : string) : option (Z * string) :=
  match s with
  | String c s' =>
      if is_digit c then
        if 2 ^ 63 / 10 <? x then None
        else
          let x := x * 10 + digit_val c in
          if 2 ^ 63 <? x then None else leadingInt x s'
      else Some (x, s)
  | EmptyString => Some (x, s)
  end.

(** [leadingFraction]: digits beyond the precision are skipped. *)
Fixpoint leadingFraction (x : Z) (scale : spec_float) (overflow : bool) (s : string) :
    Z * spec_float * string :=
  match s with
  | String c s' =>
      if is_digit c then
        if overflow || ((2 ^ 63 - 1) / 10 <? x) then leadingFraction x scale true s'
        else
          let y := x * 10 + digit_val c in
          if 2 ^ 63 <? y then leadingFraction x scale true s'
          else leadingFraction y (f64_mul scale (f64_of_Z 10)) false s'
      else (x, scale, s)
  | EmptyString => (x, scale, s)
  end.

(** [unitMap]. *)
Definition unitMap (u : string) : option Z :=
  if String.eqb u "ns" then Some 1
  else if String.eqb u "us" || String.eqb u (bytes [194; 181; 115]%N)
          || String.eqb u (bytes [206; 188; 115]%N) then Some 1000
  else if String.eqb u "ms" then Some 1000000
  else if String.eqb u "s" then Some 1000000000
  else if String.eqb u "m" then Some 60000000000
  else if String.eqb u "h" then Some 3600000000000
  else None.

Definition is_number_byte (c : ascii) : bool := Ascii.eqb c "." || is_digit c.

(** The bytes before the next number, and the rest. *)
Fixpoint span_unit (s : string) : string * string :=
  match s with
  | String c s' =>
      if is_number_byte c then (EmptyString, s)
      else let '(u, r) := span_unit s' in (String c u, r)
  | EmptyString => (EmptyString, EmptyString)
  end.

(** One number with its unit in nanoseconds, and the rest. *)
Definition parse_component (s : string) : option (Z * string) :=
  match s with
  | EmptyString => None
  | String c _ =>
      if negb (is_number_byte c) then None
      else
        '(v, s1) ← leadingInt 0 s;
        let pre := negb (String.length s1 =? String.length s)%nat in
        let '(f, scale, s2, post) :=
          match s1 with
          | String "." s' =>
              let '(f, scale, s2) := leadingFraction 0 (f64_of_Z 1) false s' in
              (f, scale, s2, negb (String.length s2 =? String.length s')%nat)
          | _ => (0, f64_of_Z 1, s1, false)
          end in
        if negb pre && negb post then None
        else
          let '(u, s3) := span_unit s2 in
          unit ← unitMap u;
          if 2 ^ 63 / unit <? v then None
          else
            let v := v * unit in
            let v := if 0 <? f
              then v + Z_of_f64 (f64_mul (f64_of_Z f) (f64_div (f64_of_Z unit) scale)) else v in
            if 2 ^ 63 <? v then None else Some (v, s3)
  end.

(** The loop over the components; each consumes at least one byte. *)
Fixpoint parse_components (fuel : nat) (d : Z) (s : string) : option Z :=
  match fuel, s with
  | _, EmptyString => Some d
  | O, _ => None
  | S fuel, _ =>
      '(v, s) ← parse_component s;
      let d := (d + v) mod 2 ^ 64 in
      if 2 ^ 63 <? d then None else parse_components fuel d s
  end.

(** [time.ParseDuration]; the callers do not look at the error. *)
Definition time_ParseDuration (s : string) : option Z :=
  let '(neg, s) := match s with
    | String "-" s => (true, s)
    | String "+" s => (false, s)
    | _ => (false, s)
    end in
  if String.eqb s "0" then Some 0
  else if String.eqb s "" then None
  else
    d ← parse_components (String.length s) 0 s;
    if neg then Some (- d) else if 2 ^ 63 - 1 <? d then None else Some d.

Example parse_duration_runs :
  time_ParseDuration "1h15m30.918s" = Some 4530918000000 /\
  time_ParseDuration "-1.5h" = Some (-5400000000000) /\
  time_ParseDuration "9223372036854775807ns" = Some (2 ^ 63 - 1) /\
  time_ParseDuration "9223372036854775808ns" = None /\
  time_ParseDuration "-9223372036854775808ns" = Some (- 2 ^ 63) /\
  time_ParseDuration "0.100000000000000000000h" = Some 360000000000 /\
  time_ParseDuration "1" = None /\ time_ParseDuration "3d" = None.
Proof. vm_compute. repeat split. Qed.

(** A parsed duration fits into 64 bits. *)
Lemma parse_components_range fuel d s x :
  0 <= d <= 2 ^ 63 -> parse_components fuel d s = Some x -> 0 <= x <= 2 ^ 63.
Proof.
  revert d s. induction fuel as [|fuel IH]; intros d [|c s] Hd; cbn [parse_components]; try naive_solver.
  destruct (parse_component (String c s)) as [[v s']|]; [|done]. simpl.
  destruct (2 ^ 63 <? (d + v) mod 2 ^ 64) eqn:E; [done|]. apply IH.
  pose proof (Z.mod_pos_bound (d + v) (2 ^ 64) ltac:(lia)). apply Z.ltb_ge in E. lia.
Qed.

Lemma time_ParseDuration_range s x :
  time_ParseDuration s = Some x -> - 2 ^ 63 <= x < 2 ^ 63.
Proof.
  unfold time_ParseDuration. destruct (match s with String "-" s => _ | _ => _ end) as [neg t].
  destruct (String.eqb t "0"); [intros [= <-]; lia|]. destruct (String.eqb t ""); [done|].
  destruct (parse_components _ _ _) as [d|] eqn:E; [|done].
  apply parse_components_range in E; [|lia]. cbn [mbind option_bind].
  destruct neg; [intros [= <-]; lia|].
  destruct (2 ^ 63 - 1 <? d) eqn:E'; [done|]. apply Z.ltb_ge in E'. intros [= <-]. lia.
Qed.
