(* ===== verification/LogqlTables.v ===== *)
(** * The tables goyacc generated for the LogQL grammar: [logql/v2/expr.y.go]

    The token numbers and the tables of the automaton, copied from the source.
    A table is a finite map from the indices of the Go array to its elements;
    [table_get] is the array access, [None] where Go would panic. *)

From stdpp Require Import base tactics option list pmap strings.
From Stdlib Require Import ZArith Lia.
From S2P Require Import Prelude.

Definition Table : Type := Pmap Z.

Fixpoint table_from (i : positive) (l : list Z) : Table :=
  match l with
  | [] => ∅
  | x :: l => <[i := x]> (table_from (Pos.succ i) l)
  end.

Definition table_of (l : list Z) : Table := table_from 1 l.

Definition table_get (t : Table) (i : Z) : option Z :=
  if (i <? 0)%Z then None else t !! Z.to_pos (i + 1).

(** ** Token numbers *)

Definition IDENTIFIER : Z := 57346.
Definition STRING : Z := 57347.
Definition RANGE : Z := 57348.
Definition NUMBER : Z := 57349.
Definition LOGFMTSTRICT : Z := 57350.
Definition LOGFMTKEEPEMPTY : Z := 57351.
Definition DURATION : Z := 57352.
Definition MATCHERS : Z := 57353.
Definition LABELS : Z := 57354.
Definition EQ : Z := 57355.
Definition RE : Z := 57356.
Definition NRE : Z := 57357.
Definition OPEN_BRACE : Z := 57358.
Definition CLOSE_BRACE : Z := 57359.
Definition OPEN_BRACKET : Z := 57360.
Definition CLOSE_BRACKET : Z := 57361.
Definition COMMA : Z := 57362.
Definition DOT : Z := 57363.
Definition OPEN_PARENTHESIS : Z := 57364.
Definition CLOSE_PARENTHESIS : Z := 57365.
Definition COUNT_OVER_TIME : Z := 57366.
Definition RATE : Z := 57367.
Definition RATE_COUNTER : Z := 57368.
Definition SUM : Z := 57369.
Definition AVG : Z := 57370.
Definition MAX : Z := 57371.
Definition MIN : Z := 57372.
Definition COUNT : Z := 57373.
Definition STDDEV : Z := 57374.
Definition STDVAR : Z := 57375.
Definition BOTTOMK : Z := 57376.
Definition TOPK : Z := 57377.
Definition SORT : Z := 57378.
Definition SORT_DESC : Z := 57379.
Definition BYTES_OVER_TIME : Z := 57380.
Definition BYTES_RATE : Z := 57381.
Definition BOOL : Z := 57382.
Definition JSON : Z := 57383.
Definition REGEXP : Z := 57384.
Definition LOGFMT : Z := 57385.
Definition PIPE_MATCH : Z := 57386.
Definition PIPE_EXACT : Z := 57387.
Definition PIPE_MATCH_PATTERN : Z := 57388.
Definition PIPE_NOT_MATCH_PATTERN : Z := 57389.
Definition PIPE : Z := 57390.
Definition LINE_FMT : Z := 57391.
Definition LABEL_FMT : Z := 57392.
Definition UNWRAP : Z := 57393.
Definition AVG_OVER_TIME : Z := 57394.
Definition SUM_OVER_TIME : Z := 57395.
Definition MIN_OVER_TIME : Z := 57396.
Definition MAX_OVER_TIME : Z := 57397.
Definition STDVAR_OVER_TIME : Z := 57398.
Definition STDDEV_OVER_TIME : Z := 57399.
Definition QUANTILE_OVER_TIME : Z := 57400.
Definition FIRST_OVER_TIME : Z := 57401.
Definition LAST_OVER_TIME : Z := 57402.
Definition ABSENT_OVER_TIME : Z := 57403.
Definition BY : Z := 57404.
Definition WITHOUT : Z := 57405.
Definition VECTOR : Z := 57406.
Definition LABEL_REPLACE : Z := 57407.
Definition IP : Z := 57408.
Definition UNPACK : Z := 57409.
Definition PATTERN : Z := 57410.
Definition OFFSET : Z := 57411.
Definition BYTES_CONV : Z := 57412.
Definition DURATION_CONV : Z := 57413.
Definition DURATION_SECONDS_CONV : Z := 57414.
Definition ON : Z := 57415.
Definition IGNORING : Z := 57416.
Definition GROUP_LEFT : Z := 57417.
Definition GROUP_RIGHT : Z := 57418.
Definition DECOLORIZE : Z := 57419.
Definition DROP : Z := 57420.
Definition KEEP : Z := 57421.
Definition OR : Z := 57422.
Definition AND : Z := 57423.
Definition UNLESS : Z := 57424.
Definition CMP_EQ : Z := 57425.
Definition NEQ : Z := 57426.
Definition LT : Z := 57427.
Definition LTE : Z := 57428.
Definition GT : Z := 57429.
Definition GTE : Z := 57430.
Definition ADD : Z := 57431.
Definition SUB : Z := 57432.
Definition MUL : Z := 57433.
Definition DIV : Z := 57434.
Definition MOD : Z := 57435.
Definition POW : Z := 57436.

(** [exprToknames]; the token [c] of the tables has the name at [c - 1]. *)
Definition exprToknames : list string :=
  ["$end"; "error"; "$unk"; "IDENTIFIER"; "STRING"; "RANGE"; "NUMBER"; "LOGFMTSTRICT";
   "LOGFMTKEEPEMPTY"; "DURATION"; "MATCHERS"; "LABELS"; "EQ"; "RE"; "NRE"; "OPEN_BRACE";
   "CLOSE_BRACE"; "OPEN_BRACKET"; "CLOSE_BRACKET"; "COMMA"; "DOT"; "OPEN_PARENTHESIS";
   "CLOSE_PARENTHESIS"; "COUNT_OVER_TIME"; "RATE"; "RATE_COUNTER"; "SUM"; "AVG"; "MAX"; "MIN";
   "COUNT"; "STDDEV"; "STDVAR"; "BOTTOMK"; "TOPK"; "SORT"; "SORT_DESC"; "BYTES_OVER_TIME";
   "BYTES_RATE"; "BOOL"; "JSON"; "REGEXP"; "LOGFMT"; "PIPE_MATCH"; "PIPE_EXACT";
   "PIPE_MATCH_PATTERN"; "PIPE_NOT_MATCH_PATTERN"; "PIPE"; "LINE_FMT"; "LABEL_FMT"; "UNWRAP";
   "AVG_OVER_TIME"; "SUM_OVER_TIME"; "MIN_OVER_TIME"; "MAX_OVER_TIME"; "STDVAR_OVER_TIME";
   "STDDEV_OVER_TIME"; "QUANTILE_OVER_TIME"; "FIRST_OVER_TIME"; "LAST_OVER_TIME";
   "ABSENT_OVER_TIME"; "BY"; "WITHOUT"; "VECTOR"; "LABEL_REPLACE"; "IP"; "UNPACK"; "PATTERN";
   "OFFSET"; "BYTES_CONV"; "DURATION_CONV"; "DURATION_SECONDS_CONV"; "ON"; "IGNORING";
   "GROUP_LEFT"; "GROUP_RIGHT"; "DECOLORIZE"; "DROP"; "KEEP"; "OR"; "AND"; "UNLESS"; "CMP_EQ";
   "NEQ"; "LT"; "LTE"; "GT"; "GTE"; "ADD"; "SUB"; "MUL"; "DIV"; "MOD"; "POW"]%string.

Definition exprEofCode : Z := 1.
Definition exprErrCode : Z := 2.
Definition exprInitialStackSize : nat := 16.
Definition exprPrivate : Z := 57344.
Definition exprFlag : Z := -1000.

Definition exprLast : Z := 653.

(** The exceptions to the default actions. *)
Definition exprExca : Table := Eval vm_compute in table_of
  [-1; 1; 1; -1; -2; 0]%Z.

(** The shift and goto targets. *)
Definition exprAct : Table := Eval vm_compute in table_of
  [200; 71; 60; 59; 187; 4; 170; 5; 154; 168; 8; 115; 6; 58; 100; 219; 50; 183; 153; 172; 45;
   46; 47; 48; 49; 50; 97; 47; 48; 49; 50; 175; 177; 178; 79; 42; 43; 44; 51; 52; 55; 56; 53;
   54; 45; 46; 47; 48; 49; 50; 82; 121; 2; 153; 309; 310; 305; 306; 202; 57; 288; 289; 99; 51;
   52; 55; 56; 53; 54; 45; 46; 47; 48; 49; 50; 272; 117; 344; 118; 151; 125; 119; 126; 42; 43;
   44; 51; 52; 55; 56; 53; 54; 45; 46; 47; 48; 49; 50; 130; 132; 133; 202; 176; 181; 182; 179;
   180; 285; 286; 160; 357; 159; 229; 152; 151; 72; 73; 155; 173; 246; 342; 188; 225; 193; 11;
   203; 58; 226; 198; 113; 199; 195; 196; 134; 356; 137; 138; 139; 140; 141; 142; 143; 144;
   145; 146; 147; 148; 149; 150; 207; 43; 44; 51; 52; 55; 56; 53; 54; 45; 46; 47; 48; 49; 50;
   218; 188; 214; 215; 216; 131; 243; 185; 57; 230; 333; 162; 163; 164; 70; 68; 263; 262; 249;
   228; 315; 353; 249; 227; 232; 352; 114; 314; 270; 238; 239; 236; 99; 237; 241; 242; 119;
   235; 249; 247; 185; 351; 12; 13; 64; 65; 66; 67; 62; 254; 256; 202; 302; 249; 72; 73; 350;
   249; 185; 301; 347; 186; 258; 249; 297; 295; 346; 265; 261; 249; 338; 269; 341; 11; 188;
   290; 271; 273; 264; 244; 99; 99; 14; 276; 69; 280; 274; 278; 7; 279; 15; 16; 17; 30; 31; 33;
   34; 32; 35; 36; 37; 38; 39; 40; 18; 19; 249; 188; 294; 340; 296; 249; 298; 202; 287; 99;
   268; 202; 20; 21; 22; 23; 24; 25; 26; 27; 28; 29; 202; 248; 41; 10; 336; 316; 202; 317; 331;
   233; 318; 135; 136; 192; 191; 202; 324; 326; 98; 329; 330; 332; 328; 11; 240; 325; 249; 12;
   13; 284; 337; 339; 14; 68; 323; 327; 343; 345; 7; 202; 15; 16; 17; 30; 31; 33; 34; 32; 35;
   36; 37; 38; 39; 40; 18; 19; 322; 249; 257; 202; 251; 321; 64; 65; 66; 67; 62; 202; 20; 21;
   22; 23; 24; 25; 26; 27; 28; 29; 255; 249; 41; 10; 250; 312; 311; 189; 204; 240; 190; 308;
   307; 291; 11; 267; 194; 266; 68; 221; 213; 212; 184; 14; 69; 68; 275; 12; 13; 120; 124; 15;
   16; 17; 30; 31; 33; 34; 32; 35; 36; 37; 38; 39; 40; 18; 19; 64; 65; 66; 67; 62; 123; 122;
   64; 65; 66; 67; 62; 20; 21; 22; 23; 24; 25; 26; 27; 28; 29; 74; 202; 41; 10; 349; 348; 320;
   319; 224; 222; 217; 283; 282; 153; 197; 245; 206; 80; 69; 68; 201; 205; 223; 14; 220; 69;
   234; 12; 13; 7; 78; 15; 16; 17; 30; 31; 33; 34; 32; 35; 36; 37; 38; 39; 40; 18; 19; 68; 64;
   65; 66; 67; 62; 156; 76; 300; 299; 157; 158; 20; 21; 22; 23; 24; 25; 26; 27; 28; 29; 128;
   75; 41; 10; 157; 158; 355; 64; 65; 66; 67; 62; 161; 354; 116; 127; 335; 334; 129; 69; 313;
   304; 303; 14; 293; 292; 259; 12; 13; 120; 253; 15; 16; 17; 30; 31; 33; 34; 32; 35; 36; 37;
   38; 39; 40; 18; 19; 69; 68; 252; 231; 211; 210; 209; 208; 112; 277; 167; 166; 20; 21; 22;
   23; 24; 25; 26; 27; 28; 29; 165; 281; 41; 10; 171; 169; 260; 156; 64; 65; 66; 67; 62; 112;
   80; 9; 77; 3; 81; 61; 63; 174; 1; 102; 105; 101; 0; 12; 13; 0; 0; 107; 109; 104; 0; 0; 0; 0;
   0; 0; 0; 0; 0; 0; 0; 0; 0; 0; 69; 103; 106; 0; 0; 0; 0; 0; 0; 0; 0; 108; 110; 111; 83; 84;
   85; 86; 87; 88; 89; 90; 91; 92; 93; 94; 95; 96]%Z.

(** The offset of the row of a state in [exprAct]. *)
Definition exprPact : Table := Eval vm_compute in table_of
  [308; -1000; -45; -1000; -1000; -1000; -1000; 308; 443; 156; 417; -1000; 502; 486; 452;
   -1000; -1000; -1000; -1000; -1000; -1000; -1000; -1000; -1000; -1000; -1000; -1000; -1000;
   -1000; -1000; -1000; -1000; -1000; -1000; -1000; -1000; -1000; -1000; -1000; -1000; -1000;
   -1000; 10; 10; 10; 10; 10; 10; 10; 10; 10; 10; 10; 10; 10; 10; 10; 3; 287; 443; -1000;
   -1000; 559; 124; -1000; -1000; -1000; -1000; -1000; -1000; 515; 401; 400; 378; 308; -1000;
   -1000; 506; -1000; -1000; 85; 230; -1000; 230; 230; 230; 230; 230; 230; 230; 230; 230; 230;
   230; 230; 230; 230; -1000; -1000; -1000; 33; 488; 580; -1000; 105; 572; 561; 560; -1000;
   578; 577; 577; 18; -63; 370; 202; 357; 283; 282; 380; 377; -45; 446; 436; 355; 440; 435;
   -1000; -1000; 587; 557; 556; 555; 554; 69; 369; 368; -20; -20; -64; -64; -78; -78; -78; -78;
   -69; -69; -69; -69; -69; -69; 586; 586; 586; 429; 488; 450; -1000; -1000; 429; -1000; 367;
   -1000; -1000; -1000; -1000; -1000; -1000; 428; 448; 427; 85; -1000; 427; 117; -1000; -1000;
   -1000; -1000; -1000; -1000; -1000; -1000; 107; 553; -1000; 53; 278; 455; 377; -1000; 53; 53;
   310; 443; 164; 220; 434; 96; 270; 351; -1000; -1000; 329; -1000; 552; 533; -1000; -1000;
   -1000; -1000; -1000; 347; 327; 432; -2; 33; 580; 429; 504; 529; 579; 578; 176; 577; -1000;
   -1000; -1000; 365; -1000; 363; 257; -1000; 53; -1000; 169; 52; 227; -1000; -1000; -1000;
   443; 373; 541; -1000; 308; -1000; 226; -1000; 574; -1000; -1000; 431; 430; 298; 32; 255;
   -15; 429; -1000; 216; 428; -1000; -1000; 361; 427; 528; 527; -1000; -1000; 53; 206; 53; 205;
   53; 489; 471; -1000; 200; 193; -1000; -1000; 525; 524; -19; 360; 359; -21; 354; 353; -1000;
   523; 168; 161; -1000; 53; -1000; 53; -1000; -1000; 53; -1000; -1000; 426; 425; 331; 326;
   303; 294; 305; 292; 288; 277; 151; -1000; -1000; -1000; -1000; -1000; 520; 519; 273; 211;
   -1000; 250; -1000; 213; 97; 54; -1000; 207; -1000; 201; -1000; 424; 423; -1000; 197; -1000;
   182; -1000; -1000; -1000; 166; -1000; 162; -1000; -1000; 516; 509; -1000; -1000; -1000;
   -1000; 111; 87; -1000; -1000]%Z.

(** The offset of the row of a nonterminal in [exprAct]. *)
Definition exprPgo : Table := Eval vm_compute in table_of
  [0; 599; 595; 598; 51; 597; 0; 7; 596; 14; 9; 594; 5; 12; 3; 2; 11; 4; 6; 8; 15; 19; 593;
   592; 10; 1; 520]%Z.

(** The left-hand side of a production. *)
Definition exprR1 : Table := Eval vm_compute in table_of
  [0; 1; 4; 4; 4; 4; 4; 11; 11; 14; 14; 26; 26; 26; 15; 15; 15; 15; 15; 15; 15; 15; 15; 15; 15;
   15; 15; 15; 15; 15; 15; 8; 8; 8; 8; 9; 9; 9; 9; 9; 9; 9; 10; 10; 10; 10; 17; 16; 16; 16; 16;
   16; 16; 16; 16; 16; 12; 12; 12; 12; 12; 12; 12; 12; 12; 12; 12; 12; 12; 12; 12; 12; 12; 12;
   12; 12; 12; 12; 12; 12; 12; 12; 7; 7; 7; 7; 7; 7; 7; 7; 7; 7; 7; 7; 7; 7; 7; 13; 13; 13; 18;
   18; 18; 19; 19; 19; 20; 20; 20; 2; 2; 2; 2; 2; 2; 2; 2; 2; 2; 2; 2; 2; 2; 2; 2; 2; 2; 2; 2;
   2; 2; 24; 24; 24; 22; 22; 21; 21; 21; 21; 23; 23; 23; 23; 23; 23; 23; 23; 23; 23; 23; 23;
   23; 23; 23; 23; 23; 23; 23; 23; 23; 23; 23; 23; 23; 23; 23; 5; 5; 5; 5; 5; 5; 3; 3; 3; 3; 3;
   3; 3; 3; 6; 6; 25; 25; 25; 25]%Z.

(** The length of the right-hand side of a production. *)
Definition exprR2 : Table := Eval vm_compute in table_of
  [0; 1; 1; 1; 1; 1; 3; 1; 2; 1; 2; 1; 1; 1; 1; 2; 2; 3; 4; 2; 3; 2; 3; 6; 3; 3; 3; 2; 3; 3; 3;
   2; 5; 4; 7; 3; 3; 3; 6; 3; 3; 3; 3; 3; 6; 3; 2; 2; 3; 3; 4; 5; 5; 6; 2; 3; 4; 5; 6; 7; 7; 8;
   5; 6; 5; 4; 6; 7; 8; 7; 5; 6; 12; 5; 4; 6; 7; 7; 5; 12; 4; 3; 4; 4; 4; 4; 4; 4; 4; 4; 4; 4;
   4; 4; 4; 4; 4; 1; 2; 2; 1; 1; 3; 1; 3; 3; 1; 1; 2; 0; 1; 5; 8; 9; 8; 9; 4; 7; 8; 7; 8; 5; 8;
   9; 8; 9; 4; 7; 8; 7; 8; 3; 3; 2; 1; 3; 3; 3; 3; 3; 1; 1; 1; 1; 1; 1; 1; 1; 1; 1; 1; 1; 1; 1;
   1; 1; 1; 1; 1; 1; 1; 1; 1; 1; 1; 1; 1; 1; 1; 1; 1; 1; 1; 1; 1; 1; 1; 1; 1; 1; 1; 1; 3; 4; 4;
   3; 3]%Z.

(** The symbol a state is entered with; a nonterminal is negated. *)
Definition exprChk : Table := Eval vm_compute in table_of
  [-1000; -1; -4; -11; -12; -7; -13; 22; -24; -23; 65; 7; 89; 90; 16; 24; 25; 26; 38; 39; 52;
   53; 54; 55; 56; 57; 58; 59; 60; 61; 27; 28; 31; 29; 30; 32; 33; 34; 35; 36; 37; 64; 80; 81;
   82; 89; 90; 91; 92; 93; 94; 83; 84; 87; 88; 85; 86; -4; -12; -14; -15; -8; 48; -5; 44; 45;
   46; 47; 15; 84; 22; -25; 62; 63; 22; 7; 7; -22; 17; -21; 4; -2; 40; -2; -2; -2; -2; -2; -2;
   -2; -2; -2; -2; -2; -2; -2; -2; 23; 23; -15; -9; 43; 41; 67; 51; 42; 68; 49; 77; 50; 78; 79;
   4; 5; 66; -16; 7; -12; -7; -24; 22; -4; 22; 22; 22; -12; -7; 17; 2; 20; 13; 84; 14; 15; -4;
   73; 74; -4; -4; -4; -4; -4; -4; -4; -4; -4; -4; -4; -4; -4; -4; 81; 80; 20; -19; -20; 4; 8;
   9; -19; 4; -26; 70; 71; 72; 5; 5; 5; -10; 4; -18; 4; -21; -18; -3; 13; 84; 14; 15; 87; 88;
   85; 86; 80; 22; 2; 23; -17; 69; 20; 23; 23; 23; -14; 6; -24; -16; 7; -12; -7; -6; 23; 4; -6;
   23; 20; 20; -21; 5; 5; 5; 5; 22; 22; -9; -9; -9; 20; -19; -20; 13; 22; 20; 13; 20; 5; 10;
   -13; 66; 5; 66; 5; -25; 23; 10; -16; -12; -7; -25; -25; 6; -14; -14; 6; 23; 20; 23; -17; 23;
   20; 23; 23; 5; 5; -6; 23; -6; 23; -19; 5; 4; -10; 5; 4; 66; -18; 22; 22; 23; -25; 23; -17;
   23; -17; 23; 23; -14; 23; -12; -7; 23; 4; 20; 20; 23; 75; 76; 23; 75; 76; 23; 22; 5; 5; -25;
   23; -25; 23; -25; 6; 23; 23; 23; 5; 5; 75; 76; 22; 22; 75; 76; 22; 22; 5; 23; 23; -25; -25;
   -25; 20; 20; 22; 22; 23; -6; 23; -6; 22; 22; 23; -6; 23; -6; 23; 5; 5; 23; -6; 23; -6; 23;
   23; 23; -6; 23; -6; 23; 23; 20; 20; 23; 23; 23; 23; 5; 5; 23; 23]%Z.

(** The default reduction of a state. *)
Definition exprDef : Table := Eval vm_compute in table_of
  [0; -2; 1; 2; 3; 4; 5; 0; 7; 0; 0; 97; 0; 0; 0; 140; 141; 142; 143; 144; 145; 146; 147; 148;
   149; 150; 151; 152; 153; 154; 155; 156; 157; 158; 159; 160; 161; 162; 163; 164; 165; 166;
   109; 109; 109; 109; 109; 109; 109; 109; 109; 109; 109; 109; 109; 109; 109; 0; 3; 8; 9; 14;
   0; 0; 167; 168; 169; 170; 171; 172; 0; 0; 0; 0; 0; 98; 99; 0; 133; 134; 0; 0; 110; 0; 0; 0;
   0; 0; 0; 0; 0; 0; 0; 0; 0; 0; 0; 6; 81; 10; 15; 16; 19; 21; 0; 0; 0; 0; 27; 0; 0; 0; 0; 31;
   0; 0; 97; 3; 4; 7; 0; 0; 0; 0; 0; 3; 4; 131; 132; 0; 0; 0; 0; 0; 82; 0; 0; 83; 84; 85; 86;
   87; 88; 89; 90; 91; 92; 93; 94; 95; 96; 0; 0; 0; 17; 0; 103; 106; 107; 20; 22; 0; 11; 12;
   13; 24; 25; 26; 28; 0; 29; 100; 101; 30; 0; 173; 174; 175; 176; 177; 178; 179; 180; 0; 0;
   54; 56; 0; 0; 0; 80; 65; 74; 8; 47; 7; 0; 97; 3; 4; 0; 185; 181; 0; 186; 0; 0; 135; 136;
   137; 138; 139; 0; 0; 39; 40; 41; 0; 18; 108; 0; 0; 0; 0; 0; 35; 36; 37; 0; 33; 0; 0; 62; 57;
   46; 0; 3; 4; 64; 73; 49; 48; 8; 47; 55; 0; 70; 0; 78; 0; 183; 184; 0; 0; 0; 116; 0; 126;
   105; 104; 0; 45; 42; 43; 0; 102; 0; 0; 32; 63; 58; 0; 66; 0; 75; 0; 48; 50; 3; 4; 71; 182;
   0; 0; 111; 0; 0; 121; 0; 0; 23; 0; 0; 0; 59; 60; 67; 0; 76; 52; 51; 69; 77; 0; 0; 0; 0; 0;
   0; 0; 0; 0; 0; 0; 38; 34; 61; 68; 53; 0; 0; 0; 0; 117; 0; 119; 0; 0; 0; 127; 0; 129; 0; 44;
   0; 0; 112; 0; 114; 0; 118; 120; 122; 0; 124; 0; 128; 130; 0; 0; 113; 115; 123; 125; 0; 0;
   72; 79]%Z.

(** Tokens below [len(exprTok1)]. *)
Definition exprTok1 : Table := Eval vm_compute in table_of
  [1]%Z.

(** Tokens from [exprPrivate] on. *)
Definition exprTok2 : Table := Eval vm_compute in table_of
  [2; 3; 4; 5; 6; 7; 8; 9; 10; 11; 12; 13; 14; 15; 16; 17; 18; 19; 20; 21; 22; 23; 24; 25; 26;
   27; 28; 29; 30; 31; 32; 33; 34; 35; 36; 37; 38; 39; 40; 41; 42; 43; 44; 45; 46; 47; 48; 49;
   50; 51; 52; 53; 54; 55; 56; 57; 58; 59; 60; 61; 62; 63; 64; 65; 66; 67; 68; 69; 70; 71; 72;
   73; 74; 75; 76; 77; 78; 79; 80; 81; 82; 83; 84; 85; 86; 87; 88; 89; 90; 91; 92; 93; 94]%Z.

(** The other tokens, none. *)
Definition exprTok3 : Table := Eval vm_compute in table_of
  [0]%Z.
