(* ===== verification/LogqlLexer.v ===== *)
(** * The LogQL lexer: [logql/v2/lexer.go]

    [Lex] on top of [Scanner].  The loop that reads the word after [--] has no
    test for the end of the text, so [Lex] takes fuel; [LogqlSoundness] shows
    when it ends.  Prometheus' [model.ParseDuration] and [strutil.Unquote] are
    the class [PromText]. *)

From stdpp Require Import base tactics option list strings pretty.
From Stdlib Require Import ZArith Lia Ascii.
From S2P Require Import Prelude GoStrings Strconv LogqlAst Scanner Duration LogqlTables.

Class PromText := {
  model_ParseDuration : string -> option Duration;
  strutil_Unquote : string -> result string;
  #[global] prom_tables :: UnicodeTables
}.

(** ** The operators and keywords *)

Definition tokens : list (string * Z) := [
  (",", COMMA); (".", DOT); ("{", OPEN_BRACE); ("}", CLOSE_BRACE);
  ("(", OPEN_PARENTHESIS); (")", CLOSE_PARENTHESIS);
  ("=", EQ); ("!=", NEQ); ("=~", RE); ("!~", NRE);
  ("|", PIPE); ("|=", PIPE_EXACT); ("|~", PIPE_MATCH); ("|>", PIPE_MATCH_PATTERN);
  ("!>", PIPE_NOT_MATCH_PATTERN);
  ("decolorize", DECOLORIZE); ("drop", DROP); ("keep", KEEP);
  ("by", BY); ("without", WITHOUT); ("on", ON); ("ignoring", IGNORING);
  ("group_left", GROUP_LEFT); ("group_right", GROUP_RIGHT);
  (ParserLogFMT, LOGFMT); (ParserJSON, JSON); (ParserRegExp, REGEXP);
  (ParserUnpack, UNPACK); (ParserUnwrap, UNWRAP);
  ("offset", OFFSET); ("pattern", PATTERN);
  (ParserLineFormat, LINE_FMT); (ParserLabelFormat, LABEL_FMT);
  ("==", CMP_EQ); (">", GT); (">=", GTE); ("<", LT); ("<=", LTE);
  ("or", OR); ("and", AND); ("unless", UNLESS);
  ("+", ADD); ("-", SUB); ("*", MUL); ("/", DIV); ("%", MOD); ("^", POW);
  (OpConvBytes, BYTES_CONV); (OpConvDuration, DURATION_CONV);
  (OpConvDurationSeconds, DURATION_SECONDS_CONV);
  (OpLogFMTStrict, LOGFMTSTRICT); (OpLogFMTKeepEmpty, LOGFMTKEEPEMPTY)
]%string.

Definition RangeOpTypeCount : string := "count_over_time".
Definition RangeOpTypeRate : string := "rate".
Definition RangeOpTypeBytes : string := "bytes_over_time".
Definition RangeOpTypeBytesRate : string := "bytes_rate".
Definition RangeOpTypeAvg : string := "avg_over_time".
Definition RangeOpTypeSum : string := "sum_over_time".
Definition RangeOpTypeMin : string := "min_over_time".
Definition RangeOpTypeMax : string := "max_over_time".
Definition RangeOpTypeStdvar : string := "stdvar_over_time".
Definition RangeOpTypeStddev : string := "stddev_over_time".
Definition RangeOpTypeQuantile : string := "quantile_over_time".
Definition RangeOpTypeFirst : string := "first_over_time".
Definition RangeOpTypeLast : string := "last_over_time".
Definition RangeOpTypeAbsent : string := "absent_over_time".
Definition RangeOpTypeRateCounter : string := "rate_counter".
Definition VectorOpTypeSum : string := "sum".
Definition VectorOpTypeAvg : string := "avg".
Definition VectorOpTypeMax : string := "max".
Definition VectorOpTypeMin : string := "min".
Definition VectorOpTypeCount : string := "count".
Definition VectorOpTypeStddev : string := "stddev".
Definition VectorOpTypeStdvar : string := "stdvar".
Definition VectorOpTypeBottomK : string := "bottomk".
Definition VectorOpTypeTopK : string := "topk".
Definition VectorOpTypeSort : string := "sort".
Definition VectorOpTypeSortDesc : string := "sort_desc".

Definition funcTokens : list (string * Z) := [
  (RangeOpTypeRate, RATE); (RangeOpTypeCount, COUNT_OVER_TIME);
  (RangeOpTypeBytesRate, BYTES_RATE); (RangeOpTypeBytes, BYTES_OVER_TIME);
  (RangeOpTypeAvg, AVG_OVER_TIME); (RangeOpTypeSum, SUM_OVER_TIME);
  (RangeOpTypeMin, MIN_OVER_TIME); (RangeOpTypeMax, MAX_OVER_TIME);
  (RangeOpTypeStdvar, STDVAR_OVER_TIME); (RangeOpTypeStddev, STDDEV_OVER_TIME);
  (RangeOpTypeQuantile, QUANTILE_OVER_TIME); (RangeOpTypeFirst, FIRST_OVER_TIME);
  (RangeOpTypeLast, LAST_OVER_TIME); (RangeOpTypeAbsent, ABSENT_OVER_TIME);
  (RangeOpTypeRateCounter, RATE_COUNTER); (OpTypeVector, VECTOR);
  (VectorOpTypeSum, SUM); (VectorOpTypeAvg, AVG); (VectorOpTypeMax, MAX);
  (VectorOpTypeMin, MIN); (VectorOpTypeCount, COUNT); (VectorOpTypeStddev, STDDEV);
  (VectorOpTypeStdvar, STDVAR); (VectorOpTypeBottomK, BOTTOMK); (VectorOpTypeTopK, TOPK);
  (VectorOpTypeSort, SORT); (VectorOpTypeSortDesc, SORT_DESC);
  (OpLabelReplace, LABEL_REPLACE); (OpIP, IP)
].

(** The lookup in a Go map with these entries. *)
Fixpoint map_get (m : list (string * Z)) (k : string) : option Z :=
  match m with
  | [] => None
  | (k', v) :: m => if String.eqb k k' then Some v else map_get m k
  end.

(** ** Lexemes

    What a call of [Lex] returns, and the fields of [lval] it writes. *)

Record Lexeme := mkLexeme {
  lx_char : Z;
  lx_str : option string;
  lx_duration : option Duration
}.

Definition plain (c : Z) : Lexeme := mkLexeme c None None.
Definition with_str (c : Z) (s : string) : Lexeme := mkLexeme c (Some s) None.
Definition with_duration (d : Duration) : Lexeme := mkLexeme DURATION None (Some d).

Section lexer.
Context `{PromText}.

(** ** Durations *)

Definition isDurationRune (r : Z) : bool :=
  existsb (Z.eqb r) [rune "n"; rune "u"; 181%Z; rune "m"; rune "s"; rune "h"; rune "d";
                     rune "w"; rune "y"].

Definition parseDuration (d : string) : option Duration :=
  match model_ParseDuration d with
  | Some duration => Some duration
  | None => time_ParseDuration d
  end.

Fixpoint duration_runes (fuel : nat) (sb : string) (consumed : nat) (s : Scanner) :
    string * nat * Scanner :=
  match fuel with
  | O => (sb, consumed, s)
  | S fuel =>
      let s := Peek s in
      let r := s_ch s in
      if negb (r =? EOF)%Z && negb (IsSpace r)
         && (IsNumber r || isDurationRune r || (r =? rune ".")%Z)
      then duration_runes fuel (sb +:+ rune_bytes r) (S consumed) (Next s).2
      else (sb, consumed, s)
  end.

Definition tryScanDuration (number : string) (l : Scanner) : option Duration * Scanner :=
  let '((sb, consumed), l) := on_copy (duration_runes (S (remaining l)) number 0) l in
  if (consumed =? 0)%nat then (None, l)
  else
    match parseDuration sb with
    | None => (None, l)
    | Some duration => (Some duration, Nat.iter consumed (fun l => (Next l).2) l)
    end.

(** ** Functions *)

Fixpoint trimSpace_go (fuel : nat) (s : Scanner) : Scanner :=
  match fuel with
  | O => s
  | S fuel =>
      let s := Peek s in
      if negb (s_ch s =? EOF)%Z && IsSpace (s_ch s) then trimSpace_go fuel (Next s).2 else s
  end.

Definition trimSpace (s : Scanner) : Scanner := trimSpace_go (S (remaining s)) s.

Fixpoint isFunc_go (fuel : nat) (sb : string) (s : Scanner) : bool * Scanner :=
  match fuel with
  | O => (false, s)
  | S fuel =>
      let '(r, s) := Next s in
      if (r =? EOF)%Z then (false, s)
      else
        let sb := sb +:+ rune_bytes r in
        if String.eqb sb "(" then (true, s)
        else if String.eqb sb "by" || String.eqb sb "without" then
          let '(r, s) := Next (trimSpace s) in ((r =? rune "(")%Z, s)
        else isFunc_go fuel sb s
  end.

Definition isFunc (sc : Scanner) : bool * Scanner :=
  let sc := trimSpace sc in isFunc_go (S (S (remaining sc))) "" sc.

(** ** The branches of [Lex] *)

(** The body of a comment after [#]. *)
Fixpoint comment_rest (fuel : nat) (r : Z) (l : Scanner) : Scanner :=
  match fuel with
  | O => l
  | S fuel =>
      if (r =? 10)%Z || (r =? EOF)%Z then l
      else let '(r, l) := Next l in comment_rest fuel r l
  end.

Definition skip_comment (l : Scanner) : Scanner :=
  let l := Peek l in comment_rest (S (S (S (remaining l)))) (s_ch l) l.

(** The word after [--]: the loop only stops at white space. *)
Fixpoint dash_word (fuel : nat) (builder : string) (l : Scanner) : option (string * Scanner) :=
  match fuel with
  | O => None
  | S fuel =>
      let '(r, l) := Next l in
      if IsSpace r then Some (builder, l) else dash_word fuel (builder +:+ rune_bytes r) l
  end.

Definition dash_lexeme (word : string) : Lexeme :=
  if String.eqb word OpLogFMTStrict then with_str LOGFMTSTRICT OpLogFMTStrict
  else if String.eqb word OpLogFMTKeepEmpty then with_str LOGFMTKEEPEMPTY OpLogFMTKeepEmpty
  else plain 0.

(** [utf8.ValidString]. *)
Definition ValidString (s : string) : bool :=
  forallb (fun rw => negb ((rw.1 =? RuneError)%N && (rw.2 =? 1)%nat)) (runes s).

Definition string_token (l : Scanner) : Lexeme * Scanner :=
  let tokenText := TokenText l in
  if negb (ValidString tokenText) then (plain 0, Scanner_error "invalid UTF-8 rune" l)
  else
    match strutil_Unquote tokenText with
    | Err e => (with_str 0 "", Scanner_error e l)
    | Ok str => (with_str STRING str, l)
    end.

Fixpoint range_go (fuel : nat) (builder : string) (l : Scanner) : Lexeme * Scanner :=
  match fuel with
  | O => (plain 0, l)
  | S fuel =>
      let '(r, l) := Next l in
      if (r =? EOF)%Z then (plain 0, Scanner_error "missing closing ']' in duration" l)
      else if (r =? rune "]")%Z then (with_str RANGE ("[" +:+ builder +:+ "]"), l)
      else range_go fuel (builder +:+ rune_bytes r) l
  end.

Definition range_token (l : Scanner) : Lexeme * Scanner :=
  range_go (S (S (remaining l))) "" l.

(** Whether [tok] is a function that is applied here; with [ahead] the copy
    first passes the lookahead, which belongs to the name. *)
Definition is_applied (ahead : bool) (l : Scanner) : bool * Scanner :=
  on_copy (fun sc => isFunc (if ahead then (Next sc).2 else sc)) l.

(** Functions, operators, keywords, and last identifiers. *)
Definition word_token (l : Scanner) : Lexeme * Scanner :=
  let tokenText := TokenText l in
  let l := Peek l in
  let tokenNext := tokenText +:+ rune_bytes (s_ch l) in
  let '(func, l) :=
    match map_get funcTokens tokenNext with
    | Some tok => let '(b, l) := is_applied true l in
                  if b then (Some tok, (Next l).2) else (None, l)
    | None => (None, l)
    end in
  match func with
  | Some tok => (plain tok, l)
  | None =>
      let '(func, l) :=
        match map_get funcTokens tokenText with
        | Some tok => let '(b, l) := is_applied false l in (if b then Some tok else None, l)
        | None => (None, l)
        end in
      match func with
      | Some tok => (plain tok, l)
      | None =>
          match map_get tokens tokenNext with
          | Some tok => (plain tok, (Next l).2)
          | None =>
              match map_get tokens tokenText with
              | Some tok => (plain tok, l)
              | None => (with_str IDENTIFIER tokenText, l)
              end
          end
      end
  end.

(** ** [Lex] *)

Fixpoint Lex (fuel : nat) (l : Scanner) : option (Lexeme * Scanner) :=
  match fuel with
  | O => None
  | S fuel =>
      let '(r, l) := Scan l in
      if (r =? rune "#")%Z then Lex fuel (skip_comment l)
      else if (r =? rune "-")%Z then
        let l := Peek l in
        if (s_ch l =? rune "-")%Z then
          '(word, l) ← dash_word fuel (rune_bytes r) l;
          Some (dash_lexeme word, l)
        else
          match tryScanDuration (TokenText l) l with
          | (Some duration, l) => Some (with_duration duration, l)
          | (None, l) => Some (word_token l)
          end
      else if (r =? EOF)%Z then Some (plain 0, l)
      else if (r =? Int)%Z || (r =? Float)%Z then
        let numberText := TokenText l in
        match tryScanDuration numberText l with
        | (Some duration, l) => Some (with_duration duration, l)
        | (None, l) => Some (with_str NUMBER numberText, l)
        end
      else if (r =? Str)%Z || (r =? RawString)%Z then Some (string_token l)
      else if (r =? rune "[")%Z then Some (range_token l)
      else Some (word_token l)
  end.
End lexer.

(** ** For concrete runs *)

(** Quoted strings with the escapes for quotes, backslashes, newlines and tabs;
    raw strings. *)
Fixpoint unescape (s : string) : result string :=
  match s with
  | EmptyString => Ok ""
  | String c s' =>
      if Ascii.eqb c "\" then
        match s' with
        | String d s'' =>
            r ← unescape s'';
            if Ascii.eqb d (byte 34) || Ascii.eqb d "\" then Ok (String d r)
            else if Ascii.eqb d "n" then Ok (String (byte 10) r)
            else if Ascii.eqb d "t" then Ok (String (byte 9) r)
            else Err "invalid syntax"
        | EmptyString => Err "invalid syntax"
        end
      else r ← unescape s'; Ok (String c r)
  end.

Definition simple_unquote (s : string) : result string :=
  let inner := str_take (String.length s - 2) (str_drop 1 s) in
  match s with
  | String c _ => if Ascii.eqb c "`" then Ok inner else unescape inner
  | EmptyString => Err "invalid syntax"
  end.

(** Whole numbers of weeks, days, hours, minutes and seconds. *)
Definition simple_duration (s : string) : option Duration :=
  '(n, u) ← leadingInt 0 s;
  (fun k => n * k)%Z <$>
    (if String.eqb u "w" then Some 604800000000000%Z
     else if String.eqb u "d" then Some 86400000000000%Z
     else if String.eqb u "h" then Some 3600000000000%Z
     else if String.eqb u "m" then Some 60000000000%Z
     else if String.eqb u "s" then Some 1000000000%Z else None).

Definition simple_prom : PromText := {|
  model_ParseDuration := simple_duration;
  strutil_Unquote := simple_unquote;
  prom_tables := latin1_tables
|}.

Fixpoint lex_all `{PromText} (n fuel : nat) (l : Scanner) : list Lexeme :=
  match n with
  | O => []
  | S n => match Lex fuel l with
           | Some (x, l) => if (lx_char x =? 0)%Z then [] else x :: lex_all n fuel l
           | None => []
           end
  end.

Example lex_metric_query :
  @lex_all simple_prom 30 100
    (Init ("sum by (app) (rate({app=~`a.*`} |= " +:+ dquote +:+ "x\n" +:+ dquote
           +:+ " | json --strict [5m])) > 1.5 # end" ) 0) =
  [plain SUM; plain BY; plain OPEN_PARENTHESIS; with_str IDENTIFIER "app";
   plain CLOSE_PARENTHESIS; plain OPEN_PARENTHESIS; plain RATE; plain OPEN_PARENTHESIS;
   plain OPEN_BRACE; with_str IDENTIFIER "app"; plain RE; with_str STRING "a.*";
   plain CLOSE_BRACE; plain PIPE_EXACT; with_str STRING ("x" +:+ String (byte 10) "");
   plain PIPE; plain JSON; with_str LOGFMTSTRICT "--strict"; with_str RANGE "[5m]";
   plain CLOSE_PARENTHESIS; plain CLOSE_PARENTHESIS; plain GT; with_str NUMBER "1.5"].
Proof. vm_compute. reflexivity. Qed.
