(* ===== verification/LogqlActions.v ===== *)
(** * The semantic actions of the LogQL grammar: [logql/v2/expr.y.go]

    [exprSymType] is the value of a symbol on the parser's stack, one field per
    type of symbol.  A field that holds a pointer or an interface is an [option];
    a tree has no nil children, so an action that would put one into a tree
    panics with [nil_child] here, and [LogqlRun] shows that none does. *)

From stdpp Require Import base tactics option list gmap strings.
From Stdlib Require Import ZArith Lia.
From S2P Require Import Prelude GoStrings Labels Strconv Http LogqlAst LogqlTables LogqlLexer.

Section actions.
Context `{LogqlEnv} `{RegexEngine}.

Definition no_match : VectorMatchOption := mkVectorMatch false [] NoGroupingOption [].
Definition no_options : BinaryOpOptions := mkBinOpts false no_match no_match.

(** ** [exprSymType] *)

Record exprSymType := mkSym {
  y_yys : Z;
  y_Expr : option Expr;
  y_LogBinaryOpExpr : option Expr;
  y_LogFilterExpr : option LogFilterExpr;
  y_LogLabelFilterExpr : option LogLabelFilterExpr;
  y_LogFormatExpr : option LogFormatExpr;
  y_LogQueryExpr : option LogSelectorExpr;
  y_LogMetricExpr : option LogMetricSampleExpr;
  y_LogNumberExpr : LogNumber;
  y_LogPipelineExpr : option (list LogStageExpr);
  y_LogStageExpr : option LogStageExpr;
  y_LogRangeQueryExpr : option LogSelectorExpr;
  y_LogOffsetExpr : option Duration;
  y_LogStageLabels : list LogLabel;
  y_LogParserLabels : list LogLabel;
  y_LogFMTFlags : list string;
  y_Matcher : option Matcher;
  y_Matchers : list Matcher;
  y_MetricOp : string;
  y_BinaryOpOptions : BinaryOpOptions;
  y_Range : string;
  y_Filter : string;
  y_Selector : list Matcher;
  y_Grouping : option grouping;
  y_Labels : list string;
  y_str : string;
  y_binaryOp : string;
  y_ComparisonOp : string;
  y_duration : Duration;
  y_ConvOp : string
}.

(** The zero value. *)
Definition zero_sym : exprSymType := mkSym 0%Z None None None None None None None
  (mkNumber float_zero false) None None None None [] [] [] None [] "" no_options "" "" [] None
  [] "" "" "" 0%Z "".

Definition set_yys (x : Z) (v : exprSymType) : exprSymType :=
  mkSym x (y_Expr v) (y_LogBinaryOpExpr v) (y_LogFilterExpr v) (y_LogLabelFilterExpr v)
    (y_LogFormatExpr v) (y_LogQueryExpr v) (y_LogMetricExpr v) (y_LogNumberExpr v)
    (y_LogPipelineExpr v) (y_LogStageExpr v) (y_LogRangeQueryExpr v) (y_LogOffsetExpr v)
    (y_LogStageLabels v) (y_LogParserLabels v) (y_LogFMTFlags v) (y_Matcher v) (y_Matchers v)
    (y_MetricOp v) (y_BinaryOpOptions v) (y_Range v) (y_Filter v) (y_Selector v) (y_Grouping v)
    (y_Labels v) (y_str v) (y_binaryOp v) (y_ComparisonOp v) (y_duration v) (y_ConvOp v).

Definition set_Expr (x : option Expr) (v : exprSymType) : exprSymType :=
  mkSym (y_yys v) x (y_LogBinaryOpExpr v) (y_LogFilterExpr v) (y_LogLabelFilterExpr v)
    (y_LogFormatExpr v) (y_LogQueryExpr v) (y_LogMetricExpr v) (y_LogNumberExpr v)
    (y_LogPipelineExpr v) (y_LogStageExpr v) (y_LogRangeQueryExpr v) (y_LogOffsetExpr v)
    (y_LogStageLabels v) (y_LogParserLabels v) (y_LogFMTFlags v) (y_Matcher v) (y_Matchers v)
    (y_MetricOp v) (y_BinaryOpOptions v) (y_Range v) (y_Filter v) (y_Selector v) (y_Grouping v)
    (y_Labels v) (y_str v) (y_binaryOp v) (y_ComparisonOp v) (y_duration v) (y_ConvOp v).

Definition set_LogBinaryOpExpr (x : option Expr) (v : exprSymType) : exprSymType :=
  mkSym (y_yys v) (y_Expr v) x (y_LogFilterExpr v) (y_LogLabelFilterExpr v) (y_LogFormatExpr v)
    (y_LogQueryExpr v) (y_LogMetricExpr v) (y_LogNumberExpr v) (y_LogPipelineExpr v)
    (y_LogStageExpr v) (y_LogRangeQueryExpr v) (y_LogOffsetExpr v) (y_LogStageLabels v)
    (y_LogParserLabels v) (y_LogFMTFlags v) (y_Matcher v) (y_Matchers v) (y_MetricOp v)
    (y_BinaryOpOptions v) (y_Range v) (y_Filter v) (y_Selector v) (y_Grouping v) (y_Labels v)
    (y_str v) (y_binaryOp v) (y_ComparisonOp v) (y_duration v) (y_ConvOp v).

Definition set_LogFilterExpr (x : option LogFilterExpr) (v : exprSymType) : exprSymType :=
  mkSym (y_yys v) (y_Expr v) (y_LogBinaryOpExpr v) x (y_LogLabelFilterExpr v) (y_LogFormatExpr v)
    (y_LogQueryExpr v) (y_LogMetricExpr v) (y_LogNumberExpr v) (y_LogPipelineExpr v)
    (y_LogStageExpr v) (y_LogRangeQueryExpr v) (y_LogOffsetExpr v) (y_LogStageLabels v)
    (y_LogParserLabels v) (y_LogFMTFlags v) (y_Matcher v) (y_Matchers v) (y_MetricOp v)
    (y_BinaryOpOptions v) (y_Range v) (y_Filter v) (y_Selector v) (y_Grouping v) (y_Labels v)
    (y_str v) (y_binaryOp v) (y_ComparisonOp v) (y_duration v) (y_ConvOp v).

Definition set_LogLabelFilterExpr (x : option LogLabelFilterExpr) (v : exprSymType) : exprSymType :=
  mkSym (y_yys v) (y_Expr v) (y_LogBinaryOpExpr v) (y_LogFilterExpr v) x (y_LogFormatExpr v)
    (y_LogQueryExpr v) (y_LogMetricExpr v) (y_LogNumberExpr v) (y_LogPipelineExpr v)
    (y_LogStageExpr v) (y_LogRangeQueryExpr v) (y_LogOffsetExpr v) (y_LogStageLabels v)
    (y_LogParserLabels v) (y_LogFMTFlags v) (y_Matcher v) (y_Matchers v) (y_MetricOp v)
    (y_BinaryOpOptions v) (y_Range v) (y_Filter v) (y_Selector v) (y_Grouping v) (y_Labels v)
    (y_str v) (y_binaryOp v) (y_ComparisonOp v) (y_duration v) (y_ConvOp v).

Definition set_LogFormatExpr (x : option LogFormatExpr) (v : exprSymType) : exprSymType :=
  mkSym (y_yys v) (y_Expr v) (y_LogBinaryOpExpr v) (y_LogFilterExpr v) (y_LogLabelFilterExpr v) x
    (y_LogQueryExpr v) (y_LogMetricExpr v) (y_LogNumberExpr v) (y_LogPipelineExpr v)
    (y_LogStageExpr v) (y_LogRangeQueryExpr v) (y_LogOffsetExpr v) (y_LogStageLabels v)
    (y_LogParserLabels v) (y_LogFMTFlags v) (y_Matcher v) (y_Matchers v) (y_MetricOp v)
    (y_BinaryOpOptions v) (y_Range v) (y_Filter v) (y_Selector v) (y_Grouping v) (y_Labels v)
    (y_str v) (y_binaryOp v) (y_ComparisonOp v) (y_duration v) (y_ConvOp v).

Definition set_LogQueryExpr (x : option LogSelectorExpr) (v : exprSymType) : exprSymType :=
  mkSym (y_yys v) (y_Expr v) (y_LogBinaryOpExpr v) (y_LogFilterExpr v) (y_LogLabelFilterExpr v)
    (y_LogFormatExpr v) x (y_LogMetricExpr v) (y_LogNumberExpr v) (y_LogPipelineExpr v)
    (y_LogStageExpr v) (y_LogRangeQueryExpr v) (y_LogOffsetExpr v) (y_LogStageLabels v)
    (y_LogParserLabels v) (y_LogFMTFlags v) (y_Matcher v) (y_Matchers v) (y_MetricOp v)
    (y_BinaryOpOptions v) (y_Range v) (y_Filter v) (y_Selector v) (y_Grouping v) (y_Labels v)
    (y_str v) (y_binaryOp v) (y_ComparisonOp v) (y_duration v) (y_ConvOp v).

Definition set_LogMetricExpr (x : option LogMetricSampleExpr) (v : exprSymType) : exprSymType :=
  mkSym (y_yys v) (y_Expr v) (y_LogBinaryOpExpr v) (y_LogFilterExpr v) (y_LogLabelFilterExpr v)
    (y_LogFormatExpr v) (y_LogQueryExpr v) x (y_LogNumberExpr v) (y_LogPipelineExpr v)
    (y_LogStageExpr v) (y_LogRangeQueryExpr v) (y_LogOffsetExpr v) (y_LogStageLabels v)
    (y_LogParserLabels v) (y_LogFMTFlags v) (y_Matcher v) (y_Matchers v) (y_MetricOp v)
    (y_BinaryOpOptions v) (y_Range v) (y_Filter v) (y_Selector v) (y_Grouping v) (y_Labels v)
    (y_str v) (y_binaryOp v) (y_ComparisonOp v) (y_duration v) (y_ConvOp v).

Definition set_LogNumberExpr (x : LogNumber) (v : exprSymType) : exprSymType :=
  mkSym (y_yys v) (y_Expr v) (y_LogBinaryOpExpr v) (y_LogFilterExpr v) (y_LogLabelFilterExpr v)
    (y_LogFormatExpr v) (y_LogQueryExpr v) (y_LogMetricExpr v) x (y_LogPipelineExpr v)
    (y_LogStageExpr v) (y_LogRangeQueryExpr v) (y_LogOffsetExpr v) (y_LogStageLabels v)
    (y_LogParserLabels v) (y_LogFMTFlags v) (y_Matcher v) (y_Matchers v) (y_MetricOp v)
    (y_BinaryOpOptions v) (y_Range v) (y_Filter v) (y_Selector v) (y_Grouping v) (y_Labels v)
    (y_str v) (y_binaryOp v) (y_ComparisonOp v) (y_duration v) (y_ConvOp v).

Definition set_LogPipelineExpr (x : option (list LogStageExpr)) (v : exprSymType) : exprSymType :=
  mkSym (y_yys v) (y_Expr v) (y_LogBinaryOpExpr v) (y_LogFilterExpr v) (y_LogLabelFilterExpr v)
    (y_LogFormatExpr v) (y_LogQueryExpr v) (y_LogMetricExpr v) (y_LogNumberExpr v) x
    (y_LogStageExpr v) (y_LogRangeQueryExpr v) (y_LogOffsetExpr v) (y_LogStageLabels v)
    (y_LogParserLabels v) (y_LogFMTFlags v) (y_Matcher v) (y_Matchers v) (y_MetricOp v)
    (y_BinaryOpOptions v) (y_Range v) (y_Filter v) (y_Selector v) (y_Grouping v) (y_Labels v)
    (y_str v) (y_binaryOp v) (y_ComparisonOp v) (y_duration v) (y_ConvOp v).

Definition set_LogStageExpr (x : option LogStageExpr) (v : exprSymType) : exprSymType :=
  mkSym (y_yys v) (y_Expr v) (y_LogBinaryOpExpr v) (y_LogFilterExpr v) (y_LogLabelFilterExpr v)
    (y_LogFormatExpr v) (y_LogQueryExpr v) (y_LogMetricExpr v) (y_LogNumberExpr v)
    (y_LogPipelineExpr v) x (y_LogRangeQueryExpr v) (y_LogOffsetExpr v) (y_LogStageLabels v)
    (y_LogParserLabels v) (y_LogFMTFlags v) (y_Matcher v) (y_Matchers v) (y_MetricOp v)
    (y_BinaryOpOptions v) (y_Range v) (y_Filter v) (y_Selector v) (y_Grouping v) (y_Labels v)
    (y_str v) (y_binaryOp v) (y_ComparisonOp v) (y_duration v) (y_ConvOp v).

Definition set_LogRangeQueryExpr (x : option LogSelectorExpr) (v : exprSymType) : exprSymType :=
  mkSym (y_yys v) (y_Expr v) (y_LogBinaryOpExpr v) (y_LogFilterExpr v) (y_LogLabelFilterExpr v)
    (y_LogFormatExpr v) (y_LogQueryExpr v) (y_LogMetricExpr v) (y_LogNumberExpr v)
    (y_LogPipelineExpr v) (y_LogStageExpr v) x (y_LogOffsetExpr v) (y_LogStageLabels v)
    (y_LogParserLabels v) (y_LogFMTFlags v) (y_Matcher v) (y_Matchers v) (y_MetricOp v)
    (y_BinaryOpOptions v) (y_Range v) (y_Filter v) (y_Selector v) (y_Grouping v) (y_Labels v)
    (y_str v) (y_binaryOp v) (y_ComparisonOp v) (y_duration v) (y_ConvOp v).

Definition set_LogOffsetExpr (x : option Duration) (v : exprSymType) : exprSymType :=
  mkSym (y_yys v) (y_Expr v) (y_LogBinaryOpExpr v) (y_LogFilterExpr v) (y_LogLabelFilterExpr v)
    (y_LogFormatExpr v) (y_LogQueryExpr v) (y_LogMetricExpr v) (y_LogNumberExpr v)
    (y_LogPipelineExpr v) (y_LogStageExpr v) (y_LogRangeQueryExpr v) x (y_LogStageLabels v)
    (y_LogParserLabels v) (y_LogFMTFlags v) (y_Matcher v) (y_Matchers v) (y_MetricOp v)
    (y_BinaryOpOptions v) (y_Range v) (y_Filter v) (y_Selector v) (y_Grouping v) (y_Labels v)
    (y_str v) (y_binaryOp v) (y_ComparisonOp v) (y_duration v) (y_ConvOp v).

Definition set_LogStageLabels (x : list LogLabel) (v : exprSymType) : exprSymType :=
  mkSym (y_yys v) (y_Expr v) (y_LogBinaryOpExpr v) (y_LogFilterExpr v) (y_LogLabelFilterExpr v)
    (y_LogFormatExpr v) (y_LogQueryExpr v) (y_LogMetricExpr v) (y_LogNumberExpr v)
    (y_LogPipelineExpr v) (y_LogStageExpr v) (y_LogRangeQueryExpr v) (y_LogOffsetExpr v) x
    (y_LogParserLabels v) (y_LogFMTFlags v) (y_Matcher v) (y_Matchers v) (y_MetricOp v)
    (y_BinaryOpOptions v) (y_Range v) (y_Filter v) (y_Selector v) (y_Grouping v) (y_Labels v)
    (y_str v) (y_binaryOp v) (y_ComparisonOp v) (y_duration v) (y_ConvOp v).

Definition set_LogParserLabels (x : list LogLabel) (v : exprSymType) : exprSymType :=
  mkSym (y_yys v) (y_Expr v) (y_LogBinaryOpExpr v) (y_LogFilterExpr v) (y_LogLabelFilterExpr v)
    (y_LogFormatExpr v) (y_LogQueryExpr v) (y_LogMetricExpr v) (y_LogNumberExpr v)
    (y_LogPipelineExpr v) (y_LogStageExpr v) (y_LogRangeQueryExpr v) (y_LogOffsetExpr v)
    (y_LogStageLabels v) x (y_LogFMTFlags v) (y_Matcher v) (y_Matchers v) (y_MetricOp v)
    (y_BinaryOpOptions v) (y_Range v) (y_Filter v) (y_Selector v) (y_Grouping v) (y_Labels v)
    (y_str v) (y_binaryOp v) (y_ComparisonOp v) (y_duration v) (y_ConvOp v).

Definition set_LogFMTFlags (x : list string) (v : exprSymType) : exprSymType :=
  mkSym (y_yys v) (y_Expr v) (y_LogBinaryOpExpr v) (y_LogFilterExpr v) (y_LogLabelFilterExpr v)
    (y_LogFormatExpr v) (y_LogQueryExpr v) (y_LogMetricExpr v) (y_LogNumberExpr v)
    (y_LogPipelineExpr v) (y_LogStageExpr v) (y_LogRangeQueryExpr v) (y_LogOffsetExpr v)
    (y_LogStageLabels v) (y_LogParserLabels v) x (y_Matcher v) (y_Matchers v) (y_MetricOp v)
    (y_BinaryOpOptions v) (y_Range v) (y_Filter v) (y_Selector v) (y_Grouping v) (y_Labels v)
    (y_str v) (y_binaryOp v) (y_ComparisonOp v) (y_duration v) (y_ConvOp v).

Definition set_Matcher (x : option Matcher) (v : exprSymType) : exprSymType :=
  mkSym (y_yys v) (y_Expr v) (y_LogBinaryOpExpr v) (y_LogFilterExpr v) (y_LogLabelFilterExpr v)
    (y_LogFormatExpr v) (y_LogQueryExpr v) (y_LogMetricExpr v) (y_LogNumberExpr v)
    (y_LogPipelineExpr v) (y_LogStageExpr v) (y_LogRangeQueryExpr v) (y_LogOffsetExpr v)
    (y_LogStageLabels v) (y_LogParserLabels v) (y_LogFMTFlags v) x (y_Matchers v) (y_MetricOp v)
    (y_BinaryOpOptions v) (y_Range v) (y_Filter v) (y_Selector v) (y_Grouping v) (y_Labels v)
    (y_str v) (y_binaryOp v) (y_ComparisonOp v) (y_duration v) (y_ConvOp v).

Definition set_Matchers (x : list Matcher) (v : exprSymType) : exprSymType :=
  mkSym (y_yys v) (y_Expr v) (y_LogBinaryOpExpr v) (y_LogFilterExpr v) (y_LogLabelFilterExpr v)
    (y_LogFormatExpr v) (y_LogQueryExpr v) (y_LogMetricExpr v) (y_LogNumberExpr v)
    (y_LogPipelineExpr v) (y_LogStageExpr v) (y_LogRangeQueryExpr v) (y_LogOffsetExpr v)
    (y_LogStageLabels v) (y_LogParserLabels v) (y_LogFMTFlags v) (y_Matcher v) x (y_MetricOp v)
    (y_BinaryOpOptions v) (y_Range v) (y_Filter v) (y_Selector v) (y_Grouping v) (y_Labels v)
    (y_str v) (y_binaryOp v) (y_ComparisonOp v) (y_duration v) (y_ConvOp v).

Definition set_MetricOp (x : string) (v : exprSymType) : exprSymType :=
  mkSym (y_yys v) (y_Expr v) (y_LogBinaryOpExpr v) (y_LogFilterExpr v) (y_LogLabelFilterExpr v)
    (y_LogFormatExpr v) (y_LogQueryExpr v) (y_LogMetricExpr v) (y_LogNumberExpr v)
    (y_LogPipelineExpr v) (y_LogStageExpr v) (y_LogRangeQueryExpr v) (y_LogOffsetExpr v)
    (y_LogStageLabels v) (y_LogParserLabels v) (y_LogFMTFlags v) (y_Matcher v) (y_Matchers v) x
    (y_BinaryOpOptions v) (y_Range v) (y_Filter v) (y_Selector v) (y_Grouping v) (y_Labels v)
    (y_str v) (y_binaryOp v) (y_ComparisonOp v) (y_duration v) (y_ConvOp v).

Definition set_BinaryOpOptions (x : BinaryOpOptions) (v : exprSymType) : exprSymType :=
  mkSym (y_yys v) (y_Expr v) (y_LogBinaryOpExpr v) (y_LogFilterExpr v) (y_LogLabelFilterExpr v)
    (y_LogFormatExpr v) (y_LogQueryExpr v) (y_LogMetricExpr v) (y_LogNumberExpr v)
    (y_LogPipelineExpr v) (y_LogStageExpr v) (y_LogRangeQueryExpr v) (y_LogOffsetExpr v)
    (y_LogStageLabels v) (y_LogParserLabels v) (y_LogFMTFlags v) (y_Matcher v) (y_Matchers v)
    (y_MetricOp v) x (y_Range v) (y_Filter v) (y_Selector v) (y_Grouping v) (y_Labels v) (y_str v)
    (y_binaryOp v) (y_ComparisonOp v) (y_duration v) (y_ConvOp v).

Definition set_Filter (x : string) (v : exprSymType) : exprSymType :=
  mkSym (y_yys v) (y_Expr v) (y_LogBinaryOpExpr v) (y_LogFilterExpr v) (y_LogLabelFilterExpr v)
    (y_LogFormatExpr v) (y_LogQueryExpr v) (y_LogMetricExpr v) (y_LogNumberExpr v)
    (y_LogPipelineExpr v) (y_LogStageExpr v) (y_LogRangeQueryExpr v) (y_LogOffsetExpr v)
    (y_LogStageLabels v) (y_LogParserLabels v) (y_LogFMTFlags v) (y_Matcher v) (y_Matchers v)
    (y_MetricOp v) (y_BinaryOpOptions v) (y_Range v) x (y_Selector v) (y_Grouping v) (y_Labels v)
    (y_str v) (y_binaryOp v) (y_ComparisonOp v) (y_duration v) (y_ConvOp v).

Definition set_Selector (x : list Matcher) (v : exprSymType) : exprSymType :=
  mkSym (y_yys v) (y_Expr v) (y_LogBinaryOpExpr v) (y_LogFilterExpr v) (y_LogLabelFilterExpr v)
    (y_LogFormatExpr v) (y_LogQueryExpr v) (y_LogMetricExpr v) (y_LogNumberExpr v)
    (y_LogPipelineExpr v) (y_LogStageExpr v) (y_LogRangeQueryExpr v) (y_LogOffsetExpr v)
    (y_LogStageLabels v) (y_LogParserLabels v) (y_LogFMTFlags v) (y_Matcher v) (y_Matchers v)
    (y_MetricOp v) (y_BinaryOpOptions v) (y_Range v) (y_Filter v) x (y_Grouping v) (y_Labels v)
    (y_str v) (y_binaryOp v) (y_ComparisonOp v) (y_duration v) (y_ConvOp v).

Definition set_Grouping (x : option grouping) (v : exprSymType) : exprSymType :=
  mkSym (y_yys v) (y_Expr v) (y_LogBinaryOpExpr v) (y_LogFilterExpr v) (y_LogLabelFilterExpr v)
    (y_LogFormatExpr v) (y_LogQueryExpr v) (y_LogMetricExpr v) (y_LogNumberExpr v)
    (y_LogPipelineExpr v) (y_LogStageExpr v) (y_LogRangeQueryExpr v) (y_LogOffsetExpr v)
    (y_LogStageLabels v) (y_LogParserLabels v) (y_LogFMTFlags v) (y_Matcher v) (y_Matchers v)
    (y_MetricOp v) (y_BinaryOpOptions v) (y_Range v) (y_Filter v) (y_Selector v) x (y_Labels v)
    (y_str v) (y_binaryOp v) (y_ComparisonOp v) (y_duration v) (y_ConvOp v).

Definition set_Labels (x : list string) (v : exprSymType) : exprSymType :=
  mkSym (y_yys v) (y_Expr v) (y_LogBinaryOpExpr v) (y_LogFilterExpr v) (y_LogLabelFilterExpr v)
    (y_LogFormatExpr v) (y_LogQueryExpr v) (y_LogMetricExpr v) (y_LogNumberExpr v)
    (y_LogPipelineExpr v) (y_LogStageExpr v) (y_LogRangeQueryExpr v) (y_LogOffsetExpr v)
    (y_LogStageLabels v) (y_LogParserLabels v) (y_LogFMTFlags v) (y_Matcher v) (y_Matchers v)
    (y_MetricOp v) (y_BinaryOpOptions v) (y_Range v) (y_Filter v) (y_Selector v) (y_Grouping v) x
    (y_str v) (y_binaryOp v) (y_ComparisonOp v) (y_duration v) (y_ConvOp v).

Definition set_str (x : string) (v : exprSymType) : exprSymType :=
  mkSym (y_yys v) (y_Expr v) (y_LogBinaryOpExpr v) (y_LogFilterExpr v) (y_LogLabelFilterExpr v)
    (y_LogFormatExpr v) (y_LogQueryExpr v) (y_LogMetricExpr v) (y_LogNumberExpr v)
    (y_LogPipelineExpr v) (y_LogStageExpr v) (y_LogRangeQueryExpr v) (y_LogOffsetExpr v)
    (y_LogStageLabels v) (y_LogParserLabels v) (y_LogFMTFlags v) (y_Matcher v) (y_Matchers v)
    (y_MetricOp v) (y_BinaryOpOptions v) (y_Range v) (y_Filter v) (y_Selector v) (y_Grouping v)
    (y_Labels v) x (y_binaryOp v) (y_ComparisonOp v) (y_duration v) (y_ConvOp v).

Definition set_ComparisonOp (x : string) (v : exprSymType) : exprSymType :=
  mkSym (y_yys v) (y_Expr v) (y_LogBinaryOpExpr v) (y_LogFilterExpr v) (y_LogLabelFilterExpr v)
    (y_LogFormatExpr v) (y_LogQueryExpr v) (y_LogMetricExpr v) (y_LogNumberExpr v)
    (y_LogPipelineExpr v) (y_LogStageExpr v) (y_LogRangeQueryExpr v) (y_LogOffsetExpr v)
    (y_LogStageLabels v) (y_LogParserLabels v) (y_LogFMTFlags v) (y_Matcher v) (y_Matchers v)
    (y_MetricOp v) (y_BinaryOpOptions v) (y_Range v) (y_Filter v) (y_Selector v) (y_Grouping v)
    (y_Labels v) (y_str v) (y_binaryOp v) x (y_duration v) (y_ConvOp v).

Definition set_duration (x : Duration) (v : exprSymType) : exprSymType :=
  mkSym (y_yys v) (y_Expr v) (y_LogBinaryOpExpr v) (y_LogFilterExpr v) (y_LogLabelFilterExpr v)
    (y_LogFormatExpr v) (y_LogQueryExpr v) (y_LogMetricExpr v) (y_LogNumberExpr v)
    (y_LogPipelineExpr v) (y_LogStageExpr v) (y_LogRangeQueryExpr v) (y_LogOffsetExpr v)
    (y_LogStageLabels v) (y_LogParserLabels v) (y_LogFMTFlags v) (y_Matcher v) (y_Matchers v)
    (y_MetricOp v) (y_BinaryOpOptions v) (y_Range v) (y_Filter v) (y_Selector v) (y_Grouping v)
    (y_Labels v) (y_str v) (y_binaryOp v) (y_ComparisonOp v) x (y_ConvOp v).

Definition set_ConvOp (x : string) (v : exprSymType) : exprSymType :=
  mkSym (y_yys v) (y_Expr v) (y_LogBinaryOpExpr v) (y_LogFilterExpr v) (y_LogLabelFilterExpr v)
    (y_LogFormatExpr v) (y_LogQueryExpr v) (y_LogMetricExpr v) (y_LogNumberExpr v)
    (y_LogPipelineExpr v) (y_LogStageExpr v) (y_LogRangeQueryExpr v) (y_LogOffsetExpr v)
    (y_LogStageLabels v) (y_LogParserLabels v) (y_LogFMTFlags v) (y_Matcher v) (y_Matchers v)
    (y_MetricOp v) (y_BinaryOpOptions v) (y_Range v) (y_Filter v) (y_Selector v) (y_Grouping v)
    (y_Labels v) (y_str v) (y_binaryOp v) (y_ComparisonOp v) (y_duration v) x.

(** ** The actions

    [D i] is the access [exprDollar[i]], which panics when the slice is too short,
    [slot i] the place of that value in the stack and [VAL] the value of [exprVAL] before the action, which the actions change in
    one field.  The groups follow the nonterminals of [logql/v2/expr.y]. *)

Definition nil_child : string := "nil child".

Definition need {A} (o : option A) : flow A :=
  match o with Some a => Return a | None => Panic nil_child end.

Definition out_of_range : string := "index out of range".

(** The access [exprDollar[i]]. *)
Definition dollar (exprDollar : list exprSymType) (i : nat) : flow exprSymType :=
  match exprDollar !! i with Some v => Return v | None => Panic out_of_range end.

Section dollar.
Context (D : nat -> flow exprSymType) (slot : nat -> NumberRef) (VAL : exprSymType).
Local Open Scope Z_scope.

(** [root], [expr], [logQueryExpr]; [root] stores the tree in the parser. *)
Definition action_expr (n : Z) : flow exprSymType :=
  match n with
  | 2 => d1 ← D 1; q ← need (y_LogQueryExpr d1); mret (set_Expr (Some (ESelector q)) VAL)
  | 3 => d1 ← D 1; m ← need (y_LogMetricExpr d1); mret (set_Expr (Some (EMetric m)) VAL)
  | 4 => d1 ← D 1; b ← need (y_LogBinaryOpExpr d1); mret (set_Expr (Some b) VAL)
  | 5 => d1 ← D 1; mret (set_Expr (Some (LogNumberExpr (y_LogNumberExpr d1))) VAL)
  | 6 => d2 ← D 2; e ← need (y_Expr d2); mret (set_Expr (Some (newParenthesisExpr e)) VAL)
  | 7 => d1 ← D 1;
      mret (set_LogQueryExpr
        (Some (newLogQueryExpr (newStreamMatcherExpr (y_Selector d1)) None)) VAL)
  | 8 => d1 ← D 1; d2 ← D 2;
      mret (set_LogQueryExpr
        (Some (newLogQueryExpr (newStreamMatcherExpr (y_Selector d1))
        (y_LogPipelineExpr d2))) VAL)
  | _ => mret VAL
  end.

(** [logPipelineExpr], [convOp]. *)
Definition action_pipeline (n : Z) : flow exprSymType :=
  match n with
  | 9 => d1 ← D 1; st ← need (y_LogStageExpr d1); mret (set_LogPipelineExpr (Some [st]) VAL)
  | 10 => d1 ← D 1; d2 ← D 2;
      st ← need (y_LogStageExpr d2);
      mret (set_LogPipelineExpr (Some (default [] (y_LogPipelineExpr d1) ++ [st])) VAL)
  | 11 => mret (set_ConvOp OpConvBytes VAL)
  | 12 => mret (set_ConvOp OpConvDuration VAL)
  | 13 => mret (set_ConvOp OpConvDurationSeconds VAL)
  | _ => mret VAL
  end.

Definition set_parser_stage (parser identifier operation : string) : flow exprSymType :=
  mret (set_LogStageExpr (Some (StParser (newLogParserExpr parser identifier operation))) VAL).

Definition set_label_stage (parser : string) (flags : list string) (labels : list LogLabel) :
    flow exprSymType :=
  mret (set_LogStageExpr (Some (StLabel (newLogLabelExpr parser flags labels))) VAL).

(** [logStageExpr]. *)
Definition action_stage (n : Z) : flow exprSymType :=
  match n with
  | 14 => d1 ← D 1; f ← need (y_LogFilterExpr d1); mret (set_LogStageExpr (Some (StFilter f)) VAL)
  | 15 => d2 ← D 2;
      f ← need (y_LogLabelFilterExpr d2); mret (set_LogStageExpr (Some (StLabelFilter f)) VAL)
  | 16 => set_parser_stage ParserLogFMT "" ""
  | 17 => d3 ← D 3; set_label_stage ParserLogFMT [] (y_LogParserLabels d3)
  | 18 => d3 ← D 3; d4 ← D 4;
      set_label_stage ParserLogFMT (y_LogFMTFlags d3) (y_LogParserLabels d4)
  | 19 => set_parser_stage ParserJSON "" ""
  | 20 => d3 ← D 3; set_label_stage ParserJSON [] (y_LogParserLabels d3)
  | 21 => set_parser_stage ParserUnpack "" ""
  | 22 => d3 ← D 3; set_parser_stage ParserUnwrap (y_str d3) ""
  | 23 => d3 ← D 3; d5 ← D 5; set_parser_stage ParserUnwrap (y_str d5) (y_ConvOp d3)
  | 24 => d3 ← D 3; set_parser_stage ParserRegExp (y_str d3) ""
  | 25 => d3 ← D 3; set_parser_stage ParserPattern (y_str d3) ""
  | 26 => d3 ← D 3; set_parser_stage ParserLineFormat (y_str d3) ""
  | 27 => mret (set_LogStageExpr (Some newLogDecolorizeExpr) VAL)
  | 28 => d3 ← D 3; f ← need (y_LogFormatExpr d3); mret (set_LogStageExpr (Some (StFormat f)) VAL)
  | 29 => d3 ← D 3; set_label_stage ParserDrop [] (y_LogStageLabels d3)
  | 30 => d3 ← D 3; set_label_stage ParserKeep [] (y_LogStageLabels d3)
  | _ => mret VAL
  end.

(** [logFilterExpr]. *)
Definition action_filter (n : Z) : flow exprSymType :=
  match n with
  | 31 => d1 ← D 1; d2 ← D 2;
      mret (set_LogFilterExpr (Some (newLogFilterExpr (y_Filter d1) "" (y_str d2))) VAL)
  | 32 => d1 ← D 1; d4 ← D 4;
      mret (set_LogFilterExpr (Some (newLogFilterExpr (y_Filter d1) OpIP (y_str d4))) VAL)
  | 33 => d1 ← D 1; d2 ← D 2; d4 ← D 4;
      mret (set_LogFilterExpr (Some (LogFilter_chain
        (newLogFilterExpr (y_Filter d1) "" (y_str d2)) "or"
        (newLogFilterExpr (y_Filter d1) "" (y_str d4)))) VAL)
  | 34 => d1 ← D 1; d2 ← D 2; d6 ← D 6;
      mret (set_LogFilterExpr (Some (LogFilter_chain
        (newLogFilterExpr (y_Filter d1) "" (y_str d2)) "or"
        (newLogFilterExpr (y_Filter d1) OpIP (y_str d6)))) VAL)
  | _ => mret VAL
  end.

Definition set_label_filter (filterOp : string) (value : LogLabelFilterValue) : flow exprSymType :=
  d1 ← D 1; d2 ← D 2;
  mret (set_LogLabelFilterExpr (Some (newLogLabelFilter (y_str d1) (y_ComparisonOp d2)
                                        filterOp value)) VAL).

Definition chain_label_filter (op : string) : flow exprSymType :=
  d1 ← D 1; d3 ← D 3;
  l ← need (y_LogLabelFilterExpr d1);
  r ← need (y_LogLabelFilterExpr d3);
  mret (set_LogLabelFilterExpr (Some (LogLabelFilter_chain l op r)) VAL).

(** [logLabelFilterExpr]; 37 stores the address of [exprDollar[3].LogNumberExpr]. *)
Definition action_label_filter (n : Z) : flow exprSymType :=
  match n with
  | 35 => d3 ← D 3; set_label_filter "" (TypeText (y_str d3))
  | 36 => d3 ← D 3; set_label_filter "" (TypeDuration (y_duration d3))
  | 37 => _ ← D 3; set_label_filter "" (TypeNumber (slot 3))
  | 38 => d5 ← D 5; set_label_filter OpIP (TypeText (y_str d5))
  | 39 => chain_label_filter "and"
  | 40 => chain_label_filter "or"
  | 41 => chain_label_filter ","
  | _ => mret VAL
  end.

Definition set_format (value : LogFormatValue) : flow exprSymType :=
  d1 ← D 1;
  mret (set_LogFormatExpr (Some (newLogFormatExpr "" {[ y_str d1 := value ]} "")) VAL).

(** [logFormatExpr], [logOffsetExpr]. *)
Definition action_format (n : Z) : flow exprSymType :=
  match n with
  | 42 => d3 ← D 3; set_format (mkFormatValue (y_str d3) false)
  | 43 => d3 ← D 3; set_format (mkFormatValue (y_str d3) true)
  | 44 => d5 ← D 5; set_format (mkFormatValue (OpIP +:+ "(" +:+ y_str d5 +:+ ")") false)
  | 45 => d1 ← D 1; d3 ← D 3;
      l ← need (y_LogFormatExpr d1);
      r ← need (y_LogFormatExpr d3);
      mret (set_LogFormatExpr
        (Some (newLogFormatExpr "," (mergeLogFormatValues (fmt_kv l) (fmt_kv r)) "")) VAL)
  | 46 => d2 ← D 2; mret (set_LogOffsetExpr (Some (newLogOffsetExpr (y_duration d2))) VAL)
  | _ => mret VAL
  end.

Definition set_range_query (selector : list Matcher) (pipeline : option (list LogStageExpr))
    (rng : string) (g : option grouping) (rngLast : bool) : flow exprSymType :=
  mret (set_LogRangeQueryExpr (Some (newLogRangeQueryExpr
          (newLogQueryExpr (newStreamMatcherExpr selector) pipeline) rng g rngLast)) VAL).

(** [logRangeQueryExpr]; 54 is the error production. *)
Definition action_range_query (n : Z) : flow exprSymType :=
  match n with
  | 47 => d1 ← D 1; d2 ← D 2; set_range_query (y_Selector d1) None (y_str d2) None false
  | 48 => d1 ← D 1; d2 ← D 2; d3 ← D 3;
      set_range_query (y_Selector d1) (y_LogPipelineExpr d3) (y_str d2) None false
  | 49 => d1 ← D 1; d2 ← D 2; d3 ← D 3;
      set_range_query (y_Selector d1) (y_LogPipelineExpr d2) (y_str d3) None true
  | 50 => d2 ← D 2; d3 ← D 3; set_range_query (y_Selector d2) None (y_str d3) None false
  | 51 => d2 ← D 2; d3 ← D 3; d4 ← D 4;
      set_range_query (y_Selector d2) (y_LogPipelineExpr d4) (y_str d3) None false
  | 52 => d2 ← D 2; d3 ← D 3; d5 ← D 5;
      set_range_query (y_Selector d2) (y_LogPipelineExpr d3) (y_str d5) None true
  | 53 => d2 ← D 2; d3 ← D 3; d4 ← D 4; d6 ← D 6;
      set_range_query (y_Selector d2) (y_LogPipelineExpr d4) (y_str d3) (y_Grouping d6) false
  | 55 => d2 ← D 2;
      e ← need (y_LogRangeQueryExpr d2);
      mret (set_LogRangeQueryExpr (Some (newParenthesisLogRangeQueryExpr e)) VAL)
  | _ => mret VAL
  end.

(** [newLogMetricExpr(nil, exprDollar[i].LogRangeQueryExpr, ...)]. *)
Definition range_metric (i : nat) (preamble : string) (g : option grouping) (o : option Duration) :
    flow exprSymType :=
  di ← D i; d1 ← D 1;
  q ← need (y_LogRangeQueryExpr di);
  mret (set_LogMetricExpr (Some (newLogMetricExpr None (Some q) (y_MetricOp d1) preamble g
                                   false [] o)) VAL).

(** [newLogMetricExpr(exprDollar[i].LogMetricExpr, nil, ...)], and the same on a
    [LogBinaryOpExpr]. *)
Definition vector_metric (e : flow Expr) (op preamble : string) (g : option grouping)
    (after : bool) (params : list string) (o : option Duration) : flow exprSymType :=
  e ← e;
  mret (set_LogMetricExpr (Some (newLogMetricExpr (Some e) None op preamble g after params o)) VAL).

Definition metric_arg (i : nat) : flow Expr :=
  di ← D i; m ← need (y_LogMetricExpr di); mret (EMetric m).
Definition binary_arg (i : nat) : flow Expr := di ← D i; need (y_LogBinaryOpExpr di).

Definition replace_params : flow (list string) :=
  d5 ← D 5; d7 ← D 7; d9 ← D 9; d11 ← D 11;
  mret [y_str d5; y_str d7; y_str d9; y_str d11].

(** [logMetricExpr]. *)
Definition action_metric (n : Z) : flow exprSymType :=
  match n with
  | 56 => range_metric 3 "" None None
  | 57 => d4 ← D 4; range_metric 3 "" None (y_LogOffsetExpr d4)
  | 58 => d3 ← D 3; range_metric 5 (y_str d3) None None
  | 59 => d3 ← D 3; d7 ← D 7; range_metric 5 (y_str d3) (y_Grouping d7) None
  | 60 => d3 ← D 3; d6 ← D 6; range_metric 5 (y_str d3) None (y_LogOffsetExpr d6)
  | 61 => d3 ← D 3; d6 ← D 6; d8 ← D 8;
      range_metric 5 (y_str d3) (y_Grouping d8) (y_LogOffsetExpr d6)
  | 62 => d5 ← D 5; range_metric 3 "" (y_Grouping d5) None
  | 63 => d4 ← D 4; d6 ← D 6; range_metric 3 "" (y_Grouping d6) (y_LogOffsetExpr d4)
  | 64 => d1 ← D 1; d5 ← D 5;
      vector_metric (metric_arg 3) (y_MetricOp d1) "" (y_Grouping d5) false [] None
  | 65 => d1 ← D 1; vector_metric (metric_arg 3) (y_MetricOp d1) "" None false [] None
  | 66 => d1 ← D 1; d3 ← D 3;
      vector_metric (metric_arg 5) (y_MetricOp d1) (y_str d3) None false [] None
  | 67 => d1 ← D 1; d3 ← D 3; d7 ← D 7;
      vector_metric (metric_arg 5) (y_MetricOp d1) (y_str d3) (y_Grouping d7) false [] None
  | 68 => d1 ← D 1; d3 ← D 3; d6 ← D 6; d8 ← D 8;
      vector_metric (metric_arg 5) (y_MetricOp d1) (y_str d3) (y_Grouping d8) false []
        (y_LogOffsetExpr d6)
  | 69 => d1 ← D 1; d2 ← D 2; d4 ← D 4;
      vector_metric (metric_arg 6) (y_MetricOp d1) (y_str d4) (y_Grouping d2) true [] None
  | 70 => d1 ← D 1; d2 ← D 2;
      vector_metric (metric_arg 4) (y_MetricOp d1) "" (y_Grouping d2) true [] None
  | 71 => d1 ← D 1; d2 ← D 2; d5 ← D 5;
      vector_metric (metric_arg 4) (y_MetricOp d1) "" (y_Grouping d2) true [] (y_LogOffsetExpr d5)
  | 72 => params ← replace_params;
      vector_metric (metric_arg 3) OpLabelReplace "" None false params None
  | 73 => d1 ← D 1; d5 ← D 5;
      vector_metric (binary_arg 3) (y_MetricOp d1) "" (y_Grouping d5) false [] None
  | 74 => d1 ← D 1; vector_metric (binary_arg 3) (y_MetricOp d1) "" None false [] None
  | 75 => d1 ← D 1; d3 ← D 3;
      vector_metric (binary_arg 5) (y_MetricOp d1) (y_str d3) None false [] None
  | 76 => d1 ← D 1; d3 ← D 3; d7 ← D 7;
      vector_metric (binary_arg 5) (y_MetricOp d1) (y_str d3) (y_Grouping d7) false [] None
  | 77 => d1 ← D 1; d2 ← D 2; d4 ← D 4;
      vector_metric (binary_arg 6) (y_MetricOp d1) (y_str d4) (y_Grouping d2) true [] None
  | 78 => d1 ← D 1; d2 ← D 2;
      vector_metric (binary_arg 4) (y_MetricOp d1) "" (y_Grouping d2) true [] None
  | 79 => params ← replace_params;
      vector_metric (binary_arg 3) OpLabelReplace "" None false params None
  | 80 => d3 ← D 3;
      vector_metric (mret (newVectorExpr (y_str d3))) OpTypeVector "" None false [] None
  | 81 => d2 ← D 2;
      m ← need (y_LogMetricExpr d2);
      mret (set_LogMetricExpr (Some (newParenthesisLogMetricExpr m)) VAL)
  | _ => mret VAL
  end.

Definition set_binary_op (op : string) : flow exprSymType :=
  d1 ← D 1; d3 ← D 3; d4 ← D 4;
  l ← need (y_Expr d1);
  r ← need (y_Expr d4);
  mret (set_LogBinaryOpExpr (Some (newLogBinaryOpExpr op (y_BinaryOpOptions d3) l r)) VAL).

(** [logBinaryOpExpr], [logNumberExpr]. *)
Definition action_binary_op (n : Z) : flow exprSymType :=
  match n with
  | 82 => set_binary_op "or"
  | 83 => set_binary_op "and"
  | 84 => set_binary_op "unless"
  | 85 => set_binary_op "+"
  | 86 => set_binary_op "-"
  | 87 => set_binary_op "*"
  | 88 => set_binary_op "/"
  | 89 => set_binary_op "%"
  | 90 => set_binary_op "^"
  | 91 => set_binary_op "=="
  | 92 => set_binary_op "!="
  | 93 => set_binary_op ">"
  | 94 => set_binary_op ">="
  | 95 => set_binary_op "<"
  | 96 => set_binary_op "<="
  | 97 => d1 ← D 1; mret (set_LogNumberExpr (newLogNumberExpr (y_str d1) false) VAL)
  | 98 => d2 ← D 2; mret (set_LogNumberExpr (newLogNumberExpr (y_str d2) false) VAL)
  | 99 => d2 ← D 2; mret (set_LogNumberExpr (newLogNumberExpr (y_str d2) true) VAL)
  | _ => mret VAL
  end.

(** [logStageLabels], [logParserLabels], [logFMTFlags]. *)
Definition action_labels (n : Z) : flow exprSymType :=
  match n with
  | 100 => d1 ← D 1; mret (set_LogStageLabels (newLogLabelList (newLogLabel (y_str d1) None)) VAL)
  | 101 => d1 ← D 1;
      mret (set_LogStageLabels (newLogLabelList (newLogLabel "" (y_Matcher d1))) VAL)
  | 102 => d1 ← D 1; d3 ← D 3;
      mret (set_LogStageLabels (mergeLabels (y_LogStageLabels d1) (y_LogStageLabels d3)) VAL)
  | 103 => d1 ← D 1;
      mret (set_LogParserLabels (newLogLabelList (newLogLabel (y_str d1) None)) VAL)
  | 104 => d1 ← D 1; d3 ← D 3;
      m ← newLabelMatcher MatchEqual (y_str d1) (y_str d3);
      mret (set_LogParserLabels (newLogLabelList (newLogLabel "" (Some m))) VAL)
  | 105 => d1 ← D 1; d3 ← D 3;
      mret (set_LogParserLabels (mergeLabels (y_LogParserLabels d1) (y_LogParserLabels d3)) VAL)
  | 106 => d1 ← D 1; mret (set_LogFMTFlags [y_str d1] VAL)
  | 107 => d1 ← D 1; mret (set_LogFMTFlags [y_str d1] VAL)
  | 108 => d1 ← D 1; d2 ← D 2;
      mret (set_LogFMTFlags (mergeParserFlags (y_LogFMTFlags d1) (y_LogFMTFlags d2)) VAL)
  | _ => mret VAL
  end.

Definition set_on (lbls : list string) (t : GroupingOptionType) (incl : list string) :
    flow exprSymType :=
  d1 ← D 1;
  let o := y_BinaryOpOptions d1 in
  mret (set_BinaryOpOptions
          (mkBinOpts (bo_ReturnBool o) (bo_Ignoring o) (mkVectorMatch true lbls t incl)) VAL).

Definition set_ignoring (lbls : list string) (t : GroupingOptionType) (incl : list string) :
    flow exprSymType :=
  d1 ← D 1;
  let o := y_BinaryOpOptions d1 in
  mret (set_BinaryOpOptions
          (mkBinOpts (bo_ReturnBool o) (mkVectorMatch true lbls t incl) (bo_On o)) VAL).

(** [binaryOpOptions]. *)
Definition action_options (n : Z) : flow exprSymType :=
  match n with
  | 109 => mret (set_BinaryOpOptions no_options VAL)
  | 110 => mret (set_BinaryOpOptions (mkBinOpts true no_match no_match) VAL)
  | 111 => d4 ← D 4; set_on (y_Labels d4) NoGroupingOption []
  | 112 => d4 ← D 4; set_on (y_Labels d4) GroupLeftOption []
  | 113 => d4 ← D 4; d8 ← D 8; set_on (y_Labels d4) GroupLeftOption (y_Labels d8)
  | 114 => d4 ← D 4; set_on (y_Labels d4) GroupRightOption []
  | 115 => d4 ← D 4; d8 ← D 8; set_on (y_Labels d4) GroupRightOption (y_Labels d8)
  | 116 => set_on [] NoGroupingOption []
  | 117 => set_on [] GroupLeftOption []
  | 118 => d7 ← D 7; set_on [] GroupLeftOption (y_Labels d7)
  | 119 => set_on [] GroupRightOption []
  | 120 => d7 ← D 7; set_on [] GroupRightOption (y_Labels d7)
  | 121 => d4 ← D 4; set_ignoring (y_Labels d4) NoGroupingOption []
  | 122 => d4 ← D 4; set_ignoring (y_Labels d4) GroupLeftOption []
  | 123 => d4 ← D 4; d8 ← D 8; set_ignoring (y_Labels d4) GroupLeftOption (y_Labels d8)
  | 124 => d4 ← D 4; set_ignoring (y_Labels d4) GroupRightOption []
  | 125 => d4 ← D 4; d8 ← D 8; set_ignoring (y_Labels d4) GroupRightOption (y_Labels d8)
  | 126 => set_ignoring [] NoGroupingOption []
  | 127 => set_ignoring [] GroupLeftOption []
  | 128 => d7 ← D 7; set_ignoring [] GroupLeftOption (y_Labels d7)
  | 129 => set_ignoring [] GroupRightOption []
  | 130 => d7 ← D 7; set_ignoring [] GroupRightOption (y_Labels d7)
  | _ => mret VAL
  end.

Definition set_matcher (t : MatchType) : flow exprSymType :=
  d1 ← D 1; d3 ← D 3;
  m ← newLabelMatcher t (y_str d1) (y_str d3); mret (set_Matcher (Some m) VAL).

(** [selector], [matchers], [matcher]; 132 is an error production and 133, the
    empty selector, leaves the value as it is. *)
Definition action_selector (n : Z) : flow exprSymType :=
  match n with
  | 131 => d2 ← D 2; mret (set_Selector (y_Matchers d2) VAL)
  | 132 => d2 ← D 2; mret (set_Selector (y_Matchers d2) VAL)
  | 134 => d1 ← D 1; m ← need (y_Matcher d1); mret (set_Matchers [m] VAL)
  | 135 => d1 ← D 1; d3 ← D 3;
      m ← need (y_Matcher d3); mret (set_Matchers (y_Matchers d1 ++ [m]) VAL)
  | 136 => set_matcher MatchEqual
  | 137 => set_matcher MatchNotEqual
  | 138 => set_matcher MatchRegexp
  | 139 => set_matcher MatchNotRegexp
  | _ => mret VAL
  end.

(** [metricOp]. *)
Definition action_metric_op (n : Z) : flow exprSymType :=
  match n with
  | 140 => mret (set_MetricOp RangeOpTypeCount VAL)
  | 141 => mret (set_MetricOp RangeOpTypeRate VAL)
  | 142 => mret (set_MetricOp RangeOpTypeRateCounter VAL)
  | 143 => mret (set_MetricOp RangeOpTypeBytes VAL)
  | 144 => mret (set_MetricOp RangeOpTypeBytesRate VAL)
  | 145 => mret (set_MetricOp RangeOpTypeAvg VAL)
  | 146 => mret (set_MetricOp RangeOpTypeSum VAL)
  | 147 => mret (set_MetricOp RangeOpTypeMin VAL)
  | 148 => mret (set_MetricOp RangeOpTypeMax VAL)
  | 149 => mret (set_MetricOp RangeOpTypeStdvar VAL)
  | 150 => mret (set_MetricOp RangeOpTypeStddev VAL)
  | 151 => mret (set_MetricOp RangeOpTypeQuantile VAL)
  | 152 => mret (set_MetricOp RangeOpTypeFirst VAL)
  | 153 => mret (set_MetricOp RangeOpTypeLast VAL)
  | 154 => mret (set_MetricOp RangeOpTypeAbsent VAL)
  | 155 => mret (set_MetricOp VectorOpTypeSum VAL)
  | 156 => mret (set_MetricOp VectorOpTypeAvg VAL)
  | 157 => mret (set_MetricOp VectorOpTypeCount VAL)
  | 158 => mret (set_MetricOp VectorOpTypeMax VAL)
  | 159 => mret (set_MetricOp VectorOpTypeMin VAL)
  | 160 => mret (set_MetricOp VectorOpTypeStddev VAL)
  | 161 => mret (set_MetricOp VectorOpTypeStdvar VAL)
  | 162 => mret (set_MetricOp VectorOpTypeBottomK VAL)
  | 163 => mret (set_MetricOp VectorOpTypeTopK VAL)
  | 164 => mret (set_MetricOp VectorOpTypeSort VAL)
  | 165 => mret (set_MetricOp VectorOpTypeSortDesc VAL)
  | 166 => mret (set_MetricOp OpTypeVector VAL)
  | _ => mret VAL
  end.

(** [filter], [comparisonOp]. *)
Definition action_operator (n : Z) : flow exprSymType :=
  match n with
  | 167 => mret (set_Filter "|~" VAL)
  | 168 => mret (set_Filter "|=" VAL)
  | 169 => mret (set_Filter "|>" VAL)
  | 170 => mret (set_Filter "!>" VAL)
  | 171 => mret (set_Filter "!~" VAL)
  | 172 => mret (set_Filter "!=" VAL)
  | 173 => mret (set_ComparisonOp "=" VAL)
  | 174 => mret (set_ComparisonOp "!=" VAL)
  | 175 => mret (set_ComparisonOp "=~" VAL)
  | 176 => mret (set_ComparisonOp "!~" VAL)
  | 177 => mret (set_ComparisonOp ">" VAL)
  | 178 => mret (set_ComparisonOp ">=" VAL)
  | 179 => mret (set_ComparisonOp "<" VAL)
  | 180 => mret (set_ComparisonOp "<=" VAL)
  | _ => mret VAL
  end.

(** [labels], [grouping]. *)
Definition action_grouping (n : Z) : flow exprSymType :=
  match n with
  | 181 => d1 ← D 1; mret (set_Labels [y_str d1] VAL)
  | 182 => d1 ← D 1; d3 ← D 3; mret (set_Labels (y_Labels d1 ++ [y_str d3]) VAL)
  | 183 => d3 ← D 3; mret (set_Grouping (Some (mkGrouping false (y_Labels d3))) VAL)
  | 184 => d3 ← D 3; mret (set_Grouping (Some (mkGrouping true (y_Labels d3))) VAL)
  | 185 => mret (set_Grouping (Some (mkGrouping false [])) VAL)
  | 186 => mret (set_Grouping (Some (mkGrouping true [])) VAL)
  | _ => mret VAL
  end.

(** The [switch] over the productions. *)
Definition action (n : Z) : flow exprSymType :=
  if n <=? 8 then action_expr n
  else if n <=? 13 then action_pipeline n
  else if n <=? 30 then action_stage n
  else if n <=? 34 then action_filter n
  else if n <=? 41 then action_label_filter n
  else if n <=? 46 then action_format n
  else if n <=? 55 then action_range_query n
  else if n <=? 81 then action_metric n
  else if n <=? 99 then action_binary_op n
  else if n <=? 108 then action_labels n
  else if n <=? 130 then action_options n
  else if n <=? 139 then action_selector n
  else if n <=? 166 then action_metric_op n
  else if n <=? 180 then action_operator n
  else action_grouping n.
End dollar.
End actions.

Arguments mkSym {_}.
