(* ===== verification/LogqlParser.v ===== *)
(** * The LogQL parser: the driver of [logql/v2/expr.y.go] and [logql/v2/parser.go]

    [Parse] is the loop goyacc generates, cut at the labels [exprstack] and
    [exprnewstate] into steps on the local variables and the parser object.  The
    value stack is the Go array: a slot keeps its value after it is popped, and a
    full array is replaced by a copy of twice the size, while references into the
    old one stay valid.  Every read and write of a table, of the stack and of
    [exprDollar] is checked: out of range is the panic [out_of_range]. *)

From stdpp Require Import base tactics option list gmap strings pretty.
From Stdlib Require Import ZArith Lia.
From S2P Require Import Prelude GoStrings Labels Strconv Http LogqlAst Scanner LogqlTables.
From S2P Require Import LogqlLexer LogqlActions.

Definition index (t : Table) (i : Z) : flow Z :=
  match table_get t i with Some x => Return x | None => Panic out_of_range end.

Definition table_len (t : Table) : Z := Z.of_nat (size t).

(** ** Tokens and error messages *)

Definition exprTokname (c : Z) : string :=
  match (if (1 <=? c)%Z then exprToknames !! Z.to_nat (c - 1) else None) with
  | Some n => if negb (String.eqb n "") then n else "tok-" +:+ pretty c
  | None => "tok-" +:+ pretty c
  end.

(** The internal number of a token: the part of [exprlex1] after [Lex]. *)
Definition internal_token (char : Z) : flow Z :=
  token ← (if (char <=? 0)%Z then index exprTok1 0
           else if (char <? table_len exprTok1)%Z then index exprTok1 char
           else if (exprPrivate <=? char)%Z && (char <? exprPrivate + table_len exprTok2)%Z
                then index exprTok2 (char - exprPrivate)
           else
             token ← index exprTok3 0;
             if (token =? char)%Z then index exprTok3 1 else mret token);
  if (token =? 0)%Z then index exprTok2 1 else mret token.

(** The first index of the exceptions of [state]. *)
Fixpoint exca_start (fuel : nat) (i state : Z) : flow Z :=
  match fuel with
  | O => Panic out_of_range
  | S fuel =>
      a ← index exprExca i; b ← index exprExca (i + 1);
      if (a =? -1)%Z && (b =? state)%Z then mret i else exca_start fuel (i + 2) state
  end.

Definition exca_fuel : nat := 8.

(** The exception for [token], from index [i] on. *)
Fixpoint exca_find (fuel : nat) (i token : Z) : flow Z :=
  match fuel with
  | O => Panic out_of_range
  | S fuel =>
      a ← index exprExca i;
      if (a <? 0)%Z || (a =? token)%Z then index exprExca (i + 1)
      else exca_find fuel (i + 2) token
  end.

Definition exca_action (state token : Z) : flow Z :=
  xi ← exca_start exca_fuel 0 state; exca_find exca_fuel (xi + 2) token.

Definition TOKSTART : Z := 4.

(** The tokens an error message names; [None] when there are more than four. *)
Fixpoint shiftable (n : nat) (base tok : Z) (expected : list Z) : flow (option (list Z)) :=
  match n with
  | O => mret (Some expected)
  | S n' =>
      let i := (base + tok)%Z in
      found ← (if (0 <=? i)%Z && (i <? exprLast)%Z
               then a ← index exprAct i; c ← index exprChk a; mret (c =? tok)%Z
               else mret false);
      if (found : bool) then
        if (length expected =? 4)%nat then mret None
        else shiftable n' base (tok + 1) (expected ++ [tok])
      else shiftable n' base (tok + 1) expected
  end.

(** The tokens of the exceptions of a state; [None] also when the default is to
    accept or reduce. *)
Fixpoint exca_expected (fuel : nat) (i : Z) (expected : list Z) : flow (option (list Z)) :=
  match fuel with
  | O => Panic out_of_range
  | S fuel =>
      tok ← index exprExca i;
      act ← index exprExca (i + 1);
      if (tok <? 0)%Z then mret (if (act =? 0)%Z then Some expected else None)
      else if (tok <? TOKSTART)%Z || (act =? 0)%Z then exca_expected fuel (i + 2) expected
      else if (length expected =? 4)%nat then mret None
      else exca_expected fuel (i + 2) (expected ++ [tok])
  end.

Definition exprErrorMessage (state lookAhead : Z) : flow string :=
  let res := "syntax error: unexpected " +:+ exprTokname lookAhead in
  base ← index exprPact state;
  expected ← shiftable (length exprToknames - 3) base TOKSTART [];
  dflt ← index exprDef state;
  expected ← (match expected with
    | None => mret None
    | Some l =>
        if (dflt =? -2)%Z
        then i ← exca_start exca_fuel 0 state; exca_expected exca_fuel (i + 2) l
        else mret (Some l)
    end);
  mret (match expected with
    | None | Some [] => res
    | Some l => res +:+ ", expecting " +:+ Join (exprTokname <$> l) " or "
    end).

Section parser.
Context `{LogqlEnv} `{RegexEngine} `{PromText}.

(** ** State

    The local variables of [Parse] with the parser object: [p_arrays] are the
    stack arrays that were replaced, [p_S] the current one, [p_p] the index of
    its top.  [p_lexer] holds the errors; [Nerrs] is never read. *)

Record ParserState := mkState {
  p_lexer : Scanner;
  p_expr : option Expr;
  p_lval : exprSymType;
  p_arrays : list (list exprSymType);
  p_S : list exprSymType;
  p_p : Z;
  p_VAL : exprSymType;
  p_state : Z;
  p_char : Z;
  p_token : Z;
  p_Errflag : Z
}.

Definition set_lookahead (l : Scanner) (lval : exprSymType) (char token : Z) (st : ParserState) :
    ParserState :=
  mkState l (p_expr st) lval (p_arrays st) (p_S st) (p_p st) (p_VAL st) (p_state st) char token
    (p_Errflag st).
Definition set_stack (arrays : list (list exprSymType)) (slots : list exprSymType) (p : Z)
    (st : ParserState) : ParserState :=
  mkState (p_lexer st) (p_expr st) (p_lval st) arrays slots p (p_VAL st) (p_state st) (p_char st)
    (p_token st) (p_Errflag st).
Definition set_value (expr : option Expr) (VAL : exprSymType) (state : Z) (st : ParserState) :
    ParserState :=
  mkState (p_lexer st) expr (p_lval st) (p_arrays st) (p_S st) (p_p st) VAL state (p_char st)
    (p_token st) (p_Errflag st).
Definition set_Errflag (n : Z) (st : ParserState) : ParserState :=
  mkState (p_lexer st) (p_expr st) (p_lval st) (p_arrays st) (p_S st) (p_p st) (p_VAL st)
    (p_state st) (p_char st) (p_token st) n.

(** Where the loop goes on, or how it ends; [OutOfFuel] is a call of [Lex] that
    did not return. *)
Inductive outcome :=
  | Goto_exprstack (st : ParserState)
  | Goto_exprnewstate (st : ParserState)
  | Ret (code : Z) (st : ParserState)
  | Panics (msg : string)
  | OutOfFuel.

Definition or_panic {A} (m : flow A) (k : A -> outcome) : outcome :=
  match m with Return a => k a | Panic msg => Panics msg end.

(** A stack slot. *)
Definition slot_at (slots : list exprSymType) (i : Z) : flow exprSymType :=
  if (i <? 0)%Z then Panic out_of_range
  else match slots !! Z.to_nat i with Some v => Return v | None => Panic out_of_range end.

(** The array is full: its copy of twice the size. *)
Definition grow (st : ParserState) : ParserState :=
  set_stack (p_arrays st ++ [p_S st])
    (p_S st ++ replicate (length (p_S st)) zero_sym) (p_p st) st.

Definition with_room (i : Z) (st : ParserState) : ParserState :=
  if (Z.of_nat (length (p_S st)) <=? i)%Z then grow st else st.

(** The assignment to a slot. *)
Definition store_at (i : Z) (v : exprSymType) (slots : list exprSymType) :
    flow (list exprSymType) :=
  _ ← slot_at slots i; mret (<[Z.to_nat i := v]> slots).

(** [exprstack]: put a state and value onto the stack. *)
Definition exprstack (st : ParserState) : flow ParserState :=
  let p := (p_p st + 1)%Z in
  let st := with_room p st in
  slots ← store_at p (set_yys (p_state st) (p_VAL st)) (p_S st);
  mret (set_stack (p_arrays st) slots p st).

(** [exprS[lo : hi]]; the capacity of the array is its length. *)
Definition slice (slots : list exprSymType) (lo hi : Z) : flow (list exprSymType) :=
  if (lo <? 0)%Z || (hi <? lo)%Z || (Z.of_nat (length slots) <? hi)%Z
  then Panic "slice bounds out of range"
  else Return (take (Z.to_nat (hi - lo)) (drop (Z.to_nat lo) slots)).

(** [exprDollar]: production 54 has no action and takes no slice. *)
Definition take_dollar (n k pt : Z) (slots : list exprSymType) : flow (list exprSymType) :=
  if (n =? 54)%Z then mret [] else slice slots (pt - k) (pt + 1).

(** [exprlex1] with [Lex]; the lookahead is only read when there is none. *)
Definition write_lval (x : Lexeme) (lval : exprSymType) : exprSymType :=
  let lval := match lx_str x with Some s => set_str s lval | None => lval end in
  match lx_duration x with Some d => set_duration d lval | None => lval end.

Section fuel.
Context (lex_fuel : nat).

Definition exprlex1 (st : ParserState) (k : ParserState -> outcome) : outcome :=
  match Lex lex_fuel (p_lexer st) with
  | None => OutOfFuel
  | Some (x, l) =>
      or_panic (internal_token (lx_char x)) (fun token =>
        k (set_lookahead l (write_lval x (p_lval st)) (lx_char x) token st))
  end.

Definition need_lookahead (st : ParserState) (k : ParserState -> outcome) : outcome :=
  if (p_char st <? 0)%Z then exprlex1 st k else k st.

(** Popping states until one shifts the error token. *)
Fixpoint error_state (n : nat) (st : ParserState) : outcome :=
  match n with
  | O => Ret 1 st
  | S n =>
      if (p_p st <? 0)%Z then Ret 1 st
      else
        or_panic (v ← slot_at (p_S st) (p_p st); index exprPact (y_yys v)) (fun pact =>
        let i := (pact + exprErrCode)%Z in
        let pop := fun st => error_state n (set_stack (p_arrays st) (p_S st) (p_p st - 1) st) in
        if (0 <=? i)%Z && (i <? exprLast)%Z then
          or_panic (a ← index exprAct i; c ← index exprChk a; mret (a, c)) (fun '(a, c) =>
          let st := set_value (p_expr st) (p_VAL st) a st in
          if (c =? exprErrCode)%Z then Goto_exprstack st else pop st)
        else pop st)
  end.

(** The error branch. *)
Definition report_error (st : ParserState) (k : ParserState -> outcome) : outcome :=
  if (p_Errflag st =? 0)%Z then
    or_panic (exprErrorMessage (p_state st) (p_token st)) (fun msg =>
      k (set_lookahead (Scanner_error msg (p_lexer st)) (p_lval st) (p_char st) (p_token st) st))
  else k st.

Definition handle_error (st : ParserState) : outcome :=
  if (p_Errflag st =? 3)%Z then
    if (p_token st =? exprEofCode)%Z then Ret 1 st
    else Goto_exprnewstate (set_lookahead (p_lexer st) (p_lval st) (-1) (-1) st)
  else
    report_error st (fun st =>
      error_state (S (Z.to_nat (p_p st + 1))) (set_Errflag 3 st)).

(** The goto of the state [yys] on the left-hand side [lhs]. *)
Definition goto_state (lhs yys : Z) : flow Z :=
  g ← index exprPgo lhs;
  let j := (g + yys + 1)%Z in
  if (exprLast <=? j)%Z then index exprAct g
  else
    a ← index exprAct j;
    c ← index exprChk a;
    if (c =? - lhs)%Z then mret a else index exprAct g.

(** Reduction by production [n]. *)
Definition reduce (n : Z) (st : ParserState) : outcome :=
  or_panic (index exprR2 n) (fun k =>
  let pt := p_p st in
  let p := (pt - k)%Z in
  let st := with_room (p + 1) (set_stack (p_arrays st) (p_S st) p st) in
  let ref := fun i => mkRef (length (p_arrays st)) (Z.to_nat (p + Z.of_nat i)) in
  or_panic
    (VAL ← slot_at (p_S st) (p + 1);
     base ← slot_at (p_S st) p;
     lhs ← index exprR1 n;
     state ← goto_state lhs (y_yys base);
     exprDollar ← take_dollar n k pt (p_S st);
     VAL ← action (dollar exprDollar) ref VAL n;
     expr ← (if (n =? 1)%Z then d1 ← dollar exprDollar 1; mret (y_Expr d1)
             else mret (p_expr st));
     mret (VAL, state, expr))
    (fun '(VAL, state, expr) => Goto_exprstack (set_value expr VAL state st))).

(** [exprdefault]. *)
Definition exprdefault (st : ParserState) : outcome :=
  or_panic (index exprDef (p_state st)) (fun n =>
  let act := fun n st => if (n =? 0)%Z then handle_error st else reduce n st in
  if (n =? -2)%Z then
    need_lookahead st (fun st =>
      or_panic (exca_action (p_state st) (p_token st)) (fun n =>
        if (n <? 0)%Z then Ret 0 st else act n st))
  else act n st).

(** [exprnewstate]. *)
Definition exprnewstate (st : ParserState) : outcome :=
  or_panic (index exprPact (p_state st)) (fun n =>
  if (n <=? exprFlag)%Z then exprdefault st
  else
    need_lookahead st (fun st =>
      let i := (n + p_token st)%Z in
      if (i <? 0)%Z || (exprLast <=? i)%Z then exprdefault st
      else
        or_panic (a ← index exprAct i; c ← index exprChk a; mret (a, c)) (fun '(a, c) =>
        if (c =? p_token st)%Z then
          let st := set_value (p_expr st) (p_lval st) a st in
          let st := set_lookahead (p_lexer st) (p_lval st) (-1) (-1) st in
          Goto_exprstack
            (if (0 <? p_Errflag st)%Z then set_Errflag (p_Errflag st - 1) st else st)
        else exprdefault st))).

Fixpoint run (fuel : nat) (o : outcome) : outcome :=
  match fuel with
  | O => match o with Ret _ _ | Panics _ => o | _ => OutOfFuel end
  | S fuel =>
      match o with
      | Goto_exprstack st => run fuel (or_panic (exprstack st) exprnewstate)
      | Goto_exprnewstate st => run fuel (exprnewstate st)
      | _ => o
      end
  end.
End fuel.

(** ** [ParseExpr]

    What a parser keeps from one request to the next; [pool_column] is the
    column of the lexer, which [Init] does not reset. *)

Record parser := mkPooled {
  pool_lval : exprSymType;
  pool_stack : list exprSymType;
  pool_expr : option Expr;
  pool_column : Z
}.

(** [parserPool.New]. *)
Definition new_parser : parser :=
  mkPooled zero_sym (replicate exprInitialStackSize zero_sym) None 0.

Definition Parse_start (pool : parser) (input : string) : ParserState :=
  mkState (Init input (pool_column pool)) (pool_expr pool) (pool_lval pool) [] (pool_stack pool)
    (-1) zero_sym 0 (-1) (-1) 0.

(** The numbers in the stack arrays. *)
Definition stack_memory (st : ParserState) : NumberMemory := {|
  number_at := fun r =>
    match (p_arrays st ++ [p_S st]) !! ref_array r with
    | Some slots => match slots !! ref_slot r with
                | Some v => y_LogNumberExpr v
                | None => mkNumber float_zero false end
    | None => mkNumber float_zero false
    end |}.

(** The parser as it goes back to the pool: its own array is the first. *)
Definition put_back (st : ParserState) : parser :=
  mkPooled (p_lval st) (default [] (head (p_arrays st ++ [p_S st]))) (p_expr st)
    (s_Column (p_lexer st)).

Definition Parse (fuel : nat) (pool : parser) (input : string) : outcome :=
  run fuel fuel (Goto_exprstack (Parse_start pool input)).

(** The result of [ParseExpr] from the way [Parse] ended. *)
Definition parse_result (o : outcome) : option (fallible (NumberMemory * Expr)) :=
  match o with
  | Ret code st =>
      Some (match s_errs (p_lexer st) with
            | e :: _ => Return (Err e)
            | [] =>
                if negb (code =? 0)%Z then Panic out_of_range
                else match p_expr st with
                     | Some e => Return (Ok (stack_memory st, e))
                     | None => Panic nil_child
                     end
            end)
  | Panics msg => Some (Panic msg)
  | _ => None
  end.

(** [ParseExpr] on a parser of the pool; [None] when the fuel does not suffice. *)
Definition ParseExpr (fuel : nat) (pool : parser) (input : string) :
    option (fallible (NumberMemory * Expr)) :=
  parse_result (Parse fuel pool input).
End parser.
