(* ===== verification/LogqlGrammar.v ===== *)
(** * The grammar of LogQL: [logql/v2/expr.y]

    The productions in the order of their numbers, the derivations they define,
    and the value of a derivation: the semantic actions evaluated on its tree,
    with clean values for the symbols below.  [LogqlSoundness] shows that the
    parser computes the value of a derivation of what it read. *)

From stdpp Require Import base tactics option list gmap strings.
From Stdlib Require Import ZArith Lia.
From S2P Require Import Prelude GoStrings Labels Strconv Http LogqlAst LogqlTables.
From S2P Require Import LogqlLexer LogqlActions.

(** ** Symbols and productions

    Symbols have the numbers of [exprChk]: a token is positive, a nonterminal
    negative. *)

Definition symbol : Type := Z.
Definition Error : symbol := 2%Z.
Definition T (char : Z) : symbol := (char - 57342)%Z.

Definition N_root : symbol := (-1)%Z.
Definition N_binaryOpOptions : symbol := (-2)%Z.
Definition N_comparisonOp : symbol := (-3)%Z.
Definition N_expr : symbol := (-4)%Z.
Definition N_filter : symbol := (-5)%Z.
Definition N_labels : symbol := (-6)%Z.
Definition N_logBinaryOpExpr : symbol := (-7)%Z.
Definition N_logFilterExpr : symbol := (-8)%Z.
Definition N_logLabelFilterExpr : symbol := (-9)%Z.
Definition N_logFormatExpr : symbol := (-10)%Z.
Definition N_logQueryExpr : symbol := (-11)%Z.
Definition N_logMetricExpr : symbol := (-12)%Z.
Definition N_logNumberExpr : symbol := (-13)%Z.
Definition N_logPipelineExpr : symbol := (-14)%Z.
Definition N_logStageExpr : symbol := (-15)%Z.
Definition N_logRangeQueryExpr : symbol := (-16)%Z.
Definition N_logOffsetExpr : symbol := (-17)%Z.
Definition N_logStageLabels : symbol := (-18)%Z.
Definition N_logParserLabels : symbol := (-19)%Z.
Definition N_logFMTFlags : symbol := (-20)%Z.
Definition N_matcher : symbol := (-21)%Z.
Definition N_matchers : symbol := (-22)%Z.
Definition N_metricOp : symbol := (-23)%Z.
Definition N_selector : symbol := (-24)%Z.
Definition N_grouping : symbol := (-25)%Z.
Definition N_convOp : symbol := (-26)%Z.

Definition productions : list (symbol * list symbol) := [
  (N_root, [N_expr]);
  (N_expr, [N_logQueryExpr]);
  (N_expr, [N_logMetricExpr]);
  (N_expr, [N_logBinaryOpExpr]);
  (N_expr, [N_logNumberExpr]);
  (N_expr, [T OPEN_PARENTHESIS; N_expr; T CLOSE_PARENTHESIS]);
  (N_logQueryExpr, [N_selector]);
  (N_logQueryExpr, [N_selector; N_logPipelineExpr]);
  (N_logPipelineExpr, [N_logStageExpr]);
  (N_logPipelineExpr, [N_logPipelineExpr; N_logStageExpr]);
  (N_convOp, [T BYTES_CONV]);
  (N_convOp, [T DURATION_CONV]);
  (N_convOp, [T DURATION_SECONDS_CONV]);
  (N_logStageExpr, [N_logFilterExpr]);
  (N_logStageExpr, [T PIPE; N_logLabelFilterExpr]);
  (N_logStageExpr, [T PIPE; T LOGFMT]);
  (N_logStageExpr, [T PIPE; T LOGFMT; N_logParserLabels]);
  (N_logStageExpr, [T PIPE; T LOGFMT; N_logFMTFlags; N_logParserLabels]);
  (N_logStageExpr, [T PIPE; T JSON]);
  (N_logStageExpr, [T PIPE; T JSON; N_logParserLabels]);
  (N_logStageExpr, [T PIPE; T UNPACK]);
  (N_logStageExpr, [T PIPE; T UNWRAP; T IDENTIFIER]);
  (N_logStageExpr, [T PIPE; T UNWRAP; N_convOp; T OPEN_PARENTHESIS; T IDENTIFIER;
     T CLOSE_PARENTHESIS]);
  (N_logStageExpr, [T PIPE; T REGEXP; T STRING]);
  (N_logStageExpr, [T PIPE; T PATTERN; T STRING]);
  (N_logStageExpr, [T PIPE; T LINE_FMT; T STRING]);
  (N_logStageExpr, [T PIPE; T DECOLORIZE]);
  (N_logStageExpr, [T PIPE; T LABEL_FMT; N_logFormatExpr]);
  (N_logStageExpr, [T PIPE; T DROP; N_logStageLabels]);
  (N_logStageExpr, [T PIPE; T KEEP; N_logStageLabels]);
  (N_logFilterExpr, [N_filter; T STRING]);
  (N_logFilterExpr, [N_filter; T IP; T OPEN_PARENTHESIS; T STRING; T CLOSE_PARENTHESIS]);
  (N_logFilterExpr, [N_filter; T STRING; T OR; T STRING]);
  (N_logFilterExpr, [N_filter; T STRING; T OR; T IP; T OPEN_PARENTHESIS; T STRING;
     T CLOSE_PARENTHESIS]);
  (N_logLabelFilterExpr, [T IDENTIFIER; N_comparisonOp; T STRING]);
  (N_logLabelFilterExpr, [T IDENTIFIER; N_comparisonOp; T DURATION]);
  (N_logLabelFilterExpr, [T IDENTIFIER; N_comparisonOp; N_logNumberExpr]);
  (N_logLabelFilterExpr, [T IDENTIFIER; N_comparisonOp; T IP; T OPEN_PARENTHESIS; T STRING;
     T CLOSE_PARENTHESIS]);
  (N_logLabelFilterExpr, [N_logLabelFilterExpr; T AND; N_logLabelFilterExpr]);
  (N_logLabelFilterExpr, [N_logLabelFilterExpr; T OR; N_logLabelFilterExpr]);
  (N_logLabelFilterExpr, [N_logLabelFilterExpr; T COMMA; N_logLabelFilterExpr]);
  (N_logFormatExpr, [T IDENTIFIER; T EQ; T STRING]);
  (N_logFormatExpr, [T IDENTIFIER; T EQ; T IDENTIFIER]);
  (N_logFormatExpr, [T IDENTIFIER; T EQ; T IP; T OPEN_PARENTHESIS; T STRING;
     T CLOSE_PARENTHESIS]);
  (N_logFormatExpr, [N_logFormatExpr; T COMMA; N_logFormatExpr]);
  (N_logOffsetExpr, [T OFFSET; T DURATION]);
  (N_logRangeQueryExpr, [N_selector; T RANGE]);
  (N_logRangeQueryExpr, [N_selector; T RANGE; N_logPipelineExpr]);
  (N_logRangeQueryExpr, [N_selector; N_logPipelineExpr; T RANGE]);
  (N_logRangeQueryExpr, [T OPEN_PARENTHESIS; N_selector; T RANGE; T CLOSE_PARENTHESIS]);
  (N_logRangeQueryExpr, [T OPEN_PARENTHESIS; N_selector; T RANGE; N_logPipelineExpr;
     T CLOSE_PARENTHESIS]);
  (N_logRangeQueryExpr, [T OPEN_PARENTHESIS; N_selector; N_logPipelineExpr;
     T CLOSE_PARENTHESIS; T RANGE]);
  (N_logRangeQueryExpr, [T OPEN_PARENTHESIS; N_selector; T RANGE; N_logPipelineExpr;
     T CLOSE_PARENTHESIS; N_grouping]);
  (N_logRangeQueryExpr, [N_logRangeQueryExpr; Error]);
  (N_logRangeQueryExpr, [T OPEN_PARENTHESIS; N_logRangeQueryExpr; T CLOSE_PARENTHESIS]);
  (N_logMetricExpr, [N_metricOp; T OPEN_PARENTHESIS; N_logRangeQueryExpr; T CLOSE_PARENTHESIS]);
  (N_logMetricExpr, [N_metricOp; T OPEN_PARENTHESIS; N_logRangeQueryExpr; N_logOffsetExpr;
     T CLOSE_PARENTHESIS]);
  (N_logMetricExpr, [N_metricOp; T OPEN_PARENTHESIS; T NUMBER; T COMMA; N_logRangeQueryExpr;
     T CLOSE_PARENTHESIS]);
  (N_logMetricExpr, [N_metricOp; T OPEN_PARENTHESIS; T NUMBER; T COMMA; N_logRangeQueryExpr;
     T CLOSE_PARENTHESIS; N_grouping]);
  (N_logMetricExpr, [N_metricOp; T OPEN_PARENTHESIS; T NUMBER; T COMMA; N_logRangeQueryExpr;
     N_logOffsetExpr; T CLOSE_PARENTHESIS]);
  (N_logMetricExpr, [N_metricOp; T OPEN_PARENTHESIS; T NUMBER; T COMMA; N_logRangeQueryExpr;
     N_logOffsetExpr; T CLOSE_PARENTHESIS; N_grouping]);
  (N_logMetricExpr, [N_metricOp; T OPEN_PARENTHESIS; N_logRangeQueryExpr; T CLOSE_PARENTHESIS;
     N_grouping]);
  (N_logMetricExpr, [N_metricOp; T OPEN_PARENTHESIS; N_logRangeQueryExpr; N_logOffsetExpr;
     T CLOSE_PARENTHESIS; N_grouping]);
  (N_logMetricExpr, [N_metricOp; T OPEN_PARENTHESIS; N_logMetricExpr; T CLOSE_PARENTHESIS;
     N_grouping]);
  (N_logMetricExpr, [N_metricOp; T OPEN_PARENTHESIS; N_logMetricExpr; T CLOSE_PARENTHESIS]);
  (N_logMetricExpr, [N_metricOp; T OPEN_PARENTHESIS; T NUMBER; T COMMA; N_logMetricExpr;
     T CLOSE_PARENTHESIS]);
  (N_logMetricExpr, [N_metricOp; T OPEN_PARENTHESIS; T NUMBER; T COMMA; N_logMetricExpr;
     T CLOSE_PARENTHESIS; N_grouping]);
  (N_logMetricExpr, [N_metricOp; T OPEN_PARENTHESIS; T NUMBER; T COMMA; N_logMetricExpr;
     N_logOffsetExpr; T CLOSE_PARENTHESIS; N_grouping]);
  (N_logMetricExpr, [N_metricOp; N_grouping; T OPEN_PARENTHESIS; T NUMBER; T COMMA;
     N_logMetricExpr; T CLOSE_PARENTHESIS]);
  (N_logMetricExpr, [N_metricOp; N_grouping; T OPEN_PARENTHESIS; N_logMetricExpr;
     T CLOSE_PARENTHESIS]);
  (N_logMetricExpr, [N_metricOp; N_grouping; T OPEN_PARENTHESIS; N_logMetricExpr;
     N_logOffsetExpr; T CLOSE_PARENTHESIS]);
  (N_logMetricExpr, [T LABEL_REPLACE; T OPEN_PARENTHESIS; N_logMetricExpr; T COMMA; T STRING;
     T COMMA; T STRING; T COMMA; T STRING; T COMMA; T STRING; T CLOSE_PARENTHESIS]);
  (N_logMetricExpr, [N_metricOp; T OPEN_PARENTHESIS; N_logBinaryOpExpr; T CLOSE_PARENTHESIS;
     N_grouping]);
  (N_logMetricExpr, [N_metricOp; T OPEN_PARENTHESIS; N_logBinaryOpExpr; T CLOSE_PARENTHESIS]);
  (N_logMetricExpr, [N_metricOp; T OPEN_PARENTHESIS; T NUMBER; T COMMA; N_logBinaryOpExpr;
     T CLOSE_PARENTHESIS]);
  (N_logMetricExpr, [N_metricOp; T OPEN_PARENTHESIS; T NUMBER; T COMMA; N_logBinaryOpExpr;
     T CLOSE_PARENTHESIS; N_grouping]);
  (N_logMetricExpr, [N_metricOp; N_grouping; T OPEN_PARENTHESIS; T NUMBER; T COMMA;
     N_logBinaryOpExpr; T CLOSE_PARENTHESIS]);
  (N_logMetricExpr, [N_metricOp; N_grouping; T OPEN_PARENTHESIS; N_logBinaryOpExpr;
     T CLOSE_PARENTHESIS]);
  (N_logMetricExpr, [T LABEL_REPLACE; T OPEN_PARENTHESIS; N_logBinaryOpExpr; T COMMA; T STRING;
     T COMMA; T STRING; T COMMA; T STRING; T COMMA; T STRING; T CLOSE_PARENTHESIS]);
  (N_logMetricExpr, [N_metricOp; T OPEN_PARENTHESIS; T NUMBER; T CLOSE_PARENTHESIS]);
  (N_logMetricExpr, [T OPEN_PARENTHESIS; N_logMetricExpr; T CLOSE_PARENTHESIS]);
  (N_logBinaryOpExpr, [N_expr; T OR; N_binaryOpOptions; N_expr]);
  (N_logBinaryOpExpr, [N_expr; T AND; N_binaryOpOptions; N_expr]);
  (N_logBinaryOpExpr, [N_expr; T UNLESS; N_binaryOpOptions; N_expr]);
  (N_logBinaryOpExpr, [N_expr; T ADD; N_binaryOpOptions; N_expr]);
  (N_logBinaryOpExpr, [N_expr; T SUB; N_binaryOpOptions; N_expr]);
  (N_logBinaryOpExpr, [N_expr; T MUL; N_binaryOpOptions; N_expr]);
  (N_logBinaryOpExpr, [N_expr; T DIV; N_binaryOpOptions; N_expr]);
  (N_logBinaryOpExpr, [N_expr; T MOD; N_binaryOpOptions; N_expr]);
  (N_logBinaryOpExpr, [N_expr; T POW; N_binaryOpOptions; N_expr]);
  (N_logBinaryOpExpr, [N_expr; T CMP_EQ; N_binaryOpOptions; N_expr]);
  (N_logBinaryOpExpr, [N_expr; T NEQ; N_binaryOpOptions; N_expr]);
  (N_logBinaryOpExpr, [N_expr; T GT; N_binaryOpOptions; N_expr]);
  (N_logBinaryOpExpr, [N_expr; T GTE; N_binaryOpOptions; N_expr]);
  (N_logBinaryOpExpr, [N_expr; T LT; N_binaryOpOptions; N_expr]);
  (N_logBinaryOpExpr, [N_expr; T LTE; N_binaryOpOptions; N_expr]);
  (N_logNumberExpr, [T NUMBER]);
  (N_logNumberExpr, [T ADD; T NUMBER]);
  (N_logNumberExpr, [T SUB; T NUMBER]);
  (N_logStageLabels, [T IDENTIFIER]);
  (N_logStageLabels, [N_matcher]);
  (N_logStageLabels, [N_logStageLabels; T COMMA; N_logStageLabels]);
  (N_logParserLabels, [T IDENTIFIER]);
  (N_logParserLabels, [T IDENTIFIER; T EQ; T STRING]);
  (N_logParserLabels, [N_logParserLabels; T COMMA; N_logParserLabels]);
  (N_logFMTFlags, [T LOGFMTSTRICT]);
  (N_logFMTFlags, [T LOGFMTKEEPEMPTY]);
  (N_logFMTFlags, [N_logFMTFlags; N_logFMTFlags]);
  (N_binaryOpOptions, []);
  (N_binaryOpOptions, [T BOOL]);
  (N_binaryOpOptions, [N_binaryOpOptions; T ON; T OPEN_PARENTHESIS; N_labels;
     T CLOSE_PARENTHESIS]);
  (N_binaryOpOptions, [N_binaryOpOptions; T ON; T OPEN_PARENTHESIS; N_labels;
     T CLOSE_PARENTHESIS; T GROUP_LEFT; T OPEN_PARENTHESIS; T CLOSE_PARENTHESIS]);
  (N_binaryOpOptions, [N_binaryOpOptions; T ON; T OPEN_PARENTHESIS; N_labels;
     T CLOSE_PARENTHESIS; T GROUP_LEFT; T OPEN_PARENTHESIS; N_labels; T CLOSE_PARENTHESIS]);
  (N_binaryOpOptions, [N_binaryOpOptions; T ON; T OPEN_PARENTHESIS; N_labels;
     T CLOSE_PARENTHESIS; T GROUP_RIGHT; T OPEN_PARENTHESIS; T CLOSE_PARENTHESIS]);
  (N_binaryOpOptions, [N_binaryOpOptions; T ON; T OPEN_PARENTHESIS; N_labels;
     T CLOSE_PARENTHESIS; T GROUP_RIGHT; T OPEN_PARENTHESIS; N_labels; T CLOSE_PARENTHESIS]);
  (N_binaryOpOptions, [N_binaryOpOptions; T ON; T OPEN_PARENTHESIS; T CLOSE_PARENTHESIS]);
  (N_binaryOpOptions, [N_binaryOpOptions; T ON; T OPEN_PARENTHESIS; T CLOSE_PARENTHESIS;
     T GROUP_LEFT; T OPEN_PARENTHESIS; T CLOSE_PARENTHESIS]);
  (N_binaryOpOptions, [N_binaryOpOptions; T ON; T OPEN_PARENTHESIS; T CLOSE_PARENTHESIS;
     T GROUP_LEFT; T OPEN_PARENTHESIS; N_labels; T CLOSE_PARENTHESIS]);
  (N_binaryOpOptions, [N_binaryOpOptions; T ON; T OPEN_PARENTHESIS; T CLOSE_PARENTHESIS;
     T GROUP_RIGHT; T OPEN_PARENTHESIS; T CLOSE_PARENTHESIS]);
  (N_binaryOpOptions, [N_binaryOpOptions; T ON; T OPEN_PARENTHESIS; T CLOSE_PARENTHESIS;
     T GROUP_RIGHT; T OPEN_PARENTHESIS; N_labels; T CLOSE_PARENTHESIS]);
  (N_binaryOpOptions, [N_binaryOpOptions; T IGNORING; T OPEN_PARENTHESIS; N_labels;
     T CLOSE_PARENTHESIS]);
  (N_binaryOpOptions, [N_binaryOpOptions; T IGNORING; T OPEN_PARENTHESIS; N_labels;
     T CLOSE_PARENTHESIS; T GROUP_LEFT; T OPEN_PARENTHESIS; T CLOSE_PARENTHESIS]);
  (N_binaryOpOptions, [N_binaryOpOptions; T IGNORING; T OPEN_PARENTHESIS; N_labels;
     T CLOSE_PARENTHESIS; T GROUP_LEFT; T OPEN_PARENTHESIS; N_labels; T CLOSE_PARENTHESIS]);
  (N_binaryOpOptions, [N_binaryOpOptions; T IGNORING; T OPEN_PARENTHESIS; N_labels;
     T CLOSE_PARENTHESIS; T GROUP_RIGHT; T OPEN_PARENTHESIS; T CLOSE_PARENTHESIS]);
  (N_binaryOpOptions, [N_binaryOpOptions; T IGNORING; T OPEN_PARENTHESIS; N_labels;
     T CLOSE_PARENTHESIS; T GROUP_RIGHT; T OPEN_PARENTHESIS; N_labels; T CLOSE_PARENTHESIS]);
  (N_binaryOpOptions, [N_binaryOpOptions; T IGNORING; T OPEN_PARENTHESIS; T CLOSE_PARENTHESIS]);
  (N_binaryOpOptions, [N_binaryOpOptions; T IGNORING; T OPEN_PARENTHESIS; T CLOSE_PARENTHESIS;
     T GROUP_LEFT; T OPEN_PARENTHESIS; T CLOSE_PARENTHESIS]);
  (N_binaryOpOptions, [N_binaryOpOptions; T IGNORING; T OPEN_PARENTHESIS; T CLOSE_PARENTHESIS;
     T GROUP_LEFT; T OPEN_PARENTHESIS; N_labels; T CLOSE_PARENTHESIS]);
  (N_binaryOpOptions, [N_binaryOpOptions; T IGNORING; T OPEN_PARENTHESIS; T CLOSE_PARENTHESIS;
     T GROUP_RIGHT; T OPEN_PARENTHESIS; T CLOSE_PARENTHESIS]);
  (N_binaryOpOptions, [N_binaryOpOptions; T IGNORING; T OPEN_PARENTHESIS; T CLOSE_PARENTHESIS;
     T GROUP_RIGHT; T OPEN_PARENTHESIS; N_labels; T CLOSE_PARENTHESIS]);
  (N_selector, [T OPEN_BRACE; N_matchers; T CLOSE_BRACE]);
  (N_selector, [T OPEN_BRACE; N_matchers; Error]);
  (N_selector, [T OPEN_BRACE; T CLOSE_BRACE]);
  (N_matchers, [N_matcher]);
  (N_matchers, [N_matchers; T COMMA; N_matcher]);
  (N_matcher, [T IDENTIFIER; T EQ; T STRING]);
  (N_matcher, [T IDENTIFIER; T NEQ; T STRING]);
  (N_matcher, [T IDENTIFIER; T RE; T STRING]);
  (N_matcher, [T IDENTIFIER; T NRE; T STRING]);
  (N_metricOp, [T COUNT_OVER_TIME]);
  (N_metricOp, [T RATE]);
  (N_metricOp, [T RATE_COUNTER]);
  (N_metricOp, [T BYTES_OVER_TIME]);
  (N_metricOp, [T BYTES_RATE]);
  (N_metricOp, [T AVG_OVER_TIME]);
  (N_metricOp, [T SUM_OVER_TIME]);
  (N_metricOp, [T MIN_OVER_TIME]);
  (N_metricOp, [T MAX_OVER_TIME]);
  (N_metricOp, [T STDVAR_OVER_TIME]);
  (N_metricOp, [T STDDEV_OVER_TIME]);
  (N_metricOp, [T QUANTILE_OVER_TIME]);
  (N_metricOp, [T FIRST_OVER_TIME]);
  (N_metricOp, [T LAST_OVER_TIME]);
  (N_metricOp, [T ABSENT_OVER_TIME]);
  (N_metricOp, [T SUM]);
  (N_metricOp, [T AVG]);
  (N_metricOp, [T COUNT]);
  (N_metricOp, [T MAX]);
  (N_metricOp, [T MIN]);
  (N_metricOp, [T STDDEV]);
  (N_metricOp, [T STDVAR]);
  (N_metricOp, [T BOTTOMK]);
  (N_metricOp, [T TOPK]);
  (N_metricOp, [T SORT]);
  (N_metricOp, [T SORT_DESC]);
  (N_metricOp, [T VECTOR]);
  (N_filter, [T PIPE_MATCH]);
  (N_filter, [T PIPE_EXACT]);
  (N_filter, [T PIPE_MATCH_PATTERN]);
  (N_filter, [T PIPE_NOT_MATCH_PATTERN]);
  (N_filter, [T NRE]);
  (N_filter, [T NEQ]);
  (N_comparisonOp, [T EQ]);
  (N_comparisonOp, [T NEQ]);
  (N_comparisonOp, [T RE]);
  (N_comparisonOp, [T NRE]);
  (N_comparisonOp, [T GT]);
  (N_comparisonOp, [T GTE]);
  (N_comparisonOp, [T LT]);
  (N_comparisonOp, [T LTE]);
  (N_labels, [T IDENTIFIER]);
  (N_labels, [N_labels; T COMMA; T IDENTIFIER]);
  (N_grouping, [T BY; T OPEN_PARENTHESIS; N_labels; T CLOSE_PARENTHESIS]);
  (N_grouping, [T WITHOUT; T OPEN_PARENTHESIS; N_labels; T CLOSE_PARENTHESIS]);
  (N_grouping, [T BY; T OPEN_PARENTHESIS; T CLOSE_PARENTHESIS]);
  (N_grouping, [T WITHOUT; T OPEN_PARENTHESIS; T CLOSE_PARENTHESIS])
].

Definition production (n : Z) : option (symbol * list symbol) :=
  if (n <=? 0)%Z then None else productions !! Z.to_nat (n - 1).

(** ** Tokens

    The value of a token is the text or the duration that [Lex] writes. *)

Section grammar.
Context `{LogqlEnv} `{RegexEngine}.

Inductive semval :=
  | SToken (selector : list Matcher)
  | SText (s : string)
  | SDuration (d : Duration)
  | SOptions (o : BinaryOpOptions)
  | STexts (l : list string)
  | SExpr (e : option Expr)
  | SFilter (f : option LogFilterExpr)
  | SLabelFilter (f : option LogLabelFilterExpr)
  | SFormat (f : option LogFormatExpr)
  | SSelector (s : option LogSelectorExpr)
  | SMetric (m : option LogMetricSampleExpr)
  | SNumber (n : LogNumber)
  | SPipeline (p : option (list LogStageExpr))
  | SStage (s : option LogStageExpr)
  | SOffset (o : option Duration)
  | SLabelList (l : list LogLabel)
  | SMatcher (m : option Matcher)
  | SMatchers (ms : list Matcher)
  | SGrouping (g : option grouping)
  | SNone.

Record Token := mkToken { tok_char : Z; tok_value : semval }.

Definition has_text (char : Z) : bool :=
  existsb (Z.eqb char) [IDENTIFIER; STRING; RANGE; NUMBER; LOGFMTSTRICT; LOGFMTKEEPEMPTY].

Definition token_of (x : Lexeme) : Token :=
  mkToken (lx_char x)
    (if has_text (lx_char x) then SText (default "" (lx_str x))
     else if (lx_char x =? DURATION)%Z then SDuration (default 0%Z (lx_duration x))
     else SToken []).

(** ** Derivations *)

#[warnings="-register-all"]
Inductive tree :=
  | Leaf (t : Token)
  | Node (n : Z) (children : list tree).

Inductive derives : symbol -> tree -> list Token -> Prop :=
  | derives_token t : derives (T (tok_char t)) (Leaf t) [t]
  | derives_node n lhs rhs ts ws :
      production n = Some (lhs, rhs) -> derives_all rhs ts ws -> derives lhs (Node n ts) ws
with derives_all : list symbol -> list tree -> list Token -> Prop :=
  | derives_nil : derives_all [] [] []
  | derives_cons X Xs t ts w ws :
      derives X t w -> derives_all Xs ts ws -> derives_all (X :: Xs) (t :: ts) (w ++ ws).

(** The value of a derivation.  The slots of the label filters' numbers belong to
    the parser's stack; here they are all the same. *)
Definition token_sym (t : Token) : exprSymType :=
  match tok_value t with
  | SText s => set_str s zero_sym
  | SDuration d => set_duration d zero_sym
  | _ => zero_sym
  end.

Definition no_slot : NumberRef := mkRef 0 0.

Fixpoint sem (t : tree) : flow exprSymType :=
  match t with
  | Leaf t => Return (token_sym t)
  | Node n ts =>
      vs ← (fix sems (ts : list tree) : flow (list exprSymType) :=
              match ts with
              | [] => mret []
              | t :: ts => v ← sem t; vs ← sems ts; mret (v :: vs)
              end) ts;
      action (dollar (zero_sym :: vs)) (fun _ => no_slot) (nth 0 vs zero_sym) n
  end.

Fixpoint sems (ts : list tree) : flow (list exprSymType) :=
  match ts with
  | [] => mret []
  | t :: ts => v ← sem t; vs ← sems ts; mret (v :: vs)
  end.

Lemma sem_node n ts :
  sem (Node n ts) = (vs ← sems ts;
    action (dollar (zero_sym :: vs)) (fun _ => no_slot) (nth 0 vs zero_sym) n).
Proof. done. Qed.

(** ** Renaming the slots of a tree *)

Section rename.
Context (er : NumberRef -> NumberRef).

Definition ren_value (v : LogLabelFilterValue) : LogLabelFilterValue :=
  match v with TypeNumber r => TypeNumber (er r) | v => v end.

Fixpoint ren_label_filter (l : LogLabelFilterExpr) : LogLabelFilterExpr :=
  let 'mkLabelFilter name cmp op v nested chain rt := l in
  mkLabelFilter name cmp op (ren_value v) nested chain (map ren_label_filter rt).

Definition ren_stage (st : LogStageExpr) : LogStageExpr :=
  match st with StLabelFilter e => StLabelFilter (ren_label_filter e) | st => st end.

Definition ren_query (q : LogQueryExpr) : LogQueryExpr :=
  mkQuery (q_left q) (fmap (M := option) (map ren_stage) (q_filter q)).

Definition ren_selector : LogSelectorExpr -> LogSelectorExpr := map_selector id ren_query.
Definition ren_expr : Expr -> Expr := map_nodes id ren_query.
Definition ren_metric : LogMetricSampleExpr -> LogMetricSampleExpr := map_metric id ren_query.

(** ** What the actions read of a symbol

    [view X v] is the part of the value [v] that is meant by the symbol [X]: the
    field that [%type] and [%token] of the grammar give it. *)

Definition view (X : symbol) (v : exprSymType) : semval :=
  if (X =? N_binaryOpOptions)%Z then SOptions (y_BinaryOpOptions v)
  else if (X =? N_comparisonOp)%Z then SText (y_ComparisonOp v)
  else if (X =? N_expr)%Z then SExpr (ren_expr <$> y_Expr v)
  else if (X =? N_filter)%Z then SText (y_Filter v)
  else if (X =? N_labels)%Z then STexts (y_Labels v)
  else if (X =? N_logBinaryOpExpr)%Z then SExpr (ren_expr <$> y_LogBinaryOpExpr v)
  else if (X =? N_logFilterExpr)%Z then SFilter (y_LogFilterExpr v)
  else if (X =? N_logLabelFilterExpr)%Z
    then SLabelFilter (ren_label_filter <$> y_LogLabelFilterExpr v)
  else if (X =? N_logFormatExpr)%Z then SFormat (y_LogFormatExpr v)
  else if (X =? N_logQueryExpr)%Z then SSelector (ren_selector <$> y_LogQueryExpr v)
  else if (X =? N_logMetricExpr)%Z then SMetric (ren_metric <$> y_LogMetricExpr v)
  else if (X =? N_logNumberExpr)%Z then SNumber (y_LogNumberExpr v)
  else if (X =? N_logPipelineExpr)%Z
    then SPipeline (fmap (M := option) (map ren_stage) (y_LogPipelineExpr v))
  else if (X =? N_logStageExpr)%Z then SStage (ren_stage <$> y_LogStageExpr v)
  else if (X =? N_logRangeQueryExpr)%Z then SSelector (ren_selector <$> y_LogRangeQueryExpr v)
  else if (X =? N_logOffsetExpr)%Z then SOffset (y_LogOffsetExpr v)
  else if (X =? N_logStageLabels)%Z then SLabelList (y_LogStageLabels v)
  else if (X =? N_logParserLabels)%Z then SLabelList (y_LogParserLabels v)
  else if (X =? N_logFMTFlags)%Z then STexts (y_LogFMTFlags v)
  else if (X =? N_matcher)%Z then SMatcher (y_Matcher v)
  else if (X =? N_matchers)%Z then SMatchers (y_Matchers v)
  else if (X =? N_metricOp)%Z then SText (y_MetricOp v)
  else if (X =? N_selector)%Z then SMatchers (y_Selector v)
  else if (X =? N_grouping)%Z then SGrouping (y_Grouping v)
  else if (X =? N_convOp)%Z then SText (y_ConvOp v)
  else if (X <=? 3)%Z then SNone
  else if has_text (X + 57342) then SText (y_str v)
  else if (X + 57342 =? DURATION)%Z then SDuration (y_duration v)
  else SToken (y_Selector v).
End rename.

(** No pointer or interface of the part is nil. *)
Definition complete (s : semval) : Prop :=
  match s with
  | SExpr o => is_Some o
  | SFilter o => is_Some o
  | SLabelFilter o => is_Some o
  | SFormat o => is_Some o
  | SSelector o => is_Some o
  | SMetric o => is_Some o
  | SPipeline o => is_Some o
  | SStage o => is_Some o
  | SOffset o => is_Some o
  | SMatcher o => is_Some o
  | SGrouping o => is_Some o
  | _ => True
  end.
End grammar.

Arguments semval {_}.
Arguments tree {_}.
Arguments Token {_}.
