(* ===== verification/LogqlLexerFacts.v ===== *)
(** * What [Lex] does to the text

    A call of [Lex] moves the scanner on by at least one byte unless it reports
    the end; every token it reports has a number the tables know, with its text
    or duration written; and on a text without a dash it returns. *)

From stdpp Require Import base tactics option list relations strings pretty.
From Stdlib Require Import ZArith Lia Ascii.
From S2P Require Import Prelude GoStrings Labels Strconv LogqlAst Scanner ScannerFacts Duration.
From S2P Require Import LogqlTables LogqlLexer LogqlActions LogqlGrammar.

(** ** Tokens and their numbers *)

Definition lexeme_ok (x : Lexeme) : Prop :=
  (lx_char x = 0 \/ 57346 <= lx_char x <= 57436)%Z /\
  (has_text (lx_char x) = true -> is_Some (lx_str x)) /\
  (lx_char x = DURATION -> is_Some (lx_duration x)).

Lemma map_get_elem m k v : map_get m k = Some v -> (k, v) ∈ m.
Proof.
  induction m as [|[k' v'] m IH]; [done|]. cbn [map_get].
  destruct (String.eqb_spec k k') as [->|]; [intros [= ->]; left|right; auto].
Qed.

(** A token without text or duration. *)
Definition is_plain (c : Z) : bool :=
  (57346 <=? c)%Z && (c <=? 57436)%Z && negb (has_text c) && negb (c =? DURATION)%Z.

Lemma plain_ok c : is_plain c = true -> lexeme_ok (plain c).
Proof.
  unfold is_plain, lexeme_ok. intros Hc. bool_to_prop. cbn [plain lx_char lx_str lx_duration].
  split_and!; [lia|congruence|].
  intros ->. done.
Qed.

Lemma with_str_ok c s :
  c = 0%Z \/ has_text c = true -> (57346 <=? c)%Z && (c <=? 57436)%Z || (c =? 0)%Z = true ->
  c <> DURATION -> lexeme_ok (with_str c s).
Proof. intros _ Hc Hd. unfold lexeme_ok. cbn. split_and!; [lia|eauto|done]. Qed.

Lemma with_duration_ok d : lexeme_ok (with_duration d).
Proof. unfold lexeme_ok. cbn. split_and!; [vm_compute; intuition discriminate|done|eauto]. Qed.

Lemma funcTokens_plain k v : map_get funcTokens k = Some v -> is_plain v = true.
Proof.
  intros Hk%map_get_elem.
  assert (forallb (fun kv => is_plain kv.2) funcTokens = true) as Hall by (vm_compute; reflexivity).
  rewrite forallb_forall in Hall. apply (Hall (k, v)). by apply list_elem_of_In.
Qed.

(** The two long options are tokens of the map, but no word is spelled so. *)
Lemma tokens_plain k v :
  map_get tokens k = Some v -> is_plain v = true \/ k = OpLogFMTStrict \/ k = OpLogFMTKeepEmpty.
Proof.
  intros Hk%map_get_elem.
  assert (forallb (fun kv => is_plain kv.2 || String.eqb kv.1 OpLogFMTStrict
                             || String.eqb kv.1 OpLogFMTKeepEmpty) tokens = true) as Hall
    by (vm_compute; reflexivity).
  rewrite forallb_forall in Hall. apply list_elem_of_In, Hall in Hk.
  apply orb_true_iff in Hk as [Hk|Hk%String.eqb_eq]; [|by right; right].
  apply orb_true_iff in Hk as [Hk|Hk%String.eqb_eq]; [by left|by right; left].
Qed.

Lemma rune_bytes_length r : (String.length (rune_bytes r) <= 4)%nat.
Proof.
  unfold rune_bytes, EncodeRune.
  repeat match goal with |- context [if ?b then _ else _] => destruct b end; simpl; lia.
Qed.

Lemma no_long_option r s n :
  dash_free r s -> TokenText s +:+ rune_bytes n <> OpLogFMTStrict /\
  TokenText s +:+ rune_bytes n <> OpLogFMTKeepEmpty /\
  TokenText s <> OpLogFMTStrict /\ TokenText s <> OpLogFMTKeepEmpty.
Proof.
  pose proof (rune_bytes_length n) as Hl.
  assert (forall t u, t +:+ rune_bytes n = u -> (String.length u <= String.length t + 4)%nat) as Hlen
    by (intros t u <-; rewrite str_len_app; lia).
  intros [E|[(_ & E)|(c & u & E & Hc)]]; rewrite E.
  - split_and!; try done; intros H%Hlen; simpl in H; lia.
  - split_and!; try done; intros H%Hlen; simpl in H; lia.
  - split_and!; rewrite ?str_app_cons; by intros [= ? _].
Qed.

Section lexer.
Context `{PromText}.

(** ** The loops move on *)

Lemma Next_moves s : ready s -> moves s (Next s).2 /\ read (Next s).2.
Proof.
  intros Hr. destruct (Next s) as [ch s'] eqn:E.
  destruct (Next_spec _ _ _ Hr E) as (Hm & Hr' & _). done.
Qed.

Definition goes (s s' : Scanner) : Prop := moves s s' /\ ready s'.

Lemma goes_refl s : ready s -> goes s s.
Proof. split; [apply rtc_refl|done]. Qed.

Lemma goes_trans s1 s2 s3 : moves s1 s2 -> goes s2 s3 -> goes s1 s3.
Proof. intros ? [? ?]. split; [by eapply moves_trans|done]. Qed.

Lemma goes_Next s s' : ready s -> (ready (Next s).2 -> goes (Next s).2 s') -> goes s s'.
Proof.
  intros Hr Hg. destruct (Next_moves s Hr) as [Hm Hr']. eapply goes_trans; [exact Hm|].
  apply Hg. by left.
Qed.

Lemma goes_Peek s s' : ready s -> (ready (Peek s) -> goes (Peek s) s') -> goes s s'.
Proof.
  intros Hr Hg. destruct (Peek_ready s Hr) as [Hm Hr']. eapply goes_trans; [exact Hm|].
  apply Hg. by left.
Qed.

Lemma goes_trimSpace_go fuel s : ready s -> goes s (trimSpace_go fuel s).
Proof.
  revert s. induction fuel as [|n IH]; intros s Hr; [by apply goes_refl|]. cbn [trimSpace_go].
  apply goes_Peek; [done|]. intros Hp. destruct (_ && _); [|by apply goes_refl].
  apply goes_Next; [done|]. intros ?. by apply IH.
Qed.

Lemma goes_isFunc_go fuel sb s : ready s -> goes s (isFunc_go fuel sb s).2.
Proof.
  revert sb s. induction fuel as [|n IH]; intros sb s Hr; [by apply goes_refl|]. cbn [isFunc_go].
  apply goes_Next; [done|]. destruct (Next s) as [r s1]. cbn [snd]. intros Hr1.
  destruct (r =? EOF)%Z; [by apply goes_refl|].
  destruct (String.eqb _ "("); [by apply goes_refl|].
  destruct (String.eqb _ "by" || String.eqb _ "without"); [|by apply IH].
  destruct (goes_trimSpace_go (S (remaining s1)) s1 Hr1) as [Hm Ht].
  eapply goes_trans; [exact Hm|]. fold (trimSpace s1) in *.
  apply goes_Next; [done|]. destruct (Next (trimSpace s1)) as [r' s2]. apply goes_refl.
Qed.

Lemma goes_isFunc s : ready s -> goes s (isFunc s).2.
Proof.
  intros Hr. unfold isFunc. destruct (goes_trimSpace_go (S (remaining s)) s Hr) as [Hm Ht].
  eapply goes_trans; [exact Hm|]. by apply goes_isFunc_go.
Qed.

Lemma goes_duration_runes fuel sb n s : ready s -> goes s (duration_runes fuel sb n s).2.
Proof.
  revert sb n s. induction fuel as [|f IH]; intros sb n s Hr; [by apply goes_refl|].
  cbn [duration_runes]. apply goes_Peek; [done|]. intros Hp.
  destruct (_ && _); [|by apply goes_refl]. apply goes_Next; [done|]. intros ?. by apply IH.
Qed.

Lemma goes_comment_rest fuel r s : ready s -> goes s (comment_rest fuel r s).
Proof.
  revert r s. induction fuel as [|f IH]; intros r s Hr; [by apply goes_refl|].
  cbn [comment_rest]. destruct (_ || _); [by apply goes_refl|].
  apply goes_Next; [done|]. destruct (Next s) as [r' s']. intros ?. by apply IH.
Qed.

Lemma goes_skip_comment s : ready s -> goes s (skip_comment s).
Proof.
  intros Hr. unfold skip_comment. apply goes_Peek; [done|]. intros ?. by apply goes_comment_rest.
Qed.

Lemma goes_range_go fuel b s x s' :
  ready s -> range_go fuel b s = (x, s') -> goes s s' /\ lexeme_ok x.
Proof.
  assert (lexeme_ok (plain 0)) as H0 by (split_and!; [by left|done|done]).
  revert b s. induction fuel as [|f IH]; intros b s Hr; cbn [range_go].
  { intros [= <- <-]. split; [by apply goes_refl|done]. }
  destruct (Next_moves s Hr) as [Hm Hr1]. destruct (Next s) as [r s1]. cbn [snd] in *.
  destruct (r =? EOF)%Z.
  { intros [= <- <-]. split; [|done]. eapply goes_trans; [exact Hm|].
    split; [apply moves_one, move_error|by left]. }
  destruct (r =? rune "]")%Z.
  { intros [= <- <-]. split; [eapply goes_trans; [exact Hm|]; apply goes_refl; by left|].
    apply with_str_ok; [by right|done|done]. }
  intros E. apply IH in E as [Hg Hx]; [|by left]. split; [by eapply goes_trans|done].
Qed.

(** ** Durations, functions and words *)

Lemma goes_iter_Next n s : ready s -> goes s (Nat.iter n (fun l => (Next l).2) s).
Proof.
  intros Hr. induction n as [|n [Hm Hr']]; [by apply goes_refl|]. simpl.
  destruct (Next_moves _ Hr') as [Hm' Hr'']. split; [by eapply moves_trans|by left].
Qed.

Lemma copy_ready s c : rest c = rest s -> (read s -> read c) -> read s -> ready c.
Proof. intros _ Hc Hr. left. auto. Qed.

Lemma tryScanDuration_spec number l o l' :
  read l -> tryScanDuration number l = (o, l') ->
  goes l l' /\ (o = None -> s_tok l' = s_tok l /\ s_ch l' = s_ch l /\ read l').
Proof.
  intros Hr. unfold tryScanDuration.
  destruct (moves_copy (duration_runes (S (remaining l)) number 0) l) as (Hm & Hc & _ & _ & Ht).
  { intros c Hrest Hrd. apply goes_duration_runes. by left; auto. }
  destruct (on_copy _ l) as [[sb n] l1]. cbn [snd] in *.
  assert (read l1) as Hr1 by (by eapply moves_read).
  destruct (n =? 0)%nat; [intros [= <- <-]; split; [split; [done|by left]|done]|].
  destruct (parseDuration sb) as [d|]; intros [= <- <-]; (split; [|done]).
  - eapply goes_trans; [exact Hm|]. apply goes_iter_Next. by left.
  - split; [done|by left].
Qed.

Lemma is_applied_spec ahead l b l' :
  read l -> is_applied ahead l = (b, l') -> moves l l' /\ s_tok l' = s_tok l /\ s_ch l' = s_ch l.
Proof.
  intros Hr E. unfold is_applied in E.
  match type of E with on_copy ?f l = _ => destruct (moves_copy f l) as (Hm & Hc & _ & _ & Ht) end.
  { intros c Hrest Hrd. destruct ahead; [|apply goes_isFunc; by left; auto].
    assert (ready c) as Hrc by (left; auto). destruct (Next_moves c Hrc) as [Hm Hr'].
    eapply moves_trans; [exact Hm|]. apply goes_isFunc. by left. }
  by rewrite E in *.
Qed.

Lemma word_token_spec r l x l' :
  read l -> dash_free r l -> word_token l = (x, l') -> goes l l' /\ lexeme_ok x.
Proof.
  intros Hr Hd E. unfold word_token in E. rewrite Peek_read in E by done.
  pose proof (no_long_option r l (s_ch l) Hd) as (Hn1 & Hn2 & Hn3 & Hn4).
  set (tokenNext := TokenText l +:+ rune_bytes (s_ch l)) in *.
  match type of E with (let '(_, _) := ?y in _) = _ => destruct y as [func l1] eqn:E1 end.
  assert (goes l l1 /\ (forall tok, func = Some tok -> is_plain tok = true) /\
    (func = None -> read l1)) as (Hg1 & Hf1 & Hr1).
  { destruct (map_get funcTokens tokenNext) as [tok|] eqn:Ek;
      [|injection E1 as <- <-; split; [by apply goes_refl; left|done]].
    destruct (is_applied true l) as [b l2] eqn:Ea.
    destruct (is_applied_spec _ _ _ _ Hr Ea) as (Hm & _ & _).
    assert (read l2) as Hr2 by (by eapply moves_read).
    destruct b; injection E1 as <- <-.
    - split; [|split; [|done]].
      + eapply goes_trans; [exact Hm|]. apply goes_Next; [by left|]. apply goes_refl.
      + intros ? [= <-]. by eapply funcTokens_plain.
    - split; [split; [done|by left]|done]. }
  destruct func as [tok|].
  { injection E as <- <-. split; [done|]. by apply plain_ok, Hf1. }
  specialize (Hr1 eq_refl).
  match type of E with (let '(_, _) := ?y in _) = _ => destruct y as [func2 l2] eqn:E2 end.
  assert (goes l1 l2 /\ (forall tok, func2 = Some tok -> is_plain tok = true)) as [Hg2 Hf2].
  { destruct (map_get funcTokens (TokenText l)) as [tok|] eqn:Ek;
      [|injection E2 as <- <-; split; [by apply goes_refl; left|done]].
    destruct (is_applied false l1) as [b l3] eqn:Ea.
    destruct (is_applied_spec _ _ _ _ Hr1 Ea) as (Hm & _ & _). injection E2 as <- <-.
    split; [split; [done|left; by eapply moves_read]|].
    intros ? Hb. destruct b; [|done]. injection Hb as <-. by eapply funcTokens_plain. }
  assert (goes l l2) as Hg by (eapply goes_trans; [apply Hg1|done]).
  destruct func2 as [tok|].
  { injection E as <- <-. split; [done|]. by apply plain_ok, Hf2. }
  destruct (map_get tokens tokenNext) as [tok|] eqn:Ek1.
  { injection E as <- <-. split.
    - eapply goes_trans; [apply Hg|]. apply goes_Next; [apply Hg|]. apply goes_refl.
    - apply plain_ok. destruct (tokens_plain _ _ Ek1) as [?|[?|?]]; done. }
  destruct (map_get tokens (TokenText l)) as [tok|] eqn:Ek2.
  { injection E as <- <-. split; [done|].
    apply plain_ok. destruct (tokens_plain _ _ Ek2) as [?|[?|?]]; done. }
  injection E as <- <-. split; [done|]. apply with_str_ok; [by right|done|done].
Qed.

Lemma string_token_spec l x l' : read l -> string_token l = (x, l') -> goes l l' /\ lexeme_ok x.
Proof.
  intros Hr. unfold string_token.
  assert (forall msg, goes l (Scanner_error msg l)) as He
    by (intros msg; split; [apply moves_one, move_error|by left]).
  destruct (negb _); [intros [= <- <-]; split; [apply He|by split_and!; [left|..]]|].
  destruct (strutil_Unquote (TokenText l)); intros [= <- <-].
  - split; [by apply goes_refl; left|]. apply with_str_ok; [by right|done|done].
  - split; [apply He|]. apply with_str_ok; [by left|done|done].
Qed.

Lemma dash_word_goes fuel b s w s' :
  ready s -> dash_word fuel b s = Some (w, s') -> goes s s'.
Proof.
  revert b s. induction fuel as [|f IH]; intros b s Hr; [done|]. cbn [dash_word].
  destruct (Next_moves s Hr) as [Hm Hr1]. destruct (Next s) as [r s1]. cbn [snd] in *.
  destruct (IsSpace r).
  - intros [= <- <-]. split; [done|by left].
  - intros E. apply IH in E; [|by left]. by eapply goes_trans.
Qed.

Lemma dash_lexeme_ok w : lexeme_ok (dash_lexeme w).
Proof.
  unfold dash_lexeme. destruct (String.eqb w OpLogFMTStrict);
    [apply with_str_ok; [by right|done|done]|].
  destruct (String.eqb w OpLogFMTKeepEmpty); [apply with_str_ok; [by right|done|done]|].
  split_and!; [by left|done|done].
Qed.

(** ** [Lex] *)

Lemma Lex_spec fuel l x l' :
  ready l -> Lex fuel l = Some (x, l') ->
  moves l l' /\ ready l' /\ lexeme_ok x /\ (lx_char x <> 0%Z -> (remaining l' < remaining l)%nat).
Proof.
  revert l. induction fuel as [|fuel IH]; intros l Hr E; [done|]. cbn [Lex] in E.
  destruct (Scan l) as [r l1] eqn:Es. destruct (Scan_spec _ _ _ Hr Es) as (Hm1 & Hr1 & Hne).
  apply moves_remaining in Hm1 as Hrem1.
  assert (lexeme_ok (plain 0)) as H0 by (split_and!; [by left|done|done]).
  assert (forall l2, r <> EOF -> goes l1 l2 -> lexeme_ok x -> l2 = l' ->
    moves l l' /\ ready l' /\ lexeme_ok x /\
    (lx_char x <> 0%Z -> (remaining l' < remaining l)%nat)) as Hfin.
  { intros l2 He [Hm2 Hr2] Hx <-. destruct (Hne He) as [Hlt _].
    apply moves_remaining in Hm2 as Hrem2.
    split_and!; [by eapply moves_trans|done|done|lia]. }
  destruct (Z.eqb_spec r (rune "#")) as [Hh|_].
  { destruct (goes_skip_comment l1) as [Hm2 Hr2]; [by left|].
    apply IH in E as (Hm3 & Hr3 & Hx & Hlt); [|done]. apply moves_remaining in Hm2 as Hrem2.
    split_and!; [eapply moves_trans; [exact Hm1|]; by eapply moves_trans|done|done|].
    intros Hc. specialize (Hlt Hc). lia. }
  destruct (Z.eqb_spec r (rune "-")) as [Hd|_].
  { rewrite Peek_read in E by done. assert (r <> EOF) as He by (by rewrite Hd).
    destruct (s_ch l1 =? rune "-")%Z.
    - destruct (dash_word fuel (rune_bytes r) l1) as [[w l2]|] eqn:Ew; [|done].
      injection E as <- <-. eapply Hfin; [done| |apply dash_lexeme_ok|done].
      eapply dash_word_goes; [by left|exact Ew].
    - destruct (tryScanDuration (TokenText l1) l1) as [o l2] eqn:Et.
      destruct (tryScanDuration_spec _ _ _ _ Hr1 Et) as [Hg Hnone].
      destruct o as [d|].
      + injection E as <- <-. eapply Hfin; [done|exact Hg|apply with_duration_ok|done].
      + destruct (Hnone eq_refl) as (Htok & _ & Hr2). injection E as E.
        destruct (word_token_spec r l2 x l' Hr2) as [Hg2 Hx]; [|done|].
        * destruct (Hne He) as [_ Hdf]. unfold dash_free, TokenText in *. by rewrite Htok.
        * eapply Hfin; [done| |exact Hx|reflexivity]. eapply goes_trans; [apply Hg|done]. }
  destruct (Z.eqb_spec r EOF) as [_|He].
  { injection E as <- <-. split_and!; [done|by left|done|done]. }
  destruct ((r =? Int)%Z || (r =? Float)%Z).
  { destruct (tryScanDuration (TokenText l1) l1) as [o l2] eqn:Et.
    destruct (tryScanDuration_spec _ _ _ _ Hr1 Et) as [Hg Hnone].
    destruct o as [d|]; injection E as <- <-; (eapply Hfin; [done|exact Hg| |done]).
    - apply with_duration_ok.
    - apply with_str_ok; [by right|done|done]. }
  destruct ((r =? Str)%Z || (r =? RawString)%Z).
  { injection E as E. destruct (string_token_spec _ _ _ Hr1 E) as [Hg Hx]. by eapply Hfin. }
  destruct (r =? rune "[")%Z.
  { injection E as E. eapply goes_range_go in E as [Hg Hx]; [|by left]. by eapply Hfin. }
  injection E as E. destruct (Hne He) as [_ Hdf].
  destruct (word_token_spec _ _ _ _ Hr1 Hdf E) as [Hg Hx]. by eapply Hfin.
Qed.

(** Without a dash the loop after [--] is never entered, and each comment the
    recursion passes takes at least one byte. *)
Lemma Lex_returns fuel l :
  ready l -> no_dash l -> (remaining l < fuel)%nat -> is_Some (Lex fuel l).
Proof.
  revert l. induction fuel as [|fuel IH]; intros l Hr Hn Hf; [lia|]. cbn [Lex].
  destruct (Scan l) as [r l1] eqn:Es. destruct (Scan_spec _ _ _ Hr Es) as (Hm1 & Hr1 & Hne).
  pose proof (Scan_no_dash _ _ _ Hr Hn Es) as Hd. apply Z.eqb_neq in Hd. rewrite Hd.
  destruct (Z.eqb_spec r (rune "#")) as [Hh|_].
  { destruct (goes_skip_comment l1) as [Hm2 Hr2]; [by left|].
    destruct (Hne ltac:(by rewrite Hh)) as [Hlt _]. apply moves_remaining in Hm2 as Hrem2.
    apply IH; [done| |lia]. eapply moves_no_dash; [exact Hm2|]. by eapply moves_no_dash. }
  destruct (r =? EOF)%Z; [by eexists|].
  destruct ((r =? Int)%Z || (r =? Float)%Z).
  { destruct (tryScanDuration (TokenText l1) l1) as [[d|] l2]; by eexists. }
  destruct ((r =? Str)%Z || (r =? RawString)%Z); [by eexists|].
  destruct (r =? rune "[")%Z; by eexists.
Qed.
End lexer.
