(* ===== verification/LogqlSemantics.v ===== *)
(** * The semantic actions depend only on what the grammar gives them

    Two runs of an action on values that agree on the symbols of its production
    (up to a renaming of the stack slots) give values that agree on the symbol on
    the left, or panic with the same message; and an action that is given no nil
    pointers neither panics for one nor makes one.  So whatever else is left in
    the values of the stack has no influence. *)

From stdpp Require Import base tactics option list gmap strings.
From Stdlib Require Import ZArith Lia.
From S2P Require Import Prelude GoStrings Labels Strconv Http LogqlAst LogqlTables.
From S2P Require Import LogqlLexer LogqlActions LogqlGrammar.

Section rename_equations.
Context `{LogqlEnv} (er : NumberRef -> NumberRef).

Lemma ren_chain l op r :
  ren_label_filter er (LogLabelFilter_chain l op r)
  = LogLabelFilter_chain (ren_label_filter er l) op (ren_label_filter er r).
Proof. destruct l, r. cbn. by rewrite map_app. Qed.
Lemma ren_expr_paren e : ren_expr er (ParenthesisExpr e) = ParenthesisExpr (ren_expr er e).
Proof. done. Qed.
Lemma ren_expr_selector s : ren_expr er (ESelector s) = ESelector (ren_selector er s).
Proof. done. Qed.
Lemma ren_expr_metric m : ren_expr er (EMetric m) = EMetric (ren_metric er m).
Proof. done. Qed.
Lemma ren_expr_binary op md l r :
  ren_expr er (LogBinaryOpExpr op md l r)
  = LogBinaryOpExpr op md (ren_expr er l) (ren_expr er r).
Proof. done. Qed.
Lemma ren_expr_number n : ren_expr er (LogNumberExpr n) = LogNumberExpr n.
Proof. done. Qed.
Lemma ren_expr_vector v : ren_expr er (VectorExpr v) = VectorExpr v.
Proof. done. Qed.
Lemma ren_metric_expr e s op pre g after ps o :
  ren_metric er (LogMetricExpr e s op pre g after ps o)
  = LogMetricExpr (ren_expr er <$> e) (ren_selector er <$> s) op pre g after ps o.
Proof. by destruct e. Qed.
Lemma ren_metric_paren m :
  ren_metric er (ParenthesisLogMetricExpr m) = ParenthesisLogMetricExpr (ren_metric er m).
Proof. done. Qed.
Lemma ren_selector_query s f :
  ren_selector er (SelQuery (mkQuery s f))
  = SelQuery (mkQuery s (fmap (M := option) (map (ren_stage er)) f)).
Proof. done. Qed.
Lemma ren_selector_range s rng g lst :
  ren_selector er (SelRange s rng g lst) = SelRange (ren_selector er s) rng g lst.
Proof. done. Qed.
Lemma ren_selector_paren s :
  ren_selector er (SelParenthesis s) = SelParenthesis (ren_selector er s).
Proof. done. Qed.
End rename_equations.

Create Rewrite HintDb ren.
#[local] Hint Rewrite @ren_chain @ren_expr_paren @ren_expr_selector @ren_expr_metric
  @ren_expr_binary @ren_expr_number @ren_expr_vector @ren_metric_expr @ren_metric_paren
  @ren_selector_query @ren_selector_range @ren_selector_paren (@map_app LogStageExpr) : ren.
#[local] Arguments LogLabelFilter_chain : simpl never.
#[local] Arguments ren_expr : simpl never.
#[local] Arguments ren_metric : simpl never.
#[local] Arguments ren_selector : simpl never.

(** ** Agreement *)

Section semantics.
Context `{LogqlEnv} `{RegexEngine} (er : NumberRef -> NumberRef).

Definition agree (X : symbol) (v v' : exprSymType) : Prop :=
  view er X v = view er X v' /\ complete (view er X v).

(** What [newLabelMatcher] panics with. *)
Definition regexp_panic : string := "error parsing regexp".

Definition agree_result (X : symbol) (o o' : flow exprSymType) : Prop :=
  match o, o' with
  | Return v, Return v' => agree X v v'
  | Panic m, Panic m' => m = regexp_panic /\ m' = regexp_panic
  | _, _ => False
  end.

(** Both runs find a value at each place of the right-hand side, and the two
    agree. *)
Fixpoint agree_all (i : nat) (rhs : list symbol) (D D' : nat -> flow exprSymType) : Prop :=
  match rhs with
  | [] => True
  | X :: rhs =>
      (exists v v', D i = Return v /\ D' i = Return v' /\ agree X v v') /\
      agree_all (S i) rhs D D'
  end.

Definition respects (D D' : nat -> flow exprSymType) (slot slot' : nat -> NumberRef)
    (VAL VAL' : exprSymType) (n : Z) : Prop :=
  match production n with
  | Some (lhs, rhs) =>
      agree_all 1 rhs D D' -> (rhs <> [] -> D 1%nat = Return VAL /\ D' 1%nat = Return VAL') ->
      agree_result lhs (action D slot VAL n) (action D' slot' VAL' n)
  | None => True
  end.

Context (D D' : nat -> flow exprSymType) (slot slot' : nat -> NumberRef) (VAL VAL' : exprSymType).
Context (Hslot : forall i, er (slot i) = er (slot' i)).

(** Case distinction on the optional fields; equal and complete views leave
    only the cases in which both are set. *)
Ltac split_options :=
  repeat match goal with
  | Hc : Some _ = Some _ |- _ => injection Hc as Hc
  | Hc : is_Some (Some _) |- _ => clear Hc
  | Hc : context [fmap _ (Some _)] |- _ => progress cbn [fmap option_fmap option_map] in Hc
  | Hc : is_Some (?f <$> ?x) |- _ =>
      let E := fresh "E" in destruct x eqn:E; [clear Hc|destruct Hc; discriminate]
  | Hc : is_Some ?x |- _ =>
      let E := fresh "E" in destruct x eqn:E; [clear Hc|destruct Hc; discriminate]
  | Hc : Some _ = fmap _ ?x |- _ =>
      let E := fresh "E" in destruct x eqn:E; [|discriminate Hc]
  | Hc : Some _ = ?x |- _ =>
      let E := fresh "E" in destruct x eqn:E; [|discriminate Hc]
  end.

Ltac open_views HD :=
  unfold agree_all, agree, view in HD; cbn in HD;
  repeat match goal with
  | Hc : _ /\ _ |- _ => destruct Hc
  | Hc : exists _, _ |- _ => destruct Hc
  end;
  repeat match goal with
  | Hc : ?d = Return ?v, Hd : ?d = Return ?w |- _ =>
      assert (v = w) as -> by congruence; clear Hd
  end;
  repeat match goal with
  | Hc : True |- _ => clear Hc
  | Hc : _ = _ :> semval |- _ => injection Hc as Hc || clear Hc
  end;
  split_options; repeat match goal with Hc : complete _ |- _ => clear Hc end.

Ltac open_action :=
  unfold action, action_expr, action_pipeline, action_stage, action_filter, action_label_filter,
    action_format, action_range_query, action_metric, action_binary_op, action_labels,
    action_options, action_selector, action_metric_op, action_operator, action_grouping,
    set_parser_stage, set_label_stage, set_label_filter, chain_label_filter, set_format,
    set_range_query, range_metric, vector_metric, metric_arg, binary_arg, replace_params,
    set_binary_op, set_on, set_ignoring, set_matcher; cbn.

Ltac rewrite_some :=
  repeat match goal with
  | Hc : ?x = Return _ |- context [?x] => rewrite Hc; cbn
  | Hc : ?x = Some _ |- context [?x] => rewrite Hc; cbn
  end.

Ltac solve_action :=
  unfold respects;
  let HD := fresh "HD" in let HV := fresh "HV" in intros HD HV;
  match goal with
  | HV : ?r <> [] -> _ |- _ => try (destruct (HV ltac:(done)) as [? ?]); clear HV
  end;
  open_views HD; open_action; rewrite_some;
  repeat match goal with Hc : ?x = ?y :> string |- _ => rewrite Hc in *; clear Hc end;
  unfold agree_result, agree, view; cbn; rewrite_some;
  repeat match goal with
  | |- context [newLabelMatcher ?t ?n ?v] =>
      unfold newLabelMatcher, NewMatcher; cbn; destruct (re_compiles v); cbn
  end;
  first [split; [|eauto using mk_is_Some]|idtac];
  unfold newLogMetricExpr, newLogQueryExpr, newLogRangeQueryExpr, newParenthesisLogRangeQueryExpr,
    newParenthesisLogMetricExpr, newParenthesisExpr, newVectorExpr, newLogBinaryOpExpr;
  repeat (progress (autorewrite with ren; cbn)); try congruence; try done.

Ltac all_actions :=
  match goal with |- Forall _ ?l => let l' := eval vm_compute in l in change l with l' end;
  repeat (apply Forall_cons; split; [solve_action|]); by apply Forall_nil.

Local Abbreviation R := (respects D D' slot slot' VAL VAL').

Lemma respects_1_30 : Forall R (seqZ 1 30).
Proof. all_actions. Qed.
Lemma respects_31_55 : Forall R (seqZ 31 25).
Proof. all_actions. Qed.
Lemma respects_56_68 : Forall R (seqZ 56 13).
Proof. all_actions. Qed.
Lemma respects_69_81 : Forall R (seqZ 69 13).
Proof. all_actions. Qed.
Lemma respects_82_108 : Forall R (seqZ 82 27).
Proof. all_actions. Qed.
Lemma respects_109_139 : Forall R (seqZ 109 31).
Proof. all_actions. Qed.
Lemma respects_140_186 : Forall R (seqZ 140 47).
Proof. all_actions. Qed.

Lemma productions_length : length productions = 186%nat.
Proof. reflexivity. Qed.

Lemma production_range n p : production n = Some p -> (1 <= n <= 186)%Z.
Proof.
  unfold production. destruct (n <=? 0)%Z eqn:E; [done|]. apply Z.leb_gt in E.
  intros Hp%lookup_lt_Some. rewrite productions_length in Hp. lia.
Qed.

Lemma action_respects n lhs rhs :
  production n = Some (lhs, rhs) -> agree_all 1 rhs D D' ->
  (rhs <> [] -> D 1%nat = Return VAL /\ D' 1%nat = Return VAL') ->
  agree_result lhs (action D slot VAL n) (action D' slot' VAL' n).
Proof.
  intros Hp. assert (R n) as HR.
  { pose proof (production_range _ _ Hp) as Hn.
    assert (Forall R (seqZ 1 186)) as Hall.
    { change (seqZ 1 186) with (seqZ 1 30 ++ seqZ 31 25 ++ seqZ 56 13 ++ seqZ 69 13 ++ seqZ 82 27
        ++ seqZ 109 31 ++ seqZ 140 47). rewrite !Forall_app.
      auto 10 using respects_1_30, respects_31_55, respects_56_68, respects_69_81, respects_82_108,
        respects_109_139, respects_140_186. }
    rewrite Forall_forall in Hall. apply Hall. apply elem_of_seqZ. lia. }
  unfold respects in HR. rewrite Hp in HR. exact HR.
Qed.
End semantics.
