(* ===== verification/LogqlAutomaton.v ===== *)
(** * The automaton in the tables of [logql/v2/expr.y.go]

    What a run of the parser relies on, checked on the tables: every access stays
    in range, every shift and goto leads along an edge of the automaton, a
    reduction finds the right-hand side of its production on top of the stack, and
    each reduction decreases a weight.  The edges and the weights are computed from
    the tables first and only have to pass the check. *)

From stdpp Require Import base tactics option list pmap strings.
From Stdlib Require Import ZArith Lia.
From S2P Require Import Prelude GoStrings Labels Http LogqlAst LogqlTables LogqlLexer.
From S2P Require Import LogqlActions LogqlParser LogqlGrammar.

Local Open Scope Z_scope.

Definition states : list Z := seqZ 0 358.
Definition is_state (s : Z) : Prop := 0 <= s < 358.
Definition is_token (t : Z) : Prop := 1 <= t <= 94.

(** ** The edges and the weights *)

Definition get0 (t : Table) (i : Z) : Z := default 0 (table_get t i).
Definition chk (s : Z) : Z := get0 exprChk s.

Definition EdgeMap : Type := Pmap (list Z).
Definition edges_of (m : EdgeMap) (s : Z) : list Z := default [] (m !! Z.to_pos (s + 1)).

Definition mem (p : Z) (l : list Z) : bool := existsb (Z.eqb p) l.

Definition add_edge (p s : Z) (m : EdgeMap) : EdgeMap :=
  if mem p (edges_of m s) then m else <[Z.to_pos (s + 1) := p :: edges_of m s]> m.

Definition shift_edges (s : Z) (m : EdgeMap) : EdgeMap :=
  foldr (fun t m =>
    let i := get0 exprPact s + t in
    if (0 <=? i) && (i <? exprLast) && (chk (get0 exprAct i) =? t)
    then add_edge s (get0 exprAct i) m else m) m (seqZ 2 93).

(** The states below the right-hand side of a production. *)
Fixpoint bases (m : EdgeMap) (k : nat) (s : Z) : list Z :=
  match k with O => [s] | S k => flat_map (bases m k) (edges_of m s) end.

Definition goto (lhs b : Z) : Z :=
  match goto_state lhs b with Return g => g | Panic _ => -1 end.

Definition reduce_edges (s : Z) (m : EdgeMap) : EdgeMap :=
  let n := get0 exprDef s in
  if n <=? 0 then m
  else foldr (fun b m => add_edge b (goto (get0 exprR1 n) b) m) m
         (bases m (Z.to_nat (get0 exprR2 n)) s).

Definition edge_map : EdgeMap := Eval vm_compute in
  Nat.iter 12 (fun m => foldr reduce_edges m states) (foldr shift_edges ∅ states).

Definition preds (s : Z) : list Z := edges_of edge_map s.
Definition edge (p s : Z) : Prop := p ∈ preds s.

(** Every state weighs [slot_weight]; the top of the stack weighs more while
    reductions of one or no symbol are possible. *)
Definition slot_weight : Z := 4.

Definition rank_step (m : Table) (s : Z) : Z :=
  let n := get0 exprDef s in
  let k := get0 exprR2 n in
  if (n <=? 0) || (2 <=? k) then 0
  else foldr (fun b x => Z.max x (1 + slot_weight * (1 - k) + get0 m (goto (get0 exprR1 n) b))) 0
         (bases edge_map (Z.to_nat k) s).

Definition rank_map : Table := Eval vm_compute in
  Nat.iter 6 (fun m => table_of (rank_step m <$> states)) ∅.

Definition rank (s : Z) : Z := get0 rank_map s.

(** ** The check *)

Definition check_shift (s pact t : Z) : bool :=
  let i := pact + t in
  if (0 <=? i) && (i <? exprLast) then
    let a := get0 exprAct i in negb (chk a =? t) || mem s (preds a)
  else true.

(** Popping [Xs] from a stack with top [s] reaches only states with [K]. *)
Fixpoint walk (Xs : list symbol) (s : Z) (K : Z -> bool) : bool :=
  match Xs with
  | [] => K s
  | X :: Xs => negb (s =? 0) && (chk s =? X) && forallb (fun p => walk Xs p K) (preds s)
  end.

Definition check_base (lhs k top b : Z) : bool :=
  match goto_state (- lhs) b with
  | Return g =>
      (0 <=? g) && (g <? 358) && (chk g =? lhs) && mem b (preds g)
      && (slot_weight + rank g <? slot_weight * k + rank top)
  | Panic _ => false
  end.

Definition check_reduce (s n : Z) : bool :=
  match production n, table_get exprR1 n, table_get exprR2 n with
  | Some (lhs, rhs), Some r1, Some r2 =>
      (r1 =? - lhs) && (r2 =? Z.of_nat (length rhs)) && walk (rev rhs) s (check_base lhs r2 s)
  | _, _, _ => false
  end.

Definition check_state (s : Z) : bool :=
  match table_get exprPact s, table_get exprDef s, table_get exprChk s with
  | Some pact, Some n, Some c =>
      negb (c =? 1) && (0 <=? rank s) && (rank s <=? 5)
      && ((exprFlag <? pact) || negb (n =? 0))
      && forallb (check_shift s pact) (seqZ 2 93)
      && (if n =? -2 then s =? 1 else if n =? 0 then true else (0 <? n) && check_reduce s n)
  | _, _, _ => false
  end.

Definition check_act (i : Z) : bool :=
  match table_get exprAct i with Some a => (0 <=? a) && (a <? 358) | None => false end.

Lemma states_checked : forallb check_state states = true.
Proof. vm_compute. reflexivity. Qed.

Lemma acts_checked : forallb check_act (seqZ 0 653) = true.
Proof. vm_compute. reflexivity. Qed.

(** ** What the check gives *)

Lemma index_get t i x : table_get t i = Some x -> index t i = Return x.
Proof. unfold index. by intros ->. Qed.

Lemma mem_elem p l : mem p l = true <-> p ∈ l.
Proof.
  unfold mem. rewrite existsb_exists. split.
  - intros (x & Hx & E). apply Z.eqb_eq in E as ->. by apply list_elem_of_In.
  - intros Hp%list_elem_of_In. exists p. split; [done|]. apply Z.eqb_refl.
Qed.

Lemma chk_get s c : table_get exprChk s = Some c -> chk s = c.
Proof. unfold chk, get0. by intros ->. Qed.

Lemma forallb_seqZ f a k x : forallb f (seqZ a k) = true -> a <= x < a + k -> f x = true.
Proof.
  rewrite forallb_forall. intros Hf Hx. apply Hf, list_elem_of_In, elem_of_seqZ. lia.
Qed.

Record state_ok (s pact n : Z) : Prop := mkStateOk {
  so_pact : index exprPact s = Return pact;
  so_def : index exprDef s = Return n;
  so_chk : index exprChk s = Return (chk s);
  so_not_end : chk s <> 1;
  so_rank : 0 <= rank s <= 5;
  so_simple : pact <= exprFlag -> n <> 0;
  so_shift : forall t, 2 <= t <= 94 -> check_shift s pact t = true;
  so_exca : n = -2 -> s = 1;
  so_reduce : n <> -2 -> n <> 0 -> 0 < n /\ check_reduce s n = true
}.

Lemma state_facts s : is_state s -> exists pact n, state_ok s pact n.
Proof.
  intros Hs. pose proof (forallb_seqZ _ _ _ s states_checked Hs) as Hc. unfold check_state in Hc.
  destruct (table_get exprPact s) as [pact|] eqn:Ep; [|done].
  destruct (table_get exprDef s) as [n|] eqn:Ed; [|done].
  destruct (table_get exprChk s) as [c|] eqn:Ec; [|done].
  apply andb_true_iff in Hc as [Hc Hn]. apply andb_true_iff in Hc as [Hc Hsh].
  apply andb_true_iff in Hc as [Hc Hsimple]. bool_to_prop. apply chk_get in Ec as Hchk. subst c.
  exists pact, n. split; auto using index_get.
  - lia.
  - lia.
  - intros Hf. apply orb_true_iff in Hsimple as [Hsimple|Hsimple]; lia.
  - intros t Ht. apply (forallb_seqZ _ _ _ t Hsh). lia.
  - intros ->. simpl in Hn. lia.
  - intros Hn2 Hn0. apply Z.eqb_neq in Hn2, Hn0. rewrite Hn2, Hn0 in Hn.
    apply andb_true_iff in Hn as [? ?]. split; [lia|done].
Qed.

Lemma act_facts i : 0 <= i < 653 -> exists a, index exprAct i = Return a /\ is_state a.
Proof.
  intros Hi. pose proof (forallb_seqZ _ _ _ i acts_checked Hi) as Hc. unfold check_act in Hc. destruct (table_get exprAct i) as [a|] eqn:E; [|done].
  exists a. split; [by apply index_get|]. unfold is_state. lia.
Qed.

Lemma shift_edge s pact n t a :
  state_ok s pact n -> is_token t -> 0 <= pact + t < 653 ->
  index exprAct (pact + t) = Return a -> is_state a -> chk a = t -> edge s a.
Proof.
  intros Hs Ht Hi Ha Hst Hc. destruct (state_facts a Hst) as (? & ? & Hoa).
  assert (2 <= t <= 94) as Ht2.
  { pose proof (so_not_end _ _ _ Hoa). unfold is_token in Ht. lia. }
  pose proof (so_shift _ _ _ Hs t Ht2) as Hsh. unfold check_shift in Hsh.
  change exprLast with 653 in Hsh.
  assert ((0 <=? pact + t) && (pact + t <? 653) = true) as Hr by (apply andb_true_iff; lia).
  rewrite Hr in Hsh. unfold index in Ha.
  assert (get0 exprAct (pact + t) = a) as Hg.
  { unfold get0. destruct (table_get exprAct (pact + t)); [by injection Ha as ->|discriminate]. }
  rewrite Hg, Hc, Z.eqb_refl in Hsh. by apply mem_elem.
Qed.

(** ** Stacks of states *)

Inductive path : list Z -> Prop :=
  | path_start : path [0]
  | path_step p s ss : edge p s -> is_state s -> path (p :: ss) -> path (s :: p :: ss).

Lemma path_state s ss : path (s :: ss) -> is_state s.
Proof. inversion 1; subst; [|done]. unfold is_state. lia. Qed.

Lemma path_app ss1 s ss2 : path (ss1 ++ s :: ss2) -> path (s :: ss2).
Proof.
  induction ss1 as [|x ss1 IH]; [done|]. simpl. intros Hp. apply IH.
  destruct ss1 as [|y ss1]; simpl in *; by inversion Hp.
Qed.

Lemma path_states ss : path ss -> Forall is_state ss.
Proof. induction 1; constructor; auto. unfold is_state. lia. Qed.

Lemma walk_sound Xs s ss K :
  walk Xs s K = true -> path (s :: ss) ->
  exists popped b rest, s :: ss = popped ++ b :: rest /\ map chk popped = Xs /\ K b = true.
Proof.
  revert s ss. induction Xs as [|X Xs IH]; intros s ss Hw Hp; simpl in Hw.
  - by exists [], s, ss.
  - apply andb_true_iff in Hw as [Hw Hall]. bool_to_prop.
    inversion Hp as [|p s' ss' He Hst Hpp]; subst; [done|].
    rewrite forallb_forall in Hall. destruct (IH p ss') as (popped & b & rest & E & Hm & HK).
    + apply Hall. by apply list_elem_of_In.
    + done.
    + exists (s :: popped), b, rest. simpl. rewrite E. split_and!; [done| |done].
      f_equal; [lia|done].
Qed.

Lemma reduce_facts s n : check_reduce s n = true ->
  exists lhs rhs, production n = Some (lhs, rhs) /\ index exprR1 n = Return (- lhs) /\
    index exprR2 n = Return (Z.of_nat (length rhs)) /\
    forall ss, path (s :: ss) -> exists popped b rest g,
      s :: ss = popped ++ b :: rest /\ map chk popped = rev rhs /\
      goto_state (- lhs) b = Return g /\ is_state g /\ chk g = lhs /\ edge b g /\
      slot_weight + rank g < slot_weight * Z.of_nat (length rhs) + rank s.
Proof.
  unfold check_reduce. destruct (production n) as [[lhs rhs]|] eqn:Ep; [|done].
  destruct (table_get exprR1 n) as [r1|] eqn:E1; [|done].
  destruct (table_get exprR2 n) as [r2|] eqn:E2; [|done].
  intros Hw. apply andb_true_iff in Hw as [Hw Hwalk]. bool_to_prop.
  exists lhs, rhs. split_and!; [done| | |].
  - apply index_get. rewrite E1. f_equal. lia.
  - apply index_get. rewrite E2. f_equal. lia.
  - intros ss Hp. destruct (walk_sound _ _ _ _ Hwalk Hp) as (popped & b & rest & E & Hm & HK).
    unfold check_base in HK. destruct (goto_state (- lhs) b) as [g|] eqn:Eg; [|done].
    bool_to_prop. exists popped, b, rest, g. split_and!; try done.
    + unfold is_state. lia.
    + lia.
    + by apply mem_elem.
    + lia.
Qed.

(** ** The exceptions and the error messages *)

Lemma exca_facts t : is_token t -> exca_action 1 t = Return (if t =? 1 then -1 else 0).
Proof.
  intros Ht.
  assert (forallb (fun t => bool_decide (t = 1) ||
     match exca_action 1 t with Return 0 => true | _ => false end) (seqZ 1 94) = true) as Hc
    by (vm_compute; reflexivity).
  apply (forallb_seqZ _ _ _ t) in Hc; [|unfold is_token in Ht; lia].
  cbv beta in Hc. destruct (Z.eqb_spec t 1) as [->|Hne]; [reflexivity|].
  rewrite bool_decide_eq_false_2 in Hc by done. simpl in Hc.
  destruct (exca_action 1 t) as [[]|]; done.
Qed.

Lemma shiftable_returns k base tok expected :
  exists o, shiftable k base tok expected = Return o.
Proof.
  revert tok expected. induction k as [|k IH]; intros tok expected; [by eexists|].
  cbn [shiftable]. change exprLast with 653.
  destruct ((0 <=? base + tok) && (base + tok <? 653)) eqn:E; [|apply IH].
  destruct (act_facts (base + tok)) as (a & -> & Ha); [lia|].
  destruct (state_facts a Ha) as (? & ? & Hoa). cbn. rewrite (so_chk _ _ _ Hoa). cbn.
  destruct (chk a =? tok); [|apply IH].
  destruct (length expected =? 4)%nat; [by eexists|apply IH].
Qed.

Lemma exca_start_1 : exca_start exca_fuel 0 1 = Return 0.
Proof. vm_compute. reflexivity. Qed.

Lemma exca_expected_1 l : exca_expected exca_fuel 2 l = Return (Some l).
Proof. reflexivity. Qed.

Lemma bind_Return {A B} (a : A) (f : A -> flow B) : Return a ≫= f = f a.
Proof. done. Qed.

Lemma exprErrorMessage_returns s t : is_state s -> exists msg, exprErrorMessage s t = Return msg.
Proof.
  intros Hs. destruct (state_facts s Hs) as (pact & n & Hok). unfold exprErrorMessage. cbv zeta.
  rewrite (so_pact _ _ _ Hok), bind_Return.
  destruct (shiftable_returns (length exprToknames - 3) pact TOKSTART []) as (o & ->).
  rewrite bind_Return, (so_def _ _ _ Hok), bind_Return.
  destruct o as [l|]; [|rewrite bind_Return; by eexists].
  destruct (Z.eqb_spec n (-2)) as [E|_]; [|rewrite bind_Return; by eexists].
  apply (so_exca _ _ _ Hok) in E as ->.
  rewrite exca_start_1, bind_Return, exca_expected_1, bind_Return. by eexists.
Qed.
