(* ===== verification/LogqlRun.v ===== *)
(** * A run of the LogQL parser

    The invariant of the loop of [Parse]: the states on the stack are a path of
    the automaton, every live slot holds a complete value of its symbol, and as
    long as no error was reported each slot is the value of a derivation and the
    derivations together derive the tokens shifted so far.  Each step keeps it and
    decreases a measure. *)

From stdpp Require Import base tactics option list relations gmap strings pretty.
From Stdlib Require Import ZArith Lia.
From S2P Require Import Prelude GoStrings Labels Strconv Http LogqlAst Scanner ScannerFacts.
From S2P Require Import LogqlTables LogqlLexer LogqlActions LogqlParser LogqlGrammar.
From S2P Require Import LogqlLexerFacts LogqlSemantics LogqlAutomaton.

#[local] Opaque chk rank preds index.

(** ** Tokens *)

(** The symbol of a token: the end of the text is 1. *)
Definition token_number (c : Z) : symbol := if (c =? 0)%Z then 1%Z else T c.

Lemma token_number_T c : token_number c <> 1%Z -> token_number c = T c.
Proof. unfold token_number. by destruct (c =? 0)%Z. Qed.

Definition internal_ok (c : Z) : bool :=
  match internal_token c with Return t => (t =? token_number c)%Z | Panic _ => false end.

Lemma internal_token_spec c :
  (c = 0 \/ 57346 <= c <= 57436)%Z ->
  internal_token c = Return (token_number c) /\ is_token (token_number c).
Proof.
  intros Hc. split.
  - assert (internal_ok 0 = true /\ forallb internal_ok (seqZ 57346 91) = true) as [H0 Hall]
      by (split; vm_compute; reflexivity).
    assert (internal_ok c = true) as Hok.
    { destruct Hc as [->|Hc]; [done|]. apply (forallb_seqZ _ _ _ c Hall). lia. }
    unfold internal_ok in Hok. destruct (internal_token c); [|done].
    f_equal. by apply Z.eqb_eq.
  - unfold is_token, token_number, T. destruct (Z.eqb_spec c 0); lia.
Qed.

Section tokens.
Context `{LogqlEnv} `{RegexEngine} `{PromText}.

(** Slots of numbers are forgotten when values are compared. *)
Definition any_slot : NumberRef -> NumberRef := fun _ => no_slot.

Lemma view_token (er : NumberRef -> NumberRef) X v :
  (3 < X)%Z ->
  view er X v = if has_text (X + 57342) then SText (y_str v)
                else if (X + 57342 =? DURATION)%Z then SDuration (y_duration v)
                else SToken (y_Selector v).
Proof.
  intros HX. unfold view. assert (forall N, (N < 0)%Z -> (X =? N)%Z = false) as HN by lia.
  rewrite !HN by done. rewrite (proj2 (Z.leb_gt X 3)) by lia. done.
Qed.

Lemma view_end (er : NumberRef -> NumberRef) X v : (0 < X <= 3)%Z -> view er X v = SNone.
Proof.
  intros HX. unfold view. assert (forall N, (N < 0)%Z -> (X =? N)%Z = false) as HN by lia.
  rewrite !HN by done. by rewrite (proj2 (Z.leb_le X 3)) by lia.
Qed.

Lemma view_set_yys (er : NumberRef -> NumberRef) X s v :
  view er X (set_yys s v) = view er X v.
Proof. reflexivity. Qed.

Lemma complete_token (er : NumberRef -> NumberRef) X v : (0 < X)%Z -> complete (view er X v).
Proof.
  intros HX. destruct (Z.le_gt_cases X 3).
  - by rewrite view_end by lia.
  - rewrite view_token by lia. destruct (has_text _); [done|]. by destruct (_ =? _)%Z.
Qed.

Lemma has_text_range c : has_text c = true -> (c <> DURATION /\ c <> 0)%Z.
Proof. intros Hc. split; by intros ->. Qed.

(** What [Lex] writes is the value of the token. *)
Lemma view_write_lval x lval :
  lexeme_ok x -> lx_char x <> 0%Z -> y_Selector lval = [] ->
  view any_slot (T (lx_char x)) (write_lval x lval)
  = view any_slot (T (lx_char x)) (token_sym (token_of x)).
Proof.
  intros (Hc & Hs & Hd) Hne Hsel. rewrite !view_token by (unfold T; lia).
  replace (T (lx_char x) + 57342)%Z with (lx_char x) by (unfold T; lia).
  unfold token_of, token_sym. cbn [tok_value].
  destruct (has_text (lx_char x)) eqn:Et.
  - destruct (Hs eq_refl) as [s Es]. unfold write_lval. rewrite Es. by destruct (lx_duration x).
  - destruct (Z.eqb_spec (lx_char x) DURATION) as [E|_].
    + destruct (Hd E) as [d Ed]. unfold write_lval. rewrite Ed. by destruct (lx_str x).
    + unfold write_lval. cbn. destruct (lx_str x), (lx_duration x); cbn; by rewrite Hsel.
Qed.

Lemma write_lval_selector x lval : y_Selector (write_lval x lval) = y_Selector lval.
Proof. unfold write_lval. by destruct (lx_str x), (lx_duration x). Qed.
End tokens.

(** ** The invariant *)

Section invariant.
Context `{LogqlEnv} `{RegexEngine} `{PromText}.
Context (lex_fuel : nat) (start : Scanner).

(** A slot of the stack with the part of the text it stands for. *)
Record slot := mkSlot {
  sl_state : Z;
  sl_val : exprSymType;
  sl_tree : tree;
  sl_word : list Token
}.

Local Abbreviation view := (view any_slot).

(** The value of a slot is that of a derivation of its symbol. *)
Definition derived (s : slot) : Prop :=
  derives (chk (sl_state s)) (sl_tree s) (sl_word s) /\
  exists v, sem (sl_tree s) = Return v /\
    view (chk (sl_state s)) (sl_val s) = view (chk (sl_state s)) v.

Record slot_ok (clean : Prop) (s : slot) : Prop := mkSlotOk {
  sk_yys : y_yys (sl_val s) = sl_state s;
  sk_complete : complete (view (chk (sl_state s)) (sl_val s));
  sk_derived : clean -> if (sl_state s =? 0)%Z then sl_word s = [] else derived s
}.

(** The tokens read from the start on. *)
Inductive lexes : list Token -> Scanner -> Prop :=
  | lexes_start : lexes [] start
  | lexes_snoc ts l x l' :
      lexes ts l -> Lex lex_fuel l = Some (x, l') -> lexes (ts ++ [token_of x]) l'.

Definition clean (l : Scanner) : Prop := s_errs l = [].

(** The lookahead: none, or a token that was read last. *)
Definition lookahead (st : ParserState) (pending : list Token) : Prop :=
  match pending with
  | [] => p_char st = (-1)%Z
  | [t] => (p_char st = 0 \/ 57346 <= p_char st <= 57436)%Z /\ tok_char t = p_char st /\
      p_token st = token_number (p_char st) /\ is_token (p_token st) /\
      (p_char st <> 0%Z -> view (p_token st) (p_lval st) = view (p_token st) (token_sym t))
  | _ => False
  end.

(** The tokens read are those of the stack, [words], and the lookahead. *)
Record lexer_ok (st : ParserState) (words : list Token) : Prop := mkLexerOk {
  lk_ready : ready (p_lexer st);
  lk_moves : moves start (p_lexer st);
  lk_selector : y_Selector (p_lval st) = [];
  lk_flag : (0 <= p_Errflag st <= 3)%Z;
  lk_flag_clean : clean (p_lexer st) -> p_Errflag st = 0%Z;
  lk_lexes : exists pending, lookahead st pending /\
    (clean (p_lexer st) -> lexes (words ++ pending) (p_lexer st))
}.

Definition words_of (slots : list slot) : list Token := concat (rev (sl_word <$> slots)).

(** The slots, the top first, are in the stack array up to [p_p]. *)
Record stack_ok (st : ParserState) (slots : list slot) : Prop := mkStackOk {
  st_array : exists junk, p_S st = rev (sl_val <$> slots) ++ junk;
  st_top : p_p st = (Z.of_nat (length slots) - 1)%Z;
  st_room : (1 <= length (p_S st))%nat;
  st_slots : Forall (slot_ok (clean (p_lexer st))) slots
}.

(** In state 1 the whole text was reduced to an expression. *)
Definition root_ok (st : ParserState) (t : tree) : Prop :=
  clean (p_lexer st) -> p_state st = 1%Z -> exists c e v,
    t = Node 1 [c] /\ p_expr st = Some e /\ sem c = Return v /\
    view N_expr v = SExpr (Some (ren_expr any_slot e)).

(** At [exprnewstate]. *)
Record Inv (st : ParserState) (slots : list slot) : Prop := mkInv {
  inv_lexer : lexer_ok st (words_of slots);
  inv_stack : stack_ok st slots;
  inv_path : path (sl_state <$> slots);
  inv_state : sl_state <$> head slots = Some (p_state st);
  inv_root : forall s, head slots = Some s -> root_ok st (sl_tree s)
}.

(** At [exprstack], before the slot [s] is pushed. *)
Record PInv (st : ParserState) (slots : list slot) (s : slot) : Prop := mkPInv {
  pinv_lexer : lexer_ok st (words_of (s :: slots));
  pinv_stack : stack_ok st slots;
  pinv_new : slot_ok (clean (p_lexer st)) s;
  pinv_val : sl_val s = set_yys (p_state st) (p_VAL st);
  pinv_path : path (sl_state <$> s :: slots);
  pinv_state : sl_state s = p_state st;
  pinv_root : root_ok st (sl_tree s)
}.

Lemma slot_ok_weaken (c c' : Prop) s : (c' -> c) -> slot_ok c s -> slot_ok c' s.
Proof. intros Hc [? ? Hd]. split; [done|done|]. intros Hc'. apply Hd, Hc, Hc'. Qed.

Lemma words_of_cons s slots : words_of (s :: slots) = words_of slots ++ sl_word s.
Proof.
  unfold words_of. cbn [fmap list_fmap rev]. by rewrite concat_app; cbn; rewrite app_nil_r.
Qed.

Lemma words_of_app l l' : words_of (l ++ l') = words_of l' ++ words_of l.
Proof. unfold words_of. by rewrite fmap_app, rev_app_distr, concat_app. Qed.

(** ** Room and pushing *)

Lemma with_room_spec i st vals junk :
  p_S st = vals ++ junk -> (1 <= length (p_S st))%nat -> i = Z.of_nat (length vals) ->
  exists arrays x junk', with_room i st = set_stack arrays (vals ++ x :: junk') (p_p st) st /\
    (junk <> [] -> x :: junk' = junk).
Proof.
  intros HS Hl ->. unfold with_room.
  destruct (Z.leb_spec (Z.of_nat (length (p_S st))) (Z.of_nat (length vals))) as [Hle|Hgt].
  - rewrite HS, length_app in Hle. destruct junk; [|simpl in Hle; lia].
    unfold grow. rewrite HS, app_nil_r in *. destruct (length vals) as [|k] eqn:El; [lia|].
    exists (p_arrays st ++ [vals]), zero_sym, (replicate k zero_sym). by split.
  - rewrite HS, length_app in Hgt. destruct junk as [|x junk]; [simpl in Hgt; lia|].
    exists (p_arrays st), x, junk. split; [|done]. rewrite <- HS. by destruct st.
Qed.

Lemma store_at_end vals x junk v :
  store_at (Z.of_nat (length vals)) v (vals ++ x :: junk) = Return (vals ++ v :: junk).
Proof.
  unfold store_at, slot_at. rewrite (proj2 (Z.ltb_ge _ _)), Nat2Z.id by lia.
  rewrite list_lookup_middle, bind_Return by done.
  by rewrite <- (Nat.add_0_r (length vals)), insert_app_r.
Qed.

(** There is room: the store is in range. *)
Lemma exprstack_Inv st slots s :
  PInv st slots s -> exists st', exprstack st = Return st' /\ Inv st' (s :: slots).
Proof.
  intros [Hlex Hstack Hnew Hval Hpath Hstate Hroot].
  destruct Hstack as [[junk HS] Hp Hroom Hslots].
  destruct (with_room_spec (p_p st + 1) st _ _ HS Hroom) as (arrays & x & junk' & E & _).
  { rewrite length_rev, length_fmap. lia. }
  assert (p_p st + 1 = Z.of_nat (length (rev (sl_val <$> slots))))%Z as Htop
    by (rewrite length_rev, length_fmap; lia).
  exists (set_stack arrays (rev (sl_val <$> s :: slots) ++ junk') (p_p st + 1) st). split.
  { unfold exprstack. rewrite E. unfold set_stack. cbn [p_p p_S p_state p_VAL p_arrays].
    rewrite Htop, store_at_end, bind_Return, <- Hval. cbn [fmap list_fmap rev].
    by rewrite <- app_assoc. }
  split.
  - destruct Hlex. by split.
  - split; cbn.
    + by eexists.
    + lia.
    + rewrite !length_app. simpl. lia.
    + by constructor.
  - done.
  - cbn. by rewrite Hstate.
  - by intros ? [= <-].
Qed.

(** ** The outcome of a step *)

(** What is left to do, for a stack of [n] slots. *)
Definition pend (st : ParserState) : Z :=
  if (p_char st <? 0)%Z || (p_token st =? 1)%Z then 0 else 1.

Definition measure (st : ParserState) (n : nat) : Z :=
  (20 * (Z.of_nat (remaining (p_lexer st)) + pend st)
   + (if p_Errflag st =? 3 then 0 else 10) + slot_weight * Z.of_nat n + rank (p_state st))%Z.

(** The text is an expression and [p_expr] its value. *)
Definition accepted (st : ParserState) : Prop :=
  clean (p_lexer st) -> exists ts last c e v,
    lexes (ts ++ [last]) (p_lexer st) /\ tok_char last = 0%Z /\ derives N_expr c ts /\
    p_expr st = Some e /\ sem c = Return v /\
    view N_expr v = SExpr (Some (ren_expr any_slot e)).

Definition outcome_ok (m : Z) (o : outcome) : Prop :=
  match o with
  | Goto_exprstack st =>
      exists slots s, PInv st slots s /\ (measure st (S (length slots)) < m)%Z
  | Goto_exprnewstate st => exists slots, Inv st slots /\ (measure st (length slots) < m)%Z
  | Ret code st =>
      code = 0%Z /\ accepted st \/ code = 1%Z /\ ~ clean (p_lexer st)
  | Panics msg => msg = regexp_panic
  | OutOfFuel => exists l, moves start l /\ ready l /\ Lex lex_fuel l = None
  end.

Lemma outcome_ok_weaken m m' o : (m <= m')%Z -> outcome_ok m o -> outcome_ok m' o.
Proof.
  intros Hm. destruct o; cbn; try done.
  - intros (slots & s & Hs & Hlt). exists slots, s. split; [done|lia].
  - intros (slots & Hs & Hlt). exists slots. split; [done|lia].
Qed.

Lemma Inv_state st slots : Inv st slots ->
  exists s rest, slots = s :: rest /\ sl_state s = p_state st /\ is_state (p_state st).
Proof.
  intros [_ _ Hpath Hst _]. destruct slots as [|s rest]; [done|]. injection Hst as Hst.
  exists s, rest. split_and!; [done|done|]. rewrite <- Hst. by eapply path_state.
Qed.

(** ** The lookahead *)

Lemma clean_moves l l' : moves l l' -> clean l' -> clean l.
Proof. intros [es E]%moves_errs. unfold clean. rewrite E. by intros [? _]%app_eq_nil. Qed.

Lemma read_token st slots x l' :
  Inv st slots -> p_char st = (-1)%Z -> Lex lex_fuel (p_lexer st) = Some (x, l') ->
  let st' := set_lookahead l' (write_lval x (p_lval st)) (lx_char x)
               (token_number (lx_char x)) st in
  Inv st' slots /\ (0 <= p_char st')%Z /\
  (measure st' (length slots) <= measure st (length slots))%Z.
Proof.
  intros [Hlex Hstack Hpath Hst Hroot] Hchar E. cbv zeta.
  destruct Hlex as [Hready Hmoves Hsel Hflag Hfc (pending & Hlook & Hlexes)].
  destruct (Lex_spec _ _ _ _ Hready E) as (Hm & Hr & Hx & Hlt).
  apply moves_remaining in Hm as Hrem. pose proof (clean_moves _ _ Hm) as Hclean.
  destruct Hx as [Hxc Hx]. destruct (internal_token_spec _ Hxc) as [_ Htok].
  assert (0 <= lx_char x)%Z as Hpos by lia.
  assert (pending = []) as ->.
  { destruct pending as [|t [|]]; [done| |done]. destruct Hlook as (? & _). lia. }
  split_and!; [|done|].
  - split; [| |done|done|].
    + split; cbn; auto.
      * by eapply moves_trans.
      * by rewrite write_lval_selector.
      * exists [token_of x]. split.
        { cbn. split_and!; [done|done|done|done|]. intros Hne.
          unfold token_number. rewrite (proj2 (Z.eqb_neq _ _) Hne).
          by apply view_write_lval. }
        intros Hc. eapply lexes_snoc; [|exact E]. rewrite <- (app_nil_r (words_of slots)).
        by apply Hlexes, Hclean.
    + destruct Hstack as [? ? ? Hslots]. split; try done. cbn.
      eapply Forall_impl; [exact Hslots|]. intros s. by apply slot_ok_weaken.
    + intros s Hs Hc. apply (Hroot s Hs). by apply Hclean.
  - unfold measure, pend. cbn. rewrite Hchar. cbn.
    destruct (Z.eqb_spec (lx_char x) 0) as [->|Hne]; [cbn; lia|]. specialize (Hlt Hne).
    destruct (_ || _); lia.
Qed.

Lemma need_lookahead_ok m st slots k :
  Inv st slots ->
  (forall st', Inv st' slots -> p_state st' = p_state st -> (0 <= p_char st')%Z ->
     (measure st' (length slots) <= measure st (length slots))%Z -> outcome_ok m (k st')) ->
  outcome_ok m (need_lookahead lex_fuel st k).
Proof.
  intros Hi Hk. pose proof Hi as [[Hready Hmoves _ _ _ (pending & Hlook & _)] _ _ _ _].
  unfold need_lookahead, exprlex1. destruct (Z.ltb_spec (p_char st) 0) as [Hc|Hc].
  - assert (p_char st = (-1)%Z) as Hm1.
    { destruct pending as [|t [|]]; [done| |done]. destruct Hlook as (? & _). lia. }
    destruct (Lex lex_fuel (p_lexer st)) as [[x l]|] eqn:E; [|by exists (p_lexer st)].
    destruct (Lex_spec _ _ _ _ Hready E) as (_ & _ & [Hxc _] & _).
    destruct (internal_token_spec _ Hxc) as [-> _]. cbn [or_panic].
    destruct (read_token _ _ _ _ Hi Hm1 E) as (? & ? & ?). by apply Hk.
  - by apply Hk.
Qed.

(** ** Shift *)

Lemma preds_start : preds 0 = [].
Proof. vm_compute. reflexivity. Qed.

Lemma chk_root : chk 1 = N_root.
Proof. vm_compute. reflexivity. Qed.

Lemma edge_nonzero p s : edge p s -> s <> 0%Z.
Proof. intros He ->. revert He. unfold edge. rewrite preds_start. apply not_elem_of_nil. Qed.

Lemma path_push st slots a :
  Inv st slots -> edge (p_state st) a -> is_state a -> path (a :: (sl_state <$> slots)).
Proof.
  intros Hi He Ha. destruct (Inv_state _ _ Hi) as (s & rest & -> & Hs & _).
  cbn in *. apply path_step; [by rewrite Hs|done|apply Hi].
Qed.

Definition after_shift (a : Z) (st : ParserState) : ParserState :=
  let st := set_value (p_expr st) (p_lval st) a st in
  let st := set_lookahead (p_lexer st) (p_lval st) (-1) (-1) st in
  if (0 <? p_Errflag st)%Z then set_Errflag (p_Errflag st - 1) st else st.

Lemma after_shift_fields a st :
  let st' := after_shift a st in
  p_lexer st' = p_lexer st /\ p_lval st' = p_lval st /\ p_S st' = p_S st /\ p_p st' = p_p st /\
  p_VAL st' = p_lval st /\ p_state st' = a /\ p_char st' = (-1)%Z /\ p_token st' = (-1)%Z /\
  p_Errflag st' = (if (0 <? p_Errflag st) then p_Errflag st - 1 else p_Errflag st)%Z.
Proof. unfold after_shift. cbn. by destruct (0 <? p_Errflag st)%Z. Qed.

Lemma shift_ok st slots pact n a :
  Inv st slots -> state_ok (p_state st) pact n -> (0 <= p_char st)%Z ->
  (0 <= pact + p_token st < 653)%Z ->
  index exprAct (pact + p_token st) = Return a -> is_state a -> chk a = p_token st ->
  outcome_ok (measure st (length slots)) (Goto_exprstack (after_shift a st)).
Proof.
  intros Hi Hs Hchar Hr Ha Hst Hc.
  pose proof Hi as [[Hready Hmoves Hsel Hflag Hfc (pending & Hlook & Hlexes)] Hstack _ _ _].
  destruct pending as [|t [|]]; [cbn in Hlook; lia| |done].
  destruct Hlook as (_ & Htc & Htok & Hist & Hview).
  assert (edge (p_state st) a) as Hedge by (by eapply shift_edge).
  destruct (state_facts a Hst) as (? & ? & Hoa). pose proof (so_not_end _ _ _ Hoa) as Hne.
  pose proof (so_rank _ _ _ Hoa) as Hrank. unfold is_token in Hist.
  assert (p_token st = T (p_char st)) as HT by (rewrite Htok; apply token_number_T; congruence).
  assert (p_char st <> 0%Z) as Hc0 by (unfold T in HT; lia).
  destruct (after_shift_fields a st) as (El & Elv & ES & Ep & EV & Est & Ech & Etok & Ef).
  exists slots, (mkSlot a (set_yys a (p_lval st)) (Leaf t) [t]). split.
  - split.
    + rewrite words_of_cons. split; rewrite ?El, ?Elv, ?Ef; try assumption.
      * destruct (Z.ltb_spec 0 (p_Errflag st)); lia.
      * intros Hcl. by rewrite (Hfc Hcl).
      * exists []. split; [done|]. rewrite app_nil_r. auto.
    + destruct Hstack. split; rewrite ?El, ?ES, ?Ep; done.
    + split; cbn; [done| |].
      * apply complete_token. lia.
      * intros _. rewrite (proj2 (Z.eqb_neq _ _) (edge_nonzero _ _ Hedge)). split; cbn.
        { rewrite Hc, HT, <- Htc. constructor. }
        exists (token_sym t). split; [done|]. rewrite Hc. auto.
    + by rewrite Est, EV.
    + by apply path_push with st.
    + done.
    + intros _ H1'. rewrite Est in H1'. subst a. rewrite <- Hc, chk_root in Hist.
      unfold N_root in Hist. lia.
  - unfold measure, pend. rewrite El, Ech, Est, Ef. cbn.
    assert ((p_char st <? 0) || (p_token st =? 1) = false)%Z as -> by lia.
    destruct (Inv_state _ _ Hi) as (_ & _ & _ & _ & Hps).
    pose proof (so_rank _ _ _ Hs) as Hrank'. unfold slot_weight in *.
    repeat match goal with |- context [if ?b then _ else _] => destruct b end; lia.
Qed.

(** ** Errors *)

(** After the first error the derivations are of no interest. *)
Lemma lexer_ok_dirty st ws ws' : ~ clean (p_lexer st) -> lexer_ok st ws -> lexer_ok st ws'.
Proof.
  intros Hd [? ? ? ? ? (pending & Hl & _)]. split; [done..|]. by exists pending.
Qed.

Lemma slot_at_top vals v junk :
  slot_at (rev (v :: vals) ++ junk) (Z.of_nat (length vals)) = Return v.
Proof.
  unfold slot_at. rewrite (proj2 (Z.ltb_ge _ _)) by lia. rewrite Nat2Z.id. cbn [rev].
  rewrite <- app_assoc, lookup_app_r by (by rewrite length_rev).
  by rewrite length_rev, Nat.sub_diag.
Qed.

Definition dirty_ok (m : Z) (st : ParserState) (slots : list slot) : Prop :=
  ~ clean (p_lexer st) /\ lexer_ok st [] /\ stack_ok st slots /\ p_Errflag st = 3%Z /\
  (20 * (Z.of_nat (remaining (p_lexer st)) + pend st) + slot_weight * Z.of_nat (length slots) + 9
     < m)%Z.

Lemma error_push m st slots a :
  dirty_ok m st slots -> path (a :: (sl_state <$> slots)) -> chk a = 2%Z ->
  outcome_ok m (Goto_exprstack (set_value (p_expr st) (p_VAL st) a st)).
Proof.
  intros (Hd & Hlex & Hstack & Hf & Hm) Hpath Hc.
  pose proof (path_state _ _ Hpath) as Ha. destruct (state_facts a Ha) as (? & ? & Hoa).
  pose proof (so_rank _ _ _ Hoa) as Hrank.
  exists slots, (mkSlot a (set_yys a (p_VAL st)) (Leaf (mkToken 0 (SToken []))) []). split.
  - split; cbn; [| | |done|done|done|].
    + apply lexer_ok_dirty with []; [done|]. by destruct Hlex.
    + by destruct Hstack.
    + split; cbn; [done| |done]. apply complete_token. lia.
    + by intros Hcl.
  - unfold measure, pend in *. cbn. rewrite Hf. cbn. unfold slot_weight in *. lia.
Qed.

Lemma error_state_ok m k st slots :
  (length slots < k)%nat -> path (sl_state <$> slots) \/ slots = [] ->
  dirty_ok m st slots -> outcome_ok m (error_state k st).
Proof.
  revert st slots. induction k as [|k IH]; intros st slots Hk Hpath Hd; [lia|].
  pose proof Hd as (Hdirty & Hlex & Hstack & Hf & Hm). cbn [error_state].
  destruct Hstack as [[junk HS] Hp Hroom Hslots].
  destruct slots as [|s slots].
  { rewrite (proj2 (Z.ltb_lt _ _)) by (simpl in Hp; lia). by right. }
  destruct Hpath as [Hpath|]; [|done]. cbn [length] in Hk, Hp.
  rewrite (proj2 (Z.ltb_ge _ _)) by lia.
  assert (slot_at (p_S st) (p_p st) = Return (sl_val s)) as ->.
  { rewrite HS, fmap_cons, <- (slot_at_top (sl_val <$> slots) (sl_val s) junk).
    f_equal. rewrite length_fmap. lia. }
  rewrite bind_Return. inversion_clear Hslots as [|? ? Hs Hrest].
  rewrite (sk_yys _ _ Hs).
  destruct (state_facts (sl_state s)) as (pact & n & Hso); [by eapply path_state|].
  rewrite (so_pact _ _ _ Hso). cbn [or_panic].
  assert (forall a, outcome_ok m (error_state k (set_stack (p_arrays st) (p_S st)
    (p_p st - 1) (set_value (p_expr st) (p_VAL st) a st)))) as Hpop.
  { intros a. apply (IH _ slots); [lia| |].
    - destruct slots as [|s' slots]; [by right|left]. cbn in Hpath. by inversion Hpath.
    - split_and!; [done|by destruct Hlex| |done|].
      + split; cbn; [|lia|done|done]. exists (sl_val s :: junk).
        rewrite HS. cbn. by rewrite <- app_assoc.
      + unfold pend in *. cbn. cbn [length] in Hm. unfold slot_weight in *. lia. }
  change exprErrCode with 2%Z. change exprLast with 653%Z.
  destruct ((0 <=? pact + 2) && (pact + 2 <? 653))%Z eqn:Er.
  2:{ specialize (Hpop (p_state st)). by destruct st. }
  destruct (act_facts (pact + 2)) as (a & Ea & Hsa); [lia|].
  destruct (state_facts a Hsa) as (? & ? & Hoa).
  rewrite Ea, bind_Return, (so_chk _ _ _ Hoa), bind_Return. cbn [or_panic mret flow_ret].
  destruct (Z.eqb_spec (chk a) 2) as [Hc|Hc].
  - eapply error_push; [exact Hd| |exact Hc]. cbn. apply path_step; [|done|done].
    apply (shift_edge _ _ _ 2 _ Hso); [|lia|exact Ea|done|done].
    unfold is_token. lia.
  - apply Hpop.
Qed.

Lemma dirty_error msg l : ~ clean (Scanner_error msg l).
Proof. unfold clean. cbn. by destruct (s_errs l). Qed.

Lemma error_branch_ok st st' slots :
  Inv st slots -> ~ clean (p_lexer st') -> lexer_ok st' [] -> p_S st' = p_S st ->
  p_p st' = p_p st -> remaining (p_lexer st') = remaining (p_lexer st) -> pend st' = pend st ->
  p_Errflag st <> 3%Z ->
  outcome_ok (measure st (length slots))
    (error_state (S (Z.to_nat (p_p st' + 1))) (set_Errflag 3 st')).
Proof.
  intros Hi Hd Hlex HS Hp Hrem Hpend Hf.
  pose proof Hi as [_ [Harr Htop Hroom Hslots] Hpath _ _].
  destruct (Inv_state _ _ Hi) as (_ & _ & _ & _ & Hst).
  destruct (state_facts _ Hst) as (? & ? & Hso). pose proof (so_rank _ _ _ Hso) as Hrank.
  apply (error_state_ok _ _ _ slots); [lia|by left|]. split_and!; [done| | |done|].
  - destruct Hlex as [? ? ? ? ? Hl]. split; cbn; [done..|lia| |exact Hl].
    intros Hc. by destruct Hd.
  - split; cbn; rewrite ?HS, ?Hp; [done..|]. eapply Forall_impl; [exact Hslots|].
    intros s. apply slot_ok_weaken. intros Hc. by destruct Hd.
  - unfold measure. assert (pend (set_Errflag 3 st') = pend st') as -> by done.
    cbn. rewrite Hpend, Hrem, (proj2 (Z.eqb_neq _ _) Hf). lia.
Qed.

Lemma handle_error_ok st slots :
  Inv st slots -> (0 <= p_char st)%Z -> outcome_ok (measure st (length slots)) (handle_error st).
Proof.
  intros Hi Hchar. unfold handle_error, report_error. change exprEofCode with 1%Z.
  pose proof Hi as [Hlex Hstack Hpath Hst Hroot]. pose proof Hlex as [Hr Hm Hsel Hf Hfc Hl].
  destruct (Z.eqb_spec (p_Errflag st) 3) as [E3|E3].
  { assert (~ clean (p_lexer st)) as Hd by (intros Hc; rewrite (Hfc Hc) in E3; done).
    destruct (Z.eqb_spec (p_token st) 1) as [Et|Et]; [by right|].
    exists slots. split.
    - split; [| |done|done|].
      + split; cbn; try assumption. exists []. split; [done|]. by intros Hc.
      + by destruct Hstack.
      + by intros s _ Hc.
    - unfold measure, pend. cbn. rewrite (proj2 (Z.eqb_neq _ _) Et), (proj2 (Z.ltb_ge _ _) Hchar).
      cbn. lia. }
  destruct (Z.eqb_spec (p_Errflag st) 0) as [E0|E0].
  - destruct (Inv_state _ _ Hi) as (_ & _ & _ & _ & Hstate).
    destruct (exprErrorMessage_returns (p_state st) (p_token st) Hstate) as [msg ->].
    cbn [or_panic]. apply error_branch_ok; try done; [apply dirty_error|].
    destruct Hl as (pending & Hl & _). split; cbn; try assumption.
    + eapply moves_trans; [exact Hm|]. apply moves_one, move_error.
    + intros Hc. by destruct (dirty_error _ _ Hc).
    + exists pending. split; [exact Hl|]. intros Hc. by destruct (dirty_error _ _ Hc).
  - assert (~ clean (p_lexer st)) as Hd by (intros Hc; by rewrite (Hfc Hc) in E0).
    apply error_branch_ok; try done. by eapply lexer_ok_dirty.
Qed.

(** ** Reduction *)

Lemma fmap_rev {A B} (f : A -> B) (l : list A) : f <$> rev l = rev (f <$> l).
Proof. induction l as [|a l IH]; [done|]. cbn [rev]. by rewrite fmap_app, IH. Qed.

Lemma split_slots slots popped b rest :
  sl_state <$> slots = popped ++ b :: rest -> exists ps sb rs,
    slots = ps ++ sb :: rs /\ sl_state <$> ps = popped /\ sl_state sb = b.
Proof.
  intros E. apply fmap_app_inv in E as (ps & qs & Hps & Hqs & ->).
  destruct qs as [|sb rs]; [done|]. injection Hqs as Hb _. by exists ps, sb, rs.
Qed.

Lemma popped_nonzero popped b rest :
  path (popped ++ b :: rest) -> Forall (fun s => s <> 0%Z) popped.
Proof.
  induction popped as [|s popped IH]; [by constructor|]. cbn. intros Hp.
  assert (exists q l, popped ++ b :: rest = q :: l) as (q & l & E)
    by (destruct popped; cbn; eauto).
  rewrite E in Hp. inversion Hp; subst. constructor; [by eapply edge_nonzero|].
  apply IH. by rewrite E.
Qed.

Lemma agree_all_lookup D D' rhs j :
  (forall i X, rhs !! i = Some X -> exists v v',
     D (j + i)%nat = Return v /\ D' (j + i)%nat = Return v' /\ agree any_slot X v v') ->
  agree_all any_slot j rhs D D'.
Proof.
  revert j. induction rhs as [|X rhs IH]; intros j Ha; [done|]. split.
  - specialize (Ha 0%nat X eq_refl). by rewrite Nat.add_0_r in Ha.
  - apply IH. intros i Y Hi. specialize (Ha (S i) Y Hi). by rewrite Nat.add_succ_r in Ha.
Qed.

(** The children of a node. *)
Lemma derived_children cs :
  Forall derived cs ->
  derives_all (chk ∘ sl_state <$> cs) (sl_tree <$> cs) (concat (sl_word <$> cs)) /\
  exists vs, sems (sl_tree <$> cs) = Return vs /\
    forall i s, cs !! i = Some s ->
      view (chk (sl_state s)) (sl_val s) = view (chk (sl_state s)) (nth i vs zero_sym).
Proof.
  induction 1 as [|s cs [Hd (v & Hv & Hview)] _ [IHd (vs & IHv & IHview)]].
  { split; [constructor|]. exists []. split; [reflexivity|].
    intros i s Hi. rewrite lookup_nil in Hi. discriminate. }
  split; [constructor; assumption|]. exists (v :: vs). split.
  - cbn. rewrite Hv, bind_Return. fold (sl_tree <$> cs). by rewrite IHv, bind_Return.
  - intros [|i] s' Hi; [by injection Hi as <-|]. by apply IHview.
Qed.

Lemma root_production n rhs : production n = Some (N_root, rhs) -> n = 1%Z /\ rhs = [N_expr].
Proof.
  intros Hp. pose proof (production_range _ _ Hp) as Hn.
  assert (forallb (fun n => match production n with
            | Some (X, _) => negb (X =? N_root)%Z | None => true end) (seqZ 2 185) = true) as Hall
    by (vm_compute; reflexivity).
  destruct (Z.eqb_spec n 1) as [->|Hne].
  - split; [done|]. assert (production 1 = Some (N_root, [N_expr])) as E by (vm_compute; reflexivity).
    rewrite Hp in E. congruence.
  - apply (forallb_seqZ _ _ _ n) in Hall; [|lia]. cbv beta in Hall. by rewrite Hp in Hall.
Qed.

(** What the stack gives an action that takes the slots [cs]. *)
Record args_ok (cs : list slot) (rhs : list symbol) (D : nat -> flow exprSymType)
    (VAL : exprSymType) : Prop := mkArgsOk {
  ar_symbols : chk ∘ sl_state <$> cs = rhs;
  ar_values : forall i s, cs !! i = Some s -> D (S i) = Return (sl_val s);
  ar_first : rhs <> [] -> D 1%nat = Return VAL;
  ar_slots : Forall (fun s => complete (view (chk (sl_state s)) (sl_val s))) cs
}.

Lemma args_symbol cs rhs D VAL i X :
  args_ok cs rhs D VAL -> rhs !! i = Some X ->
  exists s, cs !! i = Some s /\ X = chk (sl_state s) /\ D (S i) = Return (sl_val s) /\
    complete (view X (sl_val s)).
Proof.
  intros [<- Hv _ Hc] Hi. apply list_lookup_fmap_Some in Hi as (s & -> & Hs).
  rewrite Forall_lookup in Hc. exists s. split_and!; [done|done|by apply Hv|].
  exact (Hc i s Hs).
Qed.

Lemma reduce_action cs n lhs rhs D ref VAL :
  production n = Some (lhs, rhs) -> args_ok cs rhs D VAL ->
  match action D ref VAL n with
  | Return v => complete (view lhs v)
  | Panic msg => msg = regexp_panic
  end.
Proof.
  intros Hp Ha.
  assert (agree_result any_slot lhs (action D ref VAL n) (action D ref VAL n)) as Hag.
  { eapply action_respects; [done|exact Hp| |intros Hr; split; by apply (ar_first _ _ _ _ Ha)].
    apply agree_all_lookup. intros i X Hi.
    destruct (args_symbol _ _ _ _ _ _ Ha Hi) as (s & _ & _ & HD & Hc).
    exists (sl_val s), (sl_val s). split_and!; [done|done|by split]. }
  unfold agree_result in Hag. destruct (action D ref VAL n); apply Hag.
Qed.

Lemma sems_length ts vs : sems ts = Return vs -> length vs = length ts.
Proof.
  revert vs. induction ts as [|t ts IH]; cbn; intros vs E; [by injection E as <-|].
  destruct (sem t) as [v|]; [|done]. rewrite bind_Return in E.
  destruct (sems ts) as [vs'|]; [|done]. rewrite bind_Return in E. injection E as <-.
  cbn. by rewrite (IH vs').
Qed.

Lemma reduce_derived cs n lhs rhs D ref VAL v :
  production n = Some (lhs, rhs) -> args_ok cs rhs D VAL -> Forall derived cs ->
  action D ref VAL n = Return v ->
  derives lhs (Node n (sl_tree <$> cs)) (concat (sl_word <$> cs)) /\
  exists v0, sem (Node n (sl_tree <$> cs)) = Return v0 /\ view lhs v = view lhs v0.
Proof.
  intros Hp Ha Hcs Hv. destruct (derived_children cs Hcs) as [Hd (vs & Hs & Hview)].
  rewrite (ar_symbols _ _ _ _ Ha) in Hd. split; [by eapply derives_node|].
  set (D' := dollar (zero_sym :: vs)).
  assert (forall i, (i < length cs)%nat -> D' (S i) = Return (nth i vs zero_sym)) as HD'.
  { intros i Hi. unfold D', dollar. apply sems_length in Hs.
    rewrite length_fmap in Hs. destruct (nth_lookup_or_length vs i zero_sym) as [E|]; [|lia].
    change ((zero_sym :: vs) !! S i) with (vs !! i). by rewrite E. }
  assert (agree_result any_slot lhs (action D ref VAL n)
            (action D' (fun _ => no_slot) (nth 0 vs zero_sym) n)) as Hag.
  { eapply action_respects; [done|exact Hp| |].
    - apply agree_all_lookup. intros i X Hi.
      destruct (args_symbol _ _ _ _ _ _ Ha Hi) as (s & Hs' & -> & HD & Hc).
      exists (sl_val s), (nth i vs zero_sym). split_and!; [done| |split; [by apply Hview|done]].
      apply HD', (lookup_lt_is_Some_1 cs). by eexists.
    - intros Hr. split; [by apply (ar_first _ _ _ _ Ha)|]. apply HD'.
      rewrite <- (ar_symbols _ _ _ _ Ha) in Hr. destruct cs; [done|]. simpl. lia. }
  rewrite Hv in Hag. rewrite sem_node, Hs, bind_Return. fold D'.
  destruct (action D' _ _ n) as [v0|]; [|done]. exists v0. split; [done|apply Hag].
Qed.

Lemma slot_at_above vals l i :
  slot_at (vals ++ l) (Z.of_nat (length vals) - 1 + Z.of_nat (S i))
  = match l !! i with Some v => Return v | None => Panic out_of_range end.
Proof.
  unfold slot_at. rewrite (proj2 (Z.ltb_ge _ _)) by lia.
  replace (Z.to_nat _) with (length vals + i)%nat by lia.
  by rewrite lookup_app_r, Nat.add_sub' by lia.
Qed.

(** [exprDollar] when the slice is in range. *)
Lemma slice_dollar slots p k :
  (0 <= p)%Z -> (p + Z.of_nat k < Z.of_nat (length slots))%Z ->
  exists l, slice slots p (p + Z.of_nat k + 1) = Return l /\
    forall i, (i <= k)%nat -> dollar l i = slot_at slots (p + Z.of_nat i).
Proof.
  intros Hp Hk. unfold slice.
  rewrite (proj2 (Z.ltb_ge _ _)), (proj2 (Z.ltb_ge _ p)), (proj2 (Z.ltb_ge _ (p + _ + 1))) by lia.
  eexists. split; [reflexivity|]. intros i Hi. unfold dollar, slot_at.
  rewrite lookup_take_lt, lookup_drop, (proj2 (Z.ltb_ge _ _)) by lia.
  by replace (Z.to_nat (p + Z.of_nat i)) with (Z.to_nat p + i)%nat by lia.
Qed.

(** What the action of production [n] reads; production 54 reads nothing. *)
Lemma take_dollar_ok slots n p k :
  (0 <= p)%Z -> (p + Z.of_nat k < Z.of_nat (length slots))%Z ->
  exists d l, take_dollar n (Z.of_nat k) (p + Z.of_nat k) slots = Return d /\
    (forall i, (i <= k)%nat -> dollar l i = slot_at slots (p + Z.of_nat i)) /\
    (forall ref VAL, action (dollar d) ref VAL n = action (dollar l) ref VAL n) /\
    (n = 1%Z -> d = l).
Proof.
  intros Hp Hk. destruct (slice_dollar slots p k Hp Hk) as (l & E & Hl). unfold take_dollar.
  replace (p + Z.of_nat k - Z.of_nat k)%Z with p by lia. rewrite E.
  destruct (Z.eqb_spec n 54) as [->|_]; [by exists [], l|by exists l, l].
Qed.

(** The locals of [reduce]: the stack array [slots'] after [with_room] holds the
    slots below, then those of the right-hand side, then something. *)
Lemma reduce_stack st ps sb rs :
  stack_ok st (ps ++ sb :: rs) ->
  let p := (p_p st - Z.of_nat (length ps))%Z in
  exists arrays x junk,
    with_room (p + 1) (set_stack (p_arrays st) (p_S st) p st)
    = set_stack arrays (rev (sl_val <$> sb :: rs) ++ x :: junk) p st /\
    p = (Z.of_nat (length (rev (sl_val <$> sb :: rs))) - 1)%Z /\
    forall i s, rev ps !! i = Some s -> (x :: junk) !! i = Some (sl_val s).
Proof.
  intros [[junk HS] Htop Hroom _] p.
  assert (p = Z.of_nat (length (rev (sl_val <$> sb :: rs))) - 1)%Z as Hp.
  { unfold p. rewrite Htop, length_app, length_rev, length_fmap. lia. }
  rewrite fmap_app, rev_app_distr, <- app_assoc in HS.
  destruct (with_room_spec (p + 1) (set_stack (p_arrays st) (p_S st) p st) _ _ HS Hroom)
    as (arrays & x & junk' & E & Hx); [lia|].
  exists arrays, x, junk'. split_and!; [exact E|exact Hp|]. intros i s Hi.
  assert ((sl_val <$> rev ps) !! i = Some (sl_val s)) as Hv by (by rewrite list_lookup_fmap, Hi).
  rewrite <- fmap_rev in Hx.
  rewrite Hx; [by apply lookup_app_l_Some|]. intros E0. apply app_eq_nil in E0 as [E0 _].
  by rewrite E0 in Hv.
Qed.

Lemma goto_room st ps sb rs g :
  Inv st (ps ++ sb :: rs) -> edge (sl_state sb) g -> is_state g ->
  path (g :: (sl_state <$> sb :: rs)).
Proof.
  intros Hi He Hg. apply path_step; [done|done|].
  pose proof (inv_path _ _ Hi) as Hp. rewrite fmap_app in Hp. by eapply path_app.
Qed.

Lemma reduced_ok st ps sb rs n lhs rhs g arrays slots' p D ref VAL v expr :
  Inv st (ps ++ sb :: rs) -> production n = Some (lhs, rhs) -> args_ok (rev ps) rhs D VAL ->
  Forall (fun s => sl_state s <> 0%Z) ps -> is_state g -> chk g = lhs -> edge (sl_state sb) g ->
  action D ref VAL n = Return v ->
  (if (n =? 1)%Z then d1 ← D 1%nat; mret (y_Expr d1) else mret (p_expr st)) = Return expr ->
  (exists junk, slots' = rev (sl_val <$> sb :: rs) ++ junk) -> (1 <= length slots')%nat ->
  p = (Z.of_nat (length (sb :: rs)) - 1)%Z ->
  PInv (set_value expr v g (set_stack arrays slots' p st))
    (sb :: rs) (mkSlot g (set_yys g v) (Node n (sl_tree <$> rev ps)) (words_of ps)).
Proof.
  intros Hi Hp Ha Hnz Hg Hlhs Hedge Hv Hx Harr Hroom Htop.
  pose proof Hi as [Hlex [_ _ _ Hslots] _ _ _].
  apply Forall_app in Hslots as [Hps Hbelow].
  assert (clean (p_lexer st) -> Forall derived (rev ps)) as Hder.
  { intros Hc. apply Forall_rev. rewrite Forall_forall in *. intros s Hs.
    pose proof (sk_derived _ _ (Hps _ Hs) Hc) as Hd.
    by rewrite (proj2 (Z.eqb_neq _ _) (Hnz _ Hs)) in Hd. }
  assert (words_of ps = concat (sl_word <$> rev ps)) as Hw by (by rewrite fmap_rev).
  pose proof (reduce_action _ _ _ _ _ ref _ Hp Ha) as Hcomp.
  rewrite Hv in Hcomp. split.
  - rewrite words_of_cons. cbn [sl_word]. rewrite <- words_of_app. by destruct Hlex.
  - split; assumption.
  - split; [reflexivity|cbn; by rewrite Hlhs|]. intros Hc. cbn.
    rewrite (proj2 (Z.eqb_neq _ _) (edge_nonzero _ _ Hedge)).
    destruct (reduce_derived _ _ _ _ _ _ _ _ Hp Ha (Hder Hc) Hv) as [Hd Hs].
    rewrite <- Hlhs in Hd, Hs. split; cbn; [by rewrite Hw|done].
  - done.
  - cbn [fmap list_fmap sl_state]. by eapply goto_room.
  - done.
  - intros Hc Hg1. cbn in Hg1. subst g. rewrite chk_root in Hlhs. subst lhs.
    destruct (root_production _ _ Hp) as [-> ->].
    destruct (args_symbol _ _ _ _ 0%nat N_expr Ha eq_refl) as (c & Hc1 & HX & HD & Hcc).
    pose proof (Hder Hc) as Hd. rewrite Forall_lookup in Hd.
    destruct (Hd _ _ Hc1) as [_ (v0 & Hv0 & Hview)]. rewrite <- HX in Hview.
    assert (view N_expr (sl_val c) = SExpr (ren_expr any_slot <$> y_Expr (sl_val c))) as Hve
      by reflexivity.
    rewrite Hve in Hcc, Hview. cbn in Hx |- *. rewrite HD, bind_Return in Hx.
    injection Hx as <-.
    destruct (y_Expr (sl_val c)) as [e|] eqn:Ee; [|by destruct Hcc].
    exists (sl_tree c), e, v0. split_and!; [|reflexivity|exact Hv0|symmetry; exact Hview].
    pose proof (ar_symbols _ _ _ _ Ha) as Hlen. destruct (rev ps) as [|c' [|]]; [done| |done].
    by injection Hc1 as ->.
Qed.

(** The slots of the right-hand side are in the array. *)
Lemma reduce_room ps vals x junk p :
  p = (Z.of_nat (length vals) - 1)%Z ->
  (forall i s, rev ps !! i = Some s -> (x :: junk) !! i = Some (sl_val s)) ->
  (p + Z.of_nat (length ps) < Z.of_nat (length (vals ++ x :: junk)))%Z.
Proof.
  intros -> Hargs. rewrite length_app.
  destruct (decide (length ps = 0)%nat) as [E|E]; [rewrite E; simpl; lia|].
  destruct (lookup_lt_is_Some_2 (rev ps) (length ps - 1)) as [s Hs]; [rewrite length_rev; lia|].
  apply Hargs, lookup_lt_Some in Hs. simpl in *. lia.
Qed.

(** What production 1 stores in the parser. *)
Lemma root_value st n lhs rhs cs l VAL :
  production n = Some (lhs, rhs) -> args_ok cs rhs (dollar l) VAL ->
  exists e, (if (n =? 1)%Z then d1 ← dollar l 1; mret (y_Expr d1) else mret (p_expr st)) = Return e.
Proof.
  intros Hp Ha. destruct (Z.eqb_spec n 1) as [->|_]; [|by eexists].
  assert (production 1 = Some (N_root, [N_expr])) as E by (vm_compute; reflexivity).
  rewrite Hp in E. injection E as -> ->. rewrite (ar_first _ _ _ _ Ha), bind_Return by done.
  by eexists.
Qed.

Lemma reduce_ok st slots n :
  Inv st slots -> check_reduce (p_state st) n = true ->
  outcome_ok (measure st (length slots)) (reduce n st).
Proof.
  intros Hi Hc. destruct (Inv_state _ _ Hi) as (s0 & tl & Hslots & Hs0 & Hst).
  destruct (reduce_facts _ _ Hc) as (lhs & rhs & Hp & H1' & H2 & Hw).
  pose proof (inv_path _ _ Hi) as Hpath. rewrite <- Hs0 in Hw.
  destruct (Hw (sl_state <$> tl)) as (popped & b & rest & g & E & Hm & Hg & Hgs & Hcg & He & Hlt);
    [by rewrite Hslots in Hpath|].
  assert (sl_state <$> slots = popped ++ b :: rest) as E' by (by rewrite Hslots).
  rewrite E' in Hpath. clear E Hw. rewrite Hs0 in Hlt. clear s0 tl Hslots Hs0.
  destruct (split_slots _ _ _ _ E') as (ps & sb & rs & -> & Eps & Esb).
  assert (Forall (fun s => sl_state s <> 0%Z) ps) as Hnz.
  { apply popped_nonzero in Hpath. rewrite <- Eps, Forall_forall in Hpath.
    apply Forall_forall. intros s Hs. by apply Hpath, list_elem_of_fmap_2. }
  assert (length rhs = length ps) as Hlen.
  { rewrite <- (length_rev rhs), <- Hm, length_map, <- Eps. by rewrite length_fmap. }
  unfold reduce. rewrite H2. cbn [or_panic]. rewrite Hlen.
  destruct (reduce_stack st ps sb rs (inv_stack _ _ Hi)) as (arrays & x & junk & -> & Htop & Hargs).
  set (p := (p_p st - Z.of_nat (length ps))%Z) in *. cbn [p_S p_arrays set_stack].
  assert (forall i, slot_at (rev (sl_val <$> sb :: rs) ++ x :: junk) (p + Z.of_nat (S i))
     = match (x :: junk) !! i with Some v => Return v | None => Panic out_of_range end) as Hat
    by (intros i; rewrite Htop; apply slot_at_above).
  rewrite (Hat 0%nat : slot_at _ (p + 1) = _). cbn [lookup list_lookup]. rewrite bind_Return.
  assert (p = Z.of_nat (length (sl_val <$> rs))) as Htop'.
  { rewrite Htop, length_rev, !length_fmap. cbn. lia. }
  rewrite Htop' at 1. rewrite fmap_cons at 1. rewrite slot_at_top, bind_Return, H1', bind_Return.
  pose proof (st_slots _ _ (inv_stack _ _ Hi)) as Hall.
  apply Forall_app in Hall as [Hps Hall]. apply Forall_cons in Hall as [Hsb _].
  rewrite (sk_yys _ _ Hsb), Esb, Hg, bind_Return.
  assert (p_p st = p + Z.of_nat (length ps))%Z as -> by lia.
  destruct (take_dollar_ok (rev (sl_val <$> sb :: rs) ++ x :: junk) n p (length ps))
    as (d & l & -> & Hl & Hd & Hd1); [lia|by eapply reduce_room|].
  rewrite bind_Return, Hd.
  assert (args_ok (rev ps) rhs (dollar l) x) as Ha.
  { split.
    - rewrite list_fmap_compose, !fmap_rev, Eps, <- (rev_involutive rhs), <- Hm. done.
    - intros i s Hs. apply lookup_lt_Some in Hs as Hlt'. rewrite length_rev in Hlt'.
      by rewrite Hl, Hat, (Hargs _ _ Hs) by lia.
    - intros Hne. rewrite Hl, (Hat 0%nat) by (destruct rhs; simpl in *; [done|lia]). done.
    - apply Forall_rev. eapply Forall_impl; [exact Hps|]. intros s. apply sk_complete. }
  pose proof (reduce_action _ _ _ _ _ (fun i => mkRef (length arrays) (Z.to_nat (p + Z.of_nat i)))
    _ Hp Ha) as Hres.
  destruct (action (dollar l) _ x n) as [v|msg] eqn:Ev; [|exact Hres]. clear Hres.
  rewrite bind_Return. destruct (root_value st n lhs rhs (rev ps) l x Hp Ha) as [e Ex].
  cbn [p_expr set_stack].
  assert ((if (n =? 1)%Z then d1 ← dollar d 1; mret (y_Expr d1) else mret (p_expr st)) = Return e)
    as -> by (destruct (Z.eqb_spec n 1) as [E1|]; [by rewrite (Hd1 E1)|done]).
  exists (sb :: rs). eexists. split.
  - rewrite <- Esb in He. refine (reduced_ok st ps sb rs n lhs rhs g arrays _ p (dollar l) _ x v e
      Hi Hp Ha Hnz Hgs Hcg He Ev Ex _ _ _).
    + by exists (x :: junk).
    + rewrite length_app. simpl. lia.
    + rewrite Htop'. rewrite length_fmap. cbn. lia.
  - unfold measure, pend. cbn. rewrite length_app. cbn. unfold slot_weight in *. lia.
Qed.

(** ** One step *)

Lemma preds_root : preds 1 = [0%Z].
Proof. vm_compute. reflexivity. Qed.

Lemma root_derived st s rest c :
  Inv st (s :: rest) -> clean (p_lexer st) -> sl_state s = 1%Z -> sl_tree s = Node 1 [c] ->
  derives N_expr c (words_of (s :: rest)).
Proof.
  intros Hi Hc Hs Ht. pose proof (inv_path _ _ Hi) as Hp.
  pose proof (st_slots _ _ (inv_stack _ _ Hi)) as Hall. apply Forall_cons in Hall as [Hok Hall].
  pose proof (sk_derived _ _ Hok Hc) as Hd. rewrite Hs in Hd. destruct Hd as [Hd _].
  rewrite Hs, chk_root, Ht in Hd.
  destruct rest as [|s0 rest]; cbn [fmap list_fmap] in Hp; rewrite Hs in Hp; [by inversion Hp|].
  assert (sl_state s0 = 0%Z /\ rest = []) as [Hs0 ->].
  { inversion Hp as [|? ? ? He _ Hp0]; subst. unfold edge in He. rewrite preds_root in He.
    apply list_elem_of_singleton in He. split; [done|]. rewrite He in Hp0.
    destruct rest as [|s1 rest]; [done|]. inversion Hp0 as [|? ? ? He0 _ _]; subst.
    by apply edge_nonzero in He0. }
  apply Forall_cons in Hall as [Hok0 _]. pose proof (sk_derived _ _ Hok0 Hc) as Hw.
  rewrite Hs0 in Hw. rewrite words_of_cons. unfold words_of. cbn in Hw |- *. rewrite Hw. cbn.
  inversion Hd as [|? ? rhs ts ws Hprod Hts]; subst.
  destruct (root_production _ _ Hprod) as [_ ->].
  inversion Hts as [|? ? ? ? w ws' Hx Hnil]; subst. inversion Hnil; subst. by rewrite app_nil_r.
Qed.

Lemma exprdefault_ok st slots pact n :
  Inv st slots -> state_ok (p_state st) pact n -> (n = 0%Z -> 0 <= p_char st)%Z ->
  outcome_ok (measure st (length slots)) (exprdefault lex_fuel st).
Proof.
  intros Hi Hs Hpos. unfold exprdefault. rewrite (so_def _ _ _ Hs). cbn [or_panic].
  destruct (Z.eqb_spec n (-2)) as [E|E].
  - pose proof (so_exca _ _ _ Hs E) as E1. apply need_lookahead_ok with slots; [done|].
    intros st' Hi' Est Hchar Hm. rewrite Est, E1.
    pose proof (inv_lexer _ _ Hi') as [_ _ _ _ _ (pending & Hl & Hlexes)].
    destruct pending as [|t [|]]; [cbn in Hl; lia| |done].
    destruct Hl as (Hcr & Htc & Htok & Hist & _). rewrite (exca_facts _ Hist). cbn [or_panic].
    destruct (Z.eqb_spec (p_token st') 1) as [Et|Et].
    + change (-1 <? 0)%Z with true. left. split; [done|]. intros Hc.
      destruct (Inv_state _ _ Hi') as (s & rest & -> & Hss & _). rewrite Est, E1 in Hss.
      destruct (inv_root _ _ Hi' s eq_refl Hc) as (c & e & v & Ht & He & Hv & Hview);
        [congruence|].
      exists (words_of (s :: rest)), t, c, e, v. split_and!; try done; [by apply Hlexes| |].
      * rewrite Htc. revert Et. rewrite Htok. unfold token_number, T.
        unfold is_token in Hist. destruct (Z.eqb_spec (p_char st') 0); lia.
      * apply (root_derived st'); [done|done|congruence|done].
    + change (0 <? 0)%Z with false. eapply outcome_ok_weaken; [exact Hm|].
      by apply handle_error_ok.
  - destruct (Z.eqb_spec n 0) as [E0|E0]; [by apply handle_error_ok; auto|].
    by apply reduce_ok, (so_reduce _ _ _ Hs E E0).
Qed.

Lemma exprnewstate_ok st slots :
  Inv st slots -> outcome_ok (measure st (length slots)) (exprnewstate lex_fuel st).
Proof.
  intros Hi. destruct (Inv_state _ _ Hi) as (_ & _ & _ & _ & Hst).
  destruct (state_facts _ Hst) as (pact & n & Hs). unfold exprnewstate.
  rewrite (so_pact _ _ _ Hs). cbn [or_panic]. change exprLast with 653%Z.
  destruct (Z.leb_spec pact exprFlag) as [Hf|Hf].
  { eapply exprdefault_ok; [done|exact Hs|]. intros Hn. by destruct (so_simple _ _ _ Hs Hf). }
  apply need_lookahead_ok with slots; [done|]. intros st' Hi' Est Hchar Hm.
  rewrite <- Est in Hs. eapply outcome_ok_weaken; [exact Hm|].
  assert (outcome_ok (measure st' (length slots)) (exprdefault lex_fuel st')) as Hdef
    by (by eapply exprdefault_ok).
  destruct ((pact + p_token st' <? 0) || (653 <=? pact + p_token st'))%Z eqn:Er; [done|].
  apply orb_false_iff in Er as [Er1%Z.ltb_ge Er2%Z.leb_gt].
  destruct (act_facts (pact + p_token st')) as (a & Ea & Hsa); [lia|].
  destruct (state_facts a Hsa) as (? & ? & Hoa).
  rewrite Ea, bind_Return, (so_chk _ _ _ Hoa), bind_Return. cbn [or_panic mret flow_ret].
  destruct (Z.eqb_spec (chk a) (p_token st')) as [Hc|Hc]; [|done].
  eapply shift_ok; [done|exact Hs|done|lia|done|done|done].
Qed.

Lemma exprstack_measure st st' n : exprstack st = Return st' -> measure st' n = measure st n.
Proof.
  unfold exprstack, with_room. destruct (Z.of_nat (length (p_S st)) <=? p_p st + 1)%Z;
    cbn; (destruct (store_at _ _ _); [|done]); by intros [= <-].
Qed.

(** ** The whole run *)

Definition final (o : outcome) : Prop :=
  match o with
  | Goto_exprstack _ | Goto_exprnewstate _ => False
  | o => outcome_ok 0 o
  end.

Lemma measure_nonneg st slots : Inv st slots -> (0 <= measure st (length slots))%Z.
Proof.
  intros Hi. destruct (Inv_state _ _ Hi) as (_ & _ & _ & _ & Hst).
  destruct (state_facts _ Hst) as (pact & n & Hs). pose proof (so_rank _ _ _ Hs).
  unfold measure, pend, slot_weight.
  repeat match goal with |- context [if ?b then _ else _] => destruct b end; lia.
Qed.

Lemma run_final fuel m o :
  outcome_ok m o -> (m <= Z.of_nat fuel)%Z -> final (run lex_fuel fuel o).
Proof.
  revert m o. induction fuel as [|fuel IH]; intros m o Ho Hm.
  - destruct o as [st|st|code st|msg|]; try done; cbn in Ho.
    + destruct Ho as (slots & s & Hi & Hlt). apply exprstack_Inv in Hi as (st' & E & Hi).
      apply measure_nonneg in Hi. rewrite (exprstack_measure _ _ _ E) in Hi. cbn in Hi. lia.
    + destruct Ho as (slots & Hi & Hlt). apply measure_nonneg in Hi. lia.
  - destruct o as [st|st|code st|msg|]; try done; cbn in Ho |- *.
    + destruct Ho as (slots & s & Hi & Hlt). apply exprstack_Inv in Hi as (st' & E & Hi).
      rewrite E. cbn [or_panic]. eapply IH; [by apply exprnewstate_ok|].
      rewrite (exprstack_measure _ _ _ E). cbn. lia.
    + destruct Ho as (slots & Hi & Hlt). eapply IH; [by apply exprnewstate_ok|lia].
Qed.

(** With any fuel, a run that ends does so correctly. *)
Lemma run_ends fuel m o :
  outcome_ok m o ->
  match run lex_fuel fuel o with
  | Ret code st => outcome_ok 0 (Ret code st)
  | Panics msg => msg = regexp_panic
  | _ => True
  end.
Proof.
  revert m o. induction fuel as [|fuel IH]; intros m o Ho; destruct o as [st|st|code st|msg|];
    cbn in Ho |- *; try done.
  - destruct Ho as (slots & s & Hi & _). apply exprstack_Inv in Hi as (st' & E & Hi).
    rewrite E. eapply IH. by apply exprnewstate_ok.
  - destruct Ho as (slots & Hi & _). eapply IH. by apply exprnewstate_ok.
Qed.
End invariant.

(** ** [Parse] *)

Section parse.
Context `{LogqlEnv} `{RegexEngine} `{PromText}.

(** A parser of the pool: its stack has room and its value no selector. *)
Definition pool_ok (pool : parser) : Prop :=
  (1 <= length (pool_stack pool))%nat /\ y_Selector (pool_lval pool) = [].

Lemma Init_ready input col : ready (Init input col).
Proof. by right. Qed.

Lemma Parse_start_PInv fuel pool input :
  pool_ok pool -> PInv fuel (Init input (pool_column pool)) (Parse_start pool input) []
    (mkSlot 0 (set_yys 0 zero_sym) (Leaf (mkToken 0 SNone)) []).
Proof.
  intros [Hroom Hsel]. split; cbn.
  - split; cbn; [apply Init_ready|apply rtc_refl|done|done|done|].
    exists []. split; [done|]. intros _. constructor.
  - split; cbn; [by eexists|done|done|constructor].
  - split; cbn; [done| |done]. vm_compute. exact I.
  - done.
  - apply path_start.
  - done.
  - intros _ Hc. cbn in Hc. lia.
Qed.

(** Steps enough for every text of this length on which [Lex] returns. *)
Definition parse_fuel (input : string) : nat := 20 * String.length input + 20.

Lemma Parse_start_ok fuel pool input :
  pool_ok pool ->
  outcome_ok fuel (Init input (pool_column pool)) (Z.of_nat (parse_fuel input))
    (Goto_exprstack (Parse_start pool input)).
Proof.
  intros Hp. eexists [], _. split; [by apply Parse_start_PInv|].
  destruct (state_facts 0) as (pact & n & Hs); [unfold is_state; lia|].
  pose proof (so_rank _ _ _ Hs) as Hr. unfold measure, pend, slot_weight, parse_fuel. cbn.
  change (remaining (Init input (pool_column pool))) with (String.length input).
  lia.
Qed.

Lemma Parse_final fuel pool input :
  pool_ok pool -> (parse_fuel input <= fuel)%nat ->
  final fuel (Init input (pool_column pool)) (Parse fuel pool input).
Proof.
  intros Hp Hf. unfold Parse. eapply run_final; [by apply Parse_start_ok|lia].
Qed.

(** How a run ends, whatever its fuel. *)
Lemma Parse_ends fuel pool input :
  pool_ok pool ->
  match Parse fuel pool input with
  | Ret code st => outcome_ok fuel (Init input (pool_column pool)) 0 (Ret code st)
  | Panics msg => msg = regexp_panic
  | _ => True
  end.
Proof. intros Hp. unfold Parse. eapply run_ends. by apply Parse_start_ok. Qed.
End parse.
