(* ===== verification/LogqlSoundness.v ===== *)
(** * What [ParseExpr] guarantees

    An accepted text is a sentence of the grammar and the tree is the value of
    one of its derivations; no run fails on an index or a missing child; and
    without a dash in the text every run ends.  A text that begins with two
    dashes and has no space after them makes it run forever. *)

From stdpp Require Import base tactics option list relations gmap strings pretty.
From Stdlib Require Import ZArith Lia Ascii.
From S2P Require Import Prelude GoStrings Labels Strconv Http LogqlAst Scanner ScannerFacts.
From S2P Require Import LogqlTables LogqlLexer LogqlActions LogqlParser LogqlGrammar.
From S2P Require Import LogqlLexerFacts LogqlSemantics LogqlAutomaton LogqlRun.

Section soundness.
Context `{LogqlEnv} `{RegexEngine} `{PromText}.

(** ** The specification *)

(** [Lex] splits the text into the tokens [ts] and the end, without an error. *)
Definition text_tokens (fuel : nat) (column : Z) (input : string) (ts : list Token) : Prop :=
  exists last l, lexes fuel (Init input column) (ts ++ [last]) l /\ tok_char last = 0%Z /\ clean l.

(** The tree is the value of a derivation of the tokens; which slot of the
    parser's memory holds the number of a label filter is left open. *)
Definition parses_to (ts : list Token) (e : Expr) : Prop :=
  exists t v, derives N_expr t ts /\ sem t = Return v /\
    view any_slot N_expr v = SExpr (Some (ren_expr any_slot e)).

(** C11: the parser implements the grammar.  When [ParseExpr] returns a tree, the
    whole text was split into tokens without an error, the tokens are derived
    from [expr] by the productions of expr.y, and the tree is what the semantic
    actions give for that derivation, up to the slots its numbers are kept in. *)
Theorem ParseExpr_refines_grammar (fuel : nat) (pool : parser) (input : string)
    (mem : NumberMemory) (e : Expr) :
  pool_ok pool -> ParseExpr fuel pool input = Some (Return (Ok (mem, e))) ->
  exists ts, text_tokens fuel (pool_column pool) input ts /\ parses_to ts e.
Proof.
  intros Hp E. pose proof (Parse_ends fuel pool input Hp) as Hend. unfold ParseExpr in E.
  destruct (Parse fuel pool input) as [| |code st|msg|]; try done. cbn in E, Hend.
  destruct (s_errs (p_lexer st)) as [|err errs] eqn:Ee; [|done].
  destruct (Z.eqb_spec code 0) as [->|Hne]; [|done]. cbn [negb] in E.
  destruct Hend as [[_ Hacc]|[? _]]; [|done].
  destruct (Hacc Ee) as (ts & last & c & e' & v & Hl & Hlast & Hd & He & Hv & Hview).
  rewrite He in E. injection E as _ ->. exists ts.
  split; [exists last, (p_lexer st); by split_and!|]. by exists c, v.
Qed.

(** C12: no run of the parser fails.  Whatever the text is, [ParseExpr] never
    accesses a table or the stack out of range, never finds a child missing and
    never asks for the first of no errors; the only panic is that of a regular
    expression that does not compile. *)
Theorem ParseExpr_panics_only_on_regexp (fuel : nat) (pool : parser) (input msg : string) :
  pool_ok pool -> ParseExpr fuel pool input = Some (Panic msg) -> msg = regexp_panic.
Proof.
  intros Hp E. pose proof (Parse_ends fuel pool input Hp) as Hend. unfold ParseExpr in E.
  destruct (Parse fuel pool input) as [| |code st|msg'|]; try done; cbn in E, Hend.
  - destruct (s_errs (p_lexer st)) as [|err errs] eqn:Ee; [|done].
    destruct Hend as [[-> Hacc]|[_ Hd]]; [|by destruct (Hd Ee)]. cbn in E.
    destruct (Hacc Ee) as (ts & last & c & e' & v & _ & _ & _ & He & _). by rewrite He in E.
  - by injection E as <-.
Qed.

(** ** Termination *)

Definition has_no_dash (s : string) : bool := str_forallb (fun c => negb (Ascii.eqb c "-")) s.

(** C13: the parser ends.  On a text without a dash, with or without errors in it,
    [ParseExpr] returns after at most twenty steps for each byte of the text and
    twenty more. *)
Theorem ParseExpr_terminates (fuel : nat) (pool : parser) (input : string) :
  pool_ok pool -> has_no_dash input = true -> (parse_fuel input <= fuel)%nat ->
  is_Some (ParseExpr fuel pool input).
Proof.
  intros Hp Hd Hf. pose proof (Parse_final fuel pool input Hp Hf) as Hend. unfold ParseExpr.
  destruct (Parse fuel pool input) as [| |code st|msg|]; try done; cbn in Hend |- *.
  destruct Hend as (l & Hm & Hr & Hl). exfalso.
  assert (no_dash l) as Hn by (by eapply moves_no_dash).
  apply moves_remaining in Hm.
  change (remaining (Init input (pool_column pool))) with (String.length input) in Hm.
  destruct (Lex_returns fuel l Hr Hn) as [x Hx]; [unfold parse_fuel in Hf; lia|].
  by rewrite Hl in Hx.
Qed.

(** ** Where it does not *)

(** An ASCII byte that is not a space. *)
Definition word_byte (c : ascii) : bool := is_ascii c && negb (IsSpace (rune c)).

Definition word_bytes (s : Scanner) : Prop := str_forallb word_byte (rest s) = true.

Lemma word_rune s : read s -> word_bytes s -> IsSpace (s_ch s) = false.
Proof.
  unfold read, word_bytes, rest. destruct (s_chb s) as [|c b]; [by intros [-> _]|].
  intros (_ & _ & Hc) Hw. apply andb_true_iff in Hw as [Hb _].
  unfold word_byte in Hb. apply andb_true_iff in Hb as [Ha Hs].
  rewrite Hc; [by apply negb_true_iff|]. unfold is_ascii in Ha. apply N.ltb_lt in Ha.
  unfold rune. lia.
Qed.

Lemma dash_word_hangs fuel b s : read s -> word_bytes s -> dash_word fuel b s = None.
Proof.
  revert b s. induction fuel as [|fuel IH]; intros b s Hr Hw; [done|]. cbn [dash_word].
  destruct (Next s) as [r s'] eqn:E. assert (ready s) as Hs by (by left).
  destruct (Next_spec _ _ _ Hs E) as (Hm & Hr' & Hch & _). rewrite (Hch Hr), word_rune by done.
  apply IH; [done|]. unfold word_bytes. by eapply moves_bytes.
Qed.

Lemma read_first s c u : read s -> rest s = String c u -> is_ascii c = true ->
  s_ch s = rune c /\ s_chb s = String c "" .
Proof.
  unfold read, rest. intros Hr E Ha. unfold is_ascii in Ha. apply N.ltb_lt in Ha.
  destruct (s_chb s) as [|c' b]; [by destruct Hr as (_ & E1 & E2); rewrite E1, E2 in E|].
  injection E as -> E. destruct Hr as (_ & Hb & Hc).
  assert (s_ch s = rune c) as Hch by (apply Hc; unfold rune; lia). split; [done|].
  destruct Hb as [-> _]; [rewrite Hch; unfold rune; lia|done].
Qed.

Lemma rest_next s c : s_chb s = String c "" -> rest s = String c (rest (next s)).
Proof. intros E. by rewrite next_rest, E. Qed.

Lemma String_tail c s t : String c s = String c t -> s = t.
Proof. by intros [= ->]. Qed.

Lemma scan_dash fuel s :
  read s -> s_ch s = rune "-" -> scan_go (S fuel) s = (rune "-", next (mark s)).
Proof.
  intros Hr Hd. destruct (mark_fields s) as (Hc & _).
  assert (skip_while isWhitespace s = s) as Hsk.
  { unfold skip_while. cbn [scan_while]. by rewrite Hd. }
  cbn [scan_go]. unfold scan_token. by rewrite Hsk, Hc, Hd.
Qed.

Lemma Lex_two_dashes fuel w column :
  str_forallb word_byte w = true -> Lex fuel (Init ("--" +:+ w) column) = None.
Proof.
  intros Hw. destruct fuel as [|fuel]; [done|]. cbn [Lex].
  set (s0 := Init ("--" +:+ w) column).
  assert (read (next s0) /\ rest (next s0) = "--" +:+ w) as [Hr1 Hrest1].
  { split; [apply next_read|]. by destruct (next_spec s0) as (<- & _). }
  destruct (read_first _ _ _ Hr1 Hrest1 eq_refl) as [Hc1 Hb1].
  assert (Peek s0 = next s0) as Hpk.
  { unfold Peek. change (s_ch s0) with NoChar. rewrite Z.eqb_refl. cbv iota zeta.
    rewrite Hc1. reflexivity. }
  unfold Scan. rewrite Hpk. set (s1 := set_pos 0 _ _).
  assert (read s1) as Hrs1 by (by apply set_pos_read).
  assert (rest s1 = "--" +:+ w) as Hrest by (unfold s1; by rewrite set_pos_rest).
  destruct (read_first _ _ _ Hrs1 Hrest eq_refl) as [Hcs1 Hbs1].
  rewrite scan_dash by done. destruct (mark_fields s1) as (_ & Hbm & _ & Hrm).
  set (l := next (mark s1)). assert (read l) as Hrl by apply next_read.
  assert (rest l = "-" +:+ w) as Hrestl.
  { rewrite Hbs1 in Hbm. apply rest_next in Hbm. rewrite Hrm, Hrest in Hbm.
    symmetry. exact (String_tail _ _ _ Hbm). }
  destruct (read_first _ _ _ Hrl Hrestl eq_refl) as [Hcl _].
  change (rune "-" =? rune "#")%Z with false. rewrite Z.eqb_refl. cbv iota zeta.
  rewrite Peek_read, Hcl by done. rewrite Z.eqb_refl. cbv iota.
  rewrite dash_word_hangs; [done|done|]. unfold word_bytes. rewrite Hrestl. exact Hw.
Qed.

Lemma exprnewstate_lex_none fuel st :
  p_state st = 0%Z -> p_char st = (-1)%Z -> Lex fuel (p_lexer st) = None ->
  exprnewstate fuel st = OutOfFuel.
Proof.
  intros Hs Hc Hl. unfold exprnewstate. rewrite Hs.
  assert (exists pact, index exprPact 0 = Return pact /\ (pact <=? exprFlag)%Z = false)
    as (pact & -> & Hp) by (eexists; split; vm_compute; reflexivity).
  cbn [or_panic]. rewrite Hp. unfold need_lookahead, exprlex1. by rewrite Hc, Hl.
Qed.

(** The first push of a run. *)
Lemma exprstack_start pool input :
  pool_stack pool <> [] -> exists st, exprstack (Parse_start pool input) = Return st /\
    p_state st = 0%Z /\ p_char st = (-1)%Z /\ p_lexer st = Init input (pool_column pool).
Proof.
  intros Hroom. unfold exprstack, with_room. cbn [p_p p_S p_state p_VAL Parse_start].
  destruct (pool_stack pool) as [|x junk] eqn:E; [done|].
  rewrite (proj2 (Z.leb_gt _ _)) by (cbn [length]; lia). cbn [p_S Parse_start]. rewrite E.
  change (-1 + 1)%Z with (Z.of_nat (length (@nil exprSymType))).
  rewrite (store_at_end [] x junk), bind_Return. by eexists.
Qed.

(** C35: a query that begins with two dashes and has no space blocks the gateway.
    The loop of [Lex] that reads the word after the dashes ends only at a space, and
    at the end of the text it reads the end again and again: [ParseExpr] does not
    return, with any fuel and any parser of the pool, whose stack is an array that
    is not empty. *)
Theorem ParseExpr_hangs_on_dashes (fuel : nat) (pool : parser) (w : string) :
  pool_stack pool <> [] ->
  str_forallb word_byte w = true -> ParseExpr fuel pool ("--" +:+ w) = None.
Proof.
  intros Hroom Hw. unfold ParseExpr, Parse.
  assert (forall n, run fuel n OutOfFuel = OutOfFuel) as Hout by by intros [|n].
  enough (forall n, run fuel n (Goto_exprstack (Parse_start pool ("--" +:+ w))) = OutOfFuel)
    as -> by done.
  intros [|n]; [done|]. cbn [run].
  destruct (exprstack_start pool ("--" +:+ w) Hroom) as (st & -> & Hs & Hc & Hl). cbn [or_panic].
  rewrite exprnewstate_lex_none; [apply Hout|done|done|]. rewrite Hl. by apply Lex_two_dashes.
Qed.
End soundness.

(** ** Concrete runs *)

Section runs.
#[local] Existing Instances simple_env literal_engine simple_prom.

Local Abbreviation parse fuel input := (ParseExpr fuel new_parser input).

Definition is_tree (r : option (fallible (NumberMemory * Expr))) : bool :=
  match r with Some (Return (Ok _)) => true | _ => false end.

Lemma is_tree_inv r : is_tree r = true -> exists mem e, r = Some (Return (Ok (mem, e))).
Proof. destruct r as [[[[mem e]|]|]|]; try discriminate. by exists mem, e. Qed.

Definition panic_text (r : option (fallible (NumberMemory * Expr))) : option string :=
  match r with Some (Panic msg) => Some msg | _ => None end.

Lemma panic_text_inv r msg : panic_text r = Some msg -> r = Some (Panic msg).
Proof. destruct r as [[[|]|]|]; try discriminate. by intros [= ->]. Qed.

(** Forty open parentheses need a stack of more than [exprInitialStackSize] slots. *)
Example deep_nesting :
  let nest := fix nest n := match n with O => "1" | S n => "(" +:+ nest n +:+ ")" end in
  is_tree (parse 3000 (nest 40%nat)) = true.
Proof. vm_compute. reflexivity. Qed.

Lemma new_parser_ok : pool_ok new_parser.
Proof. split; [vm_compute; lia|done]. Qed.

Lemma ParseExpr_refines_grammar_witness :
  exists ts e, text_tokens 1000 0 "rate({app=`x`} | json [5m]) > 2" ts /\ parses_to ts e.
Proof.
  assert (is_tree (parse 1000 "rate({app=`x`} | json [5m]) > 2") = true) as Hok
    by (vm_compute; reflexivity).
  destruct (is_tree_inv _ Hok) as (mem & e & E).
  destruct (ParseExpr_refines_grammar _ _ _ _ _ new_parser_ok E) as (ts & Hl & Hp).
  exists ts, e. exact (conj Hl Hp).
Defined.

Lemma ParseExpr_panics_only_on_regexp_witness :
  exists msg, parse 1000 "{app=~`(`}" = Some (Panic msg) /\ msg = regexp_panic.
Proof.
  assert (panic_text (parse 1000 "{app=~`(`}") = Some regexp_panic) as E%panic_text_inv
    by (vm_compute; reflexivity).
  exists regexp_panic. split; [exact E|].
  exact (ParseExpr_panics_only_on_regexp _ _ _ _ new_parser_ok E).
Defined.

Lemma ParseExpr_terminates_witness : is_Some (parse 300 "{app=}").
Proof.
  apply (ParseExpr_terminates 300 new_parser "{app=}");
    [apply new_parser_ok|reflexivity|vm_compute; lia].
Defined.

Lemma ParseExpr_hangs_on_dashes_witness : parse 1000 "--strict" = None.
Proof.
  apply (ParseExpr_hangs_on_dashes 1000 new_parser "strict"); [discriminate|reflexivity].
Defined.
End runs.
