(* ===== verification/LogsEnforcer.v ===== *)
(** * Enforcing label matchers on the logs API

    [api/logs/v1/labels_enforcer.go], [rules_labels_enforcer.go] and
    [authorization/query.go].  [ParseExpr] of [logql/v2/parser.go] is an argument
    of the definitions here: it may panic, fails or returns a tree of [LogqlAst]
    with the memory its numbers are read from when it is printed.  The theorems
    hold for any such parser; [LogqlGateway] instantiates them with the one of
    [LogqlParser]. *)

From stdpp Require Import base tactics option list gmap strings pretty.
From Stdlib Require Import ZArith Lia Ascii.
From S2P Require Import Prelude GoStrings Labels Url Strconv Json Http Tenant Authz LogqlAst.

Definition logicalOr : string := "or".
Definition queryParam : string := "query".
Definition matchParam : string := "match".
Definition labelsParam : string := "labels".
Definition prometheusRulesRoute : string := "/prometheus/api/v1/rules".
Definition prometheusAlertsRoute : string := "/prometheus/api/v1/alerts".

Section enforcer.
Context `{LogqlEnv} `{RegexEngine} `{MapRange} `{Mime}.
Context (ParseExpr : string -> fallible (NumberMemory * Expr)).

(** [initAuthzMatchers]: compiles every matcher. *)
Definition initAuthzMatchers (lm : list Matcher) : result (list Matcher) :=
  traverse (fun m => wrap_err "failed parsing label matcher"
                       (NewMatcher (m_type m) (m_name m) (m_value m))) lm.

(** [combineLabelMatchers]: the loop over the authorization matchers keeps the
    matchers to emit and the map of the query's matchers. *)
Definition combine_step (acc : list Matcher * gmap string Matcher) (am : Matcher) :
    list Matcher * gmap string Matcher :=
  let '(ms, qmap) := acc in
  match qmap !! m_name am with
  | None => (ms, <[m_name am := am]> qmap)
  | Some qm =>
      if negb (bool_decide (m_type qm = MatchEqual)) || negb (Matches am (m_value qm)) then
        (if negb (bool_decide (m_type qm = MatchEqual)) then ms ++ [qm] else ms,
         <[m_name am := am]> qmap)
      else (ms, qmap)
  end.

Definition queryMatchersMap (queryMatchers : list Matcher) : gmap string Matcher :=
  foldl (fun qmap qm => <[m_name qm := qm]> qmap) ∅ queryMatchers.

Definition combineLabelMatchers (queryMatchers authzMatchers : list Matcher) : list Matcher :=
  let '(ms, qmap) := foldl combine_step ([], queryMatchersMap queryMatchers) authzMatchers in
  ms ++ (snd <$> map_range qmap).

Definition logQLParam (path : string) : string :=
  if HasSuffix path "/series" then matchParam else queryParam.

(** The callbacks of the two walks. *)
Definition or_visitor (ms : list Matcher) : Visitor unit :=
  mkVisitor (fun s st => (s, st))
    (fun q st => (AppendPipelineMatchers q ms logicalOr, st)).

Definition and_visitor (lm : list Matcher) : Visitor unit :=
  mkVisitor (fun s st => (Stream_SetMatchers s (combineLabelMatchers (Stream_Matchers s) lm), st))
    (fun q st => (q, st)).

(** [enforceValuesOnLogQL]. *)
Definition enforceValuesOnLogQL (mInfo : AuthzResponseData) (v : Values) (paramName : string) :
    fallible string :=
  lm ← from_result (initAuthzMatchers (ad_matchers mInfo));
  let paramValue := values_get v paramName in
  if String.eqb paramValue "" then
    let expr := Stream_SetMatchers (newStreamMatcherExpr []) lm in
    mret (Encode (values_set v paramName (Stream_String expr)))
  else
    '(mem, expr) ← wrap_fallible "failed parsing LogQL expression" (ParseExpr paramValue);
    if String.eqb (ad_matcherOp mInfo) logicalOr && String.eqb paramName queryParam then
      let expr := (Walk (or_visitor lm) expr tt).1 in
      mret (Encode (values_set v paramName (Expr_String expr)))
    else
      let expr := (Walk (and_visitor lm) expr tt).1 in
      mret (Encode (values_set v paramName (Expr_String expr))).

(** [enforceValues]. *)
Definition enforceValues (mInfo : AuthzResponseData) (r : Request) : fallible string :=
  enforceValuesOnLogQL mInfo (URL_Query r) (logQLParam (u_path (r_url r))).

(** [enforceRequestLogQL]: the request as it leaves it. *)
Definition enforceRequestLogQL (mInfo : AuthzResponseData) (r : Request) : fallible Request :=
  q ← enforceValues mInfo r;
  let r := set_rawQuery q r in
  if negb (String.eqb (r_method r) "POST") then mret r
  else
    postForm ← from_result (wrap_err "could not parse form" (ParsePostForm r));
    let paramName := logQLParam (u_path (r_url r)) in
    body ← (if (0 <? length (values_all postForm paramName))%nat
            then enforceValuesOnLogQL mInfo postForm paramName
            else mret (Encode postForm));
    let r := set_body body r in
    mret (set_header (header_set (r_header r) "Content-Length"
                      (Itoa (Z.of_nat (String.length body)))) r).

(** [WithEnforceAuthorizationLabels]. *)
Definition WithEnforceAuthorizationLabels {S} (next : Handler S) : Handler S := fun r =>
  match GetData (r_ctx r) with
  | None => PrometheusAPIError "error finding authorization label matcher" 500
  | Some data =>
      if String.eqb data "" then next r
      else
        match Unmarshal data with
        | Err _ => PrometheusAPIError "error parsing authorization label matchers" 500
        | Ok matchersInfo =>
            let r := map_ctx (with_matchers matchersInfo) r in
            match enforceRequestLogQL matchersInfo r with
            | Panic msg => panic msg
            | Return (Err e) => PrometheusAPIError
                         ("could not enforce authorization label matchers: " +:+ e) 500
            | Return (Ok r) => next r
            end
        end
  end.

(** [AllowedNamespaces]. *)
Definition AllowedNamespaces (c : Context) : list string :=
  match ctx_matchers c with
  | None => []
  | Some info => foldl (fun ns m => ns ++ Split "|" (m_value m)) [] (ad_matchers info)
  end.

(** ** Rules *)

(** The first matcher that refuses the URL parameter of its name. *)
Fixpoint unauthorized_param (queryParams : Values) (ms : list Matcher) : option (string * string) :=
  match ms with
  | [] => None
  | m :: ms =>
      let val := values_get queryParams (m_name m) in
      if negb (Matches m val) then Some (m_name m, val) else unauthorized_param queryParams ms
  end.

(** [WithEnforceRulesAuthorizationLabels]. *)
Definition WithEnforceRulesAuthorizationLabels {S} (next : Handler S) : Handler S := fun r =>
  match GetData (r_ctx r) with
  | None => PrometheusAPIError "error finding authorization label matcher" 500
  | Some data =>
      if String.eqb data "" then next r
      else
        match Unmarshal data with
        | Err _ => PrometheusAPIError "error parsing authorization label matchers" 500
        | Ok matchersInfo =>
            match initAuthzMatchers (ad_matchers matchersInfo) with
            | Err _ => PrometheusAPIError "error initializing authorization label matchers" 500
            | Ok ms =>
                match unauthorized_param (URL_Query r) ms with
                | Some (name, val) =>
                    PrometheusAPIError ("unauthorized access for URL parameter " +:+ Quote name
                                        +:+ " and value " +:+ Quote val) 403
                | None => next r
                end
            end
        end
  end.

(** [transformParametersInLabelFilter]: the loop over the keys. *)
Definition filter_step (ms : list Matcher) (acc : list string * Values) (key : string) :
    list string * Values :=
  let '(labelFilter, queryParams) := acc in
  let val := values_get queryParams key in
  if existsb (fun m => bool_decide (m_name m = key) && Matches m val) ms
  then (labelFilter ++ [key +:+ ":" +:+ val], values_del queryParams key)
  else (labelFilter, queryParams).

Definition transformParametersInLabelFilter (keys : list string) (ms : list Matcher)
    (queryParams : Values) : string :=
  let '(labelFilter, queryParams) := foldl (filter_step ms) ([], queryParams) keys in
  if (length labelFilter =? 0)%nat then Encode queryParams
  else Encode (values_set queryParams labelsParam (Join labelFilter ",")).

(** [WithParametersAsLabelsFilterRules]. *)
Definition WithParametersAsLabelsFilterRules (labelKeys : gmap string (list string)) {S}
    (next : Handler S) : Handler S := fun r =>
  if Contains (u_path (r_url r)) prometheusRulesRoute
     || Contains (u_path (r_url r)) prometheusAlertsRoute then next r
  else
    match GetTenant (r_ctx r) with
    | None => PrometheusAPIError "missing tenant id" 400
    | Some tenant =>
        match labelKeys !! tenant with
        | None | Some [] => next r
        | Some keys =>
            match GetData (r_ctx r) with
            | None => PrometheusAPIError "error finding authorization label matcher" 500
            | Some data =>
                if String.eqb data "" then next r
                else
                  match Unmarshal data with
                  | Err _ => PrometheusAPIError "error parsing authorization label matchers" 500
                  | Ok matchersInfo =>
                      match initAuthzMatchers (ad_matchers matchersInfo) with
                      | Err _ =>
                          PrometheusAPIError "error initializing authorization label matchers" 500
                      | Ok ms =>
                          next (set_rawQuery
                                  (transformParametersInLabelFilter keys ms (URL_Query r)) r)
                      end
                  end
            end
        end
    end.

(** ** [parseLogStreamSelectors] of [authorization/query.go] *)

Definition wildcard_chars : list ascii := ["."; "+"; "*"]%char.

Definition appendSelector (sels : Values) (selector value : string) : Values :=
  values_add sels selector value.

Definition add_alternative (name : string) (acc : Values * bool) (v : string) : Values * bool :=
  if ContainsAny v wildcard_chars then (acc.1, true)
  else (appendSelector acc.1 name v, acc.2).

Definition add_matcher (selectorNames : gset string) (acc : Values * bool) (m : Matcher) :
    Values * bool :=
  if negb (bool_decide (m_name m ∈ selectorNames)) then acc
  else match m_type m with
    | MatchEqual => (appendSelector acc.1 (m_name m) (m_value m), acc.2)
    | MatchRegexp => foldl (add_alternative (m_name m)) acc (Split "|" (m_value m))
    | _ => acc
    end.

Definition selector_visitor (selectorNames : gset string) : Visitor (Values * bool) :=
  mkVisitor (fun s acc => (s, foldl (add_matcher selectorNames) acc (Stream_Matchers s)))
    (fun q acc => (q, acc)).

Definition parseLogStreamSelectors (selectorNames : gset string) (query : string) :
    fallible (Values * bool) :=
  '(_, expr) ← ParseExpr query;
  mret (Walk (selector_visitor selectorNames) expr (∅, false)).2.
End enforcer.

(** ** What [combineLabelMatchers] guarantees *)

Section combine.
Context `{RegexEngine} `{MapRange}.

(** The matcher the map holds under the name of [am] after its step. *)
Definition resolve (am : Matcher) (o : option Matcher) : Matcher :=
  match o with
  | Some qm => if bool_decide (m_type qm = MatchEqual) && Matches am (m_value qm) then qm else am
  | None => am
  end.

Lemma combine_step_spec ms qmap am :
  combine_step (ms, qmap) am =
  (match qmap !! m_name am with
   | Some qm => if bool_decide (m_type qm = MatchEqual) then ms else ms ++ [qm]
   | None => ms
   end, <[m_name am := resolve am (qmap !! m_name am)]> qmap).
Proof.
  unfold combine_step, resolve. destruct (qmap !! m_name am) as [qm|] eqn:E; [|done].
  destruct (bool_decide (m_type qm = MatchEqual)), (Matches am (m_value qm)); simpl; try done.
  by rewrite insert_id.
Qed.

(** With distinct names, every authorization matcher is resolved against the
    query's own map. *)
Lemma foldl_combine ams ms qmap ms' qmap' :
  NoDup (m_name <$> ams) ->
  foldl combine_step (ms, qmap) ams = (ms', qmap') ->
  (forall k, k ∉ m_name <$> ams -> qmap' !! k = qmap !! k) /\
  (forall am, am ∈ ams -> qmap' !! m_name am = Some (resolve am (qmap !! m_name am))) /\
  (forall m, m ∈ ms' <-> m ∈ ms \/
     exists am, am ∈ ams /\ qmap !! m_name am = Some m /\ m_type m <> MatchEqual).
Proof.
  revert ms qmap. induction ams as [|am ams IH]; intros ms qmap Hnd E.
  { simpl in E. simplify_eq. split_and!; [done|set_solver|set_solver]. }
  rewrite fmap_cons in *. apply NoDup_cons in Hnd as [Hni Hnd].
  change (foldl combine_step (combine_step (ms, qmap) am) ams = (ms', qmap')) in E.
  rewrite combine_step_spec in E. apply IH in E as (Hk & Ha & Hm); [|done].
  assert (forall am', am' ∈ ams -> m_name am' <> m_name am) as Hne.
  { intros am' Hin Hn. apply Hni. rewrite <-Hn. by apply list_elem_of_fmap_2. }
  split_and!.
  - intros k Hk'. apply not_elem_of_cons in Hk' as [? ?].
    rewrite Hk by done. by rewrite lookup_insert_ne.
  - intros am' Hin. apply elem_of_cons in Hin as [->|Hin].
    + rewrite Hk by done. by rewrite lookup_insert_eq.
    + rewrite Ha by done. rewrite lookup_insert_ne; [done|]. by apply not_eq_sym, Hne.
  - intros m. rewrite Hm. setoid_rewrite elem_of_cons.
    assert ((exists am', am' ∈ ams /\
        <[m_name am:=resolve am (qmap !! m_name am)]> qmap !! m_name am' = Some m /\
        m_type m ≠ MatchEqual) <->
      (exists am', am' ∈ ams /\ qmap !! m_name am' = Some m /\ m_type m ≠ MatchEqual)) as ->.
    { split; intros (am' & Hin & E' & ?); exists am'; split_and!; try done;
        rewrite lookup_insert_ne in * by (by apply not_eq_sym, Hne); done. }
    destruct (qmap !! m_name am) as [qm|] eqn:Eq; [|naive_solver].
    case_bool_decide; [naive_solver|]. rewrite elem_of_app, list_elem_of_singleton. naive_solver.
Qed.

Lemma queryMatchersMap_name qs k m :
  queryMatchersMap qs !! k = Some m -> m_name m = k /\ m ∈ qs.
Proof.
  unfold queryMatchersMap. induction qs as [|q qs IH] using rev_ind; [simpl; by rewrite lookup_empty|].
  rewrite foldl_app. simpl. destruct (decide (m_name q = k)) as [<-|Hne].
  - rewrite lookup_insert_eq. intros [= <-]. set_solver.
  - rewrite lookup_insert_ne by done. intros E. apply IH in E. set_solver.
Qed.

Lemma queryMatchersMap_nodup qs m : NoDup (m_name <$> qs) -> m ∈ qs ->
  queryMatchersMap qs !! m_name m = Some m.
Proof.
  unfold queryMatchersMap. induction qs as [|q qs IH] using rev_ind; [by intros _ ?%not_elem_of_nil|].
  rewrite fmap_app, foldl_app. simpl. rewrite NoDup_app. intros (Hnd & Hd & _) Hin.
  apply elem_of_app in Hin as [Hin|Hin%list_elem_of_singleton];
    [|subst m; by rewrite lookup_insert_eq].
  rewrite lookup_insert_ne; [by apply IH|].
  intros Hn. apply (Hd (m_name m)); [by apply list_elem_of_fmap_2|]. rewrite Hn. set_solver.
Qed.

Lemma elem_of_combine qs ams m : NoDup (m_name <$> ams) ->
  m ∈ combineLabelMatchers qs ams <->
  (exists am, am ∈ ams /\ queryMatchersMap qs !! m_name am = Some m /\ m_type m <> MatchEqual) \/
  (exists am, am ∈ ams /\ m = resolve am (queryMatchersMap qs !! m_name am)) \/
  ((m_name m ∉ (m_name <$> ams)) /\ queryMatchersMap qs !! m_name m = Some m).
Proof.
  intros Hnd. unfold combineLabelMatchers.
  destruct (foldl _ _ _) as [ms' qmap'] eqn:E.
  destruct (foldl_combine _ _ _ _ _ Hnd E) as (Hk & Ha & Hm).
  rewrite elem_of_app, Hm, list_elem_of_fmap.
  assert ((exists y, m = y.2 /\ y ∈ map_range qmap') <-> exists k, qmap' !! k = Some m) as ->.
  { split; [intros ([k m'] & -> & Hin)|intros [k Hin]].
    - exists k. by apply elem_of_map_range.
    - exists (k, m). split; [done|]. by apply elem_of_map_range. }
  assert ((exists k, qmap' !! k = Some m) <->
    (exists am, am ∈ ams /\ m = resolve am (queryMatchersMap qs !! m_name am)) \/
    ((m_name m ∉ (m_name <$> ams)) /\ queryMatchersMap qs !! m_name m = Some m)) as ->; [|set_solver].
  split.
  - intros [k Ek]. destruct (decide (k ∈ m_name <$> ams)) as [Hin|Hin].
    + apply list_elem_of_fmap in Hin as (am & -> & Hin). rewrite Ha in Ek by done. naive_solver.
    + rewrite Hk in Ek by done. destruct (queryMatchersMap_name _ _ _ Ek) as [<- _]. auto.
  - intros [(am & Hin & ->)|[Hni E']]; [exists (m_name am)|exists (m_name m)].
    + by apply Ha.
    + by rewrite Hk.
Qed.

(** Enforcement: whatever the query's matchers are, the combined matchers
    accept only label sets that the authorization matchers accept. *)
Lemma combine_sound qs ams ls : NoDup (m_name <$> ams) ->
  satisfies (combineLabelMatchers qs ams) ls -> satisfies ams ls.
Proof.
  unfold satisfies. rewrite !Forall_forall. intros Hnd Hs am Hin.
  specialize (Hs (resolve am (queryMatchersMap qs !! m_name am))).
  rewrite elem_of_combine in Hs by done. specialize (Hs ltac:(right; left; eauto)).
  unfold resolve in Hs. destruct (queryMatchersMap qs !! m_name am) as [qm|] eqn:E; [|done].
  destruct (bool_decide (m_type qm = MatchEqual)) eqn:Et; [|done]. simpl in Hs.
  destruct (Matches am (m_value qm)) eqn:Em; [|done].
  apply queryMatchersMap_name in E as [Hn _]. apply bool_decide_eq_true in Et.
  unfold Matches in Hs at 1. rewrite Et, bool_decide_eq_true, Hn in Hs. by rewrite Hs.
Qed.

(** Transparency: when no equality of the query is refused, nothing of the
    query is lost. *)
Lemma combine_complete qs ams ls :
  NoDup (m_name <$> qs) -> NoDup (m_name <$> ams) ->
  (forall qm am, qm ∈ qs -> am ∈ ams -> m_name qm = m_name am -> m_type qm = MatchEqual ->
     Matches am (m_value qm) = true) ->
  satisfies (combineLabelMatchers qs ams) ls <-> satisfies qs ls /\ satisfies ams ls.
Proof.
  intros Hq Ha Hok. split.
  - intros Hs. split; [|by eapply combine_sound].
    unfold satisfies in *. rewrite Forall_forall in *. intros qm Hin. apply Hs.
    apply elem_of_combine; [done|]. pose proof (queryMatchersMap_nodup _ _ Hq Hin) as E.
    destruct (decide (m_name qm ∈ m_name <$> ams)) as [Hn|Hn]; [|by auto].
    apply list_elem_of_fmap in Hn as (am & Hn & Ham).
    destruct (decide (m_type qm = MatchEqual)) as [Ht|Ht].
    + right. left. exists am. split; [done|]. rewrite <-Hn, E. unfold resolve.
      by rewrite (bool_decide_eq_true_2 _ Ht), (Hok qm am).
    + left. exists am. by rewrite <-Hn.
  - intros [Hsq Hsa]. unfold satisfies in *. rewrite Forall_forall in *. intros m Hin.
    apply elem_of_combine in Hin; [|done].
    destruct Hin as [(am & _ & E & _)|[(am & Hin & ->)|[_ E]]].
    + apply queryMatchersMap_name in E as [_ ?]. by apply Hsq.
    + unfold resolve. destruct (queryMatchersMap qs !! m_name am) as [qm|] eqn:E; [|by apply Hsa].
      apply queryMatchersMap_name in E as [_ ?]. destruct (_ && _); [by apply Hsq|by apply Hsa].
    + apply queryMatchersMap_name in E as [_ ?]. by apply Hsq.
Qed.
End combine.

(** ** The enforced request *)

Section enforced.
Context `{LogqlEnv} `{RegexEngine} `{MapRange} `{Mime}.
Context (ParseExpr : string -> fallible (NumberMemory * Expr)).

Lemma initAuthzMatchers_ok lm lm' : initAuthzMatchers lm = Ok lm' -> lm' = lm.
Proof.
  unfold initAuthzMatchers. rewrite traverse_ok. induction 1 as [|m m' lm lm' E _ IH]; [done|].
  apply wrap_err_ok, NewMatcher_ok in E. subst. by destruct m.
Qed.

(** What the enforcer may make of a stream selector of the caller: a selector
    that implies [lm], of the matchers of the caller and of [lm] only. *)
Definition enforced_stream (lm : list Matcher) (s s' : StreamMatcherExpr) : Prop :=
  (forall ls, satisfies (matchers s') ls -> satisfies lm ls) /\
  (forall m, m ∈ matchers s' -> m ∈ matchers s \/ m ∈ lm).

(** The query [q] that is sent for the caller's query [orig]: the selector [lm] for
    an empty one; otherwise the text of the tree the parser makes of [orig], changed
    in nothing but its stream selectors, each of which is enforced. *)
Definition enforced_query (lm : list Matcher) (orig q : string) : Prop :=
  (orig = "" /\ exists mem : NumberMemory, q = Expr_String (ESelector (SelStream (mkStream lm)))) \/
  (orig <> "" /\ exists (mem : NumberMemory) e f,
     ParseExpr orig = Return (Ok (mem, e)) /\ q = Expr_String (map_nodes f id e) /\
     forall s, s ∈ streams e -> enforced_stream lm s (f s)).

Definition enforce_stream (lm : list Matcher) (s : StreamMatcherExpr) : StreamMatcherExpr :=
  Stream_SetMatchers s (combineLabelMatchers (Stream_Matchers s) lm).

Lemma Walk_and lm e :
  (Walk (and_visitor lm) e tt).1 = map_nodes (enforce_stream lm) id e.
Proof.
  change (and_visitor lm) with (node_visitor (enforce_stream lm) id (fun (st : unit) _ => st)).
  by rewrite Walk_nodes.
Qed.

Lemma Walk_or lm e :
  (Walk (or_visitor lm) e tt).1
  = map_nodes id (fun q => AppendPipelineMatchers q lm logicalOr) e.
Proof.
  assert (forall q, q_left (AppendPipelineMatchers q lm logicalOr) = q_left q) as Hq
    by by destruct lm.
  change (or_visitor lm) with
    (node_visitor id (fun q => AppendPipelineMatchers q lm logicalOr) (fun (st : unit) _ => st)).
  by rewrite Walk_nodes.
Qed.

Lemma enforce_stream_ok lm s : NoDup (m_name <$> lm) -> enforced_stream lm s (enforce_stream lm s).
Proof.
  intros Hnd. split; [intros ls; by apply combine_sound|]. intros m Hm.
  change (m ∈ combineLabelMatchers (matchers s) lm) in Hm.
  apply elem_of_combine in Hm as [(am & _ & E & _)|[(am & Hin & ->)|[_ E]]]; [| | |done].
  - left. by apply queryMatchersMap_name in E as [_ ?].
  - unfold resolve. destruct (queryMatchersMap _ !! m_name am) as [qm|] eqn:E; [|by right].
    destruct (_ && _); [|by right]. left. by apply queryMatchersMap_name in E as [_ ?].
  - left. by apply queryMatchersMap_name in E as [_ ?].
Qed.

(** The operator [or] applies to the [query] parameter only. *)
Definition conjunctive (mInfo : AuthzResponseData) (paramName : string) : Prop :=
  ad_matcherOp mInfo <> logicalOr \/ paramName <> queryParam.

Lemma enforceValuesOnLogQL_ok mInfo v p s :
  no_empty_values v -> NoDup (m_name <$> ad_matchers mInfo) -> conjunctive mInfo p ->
  enforceValuesOnLogQL ParseExpr mInfo v p = Return (Ok s) ->
  exists q, query_values s = values_set v p q /\
    enforced_query (ad_matchers mInfo) (values_get v p) q.
Proof.
  intros Hv Hnd Hc E. unfold enforceValuesOnLogQL in E. rewrite fallible_bind_ok in E.
  destruct E as (lm & Hlm & E). injection Hlm as Hlm%initAuthzMatchers_ok. subst lm.
  destruct (String.eqb_spec (values_get v p) "") as [Hp|Hp].
  - injection E as <-. eexists. rewrite query_values_Encode by auto with gateway. split; [done|].
    left. split; [done|]. by exists zero_memory.
  - rewrite fallible_bind_ok in E. destruct E as ([mem e] & Ep%wrap_fallible_ok & E).
    assert (String.eqb (ad_matcherOp mInfo) logicalOr && String.eqb p queryParam = false) as Ho.
    { apply andb_false_iff. rewrite !String.eqb_neq. apply Hc. }
    rewrite Ho in E. injection E as <-. eexists.
    rewrite query_values_Encode by auto with gateway. split; [done|].
    right. split; [done|]. exists mem, e, (enforce_stream (ad_matchers mInfo)). rewrite Walk_and.
    split_and!; [done|done|]. intros s' _. by apply enforce_stream_ok.
Qed.

(** The parameters other than [p] are as they were. *)
Definition others_kept (p : string) (v v' : Values) : Prop :=
  forall k, k <> p -> values_all v' k = values_all v k.

(** What the upstream gets for the request [r]: one query in the URL, enforced
    from the caller's first, and in the body of a POST one enforced from the first
    of the body's form, if that has one; nothing else is changed. *)
Definition request_enforced (lm : list Matcher) (p : string) (r r' : Request) : Prop :=
  (exists q, values_all (URL_Query r') p = [q] /\
     enforced_query lm (values_get (URL_Query r) p) q) /\
  others_kept p (URL_Query r) (URL_Query r') /\
  r_method r' = r_method r /\
  (r_method r <> "POST" -> r_body r' = r_body r) /\
  (r_method r = "POST" ->
     let form := (parsePostForm r).1 in
     exists body, r_body r' = Ok body /\ others_kept p form (query_values body) /\
       (values_all form p = [] /\ values_all (query_values body) p = [] \/
        exists q, values_all form p <> [] /\ values_all (query_values body) p = [q] /\
          enforced_query lm (values_get form p) q)).

Lemma values_all_set v k x : values_all (values_set v k x) k = [x].
Proof. unfold values_all, values_set. by rewrite lookup_insert_eq. Qed.

Lemma values_set_kept p v q : others_kept p v (values_set v p q).
Proof. intros k Hk. unfold values_all, values_set. by rewrite lookup_insert_ne by congruence. Qed.

(** The form is parsed after the URL was changed, which it does not depend on. *)
Lemma ParsePostForm_form q r form :
  ParsePostForm (set_rawQuery q r) = Ok form -> form = (parsePostForm r).1.
Proof.
  unfold ParsePostForm. change (parsePostForm (set_rawQuery q r)) with (parsePostForm r).
  destruct (parsePostForm r) as [v err]. destruct (first_err _ _); [done|]. by intros [= <-].
Qed.

Lemma enforceRequestLogQL_ok mInfo r r' :
  NoDup (m_name <$> ad_matchers mInfo) ->
  conjunctive mInfo (logQLParam (u_path (r_url r))) ->
  enforceRequestLogQL ParseExpr mInfo r = Return (Ok r') ->
  request_enforced (ad_matchers mInfo) (logQLParam (u_path (r_url r))) r r' /\
  u_path (r_url r') = u_path (r_url r) /\ r_ctx r' = r_ctx r.
Proof.
  intros Hnd Hc E. unfold enforceRequestLogQL in E. rewrite fallible_bind_ok in E.
  destruct E as (q & Eq & E). unfold enforceValues in Eq.
  apply enforceValuesOnLogQL_ok in Eq as (x & Hx & Henf); [|apply no_empty_query_values|done..].
  set (p := logQLParam (u_path (r_url r))) in *.
  assert (URL_Query (set_rawQuery q r) = values_set (URL_Query r) p x) as Hurl by exact Hx.
  destruct (String.eqb_spec (r_method (set_rawQuery q r)) "POST") as [Hm|Hm]; cbn [negb] in E.
  - rewrite fallible_bind_ok in E. destruct E as (form & Ef & E). injection Ef as Ef%wrap_err_ok.
    apply ParsePostForm_no_empty in Ef as Hform. apply ParsePostForm_form in Ef.
    rewrite fallible_bind_ok in E. destruct E as (body & Eb & E).
    injection E as <-. split_and!; try done; unfold request_enforced.
    change (URL_Query (set_header _ _)) with (URL_Query (set_rawQuery q r)). rewrite Hurl.
    split_and!; [exists x; by rewrite values_all_set|apply values_set_kept|done|done|].
    intros _. exists body. rewrite <- Ef. split; [done|].
    change (logQLParam (u_path (r_url (set_rawQuery q r)))) with p in Eb.
    destruct (Nat.ltb_spec 0 (length (values_all form p))) as [Hl|Hl].
    + apply enforceValuesOnLogQL_ok in Eb as (z & Hz & Hen); [|done..]. rewrite Hz.
      split; [apply values_set_kept|]. right. exists z. rewrite values_all_set.
      split_and!; [|done|done]. intros E0. rewrite E0 in Hl. simpl in Hl. lia.
    + injection Eb as <-. rewrite query_values_Encode by done. split; [done|]. left.
      assert (values_all form p = []) by (apply nil_length_inv; lia). done.
  - injection E as <-. split_and!; try done; unfold request_enforced. rewrite Hurl.
    split_and!; [exists x; by rewrite values_all_set|apply values_set_kept|done|done|done].
Qed.
End enforced.

(** ** Properties *)

Import TenantHeader.

Section properties.
Context `{LogqlEnv} `{RegexEngine} `{MapRange} `{Mime}.
Context (ParseExpr : string -> fallible (NumberMemory * Expr)).

Lemma enforcer_forwards r data mInfo :
  GetData (r_ctx r) = Some data -> data <> "" -> Unmarshal data = Ok mInfo ->
  NoDup (m_name <$> ad_matchers mInfo) ->
  conjunctive mInfo (logQLParam (u_path (r_url r))) ->
  rejects (@WithEnforceAuthorizationLabels _ _ _ _ ParseExpr) r 500 \/
  panics (@WithEnforceAuthorizationLabels _ _ _ _ ParseExpr) r \/
  exists r', forwards (@WithEnforceAuthorizationLabels _ _ _ _ ParseExpr) r r' /\
    request_enforced ParseExpr (ad_matchers mInfo) (logQLParam (u_path (r_url r))) r r' /\
    u_path (r_url r') = u_path (r_url r).
Proof.
  intros Hd Hne Hu Hnd Hc. unfold rejects, panics, forwards, WithEnforceAuthorizationLabels.
  rewrite Hd, (proj2 (String.eqb_neq data "") Hne), Hu.
  destruct (enforceRequestLogQL ParseExpr mInfo (map_ctx (with_matchers mInfo) r)) as [[r'|e]|msg] eqn:E.
  - right. right. exists r'. split; [done|]. apply enforceRequestLogQL_ok in E; [|done..].
    naive_solver.
  - left. by eexists.
  - right. left. by eexists.
Qed.

(** C1: tenant isolation of the logs API.  For a request whose header names
    the valid tenants [ts], the chain of the header middleware, the tenant
    label and the label enforcer either answers 500, panics in the parser before
    anything is sent, or passes on a request with exactly one query in the URL, and
    at most one in the body of a POST.  Each of them is the text of the tree that
    the parser makes of the caller's own query at that place, changed only in its
    stream selectors, every one of which then implies the tenant matcher (an
    empty query becomes the selector of that matcher alone); the matcher
    accepts the tenants [ts] and no other value.  The other parameters, the method
    and the path are the caller's. *)
Theorem logs_tenant_isolation (h lbl : string) (r : Request) :
  let ts := collect_tenants (header_values (r_header r) h) in
  lbl <> "" -> ascii_only lbl = true -> valid_tenants ts ->
  exists m, m_name m = lbl /\ (forall v, Matches m v = true <-> v ∈ ts) /\
  forall S, exists mw, @WithTenantLabel S lbl = Return mw /\
    let full := chain [WithTenantFromHeader h; mw; WithEnforceAuthorizationLabels ParseExpr] in
    (exists msg, forall next, full next r = PrometheusAPIError msg 500) \/
    (exists msg, forall next, full next r = panic msg) \/
    (exists r', (forall next, full next r = next r') /\
       request_enforced ParseExpr [m] (logQLParam (u_path (r_url r))) r r' /\
       u_path (r_url r') = u_path (r_url r)).
Proof.
  intros ts Hne Hl Hts. exists (tenant_matcher lbl ts).
  assert (ts <> []) as Hn by (destruct Hts as ([Hpos _] & _); by destruct ts; simpl in *; [lia|]).
  assert (Forall valid_tenant ts) as Hv by by destruct Hts as (_ & ? & _).
  split_and!; [by unfold tenant_matcher; destruct ts as [|? [|? ?]]
              |intros; by apply tenant_matcher_exact|].
  pose (r1 := map_ctx (with_tenant (Join ts "|")) r).
  destruct (tenant_label_forwards lbl ts r1) as (data & Hd & Hne' & Hmw); [done..|].
  pose (r2 := map_ctx (fun c => WithData c data) r1).
  intros S. destruct (Hmw S) as (mw & E & Hf). exists mw. split; [done|]. intros full.
  assert (forall next, full next r = WithEnforceAuthorizationLabels ParseExpr next r2) as Hfull.
  { intros next. unfold full. cbn [chain]. rewrite (proj1 (tenant_header_facts h r) Hts). apply Hf. }
  destruct (enforcer_forwards r2 data (mkAuthz [tenant_matcher lbl ts] ""))
    as [[msg Hr]|[[msg Hr]|(r' & Hr & He)]]; [done..|apply NoDup_singleton|by left| | |].
  - left. exists msg. intros next. by rewrite Hfull.
  - right. left. exists msg. intros next. by rewrite Hfull.
  - right. right. exists r'. split; [|exact He]. intros next. by rewrite Hfull.
Qed.

End properties.

Section more_properties.
Context `{LogqlEnv} `{RegexEngine}.

(** Enforcement is transparent for queries within their rights.  When the
    names of the query's and of the authorization matchers are distinct and no
    equality of the query is refused by an authorization matcher, the combined
    matchers select exactly the streams that both select. *)
Theorem combine_exact `{MapRange} (queryMatchers authzMatchers : list Matcher) (ls : gmap string string) :
  NoDup (m_name <$> queryMatchers) -> NoDup (m_name <$> authzMatchers) ->
  (forall qm am, qm ∈ queryMatchers -> am ∈ authzMatchers -> m_name qm = m_name am ->
     m_type qm = MatchEqual -> Matches am (m_value qm) = true) ->
  satisfies (combineLabelMatchers queryMatchers authzMatchers) ls <->
  satisfies queryMatchers ls /\ satisfies authzMatchers ls.
Proof. apply combine_complete. Qed.

(** The disjunctive form.  With the operator [or] the stream selectors are
    left alone and every log query of the tree gets one label filter in front
    of its pipeline, built from the matchers. *)
Theorem or_enforcement (m : Matcher) (ms : list Matcher) (e : Expr) :
  let e' := (Walk (or_visitor (m :: ms)) e tt).1 in
  streams e' = streams e /\
  queries e' = (fun q => mkQuery (q_left q)
    (Some (StLabelFilter (mkLabelFilter (m_name m) (MatchType_String (m_type m)) ""
             (TypeText (m_value m)) false ""
             ((fun m => pipeline_matcher m true "or") <$> ms)) :: default [] (q_filter q))))
    <$> queries e.
Proof.
  intros e'. unfold e'. rewrite Walk_or. split.
  - rewrite streams_map by done. apply list_fmap_id.
  - rewrite queries_map. apply list_fmap_ext. by intros ? q _.
Qed.

(** Reading the rules of a tenant.  With authorization data the request is
    passed on exactly when every matcher accepts the URL parameter that has its
    name (an absent parameter counts as empty); otherwise the answer is 403. *)
Theorem rules_read_authorized (r : Request) (data : string) (mInfo : AuthzResponseData)
    (ms : list Matcher) :
  GetData (r_ctx r) = Some data -> data <> "" -> Unmarshal data = Ok mInfo ->
  initAuthzMatchers (ad_matchers mInfo) = Ok ms ->
  (Forall (fun m => Matches m (values_get (URL_Query r) (m_name m)) = true) ms /\
     forwards (@WithEnforceRulesAuthorizationLabels _ _) r r) \/
  (~ Forall (fun m => Matches m (values_get (URL_Query r) (m_name m)) = true) ms /\
     rejects (@WithEnforceRulesAuthorizationLabels _ _) r 403).
Proof.
  intros Hd Hne Hu Hi. unfold forwards, rejects, WithEnforceRulesAuthorizationLabels.
  rewrite Hd, (proj2 (String.eqb_neq data "") Hne), Hu, Hi. clear Hi.
  assert (unauthorized_param (URL_Query r) ms = None <->
    Forall (fun m => Matches m (values_get (URL_Query r) (m_name m)) = true) ms) as Hiff.
  { induction ms as [|m ms IH]; simpl; [by split|]. rewrite Forall_cons.
    destruct (Matches m (values_get (URL_Query r) (m_name m))); simpl; [|naive_solver].
    rewrite IH. naive_solver. }
  destruct (unauthorized_param (URL_Query r) ms) as [[name val]|] eqn:E.
  - right. split; [naive_solver|]. by eexists.
  - left. split; [by apply Hiff|done].
Qed.
End more_properties.

(** A parser that knows one query, for concrete runs. *)
Definition demo_query `{LogqlEnv} : Expr :=
  EMetric (newLogMetricExpr None
    (Some (newLogRangeQueryExpr (newLogQueryExpr (newStreamMatcherExpr
       [mkMatcher MatchEqual "app" "api"; mkMatcher MatchEqual "tenant_id" "team-z"]) None)
       "[5m]" None false)) "rate" "" None false [] None).

Definition demo_parse `{LogqlEnv} (s : string) : fallible (NumberMemory * Expr) :=
  if String.eqb s "up" then mret (zero_memory, demo_query) else from_result (Err "syntax error").

Lemma logs_tenant_isolation_witness :
  exists m, m_name m = "tenant_id" /\
  forall S, exists mw, @WithTenantLabel S "tenant_id" = Return mw /\
    let full := chain [WithTenantFromHeader "X-Tenant"; mw;
      @WithEnforceAuthorizationLabels simple_env literal_engine canonical_range plain_mime
        (@demo_parse simple_env) S] in
    (exists msg, forall next, full next two_tenants = PrometheusAPIError msg 500) \/
    (exists msg, forall next, full next two_tenants = panic msg) \/
    (exists r', (forall next, full next two_tenants = next r') /\
       @request_enforced simple_env literal_engine plain_mime (@demo_parse simple_env) [m] "query"
         two_tenants r').
Proof.
  destruct (@logs_tenant_isolation simple_env literal_engine canonical_range plain_mime
    (@demo_parse simple_env) "X-Tenant" "tenant_id" two_tenants) as (m & Hn & _ & Hm); [done|done| |].
  - apply valid_tenants_iff; [vm_compute; lia|]. split; [vm_compute; lia|vm_compute; reflexivity].
  - exists m. split; [done|]. intros S. destruct (Hm S) as (mw & E & Hor). exists mw.
    split; [done|]. destruct Hor as [Hl|[Hp|(r' & Hf & He & _)]]; [by left|by right; left|].
    right. right. exists r'. split; [exact Hf|exact He].
Defined.

(** What the enforcer sends for the query above: the refused equality is
    replaced, and the selector of the upstream request is the enforced one. *)
Example enforced_demo_query :
  (r ← @enforceRequestLogQL simple_env literal_engine canonical_range plain_mime
     (@demo_parse simple_env) (mkAuthz [mkMatcher MatchEqual "tenant_id" "team-a"] "")
     (set_rawQuery "query=up&limit=10" two_tenants);
   mret (values_all (URL_Query r) "query", values_all (URL_Query r) "limit"))
  = Return (Ok (["rate({app=" +:+ dquote +:+ "api" +:+ dquote +:+ ", tenant_id=" +:+ dquote +:+ "team-a"
         +:+ dquote +:+ "}[5m])"], ["10"])).
Proof. vm_compute. reflexivity. Qed.

Lemma combine_exact_witness :
  @satisfies literal_engine
    (@combineLabelMatchers literal_engine canonical_range
       [mkMatcher MatchEqual "app" "api"; mkMatcher MatchNotEqual "tenant_id" "b"]
       [mkMatcher MatchRegexp "tenant_id" "a|b"])
    {["app" := "api"; "tenant_id" := "a"]}.
Proof.
  apply (@combine_exact literal_engine canonical_range).
  - apply (bool_decide_unpack _). vm_compute. exact I.
  - apply (bool_decide_unpack _). vm_compute. exact I.
  - intros qm am Hq Ha Hn Ht. apply list_elem_of_singleton in Ha as ->.
    apply elem_of_cons in Hq as [->|Hq]; [discriminate Hn|].
    apply list_elem_of_singleton in Hq as ->. discriminate Ht.
  - split; apply (bool_decide_unpack _); vm_compute; exact I.
Defined.

Lemma rules_read_authorized_witness :
  forwards (@WithEnforceRulesAuthorizationLabels simple_env literal_engine)
    (set_rawQuery "kubernetes_namespace_name=ns-b"
       (map_ctx (with_data (encode (authz_json (mkAuthz
          [mkMatcher MatchRegexp "kubernetes_namespace_name" "ns-a|ns-b"] "")))) two_tenants))
    (set_rawQuery "kubernetes_namespace_name=ns-b"
       (map_ctx (with_data (encode (authz_json (mkAuthz
          [mkMatcher MatchRegexp "kubernetes_namespace_name" "ns-a|ns-b"] "")))) two_tenants)).
Proof.
  edestruct (@rules_read_authorized simple_env literal_engine
    (set_rawQuery "kubernetes_namespace_name=ns-b"
       (map_ctx (with_data (encode (authz_json (mkAuthz
          [mkMatcher MatchRegexp "kubernetes_namespace_name" "ns-a|ns-b"] "")))) two_tenants)))
    as [[_ Hf]|[Hn _]]; [reflexivity|discriminate|vm_compute; reflexivity|vm_compute; reflexivity|exact Hf|].
  exfalso. apply Hn. apply (bool_decide_unpack _). vm_compute. exact I.
Defined.

(** ** Where the text says something else than the tree

    [LogLabelFilterValue.String] writes the text of a label filter between quotes
    without escaping it, and the texts of [label_replace] likewise. *)

Definition range_count `{LogqlEnv} (ms : list Matcher) (filter_value : string) : Expr :=
  EMetric (newLogMetricExpr None
    (Some (newLogRangeQueryExpr (newLogQueryExpr (newStreamMatcherExpr ms)
       (Some [StLabelFilter (newLogLabelFilter "x" "=" "" (TypeText filter_value))]))
       "[1m]" None true)) "count_over_time" "" None false [] None).

Definition plain_options : BinaryOpOptions :=
  mkBinOpts false (mkVectorMatch false [] NoGroupingOption []) (mkVectorMatch false [] NoGroupingOption []).

(** The label filter text [y") [1m]) or count_over_time((VICTIM | x = "z], where
    VICTIM is the selector of the matchers [victim]. *)
Definition injected_text `{LogqlEnv} (victim : list Matcher) : string :=
  "y" +:+ dquote +:+ ") [1m]) or count_over_time((" +:+ Stream_String (mkStream victim)
  +:+ " | x = " +:+ dquote +:+ "z".

Definition either `{LogqlEnv} (l r : Expr) : Expr := newLogBinaryOpExpr "or" plain_options l r.

Lemma range_count_text `{LogqlEnv} `{NumberMemory} ms v :
  Expr_String (range_count ms v)
  = "count_over_time((" +:+ Stream_String (mkStream ms) +:+ " | x = " +:+ dquote +:+ v +:+ dquote
    +:+ ") [1m])".
Proof. cbn. unfold LogQuery_String. cbn. rewrite <-!str_app_assoc. reflexivity. Qed.

(** The text of one query can be that of two: the text of a label filter is printed
    without escaping its quotes, so it can close its query and open a second one. *)
Lemma injected_text_spec `{LogqlEnv} `{NumberMemory} own victim :
  Expr_String (range_count own (injected_text victim))
  = Expr_String (either (range_count own "y") (range_count victim "z")).
Proof.
  assert (forall l r, Expr_String (either l r) = Expr_String l +:+ " or " +:+ Expr_String r) as ->
    by reflexivity.
  rewrite !range_count_text. unfold injected_text. rewrite <-!str_app_assoc. reflexivity.
Qed.

(** Matchers of the caller on one label are lost.  A selector may hold
    several matchers on the same label; combining keeps only the last of them,
    so a stream the caller excluded is selected. *)
Theorem combine_drops_repeated_labels :
  let _ := literal_engine in let _ := canonical_range in
  let q := [mkMatcher MatchNotEqual "app" "a"; mkMatcher MatchNotEqual "app" "b"] in
  let lm := [mkMatcher MatchEqual "tenant" "t"] in
  let ls : gmap string string := {["app" := "a"; "tenant" := "t"]} in
  satisfies (combineLabelMatchers q lm) ls /\ ~ satisfies q ls.
Proof.
  intros eng mr q lm ls. split.
  - apply (bool_decide_unpack _). vm_compute. exact I.
  - apply (bool_decide_unpack _). vm_compute. exact I.
Qed.
