(* ===== verification/LogqlGateway.v ===== *)
(** * The logs enforcer with the parser it runs

    [LogsEnforcer] takes the parser as an argument; here it is [ParseExpr] of
    [LogqlParser] on a parser of the pool.  The theorem and the runs show what reaches the upstream: a
    label filter can open a second query, the numbers of label filters are those
    of the parser's stack, and long queries lose text. *)

From stdpp Require Import base tactics option list gmap strings pretty.
From Stdlib Require Import ZArith Lia.
From S2P Require Import Prelude GoStrings Labels Url Strconv Json Http Authz LogqlAst Scanner.
From S2P Require Import LogqlLexer LogqlActions LogqlParser LogqlRun LogqlSoundness LogsEnforcer.

(** [ParseExpr] with the parser [pool].  A run that does not end has no result in
    the enforcer's type; the texts below have no dash, for them every run ends. *)
Definition pooled_parse `{LogqlEnv} `{RegexEngine} `{PromText} (pool : parser) (input : string) :
    fallible (NumberMemory * Expr) :=
  match ParseExpr (parse_fuel input) pool input with
  | Some r => r
  | None => Panic "does not return"
  end.

(** C40: what is enforced is the tree, not the text that is sent.  Whatever the
    matchers of the caller's tenant are, and whatever streams [victim] of
    another tenant the caller wants, the value [injected_text victim] of a label
    filter does it: when the parser makes the query on the caller's [own] streams
    with that filter of the text in the URL, the request is passed on with a text that
    is also the text of a disjunction, of the enforced query and of a query on the
    streams [victim], which nothing was added to.  (The text of a label
    filter is printed without escaping its quotes.) *)
Theorem enforced_query_injection `{LogqlEnv} `{RegexEngine} `{MapRange} `{Mime}
    (parse : string -> fallible (NumberMemory * Expr)) (mInfo : AuthzResponseData)
    (own victim : list Matcher) (r : Request) (mem : NumberMemory) :
  let p := logQLParam (u_path (r_url r)) in
  initAuthzMatchers (ad_matchers mInfo) = Ok (ad_matchers mInfo) -> conjunctive mInfo p ->
  r_method r <> "POST" -> values_get (URL_Query r) p <> "" ->
  parse (values_get (URL_Query r) p)
    = Return (Ok (mem, range_count own (injected_text victim))) ->
  exists r', enforceRequestLogQL parse mInfo r = Return (Ok r') /\
    values_all (URL_Query r') p
    = [Expr_String (either (range_count (combineLabelMatchers own (ad_matchers mInfo)) "y")
                      (range_count victim "z"))].
Proof.
  intros p Hi Hc Hm Hne Hp.
  set (q := Expr_String (range_count (combineLabelMatchers own (ad_matchers mInfo))
                           (injected_text victim))).
  assert (enforceValuesOnLogQL parse mInfo (URL_Query r) p
          = Return (Ok (Encode (values_set (URL_Query r) p q)))) as E.
  { unfold enforceValuesOnLogQL. rewrite Hi, Hp. cbn [from_result mbind fallible_bind].
    rewrite (proj2 (String.eqb_neq _ _) Hne).
    assert (String.eqb (ad_matcherOp mInfo) logicalOr && String.eqb p queryParam = false) as Ho
      by (apply andb_false_iff; rewrite !String.eqb_neq; apply Hc).
    cbn [wrap_fallible wrap_err mbind fallible_bind]. by rewrite Ho, Walk_and. }
  unfold enforceRequestLogQL, enforceValues. fold p. rewrite E. cbn [mbind fallible_bind].
  change (r_method (set_rawQuery _ r)) with (r_method r). rewrite (proj2 (String.eqb_neq _ _) Hm).
  eexists. split; [reflexivity|]. unfold URL_Query at 1. cbn [set_rawQuery set_url r_url u_rawQuery].
  rewrite query_values_Encode by (apply no_empty_set, no_empty_query_values).
  rewrite values_all_set. f_equal. apply injected_text_spec.
Qed.

Section runs.
#[local] Existing Instances simple_env literal_engine simple_prom canonical_range plain_mime.

Definition parse_new : string -> fallible (NumberMemory * Expr) := pooled_parse new_parser.

(** A query as the URL of a request holds it. *)
Definition query_request (q : string) : Request :=
  set_rawQuery (Encode (<["query" := [q]]> (∅ : Values))) two_tenants.

(** The queries the upstream gets for [q]. *)
Definition sent_queries (lm : list Matcher) (q : string) : fallible (list string) :=
  r ← enforceRequestLogQL parse_new (mkAuthz lm "") (query_request q);
  mret (values_all (URL_Query r) "query").

Definition of_mine : list Matcher := [mkMatcher MatchEqual "tenant" "mine"].

(** The stream selectors of a text, as the parser reads it. *)
Definition read_streams (q : string) : option (list (list Matcher)) :=
  match parse_new q with
  | Return (Ok (_, e)) => Some (matchers <$> streams e)
  | _ => None
  end.

(** A text read and printed. *)
Definition reprinted (q : string) : option string :=
  match parse_new q with
  | Return (Ok (mem, e)) => let _ : NumberMemory := mem in Some (Expr_String e)
  | _ => None
  end.

(** The caller's text: the value of its label filter is
    [y") [1m]) or count_over_time(({tenant="victim"} | x = "z] in back quotes. *)
Definition of_victim : list Matcher := [mkMatcher MatchEqual "tenant" "victim"].
Definition of_app : list Matcher := [mkMatcher MatchEqual "app" "a"].

Definition injecting_query : string :=
  "count_over_time(({app=`a`} | x = `" +:+ injected_text of_victim +:+ "`) [1m])".

Definition tree_of (m : fallible (NumberMemory * Expr)) : option Expr :=
  match m with Return (Ok (_, e)) => Some e | _ => None end.

Lemma tree_of_inv m e : tree_of m = Some e -> exists mem, m = Return (Ok (mem, e)).
Proof. destruct m as [[[mem e']|]|]; try done. intros [= ->]. by exists mem. Qed.

(** What the upstream reads, when it has the parser of the gateway. *)
Lemma enforced_query_injection_witness :
  exists q, sent_queries of_mine injecting_query = Return (Ok [q]) /\
    read_streams q = Some [of_app ++ of_mine; of_victim].
Proof.
  destruct (tree_of_inv (parse_new injecting_query) (range_count of_app (injected_text of_victim)))
    as [mem Hp];
    [vm_cast_no_check (@eq_refl (option Expr) (Some (range_count of_app (injected_text of_victim))))|].
  assert (values_get (URL_Query (query_request injecting_query)) "query" = injecting_query) as Hv
    by (vm_compute; reflexivity).
  destruct (enforced_query_injection parse_new (mkAuthz of_mine "") of_app of_victim
              (query_request injecting_query) mem) as (r' & E & Hq).
  - reflexivity.
  - left. discriminate.
  - discriminate.
  - change (values_get (URL_Query (query_request injecting_query)) "query" <> ""). rewrite Hv.
    discriminate.
  - change (parse_new (values_get (URL_Query (query_request injecting_query)) "query")
      = Return (Ok (mem, range_count of_app (injected_text of_victim)))).
    by rewrite Hv.
  - exists (Expr_String (either (range_count (combineLabelMatchers of_app of_mine) "y")
              (range_count of_victim "z"))).
    split; [unfold sent_queries; rewrite E; cbn [mbind fallible_bind];
            exact (f_equal (fun l => Return (Ok l)) Hq)|vm_compute; reflexivity].
Defined.

(** ** Numbers

    A label filter keeps a pointer to the slot of the parser's stack its number
    was in.  The slot is used again: a later filter of the query changes the number
    of an earlier one, and so does the next query on the same parser. *)

Example number_overwritten :
  sent_queries of_mine "{app=`a`} | x > 5 and y < 6"
  = Return (Ok ["{app=" +:+ dquote +:+ "a" +:+ dquote +:+ ", tenant=" +:+ dquote +:+ "mine"
                +:+ dquote +:+ "} | x > 0 and y < 6"]).
Proof. vm_compute. reflexivity. Qed.

(** The text of the tree of [q1], printed after [q2] was parsed by the parser that
    was put back. *)
Definition printed_after (q1 q2 : string) : option (string * string) :=
  match Parse (parse_fuel q1) new_parser q1 with
  | Ret 0 st =>
      match p_expr st, Parse (parse_fuel q2) (put_back st) q2 with
      | Some e, Ret 0 st2 =>
          Some (let _ : NumberMemory := stack_memory st in Expr_String e,
                let _ : NumberMemory := stack_memory st2 in Expr_String e)
      | _, _ => None
      end
  | _ => None
  end.

Example number_of_another_request :
  printed_after "{app=~`a`} | x > 5" "{app=~`b`} | y > 7"
  = Some ("{app=~" +:+ dquote +:+ "a" +:+ dquote +:+ "} | x > 5",
          "{app=~" +:+ dquote +:+ "a" +:+ dquote +:+ "} | x > 7").
Proof. vm_compute. reflexivity. Qed.

(** ** Long texts

    To see whether a name is applied like a function, [Lex] reads on in a copy of
    the lexer, whose reader it shares: what the copy reads from it is lost.  The
    buffer holds 1024 bytes, so the filter of this query is not seen. *)

Definition long_query (spaces : nat) : string :=
  "{min=`1`}" +:+ Nat.iter spaces (fun s => " " +:+ s) "!= `secret`".

Example long_query_truncated :
  reprinted (long_query 1000) = Some ("{min=" +:+ dquote +:+ "1" +:+ dquote +:+ "} != "
                                      +:+ dquote +:+ "secret" +:+ dquote) /\
  reprinted (long_query 1100) = Some ("{min=" +:+ dquote +:+ "1" +:+ dquote +:+ "}").
Proof. split; vm_compute; reflexivity. Qed.
End runs.
