(* ===== verification/MetricsEnforcer.v ===== *)
(** * Enforcing the tenant on the metrics API

    [api/metrics/v1/labels_enforcer.go] and [alertmanager_enforcer.go].  The
    PromQL parser, prom-label-proxy's [PromQLEnforcer] and the Alertmanager client
    are not part of the repository: they are the classes below. *)

From stdpp Require Import base tactics option list gmap strings pretty.
From Stdlib Require Import ZArith Lia Ascii.
From S2P Require Import Prelude GoStrings Labels Url Strconv Json Http Tenant Authz.

(** ** PromQL

    [selectors e] are the matcher lists of the vector selectors of [e].
    [NewPromQLEnforcer(false, ms...)] keeps the matchers by name;
    [EnforceNode] visits every selector of an expression and [EnforceMatchers]
    one matcher list, and each leaves every enforced matcher in it. *)

Class PromQL := {
  promexpr : Type;
  PromParse : string -> result promexpr;
  PromString : promexpr -> string;
  selectors : promexpr -> list (list Matcher);
  EnforceNode : list Matcher -> promexpr -> result promexpr;
  EnforceMatchers : list Matcher -> list Matcher -> result (list Matcher);
  EnforceNode_enforces : forall ms e e', NoDup (m_name <$> ms) -> EnforceNode ms e = Ok e' ->
    Forall (fun sel => ms ⊆ sel) (selectors e');
  EnforceMatchers_enforces : forall ms sel sel', NoDup (m_name <$> ms) ->
    EnforceMatchers ms sel = Ok sel' -> ms ⊆ sel'
}.

(** An instance for concrete runs: an expression is one selector, written as an
    equality [name=value]. *)
Definition toy_enforce (ms sel : list Matcher) : list Matcher :=
  filter (fun m => m_name m ∉ m_name <$> ms) sel ++ ms.

Lemma toy_enforce_sub ms sel : ms ⊆ toy_enforce ms sel.
Proof. intros m Hm. apply elem_of_app. by right. Qed.

Definition toy_parse (s : string) : result (list Matcher) :=
  match Split "=" s with
  | [n; v] => Ok [mkMatcher MatchEqual n v]
  | _ => Err "syntax error"
  end.

Program Definition toy_promql : PromQL := {|
  promexpr := list Matcher;
  PromParse := toy_parse;
  PromString := fun ms => "{" +:+ Join (@Matcher_String simple_printer <$> ms) "," +:+ "}";
  selectors := fun e => [e];
  EnforceNode := fun ms e => Ok (toy_enforce ms e);
  EnforceMatchers := fun ms sel => Ok (toy_enforce ms sel)
|}.
Next Obligation. intros; simplify_eq/=. repeat constructor. apply toy_enforce_sub. Qed.
Next Obligation. intros; simplify_eq/=. apply toy_enforce_sub. Qed.

Section metrics.
Context `{PromQL} `{MatcherPrinter} `{Mime}.

Definition matchersToString (ms : list Matcher) : string :=
  "{" +:+ Join (Matcher_String <$> ms) "," +:+ "}".

Definition metricSelectorParam (path : string) : string :=
  if HasSuffix path "/series" || HasSuffix path "/labels" || HasSuffix path "/values"
     || HasSuffix path "/rules" || HasSuffix path "/federate"
  then "match[]" else "query".

(** One value of the parameter: parsed, enforced and printed again. *)
Definition enforce_value (ms : list Matcher) (rawMatcher : string) : result string :=
  expr ← wrap_err "parse expr error" (PromParse rawMatcher);
  expr ← wrap_err "enforce node error" (EnforceNode ms expr);
  Ok (PromString expr).

(** [enforceQueryValues] with the enforcer of [ms]; the flag it also returns is
    [true] whenever it does not fail. *)
Definition enforceQueryValues (ms : list Matcher) (paramName : string) (requestParams : Values) :
    result (string * bool) :=
  if (length (values_all requestParams paramName) =? 0)%nat then
    enforcedMatchers ← wrap_err "enforce matchers error" (EnforceMatchers ms []);
    Ok (Encode (values_set requestParams paramName (matchersToString enforcedMatchers)), true)
  else
    vs ← traverse (enforce_value ms) (values_all requestParams paramName);
    Ok (Encode (<[paramName := vs]> requestParams), true).

(** What [enforceRequestQueryLabels] does: it writes an error and returns
    [false], or leaves the request changed and returns [true]. *)
Inductive enforcement :=
  | Refused (msg : string) (code : Z)
  | Enforced (r : Request).

Definition restore_body (body : string) (r : Request) : Request :=
  let r := set_body body r in
  set_header (header_set (r_header r) "Content-Length" (Itoa (Z.of_nat (String.length body)))) r.

Definition enforce_url (ms : list Matcher) (paramName : string) (r : Request) : enforcement :=
  match enforceQueryValues ms paramName (URL_Query r) with
  | Err e => Refused ("could not enforce labels: " +:+ e) 400
  | Ok (q, foundQuery) =>
      if foundQuery then Enforced (set_rawQuery q r) else Refused "no query found" 400
  end.

Definition enforceRequestQueryLabels (ms : list Matcher) (paramName : string) (r : Request) :
    enforcement :=
  if String.eqb (r_method r) "POST" then
    match ParsePostForm r with
    | Err e => Refused ("could not parse form: " +:+ e) 500
    | Ok postForm =>
        let bodyHasParam := (0 <? length (values_all postForm paramName))%nat in
        let urlHasParam := (0 <? length (values_all (URL_Query r) paramName))%nat in
        let r := if negb bodyHasParam && urlHasParam then restore_body (Encode postForm) r else r in
        if bodyHasParam || negb urlHasParam then
          let bodyParams :=
            if String.eqb paramName "match[]"
            then <[paramName := values_all postForm paramName ++ values_all (URL_Query r) paramName]>
                   postForm
            else postForm in
          match enforceQueryValues ms paramName bodyParams with
          | Err e => Refused ("could not enforce labels: " +:+ e) 400
          | Ok (q, foundForm) =>
              let r := restore_body q r in
              let r := set_header (header_set (r_header r) "Content-Type"
                                     "application/x-www-form-urlencoded") r in
              let r := set_rawQuery (Encode (values_del (URL_Query r) paramName)) r in
              if foundForm then Enforced r else Refused "no query found" 400
          end
        else enforce_url ms paramName r
    end
  else enforce_url ms paramName r.

(** [WithEnforceTenancyOnQuery]. *)
Definition WithEnforceTenancyOnQuery (tenantLabel paramName : string) {S} (next : Handler S) :
    Handler S := fun r =>
  match GetTenant (r_ctx r) with
  | None => PrometheusAPIError "error finding tenant" 500
  | Some tenant =>
      match enforceRequestQueryLabels [mkMatcher MatchEqual tenantLabel tenant] paramName r with
      | Refused msg code => PrometheusAPIError msg code
      | Enforced r => next r
      end
  end.

(** [WithEnforceAuthorizationLabels]. *)
Definition WithEnforceAuthorizationLabels {S} (next : Handler S) : Handler S := fun r =>
  match GetData (r_ctx r) with
  | None => PrometheusAPIError "error finding authorization label matcher" 500
  | Some data =>
      if String.eqb data "" then next r
      else
        match Unmarshal data with
        | Err _ => PrometheusAPIError "error parsing authorization label matcher" 500
        | Ok doc =>
            match enforceRequestQueryLabels (ad_matchers doc)
                    (metricSelectorParam (u_path (r_url r))) r with
            | Refused msg code => PrometheusAPIError msg code
            | Enforced r => next r
            end
        end
  end.
End metrics.

(** ** Alertmanager

    [models.Matcher] has pointer fields; a nil matcher in a list is [None]. *)

Record AMMatcher := mkAM {
  am_Name : option string;
  am_Value : option string;
  am_IsRegex : option bool;
  am_IsEqual : option bool
}.

Definition nil_pointer : string := "invalid memory address or nil pointer dereference".

(** [amlabels.ParseMatcher] (only the name of its result is used), the JSON form
    of a silence, and [GetSilence] of the Alertmanager client.  [sil_rest] stands
    for the fields of a silence the gateway does not touch. *)
Class Alertmanager := {
  sil_rest : Type;
  ParseMatcherName : string -> result string;
  DecodeSilence : string -> result (string * list (option AMMatcher) * sil_rest);
  EncodeSilence : string * list (option AMMatcher) * sil_rest -> result string
}.

Inductive silence_reply :=
  | GetSilenceNotFound
  | GetSilenceError (e : string)
  | GetSilenceOK (ms : list (option AMMatcher)).

Section alertmanager.
Context `{Alertmanager} `{MatcherPrinter}.

(** The loop over the filters: [None] when one of them does not parse. *)
Fixpoint keep_filters (label : string) (filters modified : list string) : option (list string) :=
  match filters with
  | [] => Some modified
  | filter :: filters =>
      match ParseMatcherName filter with
      | Err _ => None
      | Ok name =>
          if String.eqb name label then keep_filters label filters modified
          else keep_filters label filters (modified ++ [filter])
      end
  end.

(** [WithEnforceTenancyOnFilter]; the handler returns without an answer when a
    filter does not parse. *)
Definition WithEnforceTenancyOnFilter (label : string) {S} (next : Handler S) : Handler S := fun r =>
  match GetTenant (r_ctx r) with
  | None => PrometheusAPIError "error finding tenant" 500
  | Some tenant =>
      let matcherStr := Matcher_String (mkMatcher MatchEqual label tenant) in
      let q := URL_Query r in
      match keep_filters label (values_all q "filter") [matcherStr] with
      | None => mret tt
      | Some modified =>
          let q := values_del (<["filter" := modified]> q) label in
          next (set_rawQuery (Encode q) r)
      end
  end.

(** The loop over the matchers of a silence; a nil matcher panics. *)
Fixpoint keep_matchers (label : string) (ms : list (option AMMatcher)) :
    flow (list (option AMMatcher)) :=
  match ms with
  | [] => Return []
  | None :: _ => Panic nil_pointer
  | Some m :: ms =>
      match keep_matchers label ms with
      | Panic msg => Panic msg
      | Return l => if bool_decide (am_Name m = Some label) then Return l else Return (Some m :: l)
      end
  end.

(** [WithEnforceTenancyOnSilenceMatchers]. *)
Definition WithEnforceTenancyOnSilenceMatchers (label : string) {S} (next : Handler S) :
    Handler S := fun r =>
  match GetTenant (r_ctx r) with
  | None => PrometheusAPIError "error finding tenant" 500
  | Some tenant =>
      if negb (String.eqb (r_method r) "POST") then
        PrometheusAPIError "error method not allowed" 405
      else
        match (body ← r_body r; DecodeSilence body) with
        | Err e => PrometheusAPIError ("bad request: can't decode: " +:+ e) 400
        | Ok (ID, ms, rest) =>
            if negb (String.eqb ID "") then
              PrometheusAPIError "updates to silence by ID not allowed" 422
            else
              match keep_matchers label ms with
              | Panic msg => panic msg
              | Return kept =>
                  let modified := Some (mkAM (Some label) (Some tenant) (Some false) (Some true)) :: kept in
                  if (length modified <? 2)%nat then
                    PrometheusAPIError "need at least one matcher, got none" 400
                  else
                    match EncodeSilence (ID, modified, rest) with
                    | Err e => PrometheusAPIError ("can't encode: " +:+ e) 500
                    | Ok buf =>
                        let r := set_rawQuery "" (set_body buf r) in
                        next (set_header (<["Content-Length" := [Itoa (Z.of_nat (String.length buf))]]>
                                            (r_header r)) r)
                    end
              end
        end
  end.

(** [hasMatcherForLabel]; every pointer it follows may be nil. *)
Fixpoint hasMatcherForLabel (ms : list (option AMMatcher)) (name value : string) : flow bool :=
  match ms with
  | [] => Return false
  | None :: _ => Panic nil_pointer
  | Some m :: ms =>
      match am_Name m with
      | None => Panic nil_pointer
      | Some n =>
          if negb (String.eqb n name) then hasMatcherForLabel ms name value
          else match am_IsRegex m with
            | None => Panic nil_pointer
            | Some true => hasMatcherForLabel ms name value
            | Some false =>
                match am_Value m with
                | None => Panic nil_pointer
                | Some v => if String.eqb v value then Return true
                            else hasMatcherForLabel ms name value
                end
            end
      end
  end.

(** [WithEnforceTenancyOnSilenceID]; [getSilenceByID] is the reply of the
    upstream Alertmanager. *)
Definition WithEnforceTenancyOnSilenceID (label : string)
    (getSilenceByID : string -> silence_reply) {S} (next : Handler S) : Handler S := fun r =>
  let silID := URLParam r "silenceID" in
  if String.eqb silID "" then PrometheusAPIError "bad request" 400
  else
    match GetTenant (r_ctx r) with
    | None => PrometheusAPIError "error finding tenant" 500
    | Some tenant =>
        match getSilenceByID silID with
        | GetSilenceNotFound => WriteHeader 404
        | GetSilenceError e => PrometheusAPIError ("proxy error: " +:+ e) 502
        | GetSilenceOK ms =>
            match hasMatcherForLabel ms label tenant with
            | Panic msg => panic msg
            | Return false => PrometheusAPIError "forbidden" 403
            | Return true => next (set_rawQuery "" r)
            end
        end
    end.
End alertmanager.

(** ** Enforced values *)

Section enforced.
Context `{PromQL} `{MatcherPrinter} `{Mime}.

(** A selector text in which every selector carries the matchers [ms]. *)
Definition enforced_selector (ms : list Matcher) (q : string) : Prop :=
  (exists e, q = PromString e /\ Forall (fun sel => ms ⊆ sel) (selectors e)) \/
  (exists sel, q = matchersToString sel /\ ms ⊆ sel).

Lemma enforce_value_ok ms raw q : NoDup (m_name <$> ms) ->
  enforce_value ms raw = Ok q -> enforced_selector ms q.
Proof.
  intros Hnd E. unfold enforce_value in E. rewrite bind_ok in E.
  destruct E as (e & _ & E). rewrite bind_ok in E. destruct E as (e' & Ee%wrap_err_ok & E).
  simplify_eq. left. exists e'. split; [done|]. by eapply EnforceNode_enforces.
Qed.

(** The parameter is never left empty, and every value of it is enforced. *)
Lemma enforceQueryValues_ok ms p v q found :
  NoDup (m_name <$> ms) -> no_empty_values (values_del v p) ->
  enforceQueryValues ms p v = Ok (q, found) ->
  found = true /\ values_all (query_values q) p <> [] /\
  Forall (enforced_selector ms) (values_all (query_values q) p).
Proof.
  intros Hnd Hv E. unfold enforceQueryValues in E.
  assert (forall xs, xs <> [] -> values_all (query_values (Encode (<[p := xs]> v))) p = xs) as Henc.
  { intros xs Hxs. rewrite <-insert_delete_eq, query_values_Encode by auto with gateway.
    unfold values_all. by rewrite lookup_insert_eq. }
  destruct (Nat.eqb_spec (length (values_all v p)) 0) as [Hl|Hl]; rewrite bind_ok in E.
  - destruct E as (sel & Es%wrap_err_ok & E). simplify_eq. split; [done|].
    unfold values_set. rewrite Henc by done. split; [done|].
    apply Forall_singleton. right. exists sel. split; [done|].
    by eapply EnforceMatchers_enforces.
  - destruct E as (vs & Ev%traverse_ok & E). simplify_eq. split; [done|].
    assert (vs <> []) as Hvs.
    { intros ->. apply Forall2_length in Ev. simpl in Ev. lia. }
    rewrite Henc by done. split; [done|].
    eapply (Forall2_Forall_r _ (fun raw q => enforce_value ms raw = Ok q)); [exact Ev|].
    intros a b. by apply enforce_value_ok.
Qed.

(** What the upstream reads: the values of the parameter in the URL, and in the
    body of a POST request. *)
Definition selectors_sent (p : string) (r : Request) : list string :=
  values_all (URL_Query r) p ++
  (if String.eqb (r_method r) "POST" then
     match r_body r with Ok b => values_all (query_values b) p | Err _ => [] end
   else []).

Lemma enforce_url_ok ms p r r' : NoDup (m_name <$> ms) ->
  enforce_url ms p r = Enforced r' ->
  values_all (URL_Query r') p <> [] /\
  Forall (enforced_selector ms) (values_all (URL_Query r') p) /\
  r_body r' = r_body r /\ r_method r' = r_method r.
Proof.
  intros Hnd E. unfold enforce_url in E.
  destruct (enforceQueryValues ms p (URL_Query r)) as [[q found]|] eqn:Eq; [|done].
  apply enforceQueryValues_ok in Eq as (-> & Hne & Hall);
    [|done|apply no_empty_del, no_empty_query_values].
  injection E as <-. unfold URL_Query. simpl. by split_and!.
Qed.

Lemma values_all_del (v : Values) k : values_all (values_del v k) k = [].
Proof. unfold values_all, values_del. by rewrite lookup_delete_eq. Qed.

Lemma values_del_insert (v : Values) k xs : values_del (<[k := xs]> v) k = values_del v k.
Proof. apply delete_insert_eq. Qed.

Lemma enforceRequestQueryLabels_ok ms p r r' : NoDup (m_name <$> ms) ->
  enforceRequestQueryLabels ms p r = Enforced r' ->
  selectors_sent p r' <> [] /\ Forall (enforced_selector ms) (selectors_sent p r') /\
  r_method r' = r_method r.
Proof.
  intros Hnd E. unfold enforceRequestQueryLabels in E. unfold selectors_sent.
  destruct (String.eqb_spec (r_method r) "POST") as [Hm|Hm]; cycle 1.
  { apply enforce_url_ok in E as (Hne & Hall & _ & Hm'); [|done]. rewrite Hm'.
    rewrite (proj2 (String.eqb_neq _ _) Hm), app_nil_r. done. }
  destruct (ParsePostForm r) as [form|] eqn:Ef; [|done].
  apply ParsePostForm_no_empty in Ef.
  destruct (_ || _) eqn:Ebr in E; cycle 1.
  - apply orb_false_iff in Ebr as [Hb Hu]. rewrite negb_false_iff in Hu.
    rewrite Hb, Hu in E. apply Nat.ltb_ge in Hb. simpl in E.
    apply enforce_url_ok in E as (Hne & Hall & Hbody & Hm'); [|done].
    rewrite Hbody, Hm'. simpl. rewrite Hm, query_values_Encode by done. simpl.
    assert (values_all form p = []) as -> by (apply nil_length_inv; lia).
    by rewrite app_nil_r.
  - set (r1 := if _ : bool then restore_body _ _ else r) in E.
    assert (r_method r1 = "POST" /\ u_rawQuery (r_url r1) = u_rawQuery (r_url r)) as [Hm1 Hq1].
    { unfold r1. by destruct (_ && _). }
    clearbody r1. set (bp := if String.eqb p "match[]" then _ else _) in E.
    assert (no_empty_values (values_del bp p)) as Hbp.
    { unfold bp. destruct (String.eqb p "match[]"); rewrite ?values_del_insert; auto with gateway. }
    destruct (enforceQueryValues ms p bp) as [[q found]|] eqn:Eq; [|done].
    apply enforceQueryValues_ok in Eq as (-> & Hne & Hall); [|done|done].
    injection E as <-. unfold URL_Query, restore_body.
    cbn [r_method r_url r_body set_rawQuery set_header set_url set_body u_rawQuery].
    rewrite Hm1. cbn [String.eqb Ascii.eqb Bool.eqb].
    rewrite query_values_Encode by apply no_empty_del, no_empty_query_values.
    rewrite values_all_del. done.
Qed.
End enforced.

(** ** Properties *)

Import TenantHeader.

(** C2: tenant isolation of the metrics API.  For a request whose header names
    the valid tenants [ts], the chain of the header middleware, the tenant label
    and the label enforcer either refuses the request or passes on one that
    carries at least one selector, and in which every selector of the URL and of
    a POST body holds the tenant matcher; the matcher accepts the tenants [ts]
    and no other value. *)
Theorem metrics_tenant_isolation `{RegexEngine} `{PromQL} `{MatcherPrinter} `{Mime}
    (h lbl : string) (r : Request) :
  let ts := collect_tenants (header_values (r_header r) h) in
  lbl <> "" -> ascii_only lbl = true -> valid_tenants ts ->
  exists m, m_name m = lbl /\ (forall v, Matches m v = true <-> v ∈ ts) /\
  forall S, exists mw, @WithTenantLabel S lbl = Return mw /\
    let full := chain [WithTenantFromHeader h; mw; WithEnforceAuthorizationLabels] in
    let p := metricSelectorParam (u_path (r_url r)) in
    (exists msg code, forall next, full next r = PrometheusAPIError msg code) \/
    (exists r', (forall next, full next r = next r') /\ r_method r' = r_method r /\
       selectors_sent p r' <> [] /\ Forall (enforced_selector [m]) (selectors_sent p r')).
Proof.
  intros ts Hne Hl Hts. exists (tenant_matcher lbl ts).
  assert (ts <> []) as Hn by (destruct Hts as ([Hpos _] & _); by destruct ts; simpl in *; [lia|]).
  assert (Forall valid_tenant ts) as Hv by by destruct Hts as (_ & ? & _).
  split_and!; [by unfold tenant_matcher; destruct ts as [|? [|? ?]]
              |intros; by apply tenant_matcher_exact|].
  pose (r1 := map_ctx (with_tenant (Join ts "|")) r).
  destruct (tenant_label_forwards lbl ts r1) as (data & Hd & Hne' & Hmw); [done..|].
  pose (r2 := map_ctx (fun c => WithData c data) r1).
  intros S. destruct (Hmw S) as (mw & E & Hf). exists mw. split; [done|]. intros full p.
  assert (forall next, full next r = WithEnforceAuthorizationLabels next r2) as Hfull.
  { intros next. unfold full. cbn [chain]. rewrite (proj1 (tenant_header_facts h r) Hts). apply Hf. }
  unfold WithEnforceAuthorizationLabels in Hfull. change (GetData (r_ctx r2)) with (Some data) in Hfull.
  cbv beta iota in Hfull.
  rewrite (proj2 (String.eqb_neq data "") Hne'), Hd in Hfull. cbn [ad_matchers] in Hfull.
  change (metricSelectorParam (u_path (r_url r2))) with p in Hfull.
  destruct (enforceRequestQueryLabels [tenant_matcher lbl ts] p r2) as [msg code|r'] eqn:Eq.
  - left. by exists msg, code.
  - right. exists r'. split; [done|].
    apply enforceRequestQueryLabels_ok in Eq as (? & ? & Hm); [|apply NoDup_singleton].
    by split_and!.
Qed.

Lemma metrics_tenant_isolation_witness :
  exists m, m_name m = "tenant_id" /\
  forall S, exists mw, @WithTenantLabel S "tenant_id" = Return mw /\
    let full := chain [WithTenantFromHeader "X-Tenant"; mw;
      @WithEnforceAuthorizationLabels toy_promql simple_printer plain_mime S] in
    (exists msg code, forall next, full next two_tenants = PrometheusAPIError msg code) \/
    (exists r', (forall next, full next two_tenants = next r') /\
       selectors_sent "query" r' <> [] /\
       Forall (@enforced_selector toy_promql simple_printer [m]) (selectors_sent "query" r')).
Proof.
  destruct (@metrics_tenant_isolation literal_engine toy_promql simple_printer plain_mime
    "X-Tenant" "tenant_id" two_tenants) as (m & Hn & _ & Hm); [done|done| |].
  - apply valid_tenants_iff; [vm_compute; lia|]. split; [vm_compute; lia|vm_compute; reflexivity].
  - exists m. split; [done|]. intros S. destruct (Hm S) as (mw & E & Hor). exists mw.
    split; [done|]. destruct Hor as [Hl|(r' & Hf & _ & Hs)]; [by left|].
    right. exists r'. split; [exact Hf|exact Hs].
Defined.

(** A POST request with selectors in the URL and in the body: both are merged
    into the body, enforced, and removed from the URL. *)
Example enforced_post :
  let r := mkReq "POST" (mkURL "" "" "/api/v1/series" "match[]=a%3Db&start=1")
             (header_add ∅ "Content-Type" "application/x-www-form-urlencoded")
             (Ok "match[]=c%3Dd&end=2") 0 None background ∅ [] in
  match @enforceRequestQueryLabels toy_promql simple_printer plain_mime
          [mkMatcher MatchEqual "t" "x"] "match[]" r with
  | Enforced r' => u_rawQuery (r_url r') = "start=1" /\
      (b ← r_body r'; Ok (values_all (query_values b) "match[]", values_all (query_values b) "end"))
      = Ok (["{c=" +:+ dquote +:+ "d" +:+ dquote +:+ ",t=" +:+ dquote +:+ "x" +:+ dquote +:+ "}";
             "{a=" +:+ dquote +:+ "b" +:+ dquote +:+ ",t=" +:+ dquote +:+ "x" +:+ dquote +:+ "}"], ["2"])
  | Refused _ _ => False
  end.
Proof. vm_compute. split; reflexivity. Qed.

Section alertmanager_properties.
Context `{Alertmanager} `{MatcherPrinter}.

Lemma keep_filters_spec label fs acc out :
  keep_filters label fs acc = Some out <->
  Forall (fun f => exists n, ParseMatcherName f = Ok n) fs /\
  out = acc ++ filter (fun f => ParseMatcherName f <> Ok label) fs.
Proof.
  revert acc. induction fs as [|f fs IH]; intros acc; simpl.
  - rewrite app_nil_r. split; [intros [= ->]; by split; [constructor|]|by intros [_ ->]].
  - rewrite Forall_cons. destruct (ParseMatcherName f) as [n|e] eqn:E; [|naive_solver].
    destruct (String.eqb_spec n label) as [->|Hn]; rewrite IH.
    + rewrite filter_cons_False by (rewrite E; naive_solver). naive_solver.
    + rewrite filter_cons_True by (rewrite E; congruence). rewrite <-app_assoc. naive_solver.
Qed.

(** The filters of an Alertmanager query.  When every filter of the URL
    parses, the upstream gets the tenant's equality as the first filter, then
    exactly the caller's filters on other labels, in order.  When one does not
    parse, the handler returns without calling the next one and without writing
    a response. *)
Theorem alertmanager_filters (label tenant : string) (r : Request) :
  let fs := values_all (URL_Query r) "filter" in
  GetTenant (r_ctx r) = Some tenant -> label <> "filter" ->
  (Forall (fun f => exists n, ParseMatcherName f = Ok n) fs /\
   exists r', forwards (@WithEnforceTenancyOnFilter _ _ label) r r' /\
     values_all (URL_Query r') "filter" =
       Matcher_String (mkMatcher MatchEqual label tenant) ::
       filter (fun f => ParseMatcherName f <> Ok label) fs /\
     values_all (URL_Query r') label = []) \/
  (~ Forall (fun f => exists n, ParseMatcherName f = Ok n) fs /\
   forall S (next : Handler S) c, WithEnforceTenancyOnFilter label next r c = (Return tt, c)).
Proof.
  intros fs Ht Hl. unfold forwards, WithEnforceTenancyOnFilter. rewrite Ht. fold fs.
  destruct (keep_filters label fs [Matcher_String (mkMatcher MatchEqual label tenant)])
    as [out|] eqn:E.
  - left. apply keep_filters_spec in E as [Hall ->]. split; [done|]. eexists. split; [reflexivity|].
    unfold URL_Query at 1 3. cbn [set_rawQuery set_url r_url u_rawQuery].
    rewrite query_values_Encode by (apply no_empty_del, no_empty_insert; [done|apply no_empty_query_values]).
    unfold values_all, values_del. rewrite lookup_delete_eq, lookup_delete_ne by done.
    by rewrite lookup_insert_eq.
  - right. split; [|done]. intros Hall.
    pose proof (proj2 (keep_filters_spec label fs
      [Matcher_String (mkMatcher MatchEqual label tenant)] _) (conj Hall eq_refl)) as E'.
    by rewrite E in E'.
Qed.

Lemma keep_matchers_spec label ms l :
  keep_matchers label ms = Return l ->
  Forall (fun m => is_Some m) l /\ Forall (fun m => m ∈ ms /\ (m ≫= am_Name) <> Some label) l.
Proof.
  revert l. induction ms as [|[m|] ms IH]; intros l E; simpl in E; simplify_eq; [by split|].
  destruct (keep_matchers label ms) as [l'|]; [|done]. destruct (IH l' eq_refl) as [H1 H2].
  assert (Forall (fun m0 => m0 ∈ Some m :: ms /\ (m0 ≫= am_Name) <> Some label) l').
  { eapply Forall_impl; [done|]. set_solver. }
  case_bool_decide; simplify_eq; [done|]. split; constructor; try done. split; [set_solver|done].
Qed.

(** C36: a silence that is created belongs to the tenant.  A request is only
    passed on when it is a POST without silence ID, and the body is then the
    encoding of the silence with the tenant's equality as the first matcher,
    followed by at least one matcher of the caller, none of them on the tenant
    label. *)
Theorem silence_creation (label tenant : string) (r r' : Request) :
  GetTenant (r_ctx r) = Some tenant ->
  forwards (@WithEnforceTenancyOnSilenceMatchers _ label) r r' ->
  r_method r = "POST" /\
  exists body ms kept rest buf,
    r_body r = Ok body /\ DecodeSilence body = Ok ("", ms, rest) /\
    EncodeSilence ("", Some (mkAM (Some label) (Some tenant) (Some false) (Some true)) :: kept, rest)
      = Ok buf /\
    r_body r' = Ok buf /\ r_contentLength r' = Z.of_nat (String.length buf) /\
    kept <> [] /\ Forall (fun m => m ∈ ms /\ (m ≫= am_Name) <> Some label) kept.
Proof.
  intros Ht Hf. unfold forwards, WithEnforceTenancyOnSilenceMatchers in Hf. rewrite Ht in Hf.
  destruct (String.eqb_spec (r_method r) "POST") as [Hm|Hm]; simpl in Hf;
    [|by apply api_error_not_next in Hf].
  split; [done|].
  destruct (r_body r) as [body|] eqn:Eb; simpl in Hf; [|by apply api_error_not_next in Hf].
  destruct (DecodeSilence body) as [[[ID ms] rest]|] eqn:Ed; simpl in Hf;
    [|by apply api_error_not_next in Hf].
  destruct (String.eqb_spec ID "") as [->|]; simpl in Hf; [|by apply api_error_not_next in Hf].
  destruct (keep_matchers label ms) as [kept|msg] eqn:Ek; [|by apply panic_not_next in Hf].
  destruct kept as [|k kept]; simpl in Hf; [by apply api_error_not_next in Hf|].
  destruct (EncodeSilence _) as [buf|] eqn:Ee; [|by apply api_error_not_next in Hf].
  apply next_inj in Hf. apply keep_matchers_spec in Ek as [_ Ek].
  exists body, ms, (k :: kept), rest, buf. rewrite <-Hf. by split_and!.
Qed.

Lemma hasMatcherForLabel_spec ms name value :
  hasMatcherForLabel ms name value = Return true ->
  exists m, Some m ∈ ms /\ am_Name m = Some name /\ am_IsRegex m = Some false /\
            am_Value m = Some value.
Proof.
  induction ms as [|[m|] ms IH]; simpl; [done| |done]. intros E.
  destruct m as [[n|] v re eq]; simpl in E; [|done].
  destruct (String.eqb_spec n name) as [->|Hn]; simpl in E; cycle 1.
  { destruct (IH E) as (m' & ? & ?). exists m'. set_solver. }
  destruct re as [[]|]; [| |done].
  { destruct (IH E) as (m' & ? & ?). exists m'. set_solver. }
  destruct v as [v|]; [|done]. destruct (String.eqb_spec v value) as [->|]; cycle 1.
  { destruct (IH E) as (m' & ? & ?). exists m'. set_solver. }
  eexists. split; [apply elem_of_cons; by left|]. done.
Qed.

(** Reading or expiring a silence by its ID.  The request is only passed on
    when the silence the Alertmanager holds under that ID has a matcher that is
    not a regular expression and names the tenant label with the tenant as its
    value; the query string is dropped. *)
Theorem silence_by_id (label tenant : string) (getSilenceByID : string -> silence_reply)
    (r r' : Request) :
  GetTenant (r_ctx r) = Some tenant ->
  forwards (@WithEnforceTenancyOnSilenceID label getSilenceByID) r r' ->
  r' = set_rawQuery "" r /\
  exists ms m, getSilenceByID (URLParam r "silenceID") = GetSilenceOK ms /\ Some m ∈ ms /\
    am_Name m = Some label /\ am_IsRegex m = Some false /\ am_Value m = Some tenant.
Proof.
  intros Ht Hf. unfold forwards, WithEnforceTenancyOnSilenceID in Hf. rewrite Ht in Hf.
  destruct (String.eqb _ _); [by apply api_error_not_next in Hf|].
  destruct (getSilenceByID _) as [|e|ms] eqn:Eg.
  - exfalso. specialize (Hf unit (fun _ => panic "")).
    by apply (f_equal (fun h => (h (mkConn fresh_writer tt)).1)) in Hf.
  - by apply api_error_not_next in Hf.
  - destruct (hasMatcherForLabel ms label tenant) as [[]|msg] eqn:Eh.
    + apply next_inj in Hf. split; [done|]. apply hasMatcherForLabel_spec in Eh as (m & ? & ?).
      by exists ms, m.
    + by apply api_error_not_next in Hf.
    + by apply panic_not_next in Hf.
Qed.

(** The check of a silence ignores negation.  A silence whose only matcher
    says that the tenant label differs from the tenant is taken for a silence of
    that tenant. *)
Theorem negated_silence_accepted (label tenant : string) :
  hasMatcherForLabel
    [Some (mkAM (Some label) (Some tenant) (Some false) (Some false))] label tenant = Return true.
Proof. simpl. by rewrite !String.eqb_refl. Qed.
End alertmanager_properties.

(** An Alertmanager for concrete runs: a filter is a name, a silence the name of
    its only matcher. *)
Definition toy_alertmanager : Alertmanager := {|
  sil_rest := unit;
  ParseMatcherName := fun f => if String.eqb f "" then Err "no name" else Ok f;
  DecodeSilence := fun s => Ok ("", [Some (mkAM (Some s) (Some "v") (Some false) (Some true))], tt);
  EncodeSilence := fun sil =>
    Ok (Join ((fun m => default "" (m ≫= am_Name)) <$> sil.1.2) ";")
|}.

Definition am_request : Request :=
  mkReq "POST" (mkURL "" "" "/api/v2/silences" "filter=app&filter=tenant&x=y") ∅ (Ok "app") 3 None
    (with_tenant "team-a" background) {["silenceID" := "42"]} [].

Lemma alertmanager_filters_witness :
  exists r', forwards (@WithEnforceTenancyOnFilter toy_alertmanager simple_printer "tenant")
               am_request r' /\
    length (values_all (URL_Query r') "filter") = 2%nat.
Proof.
  destruct (@alertmanager_filters toy_alertmanager simple_printer "tenant" "team-a" am_request)
    as [(_ & r' & Hf & Hv & _)|[Hn _]]; [reflexivity|done| |].
  - exists r'. split; [exact Hf|]. rewrite Hv. vm_compute. reflexivity.
  - exfalso. apply Hn. vm_compute. repeat constructor; by eexists.
Defined.

Lemma silence_creation_witness :
  exists r', forwards (@WithEnforceTenancyOnSilenceMatchers toy_alertmanager "tenant") am_request r' /\
    r_body r' = Ok "tenant;app".
Proof.
  eexists. split; [intros S next; reflexivity|].
  edestruct (@silence_creation toy_alertmanager "tenant" "team-a" am_request)
    as (_ & body & ms & kept & rest & buf & Hb & Hd & He & Hr & _); [reflexivity|intros S next; reflexivity|].
  reflexivity.
Defined.

Lemma silence_by_id_witness :
  exists ms m, GetSilenceOK [Some (mkAM (Some "tenant") (Some "team-a") (Some false) (Some true))]
    = GetSilenceOK ms /\ Some m ∈ ms /\ am_Value m = Some "team-a".
Proof.
  destruct (silence_by_id "tenant" "team-a"
    (fun _ => GetSilenceOK [Some (mkAM (Some "tenant") (Some "team-a") (Some false) (Some true))])
    am_request (set_rawQuery "" am_request)) as (_ & ms & m & E & Hin & _ & _ & Hv);
    [reflexivity|intros S next; reflexivity|].
  exists ms, m. done.
Defined.
