(* ===== verification/RateLimit.v ===== *)
(** * Rate limits: [ratelimit/http.go], [client.go] and [redis.go]

    [combine] selects the limiter of a request by tenant and path; the shared
    limiter asks an external service and, when it is told to refuse, answers with
    a [Retry-After] value that grows with every refusal.  Durations are [int64]
    nanoseconds with wrap-around, [Duration.Seconds] is a [float64]. *)

From stdpp Require Import base tactics option list gmap strings pretty.
From Stdlib Require Import ZArith Lia SpecFloat.
From S2P Require Import Prelude GoStrings Labels Url Strconv Http Tenant.

Local Open Scope Z_scope.

(** ** Machine integers and floats *)

Definition wrap64 (z : Z) : Z := (z + 2 ^ 63) mod 2 ^ 64 - 2 ^ 63.

Definition int64 (z : Z) : Prop := - 2 ^ 63 <= z < 2 ^ 63.

Lemma wrap64_id z : int64 z -> wrap64 z = z.
Proof. unfold int64, wrap64. intros. rewrite Z.mod_small; lia. Qed.

Definition second : Z := 1000000000.

Definition to_float (z : Z) : spec_float := binary_normalize 53 1024 z 0 false.

(** [Duration.Seconds]: whole seconds plus nanoseconds over 1e9. *)
Definition Seconds (d : Z) : spec_float :=
  SFadd 53 1024 (to_float (Z.quot d second))
    (SFdiv 53 1024 (to_float (Z.rem d second)) (to_float second)).

(** [int(f)]: towards zero; a duration in seconds is finite and in range. *)
Definition int_of_float (f : spec_float) : Z :=
  match f with
  | S754_finite s m e =>
      let v := if 0 <=? e then Z.pos m * 2 ^ e else Z.pos m / 2 ^ (- e) in
      if s then - v else v
  | _ => 0
  end.

(** ** The shared limiter *)

(** [Request] of [client.go]. *)
Record RLRequest := mkRLRequest {
  rl_name : string;
  rl_Key : string;
  rl_Limit : Z;
  rl_Duration : Z;
  rl_failOpen : bool;
  rl_retryAfterMin : Z;
  rl_retryAfterMax : Z
}.

(** [ErrOverLimit] or another error. *)
Inductive RLError := ErrOverLimit | OtherError (msg : string).

Record RLReply := mkReply { rp_remaining : Z; rp_resetTime : Z; rp_err : option RLError }.

(** The mutable state: the [limitTracker] of every limiter, and the state [C] of
    the service behind the client. *)
Record RLState (C : Type) := mkRLState {
  rl_trackers : gmap nat (gmap string Z);
  rl_service : C
}.
Arguments mkRLState {C} _ _.
Arguments rl_trackers {C} _.
Arguments rl_service {C} _.

(** [SharedRateLimiter]: [GetRateLimits] of one of the two clients below. *)
Definition SharedRateLimiter (C : Type) : Type := RLRequest -> C -> RLReply * C.

Section gubernator.
(** [Client.GetRateLimits]: the reply of gubernator to one request with the
    leaky bucket algorithm, global behaviour and one hit. *)
Record RateLimitReq := mkRateLimitReq {
  g_Name : string; g_UniqueKey : string; g_Hits : Z; g_Limit : Z; g_Duration : Z }.
Record RateLimitResp := mkRateLimitResp {
  g_overLimit : bool; g_remaining : Z; g_resetTime : Z }.

Definition Gubernator_GetRateLimits {C} (service : RateLimitReq -> C -> result RateLimitResp * C) :
    SharedRateLimiter C := fun req c =>
  let '(resp, c) := service (mkRateLimitReq (rl_name req) (rl_Key req) 1 (rl_Limit req) (rl_Duration req)) c in
  match resp with
  | Err e => (mkReply 0 0 (Some (OtherError e)), c)
  | Ok response =>
      if g_overLimit response then (mkReply 0 0 (Some ErrOverLimit), c)
      else (mkReply (g_remaining response) (g_resetTime response) None, c)
  end.
End gubernator.

Section redis.
(** [RedisRateLimiter.GetRateLimits]: [script] runs the Lua script on the key and
    the parameters; [now] and [now'] are the clock in nanoseconds, read before and
    after. *)
Record RedisValue := mkRedisValue { AsBool : result bool; AsInt64 : result Z }.

Definition parseRateLimitResult (res : result (list RedisValue)) : flow (result (bool * Z * Z)) :=
  match res with
  | Err e => Return (Err e)
  | Ok values =>
      match values !! 0%nat with
      | None => Panic "index out of range"
      | Some v0 =>
          match AsBool v0 with
          | Err e => Return (Err e)
          | Ok limited =>
              match values !! 1%nat with
              | None => Panic "index out of range"
              | Some v1 =>
                  match AsInt64 v1 with
                  | Err e => Return (Err e)
                  | Ok remaining =>
                      match values !! 3%nat with
                      | None => Panic "index out of range"
                      | Some v3 =>
                          match AsInt64 v3 with
                          | Err e => Return (Err e)
                          | Ok resetIn => Return (Ok (limited, remaining, resetIn))
                          end
                      end
                  end
              end
          end
      end
  end.

Definition Redis_GetRateLimits (script : string -> list string -> result (list RedisValue))
    (now now' : Z) (req : RLRequest) : flow RLReply :=
  let rateLimitParameters :=
    [Itoa (now / 1000000); Itoa (rl_Limit req); Itoa (rl_Limit req); Itoa (rl_Duration req); "1"] in
  match parseRateLimitResult (script (rl_Key req) rateLimitParameters) with
  | Panic msg => Panic msg
  | Return (Err e) => Return (mkReply 0 0 (Some (OtherError e)))
  | Return (Ok (limited, remaining, resetIn)) =>
      Return (mkReply remaining ((now' + wrap64 (resetIn * 1000000)) / 1000000)
                (if limited : bool then Some ErrOverLimit else None))
  end.
End redis.

(** ** [rateLimiter] *)

Record rateLimiter := mkLimiter { l_id : nat; l_req : RLRequest }.

Section limiter.
Context {C : Type} (client : SharedRateLimiter C).

Definition limitTracker (l : rateLimiter) (s : RLState C) : gmap string Z :=
  default ∅ (rl_trackers s !! l_id l).
Definition set_limitTracker (l : rateLimiter) (t : gmap string Z) (s : RLState C) : RLState C :=
  mkRLState (<[l_id l := t]> (rl_trackers s)) (rl_service s).

(** [getAndSetNextRetryAfterValue]: the duration whose seconds are the header. *)
Definition next_retry_after (req : RLRequest) (t : gmap string Z) : Z * gmap string Z :=
  match t !! rl_Key req with
  | None => (rl_retryAfterMin req, <[rl_Key req := wrap64 (rl_retryAfterMin req * 2)]> t)
  | Some current =>
      let nextValue := wrap64 (current * 2) in
      let nextValue :=
        if negb (rl_retryAfterMax req =? 0) && (rl_retryAfterMax req <? nextValue)
        then rl_retryAfterMax req else nextValue in
      (nextValue, <[rl_Key req := nextValue]> t)
  end.

Definition getAndSetNextRetryAfterValue (l : rateLimiter) (s : RLState C) :
    option string * RLState C :=
  if rl_retryAfterMin (l_req l) =? 0 then (None, s)
  else
    let '(d, t) := next_retry_after (l_req l) (limitTracker l s) in
    (Some (Itoa (int_of_float (Seconds d))), set_limitTracker l t s).

(** [resetRetryAfterValue]. *)
Definition resetRetryAfterValue (l : rateLimiter) (s : RLState C) : RLState C :=
  if rl_retryAfterMin (l_req l) =? 0 then s
  else set_limitTracker l (delete (rl_Key (l_req l)) (limitTracker l s)) s.

Definition ask (l : rateLimiter) : M (RLState C) RLReply := fun c =>
  let '(rep, sv) := client (l_req l) (rl_service (conn_st c)) in
  (Return rep, mkConn (conn_w c) (mkRLState (rl_trackers (conn_st c)) sv)).

Definition mod_st {A} (f : RLState C -> A * RLState C) : M (RLState C) A := fun c =>
  let '(a, s) := f (conn_st c) in (Return a, mkConn (conn_w c) s).

(** [rateLimiter.Handler]. *)
Definition rateLimiter_Handler (l : rateLimiter) (next : Handler (RLState C)) :
    Handler (RLState C) := fun r =>
  rep ← ask l;
  _ ← w_set "X-RateLimit-Limit" (Itoa (rl_Limit (l_req l)));
  _ ← w_set "X-RateLimit-Remaining" (Itoa (rp_remaining rep));
  _ ← w_set "X-RateLimit-Reset" (Itoa (rp_resetTime rep));
  let proceed := (_ ← mod_st (fun s => (tt, resetRetryAfterValue l s)); next r) in
  match rp_err rep with
  | None => proceed
  | Some err =>
      retryAfter ← mod_st (getAndSetNextRetryAfterValue l);
      _ ← (match retryAfter with Some v => w_set "Retry-After" v | None => mret tt end);
      match err with
      | ErrOverLimit => PrometheusAPIError "Too Many Requests" 429
      | OtherError e =>
          if negb (rl_failOpen (l_req l)) then PrometheusAPIError e 500 else proceed
      end
  end.

(** ** [combine] and the two constructors *)

(** A compiled regular expression: its text and what it matches. *)
Record Regexp := mkRegexp { rx_String : string; rx_MatchString : string -> bool }.

(** The expression of a limit that does not compile is a nil pointer. *)
Definition nil_regexp : string := "invalid memory address or nil pointer dereference".
Definition MatchString (rx : option Regexp) (s : string) : flow bool :=
  match rx with Some rx => Return (rx_MatchString rx s) | None => Panic nil_regexp end.
Definition Regexp_String (rx : option Regexp) : flow string :=
  match rx with Some rx => Return (rx_String rx) | None => Panic nil_regexp end.

Record middleware := mkMiddleware {
  mw_matcher : option Regexp;
  mw_handler : Middleware (RLState C)
}.

(** The loop over the limits of a tenant. *)
Fixpoint first_match (tms : list middleware) (path : string) : flow (option middleware) :=
  match tms with
  | [] => Return None
  | m :: tms =>
      match MatchString (mw_matcher m) path with
      | Panic msg => Panic msg
      | Return true => Return (Some m)
      | Return false => first_match tms path
      end
  end.

Definition combine (middlewares : gmap string (list middleware)) : Middleware (RLState C) :=
  fun next r =>
  match GetTenant (r_ctx r) with
  | None => PrometheusAPIError "error finding tenant" 401
  | Some tenant =>
      let tms := match middlewares !! tenant with
        | Some tms => Some tms
        | None => middlewares !! DefaultTenantName
        end in
      match tms with
      | None => next r
      | Some tms =>
          match first_match tms (u_path (r_url r)) with
          | Return (Some m) => mw_handler m next r
          | Return None => next r
          | Panic msg => panic msg
          end
      end
  end.

(** [Config]. *)
Record Config := mkConfig {
  cfg_Tenant : string;
  cfg_Matcher : option Regexp;
  cfg_Limit : Z;
  cfg_Window : Z;
  cfg_FailOpen : bool;
  cfg_RetryAfterMin : Z;
  cfg_RetryAfterMax : Z
}.

Definition add_middleware (ms : gmap string (list middleware)) (tenant : string) (m : middleware) :
    gmap string (list middleware) := <[tenant := default [] (ms !! tenant) ++ [m]]> ms.

Definition requestName : string := "mcoa_gateway:tenant_per_endpoint".

Definition shared_request (c : Config) (matcher : string) : RLRequest :=
  mkRLRequest requestName (cfg_Tenant c +:+ ":" +:+ matcher) (cfg_Limit c)
    (Z.quot (cfg_Window c) 1000000) (cfg_FailOpen c) (cfg_RetryAfterMin c) (cfg_RetryAfterMax c).

(** [WithSharedRateLimiter]: limiter [i] belongs to the [i]-th configuration. *)
Definition add_shared (ms : gmap string (list middleware)) (ic : nat * Config) :
    flow (gmap string (list middleware)) :=
  text ← Regexp_String (cfg_Matcher ic.2);
  Return (add_middleware ms (cfg_Tenant ic.2)
    (mkMiddleware (cfg_Matcher ic.2) (rateLimiter_Handler (mkLimiter ic.1 (shared_request ic.2 text))))).

Definition shared_middlewares (configs : list Config) : flow (gmap string (list middleware)) :=
  foldl (fun ms ic => ms ← ms; add_shared ms ic) (Return ∅) (imap pair configs).

Definition WithSharedRateLimiter (configs : list Config) : flow (Middleware (RLState C)) :=
  ms ← shared_middlewares configs;
  Return (combine ms).

(** The same for a call after others that made [first] limiters: every limiter has
    a tracker of its own. *)
Definition numbered (first : nat) (configs : list Config) : list (nat * Config) :=
  imap (fun i c => ((first + i)%nat, c)) configs.

Definition WithSharedRateLimiter_from (first : nat) (configs : list Config) :
    flow (Middleware (RLState C)) :=
  ms ← foldl (fun ms ic => ms ← ms; add_shared ms ic) (Return ∅) (numbered first configs);
  Return (combine ms).

(** [WithLocalRateLimiter]: [httprate.NewRateLimiter(limit, window).Handler] is
    the argument. *)
Definition WithLocalRateLimiter (NewRateLimiter : Z -> Z -> Middleware (RLState C))
    (configs : list Config) : Middleware (RLState C) :=
  combine (foldl (fun ms c => add_middleware ms (cfg_Tenant c)
                    (mkMiddleware (cfg_Matcher c) (NewRateLimiter (cfg_Limit c) (cfg_Window c))))
             ∅ configs).
End limiter.

(** ** The [Retry-After] sequence *)

(** The tracker after [n] refusals in a row, and the value of the next one. *)
Definition tracker_after (req : RLRequest) (n : nat) : gmap string Z :=
  Nat.iter n (fun t => (next_retry_after req t).2) ∅.

Definition retry_value (req : RLRequest) (n : nat) : Z :=
  (next_retry_after req (tracker_after req n)).1.

Lemma tracker_after_S req n :
  tracker_after req (S n) !! rl_Key req =
  Some (if (n =? 0)%nat then wrap64 (rl_retryAfterMin req * 2) else retry_value req n).
Proof.
  unfold retry_value. change (tracker_after req (S n))
    with (next_retry_after req (tracker_after req n)).2.
  destruct n as [|n]; [unfold next_retry_after; simpl; rewrite lookup_empty; simpl; apply lookup_insert_eq|].
  unfold next_retry_after at 1 2. simpl Nat.eqb. cbv iota.
  assert (exists v, tracker_after req (S n) !! rl_Key req = Some v) as [v ->].
  { change (tracker_after req (S n)) with (next_retry_after req (tracker_after req n)).2.
    unfold next_retry_after. destruct (tracker_after req n !! rl_Key req); simpl;
      rewrite lookup_insert_eq; eauto. }
  simpl. apply lookup_insert_eq.
Qed.

Section sequence.
Context (req : RLRequest).
Context (Hmin : 0 < rl_retryAfterMin req) (Hmin4 : rl_retryAfterMin req * 4 < 2 ^ 63).
Context (Hmax : 0 < rl_retryAfterMax req) (Hmax2 : rl_retryAfterMax req * 2 < 2 ^ 63).

Lemma retry_value_0 : retry_value req 0 = rl_retryAfterMin req.
Proof. unfold retry_value, next_retry_after. simpl. by rewrite lookup_empty. Qed.

Lemma retry_value_S n : retry_value req (S n) =
  Z.min (rl_retryAfterMax req) (2 ^ (Z.of_nat n + 2) * rl_retryAfterMin req).
Proof.
  assert (forall v, 0 < v -> v * 2 < 2 ^ 63 ->
    (if negb (rl_retryAfterMax req =? 0) && (rl_retryAfterMax req <? wrap64 (v * 2))
     then rl_retryAfterMax req else wrap64 (v * 2)) = Z.min (rl_retryAfterMax req) (v * 2)) as Hclamp.
  { intros v Hv Hv2. rewrite wrap64_id by (unfold int64; lia).
    rewrite (proj2 (Z.eqb_neq _ 0)) by lia. simpl.
    destruct (Z.ltb_spec (rl_retryAfterMax req) (v * 2)); lia. }
  induction n as [|n IH].
  - unfold retry_value, next_retry_after. rewrite tracker_after_S. cbn [fst Nat.eqb].
    rewrite Hclamp; rewrite wrap64_id by (unfold int64; lia); lia.
  - unfold retry_value, next_retry_after. rewrite tracker_after_S. cbn [fst Nat.eqb].
    assert (0 < 2 ^ (Z.of_nat n + 2)) as Hp by (apply Z.pow_pos_nonneg; lia).
    rewrite IH, Hclamp by nia.
    replace (Z.of_nat (S n) + 2) with (Z.succ (Z.of_nat n + 2)) by lia.
    rewrite Z.pow_succ_r by lia. lia.
Qed.
End sequence.

(** ** The selection of a limiter *)

(** The configurations of a tenant, in order; the default tenant's when it has
    none. *)
Definition tenant_configs (configs : list Config) (tenant : string) : list (nat * Config) :=
  filter (fun ic => cfg_Tenant ic.2 = tenant) (imap pair configs).

Definition compiled (c : Config) : Prop := is_Some (cfg_Matcher c).
Definition matches (c : Config) (path : string) : bool :=
  match cfg_Matcher c with Some rx => rx_MatchString rx path | None => false end.
Definition matcher_text (c : Config) : string := default "" (rx_String <$> cfg_Matcher c).

Definition select_config (configs : list Config) (tenant path : string) : option (nat * Config) :=
  let cs := match tenant_configs configs tenant with
            | [] => tenant_configs configs DefaultTenantName
            | cs => cs
            end in
  List.find (fun ic => matches ic.2 path) cs.

Section selection.
Context {C : Type} (client : SharedRateLimiter C).

Definition shared_handler (ic : nat * Config) : Middleware (RLState C) :=
  rateLimiter_Handler client (mkLimiter ic.1 (shared_request ic.2 (matcher_text ic.2))).
Definition shared_middleware (ic : nat * Config) : @middleware C :=
  mkMiddleware (cfg_Matcher ic.2) (shared_handler ic).

Lemma add_shared_spec ms ic :
  match add_shared client ms ic with
  | Return ms' => compiled ic.2 /\ ms' = add_middleware ms (cfg_Tenant ic.2) (shared_middleware ic)
  | Panic _ => ~ compiled ic.2
  end.
Proof.
  unfold add_shared, compiled, shared_middleware, shared_handler, matcher_text.
  destruct (cfg_Matcher ic.2); simpl; [by split|by intros []].
Qed.

(** The limits of a tenant are the limiters of its configurations, in order; an
    expression that does not compile panics. *)
Lemma foldl_middlewares ics :
  match foldl (fun ms ic => ms ← ms; add_shared client ms ic) (Return ∅) ics with
  | Return ms => Forall (fun ic => compiled ic.2) ics /\ forall t,
      ms !! t = match filter (fun ic => cfg_Tenant ic.2 = t) ics with
                | [] => None
                | cs => Some (shared_middleware <$> cs)
                end
  | Panic _ => Exists (fun ic => ~ compiled ic.2) ics
  end.
Proof.
  induction ics as [|ic ics IH] using rev_ind.
  { simpl. split; [done|]. intros t. by rewrite lookup_empty. }
  rewrite foldl_app. cbn [foldl]. destruct (foldl _ _ ics) as [ms|msg]; cbn [mbind flow_bind].
  2:{ apply Exists_app. by left. }
  destruct IH as [Hall IH]. pose proof (add_shared_spec ms ic) as Ha.
  destruct (add_shared client ms ic) as [ms'|]; [|apply Exists_app; right; by constructor].
  destruct Ha as [Hc ->]. split; [apply Forall_app; split; [done|by constructor]|].
  intros t. rewrite filter_app. unfold add_middleware.
  destruct (decide (cfg_Tenant ic.2 = t)) as [<-|Hne].
  - rewrite lookup_insert_eq, IH, filter_cons_True by done.
    destruct (filter _ ics) as [|c cs]; simpl; [done|]. by rewrite fmap_app.
  - rewrite lookup_insert_ne, IH, filter_cons_False by done. by rewrite filter_nil, app_nil_r.
Qed.

(** The limits of one tenant: the first that matches the path, if any. *)
Definition limit_by (tms : list (@middleware C)) : Middleware (RLState C) := fun next r =>
  match first_match tms (u_path (r_url r)) with
  | Return (Some m) => mw_handler m next r
  | Return None => next r
  | Panic msg => panic msg
  end.

(** A tenant without limits has those of the default tenant. *)
Lemma combine_limits (ms : gmap string (list (@middleware C))) (f : string -> list middleware) t next r :
  (forall t, ms !! t = match f t with [] => None | tms => Some tms end) ->
  GetTenant (r_ctx r) = Some t ->
  combine ms next r = limit_by (match f t with [] => f DefaultTenantName | tms => tms end) next r.
Proof.
  intros Hms Ht. unfold combine. rewrite Ht, !Hms.
  destruct (f t) as [|m tms]; [|done]. by destruct (f DefaultTenantName).
Qed.

Definition local_middleware (NewRateLimiter : Z -> Z -> Middleware (RLState C)) (c : Config) : middleware :=
  mkMiddleware (cfg_Matcher c) (NewRateLimiter (cfg_Limit c) (cfg_Window c)).

Lemma local_limits NewRateLimiter configs t :
  foldl (fun ms c => add_middleware ms (cfg_Tenant c) (local_middleware NewRateLimiter c)) ∅ configs !! t
  = match filter (fun c => cfg_Tenant c = t) configs with
    | [] => None
    | cs => Some (local_middleware NewRateLimiter <$> cs)
    end.
Proof.
  induction configs as [|c configs IH] using rev_ind; [cbn [foldl]; by rewrite lookup_empty|].
  rewrite foldl_app, filter_app. cbn [foldl]. unfold add_middleware at 1.
  destruct (decide (cfg_Tenant c = t)) as [<-|Hne].
  - rewrite lookup_insert_eq, IH, filter_cons_True by done.
    destruct (filter _ configs) as [|c' cs]; simpl; [done|]. by rewrite fmap_app.
  - rewrite lookup_insert_ne, IH, filter_cons_False by done. by rewrite filter_nil, app_nil_r.
Qed.

Lemma first_match_shared cs path : Forall (fun ic => compiled ic.2) cs ->
  first_match (shared_middleware <$> cs) path =
  Return (shared_middleware <$> List.find (fun ic => matches ic.2 path) cs).
Proof.
  induction 1 as [|ic cs [rx Hrx] _ IH]; [done|]. cbn [fmap list_fmap first_match List.find].
  unfold matches. unfold MatchString. cbn [mw_matcher shared_middleware]. rewrite Hrx.
  by destruct (rx_MatchString rx path).
Qed.

Lemma tenant_configs_compiled configs t :
  Forall (fun ic => compiled ic.2) (imap pair configs) ->
  Forall (fun ic => compiled ic.2) (tenant_configs configs t).
Proof.
  intros Hall. apply Forall_forall. intros ic [_ Hin]%list_elem_of_filter.
  by apply (proj1 (Forall_forall _ _) Hall).
Qed.

(** C38: which limit applies.  The limiter is made exactly when every expression
    compiles; one that does not is logged when it is read and panics here.  A
    request of a tenant is limited by the first configuration of that tenant, in
    the order of the configuration file, whose expression matches the path; the
    configurations of the default tenant are used only when the tenant has none of
    its own; without a match the request passes.  A request without tenant is
    refused with 401. *)
Theorem shared_limiter_selection (configs : list Config) :
  match WithSharedRateLimiter client configs with
  | Panic _ => Exists (fun ic => ~ compiled ic.2) (imap pair configs)
  | Return mw => Forall (fun ic => compiled ic.2) (imap pair configs) /\ forall next r,
      mw next r =
      match GetTenant (r_ctx r) with
      | None => PrometheusAPIError "error finding tenant" 401
      | Some tenant =>
          match select_config configs tenant (u_path (r_url r)) with
          | Some ic => shared_handler ic next r
          | None => next r
          end
      end
  end.
Proof.
  unfold WithSharedRateLimiter, shared_middlewares. pose proof (foldl_middlewares (imap pair configs)) as Hf.
  destruct (foldl _ _ _) as [ms|]; [|done]. destruct Hf as [Hall Hms]. cbn [mbind flow_bind].
  split; [done|]. intros next r. unfold combine, select_config.
  destruct (GetTenant (r_ctx r)) as [tenant|]; [|done].
  rewrite !Hms. fold (tenant_configs configs tenant). fold (tenant_configs configs DefaultTenantName).
  assert (forall cs, Forall (fun ic => compiled ic.2) cs ->
            match first_match (shared_middleware <$> cs) (u_path (r_url r)) with
            | Return (Some m) => mw_handler m next r | Return None => next r | Panic msg => panic msg end =
            match List.find (fun ic => matches ic.2 (u_path (r_url r))) cs with
            | Some ic => shared_handler ic next r | None => next r end) as Hfind.
  { intros cs Hcs. rewrite first_match_shared by done. by destruct (List.find _ cs). }
  pose proof (tenant_configs_compiled _ tenant Hall) as Ht.
  pose proof (tenant_configs_compiled _ DefaultTenantName Hall) as Hd.
  destruct (tenant_configs configs tenant) as [|c cs]; [|by apply Hfind].
  destruct (tenant_configs configs DefaultTenantName) as [|c cs]; [done|by apply Hfind].
Qed.

(** What a limiter does with the answer of the service.  A request within
    the limit is passed on and ends the back-off; over the limit it is answered
    with 429, and an error of the service with 500 when the limiter fails closed,
    and then the next handler is never called; when it fails open, the request is
    passed on. *)
Theorem limiter_outcomes (l : rateLimiter) (r : Request) (c : Conn (RLState C)) :
  let rep := (client (l_req l) (rl_service (conn_st c))).1 in
  w_sent (conn_w c) = None ->
  match rp_err rep with
  | None => exists c', (forall next, rateLimiter_Handler client l next r c = next r c') /\
      (rl_retryAfterMin (l_req l) <> 0 -> limitTracker l (conn_st c') !! rl_Key (l_req l) = None)
  | Some (OtherError e) =>
      if rl_failOpen (l_req l)
      then exists c', (forall next, rateLimiter_Handler client l next r c = next r c') /\
        (rl_retryAfterMin (l_req l) <> 0 -> limitTracker l (conn_st c') !! rl_Key (l_req l) = None)
      else exists c', (forall next, rateLimiter_Handler client l next r c = (Return tt, c')) /\
        response_status c' = 500
  | Some ErrOverLimit =>
      exists c', (forall next, rateLimiter_Handler client l next r c = (Return tt, c')) /\
        response_status c' = 429
  end.
Proof.
  intros rep Hsent. destruct c as [[hd sent body] [tr sv]]. simpl in Hsent. subst sent.
  assert (forall s, rl_retryAfterMin (l_req l) <> 0 ->
    limitTracker l (resetRetryAfterValue l s : RLState C) !! rl_Key (l_req l) = None) as Hreset.
  { intros s Hn. unfold resetRetryAfterValue. rewrite (proj2 (Z.eqb_neq _ 0)) by done.
    unfold limitTracker at 1, set_limitTracker. cbn [rl_trackers].
    rewrite lookup_insert_eq. apply lookup_delete_eq. }
  subst rep. unfold rateLimiter_Handler, ask, mod_st, mbind, M_bind.
  cbn [conn_st conn_w rl_service]. destruct (client (l_req l) sv) as [rep sv'] eqn:Ec. cbn [fst].
  destruct (rp_err rep) as [[|e]|];
    cbn -[header_set Itoa getAndSetNextRetryAfterValue resetRetryAfterValue limitTracker].
  - destruct (getAndSetNextRetryAfterValue l (mkRLState tr sv')) as [[v|] s]; eexists; (split; [reflexivity|done]).
  - destruct (getAndSetNextRetryAfterValue l (mkRLState tr sv')) as [[v|] s];
      destruct (rl_failOpen (l_req l)); eexists;
      (split; [reflexivity|]); solve [done|intros; by apply Hreset].
  - eexists. split; [reflexivity|]. intros; by apply Hreset.
Qed.
End selection.

(** C39: the back-off.  With [0 < min], [0 < max] and both far enough from the
    end of [int64], the first refusal in a row announces [min]; the one after
    [n + 1] others announces [2 ^ (n + 2) * min], but never more than [max].  The
    factor after the first refusal is four. *)
Theorem retry_after_backoff (req : RLRequest) (n : nat) :
  0 < rl_retryAfterMin req -> rl_retryAfterMin req * 4 < 2 ^ 63 ->
  0 < rl_retryAfterMax req -> rl_retryAfterMax req * 2 < 2 ^ 63 ->
  retry_value req 0 = rl_retryAfterMin req /\
  retry_value req (S n) =
    Z.min (rl_retryAfterMax req) (2 ^ (Z.of_nat n + 2) * rl_retryAfterMin req).
Proof. intros. split; [apply retry_value_0|by apply retry_value_S]. Qed.

Definition demo_limit (rmin rmax : Z) : RLRequest :=
  mkRLRequest requestName "team-a:.*" 10 1000 false rmin rmax.

Lemma retry_after_backoff_witness :
  retry_value (demo_limit (10 * second) (300 * second)) 0 = 10 * second /\
  retry_value (demo_limit (10 * second) (300 * second)) 1 = 40 * second /\
  retry_value (demo_limit (10 * second) (300 * second)) 5 = 300 * second.
Proof.
  destruct (retry_after_backoff (demo_limit (10 * second) (300 * second)) 0) as [H0 H1];
    [done..|].
  destruct (retry_after_backoff (demo_limit (10 * second) (300 * second)) 4) as [_ H5]; [done..|].
  rewrite H0, H1, H5. split; [|split]; vm_compute; reflexivity.
Defined.

Lemma limiter_outcomes_witness :
  exists c', forall next,
    rateLimiter_Handler (fun _ (u : unit) => (mkReply 0 0 (Some ErrOverLimit), u))
      (mkLimiter 0 (demo_limit second 0)) next
      (mkReq "GET" (mkURL "" "" "/" "") ∅ (Ok "") 0 None background ∅ [])
      (mkConn fresh_writer (mkRLState ∅ tt)) = (Return tt, c').
Proof.
  destruct (limiter_outcomes (fun _ (u : unit) => (mkReply 0 0 (Some ErrOverLimit), u))
    (mkLimiter 0 (demo_limit second 0))
    (mkReq "GET" (mkURL "" "" "/" "") ∅ (Ok "") 0 None background ∅ [])
    (mkConn fresh_writer (mkRLState ∅ tt)) eq_refl) as (c' & H & _).
  by exists c'.
Defined.

(** without a maximum the value overflows.  With [min] one second and no
    maximum, the header after 33 refusals in a row is negative. *)
Theorem unbounded_retry_after_overflows :
  exists n, int_of_float (Seconds (retry_value (demo_limit second 0) n)) < 0.
Proof. exists 33%nat. vm_compute. reflexivity. Qed.
