(* ===== verification/Proxy.v ===== *)
(** * Proxying: [proxy/proxy.go], [proxy/fanout_proxy.go] and [server/paths.go]

    The directors that rewrite a request for its upstream, the prefix handling
    around them, and the fan-out of alerts to several Alertmanagers, whose
    goroutines are the interleaving semantics of [Module Fanout]. *)

From stdpp Require Import base tactics option list gmap strings pretty relations.
From Stdlib Require Import ZArith Lia Ascii.
From S2P Require Import Prelude GoStrings Labels Url Strconv Http.

(** ** [path.Clean] and [path.Join] *)

(** The components of a path, from the left; [stack] holds the cleaned ones, the
    last on top. *)
Fixpoint clean_components (rooted : bool) (stack comps : list string) : list string :=
  match comps with
  | [] => reverse stack
  | c :: comps =>
      if String.eqb c "" || String.eqb c "." then clean_components rooted stack comps
      else if String.eqb c ".." then
        match stack with
        | top :: stack' =>
            if String.eqb top ".." then clean_components rooted (c :: stack) comps
            else clean_components rooted stack' comps
        | [] => clean_components rooted (if rooted then [] else [c]) comps
        end
      else clean_components rooted (c :: stack) comps
  end.

Definition Clean (p : string) : string :=
  let rooted := HasPrefix p "/" in
  let out := Join (clean_components rooted [] (Split "/" p)) "/" in
  if rooted then "/" +:+ out else if String.eqb out "" then "." else out.

(** [path.Join(a, b)]: empty elements are ignored. *)
Definition path_Join (a b : string) : string :=
  if String.eqb a "" && String.eqb b "" then ""
  else if String.eqb a "" then Clean b
  else if String.eqb b "" then Clean a
  else Clean (a +:+ "/" +:+ b).

(** ** Directors *)

Definition Director : Type := Request -> Request.

(** [Middlewares]. *)
Definition Middlewares (ms : list Director) : Director := fun r => foldl (fun r m => m r) r ms.

(** [MiddlewareRemoveURLPrefix]: [strings.TrimLeft] takes a set of characters. *)
Definition MiddlewareRemoveURLPrefix (prefix : string) : Director := fun r =>
  set_path ("/" +:+ TrimLeft (Trim (u_path (r_url r)) ["/"%char])
                      (String.list_ascii_of_string prefix)) r.

(** [MiddlewareSetUpstream]. *)
Definition MiddlewareSetUpstream (upstream : URL) : Director := fun r =>
  set_url (mkURL (u_scheme upstream) (u_host upstream)
             (path_Join (u_path upstream) (u_path (r_url r))) (u_rawQuery (r_url r))) r.

(** [MiddlewareSetPrefixHeader]. *)
Definition PrefixHeader : string := "X-Forwarded-Prefix".

Definition MiddlewareSetPrefixHeader : Director := fun r =>
  match ctx_prefix (r_ctx r) with
  | None => r
  | Some prefix =>
      if negb (String.eqb (header_get (r_header r) PrefixHeader) "") then r
      else set_header (header_set (r_header r) PrefixHeader prefix) r
  end.

(** [WithPrefix]. *)
Definition WithPrefix (prefix : string) {S} (next : Handler S) : Handler S := fun r =>
  next (map_ctx (with_prefix prefix) r).

(** [server.StripPrefix] with [http.StripPrefix] for a request without a raw
    path. *)
Definition http_NotFound {S} : M S unit := http_Error "404 page not found" 404.

Definition StripPrefix (prefix : string) {S} (next : Handler S) : Handler S := fun r =>
  if String.eqb prefix "" then WithPrefix prefix next r
  else
    let p := TrimPrefix (u_path (r_url r)) prefix in
    if (String.length p <? String.length (u_path (r_url r)))%nat
    then WithPrefix prefix next (set_path p r)
    else http_NotFound.

(** ** The fan-out *)

Module Fanout.

(** What the world does with the request to one endpoint: [url.JoinPath],
    [http.NewRequestWithContext] or [client.Do] fails, or a status arrives. *)
Inductive outcome :=
  | JoinPathError
  | NewRequestError
  | DoError
  | Response (code : Z).

(** The effects of a goroutine on the shared state, in order. *)
Inductive action := IncRequests (url : string) | IncErrors (url : string) | AddSuccess.

Definition goroutine (ep : string) (o : outcome) : list action :=
  match o with
  | JoinPathError | NewRequestError => [IncErrors ep]
  | DoError => [IncRequests ep; IncErrors ep]
  | Response code =>
      if ((code <? 200) || (300 <=? code))%Z then [IncRequests ep; IncErrors ep]
      else [IncRequests ep; AddSuccess]
  end.

(** The atomic counter is an [int32]; the metrics count by endpoint. *)
Record shared := mkShared {
  successCnt : Z;
  fanoutRequestsTotal : gmap string nat;
  fanoutErrorsTotal : gmap string nat
}.

Definition wrap32 (z : Z) : Z := ((z + 2 ^ 31) mod 2 ^ 32 - 2 ^ 31)%Z.

Definition inc (m : gmap string nat) (k : string) : gmap string nat :=
  <[k := S (default 0%nat (m !! k))]> m.

Definition perform (a : action) (s : shared) : shared :=
  match a with
  | IncRequests u => mkShared (successCnt s) (inc (fanoutRequestsTotal s) u) (fanoutErrorsTotal s)
  | IncErrors u => mkShared (successCnt s) (fanoutRequestsTotal s) (inc (fanoutErrorsTotal s) u)
  | AddSuccess => mkShared (wrap32 (successCnt s + 1)) (fanoutRequestsTotal s) (fanoutErrorsTotal s)
  end.

(** The goroutines that still have something to do, and the shared state. *)
Definition config : Type := list (list action) * shared.

(** One goroutine performs its next action. *)
Inductive step : config -> config -> Prop :=
  | step_at gs1 a g gs2 s :
      step (gs1 ++ (a :: g) :: gs2, s) (gs1 ++ g :: gs2, perform a s).

Definition start (eps : list (string * outcome)) (s : shared) : config :=
  ((fun e => goroutine e.1 e.2) <$> eps, s).

(** [wg.Wait()] returns when every goroutine is done. *)
Definition finished (c : config) : Prop := Forall (fun g => g = []) c.1.

(** What the handler writes after [wg.Wait()]. *)
Definition after_wait {S} (s : shared) : M S unit :=
  _ ← (if (successCnt s <? 1)%Z
       then http_Error "Failed to reach any alertmanager endpoints" 502 else mret tt);
  WriteHeader 200.

(** [FanoutRequestToEndpoints]: the outcomes of an execution of the handler on
    the endpoints, relating the shared state and the connection before to those
    after. *)
Inductive handle {S} (r : Request) (eps : list (string * outcome)) (c : Conn S) (s : shared) :
    shared -> flow unit * Conn S -> Prop :=
  | handle_body e : r_body r = Err e ->
      handle r eps c s s (http_Error "failed to read request body" 500 c)
  | handle_empty b : r_body r = Ok b -> eps = [] ->
      handle r eps c s s (http_Error "fanout endpoints not loaded" 400 c)
  | handle_fanout b gs s' : r_body r = Ok b -> eps <> [] ->
      rtc step (start eps (mkShared 0 (fanoutRequestsTotal s) (fanoutErrorsTotal s))) (gs, s') ->
      finished (gs, s') ->
      handle r eps c s s' (after_wait s' c).

(** ** The result does not depend on the interleaving *)

Definition success (o : outcome) : bool :=
  match o with Response code => ((200 <=? code) && (code <? 300))%Z | _ => false end.

Lemma inc_comm m u v : inc (inc m u) v = inc (inc m v) u.
Proof.
  unfold inc. destruct (decide (u = v)) as [->|Hne]; [done|].
  rewrite !lookup_insert_ne by done. by apply insert_insert_ne.
Qed.

Lemma perform_comm a b s : perform a (perform b s) = perform b (perform a s).
Proof. destruct a, b; unfold perform; simpl; rewrite 1?inc_comm; done. Qed.

(** The state in which the actions of [gs] end, in any order. *)
Definition settle (gs : list (list action)) (s : shared) : shared := foldr perform s (concat gs).

Lemma foldr_perform_cons a l s : foldr perform (perform a s) l = perform a (foldr perform s l).
Proof. induction l as [|b l IH]; simpl; [done|]. by rewrite IH, perform_comm. Qed.

Lemma step_settle c c' : step c c' -> settle c'.1 c'.2 = settle c.1 c.2.
Proof.
  intros [gs1 a g gs2 s]. unfold settle. cbn [fst snd].
  rewrite !concat_app, !foldr_app. cbn [concat]. rewrite <-app_comm_cons.
  cbn [foldr]. by rewrite foldr_perform_cons.
Qed.

Lemma steps_settle c c' : rtc step c c' -> settle c'.1 c'.2 = settle c.1 c.2.
Proof. induction 1 as [|c1 c2 c3 H _ IH]; [done|]. by rewrite IH, (step_settle _ _ H). Qed.

Lemma finished_settle c : finished c -> settle c.1 c.2 = c.2.
Proof.
  destruct c as [gs s]. unfold finished, settle. simpl.
  induction 1 as [|g gs -> _ IH]; [done|]. exact IH.
Qed.

(** Every configuration that is not finished can take a step, and every step
    uses up an action. *)
Lemma step_progress c : finished c \/ exists c', step c c'.
Proof.
  destruct c as [gs s]. unfold finished. simpl. induction gs as [|g gs IH]; [left; constructor|].
  destruct g as [|a g].
  - destruct IH as [IH|(c' & Hs)]; [left; by constructor|]. right. inversion Hs; subst.
    eexists. exact (step_at ([] :: gs1) a g gs2 s).
  - right. eexists. exact (step_at [] a g gs s).
Qed.

Definition work (c : config) : nat := length (concat c.1).

Lemma step_work c c' : step c c' -> work c = S (work c').
Proof.
  intros [gs1 a g gs2 s]. unfold work. cbn [fst]. rewrite !concat_app, !length_app. simpl.
  rewrite !length_app. lia.
Qed.

Lemma can_finish c : exists c', rtc step c c' /\ finished c'.
Proof.
  remember (work c) as n eqn:Hn. revert c Hn. induction n as [|n IH]; intros c Hn.
  - destruct (step_progress c) as [Hf|(c' & Hs)]; [by exists c; split; [apply rtc_refl|]|].
    apply step_work in Hs. lia.
  - destruct (step_progress c) as [Hf|(c' & Hs)]; [by exists c; split; [apply rtc_refl|]|].
    pose proof (step_work _ _ Hs). destruct (IH c') as (c'' & Hr & Hf); [lia|].
    exists c''. split; [by eapply rtc_l|done].
Qed.

Lemma settle_successes eps s : successCnt s = 0%Z -> (Z.of_nat (length eps) < 2 ^ 31)%Z ->
  successCnt (settle ((fun e => goroutine e.1 e.2) <$> eps) s)
  = Z.of_nat (length (filter (fun e => success e.2 = true) eps)).
Proof.
  intros Hs. induction eps as [|[ep o] eps IH]; intros Hl; [done|].
  rewrite fmap_cons. unfold settle. cbn [concat]. rewrite foldr_app. fold (settle ((fun e => goroutine e.1 e.2) <$> eps) s).
  simpl length in Hl. specialize (IH ltac:(lia)). set (s1 := settle _ s) in *. clearbody s1.
  pose proof (length_filter (fun e : string * outcome => success e.2 = true) eps) as Hf.
  destruct (success o) eqn:Ho.
  - rewrite filter_cons_True by done. destruct o as [| | |code]; try done. simpl in Ho.
    apply andb_true_iff in Ho as [H1 H2]. apply Z.leb_le in H1. apply Z.ltb_lt in H2.
    unfold goroutine. simpl. rewrite (proj2 (Z.ltb_ge code 200)), (proj2 (Z.leb_gt 300 code)) by lia.
    simpl. rewrite IH. unfold wrap32. rewrite Z.mod_small; lia.
  - rewrite filter_cons_False by (simpl; congruence). rewrite <-IH.
    destruct o as [| | |code]; try done. simpl in Ho |- *.
    apply andb_false_iff in Ho. rewrite Z.leb_gt, Z.ltb_ge in Ho.
    assert ((code <? 200) || (300 <=? code) = true)%Z as ->; [|done].
    apply orb_true_iff. rewrite Z.ltb_lt, Z.leb_le. lia.
Qed.
End Fanout.

(** ** Properties *)

Import Fanout.

Lemma http_Error_status {S} msg code (c : Conn S) : w_sent (conn_w c) = None ->
  exists c', http_Error msg code c = (Return tt, c') /\ response_status c' = code /\
             is_Some (w_sent (conn_w c')).
Proof.
  destruct c as [[h [s|] b] st]; [done|]. intros _. eexists. split; [reflexivity|]. by split.
Qed.

(** The outcome of every execution. *)
Definition fanout_result {S} (r : Request) (eps : list (string * outcome)) (c : Conn S) (s : shared) :
    shared * (flow unit * Conn S) :=
  match r_body r with
  | Err _ => (s, http_Error "failed to read request body" 500 c)
  | Ok _ =>
      if decide (eps = []) then (s, http_Error "fanout endpoints not loaded" 400 c)
      else let s' := settle ((fun e => goroutine e.1 e.2) <$> eps)
                       (mkShared 0 (fanoutRequestsTotal s) (fanoutErrorsTotal s)) in
           (s', after_wait s' c)
  end.

Lemma handle_result {S} r eps (c : Conn S) s s' res :
  handle r eps c s s' res <-> (s', res) = fanout_result r eps c s.
Proof.
  unfold fanout_result. split.
  - intros [e E|b E ->|b gs s1 E Hne Hr Hf]; rewrite E; [done|by rewrite decide_True|].
    rewrite decide_False by done. apply steps_settle in Hr. apply finished_settle in Hf.
    cbn [fst snd start] in Hr, Hf. rewrite Hf in Hr. by rewrite Hr.
  - destruct (r_body r) as [b|e] eqn:E; [|intros [= -> ->]; by eapply handle_body].
    destruct (decide (eps = [])) as [He|He]; [intros [= -> ->]; by eapply handle_empty|].
    set (s0 := mkShared 0 _ _). intros [= -> ->].
    destruct (can_finish (start eps s0)) as ([gs s1] & Hr & Hf).
    assert (s1 = settle ((fun e => goroutine e.1 e.2) <$> eps) s0) as <-.
    { apply steps_settle in Hr. apply finished_settle in Hf. cbn [fst snd start] in Hr, Hf. congruence. }
    by eapply handle_fanout.
Qed.

Lemma after_wait_status {S} s (c : Conn S) : w_sent (conn_w c) = None ->
  exists c', after_wait s c = (Return tt, c') /\
    response_status c' = if (successCnt s <? 1)%Z then 502%Z else 200%Z.
Proof.
  intros Hs. unfold after_wait, mbind, M_bind. destruct (successCnt s <? 1)%Z.
  - destruct (http_Error_status "Failed to reach any alertmanager endpoints" 502 c Hs)
      as (c' & -> & Hst & [[code hd] Hsent]).
    eexists. split; [reflexivity|]. unfold response_status in *. cbn [conn_w].
    unfold write_header. rewrite Hsent in Hst |- *. by rewrite Hsent.
  - destruct c as [[h sent b] st]. simpl in Hs. subst sent. by eexists.
Qed.

(** C34: the fan-out reports failure exactly when nothing got through.  Whatever
    the interleaving of the goroutines, the handler ends; the answer is 200 when
    some endpoint answered with a 2xx status and 502 otherwise; 400 without
    endpoints and 500 when the body cannot be read.  The counters after the
    request are the same for every interleaving. *)
Theorem fanout_status {S} (r : Request) (eps : list (string * outcome)) (c : Conn S) (s : shared) :
  w_sent (conn_w c) = None -> (Z.of_nat (length eps) < 2 ^ 31)%Z ->
  (exists s' res, handle r eps c s s' res) /\
  (forall s1 res1 s2 res2, handle r eps c s s1 res1 -> handle r eps c s s2 res2 ->
     s1 = s2 /\ res1 = res2) /\
  forall s' res, handle r eps c s s' res ->
    exists c', res = (Return tt, c') /\
      response_status c' =
        match r_body r with
        | Err _ => 500
        | Ok _ => if decide (eps = []) then 400
                  else if existsb (fun e => success e.2) eps then 200 else 502
        end%Z.
Proof.
  intros Hs Hl. split_and!.
  - exists (fanout_result r eps c s).1, (fanout_result r eps c s).2. apply handle_result.
    by destruct (fanout_result r eps c s).
  - intros s1 res1 s2 res2 H1%handle_result H2%handle_result. rewrite <-H2 in H1. by simplify_eq.
  - intros s' res H%handle_result. unfold fanout_result in H. destruct (r_body r) as [b|e]; cycle 1.
    { destruct (http_Error_status "failed to read request body" 500 c Hs) as (c' & E & ? & _).
      exists c'. naive_solver. }
    destruct (decide (eps = [])) as [He|He].
    { destruct (http_Error_status "fanout endpoints not loaded" 400 c Hs) as (c' & E & ? & _).
      exists c'. naive_solver. }
    injection H as -> ->. match goal with |- context [after_wait ?s0 c] => set (s1 := s0) end.
    destruct (after_wait_status s1 c Hs) as (c' & -> & Hst). exists c'. split; [done|]. rewrite Hst.
    unfold s1. rewrite settle_successes by done. clear.
    induction eps as [|e eps IH]; [done|]. simpl. destruct (success e.2) eqn:E.
    + rewrite filter_cons_True by done. simpl. by rewrite (proj2 (Z.ltb_ge _ 1)) by lia.
    + rewrite filter_cons_False by congruence. exact IH.
Qed.

Lemma fanout_status_witness :
  let r := mkReq "POST" (mkURL "" "" "/" "") ∅ (Ok "[]") 2 None background ∅ [] in
  let c := mkConn fresh_writer tt in
  let eps := [("http://am-0", DoError); ("http://am-1", Response 202); ("http://am-2", Response 500)] in
  exists s' c', handle r eps c (mkShared 0 ∅ ∅) s' (Return tt, c') /\ response_status c' = 200%Z.
Proof.
  intros r c eps.
  destruct (fanout_status r eps c (mkShared 0 ∅ ∅)) as ((s' & res & Hh) & _ & Hst);
    [reflexivity|vm_compute; reflexivity|].
  destruct (Hst s' res Hh) as (c' & -> & Hc). exists s', c'. split; [exact Hh|]. rewrite Hc.
  reflexivity.
Defined.

(** ** Upstream paths *)

Definition real_component (c : string) : Prop := c <> "" /\ c <> ".".

Global Instance real_component_dec c : Decision (real_component c).
Proof. unfold real_component. apply _. Defined.

Lemma clean_components_plain rooted stack comps : ".." ∉ comps ->
  clean_components rooted stack comps = reverse stack ++ filter real_component comps.
Proof.
  revert stack. induction comps as [|c comps IH]; intros stack Hn; simpl; [by rewrite app_nil_r|].
  apply not_elem_of_cons in Hn as [Hc Hn].
  destruct (String.eqb_spec c "") as [->|H1]; [rewrite filter_cons_False by (unfold real_component; naive_solver); by apply IH|].
  destruct (String.eqb_spec c ".") as [->|H2]; [rewrite filter_cons_False by (unfold real_component; naive_solver); by apply IH|].
  simpl. destruct (String.eqb_spec c "..") as [->|H3]; [done|].
  rewrite filter_cons_True by done. rewrite IH by done. by rewrite reverse_cons, <-app_assoc.
Qed.

(** An upstream stays below its base path as long as the request path has
    no [..] component: the path sent is the base path followed by the request
    path, without empty and dot components; scheme and host are the upstream's
    and the query string is untouched. *)
Theorem upstream_path (base : URL) (r : Request) :
  HasPrefix (u_path base) "/" = true -> u_path (r_url r) <> "" ->
  ".." ∉ Split "/" (u_path base) -> ".." ∉ Split "/" (u_path (r_url r)) ->
  r_url (MiddlewareSetUpstream base r) =
  mkURL (u_scheme base) (u_host base)
    ("/" +:+ Join (filter real_component (Split "/" (u_path base)) ++
                   filter real_component (Split "/" (u_path (r_url r)))) "/")
    (u_rawQuery (r_url r)).
Proof.
  intros Hp Hne Hb Hr. unfold MiddlewareSetUpstream. cbn [set_url r_url]. f_equal.
  unfold path_Join. destruct (u_path base) as [|a b] eqn:Eb; [done|].
  cbn [String.eqb andb]. rewrite (proj2 (String.eqb_neq _ _) Hne).
  change ("/" +:+ u_path (r_url r)) with (String "/" (u_path (r_url r))).
  unfold Clean. assert (HasPrefix (String a b +:+ String "/" (u_path (r_url r))) "/" = true) as ->.
  { unfold HasPrefix in *. apply prefix_app_inv in Hp. rewrite Hp, <-str_app_assoc. apply prefix_app. }
  rewrite Split_concat, clean_components_plain.
  - rewrite reverse_nil, app_nil_l. by rewrite filter_app.
  - rewrite elem_of_app. naive_solver.
Qed.

Lemma upstream_path_witness :
  r_url (MiddlewareSetUpstream (mkURL "https" "loki:3100" "/base/" "")
           (mkReq "GET" (mkURL "" "" "/loki/api/v1//query" "a=b") ∅ (Ok "") 0 None background ∅ []))
  = mkURL "https" "loki:3100" "/base/loki/api/v1/query" "a=b".
Proof.
  rewrite upstream_path; [reflexivity|reflexivity|discriminate| |];
    apply (bool_decide_unpack _); vm_compute; exact I.
Defined.

(** [..] in a request path leaves the base path of the upstream. *)
Theorem upstream_path_escapes :
  u_path (r_url (MiddlewareSetUpstream (mkURL "https" "thanos:9090" "/tenants/a" "")
    (mkReq "GET" (mkURL "" "" "/graph/../../../admin" "") ∅ (Ok "") 0 None background ∅ [])))
  = "/admin".
Proof. vm_compute. reflexivity. Qed.

Lemma TrimPrefix_shorter s p :
  p <> "" -> HasPrefix s p = true -> (String.length (TrimPrefix s p) < String.length s)%nat.
Proof.
  intros Hne Hp. unfold TrimPrefix. unfold HasPrefix in *. rewrite Hp.
  apply prefix_app_inv in Hp as Hs. rewrite Hs at 2. rewrite str_len_app.
  destruct p; [done|]. simpl. lia.
Qed.

(** Stripping a prefix.  A request whose path starts with the prefix is
    passed on with the rest of the path and the prefix in its context, so that
    the upstream gets it as [X-Forwarded-Prefix] unless the client sent that
    header itself; any other request is answered with 404. *)
Theorem strip_prefix (prefix : string) (r : Request) :
  prefix <> "" ->
  (HasPrefix (u_path (r_url r)) prefix = true ->
     exists r', forwards (@StripPrefix prefix) r r' /\
       u_path (r_url r) = prefix +:+ u_path (r_url r') /\
       header_get (r_header (MiddlewareSetPrefixHeader r')) PrefixHeader =
         (if String.eqb (header_get (r_header r) PrefixHeader) "" then prefix
          else header_get (r_header r) PrefixHeader)) /\
  (HasPrefix (u_path (r_url r)) prefix = false ->
     forall S (next : Handler S), StripPrefix prefix next r = http_Error "404 page not found" 404).
Proof.
  intros Hne. unfold forwards, StripPrefix. rewrite (proj2 (String.eqb_neq _ _) Hne). split.
  - intros Hp. rewrite (proj2 (Nat.ltb_lt _ _)) by by apply TrimPrefix_shorter.
    set (r' := map_ctx (with_prefix prefix) (set_path (TrimPrefix (u_path (r_url r)) prefix) r)).
    exists r'. split; [reflexivity|]. split.
    + unfold r'. cbn [map_ctx set_ctx r_url set_path set_url u_path].
      unfold TrimPrefix. unfold HasPrefix in *. rewrite Hp. by apply prefix_app_inv.
    + unfold MiddlewareSetPrefixHeader. change (ctx_prefix (r_ctx r')) with (Some prefix).
      change (r_header r') with (r_header r). cbv iota beta.
      destruct (String.eqb_spec (header_get (r_header r) PrefixHeader) "") as [E|E];
        [|reflexivity].
      unfold header_get, header_set, values_get, values_set. cbn [negb set_header r_header].
      by rewrite lookup_insert_eq.
  - intros Hp S next. unfold TrimPrefix. unfold HasPrefix in *. rewrite Hp.
    by rewrite Nat.ltb_irrefl.
Qed.

Lemma strip_prefix_witness :
  exists r', forwards (@StripPrefix "/api/logs/v1")
    (mkReq "GET" (mkURL "" "" "/api/logs/v1/loki/api/v1/query" "") ∅ (Ok "") 0 None background ∅ []) r'
    /\ u_path (r_url r') = "/loki/api/v1/query".
Proof.
  destruct (strip_prefix "/api/logs/v1"
    (mkReq "GET" (mkURL "" "" "/api/logs/v1/loki/api/v1/query" "") ∅ (Ok "") 0 None background ∅ []))
    as [H _]; [discriminate|].
  destruct (H eq_refl) as (r' & Hf & Hu & _). exists r'. split; [exact Hf|].
  apply (f_equal (str_drop (String.length "/api/logs/v1"))) in Hu. rewrite str_drop_app in Hu.
  by rewrite <-Hu.
Defined.
