(* ===== verification/Router.v ===== *)
(** * Routers, groups and reverse proxies

    What the route tables of [api/] use of [chi] and [httputil].  The reverse proxy
    is that of the standard library, with its treatment of the headers.  A router is the
    list of its routes, each with its method, its pattern and its handler behind
    the middlewares of its groups; the search for a route in it is the class
    [Chi].  [calls] says with which requests a middleware calls its next handler;
    chains of middlewares compose it. *)

From stdpp Require Import base tactics option list gmap strings.
From Stdlib Require Import Lia Ascii.
From S2P Require Import Prelude GoStrings Labels Url Strconv Http Proxy.

(** ** [httputil.ReverseProxy]

    What it does to a request between its director and its transport: the headers
    that concern the connection only are removed, which are the known ones and
    whatever the [Connection] header of the client names.  [X-Forwarded-For] is not
    part of the model, a request has no remote address there; and the queries
    of requests whose form was parsed are parsed without an error before, so that
    [cleanQueryParams] leaves them as they are. *)

Definition tab : ascii := "009".
Definition linefeed : ascii := "010".
Definition carriage_return : ascii := "013".

Definition printable (c : ascii) : bool := in_range " " "~" c.

Fixpoint lowerASCII (s : string) : string :=
  match s with "" => "" | String c s => String (to_lower c) (lowerASCII s) end.

(** [httpguts.HeaderValuesContainsToken]. *)
Definition contains_token (values : list string) (token : string) : bool :=
  existsb (fun v => existsb (fun part =>
    String.eqb (lowerASCII (Trim part [" "%char; tab])) (lowerASCII token)) (Split "," v)) values.

(** [upgradeType]. *)
Definition upgradeType (h : Header) : string :=
  if contains_token (header_values h "Connection") "Upgrade" then header_get h "Upgrade" else "".

(** The headers the [Connection] header names. *)
Definition connection_options (h : Header) : list string :=
  filter (fun o => o <> "")
    (header_values h "Connection" ≫= fun v =>
       (fun part => Trim part [" "%char; tab; linefeed; carriage_return]) <$> Split "," v).

Definition hopHeaders : list string :=
  ["Connection"; "Proxy-Connection"; "Keep-Alive"; "Proxy-Authenticate"; "Proxy-Authorization";
   "Te"; "Trailer"; "Transfer-Encoding"; "Upgrade"].

Definition removeHopByHopHeaders (h : Header) : Header :=
  foldl header_del h (connection_options h ++ hopHeaders).

(** The header [h] the director made of the header [inbound], as it is sent. *)
Definition outgoing_header (inbound h : Header) : Header :=
  let reqUpType := upgradeType h in
  let h := removeHopByHopHeaders h in
  let h := if contains_token (header_values inbound "Te") "trailers" then header_set h "Te" "trailers" else h in
  let h := if negb (String.eqb reqUpType "")
           then header_set (header_set h "Connection" "Upgrade") "Upgrade" reqUpType else h in
  match h !! "User-Agent" with None => header_set h "User-Agent" "" | Some _ => h end.

(** Is the header [k] one that the client names in its [Connection] header? *)
Definition connection_names (h : Header) (k : string) : bool :=
  bool_decide (CanonicalKey k ∈ CanonicalKey <$> connection_options h).

Definition outgoing (r out : Request) : Request :=
  mkReq (r_method out) (r_url out) (outgoing_header (r_header r) (r_header out)) (r_body out)
    (r_contentLength out) (r_tls out) (r_ctx out) (r_params out)
    (if connection_names (r_header out) "Cookie" then [] else r_cookies out).

(** The headers that a proxy removes or sets itself. *)
Definition proxy_headers : list string :=
  hopHeaders ++ [PrefixHeader; "X-Forwarded-For"; "User-Agent"].

Lemma header_dels_lookup h ks k :
  foldl header_del h ks !! k = if bool_decide (k ∈ CanonicalKey <$> ks) then None else h !! k.
Proof.
  revert h. induction ks as [|k' ks IH]; intros h; [done|]. cbn [foldl fmap list_fmap]. rewrite IH.
  unfold header_del, values_del. destruct (decide (CanonicalKey k' = k)) as [<-|Hne].
  - rewrite lookup_delete_eq, (bool_decide_eq_true_2 (_ ∈ _ :: _)) by set_solver.
    by destruct (bool_decide _).
  - rewrite lookup_delete_ne by done.
    by rewrite (bool_decide_ext (k ∈ _ :: _) (k ∈ CanonicalKey <$> ks)) by set_solver.
Qed.

(** A header that the proxy does not set itself is sent as the director left it,
    unless the client's [Connection] header names it. *)
Lemma outgoing_header_values inbound h k :
  CanonicalKey k ∉ proxy_headers ->
  header_values (outgoing_header inbound h) k
  = if connection_names h k then [] else header_values h k.
Proof.
  intros Hk. assert (forall h' k' v, k' ∈ proxy_headers -> CanonicalKey k' = k' ->
    header_values (header_set h' k' v) k = header_values h' k) as Hset.
  { intros h' k' v Hin Hc. unfold header_values, header_set, values_all, values_set.
    rewrite Hc, lookup_insert_ne; [done|]. intros ->. done. }
  unfold outgoing_header. set (h1 := removeHopByHopHeaders h).
  set (h2 := if contains_token _ _ then _ else h1). set (h3 := if negb _ then _ else h2).
  assert (forall h', header_values (match h' !! "User-Agent" with
    | None => header_set h' "User-Agent" "" | Some _ => h' end) k = header_values h' k) as ->.
  { intros h'. destruct (_ !! _); [done|]. apply Hset; [|done]. apply (bool_decide_unpack _). by vm_compute. }
  assert (header_values h3 k = header_values h2 k) as ->.
  { unfold h3. destruct (negb _); [|done]. rewrite !Hset; try done; apply (bool_decide_unpack _); by vm_compute. }
  assert (header_values h2 k = header_values h1 k) as ->.
  { unfold h2. destruct (contains_token _ _); [|done]. apply Hset; [|done]. apply (bool_decide_unpack _). by vm_compute. }
  unfold h1, removeHopByHopHeaders, connection_names, header_values, values_all.
  rewrite header_dels_lookup, fmap_app.
  assert (CanonicalKey <$> hopHeaders = hopHeaders) as -> by (vm_compute; reflexivity).
  rewrite (bool_decide_ext _ (CanonicalKey k ∈ CanonicalKey <$> connection_options h)).
  - by destruct (bool_decide _).
  - rewrite elem_of_app. split; [|by left]. intros [?|Hin]; [done|]. exfalso. apply Hk.
    apply elem_of_app. by left.
Qed.

(** ** Routes *)

(** [blockNonDefinedMethods] of [main.go], the handler of the router for a method
    no route of the path has. *)
Definition blockNonDefinedMethods {S} : Handler S := fun _ => WriteHeader 405.

Inductive routing := Found (i : nat) (params : list (string * string)) | MethodNotAllowed | RouteNotFound.

(** The tree of [chi]: among routes given by method ([None] for all) and pattern,
    the one for a method and the path of a URL, with the URL parameters.  The
    middlewares of the root router that only act on the path it routes, such as
    [StripSlashes], belong to the search. *)
Class Chi := { chi_find : list (option string * string) -> string -> string -> routing }.

Section router.
Context {S : Type}.

Record Route := mkRoute {
  rt_method : option string;
  rt_pattern : string;
  rt_handler : Handler S
}.

(** [r.Handle], [r.Method], [r.Get] and the like. *)
Definition Handle (pattern : string) (h : Handler S) : Route := mkRoute None pattern h.
Definition Method (m pattern : string) (h : Handler S) : Route := mkRoute (Some m) pattern h.

(** [r.Group] with one [r.Use] of middlewares. *)
Definition Group (mws : list (Middleware S)) (rs : list Route) : list Route :=
  (fun rt => mkRoute (rt_method rt) (rt_pattern rt) (chain mws (rt_handler rt))) <$> rs.

(** [r.Mount] of a router: its routes below the prefix; of a handler: everything
    below the pattern [/]. *)
Definition Mount (prefix : string) (rs : list Route) : list Route :=
  (fun rt => mkRoute (rt_method rt) (prefix +:+ rt_pattern rt) (rt_handler rt)) <$> rs.
Definition MountHandler (h : Handler S) : Route := mkRoute None "/*" h.

Definition set_params (ps : list (string * string)) (r : Request) : Request :=
  mkReq (r_method r) (r_url r) (r_header r) (r_body r) (r_contentLength r) (r_tls r) (r_ctx r)
    (foldl (fun m kv => <[kv.1 := kv.2]> m) (r_params r) ps) (r_cookies r).

Definition ServeHTTP `{Chi} (rs : list Route) : Handler S := fun r =>
  match chi_find ((fun rt => (rt_method rt, rt_pattern rt)) <$> rs) (r_method r) (u_path (r_url r)) with
  | Found i params =>
      match rs !! i with
      | Some rt => rt_handler rt (set_params params r)
      | None => http_NotFound
      end
  | MethodNotAllowed => blockNonDefinedMethods r
  | RouteNotFound => http_NotFound
  end.

(** [ReverseProxy.ServeHTTP] once the director has made [out] of [r]; [upstream] is
    the transport and what it answers.  A client that asks for an upgrade to
    something that cannot be printed gets 502. *)
Definition proxy_send (upstream : Handler S) (r out : Request) : M S unit :=
  if str_forallb printable (upgradeType (r_header out)) then upstream (outgoing r out)
  else WriteHeader 502.

Definition ReverseProxy (d : Director) (upstream : Handler S) : Handler S := fun r =>
  proxy_send upstream r (d r).
End router.
Arguments Route S : clear implicits.
Abbreviation Router S := (list (Route S)).

(** ** With which requests a middleware calls its next handler *)

Definition agree {S} (Q : Request -> Prop) (h1 h2 : Handler S) : Prop :=
  forall r, Q r -> forall c, h1 r c = h2 r c.

(** On requests with [P], [mw] calls its next handler only with requests with [Q],
    and otherwise does not look at it. *)
Definition passes {S} (P : Request -> Prop) (mw : Middleware S) (Q : Request -> Prop) : Prop :=
  forall h1 h2, agree Q h1 h2 -> agree P (mw h1) (mw h2).

(** What a middleware adds to a request, as a relation. *)
Definition calls {S} (mw : Middleware S) (R : Request -> Request -> Prop) : Prop :=
  forall r, passes (eq r) mw (R r).

Section calls.
Context {S : Type}.
Implicit Types (mw : Middleware S) (mws : list (Middleware S)) (P Q : Request -> Prop).

Lemma agree_mono P Q (h1 h2 : Handler S) : (forall r, P r -> Q r) -> agree Q h1 h2 -> agree P h1 h2.
Proof. intros Hi Ha r HP. apply Ha. auto. Qed.

Lemma passes_forward P mw Q :
  (forall r, P r -> (exists r', Q r' /\ forall next c, mw next r c = next r' c) \/
                    (exists h : Handler S, forall next c, mw next r c = h r c)) -> passes P mw Q.
Proof.
  intros Hf h1 h2 Ha r HP c. destruct (Hf r HP) as [(r' & HQ & E)|(h & E)]; rewrite !E; [|done].
  by apply Ha.
Qed.

Lemma calls_passes P mw (R : Request -> Request -> Prop) Q :
  calls mw R -> (forall r r', P r -> R r r' -> Q r') -> passes P mw Q.
Proof.
  intros Hc HQ h1 h2 Ha r HP. apply (Hc r); [|done]. intros r' HR. by apply Ha, (HQ r).
Qed.

Lemma passes_nil P : passes P (@chain S []) P.
Proof. by intros h1 h2 Ha. Qed.

Lemma passes_cons P mw mws Q Q' : passes P mw Q -> passes Q (chain mws) Q' -> passes P (chain (mw :: mws)) Q'.
Proof. intros Hm Hms h1 h2 Ha. cbn [chain]. by apply Hm, Hms. Qed.

Lemma passes_app P (mws1 mws2 : list (Middleware S)) Q Q' :
  passes P (chain mws1) Q -> passes Q (chain mws2) Q' -> passes P (chain (mws1 ++ mws2)) Q'.
Proof. intros Hm Hms h1 h2 Ha. rewrite !chain_app. by apply Hm, Hms. Qed.

(** Routers whose handlers agree. *)
Definition agree_routes (Q : Request -> Prop) (rt1 rt2 : Route S) : Prop :=
  rt_method rt1 = rt_method rt2 /\ rt_pattern rt1 = rt_pattern rt2 /\
  agree Q (rt_handler rt1) (rt_handler rt2).

(** The parameters of a route are not part of what a router is asked about. *)
Definition any_params (Q : Request -> Prop) : Prop := forall ps r, Q r -> Q (set_params ps r).

Lemma ServeHTTP_agree `{Chi} Q (rs1 rs2 : Router S) : any_params Q ->
  Forall2 (agree_routes Q) rs1 rs2 -> agree Q (ServeHTTP rs1) (ServeHTTP rs2).
Proof.
  intros Hps Hrs r HQ c. unfold ServeHTTP.
  assert ((fun rt => (rt_method rt, rt_pattern rt)) <$> rs1 =
          (fun rt => (rt_method rt, rt_pattern rt)) <$> rs2) as ->.
  { apply list_eq_Forall2, Forall2_fmap. eapply Forall2_impl; [exact Hrs|].
    intros rt1 rt2 (-> & -> & _). done. }
  destruct (chi_find _ _ _) as [i ps| |]; [|done|done].
  destruct (rs1 !! i) as [rt1|] eqn:E1.
  - destruct (Forall2_lookup_l _ _ _ _ _ Hrs E1) as (rt2 & -> & _ & _ & Hh). apply Hh. by apply Hps.
  - apply lookup_ge_None in E1. rewrite (Forall2_length _ _ _ Hrs) in E1.
    apply lookup_ge_None in E1. by rewrite E1.
Qed.

Lemma agree_routes_refl Q (rs : Router S) : Forall2 (agree_routes Q) rs rs.
Proof. induction rs; constructor; [by repeat split|done]. Qed.

Lemma agree_routes_mono P Q (rs1 rs2 : Router S) : (forall r, P r -> Q r) ->
  Forall2 (agree_routes Q) rs1 rs2 -> Forall2 (agree_routes P) rs1 rs2.
Proof.
  intros Hi Hrs. eapply Forall2_impl; [exact Hrs|]. intros rt1 rt2 (? & ? & ?).
  split_and!; [done|done|]. by eapply agree_mono.
Qed.

(** A group lets its routes be called with what its chain passes on. *)
Lemma Group_agree P mws Q rs1 rs2 : passes P (chain mws) Q ->
  Forall2 (agree_routes Q) rs1 rs2 -> Forall2 (agree_routes P) (Group mws rs1) (Group mws rs2).
Proof.
  intros Hm Hrs. unfold Group. apply Forall2_fmap. eapply Forall2_impl; [exact Hrs|].
  intros rt1 rt2 (? & ? & ?). split_and!; [done|done|]. by apply Hm.
Qed.

Lemma Mount_agree prefix Q rs1 rs2 :
  Forall2 (agree_routes Q) rs1 rs2 -> Forall2 (agree_routes Q) (Mount prefix rs1) (Mount prefix rs2).
Proof.
  intros Hrs. apply Forall2_fmap. eapply Forall2_impl; [exact Hrs|].
  intros rt1 rt2 (Hm & Hp & Hh). split_and!; [done|cbn; by rewrite Hp|done].
Qed.

Lemma ReverseProxy_agree (d : Director) P Q (up1 up2 : Handler S) :
  (forall r, P r -> Q (outgoing r (d r))) -> agree Q up1 up2 ->
  agree P (ReverseProxy d up1) (ReverseProxy d up2).
Proof.
  intros Hd Ha r HP c. unfold ReverseProxy, proxy_send. destruct (str_forallb _ _); [|done].
  apply Ha. auto.
Qed.
End calls.
