(* ===== verification/Login.v ===== *)
(** * What the login flows of the authenticators share

    [authentication/var.go], the redirects and cookies of [net/http] that
    [authentication/oidc.go] and [openshift.go] write, and the classes of the
    packages they call: the OAuth 2 client and the parser of URLs. *)

From stdpp Require Import base tactics option list gmap strings pretty.
From Stdlib Require Import ZArith Lia Ascii.
From S2P Require Import Prelude GoStrings Labels Url Strconv Http Proxy.

(** The state parameter of every login. *)
Definition state : string := "I love MCOA Gateway".

(** [fmt.Sprintf("mcoa_gateway_%s", tenant)]. *)
Definition cookie_name (tenant : string) : string := "mcoa_gateway_" +:+ tenant.

(** ** [path.Join] of several elements *)

Definition path_JoinAll (elems : list string) : string :=
  let elems := filter (fun e => e <> "") elems in
  if bool_decide (elems = []) then "" else Clean (Join elems "/").

(** ** URLs *)

Class UrlCodec := {
  url_Parse : string -> result URL;
  url_String : URL -> string
}.

(** ** [http.Redirect] *)

(** [path.Split]: the directory, with its slash. *)
Fixpoint split_dir (s : string) : option string :=
  match s with
  | EmptyString => None
  | String c s =>
      match split_dir s with
      | Some d => Some (String c d)
      | None => if Ascii.eqb c "/" then Some "/" else None
      end
  end.

Fixpoint cut_query (s : string) : string * string :=
  match s with
  | EmptyString => ("", "")
  | String c s' =>
      if Ascii.eqb c "?" then ("", s)
      else let '(p, q) := cut_query s' in (String c p, q)
  end.

(** The target: a path is made absolute and cleaned. *)
Definition redirect_target `{UrlCodec} (r : Request) (url : string) : string :=
  match url_Parse url with
  | Err _ => url
  | Ok u =>
      if negb (String.eqb (u_scheme u) "" && String.eqb (u_host u) "") then url
      else
        let oldpath := if String.eqb (u_path (r_url r)) "" then "/" else u_path (r_url r) in
        let url := if HasPrefix url "/" then url else default "" (split_dir oldpath) +:+ url in
        let '(p, query) := cut_query url in
        let c := Clean p in
        (if HasSuffix p "/" && negb (HasSuffix c "/") then c +:+ "/" else c) +:+ query
  end.

Fixpoint concat_map (f : ascii -> string) (s : string) : string :=
  match s with EmptyString => "" | String c s => f c +:+ concat_map f s end.

Definition hexEscapeNonASCII : string -> string :=
  concat_map (fun c => if is_ascii c then String c "" else "%" +:+ hex_digits 2 (N_of_ascii c)).

Definition htmlEscape : string -> string :=
  concat_map (fun c =>
    if Ascii.eqb c "&" then "&amp;"
    else if Ascii.eqb c "<" then "&lt;"
    else if Ascii.eqb c ">" then "&gt;"
    else if Ascii.eqb c (byte 34) then "&#34;"
    else if Ascii.eqb c "'" then "&#39;"
    else String c "").

Definition StatusText (code : Z) : string :=
  if (code =? 301)%Z then "Moved Permanently"
  else if (code =? 302)%Z then "Found" else if (code =? 303)%Z then "See Other" else "".

Definition had_content_type (w : Writer) : bool := bool_decide (is_Some (w_header w !! "Content-Type")).

Definition http_Redirect `{UrlCodec} {S} (r : Request) (url : string) (code : Z) : M S unit :=
  fun c =>
  let hadCT := had_content_type (conn_w c) in
  let url := redirect_target r url in
  (_ ← w_set "Location" (hexEscapeNonASCII url);
   _ ← (if negb hadCT && (String.eqb (r_method r) "GET" || String.eqb (r_method r) "HEAD")
        then w_set "Content-Type" "text/html; charset=utf-8" else mret tt);
   _ ← WriteHeader code;
   if negb hadCT && String.eqb (r_method r) "GET"
   then Write (Raw ("<a href=" +:+ dquote +:+ htmlEscape url +:+ dquote +:+ ">" +:+ StatusText code
                    +:+ "</a>." +:+ String (byte 10) (String (byte 10) "")))
   else mret tt) c.

(** ** [http.SetCookie] *)

Definition cookie_byte (c : ascii) : bool :=
  let n := N_of_ascii c in
  (32 <=? n)%N && (n <? 127)%N && negb (n =? 34)%N && negb (n =? 59)%N && negb (n =? 92)%N.

Fixpoint keep (p : ascii -> bool) (s : string) : string :=
  match s with EmptyString => "" | String c s => if p c then String c (keep p s) else keep p s end.

(** [sanitizeCookieValue]. *)
Definition cookie_value (v : string) : string :=
  let v := keep cookie_byte v in
  if ContainsAny v [" "; ","]%char then dquote +:+ v +:+ dquote else v.

(** [Cookie.String] of a cookie with the path [/]; [expires] is the formatted
    time, [None] when it is not valid.  A cookie whose name is not a token is
    not set. *)
Definition cookie_String (name value : string) (expires : option string) : string :=
  if negb (String.eqb name "") && str_forallb is_token_char name then
    name +:+ "=" +:+ cookie_value value +:+ "; Path=/" +:+
    match expires with Some e => "; Expires=" +:+ e | None => "" end
  else "".

Definition SetCookie {S} (name value : string) (expires : option string) : M S unit :=
  let v := cookie_String name value expires in
  if String.eqb v "" then mret tt
  else mod_writer (fun w => mkWriter (header_add (w_header w) "Set-Cookie" v) (w_sent w) (w_body w)).

(** The cookies of a response that has been sent. *)
Definition sent_cookies {S} (c : Conn S) : list string :=
  match w_sent (conn_w c) with
  | Some (_, h) => header_values h "Set-Cookie"
  | None => []
  end.

(** ** OAuth 2

    The configuration of [golang.org/x/oauth2]; [Exchange] gives the token for a
    code. *)

Record oauth2_Config := mkOAuth2 {
  ClientID : string;
  ClientSecret : string;
  AuthURL : string;
  TokenURL : string;
  RedirectURL : string;
  Scopes : list string
}.

(** [t_Valid] is [Valid()], [t_id_token] the extra [id_token] when it is a
    string, [t_Expiry] the expiry as a cookie writes it. *)
Record Token := mkToken {
  t_AccessToken : string;
  t_Valid : bool;
  t_id_token : option string;
  t_Expiry : option string
}.

Class OAuth2 := {
  AuthCodeURL : oauth2_Config -> string -> string;
  Exchange : oauth2_Config -> string -> result Token
}.

(** ** Lemmas *)

Lemma Ok_inj {A} (a b : A) : Ok a = Ok b -> a = b.
Proof. by intros [= ->]. Qed.

(** What a browser keeps of a cookie: its name and its value. *)
Fixpoint upto (stop : ascii) (s : string) : string :=
  match s with
  | EmptyString => ""
  | String c s => if Ascii.eqb c stop then "" else String c (upto stop s)
  end.

Definition kept_cookie (h : string) : string * string :=
  let '(name, attrs) := cut_eq h in (name, upto ";" attrs).

Lemma unreserved_facts c : unreserved c = true ->
  cookie_byte c = true /\ mem_char c [" "; ","]%char = false /\ Ascii.eqb c ";" = false.
Proof. destruct c as [[] [] [] [] [] [] [] []]; vm_compute; try discriminate; by repeat split. Qed.

Lemma cookie_value_unreserved v : str_forallb unreserved v = true -> cookie_value v = v.
Proof.
  intros Hv. unfold cookie_value.
  assert (keep cookie_byte v = v /\ ContainsAny v [" "; ","]%char = false) as [-> ->]; [|done].
  unfold ContainsAny. induction v as [|c v IH]; [done|]. cbn [str_forallb keep str_existsb] in *.
  apply andb_true_iff in Hv as [Hc Hv]. destruct (unreserved_facts c Hc) as (-> & -> & _).
  destruct (IH Hv) as [-> ->]. done.
Qed.

Lemma upto_unreserved v rest : str_forallb unreserved v = true -> upto ";" (v +:+ ";" +:+ rest) = v.
Proof.
  induction v as [|c v IH]; [done|]. cbn [str_forallb]. intros [Hc Hv]%andb_true_iff.
  rewrite str_app_cons. cbn [upto]. destruct (unreserved_facts c Hc) as (_ & _ & ->). by rewrite IH.
Qed.

Lemma token_lacks_eq name : str_forallb is_token_char name = true -> lacks "=" name = true.
Proof.
  apply str_forallb_impl. intros c. destruct c as [[] [] [] [] [] [] [] []]; vm_compute; done.
Qed.

Lemma kept_cookie_String name v expires :
  name <> "" -> str_forallb is_token_char name = true -> str_forallb unreserved v = true ->
  kept_cookie (cookie_String name v expires) = (name, v).
Proof.
  intros Hne Hn Hv. unfold cookie_String, kept_cookie.
  rewrite (proj2 (String.eqb_neq _ _) Hne), Hn, cookie_value_unreserved by done. cbn [negb andb].
  rewrite cut_eq_app by by apply token_lacks_eq. f_equal.
  change ("; Path=/" +:+ ?x) with (";" +:+ " Path=/" +:+ x). by apply upto_unreserved.
Qed.

Section responses.
Context {S : Type}.

(** An API error sends its status and no cookie. *)
Lemma api_error_sends msg code (st : S) :
  exists c, PrometheusAPIError msg code (mkConn fresh_writer st) = (Return tt, c) /\
    response_status c = code /\ sent_cookies c = [] /\ conn_st c = st.
Proof. eexists. split; [reflexivity|]. done. Qed.

(** A cookie followed by a redirect sends both. *)
Lemma cookie_redirect_sends `{UrlCodec} r name value expires url code (st : S) :
  cookie_String name value expires <> "" ->
  exists c,
    (_ ← SetCookie name value expires; http_Redirect r url code) (mkConn fresh_writer st)
    = (Return tt, c) /\
    response_status c = code /\ sent_cookies c = [cookie_String name value expires] /\
    conn_st c = st /\
    exists h, w_sent (conn_w c) = Some (code, h) /\
      header_get h "Location" = hexEscapeNonASCII (redirect_target r url).
Proof.
  intros Hv. unfold SetCookie. rewrite (proj2 (String.eqb_neq _ _) Hv).
  unfold http_Redirect, mbind, M_bind, mod_writer. cbn.
  destruct (String.eqb (r_method r) "GET" || String.eqb (r_method r) "HEAD"),
    (String.eqb (r_method r) "GET"); (eexists; split; [reflexivity|]); cbn.
  all: split_and!; [done| |done|eexists; split; [reflexivity|]]; vm_compute; done.
Qed.
End responses.

(** Absolute paths and URLs without a query, for concrete runs. *)
Definition simple_urls : UrlCodec := {|
  url_Parse := fun s =>
    if HasPrefix s "/" then let '(p, q) := cut_query s in Ok (mkURL "" "" p (str_drop 1 q))
    else if HasPrefix s "https://" then Ok (mkURL "https" (str_drop 8 s) "" "")
    else Err "parse error";
  url_String := fun u =>
    (if String.eqb (u_scheme u) "" then "" else u_scheme u +:+ "://") +:+ u_host u +:+ u_path u
    +:+ (if String.eqb (u_rawQuery u) "" then "" else "?" +:+ u_rawQuery u)
|}.

(** ** A concrete provider and a concrete request *)

Definition demo_oauth2 : OAuth2 := {|
  AuthCodeURL := fun cfg state => AuthURL cfg +:+ "?client_id=" +:+ ClientID cfg +:+ "&state=" +:+ state;
  Exchange := fun cfg code =>
    if String.eqb code "c0de" then Ok (mkToken "sha256~alice" true (Some "id.alice") None)
    else Err "invalid_grant"
|}.

Definition demo_request (header : Header) (query : string) : Request :=
  mkReq "GET" (mkURL "" "gw" "/api/metrics/v1/team" query) header (Ok "") 0 None
    (with_tenant "team" background) ∅ [].
