(* ===== verification/Oidc.v ===== *)
(** * The OIDC authenticator: [authentication/oidc.go]

    Login, callback and the authentication of requests over HTTP and gRPC.  The
    verification of ID tokens of [coreos/go-oidc] and the OAuth 2 client are the
    classes [Oidc] and [OAuth2]; the certificate files the class
    [Pem]. *)

From stdpp Require Import base tactics option list gmap strings pretty.
From Stdlib Require Import ZArith Lia Ascii.
From S2P Require Import Prelude GoStrings Labels Url Strconv Json Http Tenant Proxy Login.

Import MTLSTenant.

(** ** Claims

    A claim is a JSON value; [format_number] is how [fmt] prints the float64 a
    JSON number is read into. *)

Record IDToken := mkIDToken {
  id_Subject : string;
  id_Claims : result (gmap string json)
}.

Class Oidc := {
  Verify : string -> result IDToken;
  format_number : string -> string
}.

(** Files and certificates; decoding a PEM block takes a part of the text. *)
Class Pem := {
  pem_ReadFile : string -> result string;
  pem_Decode : string -> option (string * string);
  ParseCertificate : string -> result string
}.

Record oidcConfig := mkOidcConfig {
  oidc_ClientID : string;
  oidc_ClientSecret : string;
  GroupClaim : string;
  IssuerRawCA : string;
  IssuerCAPath : string;
  IssuerURL : string;
  oidc_RedirectURL : string;
  UsernameClaim : string
}.

Record oidcAuthenticator := mkOidc {
  oa_tenant : string;
  oa_config : oidcConfig;
  oa_cookieName : string;
  oa_redirectURL : string;
  oa_oauth2Config : oauth2_Config
}.

Section oidc.
Context `{Oidc} `{OAuth2} `{UrlCodec} `{Pem}.

(** [fmt.Sprintf("%v", v)]. *)
Fixpoint sprint (v : json) : string :=
  match v with
  | JNull => "<nil>"
  | JBool b => if b then "true" else "false"
  | JNum lit => format_number lit
  | JStr s => s
  | JArr l => "[" +:+ Join (map sprint l) " " +:+ "]"
  | JObj l =>
      let m := foldl (fun m kv => <[kv.1 := kv.2]> m) (∅ : gmap string string)
                 (map (fun kv => (kv.1, sprint kv.2)) l) in
      "map[" +:+ Join ((fun k => k +:+ ":" +:+ default "" (m !! k)) <$> sorted_keys m) " " +:+ "]"
  end.

(** ** [newOIDCAuthenticator] *)

(** The certificates of the issuer CA, block by block; [fuel] bounds the blocks. *)
Fixpoint issuer_certs (fuel : nat) (rest : string) (certs : list string) : result (list string) :=
  match fuel with
  | O => Ok certs
  | S fuel =>
      match pem_Decode rest with
      | None => Ok certs
      | Some (block, rest) =>
          match ParseCertificate block with
          | Err e => Err ("failed to parse issuer certificate: " +:+ e)
          | Ok cert => issuer_certs fuel rest (certs ++ [cert])
          end
      end
  end.

Definition issuerCAs (config : oidcConfig) : result (list string) :=
  raw ← (if negb (String.eqb (IssuerCAPath config) "")
         then match pem_ReadFile (IssuerCAPath config) with
              | Err e => Err ("failed to read issuer ca file: " +:+ e)
              | Ok raw => Ok raw
              end
         else Ok (IssuerRawCA config));
  if String.eqb raw "" then Ok []
  else
    certs ← issuer_certs (S (String.length raw)) raw [];
    if bool_decide (certs = []) then Err "failed to parse issuer CA certificate PEM" else Ok certs.

(** From the decoded configuration, with the roots its client trusts when it
    does not use those of the system; [endpoint] are the URLs of the provider. *)
Definition newOIDCAuthenticator (config : oidcConfig) (endpoint : string * string) (tenant : string) :
    result (oidcAuthenticator * option (list string)) :=
  if String.eqb (IssuerURL config) "" then Err "issuerURL is required"
  else
    cas ← issuerCAs config;
    let oauth2Config := mkOAuth2 (oidc_ClientID config) (oidc_ClientSecret config) endpoint.1
      endpoint.2 (oidc_RedirectURL config) ["openid"; "profile"; "email"; "groups"] in
    Ok (mkOidc tenant config (cookie_name tenant) (path_JoinAll ["/"; tenant]) oauth2Config,
        if bool_decide (cas = []) then None else Some cas).

(** [newOIDCProvider]: tries the discovery until it answers, and counts the
    failures in the retry counter of the tenant; [None] while no attempt has
    succeeded. *)
Fixpoint newOIDCProvider {P} (attempts : list (result P)) : option (P * nat) :=
  match attempts with
  | [] => None
  | Ok provider :: _ => Some (provider, O)
  | Err _ :: attempts => '(provider, retries) ← newOIDCProvider attempts; Some (provider, S retries)
  end.

Lemma newOIDCProvider_first {P} (attempts : list (result P)) provider n :
  newOIDCProvider attempts = Some (provider, n) <->
  attempts !! n = Some (Ok provider) /\ Forall (fun a => is_ok a = false) (take n attempts).
Proof.
  revert n. induction attempts as [|[p|e] attempts IH]; intros [|n]; cbn [newOIDCProvider lookup list_lookup take].
  - split; [done|by intros []].
  - split; [done|by intros []].
  - split; [by intros [= ->]|by intros [[= ->] _]].
  - split; [done|]. intros [_ [? _]%Forall_cons]. done.
  - split; [|by intros []]. by intros ([] & _ & ?)%bind_Some.
  - rewrite Forall_cons. split.
    + intros ([p m] & E & [= <- <-])%bind_Some. apply IH in E as [? ?]. by split_and!.
    + intros (E & _ & Hf). by rewrite (proj2 (IH n) (conj E Hf)).
Qed.

(** ** The login flow *)

Definition oidcLoginHandler {S} (oauth2Config : oauth2_Config) : Handler S := fun r =>
  http_Redirect r (AuthCodeURL oauth2Config state) 303.

Definition oidcCallBackHandler {S} (a : oidcAuthenticator) : Handler S := fun r =>
  let q := URL_Query r in
  if negb (String.eqb (values_get q "error") "") then
    PrometheusAPIError (values_get q "error" +:+ ": " +:+ values_get q "error_description") 400
  else if String.eqb (values_get q "code") "" then PrometheusAPIError "no code in request" 400
  else if negb (String.eqb (values_get q "state") state) then
    PrometheusAPIError "incorrect state in request" 400
  else
    match Exchange (oa_oauth2Config a) (values_get q "code") with
    | Err e => PrometheusAPIError ("failed to get token: " +:+ e) 500
    | Ok token =>
        match t_id_token token with
        | None => PrometheusAPIError "no id_token in token response" 500
        | Some rawIDToken =>
            match Verify rawIDToken with
            | Err e => PrometheusAPIError ("failed to verify ID token: " +:+ e) 500
            | Ok _ =>
                _ ← SetCookie (oa_cookieName a) rawIDToken (t_Expiry token);
                http_Redirect r (oa_redirectURL a) 302
            end
        end
    end.

(** The routes below the pattern of the provider. *)
Definition oidc_Handler {S} (a : oidcAuthenticator) : string * list (string * Handler S) :=
  ("/oidc/{tenant}",
   [("/login", oidcLoginHandler (oa_oauth2Config a)); ("/callback", oidcCallBackHandler a)]).

(** ** [checkAuth]

    The new context, or the error with its status over HTTP and gRPC. *)

Definition claim_groups (v : json) : list string :=
  match v with
  | JStr s => [s]
  | JArr l => sprint <$> l
  | _ => []
  end.

Inductive auth_result :=
  | Authenticated (c : Context)
  | Refused (msg : string) (status : Z) (code : Code).

Definition checkAuth (a : oidcAuthenticator) (ctx : Context) (token : string) : auth_result :=
  match Verify token with
  | Err _ => Refused "failed to verify ID token" 500 Unknown
  | Ok idToken =>
      let with_user (sub : string) :=
        let ctx := with_subject sub ctx in
        if String.eqb (GroupClaim (oa_config a)) "" then Authenticated ctx
        else
          match id_Claims idToken with
          | Err _ => Refused "failed to read claims" 500 Internal
          | Ok claims =>
              match claims !! GroupClaim (oa_config a) with
              | None => Refused "group cannot be empty" 400 PermissionDenied
              | Some rawGroup => Authenticated (with_groups (claim_groups rawGroup) ctx)
              end
          end in
      if String.eqb (UsernameClaim (oa_config a)) "" then with_user (id_Subject idToken)
      else
        match id_Claims idToken with
        | Err _ => Refused "failed to read claims" 500 Internal
        | Ok claims =>
            match claims !! UsernameClaim (oa_config a) with
            | None => Refused "username cannot be empty" 400 PermissionDenied
            | Some rawUsername =>
                match rawUsername with
                | JStr username =>
                    if String.eqb username "" then Refused "invalid username claim value" 400 PermissionDenied
                    else with_user username
                | _ => Refused "invalid username claim value" 400 PermissionDenied
                end
            end
        end
  end.

(** ** HTTP and gRPC *)

Definition oidc_Middleware (a : oidcAuthenticator) {S} (next : Handler S) : Handler S := fun r =>
  let check (token : string) :=
    match checkAuth a (r_ctx r) token with
    | Refused msg code _ => PrometheusAPIError msg code
    | Authenticated ctx => next (set_ctx ctx r)
    end in
  let authorizationHeader := header_get (r_header r) "Authorization" in
  if negb (String.eqb authorizationHeader "") then
    match Split " " authorizationHeader with
    | [_; token] => check token
    | _ => PrometheusAPIError "invalid Authorization header" 401
    end
  else
    match Cookie r (oa_cookieName a) with
    | None =>
        match GetTenant (r_ctx r) with
        | None => PrometheusAPIError "error finding tenant" 500
        | Some tenant =>
            _ ← w_set "Location" (path_JoinAll ["/oidc"; tenant; "/login"]);
            PrometheusAPIError "failed to find token" 302
        end
    | Some token => check token
    end.

Definition oidc_GRPCMiddleware (a : oidcAuthenticator) : Interceptor :=
  AuthInterceptor (fun ctx =>
    match g_md ctx with
    | None => (ctx, Some (Internal, "metadata error"))
    | Some md =>
        let check (token : string) :=
          match checkAuth a (g_ctx ctx) token with
          | Refused msg _ code => (ctx, Some (code, msg))
          | Authenticated c => (g_map_ctx (fun _ => c) ctx, None)
          end in
        match md_get md "Authorization" with
        | [] => check ""
        | h :: _ =>
            if String.eqb h "" then check ""
            else
              match Split " " h with
              | [_; token] => check token
              | _ => (ctx, Some (InvalidArgument, "invalid Authorization header"))
              end
        end
    end).

(** ** Who is authenticated *)

(** The subject and the groups of a verified token under a configuration. *)
Definition subject_of (cfg : oidcConfig) (t : IDToken) (sub : string) : Prop :=
  if String.eqb (UsernameClaim cfg) "" then sub = id_Subject t
  else exists claims, id_Claims t = Ok claims /\
         claims !! UsernameClaim cfg = Some (JStr sub) /\ sub <> "".

Definition groups_of (cfg : oidcConfig) (t : IDToken) (groups : option (list string)) : Prop :=
  if String.eqb (GroupClaim cfg) "" then groups = None
  else exists claims v, id_Claims t = Ok claims /\
         claims !! GroupClaim cfg = Some v /\ groups = Some (claim_groups v).

Definition identified (cfg : oidcConfig) (token sub : string) (groups : option (list string)) : Prop :=
  exists t, Verify token = Ok t /\ subject_of cfg t sub /\ groups_of cfg t groups.

Lemma identified_unique cfg token sub sub' g g' :
  identified cfg token sub g -> identified cfg token sub' g' -> sub = sub' /\ g = g'.
Proof.
  intros (t & Ht & Hs & Hg) (t' & Ht' & Hs' & Hg'). assert (t' = t) as -> by congruence.
  unfold subject_of, groups_of in *. split.
  - destruct (String.eqb _ ""); [congruence|].
    destruct Hs as (c & Hc & Hl & _), Hs' as (c' & Hc' & Hl' & _). congruence.
  - destruct (String.eqb (GroupClaim cfg) ""); [congruence|].
    destruct Hg as (c & v & Hc & Hl & ->), Hg' as (c' & v' & Hc' & Hl' & ->). congruence.
Qed.

Definition identity (sub : string) (groups : option (list string)) (c : Context) : Context :=
  match groups with
  | Some g => with_groups g (with_subject sub c)
  | None => with_subject sub c
  end.

(** The status of a refusal over HTTP and gRPC. *)
Definition refusals : list (Z * Code) :=
  [(500%Z, Unknown); (500%Z, Internal); (400%Z, PermissionDenied)].

Lemma checkAuth_spec a c token :
  (exists sub groups, identified (oa_config a) token sub groups /\
     checkAuth a c token = Authenticated (identity sub groups c)) \/
  (exists msg status code, (status, code) ∈ refusals /\
     checkAuth a c token = Refused msg status code /\
     forall sub groups, ~ identified (oa_config a) token sub groups).
Proof.
  unfold checkAuth, identified. set (cfg := oa_config a).
  destruct (Verify token) as [t|e] eqn:Ev.
  2:{ right. do 3 eexists. split_and!; [left|done|]. by intros ? ? (? & ? & _). }
  assert (forall msg status code, (status, code) ∈ refusals ->
    (forall sub groups, subject_of cfg t sub -> groups_of cfg t groups -> False) ->
    exists msg' status' code', (status', code') ∈ refusals /\
      Refused msg status code = Refused msg' status' code' /\
      forall sub groups, ~ exists t0, Ok t = Ok t0 /\ subject_of cfg t0 sub /\ groups_of cfg t0 groups)
    as Hbad.
  { intros msg status code Hin Hno. do 3 eexists. split_and!; [exact Hin|done|].
    intros sub groups (t0 & [= <-] & Hs & Hg). by eapply Hno. }
  unfold subject_of, groups_of in *.
  repeat (case_match; try (right; apply Hbad; [set_solver|naive_solver])).
  all: repeat match goal with
    | E : String.eqb ?s "" = true |- context [Refused "invalid username claim value"] =>
        apply String.eqb_eq in E; right; apply Hbad; [set_solver|naive_solver]
    | E : String.eqb ?s "" = false |- _ => apply String.eqb_neq in E
    end.
  all: left; first
    [ eexists _, None; split; [|reflexivity]; exists t; split_and!; by eauto
    | eexists _, (Some _); split; [|reflexivity]; exists t; split_and!; by eauto 10 ].
Qed.

(** The token a request presents: the second word of its authorization header,
    whatever the first one is, or else the session cookie. *)
Definition presented (a : oidcAuthenticator) (r : Request) (token : string) : Prop :=
  let h := header_get (r_header r) "Authorization" in
  if String.eqb h "" then Cookie r (oa_cookieName a) = Some token
  else exists scheme, Split " " h = [scheme; token].

Lemma presented_unique a r t t' : presented a r t -> presented a r t' -> t = t'.
Proof.
  unfold presented. destruct (String.eqb _ ""); [congruence|].
  intros [x ->] [y E]. congruence.
Qed.

Lemma oidc_Middleware_presented a r token {S} (next : Handler S) :
  presented a r token ->
  oidc_Middleware a next r = match checkAuth a (r_ctx r) token with
                             | Refused msg code _ => PrometheusAPIError msg code
                             | Authenticated ctx => next (set_ctx ctx r)
                             end.
Proof.
  unfold presented, oidc_Middleware. destruct (String.eqb _ ""); cbn [negb].
  - by intros ->.
  - by intros [scheme ->].
Qed.

(** C14: Authentication by OIDC over HTTP.  A request is passed on exactly when
    the token it presents verifies and gives a subject and groups, and then its
    context carries these and nothing else of it changes.  A token that does not
    is refused with 400 or 500; a malformed authorization header with 401; and a
    request with neither header nor cookie is redirected to the login of its
    tenant. *)
Theorem oidc_authentication (a : oidcAuthenticator) (r : Request) :
  (forall token sub groups,
     presented a r token -> identified (oa_config a) token sub groups ->
     forwards (@oidc_Middleware a) r (map_ctx (identity sub groups) r)) /\
  (forall token,
     presented a r token -> (forall sub groups, ~ identified (oa_config a) token sub groups) ->
     rejects (@oidc_Middleware a) r 400 \/ rejects (@oidc_Middleware a) r 500) /\
  ((forall token, ~ presented a r token) ->
     if String.eqb (header_get (r_header r) "Authorization") "" then
       match GetTenant (r_ctx r) with
       | None => rejects (@oidc_Middleware a) r 500
       | Some tenant => forall S (next : Handler S) st, exists c,
           oidc_Middleware a next r (mkConn fresh_writer st) = (Return tt, c) /\
           response_status c = 302%Z /\ conn_st c = st /\
           header_get (w_header (conn_w c)) "Location" = path_JoinAll ["/oidc"; tenant; "/login"]
       end
     else rejects (@oidc_Middleware a) r 401).
Proof.
  split_and!.
  - intros token sub groups Hp Hid S next. rewrite (oidc_Middleware_presented _ _ _ _ Hp).
    destruct (checkAuth_spec a (r_ctx r) token) as [(sub' & g' & Hid' & ->)|(? & ? & ? & _ & _ & Hno)].
    + by destruct (identified_unique _ _ _ _ _ _ Hid Hid') as [-> ->].
    + by destruct (Hno sub groups).
  - intros token Hp Hno.
    destruct (checkAuth_spec a (r_ctx r) token) as [(sub & g & Hid & _)|(msg & st & co & Hin & E & _)];
      [by destruct (Hno sub g)|].
    assert (st = 400%Z \/ st = 500%Z) as Hst by (unfold refusals in Hin; set_solver).
    destruct Hst as [-> | ->]; [left|right]; exists msg; intros S next;
      by rewrite (oidc_Middleware_presented _ _ _ _ Hp), E.
  - unfold presented. intros Hno. unfold rejects, oidc_Middleware.
    destruct (String.eqb _ "") eqn:Eh; cbn [negb] in *.
    + destruct (Cookie r (oa_cookieName a)) as [t|]; [by destruct (Hno t)|].
      destruct (GetTenant (r_ctx r)) as [tenant|]; [|by eexists].
      intros S next st. eexists. split; [reflexivity|]. done.
    + destruct (Split " " _) as [|x [|y [|z l]]] eqn:Es; try (by eexists).
      by destruct (Hno y); exists x.
Qed.

(** A stream that carries the authorization of a request. *)
Definition same_authorization (h : string) (r : Request) (ctx : GrpcCtx) : Prop :=
  header_get (r_header r) "Authorization" = h /\ g_ctx ctx = r_ctx r /\
  exists md rest, g_md ctx = Some md /\ md_get md "Authorization" = h :: rest.

(** C18: GRPC decides like HTTP.  For a stream and a request with the same
    authorization, either both are passed on with the same context, or both are
    refused with the same message and corresponding codes.  The sessions of
    browsers, kept in cookies, exist over HTTP only. *)
Theorem oidc_grpc_like_http (a : oidcAuthenticator) (h : string) (r : Request) (ctx : GrpcCtx) :
  h <> "" -> same_authorization h r ctx ->
  (exists c, forwards (@oidc_Middleware a) r (set_ctx c r) /\
     forall handler, oidc_GRPCMiddleware a ctx handler = handler (g_map_ctx (fun _ => c) ctx)) \/
  (exists msg status code, (status, code) ∈ (401%Z, InvalidArgument) :: refusals /\
     (forall S (next : Handler S), oidc_Middleware a next r = PrometheusAPIError msg status) /\
     forall handler, oidc_GRPCMiddleware a ctx handler = Some (code, msg)).
Proof.
  intros Hh (Hr & Hctx & md & rest & Hmd & Hget).
  unfold forwards, oidc_Middleware, oidc_GRPCMiddleware, AuthInterceptor.
  rewrite Hr, Hmd, Hget, Hctx, (proj2 (String.eqb_neq _ _) Hh). cbn [negb].
  destruct (Split " " h) as [|x [|token [|z l]]]; try (right; do 3 eexists; split; [left|done]).
  destruct (checkAuth_spec a (r_ctx r) token) as [(sub & g & _ & ->)|(msg & st & co & Hin & -> & _)].
  - left. by eexists.
  - right. exists msg, st, co. split; [by right|done].
Qed.

(** The callback of the login.  It answers 302 and sets the session cookie
    exactly when the request carries the state of the login, a code and no error,
    the code is exchanged for a token with an ID token, and that verifies; the
    cookie holds the ID token.  In every other case the answer is 400 or 500
    and no cookie is set. *)
Theorem oidc_callback {S} (a : oidcAuthenticator) (r : Request) (st : S) :
  let q := URL_Query r in
  let login_ok raw expiry := values_get q "error" = "" /\ values_get q "code" <> "" /\
    values_get q "state" = state /\ is_ok (Verify raw) = true /\
    exists token, Exchange (oa_oauth2Config a) (values_get q "code") = Ok token /\
      t_id_token token = Some raw /\ t_Expiry token = expiry in
  str_forallb is_token_char (oa_cookieName a) = true -> oa_cookieName a <> "" ->
  exists c, oidcCallBackHandler a r (mkConn fresh_writer st) = (Return tt, c) /\ conn_st c = st /\
    ((exists raw expiry, login_ok raw expiry /\ response_status c = 302%Z /\
        sent_cookies c = [cookie_String (oa_cookieName a) raw expiry]) \/
     ((forall raw expiry, ~ login_ok raw expiry) /\ sent_cookies c = [] /\
      (response_status c = 400%Z \/ response_status c = 500%Z))).
Proof.
  intros q login_ok Hn Hne.
  assert (forall msg code, (forall raw expiry, ~ login_ok raw expiry) -> code = 400%Z \/ code = 500%Z ->
    exists c, PrometheusAPIError msg code (mkConn fresh_writer st) = (Return tt, c) /\ conn_st c = st /\
    ((exists raw expiry, login_ok raw expiry /\ response_status c = 302%Z /\
        sent_cookies c = [cookie_String (oa_cookieName a) raw expiry]) \/
     ((forall raw expiry, ~ login_ok raw expiry) /\ sent_cookies c = [] /\
      (response_status c = 400%Z \/ response_status c = 500%Z)))) as Herr.
  { intros msg code Hno Hcode. destruct (api_error_sends msg code st) as (c & E & Hs & Hc & Hst).
    exists c. split_and!; [done|done|]. right. by rewrite Hs. }
  unfold oidcCallBackHandler. fold q.
  destruct (String.eqb_spec (values_get q "error") "") as [He|He]; cbn [negb];
    [|apply Herr; [by intros ? ? [? _]|by left]].
  destruct (String.eqb_spec (values_get q "code") "") as [Hc|Hc];
    [apply Herr; [by intros ? ? (_ & ? & _)|by left]|].
  destruct (String.eqb_spec (values_get q "state") state) as [Hs|Hs]; cbn [negb];
    [|apply Herr; [by intros ? ? (_ & _ & ? & _)|by left]].
  destruct (Exchange (oa_oauth2Config a) (values_get q "code")) as [token|e] eqn:Ex;
    [|apply Herr; [by intros ? ? (_ & _ & _ & _ & ? & ? & _)|by right]].
  destruct (t_id_token token) as [raw|] eqn:Et;
    [|apply Herr; [intros ? ? (_ & _ & _ & _ & ? & ? & ? & _); congruence|by right]].
  destruct (Verify raw) as [t|e] eqn:Ev;
    [|apply Herr; [|by right]].
  2:{ intros raw' ? (_ & _ & _ & Hok & ? & ? & ? & _). assert (raw' = raw) as -> by congruence.
      by rewrite Ev in Hok. }
  destruct (cookie_redirect_sends r (oa_cookieName a) raw (t_Expiry token) (oa_redirectURL a) 302 st)
    as (c & E & Hcode & Hcook & Hst & _).
  { unfold cookie_String. rewrite (proj2 (String.eqb_neq _ _) Hne), Hn. cbn.
    by destruct (oa_cookieName a). }
  exists c. split_and!; [exact E|done|]. left. exists raw, (t_Expiry token).
  split; [|done]. unfold login_ok. rewrite Ev. split_and!; try done. by exists token.
Qed.
End oidc.

(** ** A concrete provider *)

Definition demo_claims : gmap string json :=
  {[ "email" := JStr "alice@example.com"; "groups" := JArr [JStr "dev"; JNum "7"] ]}.

Definition demo_oidc : Oidc := {|
  Verify := fun t => if String.eqb t "id.alice" then Ok (mkIDToken "1001" (Ok demo_claims))
                     else Err "oidc: malformed jwt";
  format_number := fun lit => lit
|}.

Definition demo_oidc_config : oidcConfig :=
  mkOidcConfig "gateway" "secret" "groups" "" "" "https://issuer" "https://gw/oidc/team/callback" "email".

Definition demo_authenticator : oidcAuthenticator :=
  mkOidc "team" demo_oidc_config (cookie_name "team") "/team"
    (mkOAuth2 "gateway" "secret" "https://issuer/auth" "https://issuer/token"
       "https://gw/oidc/team/callback" ["openid"; "profile"; "email"; "groups"]).

Lemma oidc_authentication_witness :
  let r := demo_request {["Authorization" := ["Bearer id.alice"]]} "" in
  presented demo_authenticator r "id.alice" /\
  forwards (@oidc_Middleware demo_oidc demo_authenticator) r
    (map_ctx (identity "alice@example.com" (Some ["dev"; "7"])) r).
Proof.
  intros r. assert (presented demo_authenticator r "id.alice") as Hp
    by (exists "Bearer"; reflexivity).
  split; [exact Hp|].
  apply (proj1 (@oidc_authentication demo_oidc demo_authenticator r) _ _ _ Hp).
  exists (mkIDToken "1001" (Ok demo_claims)). split; [reflexivity|]. split.
  - exists demo_claims. split; [reflexivity|]. split; [reflexivity|discriminate].
  - exists demo_claims, (JArr [JStr "dev"; JNum "7"]). split; [reflexivity|]. split; reflexivity.
Defined.

Lemma oidc_grpc_like_http_witness :
  let h := "Bearer stale" in
  let r := demo_request {["Authorization" := [h]]} "" in
  let ctx := mkGrpcCtx (r_ctx r) None (Some {["authorization" := [h]]}) in
  same_authorization h r ctx /\
  ((exists c, forwards (@oidc_Middleware demo_oidc demo_authenticator) r (set_ctx c r) /\
     forall handler, @oidc_GRPCMiddleware demo_oidc demo_authenticator ctx handler
       = handler (g_map_ctx (fun _ => c) ctx)) \/
   (exists msg status code, (status, code) ∈ (401%Z, InvalidArgument) :: refusals /\
     (forall S (next : Handler S),
        @oidc_Middleware demo_oidc demo_authenticator _ next r = PrometheusAPIError msg status) /\
     forall handler,
        @oidc_GRPCMiddleware demo_oidc demo_authenticator ctx handler = Some (code, msg))).
Proof.
  intros h r ctx. assert (same_authorization h r ctx) as Hs.
  { split; [reflexivity|]. split; [reflexivity|]. exists {["authorization" := [h]]}, [].
    split; reflexivity. }
  split; [exact Hs|].
  apply (@oidc_grpc_like_http demo_oidc demo_authenticator h r ctx); [discriminate|exact Hs].
Defined.

Lemma oidc_callback_witness :
  let r := demo_request ∅ "code=c0de&state=I+love+MCOA+Gateway" in
  exists c, @oidcCallBackHandler demo_oidc demo_oauth2 simple_urls unit demo_authenticator r
      (mkConn fresh_writer tt) = (Return tt, c) /\
    response_status c = 302%Z /\ sent_cookies c = ["mcoa_gateway_team=id.alice; Path=/"].
Proof.
  intros r.
  destruct (@oidc_callback demo_oidc demo_oauth2 simple_urls unit demo_authenticator r tt)
    as (c & E & _ & [(raw & expiry & Hok & Hs & Hc)|(Hno & _)]); [vm_compute; reflexivity|discriminate| |].
  - exists c. split; [exact E|]. split; [exact Hs|]. rewrite Hc.
    destruct Hok as (_ & _ & _ & _ & token & Ht & Hid & He).
    assert (values_get (URL_Query r) "code" = "c0de") as Hq by (vm_compute; reflexivity).
    rewrite Hq in Ht. apply Ok_inj in Ht. rewrite <- Ht in Hid, He.
    apply Some_inj in Hid. rewrite <- Hid, <- He. reflexivity.
  - destruct (Hno "id.alice" None). split; [reflexivity|]. split; [discriminate|].
    split; [reflexivity|]. split; [reflexivity|].
    exists (mkToken "sha256~alice" true (Some "id.alice") None).
    split; [reflexivity|]. split; reflexivity.
Defined.
