(* ===== verification/OpenShiftDiscovery.v ===== *)
(** * Discovery and delegation: [authentication/openshift/discovery.go], [options.go]

    The OAuth endpoints and credentials of the cluster, and the configuration of
    the authenticator that is delegated to.  The environment (files, variables,
    the Kubernetes client libraries) are the classes [Pod] and [KubeLibs]. *)

From stdpp Require Import base tactics option list gmap strings pretty.
From Stdlib Require Import ZArith Lia Ascii.
From S2P Require Import Prelude GoStrings Labels Url Strconv Json Http Authz Login.

(** ** discovery.go *)

Definition OauthWellKnownPath : string := "/.well-known/oauth-authorization-server".
Definition ServiceAccountNamespacePath : string :=
  "/var/run/secrets/kubernetes.io/serviceaccount/namespace".
Definition ServiceAccountTokenPath : string :=
  "/var/run/secrets/kubernetes.io/serviceaccount/token".
Definition ServiceAccountCAPath : string :=
  "/var/run/secrets/kubernetes.io/serviceaccount/ca.crt".

(** The files and the environment of the pod, as one attempt reads them. *)
Class Pod := {
  pod_ReadFile : string -> result string;
  Getenv : string -> string
}.

Definition GetServiceAccountCACert `{Pod} : result string := pod_ReadFile ServiceAccountCAPath.

(** An empty file gives empty credentials and the nil error of the read. *)
Definition DiscoverCredentials `{Pod} (name : string) : result (string * string) :=
  match pod_ReadFile ServiceAccountNamespacePath with
  | Err e => Err e
  | Ok n =>
      if String.eqb n "" then Ok ("", "")
      else
        match pod_ReadFile ServiceAccountTokenPath with
        | Err e => Err e
        | Ok d =>
            if String.eqb d "" then Ok ("", "")
            else
              let clientID := "system:serviceaccount:" +:+ TrimSpace n +:+ ":" +:+ name in
              Ok (clientID, TrimSpace d)
        end
  end.

Definition toKubeAPIURLWithPath `{Pod} (path : string) : URL :=
  let host := Getenv "KUBERNETES_SERVICE_HOST" in
  if negb (String.eqb host "") then
    let host := if Contains host ":" then "[" +:+ host +:+ "]" else host in
    mkURL "https" host path ""
  else mkURL "https" "kubernetes.default.svc" path "".

(** The errors of [DiscoverOAuth]: [ErrOAuthServerNotFound] is told apart. *)
Inductive discovery :=
  | Endpoints (authURL tokenURL : URL)
  | OAuthServerNotFound
  | DiscoveryFailed (msg : string).

Record oauthResp := mkOAuthResp { AuthorizationEndpoint : string; TokenEndpoint : string }.

Definition set_oauth_field (d : result oauthResp) (kv : string * json) : result oauthResp :=
  d ← d;
  if is_field "authorization_endpoint" kv.1 then
    u ← set_string kv.2 (AuthorizationEndpoint d); Ok (mkOAuthResp u (TokenEndpoint d))
  else if is_field "token_endpoint" kv.1 then
    u ← set_string kv.2 (TokenEndpoint d); Ok (mkOAuthResp (AuthorizationEndpoint d) u)
  else Ok d.

Definition unmarshal_oauth (body : string) : result oauthResp :=
  match decode body with
  | None => Err "invalid JSON"
  | Some (JObj l) => foldl set_oauth_field (Ok (mkOAuthResp "" "")) l
  | Some JNull => Ok (mkOAuthResp "" "")
  | Some _ => json_type_err
  end.

(** [get] is [client.Do]: for a URL the status and what reading the body gives. *)
Definition DiscoverOAuth `{Pod, UrlCodec} (get : string -> result (Z * result string)) : discovery :=
  let oauthURL := url_String (toKubeAPIURLWithPath OauthWellKnownPath) in
  match url_Parse oauthURL with
  | Err e => DiscoveryFailed ("unable to create request to oauth server: " +:+ e)
  | Ok _ =>
      match get oauthURL with
      | Err e => DiscoveryFailed ("unable to send request to oauth server: " +:+ e)
      | Ok (_, Err e) => DiscoveryFailed ("failed to read response body: " +:+ e)
      | Ok (code, Ok body) =>
          if (code <? 200)%Z || (300 <=? code)%Z then
            if (code =? 404)%Z then OAuthServerNotFound
            else DiscoveryFailed ("got " +:+ Itoa code +:+ " " +:+ body)
          else
            match unmarshal_oauth body with
            | Err e => DiscoveryFailed ("unable to unmarshal response: " +:+ e)
            | Ok resp =>
                match url_Parse (AuthorizationEndpoint resp) with
                | Err e => DiscoveryFailed ("unable to parse authorization endpoint URL: " +:+ e)
                | Ok authURL =>
                    match url_Parse (TokenEndpoint resp) with
                    | Err e => DiscoveryFailed ("unable to parse token endpoint URL: " +:+ e)
                    | Ok tokenURL => Endpoints authURL tokenURL
                    end
                end
            end
      end
  end.

(** ** options.go *)

Definition StringSlice : Type := list string.
Definition StringSlice_Set (s : StringSlice) (value : string) : StringSlice := s ++ [value].
Definition StringSlice_String (s : StringSlice) : string := Join s " ".

Record RequestHeaderAuthenticationOptions := mkRequestHeader {
  UsernameHeaders : StringSlice;
  GroupHeaders : StringSlice;
  ExtraHeaderPrefixes : StringSlice;
  ClientCAFile : string;
  AllowedNames : StringSlice
}.

Record ClientCertAuthenticationOptions := mkClientCert { ClientCA : string }.

(** The kubeconfig clients and the CA files of the Kubernetes libraries.  A
    [rest_Config] has the limits the gateway sets. *)
Class KubeLibs := {
  rest_Config : Type;
  AuthClient : Type;
  CAContent : Type;
  kubeconfig_ClientConfig : string -> result rest_Config;
  InClusterConfig : result rest_Config;
  with_limits : Z -> Z -> rest_Config -> rest_Config;
  NewForConfig : rest_Config -> result AuthClient;
  NewDynamicCAContentFromFile : string -> string -> result CAContent
}.

Section options.
Context `{KubeLibs}.

Record RequestHeaderConfig := mkRequestHeaderConfig {
  rh_UsernameHeaders : list string;
  rh_GroupHeaders : list string;
  rh_ExtraHeaderPrefixes : list string;
  rh_CAContentProvider : CAContent;
  rh_AllowedClientNames : list string
}.

Definition ToAuthenticationRequestHeaderConfig (s : RequestHeaderAuthenticationOptions) :
    result (option RequestHeaderConfig) :=
  if String.eqb (ClientCAFile s) "" then Ok None
  else
    dynamicCAProvider ← NewDynamicCAContentFromFile "request-header" (ClientCAFile s);
    Ok (Some (mkRequestHeaderConfig (UsernameHeaders s) (GroupHeaders s) (ExtraHeaderPrefixes s)
                dynamicCAProvider (AllowedNames s))).

(** The retry backoff of the webhook is a constant that is passed through. *)
Record DelegatingAuthenticationOptions := mkDelegating {
  RemoteKubeConfigFile : string;
  WebhookSteps : Z;
  CacheTTL : Z;
  ClientCert : ClientCertAuthenticationOptions;
  RequestHeader : RequestHeaderAuthenticationOptions;
  SkipInClusterLookup : bool
}.

Record DelegatingAuthenticatorConfig := mkDelegatingConfig {
  dc_Anonymous : bool;
  dc_TokenAccessReviewClient : AuthClient;
  dc_CacheTTL : Z;
  dc_ClientCertificateCA : option CAContent;
  dc_RequestHeaderConfig : option RequestHeaderConfig;
  dc_WebhookSteps : Z
}.

Definition getClientCA (s : DelegatingAuthenticationOptions) : result ClientCertAuthenticationOptions :=
  if negb (String.eqb (ClientCA (ClientCert s)) "") || SkipInClusterLookup s then Ok (ClientCert s)
  else Err "no client ca-file config".

Definition getRequestHeader (s : DelegatingAuthenticationOptions) :
    result RequestHeaderAuthenticationOptions :=
  if negb (String.eqb (ClientCAFile (RequestHeader s)) "") || SkipInClusterLookup s then
    Ok (RequestHeader s)
  else Err "no request header config".

Definition getClientConfig (remoteKubeConfigFile : string) : result rest_Config :=
  clientConfig ← (if negb (String.eqb remoteKubeConfigFile "")
                  then kubeconfig_ClientConfig remoteKubeConfigFile else InClusterConfig);
  Ok (with_limits 200 400 clientConfig).

Definition newAuthenticationClient (s : DelegatingAuthenticationOptions) : result AuthClient :=
  clientConfig ← getClientConfig (RemoteKubeConfigFile s);
  NewForConfig clientConfig.

Definition ToAuthenticationConfig (s : DelegatingAuthenticationOptions) :
    result DelegatingAuthenticatorConfig :=
  tokenClient ← newAuthenticationClient s;
  clientCA ← getClientCA s;
  requestHeader ← getRequestHeader s;
  requestHeaderConfig ← ToAuthenticationRequestHeaderConfig requestHeader;
  clientCAProvider ← (if negb (String.eqb (ClientCA clientCA) "")
                      then Some <$> NewDynamicCAContentFromFile "client-ca-bundle" (ClientCA clientCA)
                      else Ok None);
  Ok (mkDelegatingConfig false tokenClient (CacheTTL s) clientCAProvider requestHeaderConfig
        (WebhookSteps s)).
End options.

(** ** Lemmas *)

(** The credentials are those of the two files, or empty ones. *)
Lemma DiscoverCredentials_spec `{Pod} name id secret :
  DiscoverCredentials name = Ok (id, secret) <->
  exists n, pod_ReadFile ServiceAccountNamespacePath = Ok n /\
    (n = "" /\ id = "" /\ secret = "" \/
     n <> "" /\ exists d, pod_ReadFile ServiceAccountTokenPath = Ok d /\
       (d = "" /\ id = "" /\ secret = "" \/
        d <> "" /\ id = "system:serviceaccount:" +:+ TrimSpace n +:+ ":" +:+ name /\
        secret = TrimSpace d)).
Proof.
  unfold DiscoverCredentials.
  destruct (pod_ReadFile ServiceAccountNamespacePath) as [n|e]; [|naive_solver].
  destruct (String.eqb_spec n "") as [->|Hn]; [naive_solver|].
  destruct (pod_ReadFile ServiceAccountTokenPath) as [d|e]; [|naive_solver].
  destruct (String.eqb_spec d "") as [->|Hd]; naive_solver.
Qed.

(** An outcome that is not [Endpoints]. *)
Local Ltac failed :=
  split; [discriminate|intros ([? ?] & ? & ? & ? & ? & ? & ? & ? & ?); congruence].

(** Endpoints are found only in the answer of the server, parsed. *)
Lemma DiscoverOAuth_endpoints `{Pod, UrlCodec} get a t :
  DiscoverOAuth get = Endpoints a t <->
  (exists u, url_Parse (url_String (toKubeAPIURLWithPath OauthWellKnownPath)) = Ok u) /\
  exists code body resp, get (url_String (toKubeAPIURLWithPath OauthWellKnownPath)) = Ok (code, Ok body) /\
    (200 <= code < 300)%Z /\ unmarshal_oauth body = Ok resp /\
    url_Parse (AuthorizationEndpoint resp) = Ok a /\ url_Parse (TokenEndpoint resp) = Ok t.
Proof.
  unfold DiscoverOAuth. set (u := url_String _).
  destruct (url_Parse u) as [pu|e]; [|failed].
  destruct (get u) as [[code [body|e]]|e]; [|failed..].
  destruct (Z.ltb_spec code 200), (Z.leb_spec 300 code); cbn [orb].
  1-3: destruct (code =? 404)%Z;
    (split; [discriminate|intros (_ & c & b & r & [= <- <-] & ? & _); lia]).
  destruct (unmarshal_oauth body) as [resp|e] eqn:Eu; [|failed].
  destruct (url_Parse (AuthorizationEndpoint resp)) as [ua|e] eqn:Ea; [|failed].
  destruct (url_Parse (TokenEndpoint resp)) as [ut|e] eqn:Et; [|failed].
  split; [intros [= <- <-]; split; [by eexists|]; exists code, body, resp; split_and!; done|].
  intros (_ & c & b & r & [= <- <-] & _ & Er & ? & ?). congruence.
Qed.
