(* ===== verification/OpenShift.v ===== *)
(** * The OpenShift authenticator: [authentication/openshift.go]

    Login, callback and the authentication of requests over HTTP and gRPC.  The
    delegated authenticator of Kubernetes is the class [Kube], the signed tokens of
    [golang-jwt] the class [Jwt] with the laws [JwtLaws], the clock an argument in
    seconds. *)

From stdpp Require Import base tactics option list countable gmap strings pretty.
From Stdlib Require Import ZArith Lia Ascii.
From S2P Require Import Prelude GoStrings Labels Url Strconv Json Http Tenant Proxy.
From S2P Require Import CookieCipher Login OpenShiftDiscovery.

Import MTLSTenant.

Definition jwtSigningKey : string := "ILoveObservatorium".
(** 15 minutes. *)
Definition defaultJWTExpiry : Z := 900.

Record OpenShiftClaims := mkClaims {
  c_Groups : list string;
  c_AccessToken : string;
  c_Issuer : string;
  c_ExpiresAt : Z;
  c_IssuedAt : Z;
  c_Subject : string
}.

(** Signing with HS256 under a key; parsing under a key at a time gives the
    claims and [Token.Valid]. *)
Class Jwt := {
  SignedString : OpenShiftClaims -> string -> result string;
  ParseWithClaims : Z -> string -> string -> result (OpenShiftClaims * bool)
}.

(** What the JSON of the claims preserves: text in UTF-8 and times a float64
    holds exactly. *)
Definition claims_text (c : OpenShiftClaims) : Prop :=
  Forall (fun g => sanitize g = g) (c_Groups c) /\ sanitize (c_AccessToken c) = c_AccessToken c /\
  sanitize (c_Issuer c) = c_Issuer c /\ sanitize (c_Subject c) = c_Subject c /\
  (0 <= c_IssuedAt c)%Z /\ (c_ExpiresAt c < 2 ^ 53)%Z.

(** The documented behaviour of [golang-jwt]: claims can be signed, a token is
    base64url text with dots, and it parses under the same key, with its claims,
    from its issue time on until it expires. *)
Class JwtLaws `{Jwt} := {
  jwt_signs c key : exists token, SignedString c key = Ok token;
  jwt_text c key token : SignedString c key = Ok token -> str_forallb unreserved token = true;
  jwt_parses c key token now :
    SignedString c key = Ok token -> claims_text c -> (c_IssuedAt c <= now < c_ExpiresAt c)%Z ->
    ParseWithClaims now token key = Ok (c, true)
}.

Record UserInfo := mkUser { GetName : string; GetGroups : list string }.

(** [AuthenticateRequest] gives the user when it is [ok], and an error; it may
    remove headers from the request it is given. *)
Class Kube := {
  Authenticator : Type;
  AuthenticateRequest : Authenticator -> Request -> Header * option UserInfo * option string
}.

(** The [Expires] attribute of a time. *)
Class HttpTime := { format_expires : Z -> string }.

Record openshiftAuthenticatorConfig := mkOSConfig {
  KubeConfigPath : string;
  ServiceAccount : string;
  os_RedirectURL : string;
  CookieSecret : string
}.

Section openshift.
Context `{Kube} `{Jwt} `{HttpTime} `{Aes} `{OAuth2} `{UrlCodec}.

Record OpenShiftAuthenticator := mkOS {
  os_tenant : string;
  os_cipher : option Cipher;
  os_config : openshiftAuthenticatorConfig;
  os_authenticator : Authenticator;
  os_oauth2Config : oauth2_Config;
  os_cookieName : string;
  os_oauthEnabled : bool
}.

(** ** Login *)

Definition redirect_uri (a : OpenShiftAuthenticator) (route : string) : string :=
  os_RedirectURL (os_config a) +:+ "?route=" +:+ route.

Definition login_params (a : OpenShiftAuthenticator) (route : string) : Values :=
  values_set (values_set (values_set (values_set (values_set (values_set ∅
    "redirect_uri" (redirect_uri a route))
    "approval_prompt" "force")
    "scope" (Join (Scopes (os_oauth2Config a)) " "))
    "client_id" (ClientID (os_oauth2Config a)))
    "response_type" "code")
    "state" state.

Definition openshiftLoginHandler {S} (a : OpenShiftAuthenticator) : Handler S := fun r =>
  match url_Parse (AuthURL (os_oauth2Config a)) with
  | Err _ => PrometheusAPIError "failed to parse authorization endpoint URL" 500
  | Ok u =>
      let queryRoute := values_get (URL_Query r) "route" in
      if String.eqb queryRoute "" then PrometheusAPIError "incorrect route in request" 400
      else
        let u := mkURL (u_scheme u) (u_host u) (u_path u) (Encode (login_params a queryRoute)) in
        http_Redirect r (url_String u) 303
  end.

(** ** Callback *)

(** [http.NewRequest(http.MethodGet, url, nil)]; an empty port of the host is
    removed. *)
Definition NewGetRequest (url : string) : result Request :=
  u ← url_Parse url;
  let host := if HasSuffix (u_host u) ":" then str_take (String.length (u_host u) - 1) (u_host u)
              else u_host u in
  Ok (mkReq "GET" (mkURL (u_scheme u) host (u_path u) (u_rawQuery u)) ∅ (Ok "") 0 None background ∅ []).

(** The methods of a [Cipher] behind a pointer that may be nil. *)
Definition cipher_Encrypt (c : option Cipher) (random : result string) (value : string) :
    flow (result string) :=
  match random, c with
  | Ok _, None => Panic "nil pointer dereference"
  | _, _ => Return (Encrypt (default "" c) random value)
  end.

Definition cipher_Decrypt (c : option Cipher) (s : string) : flow (result string) :=
  match Decrypt (default "" c) s, c with
  | Ok _, None => Panic "nil pointer dereference"
  | r, _ => Return r
  end.

Definition lift_flow {S A} (m : flow A) : M S A := fun c => (m, c).

(** The clock is read twice, for the issue time and for the expiry; [random] is
    what [rand.Reader] gives. *)
Record moment := mkMoment { now_issue : Z; now_expiry : Z; random_iv : result string }.

Definition session_claims (t : moment) (u : UserInfo) (encToken : string) : OpenShiftClaims :=
  mkClaims (GetGroups u) encToken "mcoa-gateway" (now_expiry t + defaultJWTExpiry) (now_issue t)
    (GetName u).

Definition openshiftCallbackHandler {S} (a : OpenShiftAuthenticator) (t : moment) : Handler S := fun r =>
  let q := URL_Query r in
  if negb (String.eqb (values_get q "error") "") then
    PrometheusAPIError (values_get q "error" +:+ ": " +:+ values_get q "error_description") 400
  else if String.eqb (values_get q "code") "" then PrometheusAPIError "no code in request" 400
  else if negb (String.eqb (values_get q "state") state) then
    PrometheusAPIError "incorrect state in request" 400
  else
    let queryRoute := values_get q "route" in
    if String.eqb queryRoute "" then PrometheusAPIError "incorrect route in request" 400
    else
      let cfg := os_oauth2Config a in
      let o2c := mkOAuth2 (ClientID cfg) (ClientSecret cfg) (AuthURL cfg) (TokenURL cfg)
                   (redirect_uri a queryRoute) (Scopes cfg) in
      match Exchange o2c (values_get q "code") with
      | Err e => PrometheusAPIError ("failed to get token: " +:+ e) 500
      | Ok token =>
          if negb (t_Valid token) then PrometheusAPIError "invalid token provided" 401
          else
            match NewGetRequest queryRoute with
            | Err _ => PrometheusAPIError "invalid request to the apiserver" 500
            | Ok req =>
                let req := set_header (header_set (r_header req) "Authorization"
                                         ("Bearer " +:+ t_AccessToken token)) req in
                match AuthenticateRequest (os_authenticator a) req with
                | (_, _, Some err) =>
                    PrometheusAPIError ("failed to authenticate redirect request: " +:+ err) 401
                | (_, None, None) => PrometheusAPIError "failed to authenticate redirect request" 401
                | (_, Some user, None) =>
                    encToken ← lift_flow
                      (if negb (String.eqb (CookieSecret (os_config a)) "")
                       then cipher_Encrypt (os_cipher a) (random_iv t) (t_AccessToken token)
                       else Return (Ok ""));
                    match encToken with
                    | Err _ => PrometheusAPIError "failed to encrypt access token" 500
                    | Ok encToken =>
                        let claims := session_claims t user encToken in
                        match SignedString claims jwtSigningKey with
                        | Err e => PrometheusAPIError ("failed to sign jwt token: " +:+ e) 500
                        | Ok str =>
                            _ ← SetCookie (os_cookieName a) str
                                  (Some (format_expires (c_ExpiresAt claims)));
                            http_Redirect r queryRoute 302
                        end
                    end
                end
            end
      end.

Definition openshift_Handler {S} (a : OpenShiftAuthenticator) (t : moment) :
    string * list (string * Handler S) :=
  ("/openshift/{tenant}",
   if os_oauthEnabled a
   then [("/login", openshiftLoginHandler a); ("/callback", openshiftCallbackHandler a t)] else []).

(** ** HTTP and gRPC *)

Definition with_user (u : UserInfo) (c : Context) : Context :=
  with_groups (GetGroups u) (with_subject (GetName u) c).

(** The claims are of the type that was handed to the parser, so that the type
    assertion on them succeeds. *)
Definition openshift_Middleware (a : OpenShiftAuthenticator) (now : Z) {S} (next : Handler S) :
    Handler S := fun r =>
  let '(h, res, _) := AuthenticateRequest (os_authenticator a) r in
  let r := set_header h r in
  match res with
  | Some user => next (map_ctx (with_user user) r)
  | None =>
      if negb (os_oauthEnabled a) then PrometheusAPIError "OAuth authentication not available" 401
      else
        match Cookie r (os_cookieName a) with
        | None =>
            match GetTenant (r_ctx r) with
            | None => PrometheusAPIError "error finding tenant" 400
            | Some tenant =>
                _ ← w_set "Location"
                      (path_JoinAll ["/openshift"; tenant; "/login?route="; u_path (r_url r)]);
                PrometheusAPIError "failed to find token" 302
            end
        | Some cookie =>
            match ParseWithClaims now cookie jwtSigningKey with
            | Err e => PrometheusAPIError ("failed to parse jwt token: %s: " +:+ e) 400
            | Ok (claims, valid) =>
                if negb valid then PrometheusAPIError "failed to authenticate" 401
                else
                  let ctx := with_groups (c_Groups claims) (with_subject (c_Subject claims) (r_ctx r)) in
                  if negb (String.eqb (CookieSecret (os_config a)) "") then
                    accessToken ← lift_flow (cipher_Decrypt (os_cipher a) (c_AccessToken claims));
                    match accessToken with
                    | Err e => PrometheusAPIError ("failed to decrypt acess token: " +:+ e) 400
                    | Ok accessToken => next (set_ctx (with_accessToken accessToken ctx) r)
                    end
                  else next (set_ctx ctx r)
            end
        end
  end.

(** The request the gRPC middleware makes up for the authenticator. *)
Definition grpc_request (md : MD) (tls : option ConnectionState) : Request :=
  mkReq "" (mkURL "" "" "" "")
    (foldl (fun h v => header_add h "Authorization" v) ∅ (md_get md "Authorization"))
    (Ok "") 0 tls background ∅ [].

(** The peer of a connection without TLS has another [AuthInfo]; asserting its
    type panics. *)
Definition openshift_GRPCMiddleware (a : OpenShiftAuthenticator) (ctx : GrpcCtx)
    (handler : StreamHandler) : flow Status :=
  match g_md ctx with
  | None => Return (Some (Internal, "metadata error"))
  | Some md =>
      tls ← match g_peer ctx with
            | None => Return None
            | Some None => Panic "interface conversion"
            | Some (Some tlsInfo) => Return (Some tlsInfo)
            end;
      match AuthenticateRequest (os_authenticator a) (grpc_request md tls) with
      | (_, Some user, _) => Return (handler (g_map_ctx (with_user user) ctx))
      | (_, None, _) => Return (Some (Unauthenticated, "missing SA token or mTLS"))
      end
  end.

(** ** [newOpenshiftAuthenticator]

    The loops retry until an attempt succeeds: [None] when the attempts given
    have all failed. *)

Fixpoint discoverOAuthEndpoints `{Pod} (attempts : list (string -> result (Z * result string))) :
    option (option (URL * URL)) :=
  match attempts with
  | [] => None
  | get :: attempts =>
      match DiscoverOAuth get with
      | OAuthServerNotFound => Some None
      | DiscoveryFailed _ => discoverOAuthEndpoints attempts
      | Endpoints authURL tokenURL => Some (Some (authURL, tokenURL))
      end
  end.

Fixpoint discover_credentials (attempts : list Pod) (name : string) : option (string * string) :=
  match attempts with
  | [] => None
  | pod :: attempts =>
      match @DiscoverCredentials pod name with
      | Err _ => discover_credentials attempts name
      | Ok credentials => Some credentials
      end
  end.

Definition no_oauth2 : oauth2_Config := mkOAuth2 "" "" "" "" "" [].

Definition authOpts (config : openshiftAuthenticatorConfig) : DelegatingAuthenticationOptions :=
  mkDelegating (KubeConfigPath config) 5 120 (mkClientCert ServiceAccountCAPath)
    (mkRequestHeader [] [] [] ServiceAccountCAPath []) true.

(** From the decoded configuration.  The trust store of the HTTP client is not
    kept here. *)
Definition newOpenshiftAuthenticator `{Pod, KubeLibs}
    (New : DelegatingAuthenticatorConfig -> result Authenticator)
    (config : openshiftAuthenticatorConfig) (tenant : string)
    (gets : list (string -> result (Z * result string))) (pods : list Pod) :
    option (result OpenShiftAuthenticator) :=
  match
    (_ ← match GetServiceAccountCACert with
         | Err e => Err ("failed to load serviceccount ca certificate " +:+ e)
         | Ok ca => Ok ca
         end;
     authConfig ← wrap_err "unable to create auth config" (ToAuthenticationConfig (authOpts config));
     authenticator ← wrap_err "unable to initialize authenticator" (New authConfig);
     cipher ← (if negb (String.eqb (CookieSecret config) "")
               then Some <$> wrap_err "unable to initialize cookie cipher" (NewCipher (CookieSecret config))
               else Ok None);
     Ok (authenticator, cipher))
  with
  | Err e => Some (Err e)
  | Ok (authenticator, cipher) =>
      let mk := fun oauth2 enabled =>
        mkOS tenant cipher config authenticator oauth2 (cookie_name tenant) enabled in
      endpoints ← discoverOAuthEndpoints gets;
      match endpoints with
      | None => Some (Ok (mk no_oauth2 false))
      | Some (authURL, tokenURL) =>
          '(clientID, clientSecret) ← discover_credentials pods (ServiceAccount config);
          Some (Ok (mk (mkOAuth2 clientID clientSecret (url_String authURL) (url_String tokenURL)
                          (os_RedirectURL config)
                          ["user:info"; "user:check-access"; "user:list-projects"]) true))
      end
  end.

(** ** Who is admitted *)

(** What the constructor establishes: a secret comes with its cipher. *)
Definition os_ok (a : OpenShiftAuthenticator) : Prop :=
  CookieSecret (os_config a) <> "" ->
  exists c, NewCipher (CookieSecret (os_config a)) = Ok c /\ os_cipher a = Some c.

(** The context of a session: its subject and groups and, with a secret, the
    decrypted access token. *)
Inductive session_ctx (a : OpenShiftAuthenticator) (claims : OpenShiftClaims) (ctx : Context) :
    Context -> Prop :=
  | session_plain :
      CookieSecret (os_config a) = "" ->
      session_ctx a claims ctx (with_groups (c_Groups claims) (with_subject (c_Subject claims) ctx))
  | session_token c token :
      CookieSecret (os_config a) <> "" -> os_cipher a = Some c ->
      Decrypt c (c_AccessToken claims) = Ok token ->
      session_ctx a claims ctx
        (with_accessToken token (with_groups (c_Groups claims) (with_subject (c_Subject claims) ctx))).

(** Admitted by the cluster, which comes first, or by a session. *)
Inductive admitted (a : OpenShiftAuthenticator) (now : Z) (r : Request) : Request -> Prop :=
  | by_cluster h user e :
      AuthenticateRequest (os_authenticator a) r = (h, Some user, e) ->
      admitted a now r (map_ctx (with_user user) (set_header h r))
  | by_session h e cookie claims ctx :
      AuthenticateRequest (os_authenticator a) r = (h, None, e) ->
      os_oauthEnabled a = true -> Cookie r (os_cookieName a) = Some cookie ->
      ParseWithClaims now cookie jwtSigningKey = Ok (claims, true) ->
      session_ctx a claims (r_ctx r) ctx ->
      admitted a now r (set_ctx ctx (set_header h r)).

(** The middleware answers by itself: whatever the next handler is, it is not
    called, and the closure state is untouched. *)
Definition answers (mw : forall S, Middleware S) (r : Request) (code : Z) : Prop :=
  forall S (next : Handler S) st, exists c,
    mw S next r (mkConn fresh_writer st) = (Return tt, c) /\ response_status c = code /\ conn_st c = st.

Lemma answers_error (mw : forall S, Middleware S) r msg code :
  (forall S (next : Handler S), mw S next r = PrometheusAPIError msg code) -> answers mw r code.
Proof.
  intros E S next st. rewrite E. destruct (api_error_sends msg code st) as (c & ? & ? & _ & ?).
  by exists c.
Qed.

Lemma session_ctx_fun a claims ctx ctx1 ctx2 :
  session_ctx a claims ctx ctx1 -> session_ctx a claims ctx ctx2 -> ctx1 = ctx2.
Proof. intros [] Hb; inversion Hb; congruence. Qed.

Lemma admitted_fun a now r r1 r2 : admitted a now r r1 -> admitted a now r r2 -> r1 = r2.
Proof.
  intros [h u e E|h e ck cl ctx E Ho Hc Hp Hs] [h' u' e' E'|h' e' ck' cl' ctx' E' Ho' Hc' Hp' Hs'];
    try congruence.
  assert (cl' = cl) as -> by congruence.
  rewrite (session_ctx_fun _ _ _ _ _ Hs' Hs). congruence.
Qed.

(** The decision of the middleware, and the request it passes on. *)
Lemma Middleware_admits a now r r' :
  admitted a now r r' -> forwards (@openshift_Middleware a now) r r'.
Proof.
  intros [h user e E|h e cookie claims ctx E Ho Hc Hp Hs] S next; unfold openshift_Middleware; rewrite E.
  - done.
  - cbn -[Cookie String.eqb]. rewrite Ho. cbn -[Cookie String.eqb].
    change (Cookie (set_header h r)) with (Cookie r). rewrite Hc, Hp. cbn -[String.eqb].
    destruct Hs as [Hn|c token Hn Hci Hd].
    + by rewrite Hn.
    + rewrite (proj2 (String.eqb_neq _ _) Hn). unfold cipher_Decrypt. rewrite Hci. change (default "" (Some c)) with c.
      unfold mbind, M_bind, lift_flow. by rewrite Hd.
Qed.

Lemma answers_not_forwards mw r r' code : answers mw r code -> ~ forwards mw r r'.
Proof.
  intros Ha Hf. destruct (Ha unit (fun _ => panic "") tt) as (c & E & _). by rewrite Hf in E.
Qed.

Lemma Middleware_decides a now r : os_ok a ->
  (exists r', admitted a now r r') \/
  answers (@openshift_Middleware a now) r 302 \/ answers (@openshift_Middleware a now) r 400 \/
  answers (@openshift_Middleware a now) r 401.
Proof.
  intros Hok. destruct (AuthenticateRequest (os_authenticator a) r) as [[h [user|]] e] eqn:E.
  { left. eexists. by eapply by_cluster. }
  assert (forall msg code, (forall S (next : Handler S), openshift_Middleware a now next r =
      PrometheusAPIError msg code) -> answers (@openshift_Middleware a now) r code) as Herr.
  { intros. by eapply answers_error. }
  destruct (os_oauthEnabled a) eqn:Ho;
    [|right; right; right; eapply Herr; intros; unfold openshift_Middleware; by rewrite E, Ho].
  destruct (Cookie r (os_cookieName a)) as [cookie|] eqn:Hc; cycle 1.
  { right. destruct (GetTenant (r_ctx r)) as [tenant|] eqn:Ht;
      [left|right; left; eapply Herr; intros; unfold openshift_Middleware; rewrite E, Ho; cbn -[Cookie];
        change (Cookie (set_header h r)) with (Cookie r); by rewrite Hc, Ht].
    intros S next st. unfold openshift_Middleware. rewrite E, Ho. cbn -[Cookie].
    change (Cookie (set_header h r)) with (Cookie r). rewrite Hc, Ht.
    eexists. split; [reflexivity|]. done. }
  assert (forall msg code,
    match ParseWithClaims now cookie jwtSigningKey with
    | Err e => msg = "failed to parse jwt token: %s: " +:+ e /\ code = 400%Z
    | Ok (_, false) => msg = "failed to authenticate" /\ code = 401%Z
    | Ok (claims, true) => exists e, CookieSecret (os_config a) <> "" /\
        cipher_Decrypt (os_cipher a) (c_AccessToken claims) = Return (Err e) /\
        msg = "failed to decrypt acess token: " +:+ e /\ code = 400%Z
    end -> answers (@openshift_Middleware a now) r code) as Hse.
  { intros msg code Hm. apply Herr with msg. intros S next. unfold openshift_Middleware. rewrite E, Ho.
    cbn -[Cookie String.eqb]. change (Cookie (set_header h r)) with (Cookie r). rewrite Hc.
    destruct (ParseWithClaims now cookie jwtSigningKey) as [[claims []]|e']; cbn -[String.eqb].
    - destruct Hm as (e' & Hs & Hd & -> & ->). rewrite (proj2 (String.eqb_neq _ _) Hs).
      unfold mbind, M_bind, lift_flow. by rewrite Hd.
    - by destruct Hm as [-> ->].
    - by destruct Hm as [-> ->]. }
  destruct (ParseWithClaims now cookie jwtSigningKey) as [[claims []]|e'] eqn:Hp;
    [|right; right; right; by eapply Hse|right; right; left; by eapply Hse].
  destruct (String.eqb_spec (CookieSecret (os_config a)) "") as [Hs|Hs].
  { left. eexists. eapply by_session; [done..|]. by constructor. }
  destruct (Hok Hs) as (c & _ & Hci).
  destruct (Decrypt c (c_AccessToken claims)) as [token|e'] eqn:Hd.
  - left. eexists. eapply by_session; [done..|]. by eapply session_token.
  - right. right. left. eapply Hse. exists e'. unfold cipher_Decrypt. rewrite Hci. change (default "" (Some c)) with c.
    by rewrite Hd.
Qed.

(** C15: Authentication with OpenShift over HTTP.  A request is passed on exactly
    when the cluster authenticates it or, OAuth being enabled, it carries a session
    cookie of this tenant that parses under the signing key and whose access token
    decrypts when a cookie secret is set; its context then has the identity the
    cluster or the session gives, and its headers are those the cluster's
    authenticator left.  In every other case it is answered 302, 400 or 401 by the
    middleware itself, which never panics. *)
Theorem openshift_authentication (a : OpenShiftAuthenticator) (now : Z) (r : Request) :
  os_ok a ->
  (forall r', forwards (@openshift_Middleware a now) r r' <-> admitted a now r r') /\
  ((forall r', ~ admitted a now r r') ->
     answers (@openshift_Middleware a now) r 302 \/ answers (@openshift_Middleware a now) r 400 \/
     answers (@openshift_Middleware a now) r 401).
Proof.
  intros Hok.
  destruct (Middleware_decides a now r Hok) as [[r1 Ha]|Ha].
  - split; [|intros Hno; by destruct (Hno r1)].
    intros r'. split; [|apply Middleware_admits]. intros Hf.
    by rewrite <- (forwards_inj _ _ _ _ (Middleware_admits _ _ _ _ Ha) Hf).
  - split; [|done]. intros r'. split; [|apply Middleware_admits]. intros Hf.
    by destruct Ha as [Ha|[Ha|Ha]]; destruct (answers_not_forwards _ _ _ _ Ha Hf).
Qed.

(** ** The session of a browser *)

(** What a login gives: the request carries the state, a code, a route and no
    error, the code is exchanged for a valid token, and the cluster authenticates
    the user of that token. *)
Definition logged_in (a : OpenShiftAuthenticator) (r : Request) (token : Token) (user : UserInfo) : Prop :=
  let q := URL_Query r in
  let cfg := os_oauth2Config a in
  values_get q "error" = "" /\ values_get q "code" <> "" /\ values_get q "state" = state /\
  values_get q "route" <> "" /\
  Exchange (mkOAuth2 (ClientID cfg) (ClientSecret cfg) (AuthURL cfg) (TokenURL cfg)
              (redirect_uri a (values_get q "route")) (Scopes cfg)) (values_get q "code") = Ok token /\
  t_Valid token = true /\
  exists req h, NewGetRequest (values_get q "route") = Ok req /\
    AuthenticateRequest (os_authenticator a)
      (set_header (header_set (r_header req) "Authorization" ("Bearer " +:+ t_AccessToken token)) req)
    = (h, Some user, None).

(** The access token as the session keeps it. *)
Definition kept_token (a : OpenShiftAuthenticator) (t : moment) (token : Token) (enc : string) : Prop :=
  if String.eqb (CookieSecret (os_config a)) "" then enc = ""
  else exists c, os_cipher a = Some c /\ Encrypt c (random_iv t) (t_AccessToken token) = Ok enc.

(** The cookie of a session. *)
Definition session_cookie (a : OpenShiftAuthenticator) (t : moment) (token : Token) (user : UserInfo)
    (value : string) : Prop :=
  exists enc, kept_token a t token enc /\
    SignedString (session_claims t user enc) jwtSigningKey = Ok value.

Definition set_cookie_of (a : OpenShiftAuthenticator) (t : moment) (value : string) : string :=
  cookie_String (os_cookieName a) value (Some (format_expires (now_expiry t + defaultJWTExpiry))).

Lemma set_cookie_nonempty a t value :
  str_forallb is_token_char (os_cookieName a) = true -> os_cookieName a <> "" ->
  set_cookie_of a t value <> "".
Proof.
  intros Hn Hne. unfold set_cookie_of, cookie_String.
  rewrite (proj2 (String.eqb_neq _ _) Hne), Hn. cbn. by destruct (os_cookieName a).
Qed.

Lemma logged_in_fun a r token user token' user' :
  logged_in a r token user -> logged_in a r token' user' -> token' = token /\ user' = user.
Proof.
  intros (_ & _ & _ & _ & Ht & _ & req & h & Hr & Ha) (_ & _ & _ & _ & Ht' & _ & req' & h' & Hr' & Ha').
  assert (token' = token) as -> by (rewrite Ht in Ht'; by apply Ok_inj in Ht').
  assert (req' = req) as -> by (rewrite Hr in Hr'; by apply Ok_inj in Hr').
  rewrite Ha in Ha'. by injection Ha' as _ <-.
Qed.

(** The step that encrypts the access token. *)
Definition encrypt_step (a : OpenShiftAuthenticator) (t : moment) (token : Token) : flow (result string) :=
  if negb (String.eqb (CookieSecret (os_config a)) "")
  then cipher_Encrypt (os_cipher a) (random_iv t) (t_AccessToken token)
  else Return (Ok "").

Lemma encrypt_step_spec a t token : os_ok a ->
  exists res, encrypt_step a t token = Return res /\
    forall enc, kept_token a t token enc <-> res = Ok enc.
Proof.
  intros Hok. unfold encrypt_step, kept_token.
  destruct (String.eqb_spec (CookieSecret (os_config a)) "") as [Hs|Hs]; cbn [negb].
  { exists (Ok ""). split; [done|]. intros enc. split; [by intros ->|by intros [= ->]]. }
  destruct (Hok Hs) as (c & _ & Hc). rewrite Hc. exists (Encrypt c (random_iv t) (t_AccessToken token)).
  split; [by unfold cipher_Encrypt; destruct (random_iv t)|].
  intros enc. split; [intros (c' & [= <-] & ?); done|by exists c].
Qed.

(** The last steps of the callback, for a user that has logged in. *)
Lemma logged_in_callback {S} a t r token user :
  logged_in a r token user ->
  @openshiftCallbackHandler S a t r =
    (encToken ← lift_flow (encrypt_step a t token);
     match encToken with
     | Err _ => PrometheusAPIError "failed to encrypt access token" 500
     | Ok enc =>
         match SignedString (session_claims t user enc) jwtSigningKey with
         | Err e => PrometheusAPIError ("failed to sign jwt token: " +:+ e) 500
         | Ok str =>
             _ ← SetCookie (os_cookieName a) str
                   (Some (format_expires (now_expiry t + defaultJWTExpiry)));
             http_Redirect r (values_get (URL_Query r) "route") 302
         end
     end).
Proof.
  intros (He & Hc & Hs & Hr & Ht & Hv & req & h & Hq & Ha). unfold openshiftCallbackHandler.
  rewrite He, (proj2 (String.eqb_neq _ _) Hc), Hs, String.eqb_refl, (proj2 (String.eqb_neq _ _) Hr).
  cbn -[String.eqb SetCookie http_Redirect]. by rewrite Ht, Hv, Hq, Ha.
Qed.

(** A branch that refuses the login. *)
Local Ltac refused :=
  right; split;
  [intros ? ? (? & ? & ? & ? & ? & ? & ? & ? & ? & ?); congruence
  |do 2 eexists; split; [|intros; reflexivity]; set_solver].

Lemma callback_cases a t r :
  (exists token user, logged_in a r token user) \/
  (forall token user, ~ logged_in a r token user) /\
  exists msg code, code ∈ [400%Z; 401%Z; 500%Z] /\
    forall S, @openshiftCallbackHandler S a t r = PrometheusAPIError msg code.
Proof.
  unfold openshiftCallbackHandler, logged_in.
  set (q := URL_Query r) in *. set (cfg := os_oauth2Config a) in *.
  destruct (String.eqb_spec (values_get q "error") "") as [He|]; cbn [negb]; [|refused].
  destruct (String.eqb_spec (values_get q "code") "") as [|Hc]; [refused|].
  destruct (String.eqb_spec (values_get q "state") state) as [Hs|]; cbn [negb]; [|refused].
  destruct (String.eqb_spec (values_get q "route") "") as [|Hr]; [refused|].
  destruct (Exchange _ _) as [token|e] eqn:Ht; [|refused].
  destruct (t_Valid token) eqn:Hv; cbn [negb]; [|refused].
  destruct (NewGetRequest _) as [req|e] eqn:Hq; [|refused].
  destruct (AuthenticateRequest _ _) as [[h [user|]] [e|]] eqn:Ha; [refused| |refused..].
  left. exists token, user. split_and!; try done. by exists req, h.
Qed.

(** What the callback sends: the session cookie of the login, or an error. *)
Definition callback_answer {S} (a : OpenShiftAuthenticator) (t : moment) (r : Request) (c : Conn S) : Prop :=
  (exists token user value, logged_in a r token user /\ session_cookie a t token user value /\
     response_status c = 302%Z /\ sent_cookies c = [set_cookie_of a t value]) \/
  ((forall token user value, logged_in a r token user -> ~ session_cookie a t token user value) /\
     sent_cookies c = [] /\ response_status c ∈ [400%Z; 401%Z; 500%Z]).

Lemma openshift_callback_sends {S} (a : OpenShiftAuthenticator) (t : moment) (r : Request) (st : S) :
  os_ok a -> str_forallb is_token_char (os_cookieName a) = true -> os_cookieName a <> "" ->
  exists c, openshiftCallbackHandler a t r (mkConn fresh_writer st) = (Return tt, c) /\ conn_st c = st /\
    callback_answer a t r c.
Proof.
  intros Hok Hn Hne.
  assert (forall msg code,
    (forall token user value, logged_in a r token user -> ~ session_cookie a t token user value) ->
    code ∈ [400%Z; 401%Z; 500%Z] ->
    exists c, PrometheusAPIError msg code (mkConn fresh_writer st) = (Return tt, c) /\ conn_st c = st /\
    callback_answer a t r c) as Herr.
  { intros msg code Hno Hcode. destruct (api_error_sends msg code st) as (c & E & Hs & Hc & Hst).
    exists c. split_and!; [done|done|]. right. by rewrite Hs. }
  destruct (callback_cases a t r) as [(token & user & Hl)|(Hno & msg & code & Hin & E)].
  2:{ rewrite E. apply Herr; [|done]. intros token user value Hl. by destruct (Hno token user). }
  assert (forall msg code, code ∈ [400%Z; 401%Z; 500%Z] -> (forall value, ~ session_cookie a t token user value) ->
    @openshiftCallbackHandler S a t r = PrometheusAPIError msg code -> exists c,
    openshiftCallbackHandler a t r (mkConn fresh_writer st) = (Return tt, c) /\ conn_st c = st /\
    callback_answer a t r c) as Hfail.
  { intros msg code Hin Hno ->. apply Herr; [|done]. intros token' user' value Hl'.
    by destruct (logged_in_fun _ _ _ _ _ _ Hl Hl') as [-> ->]. }
  pose proof (@logged_in_callback S a t r token user Hl) as E.
  destruct (encrypt_step_spec a t token Hok) as ([enc|e] & Henc & Hk); rewrite Henc in E.
  2:{ eapply Hfail; [|intros value (enc & Hen & _); by apply Hk in Hen|exact E]. set_solver. }
  destruct (SignedString (session_claims t user enc) jwtSigningKey) as [value|e] eqn:Hsig.
  2:{ eapply Hfail; [|intros value (enc' & Hen & Hv)|].
      - right. right. left.
      - apply Hk in Hen. injection Hen as <-. by rewrite Hsig in Hv.
      - rewrite E. unfold mbind, M_bind, lift_flow. rewrite Hsig. reflexivity. }
  destruct (cookie_redirect_sends r (os_cookieName a) value
    (Some (format_expires (now_expiry t + defaultJWTExpiry))) (values_get (URL_Query r) "route") 302 st)
    as (c & Ec & Hcode & Hcook & Hst & _); [by apply set_cookie_nonempty|].
  exists c. split_and!; [|done|].
  - rewrite E. unfold mbind at 1, M_bind at 1, lift_flow. cbn -[SetCookie http_Redirect].
    by rewrite Hsig.
  - left. exists token, user, value. split_and!; try done. exists enc. split; [by apply Hk|done].
Qed.

(** The callback of the login.  It answers 302 and sets the session cookie
    exactly when the login succeeds; the cookie is the signed token of the user the
    cluster named, with the access token encrypted when there is a secret.  In
    every other case, a failing login, encryption or signature, the answer is 400,
    401 or 500 and no cookie is set.  The handler never panics. *)
Theorem openshift_callback {S} (a : OpenShiftAuthenticator) (t : moment) (r : Request) (st : S) :
  os_ok a -> str_forallb is_token_char (os_cookieName a) = true -> os_cookieName a <> "" ->
  exists c, openshiftCallbackHandler a t r (mkConn fresh_writer st) = (Return tt, c) /\ conn_st c = st /\
    callback_answer a t r c.
Proof. apply openshift_callback_sends. Qed.

(** *** Later requests *)

Section session.
Context {laws : @JwtLaws _}.

Definition user_text (u : UserInfo) : Prop :=
  sanitize (GetName u) = GetName u /\ Forall (fun g => sanitize g = g) (GetGroups u).

(** The identity of a session. *)
Definition session_identity (a : OpenShiftAuthenticator) (user : UserInfo) (token : Token) (c : Context) :
    Context :=
  let c := with_user user c in
  if String.eqb (CookieSecret (os_config a)) "" then c else with_accessToken (t_AccessToken token) c.

Lemma kept_token_fun a t token enc enc' :
  kept_token a t token enc -> kept_token a t token enc' -> enc' = enc.
Proof.
  unfold kept_token. destruct (String.eqb _ ""); [congruence|].
  intros (c & Hc & He) (c' & Hc' & He'). assert (c' = c) as -> by congruence. congruence.
Qed.

(** The access token kept in a session is read back from it. *)
Lemma kept_token_read a t token iv : os_ok a -> random_iv t = Ok iv -> String.length iv = BlockSize ->
  exists enc, kept_token a t token enc /\ sanitize enc = enc /\
    forall user ctx, session_ctx a (session_claims t user enc) ctx (session_identity a user token ctx).
Proof.
  intros Hok Hiv Hlen. unfold kept_token, session_identity.
  destruct (String.eqb_spec (CookieSecret (os_config a)) "") as [Hs|Hs].
  { exists "". split_and!; [done..|]. intros user ctx. by apply (session_plain a (session_claims t user "")). }
  destruct (Hok Hs) as (c & _ & Hc).
  destruct (Decrypt_Encrypt c iv (t_AccessToken token) Hlen) as (enc & Henc & Hdec).
  exists enc. split_and!.
  - exists c. by rewrite Hiv.
  - injection Henc as <-. apply sanitize_ascii, EncodeToString_ascii.
  - intros user ctx. by apply (session_token a (session_claims t user enc) ctx c).
Qed.

(** C16: The session round trip.  After a login, the browser keeps one cookie, and
    every later request that carries it, for fifteen minutes and as long as the
    cluster does not authenticate the request otherwise, is passed on with the
    name and the groups of the user that logged in, and, when a secret is set,
    with the access token of the login, encrypted in the cookie and decrypted
    again. *)
Theorem openshift_session {S} (a : OpenShiftAuthenticator) (t : moment) (r : Request) (st : S)
    (token : Token) (user : UserInfo) (iv : string) :
  os_ok a -> str_forallb is_token_char (os_cookieName a) = true -> os_cookieName a <> "" ->
  logged_in a r token user -> user_text user ->
  random_iv t = Ok iv -> String.length iv = BlockSize ->
  (0 <= now_issue t)%Z -> (now_expiry t + defaultJWTExpiry < 2 ^ 53)%Z ->
  exists c h value,
    openshiftCallbackHandler a t r (mkConn fresh_writer st) = (Return tt, c) /\
    sent_cookies c = [h] /\ kept_cookie h = (os_cookieName a, value) /\
    forall now r' hd e,
      Cookie r' (os_cookieName a) = Some value -> os_oauthEnabled a = true ->
      (now_issue t <= now < now_expiry t + defaultJWTExpiry)%Z ->
      AuthenticateRequest (os_authenticator a) r' = (hd, None, e) ->
      forwards (@openshift_Middleware a now) r'
        (set_ctx (session_identity a user token (r_ctx r')) (set_header hd r')).
Proof.
  intros Hok Hn Hne Hl [Hu1 Hu2] Hiv Hlen Hi Hx.
  destruct (kept_token_read a t token iv Hok Hiv Hlen) as (enc & Hk & Hsan & Hctx).
  destruct (jwt_signs (session_claims t user enc) jwtSigningKey) as [value Hv].
  destruct (openshift_callback_sends a t r st Hok Hn Hne) as
    (c & E & _ & [(token' & user' & value' & Hl' & Hses & _ & Hc)|(Hno & _)]); cycle 1.
  { destruct (Hno token user value Hl). by exists enc. }
  destruct (logged_in_fun _ _ _ _ _ _ Hl Hl') as [-> ->].
  destruct Hses as (enc' & Hk' & Hv'). assert (enc' = enc) as -> by eauto using kept_token_fun.
  assert (value' = value) as -> by (rewrite Hv in Hv'; by apply Ok_inj in Hv').
  exists c, (set_cookie_of a t value), value. split_and!; [done..| |].
  { apply kept_cookie_String; [done..|]. by eapply jwt_text. }
  intros now r' hd e Hck Ho Hnow Hauth. apply Middleware_admits.
  eapply by_session; [done..| |apply Hctx; done].
  eapply jwt_parses; [done| |done]. repeat split; try done.
Qed.

(** C17: The sessions of OpenShift can be forged.  The key that signs them is a
    constant of the source, so for every subject and groups there is one token,
    which depends on nothing else, that every authenticator with OAuth enabled
    takes for a session of that user: for every tenant, with or without a cookie
    secret, at every time. *)
Theorem openshift_session_forgeable (user : UserInfo) :
  user_text user ->
  exists value, forall a now r h e,
    os_ok a -> os_oauthEnabled a = true -> Cookie r (os_cookieName a) = Some value ->
    AuthenticateRequest (os_authenticator a) r = (h, None, e) -> (0 <= now < 2 ^ 53 - 1)%Z ->
    exists ctx, forwards (@openshift_Middleware a now) r (set_ctx ctx (set_header h r)) /\
      ctx_tenant ctx = ctx_tenant (r_ctx r) /\ ctx_subject ctx = Some (GetName user) /\
      ctx_groups ctx = Some (GetGroups user).
Proof.
  intros [Hu1 Hu2].
  set (claims := mkClaims (GetGroups user) "AAAAAAAAAAAAAAAAAAAAAA==" "mcoa-gateway" (2 ^ 53 - 1) 0
                   (GetName user)).
  destruct (jwt_signs claims jwtSigningKey) as [value Hv]. exists value.
  intros a now r h e Hok Ho Hck Hauth Hnow.
  assert (ParseWithClaims now value jwtSigningKey = Ok (claims, true)) as Hp.
  { eapply jwt_parses; [done| |done]. repeat split; try done; vm_compute; reflexivity. }
  destruct (String.eqb_spec (CookieSecret (os_config a)) "") as [Hs|Hs].
  - eexists. split; [apply Middleware_admits; eapply by_session; [done..|by apply session_plain]|done].
  - destruct (Hok Hs) as (c & _ & Hc).
    assert (Decrypt c (c_AccessToken claims) = Ok "") as Hd by reflexivity.
    eexists. split; [apply Middleware_admits; eapply by_session; [done..|by eapply session_token]|done].
Qed.
End session.

(** ** gRPC *)

Lemma grpc_request_header md tls :
  header_values (r_header (grpc_request md tls)) "Authorization" = md_get md "Authorization".
Proof.
  unfold grpc_request. cbn [r_header]. generalize (md_get md "Authorization"). intros l.
  assert (forall h, header_values (foldl (fun h v => header_add h "Authorization" v) h l) "Authorization"
    = header_values h "Authorization" ++ l) as Hl; [|by rewrite Hl].
  induction l as [|v l IH]; intros h; cbn [foldl]; [by rewrite app_nil_r|].
  rewrite IH. unfold header_values, header_add, values_all, values_add. rewrite lookup_insert_eq.
  change (default [] (Some ?x)) with x. by rewrite <- app_assoc.
Qed.

(** Authentication with OpenShift over gRPC.  The cluster is asked about a
    request with the authorization values of the stream and the certificates of
    its peer; the stream goes on with the identity it gives, or is refused as
    unauthenticated.  Metadata that is missing is an internal error.  A peer that
    is known but not connected by TLS makes the interceptor panic. *)
Theorem openshift_grpc (a : OpenShiftAuthenticator) (ctx : GrpcCtx) (handler : StreamHandler) :
  match g_md ctx, g_peer ctx with
  | None, _ => openshift_GRPCMiddleware a ctx handler = Return (Some (Internal, "metadata error"))
  | Some _, Some None => exists msg, openshift_GRPCMiddleware a ctx handler = Panic msg
  | Some md, peer =>
      exists r, header_values (r_header r) "Authorization" = md_get md "Authorization" /\
        r_tls r = mjoin peer /\ r_ctx r = background /\ r_cookies r = [] /\
        openshift_GRPCMiddleware a ctx handler =
          Return (match (AuthenticateRequest (os_authenticator a) r).1.2 with
                  | Some user => handler (g_map_ctx (with_user user) ctx)
                  | None => Some (Unauthenticated, "missing SA token or mTLS")
                  end)
  end.
Proof.
  unfold openshift_GRPCMiddleware.
  destruct (g_md ctx) as [md|]; [|done].
  destruct (g_peer ctx) as [[tls|]|]; [|by eexists|].
  - exists (grpc_request md (Some tls)). split_and!; [apply grpc_request_header|done..|].
    cbn. by destruct (AuthenticateRequest _ _) as [[? [?|]] ?].
  - exists (grpc_request md None). split_and!; [apply grpc_request_header|done..|].
    cbn. by destruct (AuthenticateRequest _ _) as [[? [?|]] ?].
Qed.

(** ** Start *)

(** The first attempt that is decisive. *)
Lemma discoverOAuthEndpoints_first `{Pod} attempts res :
  discoverOAuthEndpoints attempts = Some res <->
  exists pre get post, attempts = pre ++ get :: post /\
    Forall (fun get => exists msg, DiscoverOAuth get = DiscoveryFailed msg) pre /\
    DiscoverOAuth get = match res with Some (a, t) => Endpoints a t | None => OAuthServerNotFound end.
Proof.
  induction attempts as [|get attempts IH]; cbn [discoverOAuthEndpoints].
  { split; [done|]. by intros ([|] & ? & ? & ? & _). }
  assert (forall d, DiscoverOAuth get = d -> (forall msg, d <> DiscoveryFailed msg) ->
    forall d', (exists pre g post, get :: attempts = pre ++ g :: post /\
      Forall (fun g => exists msg, DiscoverOAuth g = DiscoveryFailed msg) pre /\ DiscoverOAuth g = d')
    <-> d = d') as Hhere.
  { intros d Hd Hno d'. split.
    - intros ([|g' pre] & g & post & [= <- ->] & Hpre & Hg); [by rewrite <- Hd|].
      apply Forall_cons in Hpre as [[msg Hm] _]. by destruct (Hno msg); rewrite <- Hd.
    - intros <-. by exists [], get, attempts. }
  destruct (DiscoverOAuth get) as [a t| |msg] eqn:Hd.
  - rewrite (Hhere _ eq_refl) by done. destruct res as [[a' t']|]; [|done].
    split; [by intros [= <- <-]|by intros [= <- <-]].
  - rewrite (Hhere _ eq_refl) by done. destruct res as [[a' t']|]; [done|done].
  - rewrite IH. split.
    + intros (pre & g & post & -> & Hpre & Hg). exists (get :: pre), g, post.
      split_and!; [done| |done]. constructor; [by exists msg|done].
    + intros ([|g' pre] & g & post & [= <- ->] & Hpre & Hg); [destruct res as [[]|]; congruence|].
      apply Forall_cons in Hpre as [_ Hpre]. by exists pre, g, post.
Qed.

Lemma discover_credentials_sound pods name credentials :
  discover_credentials pods name = Some credentials ->
  exists pod, pod ∈ pods /\ @DiscoverCredentials pod name = Ok credentials.
Proof.
  induction pods as [|pod pods IH]; cbn [discover_credentials]; [done|].
  destruct (DiscoverCredentials name) as [c|e] eqn:E.
  - intros [= <-]. exists pod. split; [left|done].
  - intros Hc. destruct (IH Hc) as (p & Hp & ?). exists p. split; [by right|done].
Qed.

(** What the constructor gives.  An authenticator it returns has the cookie of
    its tenant and, with a secret, the cipher of that secret; OAuth is enabled
    exactly when the first decisive answer of the cluster names the endpoints, and
    disabled when it is 404; and then the client is the one a service account's
    files give, or an empty one when such a file is empty. *)
Theorem openshift_constructed `{Pod, KubeLibs}
    (New : DelegatingAuthenticatorConfig -> result Authenticator)
    (config : openshiftAuthenticatorConfig) (tenant : string)
    (gets : list (string -> result (Z * result string))) (pods : list Pod) (a : OpenShiftAuthenticator) :
  newOpenshiftAuthenticator New config tenant gets pods = Some (Ok a) ->
  os_ok a /\ os_cookieName a = cookie_name tenant /\ os_config a = config /\
  exists res, (exists pre get post, gets = pre ++ get :: post /\
    Forall (fun get => exists msg, DiscoverOAuth get = DiscoveryFailed msg) pre /\
    DiscoverOAuth get = match res with Some (a, t) => Endpoints a t | None => OAuthServerNotFound end) /\
    match res with
    | None => os_oauthEnabled a = false
    | Some (auth, token) => os_oauthEnabled a = true /\
        AuthURL (os_oauth2Config a) = url_String auth /\ TokenURL (os_oauth2Config a) = url_String token /\
        exists pod, pod ∈ pods /\
          @DiscoverCredentials pod (ServiceAccount config)
          = Ok (ClientID (os_oauth2Config a), ClientSecret (os_oauth2Config a))
    end.
Proof.
  unfold newOpenshiftAuthenticator.
  case_match eqn:Em; [|done]. destruct a0 as [authenticator cipher].
  assert (CookieSecret config <> "" -> exists c, NewCipher (CookieSecret config) = Ok c /\ cipher = Some c)
    as Hci.
  { apply bind_ok in Em as (_ & _ & Em). apply bind_ok in Em as (? & _ & Em).
    apply bind_ok in Em as (? & _ & Em). apply bind_ok in Em as (ci & Hci & [= _ <-]).
    intros Hs. rewrite (proj2 (String.eqb_neq _ _) Hs) in Hci. cbn [negb] in Hci.
    destruct (NewCipher (CookieSecret config)) as [c|e]; [|done]. injection Hci as <-. by exists c. }
  clear Em. destruct (discoverOAuthEndpoints gets) as [res|] eqn:Hd; [|done].
  pose proof (proj1 (discoverOAuthEndpoints_first gets res) Hd) as Hfirst.
  cbn -[discover_credentials]. destruct res as [[auth tok]|].
  - destruct (discover_credentials pods (ServiceAccount config)) as [[id secret]|] eqn:Hc; [|done].
    cbn. intros [= <-]. split_and!; [done..|]. exists (Some (auth, tok)). split; [done|].
    split_and!; [done..|]. by apply discover_credentials_sound.
  - intros [= <-]. split_and!; [done..|]. by exists None.
Qed.
End openshift.

(** ** A concrete cluster

    Signed tokens that hold the claims and the key as bits. *)

Definition claims_tuple (c : OpenShiftClaims) :
    list string * string * string * Z * Z * string :=
  (c_Groups c, c_AccessToken c, c_Issuer c, c_ExpiresAt c, c_IssuedAt c, c_Subject c).

Definition tuple_claims (x : list string * string * string * Z * Z * string) : OpenShiftClaims :=
  let '(g, a, i, e, t, s) := x in mkClaims g a i e t s.

Fixpoint pos_text (p : positive) : string :=
  match p with
  | xH => ""
  | xO p => String "0" (pos_text p)
  | xI p => String "1" (pos_text p)
  end.

Fixpoint text_pos (s : string) : positive :=
  match s with
  | EmptyString => xH
  | String c s => if Ascii.eqb c "0" then xO (text_pos s) else xI (text_pos s)
  end.

Lemma text_pos_text p : text_pos (pos_text p) = p.
Proof. induction p as [p IH|p IH|]; cbn; by rewrite ?IH. Qed.

Lemma pos_text_unreserved p : str_forallb unreserved (pos_text p) = true.
Proof. by induction p. Qed.

Definition demo_jwt : Jwt := {|
  SignedString := fun c key => Ok (pos_text (countable.encode (claims_tuple c, key)));
  ParseWithClaims := fun now token key =>
    match countable.decode (text_pos token) with
    | Some (x, key') =>
        let c := tuple_claims x in
        if String.eqb key key' && (c_IssuedAt c <=? now)%Z && (now <? c_ExpiresAt c)%Z
        then Ok (c, true) else Err "token is expired"
    | None => Err "signature is invalid"
    end
|}.

Lemma demo_jwt_laws : @JwtLaws demo_jwt.
Proof.
  split.
  - intros c key. by eexists.
  - intros c key token [= <-]. apply pos_text_unreserved.
  - intros c key token now [= <-] _ [Hi He]. cbn. rewrite text_pos_text, countable.decode_encode.
    destruct c. cbn in *. rewrite String.eqb_refl, (proj2 (Z.leb_le _ _) Hi), (proj2 (Z.ltb_lt _ _) He).
    done.
Qed.

Definition alice : UserInfo := mkUser "alice" ["dev"; "ops"].

Definition demo_kube : Kube := {|
  Authenticator := unit;
  AuthenticateRequest := fun _ r =>
    if String.eqb (header_get (r_header r) "Authorization") "Bearer sha256~alice"
    then (header_del (r_header r) "Authorization", Some alice, None)
    else (r_header r, None, None)
|}.

Definition demo_time : HttpTime := {| format_expires := pretty |}.

Definition demo_os_config : openshiftAuthenticatorConfig :=
  mkOSConfig "" "gateway" "https://gw/openshift/team/callback" "0123456789abcdef".

Definition demo_os : @OpenShiftAuthenticator demo_kube :=
  @mkOS demo_kube "team" (Some "0123456789abcdef") demo_os_config tt
    (mkOAuth2 "system:serviceaccount:obs:gateway" "secret" "https://oauth/authorize" "https://oauth/token"
       "https://gw/openshift/team/callback" ["user:info"]) (cookie_name "team") true.

Definition demo_login : Request :=
  demo_request ∅ "code=c0de&state=I+love+MCOA+Gateway&route=/api/metrics/v1/team".

Definition demo_moment : moment := mkMoment 1000 1000 (Ok "fedcba9876543210").

(** Sections leave their classes in front of the arguments. *)
Local Existing Instances demo_kube demo_jwt demo_time demo_aes demo_oauth2 simple_urls.

Lemma demo_os_ok : os_ok demo_os.
Proof. intros _. exists "0123456789abcdef". split; reflexivity. Qed.

Lemma demo_logged_in : logged_in demo_os demo_login (mkToken "sha256~alice" true (Some "id.alice") None) alice.
Proof.
  assert (values_get (URL_Query demo_login) "code" = "c0de") as Hc by (vm_compute; reflexivity).
  assert (values_get (URL_Query demo_login) "route" = "/api/metrics/v1/team") as Hr
    by (vm_compute; reflexivity).
  unfold logged_in. rewrite Hc, Hr. split_and!; try done; try (vm_compute; reflexivity).
  eexists _, _. split; [vm_compute; reflexivity|]. vm_compute. reflexivity.
Qed.

Lemma openshift_authentication_witness :
  let r := demo_request {["Authorization" := ["Bearer sha256~alice"]]} "" in
  os_ok demo_os /\
  forwards (@openshift_Middleware _ _ _ demo_os 1000) r
    (map_ctx (with_user alice) (set_header ∅ r)).
Proof.
  intros r. split; [exact demo_os_ok|].
  apply (openshift_authentication demo_os 1000 r demo_os_ok).
  apply by_cluster with None. vm_compute. reflexivity.
Defined.

Lemma openshift_callback_witness :
  exists c, openshiftCallbackHandler demo_os demo_moment demo_login (mkConn fresh_writer tt) = (Return tt, c) /\
    response_status c = 302%Z.
Proof.
  destruct (openshift_callback demo_os demo_moment demo_login tt demo_os_ok) as (c & E & _ & Ha);
    [vm_compute; reflexivity|discriminate|].
  exists c. split; [exact E|]. destruct Ha as [(_ & _ & _ & _ & _ & Hs & _)|(Hno & _)]; [exact Hs|].
  destruct (kept_token_read demo_os demo_moment (mkToken "sha256~alice" true (Some "id.alice") None)
    "fedcba9876543210" demo_os_ok eq_refl eq_refl) as (enc & Hk & _).
  destruct (@jwt_signs _ demo_jwt_laws (session_claims demo_moment alice enc) jwtSigningKey) as [v Hv].
  destruct (Hno _ _ v demo_logged_in). exists enc. split; [exact Hk|exact Hv].
Defined.

Lemma alice_text : user_text alice.
Proof. split; [reflexivity|]. repeat constructor. Qed.

Lemma openshift_session_witness :
  exists c h value,
    openshiftCallbackHandler demo_os demo_moment demo_login (mkConn fresh_writer tt) = (Return tt, c) /\
    sent_cookies c = [h] /\ kept_cookie h = ("mcoa_gateway_team", value) /\
    let r := mkReq "GET" (mkURL "" "gw" "/api/metrics/v1/team" "") ∅ (Ok "") 0 None
               (with_tenant "team" background) ∅ [("mcoa_gateway_team", value)] in
    forwards (@openshift_Middleware _ _ _ demo_os 1899) r
      (set_ctx (with_accessToken "sha256~alice" (with_user alice (r_ctx r))) r).
Proof.
  destruct (@openshift_session _ _ _ _ _ _ demo_jwt_laws unit demo_os demo_moment demo_login tt
    (mkToken "sha256~alice" true (Some "id.alice") None) alice "fedcba9876543210")
    as (c & h & value & E & Hc & Hh & Hlater).
  - exact demo_os_ok.
  - vm_compute. reflexivity.
  - discriminate.
  - exact demo_logged_in.
  - exact alice_text.
  - reflexivity.
  - reflexivity.
  - apply Z.leb_le. reflexivity.
  - apply Z.ltb_lt. reflexivity.
  - exists c, h, value. split; [exact E|]. split; [exact Hc|]. split; [exact Hh|]. intros r.
    assert (Cookie r (os_cookieName demo_os) = Some value) as Hck by (vm_compute; reflexivity).
    assert (1000 <= 1899 < 1000 + 900)%Z as Hnow by (split; [apply Z.leb_le|apply Z.ltb_lt]; reflexivity).
    exact (Hlater 1899%Z r ∅ None Hck eq_refl Hnow eq_refl).
Defined.

Lemma openshift_session_forgeable_witness :
  exists value,
    let r := mkReq "GET" (mkURL "" "gw" "/api/metrics/v1/team" "") ∅ (Ok "") 0 None
               (with_tenant "team" background) ∅ [("mcoa_gateway_team", value)] in
    exists ctx, forwards (@openshift_Middleware _ _ _ demo_os 0) r (set_ctx ctx r) /\
      ctx_subject ctx = Some "root".
Proof.
  destruct (@openshift_session_forgeable _ _ _ demo_jwt_laws (mkUser "root" ["system:masters"]))
    as [value Hv].
  - split; [reflexivity|]. repeat constructor.
  - exists value. intros r.
    assert (Cookie r (os_cookieName demo_os) = Some value) as Hck by (vm_compute; reflexivity).
    assert (0 <= 0 < 2 ^ 53 - 1)%Z as Hnow by (split; [apply Z.leb_le|apply Z.ltb_lt]; reflexivity).
    destruct (Hv demo_os 0%Z r ∅ None demo_os_ok eq_refl Hck eq_refl Hnow) as (ctx & Hf & _ & Hs & _).
    exists ctx. split; [exact Hf|exact Hs].
Defined.

(** A pod whose token file is there but empty. *)
Definition demo_pod (token : string) : Pod := {|
  pod_ReadFile := fun path =>
    if String.eqb path ServiceAccountNamespacePath then Ok "obs"
    else if String.eqb path ServiceAccountTokenPath then Ok token
    else if String.eqb path ServiceAccountCAPath then Ok "PEM" else Err "no such file";
  Getenv := fun _ => ""
|}.

Definition demo_libs : KubeLibs := {|
  rest_Config := unit; AuthClient := unit; CAContent := unit;
  kubeconfig_ClientConfig := fun _ => Ok tt; InClusterConfig := Ok tt;
  with_limits := fun _ _ c => c; NewForConfig := fun _ => Ok tt;
  NewDynamicCAContentFromFile := fun _ _ => Ok tt
|}.

Definition demo_wellknown (url : string) : result (Z * result string) :=
  Ok (200%Z, Ok ("{" +:+ json_string "authorization_endpoint" +:+ ":" +:+ json_string "https://oauth/authorize"
    +:+ "," +:+ json_string "token_endpoint" +:+ ":" +:+ json_string "https://oauth/token" +:+ "}")).

(** The second attempt of the discovery succeeds; the client has no secret. *)
Lemma openshift_constructed_witness :
  exists a, @newOpenshiftAuthenticator _ _ (demo_pod "") demo_libs (fun _ => Ok tt) demo_os_config "team"
      [fun _ => Err "connection refused"; demo_wellknown] [demo_pod ""] = Some (Ok a) /\
    os_ok a /\ os_cookieName a = "mcoa_gateway_team" /\ ClientSecret (os_oauth2Config a) = "".
Proof.
  assert (exists a, @newOpenshiftAuthenticator _ _ (demo_pod "") demo_libs (fun _ => Ok tt) demo_os_config "team"
      [fun _ => Err "connection refused"; demo_wellknown] [demo_pod ""] = Some (Ok a) /\
      ClientSecret (os_oauth2Config a) = "") as (a & E & Hs).
  { eexists. split; [vm_compute; reflexivity|reflexivity]. }
  exists a. split; [exact E|].
  destruct (openshift_constructed _ _ _ _ _ a E) as (Hok & Hc & _).
  split; [exact Hok|]. split; [exact Hc|exact Hs].
Defined.
