(* ===== verification/Traces.v ===== *)
(** * Traces: [api/traces/v1/trace_rbac.go] and the upstream selection of
    [api/traces/v1/http.go]

    Traces are the protobuf messages of Tempo; the model keeps the fields the
    gateway reads or writes.  Pointers that the code follows without a check are
    [option]s, and following a nil one is a panic. *)

From stdpp Require Import base tactics option list gmap strings pretty.
From Stdlib Require Import ZArith Lia Ascii.
From S2P Require Import Prelude GoStrings Labels Url Strconv Json Http Tenant Authz.
From S2P Require Import LogqlAst LogsEnforcer Proxy.

Definition namespaceAttributeKey : string := "k8s.namespace.name".
Definition serviceAttributeKey : string := "service.name".
Definition nil_deref : string := "invalid memory address or nil pointer dereference".

(** ** The routes *)

Definition word_char (c : ascii) : bool :=
  is_lower c || is_upper c || is_digit c || Ascii.eqb c "_".

(** [\w+]. *)
Definition is_word (s : string) : bool := negb (String.eqb s "") && str_forallb word_char s.

Definition after_prefix (p s : string) : option string :=
  if HasPrefix s p then Some (TrimPrefix s p) else None.

Definition routeQueryV1 (path : string) : bool :=
  match after_prefix "/api/traces/" path with Some id => is_word id | None => false end.
Definition routeQueryV2 (path : string) : bool :=
  match after_prefix "/api/v2/traces/" path with Some id => is_word id | None => false end.
Definition routeSearch (path : string) : bool := String.eqb path "/api/search".
Definition routeSearchTagValues (path : string) : bool :=
  String.eqb path "/api/v2/search/tag/resource.service.name/values"
  || String.eqb path "/api/v2/search/tag/resource.k8s.namespace.name/values".

Definition allowedTempoAPIs : list (string -> bool) :=
  [routeQueryV1; routeQueryV2; routeSearch; routeSearchTagValues].
Definition filteredAPIs : list (string -> bool) := [routeQueryV1; routeQueryV2; routeSearch].

Definition matchesAnyRegex (s : string) (patterns : list (string -> bool)) : bool :=
  existsb (fun re => re s) patterns.

(** [WithTraceQLNamespaceSelectAndForbidOtherAPIs]. *)
Definition WithTraceQLNamespaceSelectAndForbidOtherAPIs (enabled : bool) {S} (next : Handler S) :
    Handler S := fun r =>
  if negb enabled then next r
  else
    let requestedTempoPath := TrimPrefix (u_path (r_url r)) "/tempo" in
    if negb (matchesAnyRegex requestedTempoPath allowedTempoAPIs) then WriteHeader 403
    else if String.eqb requestedTempoPath "/api/search" then
      let query := URL_Query r in
      match QueryUnescape (values_get query "q") with
      | Err _ => next r
      | Ok traceQL =>
          let traceQL := (if String.eqb traceQL "" then "{ }" else traceQL)
                         +:+ " | select(resource.k8s.namespace.name)" in
          next (set_rawQuery (Encode (values_set query "q" traceQL)) r)
      end
    else next r.

(** ** Messages *)

(** [AnyValue]: a string or another kind of value. *)
Inductive AnyValue := StringValue (s : string) | OtherValue (tag : string).

Record KeyValue := mkKV { kv_Key : string; kv_Value : option AnyValue }.

Global Instance AnyValue_eq_dec : EqDecision AnyValue.
Proof. solve_decision. Defined.
Global Instance KeyValue_eq_dec : EqDecision KeyValue.
Proof. solve_decision. Defined.

(** [GetStringValue], also on a nil value. *)
Definition GetStringValue (v : option AnyValue) : string :=
  match v with Some (StringValue s) => s | _ => "" end.

Abbreviation Attributes := (list (option KeyValue)).

Record Span := mkSpan { sp_id : string; sp_Attributes : Attributes; sp_Events : list string }.
Record ScopeSpans := mkScopeSpans { ss_Scope : option Attributes; ss_Spans : list Span }.

(** [rs_Resource]: nil, or a resource whose attribute slice may be nil. *)
Record ResourceSpans := mkRS {
  rs_Resource : option (option Attributes);
  rs_ScopeSpans : list ScopeSpans
}.

Record Trace := mkTrace { ResourceSpans_ : list ResourceSpans }.

(** ** [traceRBAC] *)

Definition strip_span (s : Span) : Span := mkSpan (sp_id s) [] [].

(** The loops over the scope spans: a scope that is nil is dereferenced. *)
Fixpoint strip_scopes (l : list ScopeSpans) : flow (list ScopeSpans) :=
  match l with
  | [] => Return []
  | ss :: l =>
      match ss_Scope ss with
      | None => Panic nil_deref
      | Some _ =>
          match strip_scopes l with
          | Return l' => Return (mkScopeSpans (Some []) (strip_span <$> ss_Spans ss) :: l')
          | Panic msg => Panic msg
          end
      end
  end.

Record rbac_loop := mkLoop {
  notAllowedNamespace : string; missingNamespaceAttribute : bool; scopes : list ScopeSpans }.

(** The loop over the attributes of a resource. *)
Fixpoint check_attributes (allowed : gset string) (attrs : Attributes) (st : rbac_loop) :
    flow rbac_loop :=
  match attrs with
  | [] => Return st
  | None :: _ => Panic nil_deref
  | Some a :: attrs =>
      if negb (String.eqb (kv_Key a) namespaceAttributeKey) then check_attributes allowed attrs st
      else
        let v := GetStringValue (kv_Value a) in
        if bool_decide (v ∈ allowed) then
          check_attributes allowed attrs (mkLoop (notAllowedNamespace st) false (scopes st))
        else
          match strip_scopes (scopes st) with
          | Panic msg => Panic msg
          | Return ss => check_attributes allowed attrs (mkLoop v false ss)
          end
  end.

(** [getAttribute]; [GetKey] of a nil attribute is empty. *)
Definition GetKey (a : option KeyValue) : string :=
  match a with Some a => kv_Key a | None => "" end.

Fixpoint getAttribute (attrs : Attributes) (key : string) : option KeyValue :=
  match attrs with
  | [] => None
  | a :: attrs => if String.eqb (GetKey a) key then a else getAttribute attrs key
  end.

Definition resourceRBAC (allowed : gset string) (rs : ResourceSpans) : flow ResourceSpans :=
  match rs_Resource rs with
  | Some (Some attrs) =>
      match check_attributes allowed attrs (mkLoop "" true (rs_ScopeSpans rs)) with
      | Panic msg => Panic msg
      | Return st =>
          let missing :=
            if missingNamespaceAttribute st then
              match strip_scopes (scopes st) with
              | Panic msg => Panic msg
              | Return ss =>
                  let svc := getAttribute attrs serviceAttributeKey in
                  Return (match svc with Some _ => [svc] | None => [] end, ss)
              end
            else Return (attrs, scopes st) in
          match missing with
          | Panic msg => Panic msg
          | Return (attrs, ss) =>
              let attrs :=
                if negb (String.eqb (notAllowedNamespace st) "") then
                  [Some (mkKV namespaceAttributeKey (Some (StringValue (notAllowedNamespace st))));
                   getAttribute attrs serviceAttributeKey]
                else attrs in
              Return (mkRS (Some (Some attrs)) ss)
          end
      end
  | _ => Return rs
  end.

Fixpoint resourcesRBAC (allowed : gset string) (l : list ResourceSpans) : flow (list ResourceSpans) :=
  match l with
  | [] => Return []
  | rs :: l =>
      match resourceRBAC allowed rs with
      | Panic msg => Panic msg
      | Return rs' =>
          match resourcesRBAC allowed l with
          | Panic msg => Panic msg
          | Return l' => Return (rs' :: l')
          end
      end
  end.

(** [traceRBAC]: a nil trace is dereferenced. *)
Definition traceRBAC (allowed : gset string) (trace : option Trace) : flow (option Trace) :=
  match trace with
  | None => Panic nil_deref
  | Some t =>
      match resourcesRBAC allowed (ResourceSpans_ t) with
      | Return l => Return (Some (mkTrace l))
      | Panic msg => Panic msg
      end
  end.

(** ** [searchResponseRBAC] and [spanSetRBAC] *)

Record SearchSpan := mkSearchSpan { srch_id : string; srch_Attributes : Attributes }.
Record SpanSet := mkSpanSet { set_Spans : list SearchSpan; set_Matched : Z }.
Record TraceSearchMetadata := mkMetadata {
  md_TraceID : string; md_SpanSets : list (option SpanSet); md_SpanSet : option SpanSet }.

Definition GetValue (a : option KeyValue) : option AnyValue :=
  match a with Some a => kv_Value a | None => None end.

(** The last namespace that is not allowed, and whether there was no namespace. *)
Definition check_span (allowed : gset string) (acc : string * bool) (a : option KeyValue) :
    string * bool :=
  if String.eqb (GetKey a) namespaceAttributeKey then
    let v := GetStringValue (GetValue a) in
    if bool_decide (v ∈ allowed) then (acc.1, false) else (v, false)
  else acc.

Definition spanRBAC (allowed : gset string) (s : SearchSpan) : SearchSpan :=
  let '(notAllowed, missing) := foldl (check_span allowed) ("", true) (srch_Attributes s) in
  let attrs := if missing then [] else srch_Attributes s in
  let attrs := if negb (String.eqb notAllowed "")
               then [Some (mkKV namespaceAttributeKey (Some (StringValue notAllowed)))] else attrs in
  mkSearchSpan (srch_id s) attrs.

Definition spanSetRBAC (allowed : gset string) (ss : option SpanSet) : option SpanSet :=
  (fun ss => mkSpanSet (spanRBAC allowed <$> set_Spans ss) (set_Matched ss)) <$> ss.

Definition searchResponseRBAC (allowed : gset string) (traces : list TraceSearchMetadata) :
    list TraceSearchMetadata :=
  (fun m => mkMetadata (md_TraceID m) (spanSetRBAC allowed <$> md_SpanSets m)
              (spanSetRBAC allowed (md_SpanSet m))) <$> traces.

(** ** [responseRBACModifier] *)

(** The codecs of the three messages; the flag says whether the content type is
    protobuf. *)
Class TempoCodec := {
  UnmarshalTrace : bool -> string -> result Trace;
  MarshalTrace : bool -> Trace -> result string;
  UnmarshalTraceByID : bool -> string -> result (option Trace);
  MarshalTraceByID : bool -> option Trace -> result string;
  UnmarshalSearch : bool -> string -> result (list TraceSearchMetadata);
  MarshalSearch : bool -> list TraceSearchMetadata -> result string
}.

Record HttpResponse := mkResponse {
  resp_Status : Z;
  resp_Header : Header;
  resp_Body : result string;
  resp_Request : Request
}.

Section modifier.
Context `{TempoCodec}.

Definition filter_body (allowed : gset string) (path : string) (proto : bool) (b : string) :
    flow (result string) :=
  if routeQueryV1 path then
    match UnmarshalTrace proto b with
    | Err e => Return (Err e)
    | Ok t =>
        match traceRBAC allowed (Some t) with
        | Return (Some t) => Return (MarshalTrace proto t)
        | Return None => Panic nil_deref
        | Panic msg => Panic msg
        end
    end
  else if routeQueryV2 path then
    match UnmarshalTraceByID proto b with
    | Err e => Return (Err e)
    | Ok t =>
        match traceRBAC allowed t with
        | Return t => Return (MarshalTraceByID proto t)
        | Panic msg => Panic msg
        end
    end
  else
    match UnmarshalSearch proto b with
    | Err e => Return (Err e)
    | Ok s => Return (MarshalSearch proto (searchResponseRBAC allowed s))
    end.

(** The branch for an unhandled path cannot be reached: [filteredAPIs] are the
    three routes of [filter_body]. *)
Definition responseRBACModifier (response : HttpResponse) : flow (result HttpResponse) :=
  let request := resp_Request response in
  let path := u_path (r_url request) in
  if matchesAnyRegex path filteredAPIs then
    let allowed : gset string := list_to_set (AllowedNamespaces (r_ctx request)) in
    if (resp_Status response =? 200)%Z then
      match resp_Body response with
      | Err e => Return (Err e)
      | Ok b =>
          let proto := String.eqb (header_get (resp_Header response) "Content-Type")
                                  "application/protobuf" in
          match filter_body allowed path proto b with
          | Panic msg => Panic msg
          | Return (Err e) => Return (Err e)
          | Return (Ok out) =>
              Return (Ok (mkResponse (resp_Status response)
                (<["Content-Encoding" := []]>
                  (<["Content-Length" := [Itoa (Z.of_nat (String.length out))]]> (resp_Header response)))
                (Ok out) request))
          end
      end
    else Return (Ok response)
  else Return (Ok response).
End modifier.

(** ** Upstreams by tenant *)

Section upstream.
(** [url.ParseRequestURI]. *)
Context (ParseRequestURI : string -> result URL).

(** [ExpandTemplatedUpstream]. *)
Definition ExpandTemplatedUpstream (templateUpstream tenant : string) : result URL :=
  ParseRequestURI (Replace1 templateUpstream "{tenant}" tenant).

(** [middlewareSetTemplatedUpstream]: the cache is shared by all requests; a
    template that does not parse caches a nil URL, which is dereferenced. *)
Definition middlewareSetTemplatedUpstream (readTemplate : string)
    (templateToURL : gmap string (option URL)) (r : Request) :
    flow Request * gmap string (option URL) :=
  let tenant := default "" (GetTenant (r_ctx r)) in
  let '(upstream, cache) :=
    match templateToURL !! tenant with
    | Some u => (u, templateToURL)
    | None =>
        let u := match ExpandTemplatedUpstream readTemplate tenant with
                 | Ok u => Some u | Err _ => None end in
        (u, <[tenant := u]> templateToURL)
    end in
  (match upstream with
   | None => Panic nil_deref
   | Some u => Return (MiddlewareSetUpstream u r)
   end, cache).
End upstream.

(** ** What redaction means *)

Definition ns_values (attrs : Attributes) : list string :=
  (fun a => GetStringValue (GetValue a)) <$>
    filter (fun a => GetKey a = namespaceAttributeKey) attrs.

(** The namespaces of a resource the caller may not see. *)
Definition forbidden (allowed : gset string) (attrs : Attributes) : list string :=
  filter (fun v => v ∉ allowed) (ns_values attrs).

Definition stripped (l : list ScopeSpans) : Prop :=
  Forall (fun ss => ss_Scope ss = Some [] /\
    Forall (fun s => sp_Attributes s = [] /\ sp_Events s = []) (ss_Spans ss)) l.

Definition span_ids (l : list ScopeSpans) : list (list string) :=
  (fun ss => sp_id <$> ss_Spans ss) <$> l.

Lemma strip_scopes_ok l l' : strip_scopes l = Return l' -> stripped l' /\ span_ids l' = span_ids l.
Proof.
  revert l'. induction l as [|ss l IH]; intros l' E; simpl in E; [simplify_eq; by split; [constructor|]|].
  destruct (ss_Scope ss); [|done]. destruct (strip_scopes l) as [l1|]; [|done].
  simplify_eq. destruct (IH l1 eq_refl) as [H1 H2]. split.
  - constructor; [|done]. split; [done|]. apply Forall_fmap, Forall_true. by intros s.
  - unfold span_ids in *. rewrite !fmap_cons, H2. f_equal. simpl.
    rewrite <-list_fmap_compose. by apply list_fmap_ext.
Qed.

Lemma check_attributes_ok allowed attrs st st' :
  check_attributes allowed attrs st = Return st' ->
  notAllowedNamespace st' = default (notAllowedNamespace st) (last (forbidden allowed attrs)) /\
  missingNamespaceAttribute st' = missingNamespaceAttribute st && bool_decide (ns_values attrs = []) /\
  span_ids (scopes st') = span_ids (scopes st) /\
  (forbidden allowed attrs = [] -> scopes st' = scopes st) /\
  (forbidden allowed attrs <> [] \/ stripped (scopes st) -> stripped (scopes st')).
Proof.
  revert st. induction attrs as [|[a|] attrs IH]; intros st E; simpl in E; [| |done].
  { simplify_eq. simpl. rewrite andb_true_r. naive_solver. }
  unfold forbidden, ns_values in *.
  destruct (String.eqb_spec (kv_Key a) namespaceAttributeKey) as [Hk|Hk]; simpl in E; cycle 1.
  { rewrite (filter_cons_False _ _ attrs) by done. by apply IH. }
  rewrite (filter_cons_True _ _ attrs) by done. rewrite fmap_cons. simpl GetValue.
  case_bool_decide as Hin.
  - apply IH in E as (H1 & H2 & H3 & H4 & H5). rewrite filter_cons_False by (simpl; tauto).
    simpl in *. rewrite andb_false_r. by rewrite H1, H2.
  - destruct (strip_scopes (scopes st)) as [ss|] eqn:Es; [|done].
    apply strip_scopes_ok in Es as [Hst Hids].
    apply IH in E as (H1 & H2 & H3 & H4 & H5). rewrite filter_cons_True by done.
    simpl in *. rewrite andb_false_r. split_and!; [|by rewrite H2|by rewrite H3|done|by auto].
    rewrite H1, last_cons. by destruct (last _).
Qed.

(** What remains of a resource: the name of the service, and the namespace. *)
Definition only_keys (keys : list string) (attrs : Attributes) : Prop :=
  Forall (fun a => match a with Some a => kv_Key a ∈ keys | None => True end) attrs.

Lemma getAttribute_key attrs key a : getAttribute attrs key = Some a -> kv_Key a = key.
Proof.
  induction attrs as [|b attrs IH]; simpl; [done|].
  destruct (String.eqb_spec (GetKey b) key) as [E|]; [|done]. by intros ->.
Qed.

Lemma only_service keys attrs : serviceAttributeKey ∈ keys ->
  only_keys keys [getAttribute attrs serviceAttributeKey].
Proof.
  intros Hin. apply Forall_singleton. destruct (getAttribute attrs serviceAttributeKey) eqn:E; [|done].
  by apply getAttribute_key in E as ->.
Qed.

(** C37: redaction of a trace.  Of a resource with an attribute list that the
    function returns, either the caller may see every namespace it names, and
    then nothing is changed; or it names none or one that is forbidden, and then
    every span has lost its attributes and events and every scope its attributes,
    and of the resource only the service name and, when it is not empty, the
    forbidden namespace remain.  The spans themselves stay. *)
Theorem trace_redaction (allowed : gset string) (attrs : Attributes) (ss : list ScopeSpans)
    (rs' : ResourceSpans) :
  resourceRBAC allowed (mkRS (Some (Some attrs)) ss) = Return rs' ->
  span_ids (rs_ScopeSpans rs') = span_ids ss /\
  (ns_values attrs <> [] -> forbidden allowed attrs = [] -> rs' = mkRS (Some (Some attrs)) ss) /\
  (ns_values attrs = [] \/ forbidden allowed attrs <> [] -> stripped (rs_ScopeSpans rs')) /\
  (ns_values attrs = [] \/ (exists v, last (forbidden allowed attrs) = Some v /\ v <> "") ->
     exists attrs', rs_Resource rs' = Some (Some attrs') /\
       only_keys [namespaceAttributeKey; serviceAttributeKey] attrs').
Proof.
  unfold resourceRBAC. cbn [rs_Resource rs_ScopeSpans].
  destruct (check_attributes allowed attrs _) as [st|] eqn:E; [|done].
  apply check_attributes_ok in E as (H1 & H2 & H3 & H4 & H5). simpl in *. rewrite H2.
  case_bool_decide as Hns; simpl.
  - assert (forbidden allowed attrs = []) as Hf by (unfold forbidden; by rewrite Hns).
    destruct (strip_scopes (scopes st)) as [ss'|] eqn:Es; [|done]. intros [= <-].
    apply strip_scopes_ok in Es as [Hst Hids]. cbn [rs_ScopeSpans rs_Resource].
    rewrite Hf in H1. simpl in H1. rewrite H1. simpl.
    split_and!; [congruence|done|done|]. intros _. eexists. split; [done|].
    destruct (getAttribute attrs serviceAttributeKey) as [a|] eqn:Eg; [|constructor].
    rewrite <-Eg. apply only_service. set_solver.
  - intros [= <-]. cbn [rs_ScopeSpans rs_Resource]. split_and!; [done| |naive_solver|].
    + intros _ Hf. rewrite Hf in H1. simpl in H1. rewrite H1. simpl. f_equal. by apply H4.
    + intros [?|(v & Hv & Hne)]; [done|]. rewrite Hv in H1. simpl in H1. subst v.
      rewrite (proj2 (String.eqb_neq _ _) Hne). simpl. eexists. split; [done|].
      constructor; [simpl; set_solver|]. apply only_service. set_solver.
Qed.

Definition secret : option KeyValue := Some (mkKV "http.url" (Some (StringValue "/secret"))).
Definition in_namespace (ns : string) : option KeyValue :=
  Some (mkKV namespaceAttributeKey (Some (StringValue ns))).
Definition some_spans : list ScopeSpans :=
  [mkScopeSpans (Some [secret]) [mkSpan "span" [secret] ["event"]]].

Lemma trace_redaction_witness :
  exists rs', resourceRBAC {["mine"]} (mkRS (Some (Some [in_namespace "other"; secret])) some_spans)
    = Return rs' /\ stripped (rs_ScopeSpans rs').
Proof.
  eexists. split; [vm_compute; reflexivity|].
  destruct (trace_redaction {["mine"]} [in_namespace "other"; secret] some_spans
    (mkRS (Some (Some [in_namespace "other"; None])) [mkScopeSpans (Some []) [mkSpan "span" [] []]]))
    as (_ & _ & H & _); [vm_compute; reflexivity|].
  apply H. right. vm_compute. discriminate.
Defined.

(** A resource without an attribute list is not redacted at all: its spans
    keep their attributes and events, whatever the caller may see. *)
Theorem unattributed_spans_not_redacted (allowed : gset string) (ss : list ScopeSpans) :
  resourceRBAC allowed (mkRS None ss) = Return (mkRS None ss) /\
  resourceRBAC allowed (mkRS (Some None) ss) = Return (mkRS (Some None) ss).
Proof. done. Qed.

(** A namespace attribute with an empty or non-string value leaves the other
    attributes of the resource readable. *)
Theorem empty_namespace_leaks (tag : string) :
  exists rs', resourceRBAC {["mine"]}
      (mkRS (Some (Some [Some (mkKV namespaceAttributeKey (Some (OtherValue tag))); secret])) some_spans)
    = Return rs' /\
  match rs_Resource rs' with Some (Some attrs) => secret ∈ attrs | _ => False end.
Proof. eexists. split; [vm_compute; reflexivity|]. simpl. set_solver. Qed.

(** Redaction of a search result.  A span keeps its attributes only when it
    names a namespace and the caller may see each one it names; without a
    namespace it loses all of them, and with a forbidden one that is not empty it
    keeps only the last forbidden namespace. *)
Theorem search_redaction (allowed : gset string) (s : SearchSpan) :
  srch_Attributes (spanRBAC allowed s) =
  if bool_decide (ns_values (srch_Attributes s) = []) then []
  else match last (forbidden allowed (srch_Attributes s)) with
       | None | Some "" => srch_Attributes s
       | Some v => [in_namespace v]
       end.
Proof.
  unfold spanRBAC.
  assert (forall attrs acc, foldl (check_span allowed) acc attrs =
    (default acc.1 (last (forbidden allowed attrs)), acc.2 && bool_decide (ns_values attrs = []))) as Hl.
  { unfold forbidden, ns_values. induction attrs as [|a attrs IH]; intros [v m]; simpl.
    - by rewrite andb_true_r.
    - unfold check_span at 2. destruct (String.eqb_spec (GetKey a) namespaceAttributeKey) as [Hk|Hk].
      + rewrite (filter_cons_True _ _ attrs) by done. rewrite fmap_cons.
        destruct (bool_decide_reflect (GetStringValue (GetValue a) ∈ allowed)) as [Hin|Hin];
          rewrite IH.
        * rewrite filter_cons_False by (intros Hn; by apply Hn). by rewrite !andb_false_r.
        * rewrite filter_cons_True by done. rewrite last_cons, !andb_false_r. by destruct (last _).
      + rewrite (filter_cons_False _ _ attrs) by done. apply IH. }
  rewrite Hl. simpl. case_bool_decide as Hns; simpl.
  - assert (forbidden allowed (srch_Attributes s) = []) as -> by (unfold forbidden; by rewrite Hns). done.
  - destruct (last (forbidden allowed (srch_Attributes s))) as [v|]; [|done]. simpl.
    destruct v as [|c v]; done.
Qed.

(** The Tempo API behind query RBAC.  Only the four listed routes pass; any
    other path is answered with 403 and does not reach Tempo.  A search whose
    query can be unescaped is sent with the namespace selected, so that its
    result can be redacted. *)
Theorem tempo_routes (r : Request) :
  let path := TrimPrefix (u_path (r_url r)) "/tempo" in
  if negb (matchesAnyRegex path allowedTempoAPIs)
  then forall S (next : Handler S),
    WithTraceQLNamespaceSelectAndForbidOtherAPIs true next r = WriteHeader 403
  else exists r', forwards (@WithTraceQLNamespaceSelectAndForbidOtherAPIs true) r r' /\
    (path <> "/api/search" -> r' = r) /\
    (forall q, path = "/api/search" -> QueryUnescape (values_get (URL_Query r) "q") = Ok q ->
       values_all (URL_Query r') "q" =
         [(if String.eqb q "" then "{ }" else q) +:+ " | select(resource.k8s.namespace.name)"]).
Proof.
  intros path. unfold forwards, WithTraceQLNamespaceSelectAndForbidOtherAPIs. cbv zeta. fold path.
  change (negb true) with false. destruct (matchesAnyRegex path allowedTempoAPIs); cbn [negb]; [|done].
  destruct (String.eqb_spec path "/api/search") as [E|E]; [|by exists r; naive_solver].
  destruct (QueryUnescape (values_get (URL_Query r) "q")) as [q|e].
  - eexists. split; [reflexivity|]. split; [done|]. intros q' _ [= <-].
    unfold URL_Query at 1. cbn [set_rawQuery set_url r_url u_rawQuery].
    rewrite query_values_Encode by apply no_empty_set, no_empty_query_values.
    unfold values_all, values_set. by rewrite lookup_insert_eq.
  - exists r. naive_solver.
Qed.

(** The cache agrees with the template. *)
Definition cache_ok (parse : string -> result URL) (tmpl : string) (cache : gmap string (option URL)) :
    Prop :=
  forall t u, cache !! t = Some u ->
    u = match ExpandTemplatedUpstream parse tmpl t with Ok u => Some u | Err _ => None end.

(** What a request gets when the template is expanded for its tenant afresh. *)
Definition fresh_upstream (parse : string -> result URL) (tmpl : string) (r : Request) : flow Request :=
  match ExpandTemplatedUpstream parse tmpl (default "" (GetTenant (r_ctx r))) with
  | Ok u => Return (MiddlewareSetUpstream u r)
  | Err _ => Panic nil_deref
  end.

Lemma templated_upstream_step (parse : string -> result URL) (tmpl : string)
    (cache : gmap string (option URL)) (r : Request) :
  cache_ok parse tmpl cache ->
  let res := middlewareSetTemplatedUpstream parse tmpl cache r in
  cache_ok parse tmpl res.2 /\ res.1 = fresh_upstream parse tmpl r.
Proof.
  intros Hok. unfold middlewareSetTemplatedUpstream, fresh_upstream. set (t := default "" _).
  destruct (cache !! t) as [u|] eqn:E; simpl.
  - split; [done|]. rewrite (Hok _ _ E). by destruct (ExpandTemplatedUpstream _ _ _).
  - split; [|by destruct (ExpandTemplatedUpstream _ _ _)].
    intros t' u'. destruct (decide (t = t')) as [<-|Hne].
    + rewrite lookup_insert_eq. by intros [= <-].
    + rewrite lookup_insert_ne by done. apply Hok.
Qed.

(** A director serving requests one after another with its one cache. *)
Fixpoint serve_all (parse : string -> result URL) (tmpl : string) (cache : gmap string (option URL))
    (rs : list Request) : list (flow Request) :=
  match rs with
  | [] => []
  | r :: rs =>
      let '(out, cache) := middlewareSetTemplatedUpstream parse tmpl cache r in
      out :: serve_all parse tmpl cache rs
  end.

(** Caching upstream URLs by tenant is transparent.  Starting from the empty
    cache every request of a sequence is sent to the expansion of the template
    for its own tenant, as if it were expanded afresh; a tenant whose expansion
    does not parse makes the handler panic, on its first request and on every
    later one. *)
Theorem templated_upstream_cache (parse : string -> result URL) (tmpl : string) (rs : list Request) :
  serve_all parse tmpl ∅ rs = map (fresh_upstream parse tmpl) rs.
Proof.
  assert (cache_ok parse tmpl ∅) as Hok by (intros t u; by rewrite lookup_empty).
  revert Hok. generalize (∅ : gmap string (option URL)) as cache.
  induction rs as [|r rs IH]; intros cache Hok; [done|]. cbn [serve_all map].
  pose proof (templated_upstream_step parse tmpl cache r Hok) as [Hok' Hr].
  destruct (middlewareSetTemplatedUpstream parse tmpl cache r) as [out cache'].
  simpl in *. by rewrite Hr, (IH _ Hok').
Qed.
