(* ===== verification/Tls.v ===== *)
(** * TLS configuration

    [tls/config.go] (the server side), [tls/ca_watcher.go] (the watcher of a CA
    file) and [tls/options.go] (the client side, towards the upstreams).

    The file system, key pairs and PEM blocks are the class [TlsEnv]: reading a
    file may fail; a certificate pool is the set of certificates added to it, and
    [AppendCertsFromPEM] adds those a PEM text holds and reports whether there
    was one.  The reloader of the client key pair is a third-party type. *)

From stdpp Require Import base tactics option list gmap sets strings pretty.
From Stdlib Require Import ZArith Lia.
From S2P Require Import Prelude GoStrings.

Local Open Scope Z_scope.

Abbreviation CertPool := (gset string).

Class TlsEnv := {
  KeyPair : Type;
  CertReloader : Type;
  ReadFile : string -> result string;
  LoadX509KeyPair : string -> string -> result KeyPair;
  NewCertReloader : string -> string -> result CertReloader;
  (** The certificates of a PEM text, unreadable blocks skipped. *)
  pem_certs : string -> CertPool;
  (** The SHA256 of a text in hexadecimal. *)
  sha256_hex : string -> string
}.

(** [CertPool.AppendCertsFromPEM]. *)
Definition AppendCertsFromPEM `{TlsEnv} (pool : CertPool) (pem : string) : CertPool * bool :=
  (pool ∪ pem_certs pem, bool_decide (pem_certs pem <> ∅)).

(** ** config.go *)

(** The tables of [crypto/tls]: [CipherSuites], [InsecureCipherSuites]. *)
Definition CipherSuites : list (string * Z) := [
  ("TLS_AES_128_GCM_SHA256", 0x1301); ("TLS_AES_256_GCM_SHA384", 0x1302);
  ("TLS_CHACHA20_POLY1305_SHA256", 0x1303);
  ("TLS_ECDHE_ECDSA_WITH_AES_128_CBC_SHA", 0xc009); ("TLS_ECDHE_ECDSA_WITH_AES_256_CBC_SHA", 0xc00a);
  ("TLS_ECDHE_RSA_WITH_AES_128_CBC_SHA", 0xc013); ("TLS_ECDHE_RSA_WITH_AES_256_CBC_SHA", 0xc014);
  ("TLS_ECDHE_ECDSA_WITH_AES_128_GCM_SHA256", 0xc02b);
  ("TLS_ECDHE_ECDSA_WITH_AES_256_GCM_SHA384", 0xc02c);
  ("TLS_ECDHE_RSA_WITH_AES_128_GCM_SHA256", 0xc02f);
  ("TLS_ECDHE_RSA_WITH_AES_256_GCM_SHA384", 0xc030);
  ("TLS_ECDHE_RSA_WITH_CHACHA20_POLY1305_SHA256", 0xcca8);
  ("TLS_ECDHE_ECDSA_WITH_CHACHA20_POLY1305_SHA256", 0xcca9) ].

Definition InsecureCipherSuites : list (string * Z) := [
  ("TLS_RSA_WITH_RC4_128_SHA", 0x0005); ("TLS_RSA_WITH_3DES_EDE_CBC_SHA", 0x000a);
  ("TLS_RSA_WITH_AES_128_CBC_SHA", 0x002f); ("TLS_RSA_WITH_AES_256_CBC_SHA", 0x0035);
  ("TLS_RSA_WITH_AES_128_CBC_SHA256", 0x003c); ("TLS_RSA_WITH_AES_128_GCM_SHA256", 0x009c);
  ("TLS_RSA_WITH_AES_256_GCM_SHA384", 0x009d); ("TLS_ECDHE_ECDSA_WITH_RC4_128_SHA", 0xc007);
  ("TLS_ECDHE_RSA_WITH_RC4_128_SHA", 0xc011); ("TLS_ECDHE_RSA_WITH_3DES_EDE_CBC_SHA", 0xc012);
  ("TLS_ECDHE_ECDSA_WITH_AES_128_CBC_SHA256", 0xc023);
  ("TLS_ECDHE_RSA_WITH_AES_128_CBC_SHA256", 0xc027) ].

Definition curveIDs : gmap string Z := list_to_map [
  ("X25519", 29); ("X25519MLKEM768", 4588); ("SecP256r1MLKEM768", 4587);
  ("SecP384r1MLKEM1024", 4589);
  ("secp256r1", 23); ("secp384r1", 24); ("secp521r1", 25);
  ("CurveP521", 25); ("CurveP256", 23); ("CurveP384", 24) ].

(** [tlsCipherSuites]: two loops that assign to one map. *)
Definition tlsCipherSuites : gmap string Z :=
  foldl (fun m '(name, id) => <[name := id]> m)
    (foldl (fun m '(name, id) => <[name := id]> m) ∅ CipherSuites) InsecureCipherSuites.

Definition VersionTLS10 : Z := 0x0301.
Definition VersionTLS11 : Z := 0x0302.
Definition VersionTLS12 : Z := 0x0303.
Definition VersionTLS13 : Z := 0x0304.

Definition parseTLSVersion (raw : string) : result Z :=
  if String.eqb raw "VersionTLS10" then Ok VersionTLS10
  else if String.eqb raw "VersionTLS11" then Ok VersionTLS11
  else if String.eqb raw "VersionTLS12" then Ok VersionTLS12
  else if String.eqb raw "VersionTLS13" then Ok VersionTLS13
  else Err ("unknown TLSVersion: " +:+ raw).

(** A nil slice stays nil, so that [crypto/tls] uses its defaults. *)
Definition mapCipherNamesToIDs (raw : option (list string)) : result (option (list Z)) :=
  match raw with
  | None => Ok None
  | Some names =>
      ids ← traverse (fun name =>
        match tlsCipherSuites !! name with
        | Some id => Ok id
        | None => Err ("unknown TLSCipherSuite: " +:+ name)
        end) names;
      Ok (Some ids)
  end.

Definition mapCurveNamesToIDs (raw : option (list string)) : result (option (list Z)) :=
  match raw with
  | None => Ok None
  | Some names =>
      ids ← traverse (fun name =>
        match curveIDs !! name with
        | Some id => Ok id
        | None => Err ("unknown TLSCurve: " +:+ name)
        end) names;
      Ok (Some ids)
  end.

Inductive ClientAuthType :=
  | NoClientCert | RequestClientCert | RequireAnyClientCert
  | VerifyClientCertIfGiven | RequireAndVerifyClientCert.

Global Instance ClientAuthType_eq_dec : EqDecision ClientAuthType.
Proof. solve_decision. Defined.

Definition parseClientAuthType (raw : string) : result ClientAuthType :=
  if String.eqb raw "NoClientCert" then Ok NoClientCert
  else if String.eqb raw "RequestClientCert" then Ok RequestClientCert
  else if String.eqb raw "RequireAnyClientCert" then Ok RequireAnyClientCert
  else if String.eqb raw "VerifyClientCertIfGiven" then Ok VerifyClientCertIfGiven
  else if String.eqb raw "RequireAndVerifyClientCert" then Ok RequireAndVerifyClientCert
  else Err ("unknown ClientAuthType: " +:+ raw).

(** The test of [NewServerConfig]: the two policies that verify a certificate. *)
Definition verifies (t : ClientAuthType) : bool :=
  bool_decide (t = RequireAndVerifyClientCert) || bool_decide (t = VerifyClientCertIfGiven).

Section server.
Context `{TlsEnv}.

Record ServerConfig := mkServerConfig {
  Certificates : list KeyPair;
  cfg_CipherSuites : option (list Z);
  cfg_CurvePreferences : option (list Z);
  ClientAuth : ClientAuthType;
  ClientCAs : option CertPool;
  MinVersion : Z;
  MaxVersion : Z
}.

(** The client CA pool: loaded only when a file is named and the policy
    verifies; otherwise nil. *)
Definition load_client_cas (clientCAFile : string) (auth : ClientAuthType) : result (option CertPool) :=
  if negb (String.eqb clientCAFile "") then
    if verifies auth then
      caCert ← wrap_err "failed to read client CA file" (ReadFile clientCAFile);
      let '(pool, ok) := AppendCertsFromPEM ∅ caCert in
      if negb ok then Err ("failed to parse client CA certificate from " +:+ clientCAFile)
      else Ok (Some pool)
    else Ok None
  else Ok None.

Definition NewServerConfig (certFile keyFile clientCAFile minVersion maxVersion clientAuthType : string)
    (cipherSuites curvePreferences : option (list string)) : result (option ServerConfig) :=
  if String.eqb certFile "" && String.eqb keyFile "" then Ok None
  else
    tlsCert ← wrap_err "server credentials" (LoadX509KeyPair certFile keyFile);
    tlsMinVersion ← wrap_err "cannot parse TLS Version" (parseTLSVersion minVersion);
    tlsMaxVersion ← wrap_err "cannot parse TLS Version" (parseTLSVersion maxVersion);
    if tlsMaxVersion <? tlsMinVersion then
      Err ("TLS minimum version can not be greater than maximum version: "
           +:+ pretty tlsMinVersion +:+ " > " +:+ pretty tlsMaxVersion)
    else
      cipherSuiteIDs ← wrap_err "TLS cipher suite name to ID conversion"
        (mapCipherNamesToIDs cipherSuites);
      curvePreferenceIDs ← wrap_err "TLS curve preference name to ID conversion"
        (mapCurveNamesToIDs curvePreferences);
      tlsClientAuthType ← wrap_err "can not parse TLS Client authentication policy"
        (parseClientAuthType clientAuthType);
      clientCAs ← load_client_cas clientCAFile tlsClientAuthType;
      Ok (Some (mkServerConfig [tlsCert] cipherSuiteIDs curvePreferenceIDs tlsClientAuthType
                  clientCAs tlsMinVersion tlsMaxVersion)).
End server.

(** ** ca_watcher.go *)

Record caCertificateWatcher := mkWatcher {
  certPool : CertPool;
  fileHashContent : string;
  CAPath : string
}.

Section watcher.
Context `{TlsEnv}.

(** What one run of [loadCA] reads: the file is opened twice, once to hash it
    and, when the hash has changed, once for its content. *)
Record reads := mkReads { first_read : result string; second_read : result string }.

Definition hashFile (read : result string) : result string := sha256_hex <$> read.

(** [loadCA]: a content without a certificate leaves the watcher as it is and is
    not an error (the [err] it returns is nil). *)
Definition loadCA (w : caCertificateWatcher) (rd : reads) : caCertificateWatcher * result () :=
  match hashFile (first_read rd) with
  | Err e => (w, Err e)
  | Ok hash =>
      if negb (String.eqb (fileHashContent w) hash) then
        match second_read rd with
        | Err e => (w, Err e)
        | Ok caPEM =>
            let '(newPool, ok) := AppendCertsFromPEM (certPool w) caPEM in
            if negb ok then (w, Ok tt)
            else (mkWatcher newPool hash (CAPath w), Ok tt)
        end
      else (w, Ok tt)
  end.

Definition newCACertificateWatcher (path : string) (pool : CertPool) (rd : reads) :
    caCertificateWatcher * result () :=
  loadCA (mkWatcher pool "" path) rd.

(** [Watch]: the loop over its two channels. *)
Inductive watch_event := CtxDone | TimerFired (rd : reads).

(** The state after the events, and what [Watch] has returned if it has. *)
Fixpoint Watch (w : caCertificateWatcher) (events : list watch_event) :
    caCertificateWatcher * option (result ()) :=
  match events with
  | [] => (w, None)
  | CtxDone :: _ => (w, Some (Ok tt))
  | TimerFired rd :: events =>
      match loadCA w rd with
      | (w, Err e) => (w, Some (Err e))
      | (w, Ok _) => Watch w events
      end
  end.

Definition pool (w : caCertificateWatcher) : CertPool := certPool w.
End watcher.

(** ** options.go *)

Section options.
Context `{TlsEnv}.

Record UpstreamOptions := mkUpstreamOptions {
  uo_cert : option KeyPair;
  uo_ca : string;
  uo_certReloader : option CertReloader;
  uo_caReloader : option caCertificateWatcher
}.

Definition no_options : UpstreamOptions := mkUpstreamOptions None "" None None.

Definition newNoWatchers (certFile keyFile caFile : string) : result UpstreamOptions :=
  cert ← (if negb (String.eqb certFile "") && negb (String.eqb keyFile "")
          then Some <$> LoadX509KeyPair certFile keyFile else Ok None);
  ca ← (if negb (String.eqb caFile "") then ReadFile caFile else Ok "");
  Ok (mkUpstreamOptions cert ca None None).

(** Starting a watcher reads the file once; the actor that would run [Watch] is
    added to a copy of the caller's run group. *)
Definition startCAReloader (caFile : string) (pool : CertPool) : result caCertificateWatcher :=
  match newCACertificateWatcher caFile pool (mkReads (ReadFile caFile) (ReadFile caFile)) with
  | (_, Err e) => Err e
  | (w, Ok _) => Ok w
  end.

Definition newWithWatchers (certFile keyFile caFile : string) : result UpstreamOptions :=
  certReloader ← (if negb (String.eqb certFile "") && negb (String.eqb keyFile "")
                  then Some <$> NewCertReloader certFile keyFile else Ok None);
  caReloader ← (if negb (String.eqb caFile "")
                then Some <$> startCAReloader caFile ∅ else Ok None);
  Ok (mkUpstreamOptions None "" certReloader caReloader).

(** [interval] is a nilable pointer; its value only sets the pace of the watchers. *)
Definition NewUpstreamOptions (certFile keyFile caFile : string) (interval : option Z) :
    result UpstreamOptions :=
  match interval with
  | Some _ => newWithWatchers certFile keyFile caFile
  | None => newNoWatchers certFile keyFile caFile
  end.

Definition isCAReloadEnabled (uo : UpstreamOptions) : bool := bool_decide (is_Some (uo_caReloader uo)).
Definition isCertReloaderEnabled (uo : UpstreamOptions) : bool := bool_decide (is_Some (uo_certReloader uo)).
Definition hasCA (uo : UpstreamOptions) : bool :=
  negb (Nat.eqb (String.length (uo_ca uo)) 0) || isCAReloadEnabled uo.
Definition hasUpstreamCerts (uo : UpstreamOptions) : bool :=
  bool_decide (is_Some (uo_cert uo)) || isCertReloaderEnabled uo.

(** The client side of a [tls.Config]: a static key pair, or a reloader behind
    [GetClientCertificate]. *)
Record ClientConfig := mkClientConfig {
  cc_Certificates : list KeyPair;
  cc_GetClientCertificate : option CertReloader;
  cc_RootCAs : CertPool
}.

Definition NewClientConfig (uo : UpstreamOptions) : option ClientConfig :=
  if negb (hasCA uo) then None
  else
    let '(certs, getter) :=
      if hasUpstreamCerts uo then
        if isCertReloaderEnabled uo then ([], uo_certReloader uo)
        else (option_list (uo_cert uo), None)
      else ([], None) in
    let roots :=
      match uo_caReloader uo with
      | Some w => pool w
      | None => (AppendCertsFromPEM ∅ (uo_ca uo)).1
      end in
    Some (mkClientConfig certs getter roots).
End options.

(** ** Lemmas *)

#[local] Opaque tlsCipherSuites curveIDs.

Lemma parseTLSVersion_range raw v :
  parseTLSVersion raw = Ok v -> VersionTLS10 <= v <= VersionTLS13.
Proof.
  unfold parseTLSVersion, VersionTLS10, VersionTLS11, VersionTLS12, VersionTLS13. intros. cases; lia.
Qed.

Lemma load_client_cas_spec `{TlsEnv} file auth p :
  load_client_cas file auth = Ok p ->
  if verifies auth && negb (String.eqb file "")
  then exists pem, ReadFile file = Ok pem /\ pem_certs pem <> ∅ /\ p = Some (pem_certs pem)
  else p = None.
Proof.
  unfold load_client_cas. destruct (String.eqb file ""), (verifies auth); simpl; try naive_solver.
  rewrite bind_ok. intros (pem & Hr & Hp). apply wrap_err_ok in Hr. cbn in Hp.
  case_bool_decide as Hne; simplify_eq/=. exists pem. by rewrite union_empty_l_L.
Qed.

(** One run of [loadCA] when both reads see the same content [c]. *)
Definition seen (c : string) : reads := mkReads (Ok c) (Ok c).

Lemma loadCA_seen `{TlsEnv} w c :
  let w' := (loadCA w (seen c)).1 in
  (loadCA w (seen c)).2 = Ok tt /\ CAPath w' = CAPath w /\
  ((fileHashContent w = sha256_hex c \/ pem_certs c = ∅) /\ w' = w \/
   certPool w' = certPool w ∪ pem_certs c /\ fileHashContent w' = sha256_hex c).
Proof.
  unfold loadCA, seen, hashFile. cbn.
  destruct (String.eqb_spec (fileHashContent w) (sha256_hex c)) as [E|E]; simpl; [naive_solver|].
  case_bool_decide as Hc; simpl; [naive_solver|].
  split_and!; [done..|]. left. split; [right|done]. destruct (decide (pem_certs c = ∅)); naive_solver.
Qed.

(** A recorded hash is that of a content whose certificates are in the pool. *)
Definition watcher_ok `{TlsEnv} (cs : list string) (w : caCertificateWatcher) : Prop :=
  fileHashContent w = "" \/
  exists c, c ∈ cs /\ fileHashContent w = sha256_hex c /\ pem_certs c ⊆ certPool w.

(** The certificates of all contents of a list. *)
Definition all_certs `{TlsEnv} (cs : list string) : CertPool := ⋃ (pem_certs <$> cs).

Section watch_exact.
Context `{TlsEnv} (universe : list string).
Hypothesis sha_nonempty : forall c, sha256_hex c <> "".
Hypothesis sha_inj : forall c d, c ∈ universe -> d ∈ universe -> sha256_hex c = sha256_hex d -> c = d.

Lemma loadCA_exact w c :
  c ∈ universe -> watcher_ok universe w ->
  watcher_ok universe (loadCA w (seen c)).1 /\
  certPool (loadCA w (seen c)).1 = certPool w ∪ pem_certs c.
Proof.
  intros Hc Hok. destruct (loadCA_seen w c) as (_ & _ & [[Hsame ->]|[Hp Hh]]).
  - split; [done|]. destruct Hsame as [Hs|Hs]; [|set_solver].
    destruct Hok as [He|(d & Hd & Hhd & Hsub)]; [exfalso; by apply (sha_nonempty c); congruence|].
    assert (c = d) as -> by (apply sha_inj; congruence). set_solver.
  - split; [|done]. right. exists c. rewrite Hp. set_solver.
Qed.

Lemma Watch_exact cs w :
  (forall c, c ∈ cs -> c ∈ universe) -> watcher_ok universe w ->
  let res := Watch w (map (fun c => TimerFired (seen c)) cs) in
  res.2 = None /\ certPool res.1 = certPool w ∪ all_certs cs.
Proof.
  revert w. induction cs as [|c cs IH]; intros w Hcs Hok; simpl.
  - split; [done|]. unfold all_certs. set_solver.
  - destruct (loadCA_exact w c) as [Hok' Hp]; [set_solver|done|].
    destruct (loadCA_seen w c) as (Hr & _ & _).
    destruct (loadCA w (seen c)) as [w' r]. simpl in *. subst r.
    destruct (IH w') as [Hn Hu]; [set_solver|done|]. split; [done|].
    rewrite Hu, Hp. unfold all_certs. rewrite fmap_cons, union_list_cons. set_solver.
Qed.
End watch_exact.

Lemma startCAReloader_pool `{TlsEnv} file p w :
  (forall c, sha256_hex c <> "") -> startCAReloader file p = Ok w ->
  exists pem, ReadFile file = Ok pem /\ pool w = p ∪ pem_certs pem.
Proof.
  intros Hsha. unfold startCAReloader, newCACertificateWatcher.
  destruct (ReadFile file) as [pem|e]; [|done]. change (mkReads (Ok pem) (Ok pem)) with (seen pem).
  destruct (loadCA_seen (mkWatcher p "" file) pem) as (Hr & _ & Hw).
  destruct (loadCA _ _) as [w' r]. simpl in *. subst r. intros [= <-]. exists pem. split; [done|].
  unfold pool. destruct Hw as [[[He|He] ->]|[-> _]]; [|simpl; set_solver|done].
  exfalso. by apply (Hsha pem).
Qed.

(** A small environment, for concrete runs. *)
Definition demo_tls : TlsEnv := {|
  KeyPair := string * string; CertReloader := string * string;
  ReadFile := fun f => if String.eqb f "/etc/ca.pem" then Ok "ca-1" else Err "no such file";
  LoadX509KeyPair := fun c k => Ok (c, k);
  NewCertReloader := fun c k => Ok (c, k);
  pem_certs := fun s => if String.eqb s "" then ∅ else {[ s ]};
  sha256_hex := fun s => "#" +:+ s |}.

(** ** Properties *)

(** The server's TLS configuration.  When one is built, the versions are
    those of TLS 1.0 to 1.3 with the minimum not above the maximum, every
    configured cipher suite and curve is known and kept in its order, and client
    certificates are verified against exactly the certificates of the CA file,
    of which there is at least one, when the policy verifies them and a file is
    named; in all other cases no pool is set. *)
Theorem server_config `{TlsEnv} (certFile keyFile clientCAFile minV maxV auth : string)
    (suites curves : list string) (cfg : ServerConfig) :
  NewServerConfig certFile keyFile clientCAFile minV maxV auth (Some suites) (Some curves)
    = Ok (Some cfg) ->
  (certFile <> "" \/ keyFile <> "") /\
  VersionTLS10 <= MinVersion cfg <= MaxVersion cfg /\ MaxVersion cfg <= VersionTLS13 /\
  (exists ids, cfg_CipherSuites cfg = Some ids /\
     Forall2 (fun name id => tlsCipherSuites !! name = Some id) suites ids) /\
  (exists ids, cfg_CurvePreferences cfg = Some ids /\
     Forall2 (fun name id => curveIDs !! name = Some id) curves ids) /\
  parseClientAuthType auth = Ok (ClientAuth cfg) /\
  if verifies (ClientAuth cfg) && negb (String.eqb clientCAFile "")
  then exists pem, ReadFile clientCAFile = Ok pem /\ pem_certs pem <> ∅ /\
                   ClientCAs cfg = Some (pem_certs pem)
  else ClientCAs cfg = None.
Proof.
  unfold NewServerConfig. destruct (String.eqb certFile "" && String.eqb keyFile "") eqn:Ef; [done|].
  intros H1. bind_inv H1 kp Hkp. bind_inv H1 lo Hlo. bind_inv H1 hi Hhi.
  destruct (Z.ltb_spec hi lo); [done|].
  bind_inv H1 cs Hcs. bind_inv H1 gs Hgs. bind_inv H1 au Hau. bind_inv H1 cas Hcas.
  injection H1 as <-.
  cbn [MinVersion MaxVersion cfg_CipherSuites cfg_CurvePreferences ClientAuth ClientCAs].
  apply parseTLSVersion_range in Hlo, Hhi. apply load_client_cas_spec in Hcas.
  bind_inv Hcs ids Hids. bind_inv Hgs ids' Hids'.
  injection Hcs as <-. injection Hgs as <-. apply traverse_ok in Hids, Hids'.
  split_and!; try lia; [|eexists; split; [done|]..|done|done].
  - apply andb_false_iff in Ef as [E%String.eqb_neq|E%String.eqb_neq]; auto.
  - eapply Forall2_impl; [exact Hids|]. intros name ?. cbv beta. by destruct (_ !! name); [intros [= ->]|].
  - eapply Forall2_impl; [exact Hids'|]. intros name ?. cbv beta. by destruct (_ !! name); [intros [= ->]|].
Qed.

Lemma server_config_witness :
  VersionTLS10 <= VersionTLS12 <= VersionTLS13 /\ VersionTLS13 <= VersionTLS13.
Proof.
  destruct (@server_config demo_tls "c" "k" "/etc/ca.pem" "VersionTLS12" "VersionTLS13"
    "RequireAndVerifyClientCert" ["TLS_AES_128_GCM_SHA256"] ["X25519"]
    (@mkServerConfig demo_tls [("c", "k")] (Some [0x1301]) (Some [29]) RequireAndVerifyClientCert
       (Some {[ "ca-1" ]}) VersionTLS12 VersionTLS13)) as (_ & H1 & H2 & _); [vm_compute; reflexivity|].
  split; assumption.
Defined.

(** The CA watcher.  While the file can be read and does not change during
    a run, the watcher never stops, and its pool holds exactly the certificates
    of the initial pool and of every content it has seen: a content without a
    certificate, or seen before, changes nothing, and a certificate is never
    dropped when the file no longer holds it. *)
Theorem ca_watcher `{TlsEnv} (path : string) (p : CertPool) (c : string) (cs : list string) :
  (forall c, sha256_hex c <> "") ->
  (forall c1 c2, c1 ∈ c :: cs -> c2 ∈ c :: cs -> sha256_hex c1 = sha256_hex c2 -> c1 = c2) ->
  let w := (newCACertificateWatcher path p (seen c)).1 in
  (Watch w (map (fun c => TimerFired (seen c)) cs)).2 = None /\
  pool (Watch w (map (fun c => TimerFired (seen c)) cs)).1 = p ∪ all_certs (c :: cs).
Proof.
  intros Hne Hinj w.
  destruct (loadCA_exact (c :: cs) Hne Hinj (mkWatcher p "" path) c) as [Hok Hp];
    [set_solver|by left|].
  destruct (Watch_exact (c :: cs) Hne Hinj cs w) as [Hn Hu]; [set_solver|done|].
  split; [done|]. unfold pool. rewrite Hu. unfold w, newCACertificateWatcher. rewrite Hp.
  unfold all_certs. rewrite fmap_cons, union_list_cons. cbn. set_solver.
Qed.

Lemma ca_watcher_witness :
  let w := (@newCACertificateWatcher demo_tls "/etc/ca.pem" ∅ (seen "ca-1")).1 in
  pool (@Watch demo_tls w [TimerFired (seen "ca-2"); TimerFired (seen ""); TimerFired (seen "ca-1")]).1
  = ∅ ∪ @all_certs demo_tls ["ca-1"; "ca-2"; ""; "ca-1"].
Proof.
  refine (proj2 (@ca_watcher demo_tls "/etc/ca.pem" ∅ "ca-1" ["ca-2"; ""; "ca-1"] _ _)).
  - intros c. discriminate.
  - intros c1 c2 _ _ Heq. exact (f_equal (fun s => match s with String _ t => t | _ => s end) Heq).
Defined.

(** The client's TLS configuration.  Towards an upstream there is one exactly
    when a CA file is named and, without watchers, is not empty; its roots are
    then the certificates of that file, and it presents a client certificate, a
    fixed or a reloaded one, exactly when both the certificate and the key file
    are named.  Without a CA the client certificate is not used either. *)
Theorem client_config `{TlsEnv} (certFile keyFile caFile : string) (interval : option Z)
    (uo : UpstreamOptions) :
  (forall c, sha256_hex c <> "") ->
  NewUpstreamOptions certFile keyFile caFile interval = Ok uo ->
  match NewClientConfig uo with
  | None => caFile = "" \/ interval = None /\ ReadFile caFile = Ok ""
  | Some cfg =>
      caFile <> "" /\
      (exists pem, ReadFile caFile = Ok pem /\ cc_RootCAs cfg = pem_certs pem) /\
      (cc_Certificates cfg = [] /\ cc_GetClientCertificate cfg = None <-> certFile = "" \/ keyFile = "") /\
      (is_Some (cc_GetClientCertificate cfg) -> is_Some interval)
  end.
Proof.
  intros Hsha. unfold NewUpstreamOptions. destruct interval as [i|].
  - unfold newWithWatchers. intros H1. bind_inv H1 rl Hrl. bind_inv H1 ca Hca. simplify_eq/=. unfold NewClientConfig, hasCA, isCAReloadEnabled,
      hasUpstreamCerts, isCertReloaderEnabled. cbn.
    destruct (String.eqb_spec caFile ""); simpl in Hca; [simplify_eq/=; by left|].
    destruct (startCAReloader caFile ∅) as [w|e] eqn:Hs; simplify_eq/=.
    apply startCAReloader_pool in Hs as (pem & Hpem & Hpool); [|done]. rewrite union_empty_l_L in Hpool.
    destruct (String.eqb_spec certFile ""), (String.eqb_spec keyFile ""); simplify_eq/=;
      try destruct (NewCertReloader _ _); simplify_eq/=; naive_solver.
  - unfold newNoWatchers. intros H1. bind_inv H1 kp Hkp. bind_inv H1 ca Hca. simplify_eq/=. unfold NewClientConfig, hasCA, isCAReloadEnabled,
      hasUpstreamCerts, isCertReloaderEnabled. cbn.
    destruct (String.eqb_spec caFile ""); simpl in Hca; [simplify_eq/=; by left|].
    destruct ca as [|ch ca]; simplify_eq/=; [by right|].
    destruct (String.eqb_spec certFile ""), (String.eqb_spec keyFile ""); simplify_eq/=;
      try destruct (LoadX509KeyPair _ _); simplify_eq/=; rewrite ?union_empty_l_L; naive_solver.
Qed.

Lemma client_config_witness :
  exists cfg, @NewClientConfig demo_tls
    (@mkUpstreamOptions demo_tls (Some ("c", "k")) "ca-1" None None) = Some cfg /\
  exists pem, @ReadFile demo_tls "/etc/ca.pem" = Ok pem /\ @cc_RootCAs demo_tls cfg = @pem_certs demo_tls pem.
Proof.
  eexists. split; [reflexivity|].
  refine (proj1 (proj2 (@client_config demo_tls "c" "k" "/etc/ca.pem" None
    (@mkUpstreamOptions demo_tls (Some ("c", "k")) "ca-1" None None) _ _))).
  - intros c. discriminate.
  - reflexivity.
Defined.
