(* ===== verification/Providers.v ===== *)
(** * The authentication providers

    [authentication/authentication.go] and the goroutines of [main.go] that
    start one provider per tenant.

    A provider is what the interface [Provider] exposes; the factories, which
    talk to identity providers, are a parameter.  Each tenant's initialisation is
    a goroutine with three atomic steps: running the factory, registering the
    provider under the manager's lock, and mounting its login route under
    [main]'s lock.  [step] interleaves the goroutines of all tenants. *)

From stdpp Require Import base tactics option list gmap strings relations.
From Stdlib Require Import Lia Arith.
From S2P Require Import Prelude GoStrings Http Tenant.
Import MTLSTenant.

(** ** The manager *)

Section providers.
Context {S : Type}.

Record Provider := mkProvider {
  p_Middleware : Middleware S;
  p_GRPCMiddleware : Interceptor;
  (** The route and, unless nil, the handler of the login pages. *)
  p_Handler : string * option (Handler S)
}.

Record ProviderManager := mkPM {
  patternHandlers : gmap string (gmap string (Handler S));
  middlewares : gmap string (Middleware S);
  gRPCInterceptors : gmap string Interceptor
}.

Definition NewProviderManager : ProviderManager := mkPM ∅ ∅ ∅.

(** [providerFactories] and [onboardNewProvider]: the configuration of a tenant
    is an argument of the factory. *)
Context {Config : Type}.
Definition ProviderFactory : Type := Config -> string -> result Provider.

Definition onboardNewProvider (providerType : string) (factory : ProviderFactory)
    (providerFactories : gmap string ProviderFactory) : gmap string ProviderFactory :=
  <[providerType := factory]> providerFactories.

Definition getProviderFactory (providerFactories : gmap string ProviderFactory) (authType : string) :
    result ProviderFactory :=
  match providerFactories !! authType with
  | Some f => Ok f
  | None => Err ("authenticator type " +:+ authType +:+ " is not supported")
  end.

(** The block of [InitializeProvider] that holds the lock. *)
Definition register (tenant : string) (provider : Provider) (pm : ProviderManager) : ProviderManager :=
  let mws := <[tenant := p_Middleware provider]> (middlewares pm) in
  let grpcs := <[tenant := p_GRPCMiddleware provider]> (gRPCInterceptors pm) in
  let '(pattern, handler) := p_Handler provider in
  match handler with
  | Some h =>
      if negb (String.eqb pattern "") then
        let tenants := default ∅ (patternHandlers pm !! pattern) in
        mkPM (<[pattern := <[tenant := h]> tenants]> (patternHandlers pm)) mws grpcs
      else mkPM (patternHandlers pm) mws grpcs
  | None => mkPM (patternHandlers pm) mws grpcs
  end.

Definition Middlewares (pm : ProviderManager) : MiddlewareFunc S := fun tenant =>
  match middlewares pm !! tenant with
  | Some mw => Some mw
  | None =>
      match middlewares pm !! DefaultTenantName with
      | Some mw => Some mw
      | None => None
      end
  end.

Definition GRPCMiddlewares (pm : ProviderManager) (tenant : string) : option Interceptor :=
  match gRPCInterceptors pm !! tenant with
  | Some mw => Some mw
  | None =>
      match gRPCInterceptors pm !! DefaultTenantName with
      | Some mw => Some mw
      | None => None
      end
  end.

(** The handler found for a pattern and a tenant; indexing a missing pattern
    gives a nil map, in which nothing is found. *)
Definition pattern_handler (pm : ProviderManager) (pattern tenant : string) : option (Handler S) :=
  patternHandlers pm !! pattern ≫= lookup tenant.

Definition PatternHandler (pm : ProviderManager) (pattern : string) : Handler S := fun r =>
  match GetTenant (r_ctx r) with
  | None => PrometheusAPIError "error finding tenant" 500
  | Some tenant =>
      match pattern_handler pm pattern tenant with
      | None => PrometheusAPIError "error finding tenant" 401
      | Some h => h r
      end
  end.

(** ** Initialisation as interleaved steps *)

Record tenant_job := mkJob { job_config : Config; job_tenant : string; job_type : string }.

(** A goroutine: not started, holding a provider that is not yet registered,
    registered but its route not yet mounted, or finished (with no provider
    after an error). *)
Inductive phase := Starting | Created (p : Provider) | Registered (p : Provider)
  | Finished (p : option Provider).

(** The factory's part of [InitializeProvider]. *)
Definition create (factories : gmap string ProviderFactory) (j : tenant_job) : option Provider :=
  match (f ← getProviderFactory factories (job_type j); f (job_config j) (job_tenant j)) with
  | Ok p => Some p
  | Err _ => None
  end.

Record init_state := mkInit {
  in_pm : ProviderManager;
  in_jobs : list (tenant_job * phase);
  (** The routes mounted so far, latest first ([registeredAuthNRoutes]). *)
  in_routes : list string
}.

(** The route of [main.go]: mounted once per pattern. *)
Definition mount_authn_route (p : Provider) (routes : list string) : list string :=
  let pattern := (p_Handler p).1 in
  if bool_decide (pattern ∉ routes) && negb (String.eqb pattern "") then pattern :: routes else routes.

Inductive step (factories : gmap string ProviderFactory) : init_state -> init_state -> Prop :=
  | step_create pm jobs routes i j :
      jobs !! i = Some (j, Starting) ->
      step factories (mkInit pm jobs routes)
        (mkInit pm (<[i := (j, match create factories j with
                               | Some p => Created p | None => Finished None end)]> jobs) routes)
  | step_register pm jobs routes i j p :
      jobs !! i = Some (j, Created p) ->
      step factories (mkInit pm jobs routes)
        (mkInit (register (job_tenant j) p pm) (<[i := (j, Registered p)]> jobs) routes)
  | step_mount pm jobs routes i j p :
      jobs !! i = Some (j, Registered p) ->
      step factories (mkInit pm jobs routes)
        (mkInit pm (<[i := (j, Finished (Some p))]> jobs) (mount_authn_route p routes)).

Definition started (js : list tenant_job) : init_state :=
  mkInit NewProviderManager (map (fun j => (j, Starting)) js) [].

Definition all_finished (st : init_state) : Prop :=
  Forall (fun jp => match jp.2 with Finished _ => True | _ => False end) (in_jobs st).

(** The provider a tenant is configured with, if it can be created. *)
Definition configured (factories : gmap string ProviderFactory) (js : list tenant_job) (t : string) :
    option Provider :=
  head (filter (fun j => job_tenant j = t) js) ≫= create factories.

(** ** The invariant *)

(** The provider a goroutine has registered. *)
Definition registered (ph : phase) : option Provider :=
  match ph with Registered p => Some p | Finished p => p | _ => None end.

(** What a goroutine holds is what its factory gives. *)
Definition phase_ok (factories : gmap string ProviderFactory) (jp : tenant_job * phase) : Prop :=
  match jp.2 with
  | Starting => True
  | Created p | Registered p => create factories jp.1 = Some p
  | Finished p => create factories jp.1 = p
  end.

(** Tenant [t]'s provider is registered. *)
Definition has_provider (st : init_state) (t : string) (p : Provider) : Prop :=
  exists k j ph, in_jobs st !! k = Some (j, ph) /\ job_tenant j = t /\ registered ph = Some p.

Record init_inv (factories : gmap string ProviderFactory) (js : list tenant_job) (st : init_state) :
    Prop := {
  inv_jobs : map fst (in_jobs st) = js;
  inv_phases : Forall (phase_ok factories) (in_jobs st);
  inv_mw : forall t m, middlewares (in_pm st) !! t = Some m <->
    exists p, has_provider st t p /\ p_Middleware p = m;
  inv_grpc : forall t g, gRPCInterceptors (in_pm st) !! t = Some g <->
    exists p, has_provider st t p /\ p_GRPCMiddleware p = g;
  inv_pattern : forall pat t h, pattern_handler (in_pm st) pat t = Some h <->
    exists p, has_provider st t p /\ pat <> "" /\ p_Handler p = (pat, Some h);
  inv_routes : NoDup (in_routes st)
}.

Lemma register_spec t p pm :
  middlewares (register t p pm) = <[t := p_Middleware p]> (middlewares pm) /\
  gRPCInterceptors (register t p pm) = <[t := p_GRPCMiddleware p]> (gRPCInterceptors pm).
Proof. unfold register. by destruct p as [? ? [pat [h|]]]; simpl; [destruct (String.eqb pat "")|]. Qed.

Lemma pattern_handler_register t p pm pat t' :
  pattern_handler pm pat t = None ->
  pattern_handler (register t p pm) pat t' =
  if decide (t = t' /\ pat = (p_Handler p).1 /\ pat <> "") then (p_Handler p).2
  else pattern_handler pm pat t'.
Proof.
  unfold register, pattern_handler. destruct p as [? ? [pat' [h|]]]; simpl.
  - destruct (String.eqb_spec pat' "") as [->|He]; simpl; intros Hn.
    { rewrite decide_False; [done|naive_solver]. }
    destruct (decide (pat = pat')) as [->|Hne]; simpl.
    + rewrite lookup_insert_eq. cbn. destruct (decide (t = t')) as [<-|Ht].
      * rewrite lookup_insert_eq, decide_True; done.
      * rewrite lookup_insert_ne by done. rewrite decide_False by naive_solver.
        by destruct (patternHandlers pm !! pat') eqn:?; simpl.
    + rewrite lookup_insert_ne by done. by rewrite decide_False by naive_solver.
  - intros Hn. destruct (decide _) as [(<- & -> & _)|]; done.
Qed.

(** Updating the goroutine of one job. *)
Lemma has_provider_same pm pm' jobs r r' i j ph ph' t p :
  jobs !! i = Some (j, ph) -> registered ph' = registered ph ->
  has_provider (mkInit pm' (<[i := (j, ph')]> jobs) r') t p <-> has_provider (mkInit pm jobs r) t p.
Proof.
  intros Hi Hr. unfold has_provider. simpl. split; intros (k & j' & phk & Hk & Ht & Hp).
  - apply list_lookup_insert_Some in Hk as [(-> & [= <- <-] & _)|[? Hk]]; [|naive_solver].
    eexists _, j, ph. split_and!; [done..|congruence].
  - destruct (decide (i = k)) as [<-|Hne].
    + exists i, j, ph'. rewrite list_lookup_insert_eq by (by eapply lookup_lt_Some).
      rewrite Hi in Hk. injection Hk as <- <-. split_and!; [done..|congruence].
    + exists k, j', phk. by rewrite list_lookup_insert_ne.
Qed.

Lemma has_provider_new pm pm' jobs r r' i j ph ph' t p q :
  jobs !! i = Some (j, ph) -> registered ph = None -> registered ph' = Some q ->
  has_provider (mkInit pm' (<[i := (j, ph')]> jobs) r') t p <->
  has_provider (mkInit pm jobs r) t p \/ t = job_tenant j /\ p = q.
Proof.
  intros Hi Hr Hr'. unfold has_provider. simpl. split.
  - intros (k & j' & phk & Hk & Ht & Hp).
    apply list_lookup_insert_Some in Hk as [(-> & [= <- <-] & _)|[? Hk]]; [|naive_solver].
    right. naive_solver congruence.
  - intros [(k & j' & phk & Hk & Ht & Hp)|[-> ->]].
    + exists k, j', phk. rewrite list_lookup_insert_ne; naive_solver congruence.
    + exists i, j, ph'. rewrite list_lookup_insert_eq by (by eapply lookup_lt_Some). done.
Qed.

Lemma insert_jobs (jobs : list (tenant_job * phase)) i j ph ph' :
  jobs !! i = Some (j, ph) -> map fst (<[i := (j, ph')]> jobs) = map fst jobs.
Proof.
  intros Hi. change (map fst) with (fmap (M:=list) (@fst tenant_job phase)).
  rewrite list_fmap_insert. apply list_insert_id. by rewrite list_lookup_fmap, Hi.
Qed.

Lemma NoDup_mount p routes : NoDup routes -> NoDup (mount_authn_route p routes).
Proof.
  unfold mount_authn_route. intros Hnd. case_bool_decide; simpl; [|done].
  destruct (negb _); [by constructor|done].
Qed.

Section invariant.
Context (factories : gmap string ProviderFactory) (js : list tenant_job).
Hypothesis tenants_distinct : NoDup (map job_tenant js).

(** Only one goroutine works for a tenant. *)
Lemma job_unique st i k j j' ph ph' :
  map fst (in_jobs st) = js -> in_jobs st !! i = Some (j, ph) -> in_jobs st !! k = Some (j', ph') ->
  job_tenant j = job_tenant j' -> i = k.
Proof.
  intros Hjs Hi Hk Heq. eapply (NoDup_lookup _ i k (job_tenant j) tenants_distinct);
    rewrite <- Hjs; change (@map) with (fun A B => fmap (M:=list) (A:=A) (B:=B)); cbv beta;
    rewrite !list_lookup_fmap, ?Hi, ?Hk; simpl; congruence.
Qed.

Lemma init_inv_started : init_inv factories js (started js).
Proof.
  assert (forall t p, ~ has_provider (started js) t p) as Hno.
  { intros t p (k & j & ph & Hk & _ & Hp). unfold started in Hk. simpl in Hk.
    change (map ?f js) with (f <$> js) in Hk. rewrite list_lookup_fmap in Hk.
    destruct (js !! k); naive_solver. }
  split; simpl.
  - rewrite map_map. apply map_id.
  - apply Forall_forall. intros jp Hin. apply list_elem_of_In, in_map_iff in Hin as (? & <- & _). done.
  - intros t m. rewrite lookup_empty. naive_solver.
  - intros t m. rewrite lookup_empty. naive_solver.
  - intros pat t h. unfold pattern_handler. simpl. rewrite lookup_empty. naive_solver.
  - constructor.
Qed.

(** A step that leaves the manager and the registered providers alone. *)
Lemma init_inv_same pm jobs routes routes' i j ph ph' :
  jobs !! i = Some (j, ph) -> registered ph' = registered ph -> phase_ok factories (j, ph') ->
  NoDup routes' -> init_inv factories js (mkInit pm jobs routes) ->
  init_inv factories js (mkInit pm (<[i := (j, ph')]> jobs) routes').
Proof.
  intros Hi Hr Hok Hnd [Hjs Hph Hmw Hg Hpat _]. simpl in *. split; simpl.
  - by rewrite (insert_jobs _ _ _ _ _ Hi).
  - by apply Forall_insert.
  - intros t m. setoid_rewrite has_provider_same; eauto.
  - intros t m. setoid_rewrite has_provider_same; eauto.
  - intros pat t h. setoid_rewrite has_provider_same; eauto.
  - done.
Qed.

Lemma init_inv_step st st' : step factories st st' -> init_inv factories js st -> init_inv factories js st'.
Proof.
  intros Hstep Hinv. destruct Hstep as [pm jobs routes i j Hi|pm jobs routes i j p Hi|pm jobs routes i j p Hi].
  - eapply init_inv_same; [done|..|done].
    + by destruct (create factories j).
    + unfold phase_ok. simpl. destruct (create factories j) eqn:?; simpl; congruence.
    + apply Hinv.
  - destruct Hinv as [Hjs Hph Hmw Hg Hpat Hr]. simpl in *.
    assert (forall q, ~ has_provider (mkInit pm jobs routes) (job_tenant j) q) as Hno.
    { intros q (k & j' & ph & Hk & Ht & Hq).
      assert (k = i) as -> by (eapply (job_unique (mkInit pm jobs routes) k i); eauto).
      simpl in Hk. rewrite Hi in Hk. by injection Hk as <- <-. }
    assert (forall t q, has_provider (mkInit (register (job_tenant j) p pm)
        (<[i:=(j, Registered p)]> jobs) routes) t q <->
      has_provider (mkInit pm jobs routes) t q \/ t = job_tenant j /\ q = p) as Hnew.
    { intros t q. by eapply has_provider_new. }
    destruct (register_spec (job_tenant j) p pm) as [Em Eg]. split; simpl.
    + by rewrite (insert_jobs _ _ _ _ _ Hi).
    + apply Forall_insert; [done|]. rewrite Forall_lookup in Hph. apply (Hph _ _ Hi).
    + intros t m. rewrite Em. setoid_rewrite Hnew. destruct (decide (job_tenant j = t)) as [<-|Hne].
      * rewrite lookup_insert_eq. naive_solver.
      * rewrite lookup_insert_ne, Hmw by done. naive_solver.
    + intros t m. rewrite Eg. setoid_rewrite Hnew. destruct (decide (job_tenant j = t)) as [<-|Hne].
      * rewrite lookup_insert_eq. naive_solver.
      * rewrite lookup_insert_ne, Hg by done. naive_solver.
    + intros pat t h. setoid_rewrite Hnew. rewrite pattern_handler_register.
      2:{ destruct (pattern_handler pm pat (job_tenant j)) eqn:E; [|done].
          apply Hpat in E as (? & ? & _). naive_solver. }
      destruct (decide _) as [(<- & -> & He)|Hd].
      * split.
        { intros Hh. exists p. split_and!; [by right|done|]. by destruct (p_Handler p); simpl in *; subst. }
        intros (p0 & [Hhas|[_ ->]] & _ & Heq); [by destruct (Hno p0)|by rewrite Heq].
      * rewrite Hpat. split; intros (p0 & H & Hp & Heq); exists p0; [by auto|].
        destruct H as [H|[-> ->]]; [done|]. exfalso. apply Hd. by rewrite Heq.
    + done.
  - eapply init_inv_same; [done|done| |apply NoDup_mount, Hinv|done].
    destruct Hinv as [_ Hph _ _ _ _]. rewrite Forall_lookup in Hph. apply (Hph _ _ Hi).
Qed.

Lemma init_inv_reachable st : rtc (step factories) (started js) st -> init_inv factories js st.
Proof.
  intros Hr. refine (rtc_ind_r (R := step factories) (init_inv factories js) (started js) _ _ st Hr);
    eauto using init_inv_started, init_inv_step.
Qed.

(** A registered provider is the one its tenant is configured with. *)
Lemma configured_job j : j ∈ js -> configured factories js (job_tenant j) = create factories j.
Proof.
  intros Hin. unfold configured.
  assert (head (filter (fun j' => job_tenant j' = job_tenant j) js) = Some j) as ->; [|done].
  clear factories. induction js as [|j' l IH]; [by apply not_elem_of_nil in Hin|]. simpl in *.
  apply NoDup_cons in tenants_distinct as [Hn Hnd].
  destruct (decide (job_tenant j' = job_tenant j)) as [He|He].
  - rewrite filter_cons_True by done. apply elem_of_cons in Hin as [->|Hin]; [done|].
    exfalso. apply Hn. rewrite He. change (map job_tenant l) with (job_tenant <$> l).
    by apply list_elem_of_fmap_2.
  - rewrite filter_cons_False by done. apply elem_of_cons in Hin as [->|Hin]; [done|]. by apply IH.
Qed.

Lemma has_provider_configured st t p :
  init_inv factories js st -> has_provider st t p -> configured factories js t = Some p.
Proof.
  intros [Hjs Hph _ _ _ _] (k & j & ph & Hk & <- & Hp).
  rewrite configured_job.
  - rewrite Forall_lookup in Hph. specialize (Hph _ _ Hk). unfold phase_ok in Hph. simpl in Hph.
    destruct ph; simpl in Hp; congruence.
  - rewrite <- Hjs. change (map fst (in_jobs st)) with (fst <$> in_jobs st).
    apply (list_elem_of_fmap_2 fst _ (j, ph)). by eapply list_elem_of_lookup_2.
Qed.

Lemma finished_has_provider st t p :
  init_inv factories js st -> all_finished st ->
  configured factories js t = Some p -> has_provider st t p.
Proof.
  intros Hinv Hfin Hc. pose proof Hinv as [Hjs Hph _ _ _ _]. unfold configured in Hc.
  destruct (head (filter _ js)) as [j|] eqn:Hh; [|done]. simpl in Hc.
  apply head_Some_elem_of, list_elem_of_filter in Hh as [Ht Hin].
  rewrite <- Hjs in Hin. change (map fst (in_jobs st)) with (fst <$> in_jobs st) in Hin.
  apply list_elem_of_fmap in Hin as ([j' ph] & -> & Hin). apply list_elem_of_lookup in Hin as [k Hk].
  exists k, j', ph. split; [done|]. split; [done|]. simpl in *.
  unfold all_finished in Hfin. rewrite Forall_lookup in Hph, Hfin.
  specialize (Hph _ _ Hk). specialize (Hfin _ _ Hk). simpl in *.
  destruct ph; try done. unfold phase_ok in Hph. simpl in *. congruence.
Qed.
End invariant.

(** ** Progress *)

(** The steps a goroutine still has to make, at most. *)
Definition phase_work (ph : phase) : nat :=
  match ph with Starting => 3 | Created _ => 2 | Registered _ => 1 | Finished _ => 0 end.

Definition work (st : init_state) : nat := sum_list_with (fun jp => phase_work jp.2) (in_jobs st).

Lemma work_insert (jobs : list (tenant_job * phase)) i j ph ph' :
  jobs !! i = Some (j, ph) -> phase_work ph' < phase_work ph ->
  sum_list_with (fun jp => phase_work jp.2) (<[i := (j, ph')]> jobs) <
  sum_list_with (fun jp => phase_work jp.2) jobs.
Proof.
  revert i. induction jobs as [|jp jobs IH]; intros [|i] Hi Hlt; simplify_eq/=; [lia|].
  specialize (IH _ Hi Hlt). lia.
Qed.

Lemma init_step_work factories st st' : step factories st st' -> work st' < work st.
Proof.
  unfold work. destruct 1; simpl; eapply work_insert; eauto; simpl; try lia.
  destruct (create factories j); simpl; lia.
Qed.

Lemma init_step_progress factories st : all_finished st \/ exists st', step factories st st'.
Proof.
  destruct st as [pm jobs routes]. unfold all_finished. simpl.
  destruct (decide (Forall (fun jp => phase_work jp.2 = 0) jobs)) as [Hd|Hn].
  - left. eapply Forall_impl; [exact Hd|]. intros [j []]; simpl; done.
  - right. apply not_Forall_Exists in Hn; [|solve_decision].
    apply Exists_exists in Hn as ([j ph] & Hin & Hw). apply list_elem_of_lookup in Hin as [i Hi].
    destruct ph; simpl in Hw; [eexists; by eapply step_create|eexists; by eapply step_register|
      eexists; by eapply step_mount|done].
Qed.

Lemma run_to_completion factories st :
  exists st', rtc (step factories) st st' /\ all_finished st'.
Proof.
  remember (work st) as n eqn:Hn. revert st Hn.
  induction n as [n IH] using lt_wf_ind. intros st ->.
  destruct (init_step_progress factories st) as [Hf|[st1 Hs]].
  - exists st. split; [constructor|done].
  - destruct (IH (work st1) (init_step_work _ _ _ Hs) st1 eq_refl) as (st' & Hr & Hf).
    exists st'. split; [by eapply rtc_l|done].
Qed.

Lemma nsteps_work factories n st st' : nsteps (step factories) n st st' -> n + work st' <= work st.
Proof. induction 1 as [|n st1 st2 st3 Hs _ IH]; [lia|]. apply init_step_work in Hs. lia. Qed.

Lemma work_started js : work (started js) = 3 * length js.
Proof. unfold work, started. simpl. induction js; simpl in *; lia. Qed.

(** ** Properties *)

(** C21: authenticating while the providers start.  In every state the goroutines
    can reach, the authenticator a tenant is given, over HTTP and over gRPC, is
    its own provider's or the default tenant's, never that of another tenant; a
    login handler is only ever found for the tenant whose provider made it. *)
Theorem no_cross_tenant_provider (factories : gmap string ProviderFactory) (js : list tenant_job)
    (st : init_state) (t : string) :
  NoDup (map job_tenant js) -> rtc (step factories) (started js) st ->
  (forall m, Middlewares (in_pm st) t = Some m ->
     exists p, (configured factories js t = Some p \/ configured factories js DefaultTenantName = Some p)
       /\ p_Middleware p = m) /\
  (forall g, GRPCMiddlewares (in_pm st) t = Some g ->
     exists p, (configured factories js t = Some p \/ configured factories js DefaultTenantName = Some p)
       /\ p_GRPCMiddleware p = g) /\
  (forall pat h, pattern_handler (in_pm st) pat t = Some h ->
     exists p, configured factories js t = Some p /\ p_Handler p = (pat, Some h)).
Proof.
  intros Hnd Hr. apply init_inv_reachable in Hr as Hinv; [|done].
  pose proof (fun t p => has_provider_configured factories js Hnd st t p Hinv) as Hc.
  destruct Hinv as [_ _ Hmw Hg Hpat _]. unfold Middlewares, GRPCMiddlewares. split_and!.
  - intros m. destruct (middlewares (in_pm st) !! t) as [m'|] eqn:E.
    + intros [= ->]. apply Hmw in E as (p & Hp & <-). eauto.
    + destruct (middlewares (in_pm st) !! DefaultTenantName) as [m'|] eqn:E'; [|done].
      intros [= ->]. apply Hmw in E' as (p & Hp & <-). eauto.
  - intros m. destruct (gRPCInterceptors (in_pm st) !! t) as [m'|] eqn:E.
    + intros [= ->]. apply Hg in E as (p & Hp & <-). eauto.
    + destruct (gRPCInterceptors (in_pm st) !! DefaultTenantName) as [m'|] eqn:E'; [|done].
      intros [= ->]. apply Hg in E' as (p & Hp & <-). eauto.
  - intros pat h (p & Hp & _ & Heq)%Hpat. eauto.
Qed.

(** C22: the outcome of starting the providers does not depend on how the
    goroutines interleave.  When all have finished, a tenant is authenticated by
    the provider it is configured with if that could be created, else by the
    default tenant's, else not at all; and no login route was mounted twice,
    which would make the router panic. *)
Theorem providers_order_independent (factories : gmap string ProviderFactory) (js : list tenant_job)
    (st : init_state) (t : string) :
  NoDup (map job_tenant js) -> rtc (step factories) (started js) st -> all_finished st ->
  let provider := match configured factories js t with
                  | Some p => Some p
                  | None => configured factories js DefaultTenantName
                  end in
  Middlewares (in_pm st) t = p_Middleware <$> provider /\
  GRPCMiddlewares (in_pm st) t = p_GRPCMiddleware <$> provider /\
  NoDup (in_routes st).
Proof.
  intros Hnd Hr Hfin. apply init_inv_reachable in Hr as Hinv; [|done].
  pose proof (fun t p => has_provider_configured factories js Hnd st t p Hinv) as Hc.
  pose proof (fun t p => finished_has_provider factories js st t p Hinv Hfin) as Hf.
  destruct Hinv as [_ _ Hmw Hg _ Hroutes].
  assert (forall t, middlewares (in_pm st) !! t = p_Middleware <$> configured factories js t) as Em.
  { intros t'. apply option_eq. intros m. rewrite Hmw, fmap_Some. naive_solver. }
  assert (forall t, gRPCInterceptors (in_pm st) !! t = p_GRPCMiddleware <$> configured factories js t) as Eg.
  { intros t'. apply option_eq. intros m. rewrite Hg, fmap_Some. naive_solver. }
  unfold Middlewares, GRPCMiddlewares. rewrite !Em, !Eg. split_and!; [..|done].
  - destruct (configured factories js t); [done|]. by destruct (configured _ _ DefaultTenantName).
  - destruct (configured factories js t); [done|]. by destruct (configured _ _ DefaultTenantName).
Qed.

(** Starting the providers terminates.  Every run makes at most three steps
    for each tenant, and from every state it reaches all goroutines can finish. *)
Theorem providers_start_terminates (factories : gmap string ProviderFactory) (js : list tenant_job)
    (n : nat) (st : init_state) :
  nsteps (step factories) n (started js) st ->
  n <= 3 * length js /\ exists st', rtc (step factories) st st' /\ all_finished st'.
Proof.
  intros Hn. apply nsteps_work in Hn. rewrite work_started in Hn.
  split; [lia|apply run_to_completion].
Qed.
End providers.

(** ** A concrete start

    A tenant whose factory is known, and the default tenant with an unknown
    authenticator type; the second goroutine runs between the steps of the first. *)

Definition demo_provider : @Provider unit :=
  mkProvider (fun next => next) MTLSAuth.MTLS_GRPCMiddleware ("/login", Some (fun _ => WriteHeader 302%Z)).

Definition demo_factories : gmap string (@ProviderFactory unit unit) :=
  onboardNewProvider "mtls" (fun _ _ => Ok demo_provider) ∅.

Definition demo_jobs : list (@tenant_job unit) :=
  [mkJob () "a" "mtls"; mkJob () DefaultTenantName "kerberos"].

Definition demo_end : @init_state unit unit :=
  mkInit (register "a" demo_provider NewProviderManager)
    [(mkJob () "a" "mtls", Finished (Some demo_provider));
     (mkJob () DefaultTenantName "kerberos", Finished None)] ["/login"].

Lemma demo_run : rtc (step demo_factories) (started demo_jobs) demo_end.
Proof.
  eapply rtc_l; [apply (step_create _ _ _ _ 0); reflexivity|].
  eapply rtc_l; [apply (step_create _ _ _ _ 1); reflexivity|].
  eapply rtc_l; [apply (step_register _ _ _ _ 0); reflexivity|].
  eapply rtc_l; [apply (step_mount _ _ _ _ 0); reflexivity|].
  apply rtc_refl.
Qed.

Lemma demo_distinct : NoDup (map job_tenant demo_jobs).
Proof. apply (bool_decide_unpack _). vm_compute. exact I. Qed.

Lemma no_cross_tenant_provider_witness :
  exists p, (configured demo_factories demo_jobs "a" = Some p \/
             configured demo_factories demo_jobs DefaultTenantName = Some p) /\
    p_Middleware p = p_Middleware demo_provider.
Proof.
  apply (proj1 (no_cross_tenant_provider demo_factories demo_jobs demo_end "a" demo_distinct demo_run)).
  reflexivity.
Defined.

Lemma providers_order_independent_witness :
  Middlewares (in_pm demo_end) "a" = Some (p_Middleware demo_provider).
Proof.
  refine (proj1 (providers_order_independent demo_factories demo_jobs demo_end "a"
    demo_distinct demo_run _)).
  repeat constructor.
Defined.

Lemma providers_start_terminates_witness :
  1 <= 6 /\ exists st, rtc (step demo_factories)
    (mkInit NewProviderManager [(mkJob () "a" "mtls", Created demo_provider);
       (mkJob () DefaultTenantName "kerberos", Starting)] []) st /\ all_finished st.
Proof.
  apply (providers_start_terminates demo_factories demo_jobs 1).
  eapply nsteps_l; [|apply nsteps_O].
  exact (step_create demo_factories NewProviderManager (in_jobs (started demo_jobs)) [] 0
    (mkJob () "a" "mtls") eq_refl).
Defined.
