(* ===== verification/Rules.v ===== *)
(** * Alerting and recording rules

    [rules/rules.go] (the model types), [rules/custom_types.go],
    [api/metrics/v1/rules.go] and [api/logs/v1/rules.go].

    A rule of a group is kept as the JSON text of either kind of rule; [As...]
    decodes it and [From...] replaces it.  YAML, which [ghodss/yaml] converts to
    JSON, and the HTTP client of the rules backend are parameters. *)

From stdpp Require Import base tactics option list gmap strings sorting.
From Stdlib Require Import ZArith Lia Ascii.
From S2P Require Import Prelude GoStrings Labels Url Strconv Json Http Tenant Authz MetricsEnforcer.

(** ** The data model *)

Abbreviation StringMap := (gmap string string).

Record RecordingRule := mkRecording {
  rr_Expr : string;
  rr_Labels : StringMap;
  rr_Record : string
}.

Record AlertingRule := mkAlerting {
  ar_Alert : string;
  ar_Annotations : StringMap;
  ar_Expr : string;
  ar_For : string;
  ar_Labels : StringMap
}.

(** [RuleGroup_Rules_Item]: the raw JSON of the union. *)
Record RuleGroup_Rules_Item := mkItem { union_raw : string }.

Record RuleGroup := mkRuleGroup {
  rg_Interval : string;
  rg_Name : string;
  rg_Rules : list RuleGroup_Rules_Item
}.

Record Rules := mkRules { Groups : list RuleGroup }.

(** *** JSON: a map prints its keys in order, an empty one is omitted *)

Definition map_json (m : StringMap) : json :=
  JObj (map (fun k => (k, JStr (default "" (m !! k)))) (sorted_keys m)).

Definition omitempty (name : string) (m : StringMap) : list (string * json) :=
  if bool_decide (m = ∅) then [] else [(name, map_json m)].

Definition recording_json (v : RecordingRule) : json :=
  JObj ([("expr", JStr (rr_Expr v))] ++ omitempty "labels" (rr_Labels v) ++
        [("record", JStr (rr_Record v))]).

Definition alerting_json (v : AlertingRule) : json :=
  JObj ([("alert", JStr (ar_Alert v))] ++ omitempty "annotations" (ar_Annotations v) ++
        [("expr", JStr (ar_Expr v)); ("for", JStr (ar_For v))] ++ omitempty "labels" (ar_Labels v)).

(** Decoding a map adds to the map of the field; [null] sets the field to nil,
    and a [null] element to the empty string. *)
Definition set_map_entry (m : result StringMap) (kv : string * json) : result StringMap :=
  m ← m;
  match kv.2 with
  | JStr s => Ok (<[kv.1 := s]> m)
  | JNull => Ok (<[kv.1 := ""]> m)
  | _ => json_type_err
  end.

Definition set_map (j : json) (old : StringMap) : result StringMap :=
  match j with
  | JObj l => foldl set_map_entry (Ok old) l
  | JNull => Ok ∅
  | _ => json_type_err
  end.

Definition set_recording_field (v : result RecordingRule) (kv : string * json) : result RecordingRule :=
  v ← v;
  if is_field "expr" kv.1 then
    s ← set_string kv.2 (rr_Expr v); Ok (mkRecording s (rr_Labels v) (rr_Record v))
  else if is_field "labels" kv.1 then
    m ← set_map kv.2 (rr_Labels v); Ok (mkRecording (rr_Expr v) m (rr_Record v))
  else if is_field "record" kv.1 then
    s ← set_string kv.2 (rr_Record v); Ok (mkRecording (rr_Expr v) (rr_Labels v) s)
  else Ok v.

Definition set_alerting_field (v : result AlertingRule) (kv : string * json) : result AlertingRule :=
  v ← v;
  if is_field "alert" kv.1 then
    s ← set_string kv.2 (ar_Alert v);
    Ok (mkAlerting s (ar_Annotations v) (ar_Expr v) (ar_For v) (ar_Labels v))
  else if is_field "annotations" kv.1 then
    m ← set_map kv.2 (ar_Annotations v);
    Ok (mkAlerting (ar_Alert v) m (ar_Expr v) (ar_For v) (ar_Labels v))
  else if is_field "expr" kv.1 then
    s ← set_string kv.2 (ar_Expr v);
    Ok (mkAlerting (ar_Alert v) (ar_Annotations v) s (ar_For v) (ar_Labels v))
  else if is_field "for" kv.1 then
    s ← set_string kv.2 (ar_For v);
    Ok (mkAlerting (ar_Alert v) (ar_Annotations v) (ar_Expr v) s (ar_Labels v))
  else if is_field "labels" kv.1 then
    m ← set_map kv.2 (ar_Labels v);
    Ok (mkAlerting (ar_Alert v) (ar_Annotations v) (ar_Expr v) (ar_For v) m)
  else Ok v.

(** [json.Unmarshal] into a struct with a zero value and a field setter. *)
Definition unmarshal_struct {A} (zero : A) (set : result A -> string * json -> result A) (raw : string) :
    result A :=
  match decode raw with
  | None => Err "invalid JSON"
  | Some (JObj l) => foldl set (Ok zero) l
  | Some JNull => Ok zero
  | Some _ => json_type_err
  end.

Definition AsRecordingRule (t : RuleGroup_Rules_Item) : result RecordingRule :=
  unmarshal_struct (mkRecording "" ∅ "") set_recording_field (union_raw t).
Definition FromRecordingRule (v : RecordingRule) : RuleGroup_Rules_Item :=
  mkItem (encode (recording_json v)).
Definition AsAlertingRule (t : RuleGroup_Rules_Item) : result AlertingRule :=
  unmarshal_struct (mkAlerting "" ∅ "" "" ∅) set_alerting_field (union_raw t).
Definition FromAlertingRule (v : AlertingRule) : RuleGroup_Rules_Item :=
  mkItem (encode (alerting_json v)).

(** [custom_types.go]. *)
Definition IsRecordingRule (t : RuleGroup_Rules_Item) : bool :=
  match AsRecordingRule t with Err _ => false | Ok ar => negb (String.eqb (rr_Record ar) "") end.
Definition IsAlertingRule (t : RuleGroup_Rules_Item) : bool :=
  match AsAlertingRule t with Err _ => false | Ok ar => negb (String.eqb (ar_Alert ar) "") end.

(** YAML texts of the two types. *)
Class Yaml := {
  UnmarshalRules : string -> result Rules;
  MarshalRules : Rules -> result string;
  UnmarshalRuleGroup : string -> result RuleGroup;
  MarshalRuleGroup : RuleGroup -> result string
}.

(** ** The enforcers

    Both packages loop over the items, which they change in place, and give up
    at the first error; the half-changed rules are then dropped.  They differ in
    what they do to the expression, the parameter [enforceExpr]. *)

Section enforce.
Context (enforceExpr : string -> result string) (tenantLabel tenantID : string).

Definition enforce_item (r : RuleGroup_Rules_Item) : result RuleGroup_Rules_Item :=
  if IsRecordingRule r then
    rr ← wrap_err "failed to convert recording rule" (AsRecordingRule r);
    let labels := <[tenantLabel := tenantID]> (rr_Labels rr) in
    expr ← enforceExpr (rr_Expr rr);
    Ok (FromRecordingRule (mkRecording expr labels (rr_Record rr)))
  else if IsAlertingRule r then
    ar ← wrap_err "failed to convert alerting rule" (AsAlertingRule r);
    let labels := <[tenantLabel := tenantID]> (ar_Labels ar) in
    expr ← enforceExpr (ar_Expr ar);
    Ok (FromAlertingRule (mkAlerting (ar_Alert ar) (ar_Annotations ar) expr (ar_For ar) labels))
  else Err "failed to convert rule type".

Definition enforce_group (rg : RuleGroup) : result RuleGroup :=
  items ← traverse enforce_item (rg_Rules rg);
  Ok (mkRuleGroup (rg_Interval rg) (rg_Name rg) items).
End enforce.

(** ** [api/logs/v1/rules.go] *)

Module LogsRules.
Section logs.
Context `{Yaml}.

Definition unmarshalRuleGroup (body : result string) : result RuleGroup :=
  body ← body; UnmarshalRuleGroup body.

(** The expression of a log rule is left as it is. *)
Definition enforceLabelsInRules (rg : RuleGroup) (tenantLabel tenantID : string) : result RuleGroup :=
  enforce_group Ok tenantLabel tenantID rg.

(** Behind a chi router the route context is never nil; [r_params] holds its
    parameters. *)
Definition WithEnforceTenantAsRuleNamespace {S} (next : Handler S) : Handler S := fun r =>
  match GetTenant (r_ctx r) with
  | None => PrometheusAPIError "error finding tenant ID" 401
  | Some tenant =>
      let group := URLParam r "groupName" in
      let namespace := URLParam r "namespace" in
      if String.eqb namespace "test" && String.eqb group "test" then
        PrometheusAPIError "page not found" 404
      else if negb (String.eqb namespace "") && negb (String.eqb tenant namespace) then
        PrometheusAPIError "error tenant not matching namespace" 400
      else next r
  end.

Definition WithEnforceRuleLabels (tenantLabel : string) {S} (next : Handler S) : Handler S := fun r =>
  match GetTenant (r_ctx r) with
  | None => PrometheusAPIError "error finding tenant" 401
  | Some tenant =>
      match unmarshalRuleGroup (r_body r) with
      | Err _ => PrometheusAPIError "error unmarshalling rule group" 500
      | Ok group =>
          match enforceLabelsInRules group tenantLabel tenant with
          | Err _ => PrometheusAPIError "error enforing labels into rules" 500
          | Ok group =>
              match MarshalRuleGroup group with
              | Err _ => PrometheusAPIError "error marshaling rules YAML" 500
              | Ok body => next (set_body body r)
              end
          end
      end
  end.
End logs.
End LogsRules.

(** ** [api/metrics/v1/rules.go] *)

Module MetricsRules.
Section metrics.
Context `{PromQL} `{Yaml}.

Definition enforceLabelsInExpr (ms : list Matcher) (expr : string) : result string :=
  parsedExpr ← wrap_err "parse expr error" (PromParse expr);
  parsedExpr ← wrap_err "enforce node error" (EnforceNode ms parsedExpr);
  Ok (PromString parsedExpr).

Definition enforceLabelsInRules (rawRules : Rules) (tenantLabel tenantID : string) : result Rules :=
  let e := [mkMatcher MatchEqual tenantLabel tenantID] in
  groups ← traverse (enforce_group (enforceLabelsInExpr e) tenantLabel tenantID) (Groups rawRules);
  Ok (mkRules groups).

Definition unmarshalRules (body : result string) : result Rules :=
  body ← body; UnmarshalRules body.

(** The client of the rules backend: an error, with the status of a response if
    there was one, or a response: its status, what of its body can be read, and
    whether reading it ends in an error. *)
Inductive reply :=
  | ClientError (status : option Z)
  | Response (status : Z) (body : string) (read_err : bool).

Definition read_all (body : string) (read_err : bool) : result string :=
  if read_err then Err "unexpected EOF" else Ok body.

Record rulesHandler := mkRulesHandler {
  ListRules : string -> reply;
  SetRulesWithBody : string -> string -> string -> reply;
  tenantLabel : string
}.

Definition rulesHandler_get (rh : rulesHandler) {S} : Handler S := fun r =>
  match GetTenant (r_ctx r) with
  | None => PrometheusAPIError "error finding tenant" 401
  | Some tenant =>
      match ListRules rh tenant with
      | ClientError status => PrometheusAPIError "error listing rules" (default 500%Z status)
      | Response status body read_err =>
          if negb (Z.quot status 100 =? 2)%Z then
            if (status =? 404)%Z then PrometheusAPIError "no rules found" status
            else PrometheusAPIError "error listing rules" status
          else
            match unmarshalRules (read_all body read_err) with
            | Err _ => PrometheusAPIError "error unmarshaling rules" 500
            | Ok rawRules =>
                match enforceLabelsInRules rawRules (tenantLabel rh) tenant with
                | Err _ => PrometheusAPIError "failed to process rules" 500
                | Ok rawRules =>
                    match MarshalRules rawRules with
                    | Err _ => PrometheusAPIError "error marshaling rules YAML" 500
                    | Ok body => Write (Raw body)
                    end
                end
            end
      end
  end.

Definition rulesHandler_put (rh : rulesHandler) {S} : Handler S := fun r =>
  match GetTenant (r_ctx r) with
  | None => PrometheusAPIError "error finding tenant" 401
  | Some tenant =>
      match unmarshalRules (r_body r) with
      | Err _ => PrometheusAPIError "error unmarshaling rules" 500
      | Ok rawRules =>
          match enforceLabelsInRules rawRules (tenantLabel rh) tenant with
          | Err _ => PrometheusAPIError "failed to process rules" 500
          | Ok rawRules =>
              match MarshalRules rawRules with
              | Err _ => PrometheusAPIError "error marshaling rules YAML" 500
              | Ok body =>
                  match SetRulesWithBody rh tenant (header_get (r_header r) "Content-type") body with
                  | ClientError status => PrometheusAPIError "error creating rules" (default 500%Z status)
                  | Response status body read_err =>
                      _ ← WriteHeader status;
                      _ ← Write (Raw body);
                      if read_err then PrometheusAPIError "error writing rules response" 500
                      else mret tt
                  end
              end
          end
      end
  end.
End metrics.
End MetricsRules.

(** ** Round trips *)

Definition ascii_map (m : StringMap) : Prop :=
  map_Forall (fun k v => ascii_only k = true /\ ascii_only v = true) m.

Lemma plain_map_json m d :
  (d <? maxNestingDepth)%N = true -> ascii_map m -> plain d (map_json m) = true.
Proof.
  intros Hd Hm. unfold map_json. cbn [plain]. rewrite Hd. cbn [andb]. apply forallb_forall.
  intros kv Hkv. apply in_map_iff in Hkv as (k & <- & Hk). apply list_elem_of_In in Hk.
  unfold sorted_keys in Hk. rewrite merge_sort_Permutation, elem_of_elements, elem_of_dom in Hk.
  destruct Hk as [v Hv]. destruct (Hm _ _ Hv) as [Ha Hb]. cbn [fst snd plain]. rewrite Hv.
  change (default "" (Some v)) with v. by rewrite Ha, Hb.
Qed.

Lemma foldl_set_map_entry (m acc : StringMap) (ks : list string) :
  foldl set_map_entry (Ok acc) (map (fun k => (k, JStr (default "" (m !! k)))) ks) =
  Ok (foldl (fun acc k => <[k := default "" (m !! k)]> acc) acc ks).
Proof. revert acc. induction ks as [|k ks IH]; intros acc; [done|]. apply IH. Qed.

Lemma foldl_insert_lookup (m acc : StringMap) (ks : list string) k :
  foldl (fun acc k => <[k := default "" (m !! k)]> acc) acc ks !! k =
  if decide (k ∈ ks) then Some (default "" (m !! k)) else acc !! k.
Proof.
  revert acc. induction ks as [|k' ks IH]; intros acc; cbn [foldl].
  - by rewrite decide_False by apply not_elem_of_nil.
  - rewrite IH. destruct (decide (k ∈ ks)) as [Hin|Hn].
    + by rewrite decide_True by by apply elem_of_cons; right.
    + destruct (decide (k = k')) as [->|Hne].
      * rewrite lookup_insert_eq, decide_True; [done|]. apply elem_of_cons. by left.
      * rewrite lookup_insert_ne by done. rewrite decide_False; [done|].
        rewrite elem_of_cons. naive_solver.
Qed.

Lemma set_map_json m : set_map (map_json m) ∅ = Ok m.
Proof.
  unfold set_map, map_json. rewrite foldl_set_map_entry. f_equal. apply map_eq. intros k.
  rewrite foldl_insert_lookup, lookup_empty. unfold sorted_keys.
  destruct (m !! k) as [v|] eqn:E.
  - rewrite decide_True; [done|]. rewrite merge_sort_Permutation, elem_of_elements, elem_of_dom. by eexists.
  - rewrite decide_False; [done|]. rewrite merge_sort_Permutation, elem_of_elements, elem_of_dom, E.
    by intros [? ?].
Qed.

Lemma plain_omitempty name m d :
  (d <? maxNestingDepth)%N = true -> ascii_only name = true -> ascii_map m ->
  forallb (fun kv => ascii_only kv.1 && plain d kv.2) (omitempty name m) = true.
Proof.
  intros Hd Hn Hm. unfold omitempty. case_bool_decide; [done|].
  cbn [forallb fst snd]. by rewrite Hn, plain_map_json.
Qed.

Definition ascii_recording (v : RecordingRule) : Prop :=
  ascii_only (rr_Expr v) = true /\ ascii_map (rr_Labels v) /\ ascii_only (rr_Record v) = true.

Definition ascii_alerting (v : AlertingRule) : Prop :=
  ascii_only (ar_Alert v) = true /\ ascii_map (ar_Annotations v) /\ ascii_only (ar_Expr v) = true /\
  ascii_only (ar_For v) = true /\ ascii_map (ar_Labels v).

(** Setting a field of either struct to the map that was printed for it. *)
Lemma set_recording_labels e r m :
  foldl set_recording_field (Ok (mkRecording e ∅ r)) (omitempty "labels" m) = Ok (mkRecording e m r).
Proof.
  unfold omitempty. case_bool_decide as Hm; [by subst m|]. cbn [foldl].
  unfold set_recording_field. cbn [fst snd mbind result_bind].
  change (is_field "expr" "labels") with false. change (is_field "labels" "labels") with true.
  cbv iota. cbn [rr_Expr rr_Labels rr_Record]. by rewrite set_map_json.
Qed.

Lemma set_alerting_annotations a e f l m :
  foldl set_alerting_field (Ok (mkAlerting a ∅ e f l)) (omitempty "annotations" m)
  = Ok (mkAlerting a m e f l).
Proof.
  unfold omitempty. case_bool_decide as Hm; [by subst m|]. cbn [foldl].
  unfold set_alerting_field. cbn [fst snd mbind result_bind].
  change (is_field "alert" "annotations") with false.
  change (is_field "annotations" "annotations") with true.
  cbv iota. cbn [ar_Alert ar_Annotations ar_Expr ar_For ar_Labels]. by rewrite set_map_json.
Qed.

Lemma set_alerting_labels a n e f m :
  foldl set_alerting_field (Ok (mkAlerting a n e f ∅)) (omitempty "labels" m)
  = Ok (mkAlerting a n e f m).
Proof.
  unfold omitempty. case_bool_decide as Hm; [by subst m|]. cbn [foldl].
  unfold set_alerting_field. cbn [fst snd mbind result_bind].
  change (is_field "alert" "labels") with false. change (is_field "annotations" "labels") with false.
  change (is_field "expr" "labels") with false. change (is_field "for" "labels") with false.
  change (is_field "labels" "labels") with true.
  cbv iota. cbn [ar_Alert ar_Annotations ar_Expr ar_For ar_Labels]. by rewrite set_map_json.
Qed.

Lemma As_FromRecordingRule v : ascii_recording v -> AsRecordingRule (FromRecordingRule v) = Ok v.
Proof.
  intros (He & Hl & Hr). unfold AsRecordingRule, unmarshal_struct, FromRecordingRule. cbn [union_raw].
  rewrite decode_encode; unfold recording_json.
  - destruct v as [e l r]. cbn [rr_Expr rr_Labels rr_Record]. rewrite !foldl_app.
    change (foldl set_recording_field (Ok (mkRecording "" ∅ "")) [("expr", JStr e)])
      with (@Ok RecordingRule (mkRecording e ∅ "")).
    by rewrite set_recording_labels.
  - cbn [plain]. rewrite !forallb_app. cbn [forallb fst snd plain andb].
    rewrite He, Hr, plain_omitempty by done. done.
Qed.

Lemma As_FromAlertingRule v : ascii_alerting v -> AsAlertingRule (FromAlertingRule v) = Ok v.
Proof.
  intros (Ha & Hn & He & Hf & Hl). unfold AsAlertingRule, unmarshal_struct, FromAlertingRule.
  cbn [union_raw]. rewrite decode_encode; unfold alerting_json.
  - destruct v as [a n e f l]. cbn [ar_Alert ar_Annotations ar_Expr ar_For ar_Labels].
    rewrite !foldl_app.
    change (foldl set_alerting_field (Ok (mkAlerting "" ∅ "" "" ∅)) [("alert", JStr a)])
      with (@Ok AlertingRule (mkAlerting a ∅ "" "" ∅)).
    rewrite set_alerting_annotations.
    change (foldl set_alerting_field (Ok (mkAlerting a n "" "" ∅)) [("expr", JStr e); ("for", JStr f)])
      with (@Ok AlertingRule (mkAlerting a n e f ∅)).
    apply set_alerting_labels.
  - cbn [plain]. rewrite !forallb_app. cbn [forallb fst snd plain andb].
    rewrite Ha, He, Hf, !plain_omitempty by done. done.
Qed.

(** ** What enforcement does to one rule *)

(** [r'] is [r] with the tenant label set, whatever value it had, and with the
    expression changed as [P] says; everything else that a rule of its kind has is
    kept.  It is read back as such, in the ASCII case. *)
Definition enforced_rule (P : string -> string -> Prop) (lbl t : string) (r r' : RuleGroup_Rules_Item) :
    Prop :=
  (exists rr e', AsRecordingRule r = Ok rr /\ rr_Record rr <> "" /\ P (rr_Expr rr) e' /\
     let rr' := mkRecording e' (<[lbl := t]> (rr_Labels rr)) (rr_Record rr) in
     r' = FromRecordingRule rr' /\ (ascii_recording rr' -> AsRecordingRule r' = Ok rr')) \/
  (exists ar e', AsAlertingRule r = Ok ar /\ ar_Alert ar <> "" /\ P (ar_Expr ar) e' /\
     let ar' := mkAlerting (ar_Alert ar) (ar_Annotations ar) e' (ar_For ar)
                  (<[lbl := t]> (ar_Labels ar)) in
     r' = FromAlertingRule ar' /\ (ascii_alerting ar' -> AsAlertingRule r' = Ok ar')).

Definition enforced_group (P : string -> string -> Prop) (lbl t : string) (g g' : RuleGroup) : Prop :=
  rg_Name g' = rg_Name g /\ rg_Interval g' = rg_Interval g /\
  Forall2 (enforced_rule P lbl t) (rg_Rules g) (rg_Rules g').

Lemma enforce_item_ok f (P : string -> string -> Prop) lbl t r r' :
  (forall e e', f e = Ok e' -> P e e') ->
  enforce_item f lbl t r = Ok r' -> enforced_rule P lbl t r r'.
Proof.
  intros HP. unfold enforce_item, IsRecordingRule, IsAlertingRule.
  destruct (AsRecordingRule r) as [rr|e] eqn:Er; [destruct (String.eqb_spec (rr_Record rr) "") as [E|E]|];
    cbn [negb]; cbv iota.
  2:{ intros H. bind_inv H rr' Hr. injection Hr as <-. bind_inv H e' He. injection H as <-.
      left. exists rr, e'. split_and!; [done|done|by apply HP|].
      split; [done|]. apply As_FromRecordingRule. }
  all: destruct (AsAlertingRule r) as [ar|e'] eqn:Ea; [|done].
  all: destruct (String.eqb_spec (ar_Alert ar) "") as [E'|E']; cbn [negb]; cbv iota; [done|].
  all: intros H; bind_inv H ar' Hr; injection Hr as <-; bind_inv H e2 He; injection H as <-.
  all: right; exists ar, e2; split_and!; [done|done|by apply HP|].
  all: split; [done|]; apply As_FromAlertingRule.
Qed.

Lemma enforce_group_ok f (P : string -> string -> Prop) lbl t g g' :
  (forall e e', f e = Ok e' -> P e e') ->
  enforce_group f lbl t g = Ok g' -> enforced_group P lbl t g g'.
Proof.
  intros HP H. unfold enforce_group in H. bind_inv H items Hi. injection H as <-.
  apply traverse_ok in Hi. split_and!; [done..|]. cbn [rg_Rules].
  eapply Forall2_impl; [exact Hi|]. intros r r' Hr. by eapply enforce_item_ok.
Qed.

(** ** Properties *)

(** What the metrics rules enforcer does to an expression: it is parsed, every
    selector carries the tenant's equality, and it is printed again. *)
Definition tenant_expr `{PromQL} (lbl t e e' : string) : Prop :=
  exists pe pe', PromParse e = Ok pe /\ EnforceNode [mkMatcher MatchEqual lbl t] pe = Ok pe' /\
    e' = PromString pe' /\
    Forall (fun sel => mkMatcher MatchEqual lbl t ∈ sel) (selectors pe').

Lemma enforceLabelsInExpr_ok `{PromQL} lbl t e e' :
  MetricsRules.enforceLabelsInExpr [mkMatcher MatchEqual lbl t] e = Ok e' -> tenant_expr lbl t e e'.
Proof.
  intros H1. unfold MetricsRules.enforceLabelsInExpr in H1. bind_inv H1 pe Hp. bind_inv H1 pe' Hn.
  injection H1 as <-. exists pe, pe'. split_and!; [done..|].
  eapply Forall_impl; [eapply EnforceNode_enforces; [|exact Hn]|].
  - apply NoDup_singleton.
  - intros sel Hs. apply Hs. by apply list_elem_of_singleton.
Qed.

(** C31: the tenant in metrics rules.  When the enforcer accepts a rules file,
    every rule of the result, of the same group at the same place, has the tenant
    label set to the tenant, overriding what the file said; every selector of its
    expression carries the tenant's matcher; its other fields are unchanged; and
    it is read back so (for ASCII texts). *)
Theorem metrics_rules_enforced `{PromQL} (raw raw' : Rules) (lbl t : string) :
  MetricsRules.enforceLabelsInRules raw lbl t = Ok raw' ->
  Forall2 (enforced_group (tenant_expr lbl t) lbl t) (Groups raw) (Groups raw').
Proof.
  intros H1. unfold MetricsRules.enforceLabelsInRules in H1. bind_inv H1 gs Hgs.
  injection H1 as <-. apply traverse_ok in Hgs. eapply Forall2_impl; [exact Hgs|].
  intros g g' Hg. eapply enforce_group_ok; [|exact Hg]. intros. by apply enforceLabelsInExpr_ok.
Qed.

Definition dq (s : string) : string := dquote +:+ s +:+ dquote.

Definition demo_rules : Rules :=
  mkRules [mkRuleGroup "1m" "g" [mkItem ("{" +:+ dq "record" +:+ ":" +:+ dq "r" +:+ "," +:+
    dq "expr" +:+ ":" +:+ dq "tenant=b" +:+ "}")]].

Definition demo_rules_enforced : Rules :=
  mkRules [mkRuleGroup "1m" "g" [FromRecordingRule
    (mkRecording (PromString (PromQL := toy_promql) [mkMatcher MatchEqual "tenant" "a"])
       {[ "tenant" := "a" ]} "r")]].

Lemma metrics_rules_enforced_witness :
  Forall2 (enforced_group (@tenant_expr toy_promql "tenant" "a") "tenant" "a")
    (Groups demo_rules) (Groups demo_rules_enforced).
Proof.
  apply (@metrics_rules_enforced toy_promql demo_rules demo_rules_enforced "tenant" "a").
  vm_compute. reflexivity.
Defined.

(** A YAML text of rules that were enforced for a tenant. *)
Definition enforced_body `{PromQL} `{Yaml} (lbl t body : string) : Prop :=
  exists raw raw', MetricsRules.enforceLabelsInRules raw lbl t = Ok raw' /\ MarshalRules raw' = Ok body.

(** C32: the raw rules endpoints of the metrics API.  A client only ever reads
    rules that were enforced for its tenant, and what [put] does depends on the
    rules backend only through what it answers when that tenant's enforced rules
    are stored under that tenant: nothing else is ever sent to it. *)
Theorem rules_endpoints `{PromQL} `{Yaml} (rh : MetricsRules.rulesHandler)
    (set' : string -> string -> string -> MetricsRules.reply) (r : Request) :
  ((exists msg code, forall S, MetricsRules.rulesHandler_get rh (S := S) r = PrometheusAPIError msg code) \/
   (exists t body, GetTenant (r_ctx r) = Some t /\ enforced_body (MetricsRules.tenantLabel rh) t body /\
      forall S, MetricsRules.rulesHandler_get rh (S := S) r = Write (Raw body))) /\
  ((forall t ct body, GetTenant (r_ctx r) = Some t ->
      enforced_body (MetricsRules.tenantLabel rh) t body ->
      MetricsRules.SetRulesWithBody rh t ct body = set' t ct body) ->
   forall S, MetricsRules.rulesHandler_put rh (S := S) r =
     MetricsRules.rulesHandler_put
       (MetricsRules.mkRulesHandler (MetricsRules.ListRules rh) set' (MetricsRules.tenantLabel rh))
       (S := S) r).
Proof.
  split.
  - unfold MetricsRules.rulesHandler_get. destruct (GetTenant (r_ctx r)) as [t|]; [|eauto].
    destruct (MetricsRules.ListRules rh t) as [[st|]|st body re]; [eauto..|].
    destruct (negb _); [destruct (st =? 404)%Z; eauto|].
    destruct (MetricsRules.unmarshalRules _) as [raw|]; [|eauto].
    destruct (MetricsRules.enforceLabelsInRules raw _ t) as [raw'|] eqn:E; [|eauto].
    destruct (MarshalRules raw') as [b|] eqn:Eb; [|eauto].
    right. exists t, b. split; [done|]. split; [by exists raw, raw'|done].
  - intros Hset S. unfold MetricsRules.rulesHandler_put. cbn [MetricsRules.tenantLabel MetricsRules.SetRulesWithBody].
    destruct (GetTenant (r_ctx r)) as [t|]; [|done].
    destruct (MetricsRules.unmarshalRules _) as [raw|]; [|done].
    destruct (MetricsRules.enforceLabelsInRules raw _ t) as [raw'|] eqn:E; [|done].
    destruct (MarshalRules raw') as [b|] eqn:Eb; [|done].
    rewrite (Hset t _ b); [done|done|by exists raw, raw'].
Qed.

(** The tenant in log rules.  Behind the two middlewares of the rules write
    route a request is passed on only when its namespace is absent or the tenant's
    own, and with a body that prints the group it carried with the tenant label
    set in every rule; everything else is answered with an error. *)
Theorem logs_rules_enforced `{Yaml} (lbl : string) (r : Request) :
  let mw := fun S => fun next : Handler S =>
    chain [LogsRules.WithEnforceTenantAsRuleNamespace; LogsRules.WithEnforceRuleLabels lbl] next in
  (exists code, rejects mw r code) \/
  exists t group group' body,
    GetTenant (r_ctx r) = Some t /\
    (URLParam r "namespace" = "" \/ URLParam r "namespace" = t) /\
    LogsRules.unmarshalRuleGroup (r_body r) = Ok group /\
    enforced_group eq lbl t group group' /\ MarshalRuleGroup group' = Ok body /\
    forwards mw r (set_body body r).
Proof.
  intros mw. unfold rejects, forwards, mw, chain, LogsRules.WithEnforceTenantAsRuleNamespace,
    LogsRules.WithEnforceRuleLabels.
  destruct (GetTenant (r_ctx r)) as [t|]; [|eauto].
  destruct (String.eqb _ "test" && _); [eauto|].
  destruct (negb (String.eqb (URLParam r "namespace") "") && negb (String.eqb t (URLParam r "namespace")))
    eqn:Hns; [eauto|].
  destruct (LogsRules.unmarshalRuleGroup (r_body r)) as [g|] eqn:Eu; [|eauto].
  destruct (LogsRules.enforceLabelsInRules g lbl t) as [g'|] eqn:Eg; [|eauto].
  destruct (MarshalRuleGroup g') as [b|] eqn:Eb; [|eauto].
  right. exists t, g, g', b. split_and!; [done| |done| |done|done].
  - apply andb_false_iff in Hns as [Hn|Hn]; apply negb_false_iff, String.eqb_eq in Hn; auto.
  - eapply enforce_group_ok; [|exact Eg]. naive_solver.
Qed.
