(* ===== verification/RulesApi.v ===== *)
(** * The rules API: client and server of [rules/rules.go]

    The client that the raw rules endpoints of the metrics API use, the server it
    talks to, and the errors of both.  [net/http] sends what [Doer] is given; the
    runtime of the API generator, which writes a parameter into a path and reads it
    back, is the class [ParamCodec].  A reference is resolved on decoded paths. *)

From stdpp Require Import base tactics option list gmap strings.
From Stdlib Require Import ZArith Lia Ascii.
From S2P Require Import Prelude GoStrings Labels Url Strconv Http Tenant Proxy Router Login CookieCipher Rules.
Import TenantHeader.

(** ** Resolving a reference: [url.URL.ResolveReference] *)

(** [s[:strings.LastIndex(s, "/")]], if there is a slash. *)
Definition before_last_slash (s : string) : option string :=
  (fun d => str_take (String.length d - 1) d) <$> split_dir s.

(** One element of the loop of [resolvePath]: what is written so far, and whether
    the next element is the first. *)
Definition resolve_step (acc : string * bool) (elem : string) : string * bool :=
  let '(dst, first) := acc in
  if String.eqb elem "." then (dst, false)
  else if String.eqb elem ".." then
    match before_last_slash (str_drop 1 dst) with
    | None => ("/", true)
    | Some p => ("/" +:+ p, first)
    end
  else ((if first then dst else dst +:+ "/") +:+ elem, false).

Definition resolvePath (base ref : string) : string :=
  let full :=
    if String.eqb ref "" then base
    else if negb (HasPrefix ref "/") then default "" (split_dir base) +:+ ref
    else ref in
  if String.eqb full "" then ""
  else
    let elems := Split "/" full in
    let dst := (foldl resolve_step ("/", true) elems).1 in
    let elem := default "" (last elems) in
    let dst := if String.eqb elem "." || String.eqb elem ".." then dst +:+ "/" else dst in
    if HasPrefix dst "//" then str_drop 1 dst else dst.

Definition ResolveReference (u ref : URL) : URL :=
  let scheme := if String.eqb (u_scheme ref) "" then u_scheme u else u_scheme ref in
  if negb (String.eqb (u_scheme ref) "") || negb (String.eqb (u_host ref) "") then
    mkURL scheme (u_host ref) (resolvePath (u_path ref) "") (u_rawQuery ref)
  else
    mkURL scheme (u_host u) (resolvePath (u_path u) (u_path ref))
      (if String.eqb (u_path ref) "" && String.eqb (u_rawQuery ref) "" then u_rawQuery u else u_rawQuery ref).

(** ** The runtime of the generator

    [StyleParam] writes a path parameter, [BindParam] reads one back;
    [JSONMerge] gives the merged text and an error. *)

Class ParamCodec := {
  StyleParam : string -> result string;
  BindParam : string -> result string;
  JSONMerge : string -> string -> string * option string
}.

(** ** The union of the rule types *)

Section items.
Context `{ParamCodec}.

(** The union gets what the merge returns, with an error too. *)
Definition MergeRecordingRule (t : RuleGroup_Rules_Item) (v : RecordingRule) :
    RuleGroup_Rules_Item * option string :=
  let '(merged, err) := JSONMerge (union_raw t) (union_raw (FromRecordingRule v)) in (mkItem merged, err).

Definition MergeAlertingRule (t : RuleGroup_Rules_Item) (v : AlertingRule) :
    RuleGroup_Rules_Item * option string :=
  let '(merged, err) := JSONMerge (union_raw t) (union_raw (FromAlertingRule v)) in (mkItem merged, err).

(** A union that was never set is [null]. *)
Definition Item_MarshalJSON (t : RuleGroup_Rules_Item) : string :=
  if String.eqb (union_raw t) "" then "null" else union_raw t.

Definition Item_UnmarshalJSON (b : string) : RuleGroup_Rules_Item := mkItem b.
End items.

(** ** The client *)

(** A request to send, and what comes back. *)
Record OutRequest := mkOutRequest {
  or_method : string;
  or_url : URL;
  or_header : Header;
  or_body : option string
}.

Record Response := mkResponse {
  StatusCode : Z;
  Status : string;
  rs_header : Header;
  rs_body : string;
  rs_read_err : bool
}.

(** A response pointer may come with an error, and is nil without a response. *)
Inductive fetch := Failed (resp : option Response) (err : string) | Fetched (resp : Response).

Definition Doer : Type := OutRequest -> fetch.
Definition RequestEditorFn : Type := Context -> OutRequest -> result OutRequest.

Record Client := mkClient {
  Server : string;
  Client_Client : option Doer;
  RequestEditors : list RequestEditorFn
}.

Definition ClientOption : Type := Client -> result Client.

Definition ensure_slash (server : string) : string :=
  if negb (HasSuffix server "/") then server +:+ "/" else server.

(** [http_Client] is a new [http.Client]. *)
Definition NewClient (http_Client : Doer) (server : string) (opts : list ClientOption) : result Client :=
  client ← foldl (fun c o => c ← c; o c) (Ok (mkClient server None [])) opts;
  let server := ensure_slash (Server client) in
  Ok (mkClient server (Some (default http_Client (Client_Client client))) (RequestEditors client)).

Definition WithHTTPClient (doer : Doer) : ClientOption := fun c =>
  Ok (mkClient (Server c) (Some doer) (RequestEditors c)).
Definition WithRequestEditorFn (fn : RequestEditorFn) : ClientOption := fun c =>
  Ok (mkClient (Server c) (Client_Client c) (RequestEditors c ++ [fn])).

Section client.
Context `{UrlCodec} `{ParamCodec} `{Yaml}.

Definition WithBaseURL (baseURL : string) : ClientOption := fun c =>
  newBaseURL ← url_Parse baseURL;
  Ok (mkClient (url_String newBaseURL) (Client_Client c) (RequestEditors c)).

(** [serverURL.Parse], then [http.NewRequest] on the text of the URL. *)
Definition operation_request (method server operationPath : string) (body : option string) : result OutRequest :=
  serverURL ← url_Parse server;
  let operationPath := if HasPrefix operationPath "/" then "." +:+ operationPath else operationPath in
  ref ← url_Parse operationPath;
  let queryURL := ResolveReference serverURL ref in
  u ← url_Parse (url_String queryURL);
  Ok (mkOutRequest method u ∅ body).

Definition NewListAllRulesRequest (server : string) : result OutRequest :=
  operation_request "GET" server "/api/v1/rules" None.

Definition NewListRulesRequest (server tenant : string) : result OutRequest :=
  pathParam0 ← StyleParam tenant;
  operation_request "GET" server ("/api/v1/rules/" +:+ pathParam0) None.

Definition NewSetRulesRequestWithBody (server tenant contentType body : string) : result OutRequest :=
  pathParam0 ← StyleParam tenant;
  req ← operation_request "PUT" server ("/api/v1/rules/" +:+ pathParam0) (Some body);
  Ok (mkOutRequest (or_method req) (or_url req) (header_add (or_header req) "Content-Type" contentType) (or_body req)).

Definition applyEditors (c : Client) (ctx : Context) (req : OutRequest) (additionalEditors : list RequestEditorFn) :
    result OutRequest :=
  foldl (fun req r => req ← req; r ctx req) (Ok req) (RequestEditors c ++ additionalEditors).

(** A client that was not made by [NewClient] may have no [Doer]. *)
Definition send (c : Client) (ctx : Context) (req : result OutRequest) (reqEditors : list RequestEditorFn) :
    flow fetch :=
  match req ≫= (fun req => applyEditors c ctx req reqEditors) with
  | Err e => Return (Failed None e)
  | Ok req =>
      match Client_Client c with
      | Some d => Return (d req)
      | None => Panic "invalid memory address or nil pointer dereference"
      end
  end.

Definition ListAllRules (c : Client) (ctx : Context) (reqEditors : list RequestEditorFn) : flow fetch :=
  send c ctx (NewListAllRulesRequest (Server c)) reqEditors.
Definition ListRules (c : Client) (ctx : Context) (tenant : string) (reqEditors : list RequestEditorFn) : flow fetch :=
  send c ctx (NewListRulesRequest (Server c) tenant) reqEditors.
Definition SetRulesWithBody (c : Client) (ctx : Context) (tenant contentType body : string)
    (reqEditors : list RequestEditorFn) : flow fetch :=
  send c ctx (NewSetRulesRequestWithBody (Server c) tenant contentType body) reqEditors.

(** *** Responses with their payload *)

Definition http_StatusText0 : string := "".

Record ParsedResponse := mkParsedResponse {
  pr_Body : string;
  HTTPResponse : option Response;
  YAML200 : option Rules
}.

Definition ParsedResponse_Status (r : ParsedResponse) : string :=
  match HTTPResponse r with Some rsp => Status rsp | None => http_StatusText0 end.
Definition ParsedResponse_StatusCode (r : ParsedResponse) : Z :=
  match HTTPResponse r with Some rsp => StatusCode rsp | None => 0 end.

Definition ReadAll (rsp : Response) : result string :=
  if rs_read_err rsp then Err "unexpected EOF" else Ok (rs_body rsp).

(** [ParseListAllRulesResponse] and [ParseListRulesResponse]. *)
Definition ParseRulesResponse (rsp : Response) : result ParsedResponse :=
  bodyBytes ← ReadAll rsp;
  if Contains (header_get (rs_header rsp) "Content-Type") "yaml" && (StatusCode rsp =? 200)%Z then
    dest ← UnmarshalRules bodyBytes;
    Ok (mkParsedResponse bodyBytes (Some rsp) (Some dest))
  else Ok (mkParsedResponse bodyBytes (Some rsp) None).

Definition ParseSetRulesResponse (rsp : Response) : result ParsedResponse :=
  bodyBytes ← ReadAll rsp; Ok (mkParsedResponse bodyBytes (Some rsp) None).

Definition with_response (parse : Response -> result ParsedResponse) (f : flow fetch) : fallible ParsedResponse :=
  match f with
  | Panic msg => Panic msg
  | Return (Failed _ e) => Return (Err e)
  | Return (Fetched rsp) => Return (parse rsp)
  end.

Definition ListAllRulesWithResponse c ctx reqEditors : fallible ParsedResponse :=
  with_response ParseRulesResponse (ListAllRules c ctx reqEditors).
Definition ListRulesWithResponse c ctx tenant reqEditors : fallible ParsedResponse :=
  with_response ParseRulesResponse (ListRules c ctx tenant reqEditors).
Definition SetRulesWithBodyWithResponse c ctx tenant contentType body reqEditors : fallible ParsedResponse :=
  with_response ParseSetRulesResponse (SetRulesWithBody c ctx tenant contentType body reqEditors).

(** What the raw rules endpoints see of a fetch. *)
Definition reply_of (f : flow fetch) : MetricsRules.reply :=
  match f with
  | Return (Failed resp _) => MetricsRules.ClientError (StatusCode <$> resp)
  | Return (Fetched rsp) => MetricsRules.Response (StatusCode rsp) (rs_body rsp) (rs_read_err rsp)
  | Panic _ => MetricsRules.ClientError None
  end.

(** The handler of the raw rules: the client that [metricsv1.NewHandler] makes for
    the endpoint; it has a [Doer], so its calls do not panic. *)
Definition rules_client (http_Client : Doer) (lbl : string) (ctx : Context) (endpoint : string) :
    option MetricsRules.rulesHandler :=
  match NewClient http_Client endpoint [] with
  | Err _ => None
  | Ok client =>
      Some (MetricsRules.mkRulesHandler (fun tenant => reply_of (ListRules client ctx tenant []))
              (fun tenant contentType body => reply_of (SetRulesWithBody client ctx tenant contentType body [])) lbl)
  end.
End client.

(** ** The errors of the server *)

Definition UnescapedCookieParamError_Error (ParamName : string) : string :=
  "error unescaping cookie parameter '" +:+ ParamName +:+ "'".
Definition UnmarshalingParamError_Error (ParamName err : string) : string :=
  "Error unmarshaling parameter " +:+ ParamName +:+ " as JSON: " +:+ err.
Definition RequiredParamError_Error (ParamName : string) : string :=
  "Query argument " +:+ ParamName +:+ " is required, but not found".
Definition RequiredHeaderError_Error (ParamName : string) : string :=
  "Header parameter " +:+ ParamName +:+ " is required, but not found".
Definition InvalidParamFormatError_Error (ParamName err : string) : string :=
  "Invalid format for parameter " +:+ ParamName +:+ ": " +:+ err.
Definition TooManyValuesForParamError_Error (ParamName : string) (Count : Z) : string :=
  "Expected one value for " +:+ ParamName +:+ ", got " +:+ Itoa Count.

(** ** The server *)

Section server.
Context {S : Type} `{ParamCodec}.

Record ServerInterface := mkServerInterface {
  si_ListAllRules : Handler S;
  si_ListRules : string -> Handler S;
  si_SetRules : string -> Handler S
}.

Definition Unimplemented : ServerInterface :=
  mkServerInterface (fun _ => WriteHeader 501) (fun _ _ => WriteHeader 501) (fun _ _ => WriteHeader 501).

Record ServerInterfaceWrapper := mkWrapper {
  siw_Handler : ServerInterface;
  HandlerMiddlewares : list (Middleware S);
  ErrorHandlerFunc : string -> Handler S
}.

(** Every middleware wraps the ones before it. *)
Definition wrap_middlewares (mws : list (Middleware S)) (h : Handler S) : Handler S :=
  foldl (fun h mw => mw h) h mws.

Definition wrapper_ListAllRules (siw : ServerInterfaceWrapper) : Handler S :=
  wrap_middlewares (HandlerMiddlewares siw) (si_ListAllRules (siw_Handler siw)).

Definition wrapper_tenant (siw : ServerInterfaceWrapper) (op : string -> Handler S) : Handler S := fun r =>
  match BindParam (URLParam r "tenant") with
  | Err err => ErrorHandlerFunc siw (InvalidParamFormatError_Error "tenant" err) r
  | Ok tenant => wrap_middlewares (HandlerMiddlewares siw) (op tenant) r
  end.

Definition wrapper_ListRules (siw : ServerInterfaceWrapper) : Handler S :=
  wrapper_tenant siw (si_ListRules (siw_Handler siw)).
Definition wrapper_SetRules (siw : ServerInterfaceWrapper) : Handler S :=
  wrapper_tenant siw (si_SetRules (siw_Handler siw)).

Record ChiServerOptions := mkChiServerOptions {
  BaseURL : string;
  BaseRouter : Router S;
  opt_Middlewares : list (Middleware S);
  opt_ErrorHandlerFunc : option (string -> Handler S)
}.

Definition HandlerWithOptions (si : ServerInterface) (options : ChiServerOptions) : Router S :=
  let onError := default (fun err _ => http_Error err 400) (opt_ErrorHandlerFunc options) in
  let wrapper := mkWrapper si (opt_Middlewares options) onError in
  BaseRouter options ++
  [Method "GET" (BaseURL options +:+ "/api/v1/rules") (wrapper_ListAllRules wrapper);
   Method "GET" (BaseURL options +:+ "/api/v1/rules/{tenant}") (wrapper_ListRules wrapper);
   Method "PUT" (BaseURL options +:+ "/api/v1/rules/{tenant}") (wrapper_SetRules wrapper)].

Definition rules_Handler (si : ServerInterface) : Router S :=
  HandlerWithOptions si (mkChiServerOptions "" [] [] None).
Definition HandlerFromMux (si : ServerInterface) (r : Router S) : Router S :=
  HandlerWithOptions si (mkChiServerOptions "" r [] None).
Definition HandlerFromMuxWithBaseURL (si : ServerInterface) (r : Router S) (baseURL : string) : Router S :=
  HandlerWithOptions si (mkChiServerOptions baseURL r [] None).
End server.
Arguments ServerInterface S : clear implicits.

(** ** Resolution of the paths of the client *)

Lemma split_dir_slash s t : lacks "/" t = true -> split_dir (s +:+ String "/" t) = Some (s +:+ "/").
Proof.
  intros Ht. assert (split_dir t = None) as Hn.
  { clear s. revert Ht. unfold lacks. induction t as [|c t IH]; [done|]. cbn [str_forallb split_dir].
    intros [Hc Ht]%andb_true_iff. apply negb_true_iff in Hc. by rewrite IH, Hc by done. }
  induction s as [|c s IH].
  { change (split_dir (String "/" t) = Some "/"). cbn [split_dir]. by rewrite Hn. }
  rewrite !str_app_cons. cbn [split_dir]. by rewrite IH.
Qed.

Definition plain_elem (e : string) : Prop := e <> "." /\ e <> "..".

Lemma resolve_plain es dst : Forall plain_elem es ->
  foldl resolve_step (dst, false) es = (foldl (fun d e => d +:+ "/" +:+ e) dst es, false).
Proof.
  intros Hes. revert dst. induction Hes as [|e es [H1 H2] _ IH]; intros dst; [done|]. cbn [foldl].
  unfold resolve_step at 2. rewrite (proj2 (String.eqb_neq _ _) H1), (proj2 (String.eqb_neq _ _) H2).
  rewrite str_app_assoc. apply IH.
Qed.

Lemma foldl_slash es : es <> [] ->
  forall dst, foldl (fun d e => d +:+ "/" +:+ e) dst es = dst +:+ "/" +:+ Join es "/".
Proof.
  induction es as [|e es IH]; [done|]. intros _ dst. destruct es as [|e' es]; [done|].
  change (foldl (fun d e => d +:+ "/" +:+ e) dst (e :: e' :: es))
    with (foldl (fun d e => d +:+ "/" +:+ e) (dst +:+ "/" +:+ e) (e' :: es)).
  rewrite IH by done. change (Join (e :: e' :: es) "/") with (e +:+ "/" +:+ Join (e' :: es) "/").
  by rewrite <-!str_app_assoc.
Qed.

Lemma Join_app l1 l2 sep : l1 <> [] -> l2 <> [] -> Join (l1 ++ l2) sep = Join l1 sep +:+ sep +:+ Join l2 sep.
Proof.
  intros H1 H2. induction l1 as [|x l1 IH]; [done|]. destruct l1 as [|y l1]; [by destruct l2|].
  change (Join ((x :: y :: l1) ++ l2) sep) with (x +:+ sep +:+ Join ((y :: l1) ++ l2) sep).
  change (Join (x :: y :: l1) sep) with (x +:+ sep +:+ Join (y :: l1) sep).
  rewrite IH by done. by rewrite <-!str_app_assoc.
Qed.

(** The path of a server: empty, or rooted without dot elements. *)
Definition server_path (b : string) : Prop :=
  (b = "" \/ HasPrefix b "/" = true) /\ Forall plain_elem (Split "/" b).

Lemma server_path_split b : server_path b -> exists es, Split "/" b = "" :: es /\ Forall plain_elem es.
Proof.
  intros [[->|Hp] Hall]; [by exists []|]. unfold HasPrefix in Hp. apply prefix_app_inv in Hp.
  rewrite Hp in Hall |- *. change ("/" +:+ ?s) with ("" +:+ String "/" s) in *. rewrite Split_concat in *.
  eexists. split; [reflexivity|]. by apply Forall_cons in Hall as [_ ?].
Qed.

Lemma resolve_elems es l : Forall plain_elem es -> Forall plain_elem l -> l <> [] ->
  foldl resolve_step ("/", true) (("" :: es) ++ "." :: l) = ("//" +:+ Join (es ++ l) "/", false).
Proof.
  intros Hes Hl Hne. cbn [app foldl]. change (resolve_step ("/", true) "") with ("/", false).
  rewrite foldl_app, resolve_plain by done. cbn [foldl].
  change (resolve_step (?d, false) ".") with (d, false). rewrite resolve_plain by done.
  rewrite <-foldl_app, foldl_slash by (by destruct es). done.
Qed.

Lemma resolve_tenant_path b t : server_path b -> lacks "/" t = true -> plain_elem t ->
  resolvePath (b +:+ "/") ("./api/v1/rules/" +:+ t) = b +:+ "/api/v1/rules/" +:+ t.
Proof.
  intros Hb Ht Hplain. destruct (server_path_split b Hb) as (es & Es & Hes). unfold resolvePath.
  change (String.eqb ("./api/v1/rules/" +:+ t) "") with false.
  change (HasPrefix ("./api/v1/rules/" +:+ t) "/") with false. cbv beta iota zeta. cbn [negb].
  rewrite split_dir_slash by done. change (default "" (Some ?x)) with x.
  rewrite <-str_app_assoc. change ("/" +:+ "./api/v1/rules/" +:+ t) with (String "/" ("./api/v1/rules/" +:+ t)).
  set (l := ["api"; "v1"; "rules"; t]).
  assert (Split "/" (b +:+ String "/" ("./api/v1/rules/" +:+ t)) = ("" :: es) ++ "." :: l) as ->.
  { rewrite Split_concat, Es. f_equal. change ("./api/v1/rules/" +:+ t) with
      ("." +:+ String "/" ("api" +:+ String "/" ("v1" +:+ String "/" ("rules" +:+ String "/" t)))).
    rewrite !Split_app by done. by rewrite Split_lacks by done. }
  assert (String.eqb (b +:+ String "/" ("./api/v1/rules/" +:+ t)) "" = false) as -> by by destruct b.
  rewrite resolve_elems by (try done; repeat constructor; (done || apply Hplain)).
  assert (last (("" :: es) ++ "." :: l) = Some t) as -> by (rewrite last_app; reflexivity).
  change (default "" (Some t)) with t.
  rewrite (proj2 (String.eqb_neq _ _) (proj1 Hplain)), (proj2 (String.eqb_neq _ _) (proj2 Hplain)). cbn [orb fst].
  pose proof (Join_Split "/" b) as Hj. rewrite Es in Hj. change (String "/" "") with "/" in Hj.
  transitivity ("/" +:+ Join (es ++ l) "/").
  { change ("//" +:+ Join (es ++ l) "/") with (String "/" ("/" +:+ Join (es ++ l) "/")).
    set (x := Join _ _). unfold HasPrefix. cbn. by destruct x. }
  rewrite <-Hj. replace ("/" +:+ Join (es ++ l) "/") with (Join (("" :: es) ++ l) "/") by by destruct es.
  by rewrite Join_app.
Qed.

(** ** What the client asks for *)

Section requests.
Context `{UrlCodec} `{ParamCodec} `{Yaml}.

(** The URL of a tenant's rules below a server. *)
Definition tenant_url (u : URL) (b t : string) : URL :=
  mkURL (u_scheme u) (u_host u) (b +:+ "/api/v1/rules/" +:+ t) "".

(** The documented behaviour of [net/url] and of the runtime, at one server and one
    tenant: the parameter is written as [p], the reference with it is parsed back to
    the tenant, and the URL that is asked for is parsed back to itself. *)
Record codec_ok (client : Client) (u : URL) (b t p : string) : Prop := {
  server_parsed : url_Parse (Server client) = Ok u;
  server_base : u_path u = b +:+ "/";
  tenant_styled : StyleParam t = Ok p;
  reference_parsed : url_Parse ("./api/v1/rules/" +:+ p) = Ok (mkURL "" "" ("./api/v1/rules/" +:+ t) "");
  target_parsed : url_Parse (url_String (tenant_url u b t)) = Ok (tenant_url u b t)
}.

Lemma tenant_operation client u b t p method body :
  codec_ok client u b t p -> server_path b -> lacks "/" t = true -> plain_elem t ->
  operation_request method (Server client) ("/api/v1/rules/" +:+ p) body
  = Ok (mkOutRequest method (tenant_url u b t) ∅ body).
Proof.
  intros [Hs Hb _ Hr Ht] Hpath Hlack Hplain. unfold operation_request. rewrite Hs. cbn [mbind result_bind].
  change (HasPrefix ("/api/v1/rules/" +:+ p) "/") with (String.prefix "" ("api/v1/rules/" +:+ p)).
  change (String.prefix "" ("api/v1/rules/" +:+ p)) with true. cbv beta iota zeta.
  change ("." +:+ "/api/v1/rules/" +:+ p) with ("./api/v1/rules/" +:+ p). rewrite Hr. cbn [mbind result_bind].
  assert (ResolveReference u (mkURL "" "" ("./api/v1/rules/" +:+ t) "") = tenant_url u b t) as ->.
  { unfold ResolveReference, tenant_url. cbn [u_scheme u_host u_path u_rawQuery String.eqb negb orb].
    rewrite Hb, resolve_tenant_path by done. done. }
  by rewrite Ht.
Qed.

(** The names that pass the tenant header are one element of a path. *)
Lemma tenant_name_char c : tenant_char c || Ascii.eqb c "|" = true ->
  negb (Ascii.eqb c "/") = true /\ negb (Ascii.eqb c ".") = true.
Proof. destruct c as [[] [] [] [] [] [] [] []]; vm_compute; done. Qed.

Lemma joined_tenants_chars ts : Forall valid_tenant ts ->
  str_forallb (fun c => tenant_char c || Ascii.eqb c "|") (Join ts "|") = true.
Proof.
  intros Hts. induction Hts as [|t ts [_ Ht] Hts IH]; [done|].
  assert (str_forallb (fun c => tenant_char c || Ascii.eqb c "|") t = true) as Ht'.
  { revert Ht. apply str_forallb_impl. intros c ->. done. }
  destruct ts as [|t' ts]; [done|].
  change (Join (t :: t' :: ts) "|") with (t +:+ "|" +:+ Join (t' :: ts) "|").
  rewrite !str_forallb_app, Ht', IH. done.
Qed.

Lemma joined_tenants_plain ts : valid_tenants ts ->
  lacks "/" (Join ts "|") = true /\ plain_elem (Join ts "|").
Proof.
  intros (Hl & Hts & _). pose proof (joined_tenants_chars ts Hts) as Hc. split.
  - revert Hc. apply str_forallb_impl. intros c Hc. by apply tenant_name_char in Hc as [? _].
  - split; intros E; rewrite E in Hc; discriminate Hc.
Qed.
End requests.

(** ** Client and server *)

(** What the server sees of a request the client sends. *)
Definition received (out : OutRequest) (r : Request) : Prop :=
  r_method r = or_method out /\ u_path (r_url r) = u_path (or_url out).

(** The patterns of a server, for the route search. *)
Definition rules_table (base : string) : list (option string * string) :=
  [(Some "GET", base +:+ "/api/v1/rules"); (Some "GET", base +:+ "/api/v1/rules/{tenant}");
   (Some "PUT", base +:+ "/api/v1/rules/{tenant}")].

(** The documented behaviour of the route search and of the runtime at one path. *)
Record server_ok `{Chi} `{ParamCodec} (b t raw : string) : Prop := {
  list_found : chi_find (rules_table b) "GET" (b +:+ "/api/v1/rules/" +:+ t) = Found 1 [("tenant", raw)];
  set_found : chi_find (rules_table b) "PUT" (b +:+ "/api/v1/rules/" +:+ t) = Found 2 [("tenant", raw)];
  tenant_bound : BindParam raw = Ok t
}.

Section both.
Context `{UrlCodec} `{ParamCodec} `{Yaml} `{Chi}.

Lemma tenant_served {S} (si : ServerInterface S) mws b t raw r :
  server_ok b t raw -> u_path (r_url r) = b +:+ "/api/v1/rules/" +:+ t ->
  let server := HandlerWithOptions si (mkChiServerOptions b [] mws None) in
  (r_method r = "GET" -> ServeHTTP server r = wrap_middlewares mws (si_ListRules si t) (set_params [("tenant", raw)] r)) /\
  (r_method r = "PUT" -> ServeHTTP server r = wrap_middlewares mws (si_SetRules si t) (set_params [("tenant", raw)] r)).
Proof.
  intros [Hl Hs Hb] Hp server.
  assert (forall op, wrapper_tenant (mkWrapper si mws (fun err _ => http_Error err 400)) op (set_params [("tenant", raw)] r)
            = wrap_middlewares mws (op t) (set_params [("tenant", raw)] r)) as Hw.
  { intros op. unfold wrapper_tenant, URLParam. cbn [r_params set_params foldl fst snd].
    rewrite lookup_insert_eq. change (default "" (Some raw)) with raw. by rewrite Hb. }
  unfold ServeHTTP. rewrite Hp. split; intros ->.
  - change (_ <$> server) with (rules_table b). rewrite Hl. apply Hw.
  - change (_ <$> server) with (rules_table b). rewrite Hs. apply Hw.
Qed.

(** C33: The client of the raw rules and the server of the same API, for the
    tenants of a request that passed the tenant header.  Whatever is done with the
    requests, the client sends one, a GET or a PUT with the body and its content
    type, for the rules of exactly these tenants below the path of the endpoint;
    and a server mounted there hands it to its operation with the same tenants.
    Names the header middleware refuses would leave this path: [..] asks for the
    API itself and [.] for the rules of all tenants. *)
Theorem rules_client_server {S} (client : Client) (d : Doer) (u : URL) (b p raw : string) (ts : list string)
    (ctx : Context) (contentType body : string) (si : ServerInterface S) (mws : list (Middleware S)) :
  let t := Join ts "|" in
  let server := HandlerWithOptions si (mkChiServerOptions b [] mws None) in
  Client_Client client = Some d -> RequestEditors client = [] ->
  codec_ok client u b t p -> server_ok b t raw -> server_path b -> valid_tenants ts ->
  (exists out, ListRules client ctx t [] = Return (d out) /\
     out = mkOutRequest "GET" (tenant_url u b t) ∅ None /\
     forall r, received out r ->
       ServeHTTP server r = wrap_middlewares mws (si_ListRules si t) (set_params [("tenant", raw)] r)) /\
  (exists out, SetRulesWithBody client ctx t contentType body [] = Return (d out) /\
     out = mkOutRequest "PUT" (tenant_url u b t) (header_add ∅ "Content-Type" contentType) (Some body) /\
     forall r, received out r ->
       ServeHTTP server r = wrap_middlewares mws (si_SetRules si t) (set_params [("tenant", raw)] r)) /\
  resolvePath "/" "./api/v1/rules/.." = "/api/v1/" /\ resolvePath "/" "./api/v1/rules/." = "/api/v1/rules/".
Proof.
  intros t server Hd He Hc Hs Hb Hts. destruct (joined_tenants_plain ts Hts) as [Hlack Hplain]. fold t in Hlack, Hplain.
  assert (forall r, u_path (r_url r) = b +:+ "/api/v1/rules/" +:+ t -> _) as Hserve
    by exact (fun r => tenant_served si mws b t raw r Hs).
  split_and!; [| |by vm_compute|by vm_compute].
  - eexists. split_and!; [|reflexivity|intros r [Hm Hp]; by apply Hserve].
    unfold ListRules, send, NewListRulesRequest, applyEditors. rewrite (tenant_styled _ _ _ _ _ Hc). cbn [mbind result_bind].
    rewrite (tenant_operation _ _ _ _ _ _ _ Hc) by done. cbn. by rewrite He, Hd.
  - eexists. split_and!; [|reflexivity|intros r [Hm Hp]; by apply Hserve].
    unfold SetRulesWithBody, send, NewSetRulesRequestWithBody, applyEditors. rewrite (tenant_styled _ _ _ _ _ Hc).
    cbn [mbind result_bind]. rewrite (tenant_operation _ _ _ _ _ _ _ Hc) by done. cbn. by rewrite He, Hd.
Qed.
End both.

(** ** A run *)

(** References below [./] and URLs of plain HTTP, with escaped path elements. *)
Definition api_urls : UrlCodec := {|
  url_Parse := fun s =>
    if HasPrefix s "./" then p ← QueryUnescape s; Ok (mkURL "" "" p "")
    else if HasPrefix s "http://" then
      match Split "/" (str_drop 7 s) with
      | host :: elems => p ← QueryUnescape (Join elems "/"); Ok (mkURL "http" host ("/" +:+ p) "")
      | [] => Err "parse error"
      end
    else Err "parse error";
  url_String := fun u => u_scheme u +:+ "://" +:+ u_host u +:+ Join (QueryEscape <$> Split "/" (u_path u)) "/"
|}.

Definition escaping_params : ParamCodec := {|
  StyleParam := fun t => Ok (QueryEscape t);
  BindParam := QueryUnescape;
  JSONMerge := fun a b => (b, None)
|}.

(** The route search for the three routes at the root. *)
Definition rules_chi : Chi := {|
  chi_find := fun _ m path =>
    if HasPrefix path "/api/v1/rules/" then
      Found (if String.eqb m "PUT" then 2 else 1) [("tenant", TrimPrefix path "/api/v1/rules/")]
    else RouteNotFound
|}.

Section run.
#[local] Existing Instances api_urls escaping_params rules_chi.

Definition no_rules : Yaml := {|
  UnmarshalRules := fun _ => Err "no yaml"; MarshalRules := fun _ => Err "no yaml";
  UnmarshalRuleGroup := fun _ => Err "no yaml"; MarshalRuleGroup := fun _ => Err "no yaml"
|}.
#[local] Existing Instance no_rules.

Definition thanos_rules : Client := mkClient "http://thanos:10902/" (Some (fun _ => Failed None "offline")) [].

(** A server that answers with the tenant it is asked for. *)
Definition echo_rules : ServerInterface unit :=
  mkServerInterface (fun _ => Write (Raw "all")) (fun t _ => Write (Raw t)) (fun t _ => Write (Raw ("set " +:+ t))).

Lemma rules_client_server_witness :
  NewClient (fun _ => Failed None "offline") "http://thanos:10902" [] = Ok thanos_rules /\
  exists out, NewListRulesRequest (Server thanos_rules) "mine|other" = Ok out /\
    forall r, received out r ->
      ServeHTTP (HandlerWithOptions echo_rules (mkChiServerOptions "" [] [] None)) r = Write (Raw "mine|other").
Proof.
  split; [reflexivity|].
  assert (valid_tenants ["mine"; "other"]) as Hts.
  { split; [vm_compute; lia|]. split; [repeat constructor; vm_compute; lia || reflexivity|].
    apply (bool_decide_unpack _). vm_compute. exact I. }
  destruct (rules_client_server thanos_rules (fun _ => Failed None "offline") (mkURL "http" "thanos:10902" "/" "") ""
              "mine%7Cother" "mine|other" ["mine"; "other"] background "application/yaml" "" echo_rules [])
    as ((out & _ & -> & Hserve) & _); [reflexivity|reflexivity| | |split; [by left|]|exact Hts|].
  - split; reflexivity.
  - split; reflexivity.
  - repeat constructor; discriminate.
  - eexists. split; [vm_compute; reflexivity|]. intros r Hr. rewrite Hserve; [reflexivity|exact Hr].
Defined.
End run.
