(* ===== verification/PromRules.v ===== *)
(** * The filter of Prometheus rules responses

    [api/logs/v1/rules_prometheus_labels_enforcer.go]: the types of a rules
    response, the filters by label and the response modifier around them, which the
    program does not install.  The class [RulesJson] is [encoding/json] on the plain
    structs, with the JSON form of [labels.Labels]; it is handed the methods of
    [rule] that the source defines.  An element of a slice of pointers may be nil. *)

From stdpp Require Import base tactics option list gmap strings.
From Stdlib Require Import ZArith Lia Ascii SpecFloat.
From S2P Require Import Prelude GoStrings Labels Url Strconv Json Http Tenant Authz MetricsEnforcer Rules.

(** ** The types *)

Definition Labels : Type := list (string * string).

(** [labels.Labels.Map]: of a repeated name the last value counts. *)
Definition labels_Map (ls : Labels) : StringMap :=
  foldl (fun m '(k, v) => <[k := v]> m) ∅ ls.

Record alert := mkAlert {
  al_Labels : Labels;
  al_Annotations : Labels;
  al_State : string;
  al_ActiveAt : option string;
  al_Value : string
}.

Record alertingRule := mkAlertingRule {
  alr_State : string;
  alr_Name : string;
  alr_Query : string;
  alr_Duration : spec_float;
  alr_Labels : Labels;
  alr_Annotations : Labels;
  alr_Alerts : list (option alert);
  alr_Health : string;
  alr_LastError : string;
  alr_LastEvaluation : string;
  alr_EvaluationTime : spec_float;
  alr_Type : string
}.

Record recordingRule := mkRecordingRule {
  rcr_Name : string;
  rcr_Query : string;
  rcr_Labels : Labels;
  rcr_Health : string;
  rcr_LastError : string;
  rcr_LastEvaluation : string;
  rcr_EvaluationTime : spec_float;
  rcr_Type : string
}.

(** Two embedded pointers. *)
Record rule := mkRule { r_alertingRule : option alertingRule; r_recordingRule : option recordingRule }.

Record ruleGroup := mkGroup {
  g_Name : string;
  g_File : string;
  g_Rules : list rule;
  g_Interval : spec_float;
  g_LastEvaluation : string;
  g_EvaluationTime : spec_float
}.

Record rulesData := mkRulesData { RuleGroups : list (option ruleGroup); Alerts : list (option alert) }.

Record prometheusRulesResponse := mkRulesResponse {
  res_Status : string; res_Data : rulesData; res_Error : string; res_ErrorType : string
}.

(** [GetLabels] of an alert, which may be a nil pointer, and of a rule. *)
Definition alert_GetLabels (a : option alert) : flow Labels :=
  match a with Some a => Return (al_Labels a) | None => Panic nil_pointer end.

Definition rule_GetLabels (r : rule) : flow Labels :=
  match r_alertingRule r with
  | Some a => Return (alr_Labels a)
  | None => match r_recordingRule r with Some a => Return (rcr_Labels a) | None => Panic nil_pointer end
  end.

Class RulesJson := {
  UnmarshalType : string -> result string;
  UnmarshalAlerting : string -> result alertingRule;
  UnmarshalRecording : string -> result recordingRule;
  MarshalAlerting : alertingRule -> result string;
  MarshalRecording : recordingRule -> result string;
  UnmarshalResponse : (string -> result rule) -> string -> result prometheusRulesResponse;
  MarshalResponse : (rule -> result string) -> prometheusRulesResponse -> result string
}.

Section json.
Context `{Unicode} `{RulesJson}.

(** A nil pointer is [null]. *)
Definition rule_MarshalJSON (r : rule) : result string :=
  match r_alertingRule r with
  | Some a => MarshalAlerting a
  | None => match r_recordingRule r with Some a => MarshalRecording a | None => Ok "null" end
  end.

Definition rule_UnmarshalJSON (r : rule) (b : string) : result rule :=
  ruleType ← UnmarshalType b;
  if String.eqb ruleType "alerting" then
    alertingr ← UnmarshalAlerting b; Ok (mkRule (Some alertingr) (r_recordingRule r))
  else if String.eqb ruleType "recording" then
    recordingr ← UnmarshalRecording b; Ok (mkRule (r_alertingRule r) (Some recordingr))
  else Err ("failed to unmarshal rule: unknown type " +:+ Quote ruleType).

(** The elements of [rules] start as the zero value. *)
Definition unmarshal_rule : string -> result rule := rule_UnmarshalJSON (mkRule None None).
End json.

(** ** The filters *)

Section filter.
Context `{MapRange}.

Definition extractMatchers (q : Values) (l : list string) : StringMap :=
  foldl (fun m name =>
    let value := values_get q name in
    if negb (String.eqb value "") then <[name := value]> m else m) ∅ l.

(** The loop over the matchers asks for the labels at each of them. *)
Fixpoint matching_loop (GetLabels : flow Labels) (matchers : list (string * string)) : flow bool :=
  match matchers with
  | [] => Return true
  | (key, value) :: matchers =>
      labels ← GetLabels;
      match labels_Map labels !! key with
      | Some val => if String.eqb val value then matching_loop GetLabels matchers else Return false
      | None => Return false
      end
  end.

Definition hasMatchingLabels (GetLabels : flow Labels) (matchers : StringMap) : flow bool :=
  matching_loop GetLabels (map_range matchers).

Fixpoint filter_flow {A} (keep : A -> flow bool) (l : list A) : flow (list A) :=
  match l with
  | [] => Return []
  | x :: l => k ← keep x; l' ← filter_flow keep l; Return (if k : bool then x :: l' else l')
  end.

Definition with_rules (g : ruleGroup) (rs : list rule) : ruleGroup :=
  mkGroup (g_Name g) (g_File g) rs (g_Interval g) (g_LastEvaluation g) (g_EvaluationTime g).

Fixpoint filterPrometheusRuleGroups (groups : list (option ruleGroup)) (matchers : StringMap) :
    flow (list (option ruleGroup)) :=
  match groups with
  | [] => Return []
  | None :: _ => Panic nil_pointer
  | Some group :: groups =>
      filteredRules ← filter_flow (fun r => hasMatchingLabels (rule_GetLabels r) matchers) (g_Rules group);
      filtered ← filterPrometheusRuleGroups groups matchers;
      Return (if (0 <? length filteredRules)%nat then Some (with_rules group filteredRules) :: filtered else filtered)
  end.

Definition filterPrometheusAlerts (alerts : list (option alert)) (matchers : StringMap) :
    flow (list (option alert)) :=
  filter_flow (fun a => hasMatchingLabels (alert_GetLabels a) matchers) alerts.

Definition set_data (d : rulesData) (res : prometheusRulesResponse) : prometheusRulesResponse :=
  mkRulesResponse (res_Status res) d (res_Error res) (res_ErrorType res).

Definition filterPrometheusResponse (res : prometheusRulesResponse) (matchers : StringMap)
    (strictEnforce : bool) : flow prometheusRulesResponse :=
  if (size matchers =? 0)%nat then
    Return (if strictEnforce then set_data (mkRulesData [] []) res else res)
  else
    res ← (if (0 <? length (RuleGroups (res_Data res)))%nat then
             filtered ← filterPrometheusRuleGroups (RuleGroups (res_Data res)) matchers;
             Return (set_data (mkRulesData filtered []) res)
           else Return res);
    if (0 <? length (Alerts (res_Data res)))%nat then
      filtered ← filterPrometheusAlerts (Alerts (res_Data res)) matchers;
      Return (set_data (mkRulesData [] filtered) res)
    else Return res.

(** ** The modifier *)

Definition contentTypeApplicationJSON : string := "application/json".
Definition errUnknownTenantKey : string := "unknown tenant key".
Definition errUnknownRulesContentType : string := "unknown rules response content type".

Context `{Unicode} `{RulesJson}.

Definition filterRules (body contentType : string) (matchers : StringMap) (strictMode : bool) :
    fallible string :=
  if String.eqb contentType contentTypeApplicationJSON then
    match UnmarshalResponse unmarshal_rule body with
    | Err e => Return (Err e)
    | Ok res =>
        res ← filterPrometheusResponse res matchers strictMode;
        Return (MarshalResponse rule_MarshalJSON res)
    end
  else Return (Err errUnknownRulesContentType).

Record RulesResponse := mkResponse {
  rsp_Request : Request;
  rsp_Header : Header;
  rsp_Body : result string;
  rsp_ContentLength : Z
}.

Definition newModifyResponseProm (labelKeys : gmap string (list string)) (res : RulesResponse) :
    fallible RulesResponse :=
  let ctx := r_ctx (rsp_Request res) in
  match GetTenant ctx with
  | None => Return (Err errUnknownTenantKey)
  | Some tenant =>
      match labelKeys !! tenant with
      | None => Return (Ok res)
      | Some keys =>
          let matchers := extractMatchers (URL_Query (rsp_Request res)) keys in
          let contentType := header_get (rsp_Header res) "Content-Type" in
          let data := default "" (GetData ctx) in
          match (if String.eqb data "" then Ok (mkAuthz [] "") else Unmarshal data) with
          | Err _ => Return (Ok res)
          | Ok matchersInfo =>
              let strictMode := negb (length (ad_matchers matchersInfo) =? 0)%nat in
              match rsp_Body res with
              | Err e => Return (Err e)
              | Ok body =>
                  b ← filterRules body contentType matchers strictMode;
                  let n := Z.of_nat (String.length b) in
                  mret (mkResponse (rsp_Request res) (header_set (rsp_Header res) "Content-Length" (Itoa n)) (Ok b) n)
              end
          end
      end
  end.
End filter.

(** ** What the filters keep *)

Section facts.
Context `{MapRange}.

(** The labels are there and carry every matcher. *)
Definition carries (ms : StringMap) (GetLabels : flow Labels) : bool :=
  match GetLabels with Return ls => bool_decide (ms ⊆ labels_Map ls) | Panic _ => false end.

Definition has_labels (GetLabels : flow Labels) : Prop := exists ls, GetLabels = Return ls.

Lemma matching_loop_labels ls l : matching_loop (Return ls) l =
  Return (forallb (fun kv => match labels_Map ls !! kv.1 with Some v => String.eqb v kv.2 | None => false end) l).
Proof.
  induction l as [|[k v] l IH]; [done|]. cbn. destruct (labels_Map ls !! k) as [w|]; [|done].
  by destruct (String.eqb w v).
Qed.

Lemma hasMatchingLabels_carries gl ms : has_labels gl -> hasMatchingLabels gl ms = Return (carries ms gl).
Proof.
  intros [ls ->]. unfold hasMatchingLabels, carries. rewrite matching_loop_labels. f_equal.
  apply eq_bool_prop_intro. rewrite bool_decide_spec, Is_true_true, forallb_forall, map_subseteq_spec. split.
  - intros Hall k v Hk. specialize (Hall (k, v)). rewrite <-list_elem_of_In, elem_of_map_range in Hall.
    specialize (Hall Hk). cbn in Hall. destruct (labels_Map ls !! k) as [v'|]; [|done].
    by apply String.eqb_eq in Hall as ->.
  - intros Hsub [k v] Hin. apply list_elem_of_In, elem_of_map_range in Hin. cbn.
    rewrite (Hsub _ _ Hin). by apply String.eqb_eq.
Qed.

(** With a matcher to compare, a rule or an alert without labels is dereferenced. *)
Lemma hasMatchingLabels_has gl ms b : ms <> ∅ -> hasMatchingLabels gl ms = Return b -> has_labels gl.
Proof.
  unfold hasMatchingLabels. intros Hne. destruct gl as [ls|]; [by exists ls|].
  destruct (map_range ms) as [|[k v] l] eqn:E; [|done]. exfalso. apply Hne, map_eq. intros k.
  rewrite lookup_empty. apply eq_None_not_Some. intros [v Hv].
  apply (elem_of_map_range ms k v) in Hv. rewrite E in Hv. by apply elem_of_nil in Hv.
Qed.

Section of_slice.
Context {A} (labels : A -> flow Labels) (ms : StringMap).

Lemma filter_flow_returns l : Forall (fun x => has_labels (labels x)) l ->
  filter_flow (fun x => hasMatchingLabels (labels x) ms) l = Return (List.filter (fun x => carries ms (labels x)) l).
Proof.
  induction 1 as [|x l Hx _ IH]; [done|]. cbn. rewrite hasMatchingLabels_carries by done. cbn. rewrite IH. cbn.
  by destruct (carries ms (labels x)).
Qed.

Lemma filter_flow_has l l' : ms <> ∅ ->
  filter_flow (fun x => hasMatchingLabels (labels x) ms) l = Return l' -> Forall (fun x => has_labels (labels x)) l.
Proof.
  intros Hne. revert l'. induction l as [|x l IH]; intros l'; [constructor|]. cbn.
  rewrite flow_bind_return. intros (k & Hk & E). apply flow_bind_return in E as (l1 & Hl & _).
  constructor; [by eapply hasMatchingLabels_has|by eapply IH].
Qed.
End of_slice.

(** The rules of a response, group after group. *)
Definition rules_of (groups : list (option ruleGroup)) : list rule := concat (g_Rules <$> omap id groups).

Definition complete_groups (groups : list (option ruleGroup)) : Prop :=
  Forall (fun g => exists g', g = Some g' /\ Forall (fun r => has_labels (rule_GetLabels r)) (g_Rules g')) groups.

Lemma filter_groups_returns groups ms : complete_groups groups ->
  exists groups', filterPrometheusRuleGroups groups ms = Return groups' /\
    rules_of groups' = List.filter (fun r => carries ms (rule_GetLabels r)) (rules_of groups) /\
    Forall (fun g => exists g', g = Some g' /\ g_Rules g' <> []) groups'.
Proof.
  induction 1 as [|g groups (g' & -> & Hg) _ (groups' & E & Hr & Hne)]; [by exists []|].
  cbn [filterPrometheusRuleGroups]. rewrite filter_flow_returns by done. cbn. rewrite E. cbn.
  unfold rules_of in *. cbn [omap list_omap id fmap list_fmap concat]. rewrite List.filter_app, <-Hr.
  eexists. split; [done|].
  destruct (List.filter (fun r => carries ms (rule_GetLabels r)) (g_Rules g')) as [|r rs] eqn:Ef; cbn; [by split|].
  split; [done|]. constructor; [|done]. eexists. by split.
Qed.

Lemma filter_groups_complete groups ms groups' : ms <> ∅ ->
  filterPrometheusRuleGroups groups ms = Return groups' -> complete_groups groups.
Proof.
  intros Hne. revert groups'. induction groups as [|[g|] groups IH]; intros groups'; [constructor| |done]. cbn.
  rewrite flow_bind_return. intros (rs & Hrs & E). apply flow_bind_return in E as (fs & Hfs & _).
  constructor; [|by eapply IH]. exists g. split; [done|by eapply filter_flow_has].
Qed.

(** No pointer of the data that is looked at is nil. *)
Definition complete (d : rulesData) : Prop :=
  complete_groups (RuleGroups d) /\
  (RuleGroups d = [] -> Forall (fun a => has_labels (alert_GetLabels a)) (Alerts d)).
End facts.

(** Filtering a rules response.  With label filters it returns exactly when no
    group, rule or alert it looks at is nil; then every rule, or alert, that is
    kept carries all of the filters and every one that does is kept, in order;
    groups left empty are dropped, and the alerts of a response that has groups are
    dropped too.  Without filters nothing is kept in strict mode, and everything
    otherwise. *)
Theorem rules_response_filtered `{MapRange} (res : prometheusRulesResponse) (ms : StringMap) (strict : bool) :
  let d := res_Data res in
  let out := filterPrometheusResponse res ms strict in
  if decide (ms = ∅) then out = Return (if strict then set_data (mkRulesData [] []) res else res)
  else
    (complete d <-> exists res', out = Return res') /\
    forall res', out = Return res' ->
      rules_of (RuleGroups (res_Data res')) = List.filter (fun r => carries ms (rule_GetLabels r)) (rules_of (RuleGroups d)) /\
      Forall (fun g => exists g', g = Some g' /\ g_Rules g' <> []) (RuleGroups (res_Data res')) /\
      Alerts (res_Data res') = (if decide (RuleGroups d = []) then
                                  List.filter (fun a => carries ms (alert_GetLabels a)) (Alerts d) else []).
Proof.
  cbv zeta. unfold filterPrometheusResponse. destruct (decide (ms = ∅)) as [->|Hne]; [by rewrite map_size_empty|].
  assert ((size ms =? 0)%nat = false) as -> by by apply Nat.eqb_neq, map_size_non_empty_iff.
  destruct res as [st [gs als] er et]. unfold complete. cbn [res_Data RuleGroups Alerts].
  destruct gs as [|g gs].
  - cbn [length Nat.ltb Nat.leb mbind flow_bind res_Data RuleGroups Alerts]. rewrite decide_True by done.
    destruct als as [|a als].
    + cbn. split; [split; [intros _; by eexists|intros _; split; [constructor|intros _; constructor]]|].
      intros res' [= <-]. cbn. by split_and!.
    + cbn [length Nat.ltb Nat.leb set_data res_Data RuleGroups Alerts]. split.
      * split.
        -- intros [_ Ha]. unfold filterPrometheusAlerts. rewrite filter_flow_returns by by apply Ha. by eexists.
        -- intros [res' E]. apply flow_bind_return in E as (l & El & _). split; [constructor|]. intros _.
           by eapply filter_flow_has.
      * intros res' E. apply flow_bind_return in E as (l & El & [= <-]). cbn. split_and!; [done|constructor|].
        unfold filterPrometheusAlerts in El.
        rewrite filter_flow_returns in El by (by eapply filter_flow_has). by injection El as <-.
  - cbn [length Nat.ltb Nat.leb]. rewrite decide_False by done. split.
    + split.
      * intros [Hc _]. destruct (filter_groups_returns _ ms Hc) as (gs' & E & _). rewrite E. cbn. by eexists.
      * intros [res' E]. apply flow_bind_return in E as (r & E & _). apply flow_bind_return in E as (gs' & E & _).
        split; [by eapply filter_groups_complete|done].
    + intros res' E. apply flow_bind_return in E as (r & E & Er). apply flow_bind_return in E as (gs' & E & [= <-]).
      cbn in Er. injection Er as <-. cbn.
      destruct (filter_groups_returns _ ms (filter_groups_complete _ _ _ Hne E)) as (gs2 & E2 & Hr & Hn).
      rewrite E in E2. injection E2 as <-. by split_and!.
Qed.

(** The modifier.  A response of a tenant without filters, and one whose request
    carries authorization data that does not parse, goes back as it came; any
    other one is JSON and is replaced by what the filters keep of it, with its
    new length. *)
Theorem rules_response_modified `{MapRange} `{Unicode} `{RulesJson} (labelKeys : gmap string (list string))
    (res res' : RulesResponse) :
  newModifyResponseProm labelKeys res = Return (Ok res') ->
  exists tenant, GetTenant (r_ctx (rsp_Request res)) = Some tenant /\
  match labelKeys !! tenant with
  | None => res' = res
  | Some keys =>
      let data := default "" (GetData (r_ctx (rsp_Request res))) in
      (data <> "" /\ (exists e, Unmarshal data = Err e) /\ res' = res) \/
      exists info body decoded kept out,
        (if String.eqb data "" then Ok (mkAuthz [] "") else Unmarshal data) = Ok info /\
        rsp_Body res = Ok body /\ header_get (rsp_Header res) "Content-Type" = "application/json" /\
        UnmarshalResponse unmarshal_rule body = Ok decoded /\
        filterPrometheusResponse decoded (extractMatchers (URL_Query (rsp_Request res)) keys)
          (negb (length (ad_matchers info) =? 0)%nat) = Return kept /\
        MarshalResponse rule_MarshalJSON kept = Ok out /\
        rsp_Body res' = Ok out /\ rsp_ContentLength res' = Z.of_nat (String.length out)
  end.
Proof.
  unfold newModifyResponseProm. destruct (GetTenant _) as [tenant|]; [|done]. intros E. exists tenant. split; [done|].
  destruct (labelKeys !! tenant) as [keys|]; [|by injection E]. cbv zeta.
  destruct (String.eqb_spec (default "" (GetData (r_ctx (rsp_Request res)))) "") as [Hd|Hd].
  2: destruct (Unmarshal _) as [info|e] eqn:Eu; [|left; split_and!; [done|by exists e|by injection E]].
  all: right; destruct (rsp_Body res) as [body|]; [|done];
    apply fallible_bind_ok in E as (b & Eb & E); injection E as <-; unfold filterRules in Eb;
    destruct (String.eqb_spec (header_get (rsp_Header res) "Content-Type") contentTypeApplicationJSON); [|done];
    destruct (UnmarshalResponse _ _) as [decoded|] eqn:Ed; [|done];
    apply flow_bind_return in Eb as (kept & Ek & [= Eo]);
    by eexists _, body, decoded, kept, b.
Qed.
