(* ===== verification/Config.v ===== *)
(** * Configuration: the flags and the tenants file of [main.go]

    [parseFlags] after the flags are read, the tenants as the configuration file
    gives them, and what [main] derives from both: the sections of the
    authenticators, the identifiers and the rate limits of the tenants.  Flags
    that are only handed on (certificate files, timeouts, logging) have no field
    here; [Flags] has them all. *)

From stdpp Require Import base tactics option list gmap strings pretty.
From Stdlib Require Import ZArith Lia Ascii SpecFloat.
From S2P Require Import Prelude GoStrings Labels Url Strconv Json Http Tenant CookieCipher Duration RateLimit Traces Providers.

(** ** The configuration *)

Record metricsConfig := mkMetricsConfig {
  metrics_readEndpoint : option URL;
  metrics_writeEndpoint : option URL;
  metrics_rulesEndpoint : option URL;
  metrics_alertmanagerEndpoint : option URL;
  metrics_tenantHeader : string;
  metrics_tenantLabel : string;
  metrics_enabled : bool
}.

Record logsConfig := mkLogsConfig {
  logs_readEndpoint : option URL;
  logs_writeEndpoint : option URL;
  logs_tailEndpoint : option URL;
  logs_rulesEndpoint : option URL;
  logs_tenantHeader : string;
  logs_tenantLabel : string;
  logs_rulesReadOnly : bool;
  logs_rulesLabelFilters : gmap string (list string);
  logs_authExtractSelectors : list string;
  logs_enabled : bool
}.

Record tracesConfig := mkTracesConfig {
  traces_readTemplateEndpoint : string;
  traces_readEndpoint : option URL;
  traces_writeOTLPGRPCEndpoint : string;
  traces_writeOTLPHTTPEndpoint : option URL;
  traces_tempoEndpoint : option URL;
  traces_tenantHeader : string;
  traces_enabled : bool
}.

Record alertmanagerConfig := mkAlertmanagerConfig {
  alertmanager_endpoints : list URL;
  alertmanager_tenantHeader : string
}.

Definition isEnabled (c : alertmanagerConfig) : bool := (0 <? length (alertmanager_endpoints c))%nat.

Record probesConfig := mkProbesConfig {
  probes_endpoint : option URL;
  probes_tenantHeader : string;
  probes_enabled : bool
}.

Record config := mkConfiguration {
  cfg_metrics : metricsConfig;
  cfg_logs : logsConfig;
  cfg_traces : tracesConfig;
  cfg_alertmanager : alertmanagerConfig;
  cfg_probes : probesConfig;
  cfg_grpcListen : string;
  cfg_cipherSuites : list string;
  cfg_curvePreferences : list string
}.

(** ** Flags *)

(** [multiStringFlag]. *)
Definition multiStringFlag : Type := list string.
Definition multiStringFlag_Set (m : multiStringFlag) (value : string) : multiStringFlag := m ++ [value].
Definition multiStringFlag_String (m : multiStringFlag) : string := Join m ", ".

(** The values of the flags; an endpoint that is not set is the empty string. *)
Record rawFlags := mkRawFlags {
  rawTLSCipherSuites : string;
  rawTLSCurvePreferences : string;
  rawMetricsReadEndpoint : string;
  rawMetricsWriteEndpoint : string;
  rawMetricsRulesEndpoint : string;
  rawMetricsAlertmanagerEndpoint : string;
  rawLogsReadEndpoint : string;
  rawLogsRulesEndpoint : string;
  rawLogsTailEndpoint : string;
  rawLogsWriteEndpoint : string;
  rawLogsRuleLabelFilters : string;
  rawLogsAuthExtractSelectors : string;
  rawTracesReadEndpoint : string;
  rawTracesTempoEndpoint : string;
  rawTracesWriteOTLPGRPCEndpoint : string;
  rawTracesWriteOTLPHTTPEndpoint : string;
  rawProbesEndpoint : string;
  rawAlertmanagerEndpoints : multiStringFlag;
  (** Set by their flags in the configuration itself. *)
  flagTracesReadTemplateEndpoint : string;
  flagLogsRulesReadOnly : bool;
  flagGrpcListen : string;
  flagMetricsTenantHeader : string;
  flagMetricsTenantLabel : string;
  flagLogsTenantHeader : string;
  flagLogsTenantLabel : string;
  flagTracesTenantHeader : string;
  flagAlertmanagerTenantHeader : string;
  flagProbesTenantHeader : string
}.

Definition set_flag (raw : string) : bool := negb (String.eqb raw "").

(** The entries [tenant:label,label] of the rules filters; an entry without a
    colon has no second part. *)
Definition add_label_filter (filters : gmap string (list string)) (f : string) :
    flow (gmap string (list string)) :=
  match Split ":" f with
  | tenant :: labels :: _ => Return (<[tenant := Split "," labels]> filters)
  | _ => Panic "index out of range"
  end.

Definition label_filters (raw : string) : fallible (gmap string (list string)) :=
  if set_flag raw then
    match foldl (fun m f => m ← m; add_label_filter m f) (Return ∅) (Split ";" raw) with
    | Return m => Return (Ok m)
    | Panic msg => Panic msg
    end
  else Return (Ok ∅).

Section flags.
(** [url.ParseRequestURI], [net.SplitHostPort]. *)
Context `{Unicode} (ParseRequestURI : string -> result URL) (SplitHostPort : string -> result unit).

Definition quoted_invalid (flag raw : string) : string := flag +:+ " " +:+ Quote raw +:+ " is invalid".
Definition raw_invalid (flag raw : string) : string := flag +:+ " is invalid, raw " +:+ raw.

Definition endpoint (msg raw : string) : fallible (option URL) :=
  if set_flag raw then from_result (u ← wrap_err msg (ParseRequestURI raw); Ok (Some u))
  else Return (Ok None).

Definition parse_metrics (f : rawFlags) : fallible metricsConfig :=
  read ← endpoint (quoted_invalid "--metrics.read.endpoint" (rawMetricsReadEndpoint f)) (rawMetricsReadEndpoint f);
  write ← endpoint (quoted_invalid "--metrics.write.endpoint" (rawMetricsWriteEndpoint f)) (rawMetricsWriteEndpoint f);
  rules ← endpoint (quoted_invalid "--metrics.rules.endpoint" (rawMetricsRulesEndpoint f)) (rawMetricsRulesEndpoint f);
  am ← endpoint (quoted_invalid "--metrics.alertmanager.endpoint" (rawMetricsAlertmanagerEndpoint f))
         (rawMetricsAlertmanagerEndpoint f);
  mret (mkMetricsConfig read write rules am (flagMetricsTenantHeader f) (flagMetricsTenantLabel f)
    (set_flag (rawMetricsReadEndpoint f) || set_flag (rawMetricsWriteEndpoint f)
     || set_flag (rawMetricsRulesEndpoint f) || set_flag (rawMetricsAlertmanagerEndpoint f))).

(** The message about the rules endpoint prints the read endpoint. *)
Definition parse_logs (f : rawFlags) : fallible logsConfig :=
  read ← endpoint (raw_invalid "--logs.read.endpoint" (rawLogsReadEndpoint f)) (rawLogsReadEndpoint f);
  let selectors := if set_flag (rawLogsReadEndpoint f) && set_flag (rawLogsAuthExtractSelectors f)
                   then Split "," (rawLogsAuthExtractSelectors f) else [] in
  rules ← endpoint (raw_invalid "--logs.rules.endpoint" (rawLogsReadEndpoint f)) (rawLogsRulesEndpoint f);
  filters ← label_filters (rawLogsRuleLabelFilters f);
  tail ← endpoint (raw_invalid "--logs.tail.endpoint" (rawLogsTailEndpoint f)) (rawLogsTailEndpoint f);
  write ← endpoint (raw_invalid "--logs.write.endpoint" (rawLogsWriteEndpoint f)) (rawLogsWriteEndpoint f);
  mret (mkLogsConfig read write tail rules (flagLogsTenantHeader f) (flagLogsTenantLabel f)
    (flagLogsRulesReadOnly f) filters selectors
    (set_flag (rawLogsReadEndpoint f) || set_flag (rawLogsRulesEndpoint f)
     || set_flag (rawLogsTailEndpoint f) || set_flag (rawLogsWriteEndpoint f))).

Definition check_template (f : rawFlags) : fallible unit :=
  let tmpl := flagTracesReadTemplateEndpoint f in
  if set_flag tmpl then
    if set_flag (rawTracesReadEndpoint f) then
      Return (Err "only one of --traces.read.endpoint and --experimental.traces.read.endpoint-template allowed")
    else
      from_result (_ ← wrap_err (quoted_invalid "--experimental.traces.read.endpoint-template"
                                   (rawTracesReadEndpoint f))
                         (ExpandTemplatedUpstream ParseRequestURI tmpl "dummy");
                   Ok tt)
  else Return (Ok tt).

Definition check_host_port (raw : string) : fallible unit :=
  if set_flag raw then
    from_result (wrap_err (quoted_invalid "--traces.write.otlpgrpc.endpoint" raw) (SplitHostPort raw))
  else Return (Ok tt).

Definition parse_traces (f : rawFlags) : fallible tracesConfig :=
  _ ← check_template f;
  read ← endpoint (quoted_invalid "--traces.read.endpoint" (rawTracesReadEndpoint f)) (rawTracesReadEndpoint f);
  tempo ← endpoint (quoted_invalid "--traces.tempo.endpoint" (rawTracesTempoEndpoint f)) (rawTracesTempoEndpoint f);
  _ ← check_host_port (rawTracesWriteOTLPGRPCEndpoint f);
  http ← endpoint (quoted_invalid "--traces.write.otlphttp.endpoint" (rawTracesWriteOTLPHTTPEndpoint f))
           (rawTracesWriteOTLPHTTPEndpoint f);
  mret (mkTracesConfig (flagTracesReadTemplateEndpoint f) read (rawTracesWriteOTLPGRPCEndpoint f) http tempo
    (flagTracesTenantHeader f)
    (set_flag (flagTracesReadTemplateEndpoint f) || set_flag (rawTracesReadEndpoint f)
     || set_flag (rawTracesTempoEndpoint f) || set_flag (rawTracesWriteOTLPGRPCEndpoint f)
     || set_flag (rawTracesWriteOTLPHTTPEndpoint f))).

Definition parse_alertmanagers (raws : list string) : fallible (list URL) :=
  from_result (traverse (fun raw => wrap_err (raw_invalid "--alertmanager.endpoint" raw) (ParseRequestURI raw)) raws).

(** The gRPC listener and the endpoint of its writes come together. *)
Definition check_grpc (otlpgrpc listen : string) : fallible unit :=
  if set_flag otlpgrpc && negb (set_flag listen) then
    Return (Err ("--traces.write.endpoint is set to " +:+ Quote otlpgrpc +:+ " but --grpc.listen is not set"))
  else if negb (set_flag otlpgrpc) && set_flag listen then
    Return (Err ("--traces.write.endpoint is not set but --grpc.listen is set to " +:+ Quote listen))
  else Return (Ok tt).

Definition split_list (raw : string) : list string := if set_flag raw then Split "," raw else [].

Definition parseFlags (f : rawFlags) : fallible config :=
  metrics ← parse_metrics f;
  logs ← parse_logs f;
  traces ← parse_traces f;
  alertmanagers ← parse_alertmanagers (rawAlertmanagerEndpoints f);
  probes ← endpoint "failed to parse probes endpoint" (rawProbesEndpoint f);
  _ ← check_grpc (traces_writeOTLPGRPCEndpoint traces) (flagGrpcListen f);
  mret (mkConfiguration metrics logs traces
    (mkAlertmanagerConfig alertmanagers (flagAlertmanagerTenantHeader f))
    (mkProbesConfig probes (flagProbesTenantHeader f) (set_flag (rawProbesEndpoint f)))
    (flagGrpcListen f) (split_list (rawTLSCipherSuites f)) (split_list (rawTLSCurvePreferences f))).
End flags.

(** The first check of [main]. *)
Definition any_enabled (cfg : config) : bool :=
  metrics_enabled (cfg_metrics cfg) || logs_enabled (cfg_logs cfg) || traces_enabled (cfg_traces cfg)
  || probes_enabled (cfg_probes cfg) || isEnabled (cfg_alertmanager cfg).

(** ** Tenants *)

(** [duration.UnmarshalJSON]: a number of nanoseconds or the text of a duration;
    [strconv.ParseFloat] gives the value of a number. *)
Definition duration_UnmarshalJSON (ParseFloat : string -> result spec_float) (b : string) : result Z :=
  match decode b with
  | None => Err "invalid JSON"
  | Some (JNum lit) => f ← ParseFloat lit; Ok (int_of_float f)
  | Some (JStr s) =>
      match time_ParseDuration s with
      | Some d => Ok d
      | None => Err "time: invalid duration"
      end
  | Some _ => Err "invalid duration"
  end.

(** The settings of an authenticator, as objects of any kind. *)
Abbreviation settings := (gmap string json).

Record oidcSettings := mkOIDCSettings {
  ClientID : string;
  ClientSecret : string;
  GroupClaim : string;
  IssuerRawCA : option string;
  IssuerCAPath : string;
  IssuerURL : string;
  RedirectURL : string;
  UsernameClaim : string
}.

Record openshiftSettings := mkOpenShiftSettings {
  KubeConfigPath : string;
  ServiceAccount : string;
  OpenShiftRedirectURL : string;
  CookieSecret : string
}.

Record rateLimit := mkRateLimit {
  lim_Endpoint : string;
  lim_Limit : Z;
  lim_Window : Z;
  lim_FailOpen : bool;
  lim_RetryAfterMin : Z;
  lim_RetryAfterMax : Z
}.

(** A section that is present, with the settings [main] derives from it. *)
Record tenant := mkTenant {
  t_Name : string;
  t_ID : string;
  t_OIDC : option (oidcSettings * settings);
  t_OpenShift : option (openshiftSettings * settings);
  t_Authenticator : option (string * option settings);
  t_MTLS : option settings;
  t_RateLimits : list (option rateLimit)
}.

(** [json.Marshal] of a section; a slice of bytes is printed in base64. *)
Definition oidc_json (s : oidcSettings) : json :=
  JObj [("clientID", JStr (ClientID s)); ("clientSecret", JStr (ClientSecret s));
        ("groupClaim", JStr (GroupClaim s));
        ("issuerCA", match IssuerRawCA s with Some b => JStr (EncodeToString b) | None => JNull end);
        ("issuerCAPath", JStr (IssuerCAPath s)); ("issuerURL", JStr (IssuerURL s));
        ("redirectURL", JStr (RedirectURL s)); ("usernameClaim", JStr (UsernameClaim s))].

Definition openshift_json (s : openshiftSettings) : json :=
  JObj [("kubeconfig", JStr (KubeConfigPath s)); ("serviceAccount", JStr (ServiceAccount s));
        ("redirectURL", JStr (OpenShiftRedirectURL s)); ("cookieSecret", JStr (CookieSecret s))].

(** [json.Unmarshal] of the printed section. *)
Definition unmarshalLegacyAuthenticatorConfig (v : json) : result settings :=
  match decode (encode v) with
  | Some (JObj l) => Ok (foldl (fun m kv => <[kv.1 := kv.2]> m) ∅ l)
  | Some JNull => Ok ∅
  | Some _ => Err "json: cannot unmarshal"
  | None => Err "invalid JSON"
  end.

(** One turn of the loop over the tenants: [None] for a tenant that is skipped. *)
Definition prepare_tenant (t : tenant) : option tenant :=
  oidc ← (match t_OIDC t with
          | None => Some None
          | Some (s, _) => match unmarshalLegacyAuthenticatorConfig (oidc_json s) with
                           | Ok c => Some (Some (s, c)) | Err _ => None end
          end);
  openshift ← (match t_OpenShift t with
               | None => Some None
               | Some (s, _) => match unmarshalLegacyAuthenticatorConfig (openshift_json s) with
                                | Ok c => Some (Some (s, c)) | Err _ => None end
               end);
  match t_Authenticator t with
  | Some (_, None) => None
  | _ => Some (mkTenant (t_Name t) (t_ID t) oidc openshift (t_Authenticator t)
                 ((fun _ => ∅) <$> t_MTLS t) (t_RateLimits t))
  end.

(** An empty entry of the list is a nil pointer, which the loop dereferences. *)
Fixpoint prepare_tenants (ts : list (option tenant)) : flow (list (option tenant)) :=
  match ts with
  | [] => Return []
  | None :: _ => Panic nil_deref
  | Some t :: ts => r ← prepare_tenants ts; Return (prepare_tenant t :: r)
  end.

Definition tenantIDs (ts : list (option tenant)) : gmap string string :=
  foldl (fun m t => match t with Some t => <[t_Name t := t_ID t]> m | None => m end) ∅ ts.

Definition OIDCAuthenticatorType : string := "oidc".
Definition OpenShiftAuthenticatorType : string := "openshift".
Definition MTLSAuthenticatorType : string := "mtls".

Section tenants.
Context `{Unicode}.

Definition tenantAuthenticatorConfig (t : tenant) : result (option settings * string) :=
  match t_OIDC t, t_OpenShift t, t_MTLS t, t_Authenticator t with
  | Some (_, c), _, _, _ => Ok (Some c, OIDCAuthenticatorType)
  | None, Some (_, c), _, _ => Ok (Some c, OpenShiftAuthenticatorType)
  | None, None, Some c, _ => Ok (Some c, MTLSAuthenticatorType)
  | None, None, None, Some (ty, c) => Ok (c, ty)
  | None, None, None, None => Err ("tenant " +:+ Quote (t_Name t) +:+
      " must specify either an OIDC, mTLS, openshift or a supported authenticator configuration")
  end.

(** [regexp.Compile]; the error is logged, the nil expression kept. *)
Context (Compile : string -> option Regexp).

Fixpoint tenant_limits (name : string) (ls : list (option rateLimit)) : flow (list Config) :=
  match ls with
  | [] => Return []
  | None :: _ => Panic nil_deref
  | Some l :: ls =>
      r ← tenant_limits name ls;
      Return (mkConfig name (Compile (lim_Endpoint l)) (lim_Limit l) (lim_Window l) (lim_FailOpen l)
                (lim_RetryAfterMin l) (lim_RetryAfterMax l) :: r)
  end.

(** The loop that collects the rate limits and starts the providers; a tenant
    without authenticator ends the program. *)
Fixpoint add_tenants (ts : list (option tenant)) :
    fallible (list Config * list (tenant_job (Config:=option settings))) :=
  match ts with
  | [] => Return (Ok ([], []))
  | None :: ts => add_tenants ts
  | Some t :: ts =>
      match tenant_limits (t_Name t) (t_RateLimits t) with
      | Panic msg => Panic msg
      | Return limits =>
          '(c, ty) ← from_result (tenantAuthenticatorConfig t);
          '(limits', jobs) ← add_tenants ts;
          Return (Ok (limits ++ limits', mkJob c (t_Name t) ty :: jobs))
      end
  end.
End tenants.

(** [os.ReadFile] of the accessor token gives what it holds. *)
Definition alertmanager_token (cfg : config) (file : option (result string)) : result string :=
  match file with
  | Some read =>
      if isEnabled (cfg_alertmanager cfg) then
        token ← wrap_err "failed to read Alertmanager accessor token file" read;
        if String.eqb (TrimSpace token) "" then Err "Alertmanager accessor token file is empty"
        else Ok (TrimSpace token)
      else Ok ""
  | None => Ok ""
  end.

(** ** Properties *)

Section parsed.
Context `{Unicode} (ParseRequestURI : string -> result URL) (SplitHostPort : string -> result unit).

Definition present (u : option URL) : bool := bool_decide (is_Some u).

Lemma endpoint_present msg raw u :
  endpoint ParseRequestURI msg raw = Return (Ok u) -> present u = set_flag raw.
Proof.
  unfold endpoint, from_result, present. destruct (set_flag raw); [|by intros [= <-]].
  destruct (wrap_err _ _) as [v|]; cbn; [|done]. by intros [= <-].
Qed.

Lemma set_flag_true raw : set_flag raw = true <-> raw <> "".
Proof. unfold set_flag. destruct (String.eqb_spec raw ""); naive_solver. Qed.

(** What the rest of the program relies on of its flags. *)
Record flags_ok (cfg : config) : Prop := {
  metrics_ok : metrics_enabled (cfg_metrics cfg) =
    present (metrics_readEndpoint (cfg_metrics cfg)) || present (metrics_writeEndpoint (cfg_metrics cfg))
    || present (metrics_rulesEndpoint (cfg_metrics cfg)) || present (metrics_alertmanagerEndpoint (cfg_metrics cfg));
  logs_ok : logs_enabled (cfg_logs cfg) =
    present (logs_readEndpoint (cfg_logs cfg)) || present (logs_rulesEndpoint (cfg_logs cfg))
    || present (logs_tailEndpoint (cfg_logs cfg)) || present (logs_writeEndpoint (cfg_logs cfg));
  traces_ok : traces_enabled (cfg_traces cfg) =
    set_flag (traces_readTemplateEndpoint (cfg_traces cfg)) || present (traces_readEndpoint (cfg_traces cfg))
    || present (traces_tempoEndpoint (cfg_traces cfg)) || set_flag (traces_writeOTLPGRPCEndpoint (cfg_traces cfg))
    || present (traces_writeOTLPHTTPEndpoint (cfg_traces cfg));
  probes_ok : probes_enabled (cfg_probes cfg) = present (probes_endpoint (cfg_probes cfg));
  one_jaeger : traces_readTemplateEndpoint (cfg_traces cfg) = "" \/ traces_readEndpoint (cfg_traces cfg) = None;
  template_expands : traces_readTemplateEndpoint (cfg_traces cfg) <> "" ->
    exists u, ExpandTemplatedUpstream ParseRequestURI (traces_readTemplateEndpoint (cfg_traces cfg)) "dummy" = Ok u;
  grpc_ok : traces_writeOTLPGRPCEndpoint (cfg_traces cfg) <> "" <-> cfg_grpcListen cfg <> ""
}.

Lemma check_template_ok f : check_template ParseRequestURI f = Return (Ok tt) ->
  (flagTracesReadTemplateEndpoint f = "" \/ set_flag (rawTracesReadEndpoint f) = false) /\
  (flagTracesReadTemplateEndpoint f <> "" -> exists u,
     ExpandTemplatedUpstream ParseRequestURI (flagTracesReadTemplateEndpoint f) "dummy" = Ok u).
Proof.
  unfold check_template. destruct (set_flag (flagTracesReadTemplateEndpoint f)) eqn:Et.
  - destruct (set_flag (rawTracesReadEndpoint f)); [done|]. unfold from_result. intros [= E].
    split; [by right|]. intros _. apply bind_ok in E as (u & E%wrap_err_ok & _). eauto.
  - intros _. assert (flagTracesReadTemplateEndpoint f = "") as ->; [|by split; [left|]].
    unfold set_flag in Et. by destruct (String.eqb_spec (flagTracesReadTemplateEndpoint f) "").
Qed.

Lemma check_grpc_ok a b : check_grpc a b = Return (Ok tt) -> a <> "" <-> b <> "".
Proof.
  unfold check_grpc. rewrite <-!set_flag_true. by destruct (set_flag a), (set_flag b).
Qed.

(** What each part of the flags gives. *)
Ltac fallible_inv :=
  repeat match goal with
  | E : _ ≫= _ = Return (Ok _) |- _ => apply fallible_bind_ok in E as (? & ? & E)
  | E : mret _ = Return (Ok _) |- _ => unfold mret, fallible_ret in E; injection E as <-
  | E : endpoint _ _ _ = Return (Ok _) |- _ => apply endpoint_present in E
  | x : unit |- _ => destruct x
  end.

(** C26: Flags that are accepted.  An API is enabled exactly when an
    endpoint of it is set, so that the handlers of an enabled API find one; the
    two ways to reach Jaeger exclude each other, and a template gives a URL; gRPC
    is served exactly when there is an endpoint to send to. *)
Theorem parsed_flags (f : rawFlags) (cfg : config) :
  parseFlags ParseRequestURI SplitHostPort f = Return (Ok cfg) -> flags_ok cfg.
Proof.
  unfold parseFlags, parse_metrics, parse_logs, parse_traces. intros E. fallible_inv.
  repeat match goal with E : check_template _ _ = _ |- _ => apply check_template_ok in E as [] end.
  repeat match goal with E : check_grpc _ _ = _ |- _ => apply check_grpc_ok in E end.
  split; cbn; try congruence; try done.
  - match goal with Hor : _ \/ _ |- _ => destruct Hor as [?|Hn]; [by left|right] end.
    match goal with E : present ?u = set_flag (rawTracesReadEndpoint f) |- ?u = None =>
      rewrite Hn in E; unfold present in E; by destruct u end.
Qed.
End parsed.
