(* ===== verification/Flags.v ===== *)
(** * The command line: the declarations of [parseFlags] in [main.go]

    The flags the gateway declares, with their defaults, and how package [flag]
    reads them from the arguments of the process.  [raw_flags] hands the result to
    [Config.parseFlags], so that [configure] goes from the command line to the
    configuration.  The model follows package [flag] of the standard library with
    the integers and the booleans of [strconv]; only [ParseFloat] is a parameter.

    Then the TLS configuration and the timeouts of the servers of [main.go], the
    logger, and the server side of the TLS handshake, with what a client
    certificate is worth under each policy. *)

From stdpp Require Import base tactics option list gmap strings pretty.
From Stdlib Require Import ZArith NArith Lia Ascii SpecFloat.
From S2P Require Import Prelude GoStrings Labels Url Strconv Json Http Tenant CookieCipher Duration RateLimit Traces Providers Config Tls.

Open Scope Z_scope.

(** ** Integers and booleans of [strconv] *)

Inductive num_error := ErrSyntax | ErrRange.

(** [lower]: sets bit 5. *)
Definition lower_byte (c : ascii) : N := N.lor (N_of_ascii c) 32.

(** The value of a digit of any base up to 36. *)
Definition digit_of (c : ascii) : option N :=
  let n := N_of_ascii c in
  if ((48 <=? n) && (n <=? 57))%N then Some (n - 48)%N
  else if ((97 <=? lower_byte c) && (lower_byte c <=? 122))%N then Some (lower_byte c - 97 + 10)%N
  else None.

(** The loop of [ParseUint] with base 0 and 64 bits: underscores are skipped. *)
Fixpoint uint_loop (base n : N) (s : string) : N + num_error :=
  match s with
  | "" => inl n
  | String c s =>
      if Ascii.eqb c "_" then uint_loop base n s
      else match digit_of c with
           | None => inr ErrSyntax
           | Some d =>
               if (base <=? d)%N then inr ErrSyntax
               else if (2 ^ 64 <=? n * base + d)%N then inr ErrRange
               else uint_loop base (n * base + d) s
           end
  end.

(** What the previous byte was: the start, a digit, an underscore, or another. *)
Inductive saw := SawStart | SawDigit | SawUnderscore | SawOther.

Fixpoint underscore_loop (hex : bool) (i : saw) (s : string) : bool :=
  match s with
  | "" => match i with SawUnderscore => false | _ => true end
  | String c s =>
      if is_digit c || hex && ((97 <=? lower_byte c) && (lower_byte c <=? 102))%N
      then underscore_loop hex SawDigit s
      else if Ascii.eqb c "_" then
        match i with SawDigit => underscore_loop hex SawUnderscore s | _ => false end
      else match i with SawUnderscore => false | _ => underscore_loop hex SawOther s end
  end.

(** [underscoreOK], after the sign. *)
Definition underscoreOK (s : string) : bool :=
  match s with
  | String "0" (String c s') =>
      let x := lower_byte c in
      if ((x =? 98) || (x =? 111) || (x =? 120))%N then underscore_loop (x =? 120)%N SawDigit s'
      else underscore_loop false SawStart s
  | _ => underscore_loop false SawStart s
  end.

(** The prefixes [0b], [0o], [0x] need a byte after them; a leading [0] is octal. *)
Definition uint_base (s : string) : N * string :=
  match s with
  | String "0" s' =>
      match s' with
      | String c (String _ _ as s'') =>
          let x := lower_byte c in
          if (x =? 98)%N then (2%N, s'') else if (x =? 111)%N then (8%N, s'')
          else if (x =? 120)%N then (16%N, s'') else (8%N, s')
      | _ => (8%N, s')
      end
  | _ => (10%N, s)
  end.

Definition ParseUint (s : string) : N + num_error :=
  if String.eqb s "" then inr ErrSyntax
  else
    let '(base, digits) := uint_base s in
    match uint_loop base 0 digits with
    | inl n => if str_existsb (Ascii.eqb "_") digits && negb (underscoreOK s) then inr ErrSyntax else inl n
    | inr e => inr e
    end.

(** [ParseInt] with base 0 and 64 bits. *)
Definition ParseInt (s : string) : Z + num_error :=
  let '(neg, digits) := match s with
                        | String "+" s' => (false, s')
                        | String "-" s' => (true, s')
                        | _ => (false, s)
                        end in
  match ParseUint digits with
  | inr e => inr e
  | inl un =>
      if neg then if (2 ^ 63 <? un)%N then inr ErrRange else inl (- Z.of_N un)
      else if (2 ^ 63 <=? un)%N then inr ErrRange else inl (Z.of_N un)
  end.

Definition ParseBool (s : string) : option bool :=
  if bool_decide (s ∈ ["1"; "t"; "T"; "TRUE"; "true"; "True"]) then Some true
  else if bool_decide (s ∈ ["0"; "f"; "F"; "FALSE"; "false"; "False"]) then Some false
  else None.

Example ParseInt_examples :
  ParseInt "0x1F" = inl 31 /\ ParseInt "-0b101" = inl (-5) /\ ParseInt "017" = inl 15 /\ ParseInt "1_000" = inl 1000 /\
  ParseInt "0x_1" = inl 1 /\ ParseInt "1__0" = inr ErrSyntax /\ ParseInt "_1" = inr ErrSyntax /\
  ParseInt "-9223372036854775808" = inl (- 2 ^ 63) /\ ParseInt "9223372036854775808" = inr ErrRange /\
  ParseInt "99999999999999999999x" = inr ErrRange /\ ParseInt "9x" = inr ErrSyntax /\ ParseInt "0x" = inr ErrSyntax.
Proof. vm_compute. split_and!; reflexivity. Qed.

(** ** Package [flag] *)

Inductive value :=
  | VString (s : string)
  | VInt (n : Z)
  | VBool (b : bool)
  | VFloat (f : spec_float)
  | VDuration (d : Z)
  | VMulti (m : multiStringFlag).

Definition num_error_text (e : num_error) : string :=
  match e with ErrSyntax => "parse error" | ErrRange => "value out of range" end.

(** The variables of the flags, by the flag's name. *)
Abbreviation flagset := (gmap string value).

Section flag.
Context `{Unicode} (ParseFloat : string -> spec_float + num_error).

(** [Value.Set]. *)
Definition value_Set (v : value) (s : string) : result value :=
  match v with
  | VString _ => Ok (VString s)
  | VInt _ => match ParseInt s with inl n => Ok (VInt n) | inr e => Err (num_error_text e) end
  | VBool _ => match ParseBool s with Some b => Ok (VBool b) | None => Err "parse error" end
  | VFloat _ => match ParseFloat s with inl f => Ok (VFloat f) | inr e => Err (num_error_text e) end
  | VDuration _ => match time_ParseDuration s with Some d => Ok (VDuration d) | None => Err "parse error" end
  | VMulti m => Ok (VMulti (multiStringFlag_Set m s))
  end.

Definition IsBoolFlag (v : value) : bool := match v with VBool _ => true | _ => false end.

(** [FlagSet.Var]: declaring a name twice panics, as does a name that starts with
    a dash or holds an equals sign. *)
Definition declare (fs : flow flagset) (d : string * value) : flow flagset :=
  f ← fs;
  if HasPrefix d.1 "-" then Panic ("flag " +:+ Quote d.1 +:+ " begins with -")
  else if str_existsb (Ascii.eqb "=") d.1 then Panic ("flag " +:+ Quote d.1 +:+ " contains =")
  else match f !! d.1 with
       | Some _ => Panic ("flag redefined: " +:+ d.1)
       | None => Return (<[d.1 := d.2]> f)
       end.

Definition declare_all (ds : list (string * value)) : flow flagset := foldl declare (Return ∅) ds.

(** How the first argument reads: not a flag, the end of the flags, a malformed
    flag, or a name with the value after its equals sign if it has one. *)
Inductive word := NotFlag | Terminator | BadSyntax | Named (name : string) (value : option string).

(** The name up to the first equals sign that is not its first byte. *)
Fixpoint split_value (s : string) : string * option string :=
  match s with
  | "" => ("", None)
  | String c s' =>
      if Ascii.eqb c "=" then ("", Some s')
      else let '(n, v) := split_value s' in (String c n, v)
  end.

Definition flag_name (name : string) : word :=
  match name with
  | "" => BadSyntax
  | String c s =>
      if Ascii.eqb c "-" || Ascii.eqb c "=" then BadSyntax
      else let '(n, v) := split_value s in Named (String c n) v
  end.

Definition flag_word (s : string) : word :=
  match s with
  | String "-" (String c s' as rest) =>
      if Ascii.eqb c "-" then match s' with "" => Terminator | _ => flag_name s' end
      else flag_name rest
  | _ => NotFlag
  end.

(** The outcome of [flag.Parse] with [ExitOnError]: the variables and the
    arguments left over, or the process exits with a status and a message. *)
Inductive outcome := Parsed (fs : flagset) (rest : list string) | Exit (code : Z) (msg : string).

Definition unknown_flag (name : string) : outcome :=
  if bool_decide (name ∈ ["help"; "h"]) then Exit 0 "flag: help requested"
  else Exit 2 ("flag provided but not defined: -" +:+ name).

Definition invalid_value (text name e : string) : string :=
  "invalid value " +:+ Quote text +:+ " for flag -" +:+ name +:+ ": " +:+ e.
Definition invalid_boolean (text name e : string) : string :=
  "invalid boolean value " +:+ Quote text +:+ " for -" +:+ name +:+ ": " +:+ e.

(** [FlagSet.Parse] with [parseOne]. *)
Fixpoint flag_Parse (fs : flagset) (args : list string) : outcome :=
  match args with
  | [] => Parsed fs []
  | s :: rest =>
      match flag_word s with
      | NotFlag => Parsed fs args
      | Terminator => Parsed fs rest
      | BadSyntax => Exit 2 ("bad flag syntax: " +:+ s)
      | Named name v =>
          match fs !! name with
          | None => unknown_flag name
          | Some old =>
              if IsBoolFlag old then
                match value_Set old (default "true" v) with
                | Ok new => flag_Parse (<[name := new]> fs) rest
                | Err e => Exit 2 (invalid_boolean (default "true" v) name e)
                end
              else match v with
                   | Some text =>
                       match value_Set old text with
                       | Ok new => flag_Parse (<[name := new]> fs) rest
                       | Err e => Exit 2 (invalid_value text name e)
                       end
                   | None =>
                       match rest with
                       | [] => Exit 2 ("flag needs an argument: -" +:+ name)
                       | text :: rest =>
                           match value_Set old text with
                           | Ok new => flag_Parse (<[name := new]> fs) rest
                           | Err e => Exit 2 (invalid_value text name e)
                           end
                       end
                   end
          end
      end
  end.
End flag.

(** ** The declared flags *)

Definition Millisecond : Z := 1000000.
Definition Second : Z := 1000 * Millisecond.
Definition Minute : Z := 60 * Second.

Definition readHeaderTimeout : Z := 1 * Second.
Definition readTimeout : Z := 5 * Second.
Definition writeTimeout : Z := 12 * Minute.
Definition logsMiddlewareTimeout : Z := 10 * Minute.
Definition metricsMiddlewareTimeout : Z := 2 * Minute.
Definition tracesMiddlewareTimeout : Z := 2 * Minute.

Definition StringVar (name default : string) : string * value := (name, VString default).
Definition IntVar (name : string) (default : Z) : string * value := (name, VInt default).
Definition BoolVar (name : string) (default : bool) : string * value := (name, VBool default).
Definition Float64Var (name : string) (default : spec_float) : string * value := (name, VFloat default).
Definition DurationVar (name : string) (default : Z) : string * value := (name, VDuration default).
(** [flag.Var] of a [multiStringFlag], which starts empty. *)
Definition Var (name : string) : string * value := (name, VMulti []).

Definition one_tenth : spec_float := f64_div (f64_of_Z 1) (f64_of_Z 10).

(** The tenants, logging, profiling, tracing and the listeners. *)
Definition general_flags : list (string * value) := [
  StringVar "tenants.config" "tenants.yaml";
  StringVar "debug.name" "mcoa_gateway";
  IntVar "debug.mutex-profile-fraction" 10;
  IntVar "debug.block-profile-rate" 10;
  StringVar "log.level" "info";
  StringVar "log.format" "logfmt";
  StringVar "internal.tracing.service-name" "mcoa_gateway";
  StringVar "internal.tracing.otlp-http-endpoint" "";
  Float64Var "internal.tracing.sampling-fraction" one_tenth;
  StringVar "web.listen" ":8080";
  StringVar "grpc.listen" "";
  StringVar "web.internal.listen" ":8081";
  StringVar "web.healthchecks.url" "http://localhost:8080";
  DurationVar "server.read-header-timeout" readHeaderTimeout;
  DurationVar "server.read-timeout" readTimeout;
  DurationVar "server.write-timeout" writeTimeout].

(** The logs API. *)
Definition logs_flags : list (string * value) := [
  StringVar "logs.tail.endpoint" "";
  StringVar "logs.read.endpoint" "";
  StringVar "logs.rules.endpoint" "";
  BoolVar "logs.rules.read-only" false;
  StringVar "logs.rules.label-filters" "";
  DurationVar "logs.write-timeout" logsMiddlewareTimeout;
  StringVar "logs.tls.ca-file" "";
  StringVar "logs.tls.cert-file" "";
  StringVar "logs.tls.key-file" "";
  BoolVar "logs.tls.watch-certs" false;
  StringVar "logs.tenant-header" "X-Scope-OrgID";
  StringVar "logs.rules.tenant-label" "tenant_id";
  StringVar "logs.write.endpoint" "";
  StringVar "logs.auth.extract-selectors" ""].

(** The metrics API. *)
Definition metrics_flags : list (string * value) := [
  StringVar "metrics.read.endpoint" "";
  StringVar "metrics.write.endpoint" "";
  StringVar "metrics.rules.endpoint" "";
  StringVar "metrics.alertmanager.endpoint" "";
  DurationVar "metrics.write-timeout" metricsMiddlewareTimeout;
  StringVar "metrics.tls.ca-file" "";
  StringVar "metrics.tls.cert-file" "";
  StringVar "metrics.tls.key-file" "";
  BoolVar "metrics.tls.watch-certs" false;
  StringVar "metrics.tenant-header" "THANOS-TENANT";
  StringVar "metrics.tenant-label" "tenant_id"].

(** The traces API; the endpoints of the Alertmanagers are among them. *)
Definition traces_flags : list (string * value) := [
  StringVar "traces.read.endpoint" "";
  StringVar "traces.tempo.endpoint" "";
  StringVar "experimental.traces.read.endpoint-template" "";
  StringVar "traces.write.otlpgrpc.endpoint" "";
  StringVar "traces.write.otlphttp.endpoint" "";
  Var "alertmanager.endpoint";
  DurationVar "traces.write-timeout" tracesMiddlewareTimeout;
  StringVar "traces.tls.ca-file" "";
  StringVar "traces.tls.cert-file" "";
  StringVar "traces.tls.key-file" "";
  BoolVar "traces.tls.watch-certs" false;
  StringVar "traces.tenant-header" "X-Tenant";
  BoolVar "traces.query-rbac" false].

(** The probes API. *)
Definition probes_flags : list (string * value) := [
  StringVar "probes.endpoint" "";
  DurationVar "probes.write-timeout" writeTimeout;
  StringVar "probes.tls.ca-file" "";
  StringVar "probes.tls.cert-file" "";
  StringVar "probes.tls.key-file" "";
  BoolVar "probes.tls.watch-certs" false;
  StringVar "probes.tenant-header" "X-Tenant";
  DurationVar "probes.dial-timeout" (30 * Second);
  DurationVar "probes.keep-alive-timeout" (30 * Second);
  DurationVar "probes.tls-handshake-timeout" (10 * Second)].

(** TLS of the two servers and of the health checks. *)
Definition tls_flags : list (string * value) := [
  StringVar "tls.server.cert-file" "";
  StringVar "tls.server.key-file" "";
  StringVar "tls.internal.server.cert-file" "";
  StringVar "tls.internal.server.key-file" "";
  StringVar "tls.healthchecks.server-ca-file" "";
  StringVar "tls.healthchecks.server-name" "";
  StringVar "tls.healthchecks.client-cert-file" "";
  StringVar "tls.healthchecks.client-key-file" "";
  StringVar "tls.min-version" "VersionTLS13";
  StringVar "tls.max-version" "VersionTLS13";
  StringVar "tls.cipher-suites" "";
  StringVar "tls.curve-preferences" "";
  StringVar "tls.client-auth-type" "RequestClientCert";
  StringVar "tls.client-ca-file" "";
  DurationVar "tls.reload-interval" Minute].

(** The rate limiter and the limit on concurrent requests. *)
Definition middleware_flags : list (string * value) := [
  StringVar "middleware.rate-limiter.grpc-address" "";
  StringVar "middleware.rate-limiter.type" "local";
  Var "middleware.rate-limiter.address";
  IntVar "middleware.concurrent-request-limit" 10000;
  IntVar "middleware.backlog-limit-concurrent-requests" 0;
  DurationVar "middleware.backlog-duration-concurrent-requests" (1 * Millisecond)].

(** The Alertmanager replicas. *)
Definition alertmanager_flags : list (string * value) := [
  StringVar "alertmanager.upstream-ca-file" "";
  StringVar "alertmanager.upstream-server-name" "";
  StringVar "alertmanager.tenant-header" "X-Scope-OrgID";
  StringVar "alertmanager.accessor-token-file" "";
  DurationVar "alertmanager.upstream-timeout" metricsMiddlewareTimeout].

Definition gateway_flags : list (string * value) :=
  general_flags ++ logs_flags ++ metrics_flags ++ traces_flags ++ probes_flags ++ tls_flags
  ++ middleware_flags ++ alertmanager_flags.

(** ** From the flags to the configuration *)

(** The variable behind a flag, read at its type. *)
Definition string_of (fs : flagset) (name : string) : string :=
  match fs !! name with Some (VString s) => s | _ => "" end.
Definition bool_of (fs : flagset) (name : string) : bool :=
  match fs !! name with Some (VBool b) => b | _ => false end.
Definition duration_of (fs : flagset) (name : string) : Z :=
  match fs !! name with Some (VDuration d) => d | _ => 0 end.
Definition multi_of (fs : flagset) (name : string) : multiStringFlag :=
  match fs !! name with Some (VMulti m) => m | _ => [] end.

Definition raw_flags (fs : flagset) : rawFlags := {|
  rawTLSCipherSuites := string_of fs "tls.cipher-suites";
  rawTLSCurvePreferences := string_of fs "tls.curve-preferences";
  rawMetricsReadEndpoint := string_of fs "metrics.read.endpoint";
  rawMetricsWriteEndpoint := string_of fs "metrics.write.endpoint";
  rawMetricsRulesEndpoint := string_of fs "metrics.rules.endpoint";
  rawMetricsAlertmanagerEndpoint := string_of fs "metrics.alertmanager.endpoint";
  rawLogsReadEndpoint := string_of fs "logs.read.endpoint";
  rawLogsRulesEndpoint := string_of fs "logs.rules.endpoint";
  rawLogsTailEndpoint := string_of fs "logs.tail.endpoint";
  rawLogsWriteEndpoint := string_of fs "logs.write.endpoint";
  rawLogsRuleLabelFilters := string_of fs "logs.rules.label-filters";
  rawLogsAuthExtractSelectors := string_of fs "logs.auth.extract-selectors";
  rawTracesReadEndpoint := string_of fs "traces.read.endpoint";
  rawTracesTempoEndpoint := string_of fs "traces.tempo.endpoint";
  rawTracesWriteOTLPGRPCEndpoint := string_of fs "traces.write.otlpgrpc.endpoint";
  rawTracesWriteOTLPHTTPEndpoint := string_of fs "traces.write.otlphttp.endpoint";
  rawProbesEndpoint := string_of fs "probes.endpoint";
  rawAlertmanagerEndpoints := multi_of fs "alertmanager.endpoint";
  flagTracesReadTemplateEndpoint := string_of fs "experimental.traces.read.endpoint-template";
  flagLogsRulesReadOnly := bool_of fs "logs.rules.read-only";
  flagGrpcListen := string_of fs "grpc.listen";
  flagMetricsTenantHeader := string_of fs "metrics.tenant-header";
  flagMetricsTenantLabel := string_of fs "metrics.tenant-label";
  flagLogsTenantHeader := string_of fs "logs.tenant-header";
  flagLogsTenantLabel := string_of fs "logs.rules.tenant-label";
  flagTracesTenantHeader := string_of fs "traces.tenant-header";
  flagAlertmanagerTenantHeader := string_of fs "alertmanager.tenant-header";
  flagProbesTenantHeader := string_of fs "probes.tenant-header" |}.

(** The start of [main]: the process exits, or goes on with a configuration. *)
Inductive command := Exits (code : Z) (msg : string) | Starts (fs : flagset) (cfg : config).

Section configure.
Context `{Unicode} (ParseFloat : string -> spec_float + num_error)
  (ParseRequestURI : string -> result URL) (SplitHostPort : string -> result unit).

Definition configure (args : list string) : flow command :=
  fs ← declare_all gateway_flags;
  match flag_Parse ParseFloat fs args with
  | Exit code msg => Return (Exits code msg)
  | Parsed fs _ =>
      match parseFlags ParseRequestURI SplitHostPort (raw_flags fs) with
      | Panic msg => Panic msg
      | Return (Err e) => Return (Exits 1 ("parse flag: " +:+ e))
      | Return (Ok cfg) =>
          if any_enabled cfg then Return (Starts fs cfg)
          else Return (Exits 1 ("Neither logging, metrics, traces, probes, nor alertmanager endpoints are enabled. "
                                +:+ "Specifying at least one endpoint is mandatory"))
      end
  end.
End configure.

(** ** The servers of [main] *)

(** [logger.NewLogger]: the level it filters at, the format, the name it adds. *)
Inductive log_level := AllowError | AllowWarn | AllowInfo | AllowDebug.
Record Logger := mkLogger { log_allowed : log_level; log_json : bool; log_name : option string }.

Definition NewLogger (logLevel logFormat debugName : string) : flow Logger :=
  lvl ← (if String.eqb logLevel "error" then Return AllowError
         else if String.eqb logLevel "warn" then Return AllowWarn
         else if String.eqb logLevel "info" then Return AllowInfo
         else if String.eqb logLevel "debug" then Return AllowDebug
         else Panic "unexpected log level");
  Return (mkLogger lvl (String.eqb logFormat "json")
            (if String.eqb debugName "" then None else Some debugName)).

(** The logger of [main]. *)
Definition main_logger (fs : flagset) : flow Logger :=
  NewLogger (string_of fs "log.level") (string_of fs "log.format") (string_of fs "debug.name").

(** A nil slice when the flag was not set. *)
Definition nilable (l : list string) : option (list string) := match l with [] => None | _ => Some l end.

Section servers.
Context `{TlsEnv}.

(** The arguments the three servers share. *)
Definition tls_of (certFile keyFile : string) (fs : flagset) (cfg : config) : result (option ServerConfig) :=
  NewServerConfig certFile keyFile (string_of fs "tls.client-ca-file") (string_of fs "tls.min-version")
    (string_of fs "tls.max-version") (string_of fs "tls.client-auth-type")
    (nilable (cfg_cipherSuites cfg)) (nilable (cfg_curvePreferences cfg)).

(** An [http.Server] with the certificate reloader of its TLS configuration. *)
Record HttpServer := mkHttpServer {
  Addr : string;
  TLSConfig : option ServerConfig;
  GetCertificate : option CertReloader;
  ReadHeaderTimeout : Z;
  ReadTimeout : Z;
  WriteTimeout : Z
}.

Definition http_server (addr certFile keyFile : string) (fs : flagset) (cfg : config) : result HttpServer :=
  tlsConfig ← wrap_err "failed to initialize tls config" (tls_of certFile keyFile fs cfg);
  reloader ← match tlsConfig with
             | Some _ => Some <$> wrap_err "failed to initialize certificate reloader" (NewCertReloader certFile keyFile)
             | None => Ok None
             end;
  Ok (mkHttpServer addr tlsConfig reloader (duration_of fs "server.read-header-timeout")
        (duration_of fs "server.read-timeout") (duration_of fs "server.write-timeout")).

Definition public_server (fs : flagset) (cfg : config) : result HttpServer :=
  http_server (string_of fs "web.listen") (string_of fs "tls.server.cert-file")
    (string_of fs "tls.server.key-file") fs cfg.

Definition internal_server (fs : flagset) (cfg : config) : result HttpServer :=
  http_server (string_of fs "web.internal.listen") (string_of fs "tls.internal.server.cert-file")
    (string_of fs "tls.internal.server.key-file") fs cfg.

(** The credentials of [newGRPCServer]: none without a certificate file, and
    without a reloader. *)
Definition grpc_credentials (fs : flagset) (cfg : config) : result (option ServerConfig) :=
  if negb (String.eqb (string_of fs "tls.server.cert-file") "") then
    wrap_err "failed to create gRPC TLS config"
      (tls_of (string_of fs "tls.server.cert-file") (string_of fs "tls.server.key-file") fs cfg)
  else Ok None.
End servers.

(** *** The shared rate limiter and the health check *)

(** The service [main] connects to; without one the limits are local. *)
Inductive limiter := GrpcLimiter (address : string) | RedisLimiter (addresses : list string) | LocalLimiter.

Definition shared_limiter (fs : flagset) : limiter :=
  if negb (String.eqb (string_of fs "middleware.rate-limiter.grpc-address") "") then
    GrpcLimiter (string_of fs "middleware.rate-limiter.grpc-address")
  else if String.eqb (string_of fs "middleware.rate-limiter.type") "redis" then
    RedisLimiter (multi_of fs "middleware.rate-limiter.address")
  else LocalLimiter.

Section health.
Context `{TlsEnv}.

(** The TLS configuration of the liveness check of the public server.  The file of
    the roots may hold no certificate; without a file the roots are the system's. *)
Record HealthClient := mkHealthClient {
  hc_url : string;
  hc_ServerName : string;
  hc_RootCAs : option CertPool;
  hc_Certificates : list KeyPair
}.

Definition health_roots (caFile : string) : result (option CertPool) :=
  if String.eqb caFile "" then Ok None
  else
    caCert ← wrap_err "failed to initialize healthcheck server TLS CA" (ReadFile caFile);
    Ok (Some (AppendCertsFromPEM ∅ caCert).1).

Definition health_certificates (certFile keyFile : string) : result (list KeyPair) :=
  if negb (String.eqb certFile "") && negb (String.eqb keyFile "") then
    clientCert ← wrap_err "failed to load healthcheck client certificate" (LoadX509KeyPair certFile keyFile);
    Ok [clientCert]
  else if negb (String.eqb certFile "") || negb (String.eqb keyFile "") then
    Err "both --tls.healthchecks.client-cert-file and --tls.healthchecks.client-key-file must be set together"
  else Ok [].

Definition health_client (fs : flagset) : result (option HealthClient) :=
  if String.eqb (string_of fs "web.healthchecks.url") "" then Ok None
  else
    roots ← health_roots (string_of fs "tls.healthchecks.server-ca-file");
    certs ← health_certificates (string_of fs "tls.healthchecks.client-cert-file")
              (string_of fs "tls.healthchecks.client-key-file");
    Ok (Some (mkHealthClient (string_of fs "web.healthchecks.url") (string_of fs "tls.healthchecks.server-name")
                roots certs)).

Lemma health_certificates_ok certFile keyFile certs : health_certificates certFile keyFile = Ok certs ->
  (certs = [] <-> certFile = "" /\ keyFile = "").
Proof.
  unfold health_certificates.
  destruct (String.eqb_spec certFile ""), (String.eqb_spec keyFile ""); cbn; [|done..|].
  - intros [= <-]. naive_solver.
  - intros (kp & _ & [= <-])%bind_ok. naive_solver.
Qed.
End health.

(** ** The handshake

    What the server side of [crypto/tls] makes of the certificates a client
    presents: [chain_ok] is the verification of a chain against a pool, or against
    the roots of the system when the pool is nil. *)

Section handshake.
Context `{TlsEnv} (chain_ok : option CertPool -> list Certificate -> bool).

Definition handshake (c : ServerConfig) (presented : list Certificate) : option ConnectionState :=
  match ClientAuth c with
  | NoClientCert => Some (mkTLS [])
  | RequestClientCert => Some (mkTLS presented)
  | RequireAnyClientCert => match presented with [] => None | _ => Some (mkTLS presented) end
  | VerifyClientCertIfGiven =>
      match presented with
      | [] => Some (mkTLS [])
      | _ => if chain_ok (ClientCAs c) presented then Some (mkTLS presented) else None
      end
  | RequireAndVerifyClientCert =>
      match presented with
      | [] => None
      | _ => if chain_ok (ClientCAs c) presented then Some (mkTLS presented) else None
      end
  end.
End handshake.

(** ** How the flags are read *)

(** The text of a value after its name. *)
Definition value_text (v : option string) : string :=
  match v with Some t => "=" +:+ t | None => "" end.

(** The step of the loop at one word. *)
Lemma flag_Parse_cons `{Unicode} ParseFloat fs s rest : flag_Parse ParseFloat fs (s :: rest) =
  match flag_word s with
  | NotFlag => Parsed fs (s :: rest)
  | Terminator => Parsed fs rest
  | BadSyntax => Exit 2 ("bad flag syntax: " +:+ s)
  | Named name v =>
      match fs !! name with
      | None => unknown_flag name
      | Some old =>
          let set text rest bad :=
            match value_Set ParseFloat old text with
            | Ok new => flag_Parse ParseFloat (<[name := new]> fs) rest
            | Err e => Exit 2 (bad text name e)
            end in
          if IsBoolFlag old then set (default "true" v) rest invalid_boolean
          else match v, rest with
               | Some text, _ => set text rest invalid_value
               | None, text :: rest => set text rest invalid_value
               | None, [] => Exit 2 ("flag needs an argument: -" +:+ name)
               end
      end
  end.
Proof. cbn. by repeat case_match. Qed.

(** A name that can be written as a flag. *)
Definition good_name (n : string) : bool :=
  lacks "=" n && match n with "" => false | String c _ => negb (Ascii.eqb c "-") end.

Definition dashes (d : string) : Prop := d = "-" \/ d = "--".

Lemma lacks_cons sep c s : lacks sep (String c s) = negb (Ascii.eqb c sep) && lacks sep s.
Proof. reflexivity. Qed.

Lemma good_name_cons c n :
  good_name (String c n) = true <-> c <> "="%char /\ c <> "-"%char /\ lacks "=" n = true.
Proof.
  unfold good_name. rewrite lacks_cons, !andb_true_iff, !negb_true_iff, !Ascii.eqb_neq. tauto.
Qed.

Lemma good_name_empty : good_name "" <> true.
Proof. done. Qed.

Lemma split_value_spec s n v : split_value s = (n, v) <-> lacks "=" n = true /\ s = n +:+ value_text v.
Proof.
  split.
  - revert n v. induction s as [|c s IH]; intros n v; cbn [split_value]; [by intros [= <- <-]|].
    destruct (Ascii.eqb_spec c "="); [intros [= <- <-]; by subst|].
    destruct (split_value s) as [n' v']. intros [= <- <-]. destruct (IH n' v' eq_refl) as [Hn ->].
    rewrite lacks_cons, Hn, andb_true_r. split; [by apply negb_true_iff, Ascii.eqb_neq|done].
  - intros [Hn ->]. induction n as [|c n IH]; [by destruct v|]. rewrite lacks_cons in Hn.
    apply andb_true_iff in Hn as [Hc%negb_true_iff Hn]. change (String c n +:+ value_text v)
      with (String c (n +:+ value_text v)). cbn [split_value]. by rewrite Hc, (IH Hn).
Qed.

Lemma flag_name_spec s n v :
  flag_name s = Named n v <-> good_name n = true /\ s = n +:+ value_text v.
Proof.
  split.
  - destruct s as [|c s]; [done|]. cbn [flag_name].
    destruct (Ascii.eqb_spec c "-"); [done|]. destruct (Ascii.eqb_spec c "="); [done|]. cbn [orb].
    destruct (split_value s) as [n' v'] eqn:E. apply split_value_spec in E as [Hn' ->].
    intros [= <- <-]. by rewrite good_name_cons.
  - intros [Hn ->]. destruct n as [|c n]; [done|]. apply good_name_cons in Hn as (He & Hd & Hn).
    change (String c n +:+ value_text v) with (String c (n +:+ value_text v)). cbn [flag_name].
    apply Ascii.eqb_neq in He, Hd. rewrite He, Hd. cbn [orb].
    by rewrite (proj2 (split_value_spec _ n v) (conj Hn eq_refl)).
Qed.

Lemma flag_word_dash c s : flag_word (String "-" (String c s)) =
  if Ascii.eqb c "-" then match s with "" => Terminator | _ => flag_name s end else flag_name (String c s).
Proof. reflexivity. Qed.

Lemma flag_word_dashed s n v : flag_word s = Named n v -> exists c t, s = String "-" (String c t).
Proof.
  destruct s as [|c s]; [done|]. destruct (decide (c = "-"%char)) as [->|Hc]; [destruct s; eauto; done|].
  unfold flag_word. by repeat (destruct c as [[] [] [] [] [] [] [] []]; try done).
Qed.

Lemma flag_word_spec s n v :
  flag_word s = Named n v <-> good_name n = true /\ exists d, dashes d /\ s = d +:+ n +:+ value_text v.
Proof.
  split.
  - intros E. destruct (flag_word_dashed _ _ _ E) as (c & t & ->). rewrite flag_word_dash in E.
    destruct (Ascii.eqb_spec c "-") as [->|Hc].
    + destruct t as [|c t]; [done|]. apply flag_name_spec in E as [Hn ->]. split; [done|].
      exists "--". split; [by right|done].
    + apply flag_name_spec in E as [Hn ->]. split; [done|]. exists "-". split; [by left|done].
  - intros (Hn & d & [-> | ->] & ->); destruct n as [|c n]; [done| |done|].
    + change ("-" +:+ String c n +:+ value_text v) with (String "-" (String c (n +:+ value_text v))).
      rewrite flag_word_dash. assert (H := Hn). apply good_name_cons in H as (_ & H%Ascii.eqb_neq & _).
      rewrite H. by apply flag_name_spec.
    + change ("--" +:+ String c n +:+ value_text v) with (String "-" (String "-" (String c n +:+ value_text v))).
      rewrite flag_word_dash. cbn [Ascii.eqb Bool.eqb]. by apply flag_name_spec.
Qed.

(** *** Settings *)

Section settings.
Context `{Unicode} (ParseFloat : string -> spec_float + num_error).
Local Abbreviation value_Set := (value_Set ParseFloat).
Local Abbreviation flag_Parse := (flag_Parse ParseFloat).

(** The ways to write the setting [n = t] of a flag whose variable is [old]. *)
Definition written (old : value) (n t : string) (g : list string) : Prop :=
  exists d, dashes d /\
    (g = [d +:+ n +:+ "=" +:+ t] \/
     (IsBoolFlag old = false /\ g = [d +:+ n; t]) \/
     (IsBoolFlag old = true /\ t = "true" /\ g = [d +:+ n])).

Definition accepts (v : value) (t : string) : Prop := exists v', value_Set v t = Ok v'.

(** A setting and the words that write it. *)
Definition usable (fs : flagset) (s : string * string) (g : list string) : Prop :=
  exists old, fs !! s.1 = Some old /\ accepts old s.2 /\ written old s.1 s.2 g.

(** What the settings of a flag leave in its variable: the last text, or all of
    them for a flag that may be repeated. *)
Definition final (v : value) (ts : list string) : value :=
  match v with
  | VMulti m => VMulti (m ++ ts)
  | _ => match last ts with
         | Some t => match value_Set v t with Ok v' => v' | Err _ => v end
         | None => v
         end
  end.

Definition texts (n : string) (settings : list (string * string)) : list string :=
  (filter (fun s => s.1 = n) settings).*2.

Definition assigned (fs : flagset) (settings : list (string * string)) : flagset :=
  map_imap (fun n v => Some (final v (texts n settings))) fs.

(** Where the flags end: at the end of the arguments, at a word that is no flag,
    or after the terminator. *)
Definition ended (tail left : list string) : Prop :=
  match tail with
  | [] => left = []
  | s :: rest => (flag_word s = NotFlag /\ left = tail) \/ (flag_word s = Terminator /\ left = rest)
  end.

Definition names_good (fs : flagset) : Prop := forall n, is_Some (fs !! n) -> good_name n = true.

Ltac set_cases v :=
  destruct v; cbn in *; repeat (case_match; simplify_eq; cbn in *); simplify_eq; try done.

Lemma value_Set_kind v t v' u : value_Set v t = Ok v' ->
  IsBoolFlag v' = IsBoolFlag v /\ (accepts v' u <-> accepts v u).
Proof. intros E. set_cases v; split; try done; split; intros [w Ew]; by eexists. Qed.

Lemma final_cons v t v' ts : value_Set v t = Ok v' -> Forall (accepts v) ts ->
  final v' ts = final v (t :: ts).
Proof.
  intros E Ha. assert (forall u, last ts = Some u -> accepts v u) as Hl.
  { intros u Hu. rewrite Forall_forall in Ha. apply Ha. apply last_Some in Hu as [l ->]. set_solver. }
  unfold final. rewrite last_cons. destruct (last ts) as [u|] eqn:El.
  - destruct (Hl u eq_refl) as [w Ew]. clear Hl Ha. set_cases v.
    unfold multiStringFlag_Set. by rewrite <-app_assoc.
  - apply last_None in El as ->. clear Hl Ha. set_cases v. by rewrite app_nil_r.
Qed.

Lemma usable_insert fs n v t v' s g : fs !! n = Some v -> value_Set v t = Ok v' ->
  usable (<[n := v']> fs) s g <-> usable fs s g.
Proof.
  intros Hn Hs. unfold usable, written. destruct (decide (s.1 = n)) as [->|Hne]; [|by rewrite lookup_insert_ne].
  rewrite lookup_insert_eq, Hn. destruct (value_Set_kind v t v' s.2 Hs) as [Hk Ha].
  split; intros (old & [= <-] & Hold); eexists; (split; [done|]); by rewrite Hk, Ha in * || rewrite <-Hk, <-Ha.
Qed.

Lemma texts_usable fs settings groups n t : Forall2 (usable fs) settings groups -> t ∈ texts n settings ->
  exists old g, fs !! n = Some old /\ accepts old t /\ written old n t g /\ g ∈ groups.
Proof.
  intros Hu ([m t'] & -> & [Hm Hin]%list_elem_of_filter)%list_elem_of_fmap. cbn in Hm. subst m.
  apply list_elem_of_lookup in Hin as [i Hi].
  destruct (Forall2_lookup_l _ _ _ _ _ Hu Hi) as (g & Hg & old & Ho & Ha & Hw).
  exists old, g. split_and!; [done..|by eapply list_elem_of_lookup_2].
Qed.

Lemma assigned_insert fs n v t v' settings groups : fs !! n = Some v -> value_Set v t = Ok v' ->
  Forall2 (usable fs) settings groups ->
  assigned (<[n := v']> fs) settings = assigned fs ((n, t) :: settings).
Proof.
  intros Hn Hs Hu. unfold assigned. apply map_eq. intros m. rewrite !map_lookup_imap.
  unfold texts. rewrite filter_cons. cbn [fst]. destruct (decide (m = n)) as [->|Hne].
  - rewrite lookup_insert_eq, Hn, decide_True by done. cbn. f_equal. apply final_cons; [done|].
    apply Forall_forall. intros u Hin. destruct (texts_usable _ _ _ _ _ Hu Hin) as (old & g & Ho & Ha & _).
    by simplify_eq.
  - rewrite lookup_insert_ne by done. by rewrite decide_False by done.
Qed.

Lemma names_good_insert fs n v v' : fs !! n = Some v -> names_good fs -> names_good (<[n := v']> fs).
Proof.
  intros Hn Hg m. destruct (decide (m = n)) as [->|?]; [intros _; by apply Hg|].
  rewrite lookup_insert_ne by done. apply Hg.
Qed.

(** One written setting is one step of the loop. *)
Lemma flag_Parse_written fs n old t new g rest : names_good fs ->
  fs !! n = Some old -> written old n t g -> value_Set old t = Ok new ->
  flag_Parse fs (g ++ rest) = flag_Parse (<[n := new]> fs) rest.
Proof.
  intros Hg Hn (d & Hd & Hw) Hs. assert (good_name n = true) as Hgood by (apply Hg; by eexists).
  assert (flag_word (d +:+ n) = Named n None) as Hnone.
  { apply flag_word_spec. split; [done|]. exists d. split; [done|]. cbn. by rewrite str_app_nil. }
  assert (flag_word (d +:+ n +:+ "=" +:+ t) = Named n (Some t)) as Hsome.
  { apply flag_word_spec. split; [done|]. by exists d. }
  destruct Hw as [-> | [[Hb ->] | (Hb & -> & ->)]]; cbn [app]; rewrite flag_Parse_cons,  ?Hsome, ?Hnone, Hn; try rewrite Hb; cbn [default id];
    try by rewrite Hs.
  destruct (IsBoolFlag old); by rewrite Hs.
Qed.

(** The arguments as settings and what ends them. *)
Definition command_of (fs : flagset) (args : list string) (fs' : flagset) (left : list string) : Prop :=
  exists settings groups tail,
    args = concat groups ++ tail /\ Forall2 (usable fs) settings groups /\ ended tail left /\
    fs' = assigned fs settings.

Lemma assigned_nil fs : assigned fs [] = fs.
Proof.
  apply map_eq. intros n. unfold assigned. rewrite map_lookup_imap. cbn.
  destruct (fs !! n) as [v|]; [|done]. cbn. unfold texts. cbn. by destruct v; cbn; rewrite ?app_nil_r.
Qed.

Lemma command_of_end fs tail left : ended tail left -> command_of fs tail fs left.
Proof. intros He. exists [], [], tail. split_and!; [done|constructor|done|by rewrite assigned_nil]. Qed.

Lemma command_of_step fs n old t new g args fs' left : fs !! n = Some old ->
  value_Set old t = Ok new -> written old n t g ->
  command_of (<[n := new]> fs) args fs' left -> command_of fs (g ++ args) fs' left.
Proof.
  intros Hn Hs Hw (settings & groups & tail & -> & Hu & He & ->).
  assert (Forall2 (usable fs) settings groups) as Hu'.
  { eapply Forall2_impl; [exact Hu|]. intros s g'. by rewrite usable_insert. }
  exists ((n, t) :: settings), (g :: groups), tail. cbn [concat]. rewrite <-app_assoc.
  split_and!; [done| |done|by eapply assigned_insert].
  constructor; [|done]. exists old. split_and!; [done|by eexists|done].
Qed.

Lemma flag_Parse_complete fs args fs' left : names_good fs ->
  command_of fs args fs' left -> flag_Parse fs args = Parsed fs' left.
Proof.
  intros Hg (settings & groups & tail & -> & Hu & He & ->). revert fs Hg Hu.
  induction settings as [|[n t] settings IH] in groups |- *; intros fs Hg Hu.
  - apply Forall2_nil_inv_l in Hu as ->. rewrite assigned_nil. destruct tail as [|s tail]; cbn in He |- *; [by subst|].
    destruct He as [[E ->]|[E ->]]; by rewrite E.
  - apply Forall2_cons_inv_l in Hu as (g & groups' & (old & Hn & [new Hs] & Hw) & Hu & ->). cbn in *.
    assert (Forall2 (usable (<[n := new]> fs)) settings groups') as Hu'.
    { eapply Forall2_impl; [exact Hu|]. intros s g'. by rewrite usable_insert. }
    rewrite <-app_assoc, (flag_Parse_written fs n old t new) by done.
    rewrite IH by eauto using names_good_insert. by erewrite assigned_insert.
Qed.

Lemma flag_Parse_sound args fs fs' left : names_good fs ->
  flag_Parse fs args = Parsed fs' left -> command_of fs args fs' left.
Proof.
  revert fs. induction args as [args IH] using (induction_ltof1 _ length). intros fs Hg.
  destruct args as [|s rest]; [intros [= <- <-]; by apply command_of_end|]. rewrite flag_Parse_cons.
  destruct (flag_word s) as [| | |n v] eqn:Ew.
  { intros [= <- <-]. apply command_of_end. by left. }
  { intros [= <- <-]. apply command_of_end. by right. }
  { done. }
  destruct (fs !! n) as [old|] eqn:Hn; [|unfold unknown_flag; by case_bool_decide]. cbv zeta.
  assert (forall t g rest' bad, s :: rest = g ++ rest' -> (length rest' < length (s :: rest))%nat ->
    written old n t g ->
    match value_Set old t with Ok new => flag_Parse (<[n := new]> fs) rest' | Err e => Exit 2 (bad t n e) end
      = Parsed fs' left -> command_of fs (s :: rest) fs' left) as Hstep.
  { intros t g rest' bad E Hlen Hw. destruct (value_Set old t) as [new|] eqn:Hs; [|done]. intros Hp.
    rewrite E. eapply command_of_step; [done|exact Hs|exact Hw|]. eapply IH; [exact Hlen|by eapply names_good_insert|done]. }
  apply flag_word_spec in Ew as (_ & d & Hd & ->).
  destruct (IsBoolFlag old) eqn:Hb.
  - apply (Hstep _ [d +:+ n +:+ value_text v]); [done|cbn; lia|]. exists d. split; [done|].
    destruct v as [t|]; cbn; rewrite ?str_app_nil; [by left|by right; right].
  - destruct v as [t|]; [|destruct rest as [|t rest]; [done|]].
    + apply (Hstep _ [d +:+ n +:+ "=" +:+ t]); [done|cbn; lia|]. exists d. split; [done|by left].
    + cbn [value_text] in *. rewrite str_app_nil in *.
      apply (Hstep _ [d +:+ n; t]); [done|cbn; lia|]. exists d. split; [done|by right; left].
Qed.
End settings.

(** The variables after the declarations. *)
Definition default_flags : flagset := list_to_map gateway_flags.

Lemma gateway_flags_declared `{Unicode} : declare_all gateway_flags = Return default_flags.
Proof. vm_cast_no_check (@eq_refl (flow flagset) (Return default_flags)). Qed.

Lemma default_flags_good : names_good default_flags.
Proof.
  assert (Forall (fun nv => good_name nv.1 = true) gateway_flags) as Hf.
  { apply (bool_decide_unpack _). vm_compute. exact I. }
  intros n [v Hn]. apply elem_of_list_to_map_2 in Hn. rewrite Forall_forall in Hf. by apply (Hf (n, v)).
Qed.

#[local] Opaque declare_all gateway_flags default_flags.

(** A gateway that starts has parsed its arguments, and serves an API. *)
Lemma configure_starts `{Unicode} ParseFloat ParseRequestURI SplitHostPort args fs cfg :
  configure ParseFloat ParseRequestURI SplitHostPort args = Return (Starts fs cfg) ->
  exists left, flag_Parse ParseFloat default_flags args = Parsed fs left /\
    parseFlags ParseRequestURI SplitHostPort (raw_flags fs) = Return (Ok cfg) /\ any_enabled cfg = true.
Proof.
  unfold configure, mbind, flow_bind. destruct (declare_all gateway_flags) as [f|] eqn:E; [|done].
  pose proof (eq_trans (eq_sym E) gateway_flags_declared) as Hd. injection Hd as ->.
  destruct (flag_Parse _ _ _) as [fs' left|] eqn:Hp; [|done].
  destruct (parseFlags _ _ _) as [[cfg'|]|] eqn:Hf; [|done..].
  destruct (any_enabled cfg') eqn:He; [|done]. intros Hc.
  injection Hc as -> ->. exists left. split; [reflexivity|]. split; [exact Hf|exact He].
Qed.

#[local] Transparent declare_all gateway_flags default_flags.

(** The policy and the pool of a TLS configuration. *)
Lemma tls_of_policy `{TlsEnv} certFile keyFile fs cfg c : tls_of certFile keyFile fs cfg = Ok (Some c) ->
  parseClientAuthType (string_of fs "tls.client-auth-type") = Ok (ClientAuth c) /\
  if verifies (ClientAuth c) && negb (String.eqb (string_of fs "tls.client-ca-file") "")
  then exists pem, ReadFile (string_of fs "tls.client-ca-file") = Ok pem /\ pem_certs pem <> ∅ /\
                   ClientCAs c = Some (pem_certs pem)
  else ClientCAs c = None.
Proof.
  unfold tls_of, NewServerConfig. case_match; [done|]. intros E.
  do 3 (apply bind_ok in E as (? & _ & E)). case_match; [done|].
  do 2 (apply bind_ok in E as (? & _ & E)).
  apply bind_ok in E as (au & Ha%wrap_err_ok & E). apply bind_ok in E as (cas & Hc%load_client_cas_spec & E).
  injection E as <-. cbn. by split.
Qed.

(** *** Flags that are not set *)

(** No word of the arguments names the flag. *)
Definition unnamed (n : string) (args : list string) : Prop :=
  Forall (fun s => forall v, flag_word s <> Named n v) args.

Lemma written_names old n t g : good_name n = true -> written old n t g ->
  exists s v, s ∈ g /\ flag_word s = Named n v.
Proof.
  intros Hn (d & Hd & Hw).
  destruct Hw as [-> | [[_ ->] | (_ & _ & ->)]]; eexists _, _; (split; [left|]); apply flag_word_spec; (split; [done|]);
    exists d; (split; [done|]).
  - by instantiate (1 := Some t).
  - instantiate (1 := None). cbn. by rewrite str_app_nil.
  - instantiate (1 := None). cbn. by rewrite str_app_nil.
Qed.

Lemma unnamed_kept `{Unicode} ParseFloat fs args fs' left n : names_good fs ->
  flag_Parse ParseFloat fs args = Parsed fs' left -> unnamed n args -> fs' !! n = fs !! n.
Proof.
  intros Hg Hp Hu. apply flag_Parse_sound in Hp as (settings & groups & tail & -> & Hs & _ & ->); [|done].
  unfold assigned. rewrite map_lookup_imap. destruct (fs !! n) as [v|] eqn:Hv; [|done]. cbn.
  assert (texts n settings = []) as ->; [|by destruct v; cbn; rewrite ?app_nil_r].
  apply elem_of_nil_inv. intros t Hin. destruct (texts_usable _ _ _ _ _ _ Hs Hin) as (old & g & _ & _ & Hw & Hg').
  destruct (written_names _ _ _ _ (Hg n ltac:(by eexists)) Hw) as (s & w & Hsg & Hsw).
  unfold unnamed in Hu. rewrite Forall_forall in Hu. apply (Hu s) with (v := w); [|done].
  apply elem_of_app. left. apply list_elem_of_In, in_concat. exists g. by split; apply list_elem_of_In.
Qed.

(** ** Certificates and tenants *)

Section certificates.
Context `{Unicode} `{TlsEnv} (chain_ok : option CertPool -> list Certificate -> bool).

(** A client that presents the certificates has its requests passed on, by the
    middleware of the write paths, under the tenant [ou] and no other. *)
Definition admits (c : ServerConfig) (h : string) (presented : list Certificate) (ou : string) : Prop :=
  exists tls, handshake chain_ok c presented = Some tls /\
    forall r, r_tls r = Some tls -> exists r',
      forwards (@MTLSTenant.WithMTLSTenantExtraction h) r r' /\
      GetTenant (r_ctx r') = Some ou /\ header_values (r_header r') h = [ou].

(** What the policy asks of the certificates before it trusts them. *)
Definition trusted (c : ServerConfig) (presented : list Certificate) : Prop :=
  match ClientAuth c with
  | NoClientCert => False
  | RequestClientCert | RequireAnyClientCert => True
  | VerifyClientCertIfGiven | RequireAndVerifyClientCert => chain_ok (ClientCAs c) presented = true
  end.

Definition presented_ou (presented : list Certificate) : option string :=
  cert_tenant (Some (mkTLS presented)).

Definition peer_request (tls : ConnectionState) : Request :=
  mkReq "GET" (mkURL "" "" "/" "") ∅ (Ok "") 0 (Some tls) background ∅ [].

(** A policy that asks for a certificate hands on the ones it trusts. *)
Lemma handshake_peer c presented tls ou : handshake chain_ok c presented = Some tls ->
  cert_tenant (Some tls) = Some ou ->
  tls = mkTLS presented /\ trusted c presented /\ presented_ou presented = Some ou.
Proof.
  unfold handshake, trusted, presented_ou. intros Eh Et.
  destruct (ClientAuth c); repeat case_match; by simplify_eq.
Qed.

Lemma handshake_trusted c presented ou : trusted c presented -> presented_ou presented = Some ou ->
  handshake chain_ok c presented = Some (mkTLS presented).
Proof.
  unfold handshake, trusted. destruct presented as [|p ps]; [done|].
  destruct (ClientAuth c); [done..| |]; by intros ->.
Qed.

Lemma admits_iff c h presented ou :
  admits c h presented ou <-> presented_ou presented = Some ou /\ trusted c presented.
Proof.
  split.
  - intros (tls & Eh & Hr). destruct (Hr (peer_request tls) eq_refl) as (r' & Hf & Ht & _).
    destruct (cert_tenant (Some tls)) as [ou'|] eqn:Et.
    + pose proof (forwards_inj _ _ _ _ Hf (extraction_forwards h (peer_request tls) ou' Et)) as ->.
      injection Ht as ->. by destruct (handshake_peer _ _ _ _ Eh Et) as (_ & ? & ?).
    + by destruct (extraction_rejects h (peer_request tls) Et) as [Hj|Hj];
        destruct (rejects_not_forwards _ _ _ _ Hj Hf).
  - intros [Ho Ht]. exists (mkTLS presented). split; [by eapply handshake_trusted|].
    intros r Hr. eexists. split; [apply extraction_forwards; by rewrite Hr|].
    split; [done|]. apply header_values_set.
Qed.
End certificates.

(** The liveness check of a gateway that starts: the two files come together, and
    without them the check presents nothing, so that a policy that requires a
    certificate refuses its handshake. *)
Lemma health_check_refused `{TlsEnv} chain_ok fs hc c : health_client fs = Ok (Some hc) ->
  ClientAuth c = RequireAnyClientCert \/ ClientAuth c = RequireAndVerifyClientCert ->
  (hc_Certificates hc = [] <->
     string_of fs "tls.healthchecks.client-cert-file" = "" /\ string_of fs "tls.healthchecks.client-key-file" = "") /\
  handshake chain_ok c [] = None.
Proof.
  unfold health_client. case_match; [done|]. intros E Ha.
  apply bind_ok in E as (roots & _ & E). apply bind_ok in E as (certs & Hc & [= <-]). cbn.
  split; [by apply health_certificates_ok|]. unfold handshake. by destruct Ha as [-> | ->].
Qed.

(** ** Properties *)

(** C27: the command line.  The names the gateway declares are distinct, and
    its flags are read from exactly the command lines that are a sequence of
    settings of declared flags, each in one of its written forms and with a text
    its type accepts, followed by an end: nothing, a word that is no flag, or
    the terminator.  A flag then holds the text of its last setting, one that may be
    repeated all of them in order, and one that is not set its default; every
    other command line ends the process. *)
Theorem command_line `{Unicode} ParseFloat (args left : list string) (fs : flagset) :
  declare_all gateway_flags = Return default_flags /\
  (flag_Parse ParseFloat default_flags args = Parsed fs left <->
   exists settings groups tail,
     args = concat groups ++ tail /\ Forall2 (usable ParseFloat default_flags) settings groups /\
     ended tail left /\ fs = assigned ParseFloat default_flags settings).
Proof.
  split; [apply gateway_flags_declared|]. split.
  - apply flag_Parse_sound, default_flags_good.
  - apply flag_Parse_complete, default_flags_good.
Qed.

(** C8: certificates and tenants.  On a server of the gateway that serves TLS,
    a client is given the tenant [ou] on the write paths exactly when its first
    certificate names it and the policy trusts what it presents; the policies that
    verify do so against the certificates of the client CA file.  When no argument
    names the policy, it trusts every certificate, so that a client names the
    tenant it writes as in a certificate of its own making; gRPC has the same
    configuration. *)
Theorem certificate_tenants `{Unicode} `{TlsEnv} chain_ok ParseFloat ParseRequestURI SplitHostPort
    (args : list string) (fs : flagset) (cfg : config) (s : HttpServer) (c : ServerConfig)
    (h ou : string) (presented : list Certificate) :
  configure ParseFloat ParseRequestURI SplitHostPort args = Return (Starts fs cfg) ->
  public_server fs cfg = Ok s -> TLSConfig s = Some c ->
  (admits chain_ok c h presented ou <-> presented_ou presented = Some ou /\ trusted chain_ok c presented) /\
  (if verifies (ClientAuth c) && negb (String.eqb (string_of fs "tls.client-ca-file") "")
   then exists pem, ReadFile (string_of fs "tls.client-ca-file") = Ok pem /\ pem_certs pem <> ∅ /\
                    ClientCAs c = Some (pem_certs pem)
   else ClientCAs c = None) /\
  (unnamed "tls.client-auth-type" args ->
   admits chain_ok c h presented ou <-> presented_ou presented = Some ou) /\
  (string_of fs "tls.server.cert-file" <> "" -> grpc_credentials fs cfg = Ok (Some c)).
Proof.
  intros Hc Hs Hcfg. apply configure_starts in Hc as (left & Hp & _).
  unfold public_server, http_server in Hs. apply bind_ok in Hs as (tc & Htc%wrap_err_ok & Hs).
  apply bind_ok in Hs as (rl & _ & [= <-]). cbn in Hcfg. subst tc.
  assert (Hg : string_of fs "tls.server.cert-file" <> "" -> grpc_credentials fs cfg = Ok (Some c)).
  { intros Hne%String.eqb_neq. unfold grpc_credentials. rewrite Hne. cbn. by rewrite Htc. }
  destruct (tls_of_policy _ _ _ _ _ Htc) as [Hauth Hcas].
  split_and!; [apply admits_iff|exact Hcas| |exact Hg].
  intros Hu. rewrite admits_iff. unfold string_of in Hauth.
  rewrite (unnamed_kept _ _ _ _ _ _ default_flags_good Hp Hu) in Hauth. assert (ClientAuth c = RequestClientCert) as Ha.
  { enough (default_flags !! "tls.client-auth-type" = Some (VString "RequestClientCert")) as E
      by (rewrite E in Hauth; by injection Hauth). by vm_compute. }
  unfold trusted. rewrite Ha. tauto.
Qed.

(** A gateway that serves metrics writes with TLS and leaves the policy alone. *)
Definition demo_args : list string :=
  ["--metrics.write.endpoint=http://thanos"; "--tls.server.cert-file"; "/etc/cert.pem";
   "-tls.server.key-file=/etc/key.pem"; "--metrics.tls.watch-certs"; "--"; "more"].

(** A certificate anyone can make. *)
Definition self_signed (ou : string) : Certificate := mkCert [] [] [] [] "nobody" [ou].

Definition demo_configure : flow command :=
  @configure latin1 (fun _ => inr ErrSyntax) (fun s => Ok (mkURL "http" s "" "")) (fun _ => Ok tt) demo_args.

Definition serves_tls (c : command) : bool :=
  match c with
  | Starts fs cfg => match @public_server demo_tls fs cfg with
                     | Ok s => match TLSConfig s with Some _ => true | None => false end
                     | Err _ => false
                     end
  | Exits _ _ => false
  end.

Lemma demo_serves_tls : match demo_configure with Return c => serves_tls c | Panic _ => false end = true.
Proof. vm_cast_no_check (@eq_refl bool true). Qed.

Lemma demo_policy_unnamed : unnamed "tls.client-auth-type" demo_args.
Proof. repeat constructor; intros v; cbn; congruence. Qed.

Lemma certificate_tenants_witness :
  exists fs cfg s c,
    demo_configure = Return (Starts fs cfg) /\ @public_server demo_tls fs cfg = Ok s /\ TLSConfig s = Some c /\
    @admits demo_tls (fun _ _ => false) c "THANOS-TENANT" [self_signed "other"] "other".
Proof.
  pose proof demo_serves_tls as Ht. destruct demo_configure as [[|fs cfg]|] eqn:E; [discriminate| |discriminate].
  unfold serves_tls in Ht. destruct (@public_server demo_tls fs cfg) as [s|] eqn:Es; [|discriminate].
  destruct (TLSConfig s) as [c|] eqn:Ec; [|discriminate]. exists fs, cfg, s, c.
  split; [reflexivity|]. split; [exact Es|]. split; [exact Ec|].
  destruct (@certificate_tenants latin1 demo_tls (fun _ _ => false) (fun _ => inr ErrSyntax)
    (fun s => Ok (mkURL "http" s "" "")) (fun _ => Ok tt) demo_args fs cfg s c "THANOS-TENANT" "other"
    [self_signed "other"] E Es Ec) as (_ & _ & Hu & _).
  apply Hu; [exact demo_policy_unnamed|reflexivity].
Defined.
