(* ===== verification/MetricsRoutes.v ===== *)
(** * The metrics API: [api/metrics/v1/http.go] and [api/metrics/legacy/http.go]

    The options of the handlers, their route tables with the middlewares of every
    group, and the directors of their proxies.  What the transports of the
    upstreams do is a handler each. *)

From stdpp Require Import base tactics option list gmap strings.
From Stdlib Require Import Lia Ascii.
From S2P Require Import Prelude GoStrings Labels Url Strconv Http MetricsEnforcer Proxy Router Login Rules.

Module MetricsV1.

Definition UIRoute : string := "/".
Definition QueryRoute : string := "/api/v1/query".
Definition QueryRangeRoute : string := "/api/v1/query_range".
Definition SeriesRoute : string := "/api/v1/series".
Definition LabelNamesRoute : string := "/api/v1/labels".
Definition LabelValuesRoute : string := "/api/v1/label/{label_name}/values".
Definition ReceiveRoute : string := "/api/v1/receive".
Definition RulesRoute : string := "/api/v1/rules".
Definition RulesRawRoute : string := "/api/v1/rules/raw".
Definition AlertmanagerAlertsRoute : string := "/am/api/v2/alerts".
Definition AlertmanagerSilencesRoute : string := "/am/api/v2/silences".
Definition AlertmanagerSilenceRoute : string := "/am/api/v2/silence/{silenceID}".

Section handler.
Context {S : Type}.

(** ** Options *)

Record alertmanagerMiddleware := mkAMMiddleware {
  alertsReadMiddlewares : list (Middleware S);
  silenceReadMiddlewares : list (Middleware S);
  silenceWriteMiddlewares : list (Middleware S);
  silenceIDReadMiddlewares : list (Middleware S);
  silenceIDWriteMiddlewares : list (Middleware S)
}.

(** Without the logger, the registry and the instrumenter. *)
Record handlerConfiguration := mkHC {
  tenantLabel : string;
  queryMiddlewares : list (Middleware S);
  readMiddlewares : list (Middleware S);
  uiMiddlewares : list (Middleware S);
  writeMiddlewares : list (Middleware S);
  alertmanager : alertmanagerMiddleware
}.

Definition HandlerOption : Type := handlerConfiguration -> handlerConfiguration.

Definition default_configuration : handlerConfiguration :=
  mkHC "" [] [] [] [] (mkAMMiddleware [] [] [] [] []).

Definition WithTenantLabel (l : string) : HandlerOption := fun c =>
  mkHC l (queryMiddlewares c) (readMiddlewares c) (uiMiddlewares c) (writeMiddlewares c) (alertmanager c).
Definition WithReadMiddleware (m : Middleware S) : HandlerOption := fun c =>
  mkHC (tenantLabel c) (queryMiddlewares c) (readMiddlewares c ++ [m]) (uiMiddlewares c)
    (writeMiddlewares c) (alertmanager c).
Definition WithQueryMiddleware (m : Middleware S) : HandlerOption := fun c =>
  mkHC (tenantLabel c) (queryMiddlewares c ++ [m]) (readMiddlewares c) (uiMiddlewares c)
    (writeMiddlewares c) (alertmanager c).
Definition WithUIMiddleware (m : Middleware S) : HandlerOption := fun c =>
  mkHC (tenantLabel c) (queryMiddlewares c) (readMiddlewares c) (uiMiddlewares c ++ [m])
    (writeMiddlewares c) (alertmanager c).
Definition WithWriteMiddleware (m : Middleware S) : HandlerOption := fun c =>
  mkHC (tenantLabel c) (queryMiddlewares c) (readMiddlewares c) (uiMiddlewares c)
    (writeMiddlewares c ++ [m]) (alertmanager c).

Definition map_alertmanager (f : alertmanagerMiddleware -> alertmanagerMiddleware) : HandlerOption := fun c =>
  mkHC (tenantLabel c) (queryMiddlewares c) (readMiddlewares c) (uiMiddlewares c) (writeMiddlewares c)
    (f (alertmanager c)).

Definition WithAlertmanagerAlertsReadMiddleware (ms : list (Middleware S)) : HandlerOption :=
  map_alertmanager (fun a => mkAMMiddleware (alertsReadMiddlewares a ++ ms) (silenceReadMiddlewares a)
    (silenceWriteMiddlewares a) (silenceIDReadMiddlewares a) (silenceIDWriteMiddlewares a)).
Definition WithAlertmanagerSilenceReadMiddleware (ms : list (Middleware S)) : HandlerOption :=
  map_alertmanager (fun a => mkAMMiddleware (alertsReadMiddlewares a) (silenceReadMiddlewares a ++ ms)
    (silenceWriteMiddlewares a) (silenceIDReadMiddlewares a) (silenceIDWriteMiddlewares a)).
Definition WithAlertmanagerSilenceWriteMiddleware (ms : list (Middleware S)) : HandlerOption :=
  map_alertmanager (fun a => mkAMMiddleware (alertsReadMiddlewares a) (silenceReadMiddlewares a)
    (silenceWriteMiddlewares a ++ ms) (silenceIDReadMiddlewares a) (silenceIDWriteMiddlewares a)).
Definition WithAlertmanagerSilenceIDReadMiddleware (ms : list (Middleware S)) : HandlerOption :=
  map_alertmanager (fun a => mkAMMiddleware (alertsReadMiddlewares a) (silenceReadMiddlewares a)
    (silenceWriteMiddlewares a) (silenceIDReadMiddlewares a ++ ms) (silenceIDWriteMiddlewares a)).
Definition WithAlertmanagerSilenceIDWriteMiddleware (ms : list (Middleware S)) : HandlerOption :=
  map_alertmanager (fun a => mkAMMiddleware (alertsReadMiddlewares a) (silenceReadMiddlewares a)
    (silenceWriteMiddlewares a) (silenceIDReadMiddlewares a) (silenceIDWriteMiddlewares a ++ ms)).

Definition WithGlobalMiddleware (ms : list (Middleware S)) : HandlerOption := fun c =>
  let a := alertmanager c in
  mkHC (tenantLabel c) (queryMiddlewares c ++ ms) (readMiddlewares c ++ ms) (uiMiddlewares c ++ ms)
    (writeMiddlewares c)
    (mkAMMiddleware (alertsReadMiddlewares a ++ ms) (silenceReadMiddlewares a ++ ms)
       (silenceWriteMiddlewares a ++ ms) (silenceIDReadMiddlewares a ++ ms)
       (silenceIDWriteMiddlewares a ++ ms)).

(** ** The routes *)

Record Endpoints := mkEndpoints {
  ReadEndpoint : option URL;
  WriteEndpoint : option URL;
  RulesEndpoint : option URL;
  AlertmanagerEndpoint : option URL
}.

(** The upstreams behind the endpoints: what the transports answer, the client of
    the rules API ([None] when it cannot be made), [GetSilence]. *)
Record Upstreams := mkUpstreams {
  up_read : Handler S;
  up_write : Handler S;
  up_rules : string -> option MetricsRules.rulesHandler;
  up_alertmanager : Handler S;
  up_silence : URL -> string -> silence_reply
}.

(** The proxies to an endpoint; logging and metrics leave the request as it is. *)
Definition endpoint_director (endpoint : URL) : Director :=
  Middlewares [MiddlewareSetUpstream endpoint; MiddlewareSetPrefixHeader].

Context `{Alertmanager} `{MatcherPrinter} `{PromQL} `{Yaml} `{UrlCodec}.

Definition prefix : string := "/api/metrics/v1".
Definition am_prefix : string := "/api/metrics/v1/am".

Definition read_routes (c : handlerConfiguration) (up : Handler S) (endpoint : URL) : Router S :=
  let proxy := ReverseProxy (endpoint_director endpoint) up in
  let group mws route := Group (mws ++ [StripPrefix prefix]) [route] in
  group (queryMiddlewares c) (Handle QueryRoute proxy) ++
  group (queryMiddlewares c) (Handle QueryRangeRoute proxy) ++
  group (readMiddlewares c) (Handle SeriesRoute proxy) ++
  group (readMiddlewares c) (Handle LabelNamesRoute proxy) ++
  group (readMiddlewares c) (Handle LabelValuesRoute proxy) ++
  group (readMiddlewares c) (Handle RulesRoute proxy) ++
  group (uiMiddlewares c) (MountHandler proxy).

Definition write_routes (c : handlerConfiguration) (up : Handler S) (endpoint : URL) : Router S :=
  Group (writeMiddlewares c ++ [StripPrefix prefix])
    [Handle ReceiveRoute (ReverseProxy (endpoint_director endpoint) up)].

Definition rules_routes (c : handlerConfiguration) (rh : MetricsRules.rulesHandler) : Router S :=
  let rh := MetricsRules.mkRulesHandler (MetricsRules.ListRules rh) (MetricsRules.SetRulesWithBody rh)
              (tenantLabel c) in
  Group (uiMiddlewares c ++ [StripPrefix prefix])
    [Method "GET" RulesRawRoute (MetricsRules.rulesHandler_get rh)] ++
  Group (writeMiddlewares c ++ [StripPrefix prefix])
    [Method "PUT" RulesRawRoute (MetricsRules.rulesHandler_put rh)].

Definition alertmanager_routes (c : handlerConfiguration) (up : Handler S)
    (silence : URL -> string -> silence_reply) (endpoint : URL) : Router S :=
  let proxy := ReverseProxy (endpoint_director endpoint) up in
  let enforceID := WithEnforceTenancyOnSilenceID (tenantLabel c) (silence endpoint) in
  let filter := WithEnforceTenancyOnFilter (tenantLabel c) in
  let group mws enforce route := Group (mws ++ [enforce; StripPrefix am_prefix]) [route] in
  group (alertsReadMiddlewares (alertmanager c)) filter (Method "GET" AlertmanagerAlertsRoute proxy) ++
  group (silenceReadMiddlewares (alertmanager c)) filter (Method "GET" AlertmanagerSilencesRoute proxy) ++
  group (silenceWriteMiddlewares (alertmanager c)) (WithEnforceTenancyOnSilenceMatchers (tenantLabel c))
    (Method "POST" AlertmanagerSilencesRoute proxy) ++
  group (silenceIDReadMiddlewares (alertmanager c)) enforceID (Method "GET" AlertmanagerSilenceRoute proxy) ++
  group (silenceIDWriteMiddlewares (alertmanager c)) enforceID
    (Method "DELETE" AlertmanagerSilenceRoute proxy).

Definition endpoint_routes (endpoint : option URL) (rs : URL -> Router S) : Router S :=
  match endpoint with Some u => rs u | None => [] end.

(** When the client of the rules cannot be made, the routes after it are not
    registered either. *)
Definition NewHandler (endpoints : Endpoints) (up : Upstreams) (opts : list HandlerOption) : Router S :=
  let c := foldl (fun c o => o c) default_configuration opts in
  endpoint_routes (ReadEndpoint endpoints) (read_routes c (up_read up)) ++
  endpoint_routes (WriteEndpoint endpoints) (write_routes c (up_write up)) ++
  let am := endpoint_routes (AlertmanagerEndpoint endpoints)
              (alertmanager_routes c (up_alertmanager up) (up_silence up)) in
  match RulesEndpoint endpoints with
  | None => am
  | Some u => match up_rules up (url_String u) with
              | None => []
              | Some rh => rules_routes c rh ++ am
              end
  end.
End handler.
Arguments handlerConfiguration S : clear implicits.
Arguments HandlerOption S : clear implicits.
Arguments Upstreams S : clear implicits.
End MetricsV1.

(** ** The legacy API: [api/metrics/legacy/http.go] *)

Module MetricsLegacy.

Section handler.
Context {S : Type}.

Record handlerConfiguration := mkHC {
  queryMiddlewares : list (Middleware S);
  uiMiddlewares : list (Middleware S)
}.

Definition HandlerOption : Type := handlerConfiguration -> handlerConfiguration.

Definition WithQueryMiddleware (m : Middleware S) : HandlerOption := fun c =>
  mkHC (queryMiddlewares c ++ [m]) (uiMiddlewares c).
Definition WithUIMiddleware (m : Middleware S) : HandlerOption := fun c =>
  mkHC (queryMiddlewares c) (uiMiddlewares c ++ [m]).
Definition WithGlobalMiddleware (ms : list (Middleware S)) : HandlerOption := fun c =>
  mkHC (queryMiddlewares c ++ ms) (uiMiddlewares c ++ ms).

Context `{UrlCodec}.

(** The handler of [/graph]. *)
Definition graph_redirect : Handler S := fun r =>
  let r := set_path "/api/metrics/v1/graph" r in
  http_Redirect r (url_String (r_url r)) 301.

(** The director of an endpoint that is nil dereferences it. *)
Definition legacy_proxy (up : Handler S) (url : option URL) : Handler S :=
  match url with
  | Some u => ReverseProxy (Middlewares [MiddlewareSetUpstream u]) up
  | None => fun _ => panic "invalid memory address or nil pointer dereference"
  end.

Definition NewHandler (url : option URL) (up : Handler S) (opts : list HandlerOption) : Router S :=
  let c := foldl (fun c o => o c) (mkHC [] []) opts in
  let proxy := legacy_proxy up url in
  Group (queryMiddlewares c) [Handle MetricsV1.QueryRoute proxy] ++
  Group (queryMiddlewares c) [Handle MetricsV1.QueryRangeRoute proxy] ++
  Group (uiMiddlewares c) [Handle "/graph" graph_redirect].
End handler.
Arguments handlerConfiguration S : clear implicits.
Arguments HandlerOption S : clear implicits.
End MetricsLegacy.
