(* ===== verification/Instrumentation.v ===== *)
(** * HTTP metrics: [server/http_instrumentation.go] and its tables in [main.go]

    The handler that counts and measures requests, the label map it shares with
    the handlers behind it through the context, and the initialization of the
    series.  Label maps are Go maps that several requests' contexts can refer to,
    so the state has a store of maps and the contexts have references to them.
    The Prometheus client is the class [Prometheus]; what a handler reads from the
    objects of a served request is [Serving]. *)

From stdpp Require Import base tactics option list gmap strings pretty.
From Stdlib Require Import ZArith Lia SpecFloat.
From S2P Require Import Prelude GoStrings Labels Url Strconv Http Tenant MetricsEnforcer RateLimit Proxy Router Login Rules MetricsRoutes.
Import TenantHeader.

Local Open Scope Z_scope.

(** ** The Prometheus client

    The four vectors of the collector, and what is done with the child of a
    vector: it is made, incremented, or given an observation. *)

Inductive Metric := requestCounter | requestSize | requestDuration | responseSize.

Inductive Sample := Create | Inc | Observe (v : spec_float).

(** [v.MustCurryWith(labels).WithLabelValues(values...)] on a vector with the
    given label names, then the sample. *)
Class Prometheus (V : Type) := {
  with_values : Metric -> list string -> gmap string string -> list string -> Sample -> V -> flow V;
  valid_value : string -> Prop
}.

(** When currying and taking a child do not panic: every curried name is a label
    of the vector, there is one value for each of the others, and the values are
    valid. *)
Definition accepted `{Prometheus V} (names : list string) (curried : gmap string string) (values : list string) : Prop :=
  NoDup names /\ dom curried ⊆ (list_to_set names : gset string) /\
  (size curried + length values = length names)%nat /\
  map_Forall (fun _ => valid_value) curried /\ Forall valid_value values.

Class PrometheusLaws (V : Type) `{Prometheus V} :=
  with_values_ok : forall m names curried values s v,
    accepted names curried values -> exists v', with_values m names curried values s v = Return v'.

(** ** The collector *)

Record httpMetricsCollector := mkCollector {
  hardcodedLabels : list string;
  metricLabels : list string
}.

Definition newHTTPMetricsCollector (hardcoded : list string) : httpMetricsCollector :=
  mkCollector hardcoded (hardcoded ++ ["code"; "method"; "tenant"]).

Definition instrumentedHandlerFactory : Type := httpMetricsCollector.
Definition NewInstrumentedHandlerFactory : list string -> instrumentedHandlerFactory :=
  newHTTPMetricsCollector.

(** Samples of children with the same labels, in order. *)
Definition records `{Prometheus V} (m : httpMetricsCollector) (labels : gmap string string) (values : list string)
    (samples : list (Metric * Sample)) (v : V) : flow V :=
  foldl (fun acc ms => acc ≫= with_values ms.1 (metricLabels m) labels values ms.2) (Return v) samples.

Definition missing (m : httpMetricsCollector) (labels : gmap string string) : option string :=
  head (filter (fun l => labels !! l = None) (hardcodedLabels m)).

Definition initializeMetrics `{Prometheus V} (m : httpMetricsCollector) (labels : gmap string string) (v : V) : flow V :=
  match missing m labels with
  | Some l => Panic ("missing hardcoded label: " +:+ l)
  | None => records m labels [""; ""; ""]
              [(requestCounter, Create); (requestSize, Create); (requestDuration, Create); (responseSize, Create)] v
  end.

Lemma records_ok `{PrometheusLaws V} m labels values samples v :
  accepted (metricLabels m) labels values -> exists v', records m labels values samples v = Return v'.
Proof.
  intros Ha. revert v. induction samples as [|[me s] samples IH]; intros v; [by exists v|].
  unfold records in *. cbn [foldl]. cbn.
  destruct (with_values_ok me (metricLabels m) labels values s v Ha) as [v' ->]. apply IH.
Qed.

(** ** The size of a request

    [r.Proto] and [r.Host] are not part of the requests of [Http.v]. *)

Class RequestLine := { r_Proto : Request -> string; r_Host : Request -> string }.

Definition len (s : string) : Z := Z.of_nat (String.length s).

Definition values_len (vs : list string) : Z := foldr (fun v s => len v + s) 0 vs.

Definition header_len (h : Header) : Z := map_fold (fun name vs s => len name + values_len vs + s) 0 h.

(** The sum of the lengths, which are those of strings in memory, fits an [int];
    the announced length of the body need not leave room for it. *)
Definition computeApproximateRequestSize `{UrlCodec} `{RequestLine} (r : Request) : Z :=
  let s := len (url_String (r_url r)) + len (r_method r) + len (r_Proto r) + header_len (r_header r)
           + len (r_Host r) in
  if r_contentLength r =? -1 then s else wrap64 (s + r_contentLength r).

(** ** Handlers *)

Section handlers.
Context {A V : Type} `{!Prometheus V} `{!UrlCodec} `{!RequestLine}.

(** The label maps that contexts refer to, the registry, and the state of the
    handlers behind. *)
Record IState := mkIState { labelMaps : gmap nat (gmap string string); registry : V; behind : A }.

(** What is read once [next.ServeHTTP(rw, r)] has returned, from the connection
    before and after it: the status and the byte count of chi's response writer
    and the clock, and the objects of the request (its URL and header are shared
    with the handlers behind, which write into them). *)
Class Serving := {
  rw_Status : Conn IState -> Conn IState -> Z;
  rw_BytesWritten : Conn IState -> Conn IState -> Z;
  since : Conn IState -> Conn IState -> Z;
  served : Request -> Conn IState -> Request
}.

Definition get_conn : M IState (Conn IState) := fun c => (Return c, c).

Definition put_labels (p : nat) (l : gmap string string) (c : Conn IState) : Conn IState :=
  mkConn (conn_w c) (mkIState (<[p := l]> (labelMaps (conn_st c))) (registry (conn_st c)) (behind (conn_st c))).

Definition newLabels (l : gmap string string) : M IState nat := fun c =>
  let p := fresh (dom (labelMaps (conn_st c))) in (Return p, put_labels p l c).

Definition loadLabels (p : nat) : M IState (gmap string string) := fun c =>
  (Return (default ∅ (labelMaps (conn_st c) !! p)), c).

(** [for k, v := range l { m[k] = v }]. *)
Definition setLabels (p : nat) (l : gmap string string) : M IState unit := fun c =>
  (Return tt, put_labels p (l ∪ default ∅ (labelMaps (conn_st c) !! p)) c).

Definition put_registry (v : V) (c : Conn IState) : Conn IState :=
  mkConn (conn_w c) (mkIState (labelMaps (conn_st c)) v (behind (conn_st c))).

Definition record_series (m : httpMetricsCollector) (me : Metric) (labels : gmap string string) (values : list string)
    (s : Sample) : M IState unit := fun c =>
  match with_values me (metricLabels m) labels values s (registry (conn_st c)) with
  | Return v => (Return tt, put_registry v c)
  | Panic msg => (Panic msg, c)
  end.

Definition unknown_labels : gmap string string := {[ "group" := "unknown"; "handler" := "unknown" ]}.

Definition NewHandler `{!Serving} (m : instrumentedHandlerFactory) (extraLabels : option (gmap string string))
    (next : Handler IState) : Handler IState := fun r =>
  let extraLabels := default unknown_labels extraLabels in
  requestLabels ← newLabels extraLabels;
  let r := map_ctx (with_extraLabels requestLabels) r in
  now ← get_conn;
  _ ← next r;
  rw ← get_conn;
  _ ← match ctx_extraLabels (r_ctx r) with
      | Some labels => ctxLabels ← loadLabels labels; setLabels requestLabels ctxLabels
      | None => mret tt
      end;
  let tenant := default "" (GetTenant (r_ctx r)) in
  let values := [Itoa (rw_Status now rw); r_method r; tenant] in
  labels ← loadLabels requestLabels;
  _ ← record_series m requestCounter labels values Inc;
  let size := computeApproximateRequestSize (served r rw) in
  _ ← record_series m requestSize labels values (Observe (to_float size));
  _ ← record_series m requestDuration labels values (Observe (Seconds (since now rw)));
  record_series m responseSize labels values (Observe (to_float (rw_BytesWritten now rw))).

(** No context has a nil map: the maps are made here and in [NewHandler]. *)
Definition InjectLabelsCtx (labels : gmap string string) : Middleware IState := fun handler r =>
  extraLabels ← match ctx_extraLabels (r_ctx r) with
                | Some l => mret l
                | None => newLabels ∅
                end;
  _ ← setLabels extraLabels labels;
  handler (map_ctx (with_extraLabels extraLabels) r).
End handlers.
Arguments IState A V : clear implicits.
Arguments Serving A V : clear implicits.

(** ** What a served request records *)

Section facts.
Context {A V : Type} `{!Prometheus V} `{!UrlCodec} `{!RequestLine} `{!Serving A V}.
Implicit Types (c : Conn (IState A V)) (inner : Handler (IState A V)).

Ltac run := unfold mbind, mret, M_bind, M_ret, setLabels, loadLabels, newLabels, get_conn; cbv beta iota zeta.

(** The label maps are only written by the definitions above. *)
Definition keeps_labels inner : Prop :=
  forall r c, labelMaps (conn_st (inner r c).2) = labelMaps (conn_st c).

(** Later labels win. *)
Definition overlay (l : gmap string string) (ls : list (gmap string string)) : gmap string string :=
  foldl (fun acc l => l ∪ acc) l ls.

Lemma put_labels_twice p l1 l2 c : put_labels p l2 (put_labels p l1 c) = put_labels p l2 c.
Proof. unfold put_labels. cbn. by rewrite insert_insert_eq. Qed.

Lemma put_labels_id p l c : labelMaps (conn_st c) !! p = Some l -> put_labels p l c = c.
Proof. destruct c as [w [h v b]]. unfold put_labels. cbn. intros. by rewrite insert_id. Qed.

Lemma lookup_put_labels p l c : labelMaps (conn_st (put_labels p l c)) !! p = Some l.
Proof. unfold put_labels. cbn. apply lookup_insert_eq. Qed.

Lemma with_extraLabels_id r p : ctx_extraLabels (r_ctx r) = Some p -> map_ctx (with_extraLabels p) r = r.
Proof. destruct r as [????? ? [] ??]. cbn. by intros ->. Qed.

(** Middlewares that inject labels write into the map the context refers to. *)
Lemma inject_chain ls inner r c p l :
  ctx_extraLabels (r_ctx r) = Some p -> labelMaps (conn_st c) !! p = Some l ->
  chain (InjectLabelsCtx <$> ls) inner r c = inner r (put_labels p (overlay l ls) c).
Proof.
  intros Hp. revert c l. induction ls as [|l1 ls IH]; intros c l Hl; cbn.
  - by rewrite put_labels_id.
  - unfold InjectLabelsCtx at 1. rewrite Hp. run. rewrite Hl, with_extraLabels_id by done. cbn [default].
    rewrite (IH _ (l1 ∪ l)) by apply lookup_put_labels. by rewrite put_labels_twice.
Qed.

Definition request_samples (r : Request) (now rw : Conn (IState A V)) : list (Metric * Sample) :=
  [(requestCounter, Inc);
   (requestSize, Observe (to_float (computeApproximateRequestSize (served r rw))));
   (requestDuration, Observe (Seconds (since now rw)));
   (responseSize, Observe (to_float (rw_BytesWritten now rw)))].

Definition request_values (r : Request) (now rw : Conn (IState A V)) : list string :=
  [Itoa (rw_Status now rw); r_method r; default "" (GetTenant (r_ctx r))].

Definition record_request (m : httpMetricsCollector) (labels : gmap string string) (r : Request)
    (now rw : Conn (IState A V)) : M (IState A V) unit :=
  _ ← record_series m requestCounter labels (request_values r now rw) Inc;
  _ ← record_series m requestSize labels (request_values r now rw)
        (Observe (to_float (computeApproximateRequestSize (served r rw))));
  _ ← record_series m requestDuration labels (request_values r now rw) (Observe (Seconds (since now rw)));
  record_series m responseSize labels (request_values r now rw) (Observe (to_float (rw_BytesWritten now rw))).

Lemma record_request_spec m labels r now rw c c' :
  record_request m labels r now rw c = (Return tt, c') <->
  exists v', records m labels (request_values r now rw) (request_samples r now rw) (registry (conn_st c)) = Return v' /\
    c' = put_registry v' c.
Proof.
  unfold record_request, records, request_samples, record_series. run. cbn.
  destruct (with_values requestCounter _ _ _ _ _) as [v1|]; cbn; [|naive_solver].
  destruct (with_values requestSize _ _ _ _ _) as [v2|]; cbn; [|naive_solver].
  destruct (with_values requestDuration _ _ _ _ _) as [v3|]; cbn; [|naive_solver].
  destruct (with_values responseSize _ _ _ _ _) as [v4|]; cbn; naive_solver.
Qed.

(** The series are recorded with the labels as they are when the handler behind
    has returned, and with the tenant of the request as it came in. *)
Lemma NewHandler_runs m extra next r c :
  let p := fresh (dom (labelMaps (conn_st c))) in
  let r' := map_ctx (with_extraLabels p) r in
  let now := put_labels p (default unknown_labels extra) c in
  let rw := (next r' now).2 in
  let labels := default ∅ (labelMaps (conn_st rw) !! p) in
  NewHandler m extra next r c =
    match (next r' now).1 with
    | Panic msg => (Panic msg, rw)
    | Return _ => record_request m labels r' now rw (put_labels p labels rw)
    end.
Proof.
  intros p r' now rw labels. subst labels rw. unfold NewHandler. run. fold p r' now.
  destruct (next r' now) as [[[]|msg] rw]; [|done]. cbn [fst snd].
  change (ctx_extraLabels (r_ctx r')) with (Some p). cbv beta iota zeta.
  set (labels := default ∅ (labelMaps (conn_st rw) !! p)).
  assert (labels ∪ labels = labels) as -> by apply map_union_idemp.
  rewrite lookup_put_labels. reflexivity.
Qed.

Lemma NewHandler_serves m extra ls inner r c :
  keeps_labels inner ->
  let p := fresh (dom (labelMaps (conn_st c))) in
  let base := default unknown_labels extra in
  let labels := overlay base ls in
  let r' := map_ctx (with_extraLabels p) r in
  let now := put_labels p base c in
  let rw := (inner r' (put_labels p labels c)).2 in
  NewHandler m extra (chain (InjectLabelsCtx <$> ls) inner) r c =
    match (inner r' (put_labels p labels c)).1 with
    | Panic msg => (Panic msg, rw)
    | Return _ => record_request m labels r' now rw rw
    end.
Proof.
  intros Hk p base labels r' now rw.
  pose proof (Hk r' (put_labels p labels c)) as Hl. fold rw in Hl.
  assert (chain (InjectLabelsCtx <$> ls) inner r' now = inner r' (put_labels p labels c)) as Hc.
  { rewrite (inject_chain _ _ _ _ p base) by (done || apply lookup_put_labels).
    unfold now. by rewrite put_labels_twice. }
  rewrite NewHandler_runs. cbv zeta. fold p base r' now. rewrite Hc. fold rw.
  assert (labelMaps (conn_st rw) !! p = Some labels) as Hp by (rewrite Hl; apply lookup_put_labels).
  rewrite Hp. change (default ∅ (Some labels)) with labels. by rewrite (put_labels_id p labels rw) by done.
Qed.

Lemma dom_overlay (ks : gset string) l ls :
  dom l = ks -> Forall (fun l' => dom l' ⊆ ks) ls -> dom (overlay l ls) = ks.
Proof.
  intros Hl Hls. revert l Hl. induction Hls as [|l' ls Hl' Hls IH]; intros l Hl; [done|].
  apply (IH (l' ∪ l)). rewrite dom_union_L. set_solver.
Qed.

Lemma keeps_other_labels inner r c p q l : keeps_labels inner -> q <> p ->
  labelMaps (conn_st (inner r (put_labels p l c)).2) !! q = labelMaps (conn_st c) !! q.
Proof. intros Hk Hq. rewrite Hk. by apply lookup_insert_ne. Qed.

Definition group_handler : gset string := {["group"; "handler"]}.

Lemma accepted_group_handler labels values :
  dom labels = group_handler -> map_Forall (fun _ => valid_value) labels ->
  Forall valid_value values -> length values = 3%nat ->
  accepted (metricLabels (NewInstrumentedHandlerFactory ["group"; "handler"])) labels values.
Proof.
  intros Hd Hl Hv Hlen. split_and!; [| |by rewrite <-size_dom, Hd, Hlen|done|done].
  - by apply (bool_decide_unpack _).
  - rewrite Hd. by apply (bool_decide_unpack _).
Qed.

(** C29: A request that passes the instrumented handler of an API with the group
    and handler labels, and then any middlewares that inject labels, reaches the
    handler behind with a label map of its own that holds the injected labels.
    When that handler returns, the request is recorded exactly once in each of
    the four vectors, all under these labels and the same status, method and
    tenant; no Prometheus call panics, and the response stays as it was.  When it
    panics nothing is recorded.  The maps of all other requests are untouched. *)
Theorem instrumented_request `{!PrometheusLaws V} extra ls inner r c out rw :
  let m := NewInstrumentedHandlerFactory ["group"; "handler"] in
  let p := fresh (dom (labelMaps (conn_st c))) in
  let base := default unknown_labels extra in
  let labels := overlay base ls in
  let r' := map_ctx (with_extraLabels p) r in
  let now := put_labels p base c in
  keeps_labels inner ->
  inner r' (put_labels p labels c) = (out, rw) ->
  dom base = group_handler -> Forall (fun l => dom l ⊆ group_handler) ls ->
  map_Forall (fun _ => valid_value) labels -> Forall valid_value (request_values r' now rw) ->
  match out with
  | Panic msg => NewHandler m extra (chain (InjectLabelsCtx <$> ls) inner) r c = (Panic msg, rw)
  | Return _ => exists v',
      records m labels (request_values r' now rw) (request_samples r' now rw) (registry (conn_st rw)) = Return v' /\
      NewHandler m extra (chain (InjectLabelsCtx <$> ls) inner) r c = (Return tt, put_registry v' rw)
  end /\
  (forall q, q <> p -> labelMaps (conn_st rw) !! q = labelMaps (conn_st c) !! q).
Proof.
  intros m p base labels r' now Hk Hin Hd Hls Hl Hv. split.
  - pose proof (NewHandler_serves m extra ls inner r c Hk) as E. cbv zeta in E.
    fold p base labels r' now in E. rewrite Hin in E. destruct out as [[]|msg]; [|done].
    destruct (records_ok m labels (request_values r' now rw) (request_samples r' now rw) (registry (conn_st rw)))
      as [v' Hr].
    { by apply accepted_group_handler; [apply dom_overlay| | |]. }
    exists v'. split; [done|]. etrans; [exact E|]. apply record_request_spec. by exists v'.
  - intros q Hq. rewrite <-(keeps_other_labels inner r' c p q labels) by done. by rewrite Hin.
Qed.

(** The last thing a request that is answered leaves in the registry is one sample
    in each vector, with its method and this tenant. *)
Definition recorded_as (m : httpMetricsCollector) (tenant : string) (h : Handler (IState A V)) (r : Request) : Prop :=
  forall c c', h r c = (Return tt, c') ->
  exists labels status size latency bytes v,
    records m labels [Itoa status; r_method r; tenant]
      [(requestCounter, Inc); (requestSize, Observe size); (requestDuration, Observe latency);
       (responseSize, Observe bytes)] v
    = Return (registry (conn_st c')).

Lemma NewHandler_records_as m extra next r :
  recorded_as m (default "" (GetTenant (r_ctx r))) (NewHandler m extra next) r.
Proof.
  intros c c'. rewrite NewHandler_runs. cbv zeta.
  set (p := fresh _). set (now := put_labels p _ c). set (r' := map_ctx _ r).
  destruct (next r' now) as [[[]|msg] rw]; cbn [fst snd]; [|discriminate].
  intros E. apply record_request_spec in E as (v' & Hr & ->). do 6 eexists. exact Hr.
Qed.

(** C30: In the metrics APIs the instrumented handler is outside of the middleware
    that puts the tenants into the context, so a request that comes in without a
    tenant is recorded under the empty tenant, whatever the routes, middlewares
    and upstreams behind the handler do; in the logs and traces APIs the handler
    is inside, and an admitted request is recorded under its tenants. *)
Theorem tenant_of_recorded_requests m extra tenantHeader next r :
  GetTenant (r_ctx r) = None ->
  recorded_as m "" (NewHandler m extra (WithTenantFromHeader tenantHeader next)) r /\
  recorded_as m "" (NewHandler m extra next) r /\
  (let ts := collect_tenants (header_values (r_header r) tenantHeader) in
   valid_tenants ts ->
   recorded_as m (Join ts "|") (WithTenantFromHeader tenantHeader (NewHandler m extra next)) r).
Proof.
  intros Hr. split_and!.
  - pose proof (NewHandler_records_as m extra (WithTenantFromHeader tenantHeader next) r) as E. by rewrite Hr in E.
  - pose proof (NewHandler_records_as m extra next r) as E. by rewrite Hr in E.
  - intros ts Hts. destruct (tenant_header_facts tenantHeader r) as [Hf _].
    specialize (Hf Hts _ (NewHandler m extra next)). intros c c' E. rewrite Hf in E.
    by apply (NewHandler_records_as m extra next (map_ctx (with_tenant (Join ts "|")) r)) in E.
Qed.

Lemma request_size_exact r :
  let s := len (url_String (r_url r)) + len (r_method r) + len (r_Proto r) + header_len (r_header r)
           + len (r_Host r) in
  - 1 <= r_contentLength r -> 0 <= s -> s + r_contentLength r < 2 ^ 63 ->
  computeApproximateRequestSize r = s + Z.max 0 (r_contentLength r).
Proof.
  cbv zeta. unfold computeApproximateRequestSize. set (s := _ + len (r_Host r)). intros.
  destruct (Z.eqb_spec (r_contentLength r) (-1)) as [->|Hne]; [cbn; lia|].
  rewrite wrap64_id by (split; lia). lia.
Qed.

(** A request that announces the longest body there is counts with a negative
    size. *)
Lemma request_size_negative r :
  let s := len (url_String (r_url r)) + len (r_method r) + len (r_Proto r) + header_len (r_header r)
           + len (r_Host r) in
  0 < s < 2 ^ 63 -> r_contentLength r = 2 ^ 63 - 1 -> computeApproximateRequestSize r < 0.
Proof.
  cbv zeta. unfold computeApproximateRequestSize. set (s := _ + len (r_Host r)). intros Hs ->. cbn [Z.eqb].
  replace (2 ^ 63 - 1 =? -1) with false by reflexivity. unfold wrap64.
  replace (s + (2 ^ 63 - 1) + 2 ^ 63) with (s - 1 + 1 * 2 ^ 64) by lia.
  rewrite Z.mod_add, Z.mod_small by lia. lia.
Qed.
End facts.

(** ** The series made at start: the tables of [main.go] *)

Record groupHandler := mkGroupHandler { group : string; handler : string }.

Global Instance groupHandler_eq_dec : EqDecision groupHandler.
Proof. solve_decision. Defined.

Definition legacyMetricsGroup : list groupHandler :=
  [mkGroupHandler "metricslegacy" "query"; mkGroupHandler "metricslegacy" "query_range"].

Definition groupMetricsV1 : string := "metricsv1".

Definition metricsV1Group : list groupHandler :=
  [mkGroupHandler groupMetricsV1 "ui";
   mkGroupHandler groupMetricsV1 "query";
   mkGroupHandler groupMetricsV1 "query_range";
   mkGroupHandler groupMetricsV1 "series";
   mkGroupHandler groupMetricsV1 "labels";
   mkGroupHandler groupMetricsV1 "labelvalues";
   mkGroupHandler groupMetricsV1 "receive";
   mkGroupHandler groupMetricsV1 "rules";
   mkGroupHandler groupMetricsV1 "rules-raw";
   mkGroupHandler groupMetricsV1 "alerts";
   mkGroupHandler groupMetricsV1 "silences"].

Definition group_labels (gh : groupHandler) : gmap string string :=
  {[ "group" := group gh; "handler" := handler gh ]}.

(** The loops of [main]. *)
Definition initializeHandlers `{Prometheus V} (m : instrumentedHandlerFactory) (v : V) : flow V :=
  foldl (fun acc gh => acc ≫= initializeMetrics m (group_labels gh)) (Return v)
    (metricsV1Group ++ legacyMetricsGroup).

(** The labels that the groups of [MetricsV1.NewHandler] and of
    [MetricsLegacy.NewHandler] inject, in the order of their routes; the group of
    [/graph] injects none. *)
Definition metricsv1_injected : list (string * groupHandler) :=
  [(MetricsV1.QueryRoute, mkGroupHandler groupMetricsV1 "query");
   (MetricsV1.QueryRangeRoute, mkGroupHandler groupMetricsV1 "query_range");
   (MetricsV1.SeriesRoute, mkGroupHandler groupMetricsV1 "series");
   (MetricsV1.LabelNamesRoute, mkGroupHandler groupMetricsV1 "label_names");
   (MetricsV1.LabelValuesRoute, mkGroupHandler groupMetricsV1 "label_values");
   (MetricsV1.RulesRoute, mkGroupHandler groupMetricsV1 "rules");
   ("/*", mkGroupHandler groupMetricsV1 "ui");
   (MetricsV1.ReceiveRoute, mkGroupHandler groupMetricsV1 "receive");
   (MetricsV1.RulesRawRoute, mkGroupHandler groupMetricsV1 "rules");
   (MetricsV1.RulesRawRoute, mkGroupHandler groupMetricsV1 "rules-raw");
   (MetricsV1.AlertmanagerAlertsRoute, mkGroupHandler groupMetricsV1 "alerts");
   (MetricsV1.AlertmanagerSilencesRoute, mkGroupHandler groupMetricsV1 "silences");
   (MetricsV1.AlertmanagerSilencesRoute, mkGroupHandler groupMetricsV1 "silences");
   (MetricsV1.AlertmanagerSilenceRoute, mkGroupHandler groupMetricsV1 "silence");
   (MetricsV1.AlertmanagerSilenceRoute, mkGroupHandler groupMetricsV1 "silence")].

Definition legacy_injected : list (string * groupHandler) :=
  [(MetricsV1.QueryRoute, mkGroupHandler "metricslegacy" "query");
   (MetricsV1.QueryRangeRoute, mkGroupHandler "metricslegacy" "query_range")].

(** ** A registry that keeps a trace *)

Definition Trace : Type := list (Metric * gmap string string * list string * Sample).

Global Instance Metric_eq_dec : EqDecision Metric.
Proof. solve_decision. Defined.
Global Instance spec_float_eq_dec : EqDecision spec_float.
Proof. solve_decision. Defined.
Global Instance Sample_eq_dec : EqDecision Sample.
Proof. solve_decision. Defined.

Definition accepts (names : list string) (curried : gmap string string) (values : list string) : bool :=
  bool_decide (NoDup names) && bool_decide (dom curried ⊆ (list_to_set names : gset string)) &&
  (size curried + length values =? length names)%nat.

Local Instance trace_registry : Prometheus Trace := {|
  with_values := fun m names curried values s v =>
    if accepts names curried values then Return (v ++ [(m, curried, values, s)])
    else Panic "inconsistent label cardinality";
  valid_value := fun _ => True
|}.

Local Instance trace_laws : PrometheusLaws Trace.
Proof.
  intros m names curried values s v (H1 & H2 & H3 & _). cbn.
  replace (accepts names curried values) with true; [by eexists|].
  unfold accepts. by rewrite !bool_decide_true, H3, Nat.eqb_refl.
Qed.

(** The series of a handler are there before its first request. *)
Definition initialized (v : Trace) (gh : groupHandler) : bool :=
  forallb (fun m => bool_decide ((m, group_labels gh, [""; ""; ""], Create) ∈ v))
    [requestCounter; requestSize; requestDuration; responseSize].

Definition started_registry : Trace :=
  match initializeHandlers (NewInstrumentedHandlerFactory ["group"; "handler"]) [] with
  | Return v => v
  | Panic _ => []
  end.

(** The tables of the injected labels name the routes of the metrics API. *)
Lemma metricsv1_injected_routes {S} `{MetricsEnforcer.Alertmanager} `{MatcherPrinter} `{MetricsEnforcer.PromQL} `{Yaml} `{UrlCodec}
    read write rules am (up : MetricsV1.Upstreams S) opts rh :
  MetricsV1.up_rules up (url_String rules) = Some rh ->
  map rt_pattern (MetricsV1.NewHandler (MetricsV1.mkEndpoints (Some read) (Some write) (Some rules) (Some am)) up opts)
  = metricsv1_injected.*1.
Proof. intros Hr. unfold MetricsV1.NewHandler. cbn [MetricsV1.RulesEndpoint]. by rewrite Hr. Qed.

Lemma legacy_injected_routes {S} `{UrlCodec} url (up : Handler S) opts :
  map rt_pattern (MetricsLegacy.NewHandler url up opts) = legacy_injected.*1 ++ ["/graph"].
Proof. done. Qed.

(** At start the series of the groups and handlers of the two tables of
    [main.go] are made, so that alerts on absent series stay silent without
    traffic; but the routes of label names, of label values and of a silence
    inject handlers that are not in the tables, and the handlers [labels] and
    [labelvalues] of the table are injected by no route. *)
Theorem series_made_at_start :
  initializeHandlers (NewInstrumentedHandlerFactory ["group"; "handler"]) [] = Return started_registry /\
  Forall (fun gh => initialized started_registry gh = true) (metricsV1Group ++ legacyMetricsGroup) /\
  Forall (fun rt => initialized started_registry rt.2 = true <->
            rt.1 ∉ [MetricsV1.LabelNamesRoute; MetricsV1.LabelValuesRoute; MetricsV1.AlertmanagerSilenceRoute])
    (metricsv1_injected ++ legacy_injected) /\
  Forall (fun gh => gh ∉ (metricsv1_injected ++ legacy_injected).*2 <->
            gh ∈ [mkGroupHandler groupMetricsV1 "labels"; mkGroupHandler groupMetricsV1 "labelvalues"])
    (metricsV1Group ++ legacyMetricsGroup).
Proof.
  split_and!.
  - vm_cast_no_check (@eq_refl (flow Trace) (Return started_registry)).
  - apply (bool_decide_eq_true_1 _). vm_compute. reflexivity.
  - apply (bool_decide_eq_true_1 _). vm_compute. reflexivity.
  - apply (bool_decide_eq_true_1 _). vm_compute. reflexivity.
Qed.

(** ** Runs *)

Local Instance demo_url_codec : UrlCodec := simple_urls.
Local Instance demo_line : RequestLine := {| r_Proto := fun _ => "HTTP/1.1"; r_Host := fun _ => "gw" |}.
Local Instance demo_serving : Serving unit Trace := {|
  rw_Status := fun _ rw => match w_sent (conn_w rw) with Some (code, _) => code | None => 0 end;
  rw_BytesWritten := fun _ _ => 2;
  since := fun _ _ => 1500000000;
  served := fun r _ => r
|}.

Definition demo_factory : instrumentedHandlerFactory := NewInstrumentedHandlerFactory ["group"; "handler"].

Definition demo_conn : Conn (IState unit Trace) := mkConn fresh_writer (mkIState ∅ [] tt).

Definition demo_query : Request :=
  mkReq "GET" (mkURL "" "" "/api/v1/query" "query=up") (header_set ∅ "THANOS-TENANT" "acme") (Ok "") 0 None
    background ∅ [].

Definition query_handler : groupHandler := mkGroupHandler groupMetricsV1 "query".

(** An upstream that answers with the tenant it was called for. *)
Definition tenant_upstream : Handler (IState unit Trace) := fun r =>
  _ ← WriteHeader 200; Write (Raw (default "nobody" (GetTenant (r_ctx r)))).

Definition upstream_answer : Conn (IState unit Trace) :=
  (tenant_upstream (map_ctx (with_extraLabels 0) demo_query)
     (put_labels 0 (overlay unknown_labels [group_labels query_handler]) demo_conn)).2.

(** Four series, under the labels of the route and of the answer. *)
Definition query_records (v : Trace) : bool :=
  bool_decide (length v = 4%nat /\
    Forall (fun e => e.1.1.2 = group_labels query_handler /\ e.1.2 = ["200"; "GET"; ""]) v).

Lemma query_records_ok v : query_records v = true -> length v = 4%nat /\
  Forall (fun e => e.1.1.2 = group_labels query_handler /\ e.1.2 = ["200"; "GET"; ""]) v.
Proof. apply bool_decide_eq_true_1. Qed.

Lemma instrumented_request_witness :
  exists v', NewHandler demo_factory None (chain (InjectLabelsCtx <$> [group_labels query_handler]) tenant_upstream)
               demo_query demo_conn = (Return tt, put_registry v' upstream_answer) /\
    length v' = 4%nat /\
    Forall (fun e => e.1.1.2 = group_labels query_handler /\ e.1.2 = ["200"; "GET"; ""]) v'.
Proof.
  destruct (instrumented_request None [group_labels query_handler] tenant_upstream demo_query demo_conn
              (Return tt) upstream_answer) as [(v' & Hr & Hn) _].
  - done.
  - vm_compute. reflexivity.
  - apply (bool_decide_eq_true_1 _). vm_compute. reflexivity.
  - constructor; [|constructor]. apply (bool_decide_eq_true_1 _). vm_compute. reflexivity.
  - by intros ???.
  - by repeat constructor.
  - exists v'. split; [exact Hn|]. apply query_records_ok.
    match type of Hr with ?m = _ =>
      assert (match m with Return v => query_records v | Panic _ => false end = true) as Hq
        by vm_cast_no_check (@eq_refl bool true) end.
    rewrite Hr in Hq. exact Hq.
Defined.

(** The upstream answers for the tenant of the header; the registry does not have it. *)
Definition demo_answered : Conn (IState unit Trace) :=
  (NewHandler demo_factory None (WithTenantFromHeader "THANOS-TENANT" tenant_upstream) demo_query demo_conn).2.

Lemma tenant_of_recorded_requests_witness :
  w_body (conn_w demo_answered) = [Raw "acme"] /\
  (exists labels status size latency bytes v,
     records demo_factory labels [Itoa status; "GET"; ""]
       [(requestCounter, Inc); (requestSize, Observe size); (requestDuration, Observe latency);
        (responseSize, Observe bytes)] v
     = Return (registry (conn_st demo_answered))) /\
  recorded_as demo_factory "acme"
    (WithTenantFromHeader "THANOS-TENANT" (NewHandler demo_factory None tenant_upstream)) demo_query.
Proof.
  destruct (tenant_of_recorded_requests demo_factory None "THANOS-TENANT" tenant_upstream demo_query) as (H1 & _ & H3);
    [reflexivity|].
  split; [reflexivity|]. split.
  - apply (H1 demo_conn). vm_compute. reflexivity.
  - apply H3. assert (valid_tenants ["acme"]) as Hv; [|exact Hv].
    split; [vm_compute; lia|]. split; [|apply NoDup_singleton].
    repeat constructor; vm_compute; lia || reflexivity.
Defined.
