(* ===== verification/LogsRoutes.v ===== *)
(** * The logs API: [api/logs/v1/http.go]

    The options of the handler and its route table. *)

From stdpp Require Import base tactics option list gmap strings.
From Stdlib Require Import Lia Ascii.
From S2P Require Import Prelude GoStrings Labels Url Strconv Http Proxy Router MetricsRoutes.

Module LogsV1.

Definition labelRoute : string := "/loki/api/v1/label".
Definition labelsRoute : string := "/loki/api/v1/labels".
Definition labelValuesRoute : string := "/loki/api/v1/label/{name}/values".
Definition queryRoute : string := "/loki/api/v1/query".
Definition queryRangeRoute : string := "/loki/api/v1/query_range".
Definition seriesRoute : string := "/loki/api/v1/series".
Definition tailRoute : string := "/loki/api/v1/tail".
Definition rulesRoute : string := "/loki/api/v1/rules".
Definition rulesPerNamespaceRoute : string := "/loki/api/v1/rules/{namespace}".
Definition rulesPerGroupNameRoute : string := "/loki/api/v1/rules/{namespace}/{groupName}".
Definition volumeRoute : string := "/loki/api/v1/index/volume".
Definition volumeRangeRoute : string := "/loki/api/v1/index/volume_range".
Definition patternsRoute : string := "/loki/api/v1/patterns".
Definition detectedLabelsRoute : string := "/loki/api/v1/detected_labels".
Definition detectedFieldRoute : string := "/loki/api/v1/detected_field".
Definition detectedFieldsRoute : string := "/loki/api/v1/detected_fields".
Definition otlpRoute : string := "/otlp/v1/logs".
Definition pushRoute : string := "/loki/api/v1/push".
Definition prometheusRulesRoute : string := "/prometheus/api/v1/rules".
Definition prometheusAlertsRoute : string := "/prometheus/api/v1/alerts".
Definition promQueryRoute : string := "/api/prom/query".
Definition promLabelRoute : string := "/api/prom/label".
Definition promLabelValuesRoute : string := "/api/prom/label/{name}/values".
Definition promSeriesRoute : string := "/api/prom/series".
Definition promTailRoute : string := "/api/prom/tail".
Definition promRulesRoute : string := "/api/prom/rules".
Definition promRulesPerNamespaceRoute : string := "/api/prom/rules/{namespace}".
Definition promRulesPerGroupNameRoute : string := "/api/prom/rules/{namespace}/{groupName}".

Section handler.
Context {S : Type}.

(** Without the logger, the registry and the instrumenter. *)
Record handlerConfiguration := mkHC {
  rulesLabelFilters : gmap string (list string);
  readMiddlewares : list (Middleware S);
  writeMiddlewares : list (Middleware S);
  rulesReadMiddlewares : list (Middleware S);
  rulesWriteMiddlewares : list (Middleware S)
}.

Definition HandlerOption : Type := handlerConfiguration -> handlerConfiguration.
Definition default_configuration : handlerConfiguration := mkHC ∅ [] [] [] [].

Definition WithReadMiddleware (m : Middleware S) : HandlerOption := fun c =>
  mkHC (rulesLabelFilters c) (readMiddlewares c ++ [m]) (writeMiddlewares c) (rulesReadMiddlewares c)
    (rulesWriteMiddlewares c).
Definition WithWriteMiddleware (m : Middleware S) : HandlerOption := fun c =>
  mkHC (rulesLabelFilters c) (readMiddlewares c) (writeMiddlewares c ++ [m]) (rulesReadMiddlewares c)
    (rulesWriteMiddlewares c).
Definition WithRulesReadMiddleware (m : Middleware S) : HandlerOption := fun c =>
  mkHC (rulesLabelFilters c) (readMiddlewares c) (writeMiddlewares c) (rulesReadMiddlewares c ++ [m])
    (rulesWriteMiddlewares c).
Definition WithRulesWriteMiddleware (m : Middleware S) : HandlerOption := fun c =>
  mkHC (rulesLabelFilters c) (readMiddlewares c) (writeMiddlewares c) (rulesReadMiddlewares c)
    (rulesWriteMiddlewares c ++ [m]).
Definition WithGlobalMiddleware (ms : list (Middleware S)) : HandlerOption := fun c =>
  mkHC (rulesLabelFilters c) (readMiddlewares c ++ ms) (writeMiddlewares c ++ ms) (rulesReadMiddlewares c)
    (rulesWriteMiddlewares c).
Definition WithRulesLabelFilters (f : gmap string (list string)) : HandlerOption := fun c =>
  mkHC f (readMiddlewares c) (writeMiddlewares c) (rulesReadMiddlewares c) (rulesWriteMiddlewares c).

(** ** The routes

    The instrumented handlers only record metrics around their proxy. *)

Definition prefix : string := "/api/logs/v1".

Definition read_routes (c : handlerConfiguration) (up : Handler S) (endpoint : URL) : Router S :=
  let proxy := ReverseProxy (MetricsV1.endpoint_director endpoint) up in
  Group (readMiddlewares c ++ [StripPrefix prefix])
    ((fun pattern => Handle pattern proxy) <$>
      [queryRoute; queryRangeRoute; labelRoute; labelsRoute; volumeRoute; volumeRangeRoute;
       labelValuesRoute; seriesRoute; promQueryRoute; promLabelRoute; promLabelValuesRoute;
       promSeriesRoute; patternsRoute; detectedLabelsRoute; detectedFieldRoute; detectedFieldsRoute]).

Definition rules_read_routes (c : handlerConfiguration) (up : Handler S) (endpoint : URL) : Router S :=
  let proxy := ReverseProxy (MetricsV1.endpoint_director endpoint) up in
  Group (readMiddlewares c ++ rulesReadMiddlewares c ++ [StripPrefix prefix])
    ((fun pattern => Method "GET" pattern proxy) <$>
      [rulesRoute; rulesPerNamespaceRoute; rulesPerGroupNameRoute; prometheusRulesRoute;
       prometheusAlertsRoute; promRulesRoute; promRulesPerNamespaceRoute; promRulesPerGroupNameRoute]).

(** The group of the write routes does not strip the prefix. *)
Definition rules_write_routes (c : handlerConfiguration) (up : Handler S) (endpoint : URL) : Router S :=
  let proxy := ReverseProxy (MetricsV1.endpoint_director endpoint) up in
  Group (writeMiddlewares c ++ rulesWriteMiddlewares c)
    [Method "POST" rulesPerNamespaceRoute proxy;
     Method "DELETE" rulesPerNamespaceRoute proxy;
     Method "DELETE" rulesPerGroupNameRoute proxy;
     Method "POST" promRulesPerNamespaceRoute proxy;
     Method "DELETE" promRulesPerNamespaceRoute proxy;
     Method "DELETE" promRulesPerGroupNameRoute proxy].

Definition tail_routes (c : handlerConfiguration) (up : Handler S) (endpoint : URL) : Router S :=
  let proxy := ReverseProxy (MetricsV1.endpoint_director endpoint) up in
  Group (readMiddlewares c ++ [StripPrefix prefix]) [Handle tailRoute proxy; Handle promTailRoute proxy].

Definition write_routes (c : handlerConfiguration) (up : Handler S) (endpoint : URL) : Router S :=
  let proxy := ReverseProxy (MetricsV1.endpoint_director endpoint) up in
  Group (writeMiddlewares c ++ [StripPrefix prefix]) [Handle otlpRoute proxy; Handle pushRoute proxy].

(** What the transports to the endpoints answer. *)
Record Upstreams := mkUpstreams {
  up_read : Handler S;
  up_tail : Handler S;
  up_write : Handler S;
  up_rules : Handler S
}.

Definition NewHandler (read tail write rules : option URL) (rulesReadOnly : bool) (up : Upstreams)
    (opts : list HandlerOption) : Router S :=
  let c := foldl (fun c o => o c) default_configuration opts in
  MetricsV1.endpoint_routes read (read_routes c (up_read up)) ++
  MetricsV1.endpoint_routes rules (fun u =>
    rules_read_routes c (up_rules up) u ++
    if rulesReadOnly then [] else rules_write_routes c (up_rules up) u) ++
  MetricsV1.endpoint_routes tail (tail_routes c (up_tail up)) ++
  MetricsV1.endpoint_routes write (write_routes c (up_write up)).
End handler.
Arguments handlerConfiguration S : clear implicits.
Arguments HandlerOption S : clear implicits.
Arguments Upstreams S : clear implicits.
End LogsV1.
