(* ===== verification/TracesRoutes.v ===== *)
(** * The traces API: [NewV2Handler] and the rewriting of the Jaeger UI

    The rest of [api/traces/v1/http.go]; the templated upstream is in [Traces]. *)

From stdpp Require Import base tactics option list gmap strings pretty.
From Stdlib Require Import ZArith Lia Ascii.
From S2P Require Import Prelude GoStrings Labels Url Strconv Http Proxy Router MetricsRoutes Traces.

(** ** The base tag of the UI *)

(** [http.Response], with the header of the request it answers. *)
Record Response := mkResponse {
  res_StatusCode : Z;
  res_Header : Header;
  res_Body : result string;
  res_RequestHeader : Header
}.

(** The rest of a text after a word, and after one or more spaces. *)
Definition eat (w s : string) : option string := if HasPrefix s w then Some (str_drop (String.length w) s) else None.

Fixpoint skip_spaces (s : string) : string :=
  match s with
  | String c s' => if Ascii.eqb c " " then skip_spaces s' else s
  | EmptyString => ""
  end.

Definition eat_spaces (s : string) : option string :=
  match s with
  | String c s => if Ascii.eqb c " " then Some (skip_spaces s) else None
  | EmptyString => None
  end.

(** What follows a match of [baseTagRegexp] at the start of a text. *)
Definition base_tag (s : string) : option string :=
  s ← eat "<base" s; s ← eat_spaces s;
  s ← eat ("href=" +:+ dquote +:+ "/" +:+ dquote) s; s ← eat_spaces s;
  s ← eat ("data-inject-target=" +:+ dquote +:+ "BASE_URL" +:+ dquote) s; s ← eat_spaces s;
  eat "/>" s.

(** A replacement refers to groups by [$]: the expression has none but the match
    itself, [$0]; other names stand for nothing. *)
Definition name_char (c : ascii) : bool := is_lower c || is_upper c || is_digit c || Ascii.eqb c "_".

Fixpoint take_name (s : string) : string * string :=
  match s with
  | String c s' => if name_char c then let '(a, b) := take_name s' in (String c a, b) else ("", s)
  | EmptyString => ("", "")
  end.

Definition group_text (whole name : string) : string :=
  if String.eqb name "0" then whole else "".

Fixpoint Expand (fuel : nat) (whole template : string) : string :=
  match fuel, template with
  | Datatypes.S fuel, String c s =>
      if Ascii.eqb c "$" then
        match s with
        | String d s' =>
            if Ascii.eqb d "$" then String "$" (Expand fuel whole s')
            else
              let braced := Ascii.eqb d "{" in
              let '(name, rest) := take_name (if braced then s' else s) in
              if String.eqb name "" then String "$" (Expand fuel whole s)
              else if braced then
                match rest with
                | String e rest' =>
                    if Ascii.eqb e "}" then group_text whole name +:+ Expand fuel whole rest'
                    else String "$" (Expand fuel whole s)
                | EmptyString => String "$" (Expand fuel whole s)
                end
              else group_text whole name +:+ Expand fuel whole rest
        | EmptyString => "$"
        end
      else String c (Expand fuel whole s)
  | _, _ => ""
  end.

(** [ReplaceAllString]: leftmost matches, from left to right. *)
Fixpoint replace_base_tags (fuel : nat) (template s : string) : string :=
  match fuel, s with
  | Datatypes.S fuel, String c s' =>
      match base_tag s with
      | Some rest =>
          let whole := str_take (String.length s - String.length rest) s in
          Expand (String.length template) whole template +:+ replace_base_tags fuel template rest
      | None => String c (replace_base_tags fuel template s')
      end
  | _, _ => ""
  end.

Definition ReplaceAllString (s template : string) : string :=
  replace_base_tags (String.length s) template s.

Definition replacementBaseTag (forwardedPrefix : string) : string :=
  "<base href=" +:+ dquote +:+ forwardedPrefix +:+ "/" +:+ dquote +:+ " data-inject-target=" +:+ dquote
  +:+ "BASE_URL" +:+ dquote +:+ "/>".

(** Assigning an empty list of values under a canonical key. *)
Definition jaegerUIResponseModifier (response : Response) : result Response :=
  if (res_StatusCode response =? 200)%Z
     && HasPrefix (header_get (res_Header response) "Content-Type") "text/html" then
    match res_Body response with
    | Err e => Err e
    | Ok b =>
        let forwardedPrefix := header_get (res_RequestHeader response) PrefixHeader in
        let strResponse := ReplaceAllString b (replacementBaseTag forwardedPrefix) in
        let h := <["Content-Encoding" := []]> (res_Header response) in
        let h := <["Content-Length" := [pretty (String.length strResponse)]]> h in
        Ok (mkResponse (res_StatusCode response) h (Ok strResponse) (res_RequestHeader response))
    end
  else Ok response.

(** [acceptEncodingClearer.RoundTrip]. *)
Definition acceptEncodingClearer {A} (inner : Request -> A) (req : Request) : A :=
  inner (set_header (header_del (r_header req) "Accept-Encoding") req).

(** ** The routes *)

Module TracesV1.

Section handler.
Context {S : Type}.

Record handlerConfiguration := mkHC {
  spanRoutePrefix : string;
  readMiddlewares : list (Middleware S);
  writeMiddlewares : list (Middleware S);
  tempoMiddlewares : list (Middleware S)
}.

Definition HandlerOption : Type := handlerConfiguration -> handlerConfiguration.
Definition default_configuration : handlerConfiguration := mkHC "" [] [] [].

Definition WithSpanRoutePrefix (p : string) : HandlerOption := fun c =>
  mkHC p (readMiddlewares c) (writeMiddlewares c) (tempoMiddlewares c).
Definition WithReadMiddleware (m : Middleware S) : HandlerOption := fun c =>
  mkHC (spanRoutePrefix c) (readMiddlewares c ++ [m]) (writeMiddlewares c) (tempoMiddlewares c).
Definition WithTempoMiddleware (m : Middleware S) : HandlerOption := fun c =>
  mkHC (spanRoutePrefix c) (readMiddlewares c) (writeMiddlewares c) (tempoMiddlewares c ++ [m]).
Definition WithWriteMiddleware (m : Middleware S) : HandlerOption := fun c =>
  mkHC (spanRoutePrefix c) (readMiddlewares c) (writeMiddlewares c ++ [m]) (tempoMiddlewares c).

(** What the transports to the endpoints answer; the state holds the cache of
    templated upstreams. *)
Record Upstreams := mkUpstreams {
  up_read : Handler S;
  up_tempo : Handler S;
  up_write : Handler S;
  get_cache : S -> gmap string (option URL);
  put_cache : gmap string (option URL) -> S -> S
}.

Context (ParseRequestURI : string -> result URL).

(** The director behind a template, which may panic, and then the transport. *)
Definition templated_proxy (up : Upstreams) (readTemplate : string) : Handler S := fun r c =>
  let '(out, cache) := middlewareSetTemplatedUpstream ParseRequestURI readTemplate
                         (get_cache up (conn_st c)) r in
  let c := mkConn (conn_w c) (put_cache up cache (conn_st c)) in
  match out with
  | Panic msg => (Panic msg, c)
  | Return r => acceptEncodingClearer (up_read up) (MiddlewareSetPrefixHeader r) c
  end.

Definition read_proxy (up : Upstreams) (read : option URL) (readTemplate : string) : Handler S :=
  match read with
  | Some u => ReverseProxy (MetricsV1.endpoint_director u) (acceptEncodingClearer (up_read up))
  | None => templated_proxy up readTemplate
  end.

Definition read_routes (c : handlerConfiguration) (up : Upstreams) (read : option URL)
    (readTemplate : string) : Router S :=
  Group (readMiddlewares c)
    ((fun pattern => Method "GET" pattern (read_proxy up read readTemplate)) <$>
      ["/api/traces*"; "/api/services*"; "/api/dependencies*"; "/api/metrics*"; "/static/*"; "/search*";
       "/trace/*"; "/dependencies"; "/monitor"; "/favicon.ico"]).

Definition write_routes (c : handlerConfiguration) (up : Upstreams) (endpoint : URL) : Router S :=
  Group (writeMiddlewares c)
    [Method "POST" "/v1/traces" (ReverseProxy (MetricsV1.endpoint_director endpoint) (up_write up))].

Definition tempo_director (tempo : URL) : Director :=
  Middlewares [MiddlewareRemoveURLPrefix "tempo"; MiddlewareSetUpstream tempo; MiddlewareSetPrefixHeader].

Definition tempo_routes_of (c : handlerConfiguration) (up : Upstreams) (tempo : URL) : Router S :=
  Group (tempoMiddlewares c)
    [Method "GET" "/tempo/api*" (ReverseProxy (tempo_director tempo) (up_tempo up))].

Definition NewV2Handler (read : option URL) (readTemplate : string) (tempo writeOTLPHttp : option URL)
    (up : Upstreams) (opts : list HandlerOption) : flow (Router S) :=
  if bool_decide (read = None) && String.eqb readTemplate "" && bool_decide (tempo = None) then
    Panic "missing Jaeger read url"
  else
    let c := foldl (fun c o => o c) default_configuration opts in
    Return (
      (if bool_decide (is_Some read) || negb (String.eqb readTemplate "")
       then read_routes c up read readTemplate else []) ++
      MetricsV1.endpoint_routes writeOTLPHttp (write_routes c up) ++
      MetricsV1.endpoint_routes tempo (tempo_routes_of c up)).
End handler.
Arguments handlerConfiguration S : clear implicits.
Arguments HandlerOption S : clear implicits.
Arguments Upstreams S : clear implicits.
End TracesV1.

(** ** Runs *)

Definition jaeger_page : string :=
  "<head><base href=" +:+ dquote +:+ "/" +:+ dquote +:+ " data-inject-target=" +:+ dquote +:+ "BASE_URL"
  +:+ dquote +:+ " /></head>".

(** The base of the page becomes the prefix; a dollar in the prefix header, which
    a client may send, is read as a reference to a group. *)
Example base_tag_runs :
  ReplaceAllString jaeger_page (replacementBaseTag "/api/traces/v1") =
    "<head>" +:+ replacementBaseTag "/api/traces/v1" +:+ "</head>" /\
  ReplaceAllString jaeger_page (replacementBaseTag "/a$1b$") =
    "<head>" +:+ replacementBaseTag "/a$" +:+ "</head>" /\
  ReplaceAllString "<base>" (replacementBaseTag "/a") = "<base>".
Proof. vm_compute. repeat split; reflexivity. Qed.
