(* ===== verification/AlertsProbes.v ===== *)
(** * The alerts and the probes API: [api/alerts/v1/http.go], [api/probes/v1/http.go]

    The fan-out behind the alerts route is in [Proxy]; the director of the probes
    writes the tenant into the labels of the JSON body of a POST. *)

From stdpp Require Import base tactics option list gmap strings pretty.
From Stdlib Require Import ZArith Lia Ascii.
From S2P Require Import Prelude GoStrings Labels Url Strconv Json Http Tenant Proxy Router Tls.

(** ** Alerts *)

Module AlertsV1.

Definition AlertmanagerAlertsRoute : string := "/api/v2/alerts".

Section handler.
Context {S : Type}.

(** The write middlewares are the only part of the configuration that acts on
    requests. *)
Definition handlerConfiguration : Type := list (Middleware S).
Definition HandlerOption : Type := handlerConfiguration -> handlerConfiguration.

Definition WriteMiddleware (m : Middleware S) : HandlerOption := fun c => c ++ [m].

Definition set_access_token (token : string) : Middleware S := fun next r =>
  next (set_header (header_set (r_header r) "Authorization" ("Bearer " +:+ token)) r).

Definition WithAccessorToken (token : string) : HandlerOption := fun c =>
  if String.eqb token "" then c else c ++ [set_access_token token].

Definition set_tenant_header (header : string) (tenantIDs : gmap string string) : Middleware S :=
  fun next r =>
  match GetTenant (r_ctx r) with
  | None => http_Error "tenant not found" 400
  | Some tenant =>
      if String.eqb tenant "" then http_Error "tenant not found" 400
      else
        let tenantID := default "" (tenantIDs !! tenant) in
        let tenant := if String.eqb tenantID "" then tenant else tenantID in
        next (set_header (header_set (r_header r) header tenant) r)
  end.

Definition WithTenantHeader (header : string) (tenantIDs : gmap string string) : HandlerOption := fun c =>
  if String.eqb header "" then c else c ++ [set_tenant_header header tenantIDs].

(** [alertFanout] is the handler [FanoutRequestToEndpoints] makes. *)
Definition NewHandler (alertFanout : Handler S) (opts : list HandlerOption) : Router S :=
  let c := foldl (fun c o => o c) [] opts in
  Group c [Method "POST" AlertmanagerAlertsRoute alertFanout].
End handler.

(** The roots of the client: nil for those of the system. *)
Definition loadCACertPool `{TlsEnv} (caPath : string) : option CertPool :=
  if String.eqb caPath "" then None
  else
    match ReadFile caPath with
    | Err _ => None
    | Ok caCert =>
        let '(pool, ok) := AppendCertsFromPEM ∅ caCert in
        if ok then Some pool else None
    end.

(** [newHTTPClient]: its TLS configuration, the server name and the roots. *)
Definition newHTTPClient (caPool : option CertPool) (serverName : string) :
    option (string * option CertPool) :=
  if bool_decide (is_Some caPool) || negb (String.eqb serverName "") then Some (serverName, caPool)
  else None.
End AlertsV1.

(** ** Probes *)

Module ProbesV1.

(** [map[string]interface{}] after [json.Unmarshal]: of equal keys the last one
    counts; [null] gives a nil map, anything but an object an error.  A nested
    value is kept as it is read; numbers are float64 and lose the form of their
    literal, which [canonical] stands for. *)
Section payload.
Context (canonical : string -> string).

Fixpoint value_of (j : json) : json :=
  match j with
  | JNum lit => JNum (canonical lit)
  | JArr l => JArr (map value_of l)
  | JObj l =>
      let m := foldl (fun m kv => <[kv.1 := kv.2]> m) (∅ : gmap string json)
                 (map (fun kv => (kv.1, value_of kv.2)) l) in
      JObj ((fun k => (k, default JNull (m !! k))) <$> sorted_keys m)
  | _ => j
  end.

Definition object_map (l : list (string * json)) : gmap string json :=
  foldl (fun m kv => <[kv.1 := value_of kv.2]> m) ∅ l.

(** [json.Marshal] of a map: the keys in order. *)
Definition map_value (m : gmap string json) : json :=
  JObj ((fun k => (k, default JNull (m !! k))) <$> sorted_keys m).

Inductive unmarshaled := Invalid | NilMap | Object (m : gmap string json).

Definition unmarshal_payload (body : string) : unmarshaled :=
  match decode body with
  | Some (JObj l) => Object (object_map l)
  | Some JNull => NilMap
  | _ => Invalid
  end.

(** [payload["labels"].(map[string]interface{})], or a new map. *)
Definition labels_of (payload : gmap string json) : gmap string json :=
  match payload !! "labels" with
  | Some (JObj l) => object_map l
  | _ => ∅
  end.

Definition inject_tenant (tenant : string) (payload : gmap string json) : gmap string json :=
  <["labels" := map_value (<["tenant" := JStr tenant]> (labels_of payload))]> payload.

(** The replaced director, after that of [NewSingleHostReverseProxy].  The body is
    read and restored; a body that is not an object is forwarded as it is, and
    [null] makes the assignment to the nil map panic. *)
Definition probes_director (originalDirector : Director) (tenantHeader : string) (req : Request) :
    flow Request :=
  let req := originalDirector req in
  if String.eqb tenantHeader "" then Return req
  else
    match GetTenant (r_ctx req) with
    | None => Return req
    | Some tenant =>
        let req := set_header (header_set (r_header req) tenantHeader tenant) req in
        if negb (String.eqb (r_method req) "POST") then Return req
        else
          match r_body req with
          | Err _ => Return req
          | Ok bodyBytes =>
              match unmarshal_payload bodyBytes with
              | Invalid => Return req
              | NilMap => Panic "assignment to entry in nil map"
              | Object payload =>
                  let newBodyBytes := encode (map_value (inject_tenant tenant payload)) in
                  let req := set_body newBodyBytes req in
                  Return (set_header (header_set (r_header req) "Content-Length"
                            (Itoa (Z.of_nat (String.length newBodyBytes)))) req)
              end
          end
    end.

Section handler.
Context {S : Type}.

(** Without the logger and the options of the transport. *)
Record handlerOptions := mkOptions {
  tenantHeader : string;
  readMiddlewares : list (Middleware S);
  writeMiddlewares : list (Middleware S)
}.

Definition HandlerOption : Type := handlerOptions -> handlerOptions.

Definition WithTenantHeader (h : string) : HandlerOption := fun o =>
  mkOptions h (readMiddlewares o) (writeMiddlewares o).
Definition WithReadMiddleware (m : Middleware S) : HandlerOption := fun o =>
  mkOptions (tenantHeader o) (readMiddlewares o ++ [m]) (writeMiddlewares o).
Definition WithWriteMiddleware (m : Middleware S) : HandlerOption := fun o =>
  mkOptions (tenantHeader o) (readMiddlewares o) (writeMiddlewares o ++ [m]).

Definition probes_proxy (originalDirector : Director) (header : string) (up : Handler S) : Handler S := fun r =>
  match probes_director originalDirector header r with
  | Return out => proxy_send up r out
  | Panic msg => panic msg
  end.

Definition NewHandler (originalDirector : Director) (up : Handler S) (opts : list HandlerOption) : Router S :=
  let o := foldl (fun c o => o c) (mkOptions "" [] []) opts in
  let proxy := probes_proxy originalDirector (tenantHeader o) up in
  Group (readMiddlewares o) [Method "GET" "/*" proxy] ++
  Group (writeMiddlewares o) [Method "POST" "/*" proxy; Method "PATCH" "/*" proxy; Method "DELETE" "/*" proxy].
End handler.
End payload.
Arguments handlerOptions S : clear implicits.
Arguments HandlerOption S : clear implicits.
End ProbesV1.

(** ** Runs *)

(** What the upstream of the probes gets: the tenant of the caller in the body of
    a POST, whatever the caller wrote there; the body of a PATCH as it is; and no
    request at all for the body [null]. *)
Definition probes_body (meth body : string) : flow (result string) :=
  r ← ProbesV1.probes_director (fun s => s) (fun r => r) "X-Tenant"
        (mkReq meth (mkURL "" "" "/probes" "") ∅ (Ok body) 0 None (with_tenant "mine" background) ∅ []);
  Return (r_body r).

Definition victim_body : string :=
  encode (JObj [("labels", JObj [("tenant", JStr "victim"); ("app", JStr "a")]); ("id", JNum "1")]).

Example probes_runs :
  probes_body "POST" victim_body =
    Return (Ok (encode (JObj [("id", JNum "1");
                              ("labels", JObj [("app", JStr "a"); ("tenant", JStr "mine")])]))) /\
  probes_body "PATCH" victim_body = Return (Ok victim_body) /\
  probes_body "POST" "null" = Panic "assignment to entry in nil map" /\
  probes_body "POST" "[1]" = Return (Ok "[1]").
Proof. vm_compute. repeat split; reflexivity. Qed.
