(* ===== verification/Gateway.v ===== *)
(** * The gateway: the routers and the gRPC server [main] puts together

    [main.go] from the tenants to the servers: which middlewares stand before
    which handler, in which order, for every API.  The middlewares that do not act
    on what a handler sees of a request (request identifiers, recovery, throttling,
    timeouts, logging) are left out.  The outside world is the record [World]: what
    the upstreams answer, the local rate limiter, the libraries' text functions. *)

From stdpp Require Import base tactics option list gmap strings.
From Stdlib Require Import ZArith Lia Ascii.
From S2P Require Import Prelude GoStrings Labels Url Strconv Json Http Tenant Authz LogqlAst LogsEnforcer.
From S2P Require Import MetricsEnforcer RateLimit Proxy Router Login Rules Providers Traces Config.
From S2P Require Import MetricsRoutes LogsRoutes TracesRoutes AlertsProbes.
Import TenantHeader MTLSTenant.

(** ** The list of paths: [server/paths.go] *)

(** [json.MarshalIndent] of the structure with the paths. *)
Definition paths_json (paths : list string) : string :=
  let nl := String (byte 10) "" in
  "{" +:+ nl +:+ "  " +:+ dquote +:+ "paths" +:+ dquote +:+ ": " +:+
  match paths with
  | [] => "[]"
  | _ => "[" +:+ nl +:+ Join ((fun p => "    " +:+ json_string p) <$> paths) ("," +:+ nl) +:+ nl +:+ "  ]"
  end +:+ nl +:+ "}".

Definition PathsHandlerFunc {S} (paths : list string) : Handler S := fun _ =>
  _ ← mod_writer (fun w => mkWriter (header_add (w_header w) "Content-Type" "application/json")
                             (w_sent w) (w_body w));
  Write (Raw (paths_json paths)).

(** ** Rate limits *)

Section gateway.
Context {C : Type}.
Abbreviation S := (RLState C).

(** The shared limiter when there is a client for it, else the local one; [first]
    limiters were made before. *)
Definition rateLimitMiddleware (first : nat) (rateLimitClient : option (SharedRateLimiter C))
    (NewRateLimiter : Z -> Z -> Middleware S) (rateLimits : list Config) : flow (Middleware S) :=
  match rateLimitClient with
  | Some client => WithSharedRateLimiter_from client first rateLimits
  | None => Return (WithLocalRateLimiter NewRateLimiter rateLimits)
  end.

(** ** The world around the routes *)

Record World := mkWorld {
  w_metrics : MetricsV1.Upstreams S;
  w_logs : LogsV1.Upstreams S;
  w_traces : TracesV1.Upstreams S;
  w_alerts : Handler S;
  w_probes : Handler S;
  w_probes_director : URL -> Director;
  (** [probesv1.NewHandler] may fail: the error is logged, the routes left out. *)
  w_probes_made : bool;
  w_openapi : string;
  w_paths : list string
}.

Context `{LogqlEnv} `{RegexEngine} `{MapRange} `{Mime} `{PromQL} `{MatcherPrinter} `{Alertmanager}
  `{Yaml} `{UrlCodec}.
Context (ParseRequestURI : string -> result URL)
        (parse : string -> fallible (NumberMemory * Expr))
        (canonical : string -> string).

(** ** The APIs *)

(** The login routes of the providers: one per pattern, mounted by the goroutines
    that start them. *)
Definition authn_routes (pm : @ProviderManager S) (patterns : list string) : Router S :=
  concat ((fun pattern => Mount pattern [MountHandler (PatternHandler pm pattern)]) <$> patterns).

Definition alertmanager_api (cfg : alertmanagerConfig) (tenantIDs : gmap string string) (token : string)
    (rateLimit : Middleware S) (w : World) : Router S :=
  Mount "/api/alertmanager/v2"
    (AlertsV1.NewHandler (w_alerts w)
       [AlertsV1.WriteMiddleware (WithMTLSTenantExtraction (alertmanager_tenantHeader cfg));
        AlertsV1.WithTenantHeader (alertmanager_tenantHeader cfg) tenantIDs;
        AlertsV1.WithAccessorToken token;
        AlertsV1.WriteMiddleware rateLimit]).

Definition metricsEndpoints (cfg : metricsConfig) : MetricsV1.Endpoints :=
  MetricsV1.mkEndpoints (metrics_readEndpoint cfg) (metrics_writeEndpoint cfg) (metrics_rulesEndpoint cfg)
    (metrics_alertmanagerEndpoint cfg).

Definition metricsReadMiddlewares (cfg : metricsConfig) (pm : @ProviderManager S)
    (tenantLabel rateLimit : Middleware S) : list (Middleware S) :=
  [WithTenantFromHeader (metrics_tenantHeader cfg);
   WithTenantMiddlewares [Middlewares pm];
   tenantLabel;
   rateLimit].

Definition metricsHandlerOptions (cfg : metricsConfig) (pm : @ProviderManager S)
    (tenantLabel rateLimit : Middleware S) : list (MetricsV1.HandlerOption S) :=
  [MetricsV1.WithTenantLabel (metrics_tenantLabel cfg);
   MetricsV1.WithWriteMiddleware (WithMTLSTenantExtraction (metrics_tenantHeader cfg));
   MetricsV1.WithWriteMiddleware rateLimit;
   MetricsV1.WithGlobalMiddleware (metricsReadMiddlewares cfg pm tenantLabel rateLimit);
   MetricsV1.WithQueryMiddleware MetricsEnforcer.WithEnforceAuthorizationLabels;
   MetricsV1.WithReadMiddleware MetricsEnforcer.WithEnforceAuthorizationLabels;
   MetricsV1.WithUIMiddleware MetricsEnforcer.WithEnforceAuthorizationLabels].

Definition legacy_api (cfg : metricsConfig) (pm : @ProviderManager S) (tenantLabel rateLimit : Middleware S)
    (w : World) : Router S :=
  Mount "/api/v1"
    (MetricsLegacy.NewHandler (metrics_readEndpoint cfg) (MetricsV1.up_read (w_metrics w))
       [MetricsLegacy.WithGlobalMiddleware (metricsReadMiddlewares cfg pm tenantLabel rateLimit);
        MetricsLegacy.WithGlobalMiddleware [MetricsEnforcer.WithEnforceAuthorizationLabels]]).

Definition probes_api (cfg : probesConfig) (pm : @ProviderManager S) (rateLimit : Middleware S)
    (w : World) : Router S :=
  match probes_endpoint cfg with
  | Some u =>
      if probes_enabled cfg && w_probes_made w then
        Mount "/api/metrics/v1/probes"
          (ProbesV1.NewHandler canonical (w_probes_director w u) (w_probes w)
            [ProbesV1.WithTenantHeader (probes_tenantHeader cfg);
             ProbesV1.WithReadMiddleware (WithTenantFromHeader (probes_tenantHeader cfg));
             ProbesV1.WithReadMiddleware (WithTenantMiddlewares [Middlewares pm]);
             ProbesV1.WithReadMiddleware rateLimit;
             ProbesV1.WithWriteMiddleware (WithTenantFromHeader (probes_tenantHeader cfg));
             ProbesV1.WithWriteMiddleware (WithTenantMiddlewares [Middlewares pm]);
             ProbesV1.WithWriteMiddleware rateLimit])
      else []
  | None => []
  end.

Definition metrics_api (cfg : config) (pm : @ProviderManager S) (rateLimit : Middleware S)
    (w : World) : flow (Router S) :=
  let m := cfg_metrics cfg in
  if metrics_enabled m then
    tenantLabel ← Authz.WithTenantLabel (metrics_tenantLabel m);
    Return (legacy_api m pm tenantLabel rateLimit w ++
            probes_api (cfg_probes cfg) pm rateLimit w ++
            Mount "/api/metrics/v1"
              (MetricsV1.NewHandler (metricsEndpoints m) (w_metrics w)
                 (metricsHandlerOptions m pm tenantLabel rateLimit)))
  else Return [].

Definition logsHandlerOptions (cfg : logsConfig) (pm : @ProviderManager S) (tenantLabel : Middleware S) :
    list (LogsV1.HandlerOption S) :=
  [LogsV1.WithWriteMiddleware (WithMTLSTenantExtraction (logs_tenantHeader cfg));
   LogsV1.WithReadMiddleware (WithTenantFromHeader (logs_tenantHeader cfg));
   LogsV1.WithReadMiddleware (WithTenantMiddlewares [Middlewares pm]);
   LogsV1.WithReadMiddleware tenantLabel;
   LogsV1.WithReadMiddleware (LogsEnforcer.WithEnforceAuthorizationLabels parse);
   LogsV1.WithRulesReadMiddleware LogsRules.WithEnforceTenantAsRuleNamespace;
   LogsV1.WithRulesWriteMiddleware LogsRules.WithEnforceTenantAsRuleNamespace;
   LogsV1.WithRulesWriteMiddleware (LogsRules.WithEnforceRuleLabels (logs_tenantLabel cfg));
   LogsV1.WithRulesLabelFilters (logs_rulesLabelFilters cfg)].

Definition logs_api (cfg : logsConfig) (pm : @ProviderManager S) (w : World) : flow (Router S) :=
  if logs_enabled cfg then
    tenantLabel ← Authz.WithTenantLabel (logs_tenantLabel cfg);
    Return (Mount "/api/logs/v1"
      (LogsV1.NewHandler (logs_readEndpoint cfg) (logs_tailEndpoint cfg) (logs_writeEndpoint cfg)
         (logs_rulesEndpoint cfg) (logs_rulesReadOnly cfg) (w_logs w)
         (logsHandlerOptions cfg pm tenantLabel)))
  else Return [].

Definition traces_served (cfg : tracesConfig) : bool :=
  traces_enabled cfg &&
  (bool_decide (is_Some (traces_readEndpoint cfg)) || negb (String.eqb (traces_readTemplateEndpoint cfg) "")
   || bool_decide (is_Some (traces_tempoEndpoint cfg))).

Definition tracesHandlerOptions (cfg : tracesConfig) (pm : @ProviderManager S) :
    list (TracesV1.HandlerOption S) :=
  [TracesV1.WithSpanRoutePrefix "/api/traces/v1";
   TracesV1.WithWriteMiddleware (WithMTLSTenantExtraction (traces_tenantHeader cfg));
   TracesV1.WithReadMiddleware (WithTenantFromHeader (traces_tenantHeader cfg));
   TracesV1.WithReadMiddleware (WithTenantMiddlewares [Middlewares pm])].

Definition traces_api (cfg : tracesConfig) (pm : @ProviderManager S) (w : World) : flow (Router S) :=
  if traces_served cfg then
    rs ← TracesV1.NewV2Handler ParseRequestURI (traces_readEndpoint cfg) (traces_readTemplateEndpoint cfg)
           (traces_tempoEndpoint cfg) (traces_writeOTLPHTTPEndpoint cfg) (w_traces w)
           (tracesHandlerOptions cfg pm);
    Return (Mount "/api/traces/v1" rs)
  else Return [].

(** ** The root router *)

(** The routes of the group behind [WithAccessToken]. *)
Definition api_routes (cfg : config) (tenantIDs : gmap string string) (token : string)
    (pm : @ProviderManager S) (patterns : list string) (alertRateLimit rateLimit : Middleware S)
    (w : World) :
    flow (Router S) :=
  metrics ← metrics_api cfg pm rateLimit w;
  logs ← logs_api (cfg_logs cfg) pm w;
  traces ← traces_api (cfg_traces cfg) pm w;
  Return (authn_routes pm patterns ++
          (if isEnabled (cfg_alertmanager cfg)
           then alertmanager_api (cfg_alertmanager cfg) tenantIDs token alertRateLimit w else []) ++
          metrics ++ logs ++ traces).

Definition rootRouter (cfg : config) (tenantIDs : gmap string string) (token : string)
    (pm : @ProviderManager S) (patterns : list string) (alertRateLimit rateLimit : Middleware S)
    (w : World) :
    flow (Router S) :=
  rs ← api_routes cfg tenantIDs token pm patterns alertRateLimit rateLimit w;
  Return (Group [WithAccessToken] rs ++
          [Method "GET" "/openapi.yaml" (fun _ => Write (Raw (w_openapi w)));
           Method "GET" "/" (PathsHandlerFunc (w_paths w))]).

(** The start: the limiters of the Alertmanager API and of the metrics are made when
    these are served, then the routers. *)
Definition startRouters (cfg : config) (tenantIDs : gmap string string) (token : string)
    (pm : @ProviderManager S) (patterns : list string) (rateLimitClient : option (SharedRateLimiter C))
    (NewRateLimiter : Z -> Z -> Middleware S) (rateLimits : list Config) (w : World) : flow (Router S) :=
  alertRateLimit ← (if isEnabled (cfg_alertmanager cfg)
                    then rateLimitMiddleware 0 rateLimitClient NewRateLimiter rateLimits
                    else Return (fun next => next));
  rateLimit ← (if metrics_enabled (cfg_metrics cfg)
               then rateLimitMiddleware (length rateLimits) rateLimitClient NewRateLimiter rateLimits
               else Return (fun next => next));
  rootRouter cfg tenantIDs token pm patterns alertRateLimit rateLimit w.
End gateway.
Arguments World C : clear implicits.
