(* ===== verification/Isolation.v ===== *)
(** * What reaches the upstream of the metrics API through the whole gateway

    The authenticators keep what the label enforcers look at ([Authenticates]); the
    middlewares before a route, composed with [passes]; and the path the upstream
    gets against the path the enforcer saw. *)

From stdpp Require Import base tactics option list gmap strings.
From Stdlib Require Import ZArith Lia Ascii.
From S2P Require Import Prelude GoStrings Labels Url Strconv Json Http Tenant Authz LogqlAst LogsEnforcer CookieCipher.
From S2P Require Import MetricsEnforcer RateLimit Proxy Router Login Oidc OpenShiftDiscovery OpenShift Rules Providers.
From S2P Require Import Traces Config MetricsRoutes LogsRoutes TracesRoutes AlertsProbes Gateway.
Import TenantHeader MTLSTenant.

(** ** The last component of a path *)

Lemma str_drop_suffix n s : exists a, s = (a +:+ str_drop n s)%string.
Proof.
  revert s. induction n as [|n IH]; intros s; [by exists ""|].
  destruct s as [|c s]; [by exists ""|]. destruct (IH s) as [a Ha]. exists (String c a).
  cbn [str_drop]. rewrite Ha at 1. by rewrite str_app_cons.
Qed.

Lemma HasSuffix_spec s p : HasSuffix s p = true <-> exists a, s = a +:+ p.
Proof.
  unfold HasSuffix. rewrite andb_true_iff, Nat.leb_le, String.eqb_eq. split.
  - intros [_ E]. destruct (str_drop_suffix (String.length s - String.length p) s) as [a Ha].
    exists a. by rewrite E in Ha.
  - intros [a ->]. rewrite str_len_app. split; [lia|].
    replace (String.length a + String.length p - String.length p)%nat with (String.length a) by lia.
    apply str_drop_app.
Qed.

Lemma Split_last x l : lacks "/" l = true -> last (Split "/" (x +:+ "/" +:+ l)) = Some l.
Proof.
  intros Hl. change (x +:+ "/" +:+ l) with (x +:+ String "/" l). rewrite Split_concat, (Split_lacks _ l) by done.
  apply last_snoc.
Qed.

Lemma HasSuffix_last x l w : lacks "/" l = true -> lacks "/" w = true ->
  HasSuffix (x +:+ "/" +:+ l) ("/" +:+ w) = String.eqb l w.
Proof.
  intros Hl Hw. apply eq_bool_prop_intro. rewrite !Is_true_true, HasSuffix_spec, String.eqb_eq. split.
  - intros [a Ha]. apply (f_equal (fun s => last (Split "/" s))) in Ha.
    rewrite !Split_last in Ha by done. by injection Ha.
  - intros ->. by exists x.
Qed.

(** The path a proxy asks for; it keeps the rest of the request. *)
Lemma endpoint_director_frame u r :
  u_path (r_url (MetricsV1.endpoint_director u r)) = path_Join (u_path u) (u_path (r_url r)) /\
  u_rawQuery (r_url (MetricsV1.endpoint_director u r)) = u_rawQuery (r_url r) /\
  r_method (MetricsV1.endpoint_director u r) = r_method r /\
  r_body (MetricsV1.endpoint_director u r) = r_body r.
Proof.
  unfold MetricsV1.endpoint_director, Proxy.Middlewares. simpl. unfold MiddlewareSetPrefixHeader.
  destruct (ctx_prefix _); [|done]. by destruct (negb _).
Qed.

Lemma metricSelectorParam_last x y l : lacks "/" l = true ->
  metricSelectorParam (x +:+ "/" +:+ l) = metricSelectorParam (y +:+ "/" +:+ l).
Proof.
  intros Hl. unfold metricSelectorParam.
  assert (forall z w, lacks "/" w = true -> HasSuffix (z +:+ "/" +:+ l) (String "/" w) = String.eqb l w) as E.
  { intros z w Hw. by apply (HasSuffix_last z l w). }
  by rewrite !E by reflexivity.
Qed.

(** A path below a router that [path.Join] only cleans before its last component:
    no [..], and a last component that is neither empty nor a dot. *)
Definition tame (y : string) : Prop :=
  (".." ∉ Split "/" y) /\ exists l, last (Split "/" y) = Some l /\ real_component l.

Definition base_ok (b : string) : Prop :=
  b = "" \/ HasPrefix b "/" = true /\ (".." ∉ Split "/" b).

Lemma Join_snoc cs l : Join (cs ++ [l]) "/" = if bool_decide (cs = []) then l else Join cs "/" +:+ "/" +:+ l.
Proof.
  induction cs as [|c cs IH]; [done|]. cbn [app]. destruct cs as [|d cs]; [done|].
  change (Join (c :: (d :: cs) ++ [l]) "/") with (c +:+ "/" +:+ Join ((d :: cs) ++ [l]) "/").
  rewrite IH. case_bool_decide; [done|]. rewrite bool_decide_eq_false_2 by done.
  change (Join (c :: d :: cs) "/") with (c +:+ "/" +:+ Join (d :: cs) "/"). by rewrite <-!str_app_assoc.
Qed.

Lemma rooted_snoc cs l : exists x, "/" +:+ Join (cs ++ [l]) "/" = x +:+ "/" +:+ l.
Proof.
  rewrite Join_snoc. case_bool_decide; [by exists ""|]. exists ("/" +:+ Join cs "/"). by rewrite <-!str_app_assoc.
Qed.

Lemma last_Split y l : last (Split "/" y) = Some l ->
  lacks "/" l = true /\ exists x, "/" +:+ y = x +:+ "/" +:+ l.
Proof.
  intros Hl. pose proof (Split_parts_lack "/" y) as Hp. pose proof (Join_Split "/" y) as Hj.
  apply last_Some in Hl as [cs E]. rewrite E in Hp, Hj. split.
  - rewrite Forall_app, Forall_singleton in Hp. by destruct Hp.
  - rewrite <-Hj. change (String "/" "") with "/". apply rooted_snoc.
Qed.

(** The last component of the request is that of the path sent upstream. *)
Lemma upstream_last b y l : base_ok b -> ".." ∉ Split "/" y -> last (Split "/" y) = Some l -> real_component l ->
  exists x, path_Join b ("/" +:+ y) = x +:+ "/" +:+ l.
Proof.
  intros Hb Hy Hl Hreal. apply last_Some in Hl as [cs E].
  assert (forall bs, ".." ∉ bs -> exists x,
    "/" +:+ Join (clean_components true [] (bs ++ Split "/" y)) "/" = x +:+ "/" +:+ l) as Hj.
  { intros bs Hbs. rewrite clean_components_plain by (by intros [?|?]%elem_of_app).
    rewrite E, reverse_nil, app_nil_l, !filter_app, (filter_cons_True _ l []), filter_nil by done.
    rewrite app_assoc. apply rooted_snoc. }
  unfold path_Join. change (String.eqb ("/" +:+ y) "") with false. rewrite andb_false_r.
  destruct (String.eqb_spec b "") as [->|Hne].
  - unfold Clean. change (HasPrefix ("/" +:+ y) "/") with (String.prefix "" y).
    assert (String.prefix "" y = true) as -> by by destruct y.
    change ("/" +:+ y) with ("" +:+ String "/" y). rewrite Split_concat. by apply Hj, not_elem_of_cons; split; [|apply not_elem_of_nil].
  - destruct Hb as [->|[Hp Hb]]; [done|]. unfold Clean.
    change ("/" +:+ "/" +:+ y) with (String "/" ("/" +:+ y)).
    assert (HasPrefix (b +:+ String "/" ("/" +:+ y)) "/" = true) as ->.
    { unfold HasPrefix in *. apply prefix_app_inv in Hp. rewrite Hp, <-str_app_assoc. apply prefix_app. }
    rewrite Split_concat. change ("/" +:+ y) with ("" +:+ String "/" y). rewrite Split_concat, app_assoc.
    apply Hj. rewrite elem_of_app. set_solver.
Qed.

(** The enforcer and the upstream read the same parameter. *)
Lemma selector_param_kept b y p : base_ok b -> tame y ->
  metricSelectorParam (path_Join b ("/" +:+ y)) = metricSelectorParam (p +:+ "/" +:+ y).
Proof.
  intros Hb (Hy & l & Hl & Hr). destruct (upstream_last b y l) as [x ->]; [done..|].
  destruct (last_Split y l Hl) as (Hlack & x' & ->).
  rewrite (str_app_assoc p). by apply metricSelectorParam_last.
Qed.

Lemma stripped_rest p y q : p +:+ "/" +:+ y = p +:+ q -> "/" +:+ y = q.
Proof. intros E. apply (f_equal (str_drop (String.length p))) in E. by rewrite !str_drop_app in E. Qed.

(** ** Authenticators *)

(** What authentication leaves alone; headers may change. *)
Definition auth_frame (r r' : Request) : Prop :=
  r_method r' = r_method r /\ r_url r' = r_url r /\ r_body r' = r_body r /\
  GetTenant (r_ctx r') = GetTenant (r_ctx r) /\ GetData (r_ctx r') = GetData (r_ctx r).

Class Authenticates {S} (mw : Middleware S) : Prop := authenticates : calls mw auth_frame.

Lemma passes_point {S} (P Q : Request -> Prop) (mw : Middleware S) :
  (forall r, P r -> passes (eq r) mw Q) -> passes P mw Q.
Proof. intros Hp h1 h2 Ha r HP. by apply (Hp r HP h1 h2 Ha). Qed.

(** A computation that ends, or goes on with the next handler. *)
Lemma bind_agree {S A} (m : M S A) (f g : A -> M S unit) (c : Conn S) :
  (forall a c, f a c = g a c) -> (a ← m; f a) c = (a ← m; g a) c.
Proof. intros Hf. unfold mbind, M_bind. by destruct (m c) as [[a|] c']. Qed.

Global Instance MTLS_authenticates {S} : Authenticates (@MTLSAuth.MTLS_Middleware S).
Proof.
  intros r h1 h2 Ha r1 <- c. unfold MTLSAuth.MTLS_Middleware.
  destruct (r_tls r) as [tls|]; [|done]. destruct (PeerCertificates tls) as [|cert ?]; [done|].
  destruct (MTLSAuth.cert_subject cert); [|done]. by apply Ha.
Qed.

Lemma checkAuth_frame `{Oidc} `{UrlCodec} a c token ctx :
  checkAuth a c token = Authenticated ctx -> GetTenant ctx = GetTenant c /\ GetData ctx = GetData c.
Proof.
  intros E. destruct (checkAuth_spec a c token) as [(sub & g & _ & E')|(? & ? & ? & _ & E' & _)]; rewrite E' in E; [|done].
  injection E as <-. by destruct g.
Qed.

Global Instance oidc_authenticates `{Oidc} `{UrlCodec} {S} a : Authenticates (@oidc_Middleware _ a S).
Proof.
  intros r h1 h2 Ha r1 <- c. unfold oidc_Middleware.
  assert (forall token,
    match checkAuth a (r_ctx r) token with
    | Refused msg code _ => PrometheusAPIError msg code
    | Authenticated ctx => h1 (set_ctx ctx r)
    end c = match checkAuth a (r_ctx r) token with
    | Refused msg code _ => PrometheusAPIError msg code
    | Authenticated ctx => h2 (set_ctx ctx r)
    end c) as Hcheck.
  { intros token. destruct (checkAuth a (r_ctx r) token) as [ctx|] eqn:E; [|done].
    apply checkAuth_frame in E as [Et Ed]. by apply Ha. }
  destruct (negb _).
  - destruct (Split " " _) as [|? [|token [|? ?]]]; try done.
  - destruct (Cookie r _); [done|]. by destruct (GetTenant (r_ctx r)).
Qed.

Global Instance openshift_authenticates `{Kube} `{Jwt} `{HttpTime} `{Aes} `{OAuth2} `{UrlCodec} {S} a now :
  Authenticates (openshift_Middleware a now (S:=S)).
Proof.
  intros r h1 h2 Ha r1 <- c. unfold openshift_Middleware.
  destruct (AuthenticateRequest (os_authenticator a) r) as [[h [user|]] e]; [by apply Ha|].
  destruct (negb (os_oauthEnabled a)); [done|]. cbv zeta.
  destruct (Cookie _ _) as [cookie|]; [|by destruct (GetTenant _)].
  destruct (ParseWithClaims now cookie jwtSigningKey) as [[claims valid]|]; [|done].
  destruct (negb valid); [done|]. destruct (negb _); [|by apply Ha].
  apply bind_agree. intros [token|] c'; [|done]. by apply Ha.
Qed.

(** The middleware of a tenant is that of a provider. *)
Lemma WithTenantMiddlewares_authenticates {S} (fns : list (MiddlewareFunc S)) :
  (forall t mw, first_middleware fns t = Some mw -> Authenticates mw) ->
  Authenticates (WithTenantMiddlewares fns).
Proof.
  intros Hmw r h1 h2 Ha r1 <- c. unfold WithTenantMiddlewares.
  destruct (GetTenant (r_ctx r)) as [t|]; [|done].
  destruct (first_middleware fns t) as [mw|] eqn:E; [|done].
  by apply (Hmw t mw E r h1 h2 Ha).
Qed.

(** ** Rate limits *)

(** A middleware that at most refuses a request, whatever the request is. *)
Class Transparent {S} (mw : Middleware S) : Prop := transparent : calls mw eq.

Lemma transparent_passes {S} (mw : Middleware S) `{!Transparent mw} P : passes P mw P.
Proof. eapply calls_passes; [apply transparent|]. by intros r r' HP <-. Qed.

Global Instance rateLimiter_transparent {C} (client : SharedRateLimiter C) l :
  Transparent (rateLimiter_Handler client l).
Proof.
  intros r h1 h2 Ha r1 <- c. unfold rateLimiter_Handler.
  assert (forall c, h1 r c = h2 r c) as Hh by (intros; by apply Ha).
  apply bind_agree. intros rep c1. do 3 (apply bind_agree; intros [] ?).
  assert (forall c, (_ ← mod_st (fun s => (tt, resetRetryAfterValue l s)); h1 r) c =
                    (_ ← mod_st (fun s => (tt, resetRetryAfterValue l s)); h2 r) c) as Hp.
  { intros. apply bind_agree. by intros []. }
  destruct (rp_err rep) as [err|]; [|apply Hp]. do 2 (apply bind_agree; intros ? ?).
  destruct err; [done|]. by destruct (negb _).
Qed.

Lemma combine_transparent {C} (ms : gmap string (list (@middleware C))) :
  (forall t tms m, ms !! t = Some tms -> m ∈ tms -> Transparent (mw_handler m)) -> Transparent (combine ms).
Proof.
  intros Hms r h1 h2 Ha r1 <- c. unfold combine.
  destruct (GetTenant (r_ctx r)) as [t|]; [|done].
  assert (h1 r c = h2 r c) as Hh by by apply Ha.
  assert (forall t tms, ms !! t = Some tms ->
    match first_match tms (u_path (r_url r)) with
    | Return (Some m) => mw_handler m h1 r | Return None => h1 r | Panic msg => panic msg end c =
    match first_match tms (u_path (r_url r)) with
    | Return (Some m) => mw_handler m h2 r | Return None => h2 r | Panic msg => panic msg end c) as Hf.
  { intros t' tms Ht. destruct (first_match tms _) as [[m|]|] eqn:E; [|done|done].
    assert (m ∈ tms) as Hin.
    { clear -E. induction tms as [|m' tms IH]; simpl in E; [done|].
      destruct (MatchString _ _) as [[|]|]; simplify_eq; [left|right; auto]. }
    by apply (Hms _ _ _ Ht Hin r h1 h2 Ha). }
  destruct (ms !! t) as [tms|] eqn:E; [by apply (Hf t)|].
  destruct (ms !! DefaultTenantName) as [tms|] eqn:Ed; [by apply (Hf DefaultTenantName)|done].
Qed.

Lemma shared_transparent {C} (client : SharedRateLimiter C) first configs mw :
  WithSharedRateLimiter_from client first configs = Return mw -> Transparent mw.
Proof.
  unfold WithSharedRateLimiter_from. intros E.
  pose proof (foldl_middlewares client (numbered first configs)) as Hf.
  destruct (foldl _ _ _) as [ms|]; [|done]. injection E as <-. destruct Hf as [_ Hms].
  apply combine_transparent. intros t tms m Ht Hm. rewrite Hms in Ht.
  destruct (filter _ _) as [|ic ics]; [done|].
  assert (tms = shared_middleware client <$> ic :: ics) as -> by congruence.
  apply list_elem_of_fmap in Hm as (ic' & -> & _). apply rateLimiter_transparent.
Qed.

Lemma local_transparent {C} (NewRateLimiter : Z -> Z -> Middleware (RLState C)) configs :
  (forall l w, Transparent (NewRateLimiter l w)) -> Transparent (WithLocalRateLimiter NewRateLimiter configs).
Proof.
  intros Hn. apply combine_transparent.
  induction configs as [|cfg configs IH] using rev_ind.
  { intros t tms m Ht. cbn [foldl] in Ht. by rewrite lookup_empty in Ht. }
  intros t tms m. rewrite foldl_app. cbn [foldl]. unfold add_middleware.
  destruct (decide (cfg_Tenant cfg = t)) as [<-|Hne].
  - rewrite lookup_insert_eq. intros [= <-] Hm. apply elem_of_app in Hm as [Hm|Hm%list_elem_of_singleton].
    + destruct (foldl _ _ _ !! cfg_Tenant cfg) as [tms|] eqn:Et; cbn in Hm; [by apply (IH _ _ _ Et)|by apply elem_of_nil in Hm].
    + subst m. apply Hn.
  - rewrite lookup_insert_ne by done. apply IH.
Qed.

Lemma rateLimitMiddleware_transparent {C} first client (NewRateLimiter : Z -> Z -> Middleware (RLState C)) configs mw :
  (forall l w, Transparent (NewRateLimiter l w)) ->
  rateLimitMiddleware first client NewRateLimiter configs = Return mw -> Transparent mw.
Proof.
  intros Hn. unfold rateLimitMiddleware. destruct client as [client|].
  - apply shared_transparent.
  - intros [= <-]. by apply local_transparent.
Qed.

(** ** The middlewares before the metrics routes *)

Lemma valid_tenants_dec ts : Decision (valid_tenants ts).
Proof.
  destruct (decide (0 < length ts)%nat) as [Hpos|Hpos].
  - destruct (decide ((length ts <= maxTenants)%nat /\ validate_tenants ∅ ts = None)) as [Hv|Hv];
      [left|right]; by rewrite <-valid_tenants_iff.
  - right. intros ([Hl _] & _). lia.
Defined.

Lemma enforceRequestQueryLabels_path `{PromQL} `{MatcherPrinter} `{Mime} ms p r r' :
  enforceRequestQueryLabels ms p r = Enforced r' -> u_path (r_url r') = u_path (r_url r).
Proof.
  assert (forall r r', enforce_url ms p r = Enforced r' -> u_path (r_url r') = u_path (r_url r)) as Hu.
  { intros r1 r1'. unfold enforce_url. destruct (enforceQueryValues _ _ _) as [[q []]|]; [|done|done].
    by intros [= <-]. }
  unfold enforceRequestQueryLabels. destruct (String.eqb (r_method r) "POST"); [|apply Hu].
  destruct (ParsePostForm r); [|done]. destruct (_ || _) in |- *.
  - destruct (enforceQueryValues _ _ _) as [[q []]|]; [|done|done]. intros [= <-]. by destruct (_ && _).
  - intros E. rewrite (Hu _ _ E). by destruct (_ && _).
Qed.

Section confinement.
Context `{RegexEngine} `{PromQL} `{MatcherPrinter} `{Mime}.
Context (h lbl : string) (r0 : Request).

Definition named_tenants : list string := collect_tenants (header_values (r_header r0) h).
Definition same_path (r : Request) : Prop := u_path (r_url r) = u_path (r_url r0).

(** It asks for what [r0] asks for; its headers and its context may differ. *)
Definition same_ask (r : Request) : Prop :=
  same_path r /\ u_rawQuery (r_url r) = u_rawQuery (r_url r0) /\ r_method r = r_method r0 /\
  r_body r = r_body r0.

(** What holds of the request after each middleware. *)
Definition unnamed (r : Request) : Prop :=
  same_ask r /\ header_values (r_header r) h = header_values (r_header r0) h.
Definition named (r : Request) : Prop :=
  same_ask r /\ valid_tenants named_tenants /\ GetTenant (r_ctx r) = Some (Join named_tenants "|").
Definition labelled (r : Request) : Prop :=
  same_ask r /\ valid_tenants named_tenants /\ exists data, GetData (r_ctx r) = Some data /\ data <> "" /\
    Unmarshal data = Ok (mkAuthz [tenant_matcher lbl named_tenants] "").
Definition held (p : string) (r : Request) : Prop :=
  valid_tenants named_tenants /\ selectors_sent p r <> [] /\
  Forall (enforced_selector [tenant_matcher lbl named_tenants]) (selectors_sent p r).
Definition checked (r : Request) : Prop := same_path r /\ held (metricSelectorParam (u_path (r_url r0))) r.
Definition stripped (prefix : string) (r : Request) : Prop :=
  u_path (r_url r0) = prefix +:+ u_path (r_url r) /\ held (metricSelectorParam (u_path (r_url r0))) r.

Lemma header_passes {S} : passes unnamed (@WithTenantFromHeader h S) named.
Proof.
  apply passes_forward. intros r [Hp Hh]. pose proof (tenant_header_facts h r) as [Hv Hn].
  rewrite Hh in Hv, Hn. fold named_tenants in Hv, Hn. destruct (valid_tenants_dec named_tenants) as [Hd|Hd].
  - left. eexists. split; [|intros next c; by rewrite (Hv Hd)]. by split_and!.
  - right. destruct (Hn Hd) as [msg Hm]. exists (fun _ => PrometheusAPIError msg 400). intros next c. by rewrite Hm.
Qed.

Lemma authenticates_named {S} (mw : Middleware S) : Authenticates mw -> passes named mw named.
Proof.
  intros Ha. eapply calls_passes; [apply Ha|]. intros r r' (Hp & Hv & Ht) (Hm & Hu & Hb & Ht' & _).
  unfold named, same_ask, same_path in *. by rewrite Hu, Ht', Hm, Hb.
Qed.

Lemma label_passes {S} (mw : Middleware S) : ascii_only lbl = true ->
  WithTenantLabel lbl = Return mw -> passes named mw labelled.
Proof.
  intros Hl E. assert (lbl <> "") as Hne by by intros ->.
  apply passes_forward. intros r (Hp & Hv & Ht). left.
  destruct (tenant_label_forwards lbl named_tenants r) as (data & Hd & Hn & Hmw); [done..|].
  destruct (Hmw S) as (mw' & E' & Hf). assert (mw' = mw) as -> by congruence.
  eexists. split; [|intros next c; by rewrite Hf]. split_and!; [done|done|]. by exists data.
Qed.

Lemma enforcer_passes {S} : passes labelled (@MetricsEnforcer.WithEnforceAuthorizationLabels _ _ _ S) checked.
Proof.
  apply passes_forward. intros r ((Hp & _) & Hv & data & Hd & Hne & Hu).
  unfold MetricsEnforcer.WithEnforceAuthorizationLabels. rewrite Hd, (proj2 (String.eqb_neq data "") Hne), Hu.
  cbn [ad_matchers]. rewrite Hp.
  destruct (enforceRequestQueryLabels _ _ r) as [msg code|r'] eqn:E.
  - right. by exists (fun _ => PrometheusAPIError msg code).
  - left. exists r'. split; [|done]. pose proof (enforceRequestQueryLabels_path _ _ _ _ E) as Hpath.
    apply enforceRequestQueryLabels_ok in E as (Hs & Hall & _); [|apply NoDup_singleton].
    split; [by unfold same_path; rewrite Hpath|]. by split_and!.
Qed.

(** [StripPrefix], for what holds of a request whatever its path and context are. *)
Lemma strip_frame {S} (K : Request -> Prop) prefix : prefix <> "" ->
  (forall r p f, K r -> K (map_ctx f (set_path p r))) ->
  passes (fun r => same_path r /\ K r) (@StripPrefix prefix S)
    (fun r => u_path (r_url r0) = prefix +:+ u_path (r_url r) /\ K r).
Proof.
  intros Hne HK. apply passes_forward. intros r [Hp Hh]. pose proof (strip_prefix prefix r Hne) as [Hs Hn].
  destruct (HasPrefix (u_path (r_url r)) prefix) eqn:E.
  - left. unfold forwards, StripPrefix. rewrite (proj2 (String.eqb_neq _ _) Hne).
    unfold HasPrefix in E. eexists. split; [|intros next c].
    2:{ rewrite (proj2 (Nat.ltb_lt _ _)) by by apply TrimPrefix_shorter. reflexivity. }
    split; [|by apply HK]. cbn [map_ctx set_ctx r_url set_path set_url u_path]. rewrite <-Hp.
    unfold TrimPrefix, HasPrefix. rewrite E. by apply prefix_app_inv.
  - right. exists (fun _ => http_Error "404 page not found" 404). intros next c. by rewrite Hn.
Qed.

Lemma strip_passes {S} prefix : prefix <> "" -> passes checked (@StripPrefix prefix S) (stripped prefix).
Proof. intros Hne. by apply (strip_frame (held (metricSelectorParam (u_path (r_url r0))))). Qed.

Lemma tenant_matcher_of : valid_tenants named_tenants ->
  m_name (tenant_matcher lbl named_tenants) = lbl /\
  forall v, Matches (tenant_matcher lbl named_tenants) v = true <-> v ∈ named_tenants.
Proof.
  intros ([Hpos _] & Hf & _). split; [by unfold tenant_matcher; destruct named_tenants as [|? [|? ?]]|].
  intros v. apply tenant_matcher_exact; [|done]. intros E. rewrite E in Hpos. simpl in Hpos. lia.
Qed.

(** The request as it comes in. *)
Definition asked (r : Request) : Prop :=
  r_url r = r_url r0 /\ r_header r = r_header r0 /\ r_method r = r_method r0 /\ r_body r = r_body r0.

Lemma access_token_passes {S} : CanonicalKey h <> "Authorization" -> passes asked (@WithAccessToken S) unnamed.
Proof.
  intros Hne. apply passes_forward. intros r (Hu & Hh & Hm & Hb). left. unfold WithAccessToken. rewrite Hh.
  destruct (_ && _); eexists; (split; [|done]);
    (split; [unfold same_ask, same_path; by rewrite <-Hu|]);
    cbn [r_header map_ctx set_ctx set_header]; [|by rewrite Hh].
  unfold header_values, header_set, values_all, values_set. rewrite lookup_insert_ne; [done|]. intros E. by apply Hne.
Qed.

(** What the proxy changes is not read as a selector. *)
Lemma held_upstream (d : Director) p r :
  u_rawQuery (r_url (d r)) = u_rawQuery (r_url r) -> r_method (d r) = r_method r -> r_body (d r) = r_body r ->
  held p r -> held p (d r).
Proof. unfold held, selectors_sent, URL_Query. by intros -> -> ->. Qed.
End confinement.

(** ** The gateway *)

(** A request the upstream of the metrics may get for [r0]: it has a selector, and
    every selector it has, in the URL or the body, under the parameter the upstream
    reads for its path, holds a matcher that accepts exactly the tenants [r0]
    names. *)
Definition confined `{RegexEngine} `{PromQL} `{MatcherPrinter} (h lbl : string) (r0 r' : Request) : Prop :=
  let ts := collect_tenants (header_values (r_header r0) h) in
  let p := metricSelectorParam (u_path (r_url r')) in
  valid_tenants ts /\
  exists m, m_name m = lbl /\ (forall v, Matches m v = true <-> v ∈ ts) /\
    selectors_sent p r' <> [] /\ Forall (enforced_selector [m]) (selectors_sent p r').

Definition with_read {C} (up : Handler (RLState C)) (w : World C) : World C :=
  let m := w_metrics w in
  mkWorld (MetricsV1.mkUpstreams up (MetricsV1.up_write m) (MetricsV1.up_rules m) (MetricsV1.up_alertmanager m)
             (MetricsV1.up_silence m))
    (w_logs w) (w_traces w) (w_alerts w) (w_probes w) (w_probes_director w) (w_probes_made w)
    (w_openapi w) (w_paths w).

Section gateway.
Context {C : Type}.
Context `{LogqlEnv} `{RegexEngine} `{MapRange} `{Mime} `{PromQL} `{MatcherPrinter} `{Alertmanager}
  `{Yaml} `{UrlCodec} `{Chi}.
Context (ParseRequestURI : string -> result URL)
        (parse : string -> fallible (NumberMemory * Expr))
        (canonical : string -> string).
Context (cfg : metricsConfig) (pm : @ProviderManager (RLState C)) (rateLimit tenantLabel : Middleware (RLState C)).
Context (r0 : Request) (y : string).

(** What the configuration has to give for the argument: a label that is ASCII
    text, a tenant header other than the one of the access token, a rooted
    endpoint, authenticators and a limiter that do not change what is asked for. *)
Record metrics_setup : Prop := {
  setup_label : WithTenantLabel (metrics_tenantLabel cfg) = Return tenantLabel;
  setup_ascii : ascii_only (metrics_tenantLabel cfg) = true;
  setup_header : CanonicalKey (metrics_tenantHeader cfg) <> "Authorization";
  setup_auth : forall t mw, Middlewares pm t = Some mw -> Authenticates mw;
  setup_limit : Transparent rateLimit;
  setup_base : forall u, metrics_readEndpoint cfg = Some u -> base_ok (u_path u)
}.
Hypothesis setup : metrics_setup.

(** The request asks for a metrics route, by a path that is already clean. *)
Hypothesis path_of_api : u_path (r_url r0) = "/api/metrics/v1/" +:+ y.
Hypothesis path_tame : tame y.

Abbreviation hdr := (metrics_tenantHeader cfg).
Abbreviation lbl := (metrics_tenantLabel cfg).

Lemma read_chain_passes :
  passes (unnamed hdr r0)
    (chain (metricsReadMiddlewares cfg pm tenantLabel rateLimit ++ [MetricsEnforcer.WithEnforceAuthorizationLabels]))
    (checked hdr lbl r0).
Proof.
  destruct setup as [Hl Ha Hh Hauth Hlim _].
  eapply passes_cons; [apply header_passes|].
  eapply passes_cons; [apply authenticates_named, WithTenantMiddlewares_authenticates|].
  { intros t mw. simpl. destruct (Middlewares pm t) as [m|] eqn:E; [|done]. intros [= <-]. by apply (Hauth t). }
  eapply passes_cons; [by apply label_passes|].
  eapply passes_cons; [by apply transparent_passes|].
  eapply passes_cons; [apply enforcer_passes|]. apply passes_nil.
Qed.

Lemma held_confined r' : held hdr lbl r0 (metricSelectorParam (u_path (r_url r'))) r' -> confined hdr lbl r0 r'.
Proof.
  intros (Hv & Hs & Hall). split; [done|]. exists (tenant_matcher lbl (named_tenants hdr r0)).
  fold (named_tenants hdr r0). destruct (tenant_matcher_of hdr lbl r0 Hv) as [Hn Hm]. by split_and!.
Qed.

(** The proxies of the metrics router and of the legacy router. *)
Lemma endpoint_confined u r : base_ok (u_path u) -> stripped hdr lbl r0 "/api/metrics/v1" r ->
  confined hdr lbl r0 (MetricsV1.endpoint_director u r).
Proof.
  intros Hb [Hp Hh]. apply held_confined.
  rewrite path_of_api in Hp. apply (stripped_rest "/api/metrics/v1") in Hp.
  destruct (endpoint_director_frame u r) as (-> & Hq & Hm & Hb').
  rewrite <-Hp, (selector_param_kept _ _ "/api/metrics/v1") by done.
  change ("/api/metrics/v1" +:+ "/" +:+ y) with ("/api/metrics/v1/" +:+ y). rewrite <-path_of_api.
  by apply held_upstream.
Qed.

Lemma legacy_confined u r : base_ok (u_path u) -> checked hdr lbl r0 r ->
  confined hdr lbl r0 (Proxy.Middlewares [MiddlewareSetUpstream u] r).
Proof.
  intros Hb [Hp Hh]. apply held_confined. unfold same_path in Hp.
  assert (tame ("api/metrics/v1/" +:+ y)) as Ht.
  { destruct path_tame as (Hn & l & Hl & Hr).
    change ("api/metrics/v1/" +:+ y) with ("api/metrics/v1" +:+ String "/" y). unfold tame.
    rewrite Split_concat. split; [|exists l; split; [by rewrite last_app, Hl|done]].
    intros [Hin|Hin]%elem_of_app; [|done]. revert Hin. apply (bool_decide_unpack _). by vm_compute. }
  change (u_path (r_url (Proxy.Middlewares [MiddlewareSetUpstream u] r))) with (path_Join (u_path u) (u_path (r_url r))).
  rewrite Hp, path_of_api. change ("/api/metrics/v1/" +:+ y) with ("/" +:+ ("api/metrics/v1/" +:+ y)).
  rewrite (selector_param_kept _ _ "") by done. rewrite str_nil_app.
  change ("/" +:+ "api/metrics/v1/" +:+ y) with ("/api/metrics/v1/" +:+ y). rewrite <-path_of_api.
  by apply held_upstream.
Qed.

Context (up1 up2 : Handler (RLState C)).
Hypothesis upstreams_agree : agree (confined hdr lbl r0) up1 up2.

(** A group of routes to the read endpoint. *)
Lemma read_group_agree (mk : Handler (RLState C) -> Route (RLState C)) u :
  metrics_readEndpoint cfg = Some u ->
  (forall up, rt_handler (mk up) = up) ->
  (forall up up', rt_method (mk up) = rt_method (mk up') /\ rt_pattern (mk up) = rt_pattern (mk up')) ->
  Forall2 (agree_routes (unnamed hdr r0))
    (Group ((metricsReadMiddlewares cfg pm tenantLabel rateLimit ++ [MetricsEnforcer.WithEnforceAuthorizationLabels])
              ++ [StripPrefix "/api/metrics/v1"]) [mk (ReverseProxy (MetricsV1.endpoint_director u) up1)])
    (Group ((metricsReadMiddlewares cfg pm tenantLabel rateLimit ++ [MetricsEnforcer.WithEnforceAuthorizationLabels])
              ++ [StripPrefix "/api/metrics/v1"]) [mk (ReverseProxy (MetricsV1.endpoint_director u) up2)]).
Proof.
  intros Hu Hh Hmp. eapply Group_agree.
  { eapply passes_app; [apply read_chain_passes|]. eapply passes_cons; [by apply strip_passes|]. apply passes_nil. }
  constructor; [|done]. split_and!; [apply Hmp|apply Hmp|]. rewrite !Hh.
  eapply ReverseProxy_agree; [|exact upstreams_agree].
  intros r Hr. apply endpoint_confined; [by apply (setup_base setup)|done].
Qed.

Lemma legacy_group_agree u pattern : metrics_readEndpoint cfg = Some u ->
  Forall2 (agree_routes (unnamed hdr r0))
    (Group (metricsReadMiddlewares cfg pm tenantLabel rateLimit ++ [MetricsEnforcer.WithEnforceAuthorizationLabels])
       [Handle pattern (ReverseProxy (Proxy.Middlewares [MiddlewareSetUpstream u]) up1)])
    (Group (metricsReadMiddlewares cfg pm tenantLabel rateLimit ++ [MetricsEnforcer.WithEnforceAuthorizationLabels])
       [Handle pattern (ReverseProxy (Proxy.Middlewares [MiddlewareSetUpstream u]) up2)]).
Proof.
  intros Hu. eapply Group_agree; [apply read_chain_passes|]. constructor; [|done]. split_and!; [done|done|].
  eapply ReverseProxy_agree; [|exact upstreams_agree].
  intros r Hr. apply legacy_confined; [by apply (setup_base setup)|done].
Qed.

Lemma Return_inj {A} (a b : A) : Return a = Return b -> a = b.
Proof. by intros [= ->]. Qed.

(** Only the routes to the read endpoint ask that upstream. *)
Lemma legacy_agree w : Forall2 (agree_routes (unnamed hdr r0))
  (legacy_api cfg pm tenantLabel rateLimit (with_read up1 w))
  (legacy_api cfg pm tenantLabel rateLimit (with_read up2 w)).
Proof.
  apply Mount_agree. unfold MetricsLegacy.NewHandler, MetricsLegacy.legacy_proxy.
  cbn [foldl MetricsLegacy.WithGlobalMiddleware MetricsLegacy.queryMiddlewares MetricsLegacy.uiMiddlewares app].
  destruct (metrics_readEndpoint cfg) as [u|] eqn:Hu; [|apply agree_routes_refl].
  repeat (apply Forall2_app; [by apply legacy_group_agree|]). apply agree_routes_refl.
Qed.

Lemma metrics_agree w : Forall2 (agree_routes (unnamed hdr r0))
  (MetricsV1.NewHandler (metricsEndpoints cfg) (w_metrics (with_read up1 w))
     (metricsHandlerOptions cfg pm tenantLabel rateLimit))
  (MetricsV1.NewHandler (metricsEndpoints cfg) (w_metrics (with_read up2 w))
     (metricsHandlerOptions cfg pm tenantLabel rateLimit)).
Proof.
  unfold MetricsV1.NewHandler. apply Forall2_app; [|apply agree_routes_refl].
  unfold metricsEndpoints, MetricsV1.endpoint_routes. cbn [MetricsV1.ReadEndpoint].
  destruct (metrics_readEndpoint cfg) as [u|] eqn:Hu; [|done].
  unfold MetricsV1.read_routes. repeat (apply Forall2_app; [by apply read_group_agree|]). by apply read_group_agree.
Qed.

Lemma api_agree (all : config) ids token patterns alertRateLimit w rs1 rs2 : cfg_metrics all = cfg ->
  api_routes ParseRequestURI parse canonical all ids token pm patterns alertRateLimit rateLimit (with_read up1 w) = Return rs1 ->
  api_routes ParseRequestURI parse canonical all ids token pm patterns alertRateLimit rateLimit (with_read up2 w) = Return rs2 ->
  Forall2 (agree_routes (unnamed hdr r0)) rs1 rs2.
Proof.
  intros Hall E1 E2. unfold api_routes in E1, E2.
  apply flow_bind_return in E1 as (m1 & Em1 & E1), E2 as (m2 & Em2 & E2).
  apply flow_bind_return in E1 as (l1 & El1 & E1), E2 as (l2 & El2 & E2).
  apply flow_bind_return in E1 as (t1 & Et1 & E1), E2 as (t2 & Et2 & E2).
  change (logs_api parse (cfg_logs all) pm (with_read up1 w)) with (logs_api parse (cfg_logs all) pm (with_read up2 w)) in El1.
  change (traces_api ParseRequestURI (cfg_traces all) pm (with_read up1 w))
    with (traces_api ParseRequestURI (cfg_traces all) pm (with_read up2 w)) in Et1.
  assert (l1 = l2) as -> by congruence. assert (t1 = t2) as -> by congruence.
  apply Return_inj in E1 as <-, E2 as <-.
  apply Forall2_app; [apply agree_routes_refl|]. apply Forall2_app; [apply agree_routes_refl|].
  apply Forall2_app; [|apply agree_routes_refl].
  unfold metrics_api in Em1, Em2. rewrite Hall in Em1, Em2. destruct (metrics_enabled cfg).
  - rewrite (setup_label setup) in Em1, Em2. cbn [mbind flow_bind] in Em1, Em2.
    apply Return_inj in Em1 as <-, Em2 as <-.
    apply Forall2_app; [apply legacy_agree|]. apply Forall2_app; [apply agree_routes_refl|].
    apply Mount_agree, metrics_agree.
  - apply Return_inj in Em1 as <-, Em2 as <-. apply agree_routes_refl.
Qed.
End gateway.

(** C3: Tenant isolation of the metrics API, from the root router of the
    program to its upstream.  For a request below [/api/metrics/v1] whose path is
    tame, whatever route it takes, the answer of the gateway depends on the read
    upstream only through what that upstream answers to confined requests: those
    in which every selector carries a matcher that accepts exactly the tenants the
    caller names in the tenant header.  So nothing else is ever sent there. *)
Theorem metrics_gateway_isolated {C} `{LogqlEnv} `{RegexEngine} `{MapRange} `{Mime} `{PromQL}
    `{MatcherPrinter} `{Alertmanager} `{Yaml} `{UrlCodec} `{Chi}
    (ParseRequestURI : string -> result URL) (parse : string -> fallible (NumberMemory * Expr))
    (canonical : string -> string) (cfg : config) (ids : gmap string string) (token : string)
    (pm : @ProviderManager (RLState C)) (patterns : list string)
    (alertRateLimit rateLimit tenantLabel : Middleware (RLState C)) (w : World C) (up1 up2 : Handler (RLState C))
    (rs1 rs2 : Router (RLState C)) (r : Request) (y : string) :
  metrics_setup (cfg_metrics cfg) pm rateLimit tenantLabel ->
  rootRouter ParseRequestURI parse canonical cfg ids token pm patterns alertRateLimit rateLimit (with_read up1 w) = Return rs1 ->
  rootRouter ParseRequestURI parse canonical cfg ids token pm patterns alertRateLimit rateLimit (with_read up2 w) = Return rs2 ->
  u_path (r_url r) = "/api/metrics/v1/" +:+ y -> tame y ->
  agree (confined (metrics_tenantHeader (cfg_metrics cfg)) (metrics_tenantLabel (cfg_metrics cfg)) r) up1 up2 ->
  forall c, ServeHTTP rs1 r c = ServeHTTP rs2 r c.
Proof.
  intros Hsetup E1 E2 Hpath Htame Hup c.
  apply flow_bind_return in E1 as (a1 & E1 & ?%Return_inj), E2 as (a2 & E2 & ?%Return_inj). subst.
  apply (ServeHTTP_agree (asked r)); [by intros ps r'| |done].
  apply Forall2_app; [|apply agree_routes_refl].
  eapply Group_agree; [eapply passes_cons; [apply access_token_passes, (setup_header _ _ _ _ Hsetup)|apply passes_nil]|].
  by eapply api_agree.
Qed.
