(* ===== verification/LogsIsolation.v ===== *)
(** * What reaches the upstreams of the logs API through the whole gateway

    The counterpart of [Isolation.v] for the read and the tail upstream: the
    middlewares before their routes, the path the upstream gets against the path
    the enforcer saw, and the routers that agree when the upstreams do. *)

From stdpp Require Import base tactics option list gmap strings.
From Stdlib Require Import ZArith Lia Ascii.
From S2P Require Import Prelude GoStrings Labels Url Strconv Json Http Tenant Authz LogqlAst LogsEnforcer.
From S2P Require Import MetricsEnforcer RateLimit Proxy Router Login Rules Providers Traces Config.
From S2P Require Import MetricsRoutes LogsRoutes TracesRoutes AlertsProbes Gateway Isolation.
Import TenantHeader MTLSTenant.

(** The enforcer takes the same parameter for the path the upstream gets. *)
Lemma logQLParam_kept b y p : base_ok b -> tame y ->
  logQLParam (path_Join b ("/" +:+ y)) = logQLParam (p +:+ "/" +:+ y).
Proof.
  intros Hb (Hy & l & Hl & Hr). destruct (upstream_last b y l) as [x ->]; [done..|].
  destruct (last_Split y l Hl) as (Hlack & x' & ->). rewrite (str_app_assoc p). unfold logQLParam.
  by rewrite !(HasSuffix_last _ l "series").
Qed.

Section confinement.
Context `{LogqlEnv} `{RegexEngine} `{MapRange} `{Mime}.
Context (parse : string -> fallible (NumberMemory * Expr)).
Context (h lbl : string) (r0 : Request).

Definition logs_held (r : Request) : Prop :=
  valid_tenants (named_tenants h r0) /\ exists r1, same_ask r0 r1 /\
  request_enforced parse [tenant_matcher lbl (named_tenants h r0)] (logQLParam (u_path (r_url r0))) r1 r.

(** What holds behind the enforcer, and behind the prefix. *)
Definition logs_checked (r : Request) : Prop := same_path r0 r /\ logs_held r.
Definition logs_stripped (prefix : string) (r : Request) : Prop :=
  u_path (r_url r0) = prefix +:+ u_path (r_url r) /\ logs_held r.

Lemma logs_enforcer_passes {S} :
  passes (labelled h lbl r0) (@LogsEnforcer.WithEnforceAuthorizationLabels _ _ _ _ parse S) logs_checked.
Proof.
  apply passes_forward. intros r (Hask & Hv & data & Hd & Hne & Hu).
  destruct (id Hask) as (Hp & _).
  destruct (LogsEnforcer.enforcer_forwards parse r data (mkAuthz [tenant_matcher lbl (named_tenants h r0)] ""))
    as [[msg Hr]|[[msg Hr]|(r' & Hr & He & Hpath)]]; [done|done|done|apply NoDup_singleton|by left|right|right|left].
  - exists (fun _ => PrometheusAPIError msg 500). intros next c. by rewrite Hr.
  - exists (fun _ => panic msg). intros next c. by rewrite Hr.
  - exists r'. split; [|intros next c; by rewrite Hr]. unfold same_path in Hp. cbn [ad_matchers] in He.
    rewrite Hp in He. split; [by unfold same_path; rewrite Hpath|]. split; [done|]. by exists r.
Qed.

Lemma logs_strip_passes {S} prefix : prefix <> "" ->
  passes logs_checked (@StripPrefix prefix S) (logs_stripped prefix).
Proof. intros Hne. by apply strip_frame. Qed.
End confinement.

(** A request the read or tail upstream of the logs may get for [r0]: what the
    enforcer makes of a request that asks for the same (an authenticator may have
    changed its headers), with a matcher that accepts exactly the tenants [r0] names,
    under the parameter that the enforcer takes for the path of the upstream
    ([query], or [match] for series). *)
Definition logs_confined `{LogqlEnv} `{RegexEngine} `{Mime}
    (parse : string -> fallible (NumberMemory * Expr)) (h lbl : string) (r0 r' : Request) : Prop :=
  let ts := collect_tenants (header_values (r_header r0) h) in
  valid_tenants ts /\
  exists m, m_name m = lbl /\ (forall v, Matches m v = true <-> v ∈ ts) /\
  exists r1, u_rawQuery (r_url r1) = u_rawQuery (r_url r0) /\ r_method r1 = r_method r0 /\
    r_body r1 = r_body r0 /\
    request_enforced parse [m] (logQLParam (u_path (r_url r'))) r1 r'.

Definition with_log_reads {C} (read tail : Handler (RLState C)) (w : World C) : World C :=
  mkWorld (w_metrics w) (LogsV1.mkUpstreams read tail (LogsV1.up_write (w_logs w)) (LogsV1.up_rules (w_logs w)))
    (w_traces w) (w_alerts w) (w_probes w) (w_probes_director w) (w_probes_made w) (w_openapi w) (w_paths w).

(** ** A parameter that is not enforced *)

Lemma enforceValuesOnLogQL_others `{LogqlEnv} `{RegexEngine} `{MapRange} parse mInfo v p k s :
  no_empty_values v -> k <> p -> enforceValuesOnLogQL parse mInfo v p = Return (Ok s) ->
  values_all (query_values s) k = values_all v k.
Proof.
  intros Hv Hk E.
  assert (forall q, values_all (query_values (Encode (values_set v p q))) k = values_all v k) as Hset.
  { intros q. rewrite query_values_Encode by auto with gateway.
    unfold values_all, values_set. by rewrite lookup_insert_ne by congruence. }
  unfold enforceValuesOnLogQL in E. apply fallible_bind_ok in E as (lm & _ & E).
  destruct (String.eqb _ ""); [injection E as <-; apply Hset|].
  apply fallible_bind_ok in E as ([mem e] & _ & E). destruct (_ && _); injection E as <-; apply Hset.
Qed.

(** Whatever the enforcement does, the selectors [match[]] of the URL, which the
    API documents for series, reach the upstream as they were sent. *)
Lemma series_selectors_kept `{LogqlEnv} `{RegexEngine} `{MapRange} `{Mime} parse mInfo r r' :
  enforceRequestLogQL parse mInfo r = Return (Ok r') ->
  values_all (URL_Query r') "match[]" = values_all (URL_Query r) "match[]".
Proof.
  intros E. unfold enforceRequestLogQL in E. apply fallible_bind_ok in E as (q & Eq & E).
  unfold enforceValues in Eq. apply (enforceValuesOnLogQL_others _ _ _ _ "match[]") in Eq;
    [|apply no_empty_query_values|by unfold logQLParam; destruct (HasSuffix _ _)].
  rewrite <-Eq. destruct (negb _); [by injection E as <-|].
  apply fallible_bind_ok in E as (form & _ & E). apply fallible_bind_ok in E as (body & _ & E).
  by injection E as <-.
Qed.

Section gateway.
Context {C : Type}.
Context `{LogqlEnv} `{RegexEngine} `{MapRange} `{Mime} `{PromQL} `{MatcherPrinter} `{Alertmanager}
  `{Yaml} `{UrlCodec} `{Chi}.
Context (ParseRequestURI : string -> result URL)
        (parse : string -> fallible (NumberMemory * Expr))
        (canonical : string -> string).
Context (cfg : logsConfig) (pm : @ProviderManager (RLState C)) (tenantLabel : Middleware (RLState C)).
Context (r0 : Request) (y : string).

(** What the configuration has to give, as for the metrics; there is no limiter. *)
Record logs_setup : Prop := {
  logs_setup_label : WithTenantLabel (logs_tenantLabel cfg) = Return tenantLabel;
  logs_setup_ascii : ascii_only (logs_tenantLabel cfg) = true;
  logs_setup_header : CanonicalKey (logs_tenantHeader cfg) <> "Authorization";
  logs_setup_auth : forall t mw, Middlewares pm t = Some mw -> Authenticates mw;
  logs_setup_read : forall u, logs_readEndpoint cfg = Some u -> base_ok (u_path u);
  logs_setup_tail : forall u, logs_tailEndpoint cfg = Some u -> base_ok (u_path u)
}.
Hypothesis setup : logs_setup.

Hypothesis path_of_api : u_path (r_url r0) = "/api/logs/v1/" +:+ y.
Hypothesis path_tame : tame y.

Abbreviation hdr := (logs_tenantHeader cfg).
Abbreviation lbl := (logs_tenantLabel cfg).

Definition logsReadMiddlewares : list (Middleware (RLState C)) :=
  [WithTenantFromHeader hdr; WithTenantMiddlewares [Middlewares pm]; tenantLabel;
   LogsEnforcer.WithEnforceAuthorizationLabels parse].

Lemma log_chain_passes :
  passes (unnamed hdr r0) (chain (logsReadMiddlewares ++ [StripPrefix "/api/logs/v1"]))
    (logs_stripped parse hdr lbl r0 "/api/logs/v1").
Proof.
  destruct setup as [Hl Ha Hh Hauth _ _].
  eapply passes_cons; [apply header_passes|].
  eapply passes_cons; [apply authenticates_named, WithTenantMiddlewares_authenticates|].
  { intros t mw. simpl. destruct (Middlewares pm t) as [m|] eqn:E; [|done]. intros [= <-]. by apply (Hauth t). }
  eapply passes_cons; [by apply label_passes|].
  eapply passes_cons; [apply logs_enforcer_passes|].
  eapply passes_cons; [by apply logs_strip_passes|]. apply passes_nil.
Qed.

Lemma endpoint_logs_confined u r : base_ok (u_path u) -> logs_stripped parse hdr lbl r0 "/api/logs/v1" r ->
  logs_confined parse hdr lbl r0 (outgoing r (MetricsV1.endpoint_director u r)).
Proof.
  intros Hb [Hp [Hv (r1 & (_ & Hq1 & Hm1 & Hb1) & He)]]. split; [done|]. exists (tenant_matcher lbl (named_tenants hdr r0)).
  fold (named_tenants hdr r0). destruct (tenant_matcher_of hdr lbl r0 Hv) as [Hn Hm]. split_and!; [done|done|].
  exists r1. split_and!; [done|done|done|]. rewrite path_of_api in Hp. apply (stripped_rest "/api/logs/v1") in Hp.
  unfold request_enforced, URL_Query in *. cbn [outgoing r_url r_method r_body].
  destruct (endpoint_director_frame u r) as (-> & Hq & Hmeth & Hbody).
  rewrite <-Hp, (logQLParam_kept _ _ "/api/logs/v1") by done.
  change ("/api/logs/v1" +:+ "/" +:+ y) with ("/api/logs/v1/" +:+ y). rewrite <-path_of_api.
  by rewrite Hq, Hmeth, Hbody.
Qed.

Context (read1 read2 tail1 tail2 : Handler (RLState C)).
Hypothesis reads_agree : agree (logs_confined parse hdr lbl r0) read1 read2.
Hypothesis tails_agree : agree (logs_confined parse hdr lbl r0) tail1 tail2.

Lemma log_group_agree u up1 up2 patterns :
  base_ok (u_path u) -> agree (logs_confined parse hdr lbl r0) up1 up2 ->
  Forall2 (agree_routes (unnamed hdr r0))
    (Group (logsReadMiddlewares ++ [StripPrefix "/api/logs/v1"])
       ((fun pattern => Handle pattern (ReverseProxy (MetricsV1.endpoint_director u) up1)) <$> patterns))
    (Group (logsReadMiddlewares ++ [StripPrefix "/api/logs/v1"])
       ((fun pattern => Handle pattern (ReverseProxy (MetricsV1.endpoint_director u) up2)) <$> patterns)).
Proof.
  intros Hb Hup. eapply Group_agree; [apply log_chain_passes|].
  apply Forall2_fmap, Forall2_same_length_lookup_2; [done|]. intros i x1 x2 -> [= ->].
  split_and!; [done|done|]. eapply ReverseProxy_agree; [|exact Hup].
  intros r Hr. by apply endpoint_logs_confined.
Qed.

(** Only the routes of the read and the tail endpoint ask these upstreams. *)
Lemma logs_agree w : Forall2 (agree_routes (unnamed hdr r0))
  (LogsV1.NewHandler (logs_readEndpoint cfg) (logs_tailEndpoint cfg) (logs_writeEndpoint cfg)
     (logs_rulesEndpoint cfg) (logs_rulesReadOnly cfg) (w_logs (with_log_reads read1 tail1 w))
     (logsHandlerOptions parse cfg pm tenantLabel))
  (LogsV1.NewHandler (logs_readEndpoint cfg) (logs_tailEndpoint cfg) (logs_writeEndpoint cfg)
     (logs_rulesEndpoint cfg) (logs_rulesReadOnly cfg) (w_logs (with_log_reads read2 tail2 w))
     (logsHandlerOptions parse cfg pm tenantLabel)).
Proof.
  destruct setup as [_ _ _ _ Hr Ht]. unfold LogsV1.NewHandler, MetricsV1.endpoint_routes.
  apply Forall2_app.
  { destruct (logs_readEndpoint cfg) as [u|]; [|done]. by apply log_group_agree; [apply Hr|]. }
  apply Forall2_app; [apply agree_routes_refl|]. apply Forall2_app; [|apply agree_routes_refl].
  destruct (logs_tailEndpoint cfg) as [u|]; [|done].
  by apply (log_group_agree u tail1 tail2 [LogsV1.tailRoute; LogsV1.promTailRoute]); [apply Ht|].
Qed.

(** The logs upstreams are only asked by the logs routes. *)
Lemma logs_api_agree (all : config) ids token patterns alertRateLimit rateLimit w rs1 rs2 : cfg_logs all = cfg ->
  api_routes ParseRequestURI parse canonical all ids token pm patterns alertRateLimit rateLimit (with_log_reads read1 tail1 w) = Return rs1 ->
  api_routes ParseRequestURI parse canonical all ids token pm patterns alertRateLimit rateLimit (with_log_reads read2 tail2 w) = Return rs2 ->
  Forall2 (agree_routes (unnamed hdr r0)) rs1 rs2.
Proof.
  intros Hall E1 E2. unfold api_routes in E1, E2.
  apply flow_bind_return in E1 as (m1 & Em1 & E1), E2 as (m2 & Em2 & E2).
  apply flow_bind_return in E1 as (l1 & El1 & E1), E2 as (l2 & El2 & E2).
  apply flow_bind_return in E1 as (t1 & Et1 & E1), E2 as (t2 & Et2 & E2).
  change (metrics_api canonical all pm rateLimit (with_log_reads read1 tail1 w))
    with (metrics_api canonical all pm rateLimit (with_log_reads read2 tail2 w)) in Em1.
  change (traces_api ParseRequestURI (cfg_traces all) pm (with_log_reads read1 tail1 w))
    with (traces_api ParseRequestURI (cfg_traces all) pm (with_log_reads read2 tail2 w)) in Et1.
  assert (m1 = m2) as -> by congruence. assert (t1 = t2) as -> by congruence.
  apply Return_inj in E1 as <-, E2 as <-.
  do 3 (apply Forall2_app; [apply agree_routes_refl|]). apply Forall2_app; [|apply agree_routes_refl].
  unfold logs_api in El1, El2. rewrite Hall in El1, El2. destruct (logs_enabled cfg).
  - rewrite (logs_setup_label setup) in El1, El2. cbn [mbind flow_bind] in El1, El2.
    apply Return_inj in El1 as <-, El2 as <-. apply Mount_agree, logs_agree.
  - apply Return_inj in El1 as <-, El2 as <-. apply agree_routes_refl.
Qed.
End gateway.

(** C4: Tenant isolation of the logs API, from the root router of the program
    to its read and tail upstreams.  For a request below [/api/logs/v1] whose path
    is tame, whatever route it takes, the answer of the gateway depends on these
    upstreams only through what they answer to confined requests.  In those, the
    parameter [query] ([match] for series) of the URL is the text of the tree the
    parser makes of the caller's own parameter, changed only in its stream selectors,
    each of which implies a matcher that accepts exactly the tenants the caller names
    in the tenant header; so is that of the form in the body of a POST; and the
    other parameters are the caller's.  So nothing else is ever sent there. *)
Theorem logs_gateway_isolated {C} `{LogqlEnv} `{RegexEngine} `{MapRange} `{Mime} `{PromQL}
    `{MatcherPrinter} `{Alertmanager} `{Yaml} `{UrlCodec} `{Chi}
    (ParseRequestURI : string -> result URL) (parse : string -> fallible (NumberMemory * Expr))
    (canonical : string -> string) (cfg : config) (ids : gmap string string) (token : string)
    (pm : @ProviderManager (RLState C)) (patterns : list string)
    (alertRateLimit rateLimit tenantLabel : Middleware (RLState C)) (w : World C) (read1 read2 tail1 tail2 : Handler (RLState C))
    (rs1 rs2 : Router (RLState C)) (r : Request) (y : string) :
  let confined := logs_confined parse (logs_tenantHeader (cfg_logs cfg)) (logs_tenantLabel (cfg_logs cfg)) r in
  logs_setup (cfg_logs cfg) pm tenantLabel ->
  rootRouter ParseRequestURI parse canonical cfg ids token pm patterns alertRateLimit rateLimit (with_log_reads read1 tail1 w) = Return rs1 ->
  rootRouter ParseRequestURI parse canonical cfg ids token pm patterns alertRateLimit rateLimit (with_log_reads read2 tail2 w) = Return rs2 ->
  u_path (r_url r) = "/api/logs/v1/" +:+ y -> tame y ->
  agree confined read1 read2 -> agree confined tail1 tail2 ->
  forall c, ServeHTTP rs1 r c = ServeHTTP rs2 r c.
Proof.
  intros confined Hsetup E1 E2 Hpath Htame Hread Htail c.
  apply flow_bind_return in E1 as (a1 & E1 & ?%Return_inj), E2 as (a2 & E2 & ?%Return_inj). subst.
  apply (ServeHTTP_agree (asked r)); [by intros ps r'| |done].
  apply Forall2_app; [|apply agree_routes_refl].
  eapply Group_agree; [eapply passes_cons; [apply access_token_passes, (logs_setup_header _ _ _ Hsetup)|apply passes_nil]|].
  eapply (logs_api_agree ParseRequestURI parse canonical (cfg_logs cfg) pm tenantLabel r y Hsetup Hpath Htame
            read1 read2 tail1 tail2 Hread Htail); done.
Qed.
