(* ===== verification/GatewayFacts.v ===== *)
(** * Facts about the gateway as a whole

    The gRPC server, when the routers can be made, which writes reach an upstream,
    which routes do not authenticate or do not work, whose provider and limits apply
    to several tenants, and the paths that avoid the enforcement of the metrics. *)

From stdpp Require Import base tactics option list gmap strings.
From Stdlib Require Import ZArith Lia Ascii.
From S2P Require Import Prelude GoStrings Labels Url Strconv Json Http Tenant Authz LogqlAst LogsEnforcer.
From S2P Require Import MetricsEnforcer RateLimit Proxy Router Login Rules Providers Traces Config.
From S2P Require Import MetricsRoutes LogsRoutes TracesRoutes AlertsProbes Gateway Isolation.
Import TenantHeader MTLSTenant.

(** ** The gRPC server: [newGRPCServer]

    [collector] is the transparent proxy to the collector, with the metadata it
    sends on. *)

Definition TraceRoute : string := "/opentelemetry.proto.collector.trace.v1.TraceService/Export".

Definition grpc_director {A} (connOtel : A) (ctx : GrpcCtx) (fullMethodName : string) : MD * option A :=
  (default ∅ (g_md ctx), if String.eqb fullMethodName TraceRoute then Some connOtel else None).

Definition grpc_handler (collector : MD -> StreamHandler) (fullMethodName : string) : StreamHandler := fun ctx =>
  match grpc_director collector ctx fullMethodName with
  | (outMd, Some proxiedServer) => proxiedServer outMd ctx
  | (_, None) => Some (Unimplemented, "Unknown method")
  end.

Definition newGRPCServer (tenantHeader : string) (collector : MD -> StreamHandler) (fullMethodName : string) :
    StreamHandler := fun ctx =>
  WithGRPCMTLSTenantExtraction tenantHeader ctx (grpc_handler collector fullMethodName).

(** C28: Writing traces over gRPC.  A stream reaches the collector exactly
    when it calls the export method and its client certificate names a tenant; the
    collector then gets that tenant as the only value of the tenant header and the
    rest of the metadata as the client sent it.  Every other stream ends with an
    error and the collector is not called. *)
Theorem grpc_write (h : string) (collector : MD -> StreamHandler) (method : string) (ctx : GrpcCtx) :
  match cert_tenant (default None (g_peer ctx)) with
  | Some ou =>
      if String.eqb method TraceRoute then
        exists md ctx', newGRPCServer h collector method ctx = collector md ctx' /\
          md_get md h = [ou] /\ GetTenant (g_ctx ctx') = Some ou /\
          forall k, lower k <> lower h -> md_get md k = md_get (default ∅ (g_md ctx)) k
      else exists msg, newGRPCServer h collector method ctx = Some (Unimplemented, msg)
  | None => exists e, newGRPCServer h collector method ctx = Some e
  end.
Proof.
  unfold newGRPCServer, cert_tenant, WithGRPCMTLSTenantExtraction, grpc_handler, grpc_director.
  destruct (g_peer ctx) as [[[[|cert certs]]|]|]; simpl; try by eexists.
  destruct (OrganizationalUnit cert) as [|ou ous]; simpl; [by eexists|].
  destruct (String.eqb method TraceRoute); [|by eexists].
  do 2 eexists. split; [reflexivity|]. unfold md_get, md_set. split; [by rewrite lookup_insert_eq|].
  split; [done|]. intros k Hk. by rewrite lookup_insert_ne.
Qed.

(** ** The routers can be made *)

Section facts.
Context {C : Type}.
Context `{LogqlEnv} `{RegexEngine} `{MapRange} `{Mime} `{PromQL} `{MatcherPrinter} `{Alertmanager}
  `{Yaml} `{UrlCodec}.
Context (ParseRequestURI : string -> result URL)
        (parse : string -> fallible (NumberMemory * Expr))
        (canonical : string -> string).
Context (cfg : config) (ids : gmap string string) (token : string) (pm : @ProviderManager (RLState C))
        (patterns : list string) (w : World C).

Section routers.
Context (alertRateLimit rateLimit : Middleware (RLState C)).

Abbreviation root := (rootRouter ParseRequestURI parse canonical cfg ids token pm patterns alertRateLimit rateLimit w).

Lemma WithTenantLabel_made {S} l : (exists mw, @WithTenantLabel S l = Return mw) <-> l <> "".
Proof.
  unfold WithTenantLabel. destruct (String.eqb_spec l "") as [->|Hne].
  - split; [by intros []|done].
  - split; [done|by eexists].
Qed.

Lemma traces_made : exists rs, traces_api ParseRequestURI (cfg_traces cfg) pm w = Return rs.
Proof.
  unfold traces_api, traces_served, TracesV1.NewV2Handler.
  destruct (traces_enabled _); [|by eexists]. cbn [andb].
  destruct (traces_readEndpoint (cfg_traces cfg)) as [u|]; simpl; [by eexists|].
  destruct (String.eqb (traces_readTemplateEndpoint _) ""); simpl; [|by eexists].
  destruct (traces_tempoEndpoint (cfg_traces cfg)) as [u|]; simpl; by eexists.
Qed.

Lemma routers_made :
  (exists rs, root = Return rs) <->
  (metrics_enabled (cfg_metrics cfg) = true -> metrics_tenantLabel (cfg_metrics cfg) <> "") /\
  (logs_enabled (cfg_logs cfg) = true -> logs_tenantLabel (cfg_logs cfg) <> "").
Proof.
  destruct traces_made as [ts Hts].
  assert ((exists rs, metrics_api canonical cfg pm rateLimit w = Return rs) <->
          (metrics_enabled (cfg_metrics cfg) = true -> metrics_tenantLabel (cfg_metrics cfg) <> "")) as Hm.
  { unfold metrics_api. destruct (metrics_enabled _); [|by split; [|eexists]].
    rewrite <-(@WithTenantLabel_made (RLState C)). split.
    - intros [rs E]. apply flow_bind_return in E as (mw & E & _). eauto.
    - intros Hl. destruct (Hl eq_refl) as [mw ->]. by eexists. }
  assert ((exists rs, logs_api parse (cfg_logs cfg) pm w = Return rs) <->
          (logs_enabled (cfg_logs cfg) = true -> logs_tenantLabel (cfg_logs cfg) <> "")) as Hl.
  { unfold logs_api. destruct (logs_enabled _); [|by split; [|eexists]].
    rewrite <-(@WithTenantLabel_made (RLState C)). split.
    - intros [rs E]. apply flow_bind_return in E as (mw & E & _). eauto.
    - intros Hl. destruct (Hl eq_refl) as [mw ->]. by eexists. }
  rewrite <-Hm, <-Hl. unfold rootRouter, api_routes. split.
  - intros [rs E]. apply flow_bind_return in E as (rs1 & E & _).
    apply flow_bind_return in E as (ms & Em & E). apply flow_bind_return in E as (ls & El & _). eauto.
  - intros [[ms ->] [ls ->]]. rewrite Hts. by eexists.
Qed.

End routers.

Lemma numbered_Forall (P : Config -> Prop) first configs :
  Forall (fun ic : nat * Config => P ic.2) (numbered first configs) <-> Forall P configs.
Proof.
  unfold numbered. rewrite !Forall_lookup. split.
  - intros Hall i c Hc. apply (Hall i (first + i, c)%nat). by rewrite list_lookup_imap, Hc.
  - intros Hall i ic Hi. apply list_lookup_imap_Some in Hi as (c & Hc & ->). by apply (Hall i).
Qed.

(** A limiter can be made unless it is the shared one and an expression did not
    compile: that one reads the text of the nil expression. *)
Lemma rateLimit_made first client (NewRateLimiter : Z -> Z -> Middleware (RLState C)) configs :
  (exists mw, rateLimitMiddleware first client NewRateLimiter configs = Return mw) <->
  (is_Some client -> Forall compiled configs).
Proof.
  unfold rateLimitMiddleware, WithSharedRateLimiter_from. destruct client as [client|].
  - rewrite <-(numbered_Forall _ first). pose proof (foldl_middlewares client (numbered first configs)) as Hf.
    destruct (foldl _ _ _) as [ms|msg]; cbn [mbind flow_bind].
    + destruct Hf as [Hall _]. split; [done|by eexists].
    + apply Exists_not_Forall in Hf. split; [by intros []|]. intros Hall. destruct Hf. by apply Hall.
  - split; [by intros _ []|by eexists].
Qed.

(** C25: The start.  The limiters and the routers are made, without a panic of
    [main], exactly when no enabled API that labels its queries has an empty tenant
    label and, if there is a shared limiter and an API that uses it (the metrics or
    the Alertmanager), every expression of the configured limits compiled: one that
    did not is only logged when it is read, and its nil pointer is used by the
    constructor of the shared limiter.  So the panic of the traces handler without an
    endpoint never happens.  (What chi and the metrics registry check of patterns and
    names is outside of the model.) *)
Theorem gateway_starts (client : option (SharedRateLimiter C))
    (NewRateLimiter : Z -> Z -> Middleware (RLState C)) (rateLimits : list Config) :
  (exists rs, startRouters ParseRequestURI parse canonical cfg ids token pm patterns client
                NewRateLimiter rateLimits w = Return rs) <->
  (metrics_enabled (cfg_metrics cfg) = true -> metrics_tenantLabel (cfg_metrics cfg) <> "") /\
  (logs_enabled (cfg_logs cfg) = true -> logs_tenantLabel (cfg_logs cfg) <> "") /\
  (isEnabled (cfg_alertmanager cfg) = true \/ metrics_enabled (cfg_metrics cfg) = true ->
   is_Some client -> Forall compiled rateLimits).
Proof.
  pose proof (rateLimit_made 0 client NewRateLimiter rateLimits) as Ha.
  pose proof (rateLimit_made (length rateLimits) client NewRateLimiter rateLimits) as Hm.
  unfold startRouters. split.
  - intros [rs E]. apply flow_bind_return in E as (al & Eal & E). apply flow_bind_return in E as (rl & Erl & E).
    assert (exists rs, rootRouter ParseRequestURI parse canonical cfg ids token pm patterns al rl w = Return rs)
      as [? ?]%(routers_made al rl) by eauto. split_and!; [done|done|].
    destruct (isEnabled _); [intros _; by apply Ha; eauto|].
    destruct (metrics_enabled _); [intros _; by apply Hm; eauto|]. by intros [].
  - intros (Hml & Hll & Hc).
    assert (exists al, (if isEnabled (cfg_alertmanager cfg) then rateLimitMiddleware 0 client NewRateLimiter rateLimits
                        else Return (fun next => next)) = Return al) as [al ->].
    { destruct (isEnabled _); [|by eexists]. apply Ha. auto. }
    assert (exists rl, (if metrics_enabled (cfg_metrics cfg)
                        then rateLimitMiddleware (length rateLimits) client NewRateLimiter rateLimits
                        else Return (fun next => next)) = Return rl) as [rl ->].
    { destruct (metrics_enabled _); [|by eexists]. apply Hm. auto. }
    by apply (routers_made al rl).
Qed.

(** ** Login routes *)

(** C24: Nobody can log in.  Every route the gateway mounts for the login
    and callback pages of its authenticators answers any request of a client with
    500: the handler behind it looks for the tenant in the context of the request,
    where only the middlewares of the APIs put one. *)
Theorem login_routes_fail (rt : Route (RLState C)) (r : Request) :
  rt ∈ Group [WithAccessToken] (authn_routes pm patterns) -> GetTenant (r_ctx r) = None ->
  rt_handler rt r = PrometheusAPIError "error finding tenant" 500.
Proof.
  intros Hin Ht. apply list_elem_of_fmap in Hin as (rt0 & -> & Hin).
  apply list_elem_of_In, in_concat in Hin as (l & Hl & Hin).
  apply list_elem_of_In, list_elem_of_fmap in Hl as (pattern & -> & _).
  destruct Hin as [<-|[]]. cbn [rt_handler chain MountHandler].
  unfold WithAccessToken, PatternHandler. destruct (_ && _);
    cbn [r_ctx map_ctx set_ctx]; unfold GetTenant in *; cbn [ctx_tenant with_accessToken];
    cbn [r_ctx set_header]; by rewrite Ht.
Qed.

(** ** The Tempo route *)

(** C9: The Tempo API is open.  With a Tempo endpoint, the gateway has a
    route to it whose handler passes every request on to the upstream, whoever
    sends it: only the access token is read, and neither a tenant nor an
    authenticator stands in between.  (The proxy itself treats the headers of the
    connection, and refuses an upgrade it cannot print.) *)
Theorem tempo_unauthenticated (alertRateLimit rateLimit : Middleware (RLState C)) (u : URL)
    (rs : Router (RLState C)) :
  traces_enabled (cfg_traces cfg) = true -> traces_tempoEndpoint (cfg_traces cfg) = Some u ->
  rootRouter ParseRequestURI parse canonical cfg ids token pm patterns alertRateLimit rateLimit w = Return rs ->
  exists rt, rt ∈ rs /\ rt_method rt = Some "GET" /\ rt_pattern rt = "/api/traces/v1/tempo/api*" /\
  forall r, exists r', r_url r' = r_url r /\ r_body r' = r_body r /\ r_tls r' = r_tls r /\
    GetTenant (r_ctx r') = GetTenant (r_ctx r) /\
    let out := TracesV1.tempo_director u r' in
    forall c, rt_handler rt r c =
      (if str_forallb printable (upgradeType (r_header out))
       then TracesV1.up_tempo (w_traces w) (outgoing r' out) else WriteHeader 502) c.
Proof.
  intros Hen Hu E. apply flow_bind_return in E as (rs1 & E & ->%Return_inj%eq_sym).
  apply flow_bind_return in E as (ms & _ & E). apply flow_bind_return in E as (ls & _ & E).
  apply flow_bind_return in E as (ts & Et & ->%Return_inj%eq_sym).
  unfold traces_api, traces_served in Et. rewrite Hen, Hu in Et. cbn [andb] in Et.
  rewrite (bool_decide_eq_true_2 (is_Some (Some u))), orb_true_r in Et by by eexists.
  apply flow_bind_return in Et as (ts1 & Et & ->%Return_inj%eq_sym). unfold TracesV1.NewV2Handler in Et.
  rewrite (bool_decide_eq_false_2 (Some u = None)), andb_false_r in Et by done. apply Return_inj in Et as <-.
  eexists. split.
  { apply elem_of_app. left. apply list_elem_of_fmap. eexists. split; [reflexivity|].
    do 4 (apply elem_of_app; right). apply list_elem_of_fmap. eexists. split; [reflexivity|].
    do 2 (apply elem_of_app; right). apply list_elem_of_singleton. reflexivity. }
  split; [done|]. split; [done|]. intros r. cbn [rt_handler chain].
  unfold WithAccessToken. destruct (_ && _); eexists; (split_and!; [..|intros c; reflexivity]); done.
Qed.
End facts.

(** ** Writes *)

(** What the gateway gives its proxy: the tenant of the client certificate of [r0],
    and only it, is in the tenant header, and the client's [Connection] header is
    still there. *)
Definition certified (h : string) (r0 r' : Request) : Prop :=
  exists ou, cert_tenant (r_tls r0) = Some ou /\ header_values (r_header r') h = [ou] /\
    header_values (r_header r') "Connection" = header_values (r_header r0) "Connection".

(** What the upstream gets: the tenant header holds the tenant of the certificate;
    but it is missing when the client's [Connection] header names it. *)
Definition delivered (h : string) (r0 r' : Request) : Prop :=
  exists ou, cert_tenant (r_tls r0) = Some ou /\
    header_values (r_header r') h = if connection_names (r_header r0) h then [] else [ou].

Definition with_writes {C} (um ul ut : Handler (RLState C)) (w : World C) : World C :=
  let m := w_metrics w in let l := w_logs w in let t := w_traces w in
  mkWorld (MetricsV1.mkUpstreams (MetricsV1.up_read m) um (MetricsV1.up_rules m) (MetricsV1.up_alertmanager m)
             (MetricsV1.up_silence m))
    (LogsV1.mkUpstreams (LogsV1.up_read l) (LogsV1.up_tail l) ul (LogsV1.up_rules l))
    (TracesV1.mkUpstreams (TracesV1.up_read t) (TracesV1.up_tempo t) ut (TracesV1.get_cache t) (TracesV1.put_cache t))
    (w_alerts w) (w_probes w) (w_probes_director w) (w_probes_made w) (w_openapi w) (w_paths w).

Lemma header_set_other hd k k' v : CanonicalKey k <> CanonicalKey k' ->
  header_values (header_set hd k' v) k = header_values hd k.
Proof.
  intros Hne. unfold header_values, header_set, values_all, values_set. by rewrite lookup_insert_ne.
Qed.

Section writes.
Context {C : Type}.
Context `{LogqlEnv} `{RegexEngine} `{MapRange} `{Mime} `{PromQL} `{MatcherPrinter} `{Alertmanager}
  `{Yaml} `{UrlCodec} `{Chi}.
Context (ParseRequestURI : string -> result URL)
        (parse : string -> fallible (NumberMemory * Expr))
        (canonical : string -> string).
Context (rateLimit : Middleware (RLState C)) `{!Transparent rateLimit} (r0 : Request).
Implicit Types (h : string) (r : Request).

Definition same_peer r : Prop :=
  r_tls r = r_tls r0 /\ header_values (r_header r) "Connection" = header_values (r_header r0) "Connection".

(** A header name the proxy treats is none the gateway can put a tenant in. *)
Definition tenant_key h : Prop := CanonicalKey h ∉ proxy_headers.

Lemma tenant_key_intro h : bool_decide (CanonicalKey h ∉ proxy_headers) -> tenant_key h.
Proof. apply (bool_decide_unpack _). Qed.

Lemma tenant_key_not h k : tenant_key h -> k ∈ proxy_headers -> CanonicalKey k = k -> CanonicalKey k <> CanonicalKey h.
Proof. intros Hh Hk -> ->. by apply Hh. Qed.

Lemma extraction_passes {S} h : tenant_key h ->
  passes same_peer (@WithMTLSTenantExtraction h S) (certified h r0).
Proof.
  intros Hh. apply passes_forward. intros r [Hr Hconn]. unfold WithMTLSTenantExtraction, certified, cert_tenant. rewrite Hr.
  destruct (r_tls r0) as [tls|]; [|right; by exists (fun _ => PrometheusAPIError "TLS connection required" 401)].
  destruct (PeerCertificates tls) as [|cert certs] eqn:Ep;
    [right; by exists (fun _ => PrometheusAPIError "client certificate required" 401)|]. simpl.
  destruct (OrganizationalUnit cert) as [|ou ous] eqn:Eo;
    [right; by exists (fun _ => PrometheusAPIError "tenant not found in certificate OU" 400)|].
  left. eexists. split; [|reflexivity]. exists ou. split; [rewrite Ep; simpl; by rewrite Eo|].
  cbn [r_header map_ctx set_ctx set_header]. rewrite (header_set_other _ "Connection"); [split; [|done]|].
  - unfold header_values, header_set, values_all, values_set. by rewrite lookup_insert_eq.
  - apply tenant_key_not; [done| |done]. apply (bool_decide_unpack _). by vm_compute.
Qed.

Lemma strip_certified {S} h prefix : passes (certified h r0) (@StripPrefix prefix S) (certified h r0).
Proof.
  apply passes_forward. intros r Hr. unfold StripPrefix, WithPrefix.
  destruct (String.eqb prefix ""); [left; eexists; split; [|intros; reflexivity]; exact Hr|].
  cbv zeta. destruct (_ <? _)%nat.
  - left. eexists. split; [|intros; reflexivity]. exact Hr.
  - right. by exists (fun _ => http_NotFound).
Qed.

Lemma director_delivered h u r : tenant_key h ->
  certified h r0 r -> delivered h r0 (outgoing r (MetricsV1.endpoint_director u r)).
Proof.
  intros Hh (ou & Hc & Hv & Hconn). exists ou. split; [done|]. cbn [outgoing r_header].
  rewrite outgoing_header_values by done.
  assert (forall k, CanonicalKey k <> PrefixHeader ->
    header_values (r_header (MetricsV1.endpoint_director u r)) k = header_values (r_header r) k) as Hd.
  { intros k Hk. unfold MetricsV1.endpoint_director, Proxy.Middlewares. simpl. unfold MiddlewareSetPrefixHeader.
    destruct (ctx_prefix _); [|done]. destruct (negb _); [done|]. cbn [r_header set_header set_url].
    by apply header_set_other. }
  unfold connection_names, connection_options. rewrite !Hd, Hconn, Hv; [done| |done].
  intros E. apply Hh. rewrite E. apply (bool_decide_unpack _). by vm_compute.
Qed.

Lemma write_group_agree h (mws : list (Middleware (RLState C))) (routes : Handler (RLState C) -> Router (RLState C))
    u up1 up2 : tenant_key h ->
  passes (certified h r0) (chain mws) (certified h r0) -> agree (delivered h r0) up1 up2 ->
  (forall p1 p2 : Handler (RLState C), agree (certified h r0) p1 p2 ->
     Forall2 (agree_routes (certified h r0)) (routes p1) (routes p2)) ->
  Forall2 (agree_routes same_peer)
    (Group (WithMTLSTenantExtraction h :: mws) (routes (ReverseProxy (MetricsV1.endpoint_director u) up1)))
    (Group (WithMTLSTenantExtraction h :: mws) (routes (ReverseProxy (MetricsV1.endpoint_director u) up2))).
Proof.
  intros Hh Hm Ha Hr. eapply Group_agree; [eapply passes_cons; [by apply extraction_passes|exact Hm]|].
  apply Hr. eapply ReverseProxy_agree; [|exact Ha]. intros r. by apply director_delivered.
Qed.

Lemma routes_agree Q (p1 p2 : Handler (RLState C)) (rts : list (option string * string)) : agree Q p1 p2 ->
  Forall2 (agree_routes Q) ((fun mp => mkRoute mp.1 mp.2 p1) <$> rts) ((fun mp => mkRoute mp.1 mp.2 p2) <$> rts).
Proof. intros Ha. induction rts; constructor; [by split_and!|done]. Qed.

Context (um1 um2 ul1 ul2 ut1 ut2 : Handler (RLState C)).

Lemma endpoint_routes_agree Q (o : option URL) (f1 f2 : URL -> Router (RLState C)) :
  (forall u, Forall2 (agree_routes Q) (f1 u) (f2 u)) ->
  Forall2 (agree_routes Q) (MetricsV1.endpoint_routes o f1) (MetricsV1.endpoint_routes o f2).
Proof. intros Hf. destruct o; [apply Hf|done]. Qed.

Lemma metrics_writes_agree (m : metricsConfig) pm tenantLabel w :
  tenant_key (metrics_tenantHeader m) ->
  agree (delivered (metrics_tenantHeader m) r0) um1 um2 ->
  Forall2 (agree_routes same_peer)
    (MetricsV1.NewHandler (metricsEndpoints m) (w_metrics (with_writes um1 ul1 ut1 w))
       (metricsHandlerOptions m pm tenantLabel rateLimit))
    (MetricsV1.NewHandler (metricsEndpoints m) (w_metrics (with_writes um2 ul2 ut2 w))
       (metricsHandlerOptions m pm tenantLabel rateLimit)).
Proof.
  intros Hh Ha. unfold MetricsV1.NewHandler. apply Forall2_app; [apply agree_routes_refl|].
  apply Forall2_app; [|apply agree_routes_refl]. apply endpoint_routes_agree. intros u.
  unfold MetricsV1.write_routes. change (MetricsV1.writeMiddlewares _ ++ ?l)
    with (WithMTLSTenantExtraction (metrics_tenantHeader m) :: rateLimit :: l).
  apply (write_group_agree _ _ (fun p => [Handle MetricsV1.ReceiveRoute p])); [done| |done|].
  - eapply passes_cons; [apply transparent_passes; apply _|]. eapply passes_cons; [apply strip_certified|apply passes_nil].
  - intros p1 p2 Hp. by apply (routes_agree _ p1 p2 [(None, MetricsV1.ReceiveRoute)]).
Qed.

Lemma logs_writes_agree (l : logsConfig) pm tenantLabel w :
  tenant_key (logs_tenantHeader l) -> agree (delivered (logs_tenantHeader l) r0) ul1 ul2 ->
  Forall2 (agree_routes same_peer)
    (LogsV1.NewHandler (logs_readEndpoint l) (logs_tailEndpoint l) (logs_writeEndpoint l) (logs_rulesEndpoint l)
       (logs_rulesReadOnly l) (w_logs (with_writes um1 ul1 ut1 w)) (logsHandlerOptions parse l pm tenantLabel))
    (LogsV1.NewHandler (logs_readEndpoint l) (logs_tailEndpoint l) (logs_writeEndpoint l) (logs_rulesEndpoint l)
       (logs_rulesReadOnly l) (w_logs (with_writes um2 ul2 ut2 w)) (logsHandlerOptions parse l pm tenantLabel)).
Proof.
  intros Hh Ha. unfold LogsV1.NewHandler. do 3 (apply Forall2_app; [apply agree_routes_refl|]).
  apply endpoint_routes_agree. intros u. unfold LogsV1.write_routes.
  change (LogsV1.writeMiddlewares _ ++ ?ms) with (WithMTLSTenantExtraction (logs_tenantHeader l) (S:=RLState C) :: ms).
  apply (write_group_agree _ _ (fun p => [Handle LogsV1.otlpRoute p; Handle LogsV1.pushRoute p])); [done| |done|].
  - eapply passes_cons; [apply strip_certified|apply passes_nil].
  - intros p1 p2 Hp. by apply (routes_agree _ p1 p2 [(None, LogsV1.otlpRoute); (None, LogsV1.pushRoute)]).
Qed.

Lemma traces_writes_agree (t : tracesConfig) pm w rs1 rs2 :
  tenant_key (traces_tenantHeader t) -> agree (delivered (traces_tenantHeader t) r0) ut1 ut2 ->
  traces_api ParseRequestURI t pm (with_writes um1 ul1 ut1 w) = Return rs1 ->
  traces_api ParseRequestURI t pm (with_writes um2 ul2 ut2 w) = Return rs2 ->
  Forall2 (agree_routes same_peer) rs1 rs2.
Proof.
  intros Hh Ha E1 E2. unfold traces_api in E1, E2.
  destruct (traces_served t); [|apply Return_inj in E1 as <-, E2 as <-; apply agree_routes_refl].
  apply flow_bind_return in E1 as (a1 & E1 & <-%Return_inj), E2 as (a2 & E2 & <-%Return_inj).
  apply Mount_agree. unfold TracesV1.NewV2Handler in E1, E2.
  destruct (_ && _) in E1, E2; [done|]. apply Return_inj in E1 as <-, E2 as <-.
  apply Forall2_app; [apply agree_routes_refl|]. apply Forall2_app; [|apply agree_routes_refl].
  apply endpoint_routes_agree. intros u. unfold TracesV1.write_routes.
  change (TracesV1.writeMiddlewares _) with [WithMTLSTenantExtraction (traces_tenantHeader t) (S:=RLState C)].
  apply (write_group_agree _ _ (fun p => [Method "POST" "/v1/traces" p])); [done|apply passes_nil|done|].
  intros p1 p2 Hp. by apply (routes_agree _ p1 p2 [(Some "POST", "/v1/traces")]).
Qed.

Lemma api_writes_agree (cfg : config) ids token pm patterns alertRateLimit w rs1 rs2 :
  tenant_key (metrics_tenantHeader (cfg_metrics cfg)) ->
  tenant_key (logs_tenantHeader (cfg_logs cfg)) ->
  tenant_key (traces_tenantHeader (cfg_traces cfg)) ->
  agree (delivered (metrics_tenantHeader (cfg_metrics cfg)) r0) um1 um2 ->
  agree (delivered (logs_tenantHeader (cfg_logs cfg)) r0) ul1 ul2 ->
  agree (delivered (traces_tenantHeader (cfg_traces cfg)) r0) ut1 ut2 ->
  api_routes ParseRequestURI parse canonical cfg ids token pm patterns alertRateLimit rateLimit (with_writes um1 ul1 ut1 w) = Return rs1 ->
  api_routes ParseRequestURI parse canonical cfg ids token pm patterns alertRateLimit rateLimit (with_writes um2 ul2 ut2 w) = Return rs2 ->
  Forall2 (agree_routes same_peer) rs1 rs2.
Proof.
  intros Hm Hl Ht Am Al At E1 E2.
  apply flow_bind_return in E1 as (m1 & Em1 & E1), E2 as (m2 & Em2 & E2).
  apply flow_bind_return in E1 as (l1 & El1 & E1), E2 as (l2 & El2 & E2).
  apply flow_bind_return in E1 as (t1 & Et1 & <-%Return_inj), E2 as (t2 & Et2 & <-%Return_inj).
  do 2 (apply Forall2_app; [apply agree_routes_refl|]).
  apply Forall2_app; [|apply Forall2_app; [|by eapply traces_writes_agree]].
  - unfold metrics_api in Em1, Em2. destruct (metrics_enabled _);
      [|apply Return_inj in Em1 as <-, Em2 as <-; apply agree_routes_refl].
    apply flow_bind_return in Em1 as (tl & Etl & <-%Return_inj), Em2 as (tl' & Etl' & <-%Return_inj).
    assert (tl' = tl) as -> by congruence.
    do 2 (apply Forall2_app; [apply agree_routes_refl|]). by apply Mount_agree, metrics_writes_agree.
  - unfold logs_api in El1, El2. destruct (logs_enabled _);
      [|apply Return_inj in El1 as <-, El2 as <-; apply agree_routes_refl].
    apply flow_bind_return in El1 as (tl & Etl & <-%Return_inj), El2 as (tl' & Etl' & <-%Return_inj).
    assert (tl' = tl) as -> by congruence. by apply Mount_agree, logs_writes_agree.
Qed.
End writes.

(** C7: Writes need a certificate.  For every request, by whatever route,
    the answer of the gateway depends on the upstreams that take metrics, logs and
    traces only through their answers to requests whose tenant header holds exactly
    the tenant of the client certificate of the connection, or is missing, and that
    only when the [Connection] header of the client names it: the reverse proxy then
    removes it after the gateway has set it.  So without a certificate that names a
    tenant the upstreams are never asked, and a tenant header of the client never
    reaches them.  (The tenant headers are not among those the proxy sets.) *)
Theorem writes_need_certificate {C} `{LogqlEnv} `{RegexEngine} `{MapRange} `{Mime} `{PromQL}
    `{MatcherPrinter} `{Alertmanager} `{Yaml} `{UrlCodec} `{Chi}
    (ParseRequestURI : string -> result URL) (parse : string -> fallible (NumberMemory * Expr))
    (canonical : string -> string) (cfg : config) (ids : gmap string string) (token : string)
    (pm : @ProviderManager (RLState C)) (patterns : list string) (alertRateLimit rateLimit : Middleware (RLState C))
    (w : World C) (um1 um2 ul1 ul2 ut1 ut2 : Handler (RLState C)) (rs1 rs2 : Router (RLState C)) (r : Request) :
  Transparent rateLimit ->
  tenant_key (metrics_tenantHeader (cfg_metrics cfg)) ->
  tenant_key (logs_tenantHeader (cfg_logs cfg)) ->
  tenant_key (traces_tenantHeader (cfg_traces cfg)) ->
  rootRouter ParseRequestURI parse canonical cfg ids token pm patterns alertRateLimit rateLimit (with_writes um1 ul1 ut1 w) = Return rs1 ->
  rootRouter ParseRequestURI parse canonical cfg ids token pm patterns alertRateLimit rateLimit (with_writes um2 ul2 ut2 w) = Return rs2 ->
  agree (delivered (metrics_tenantHeader (cfg_metrics cfg)) r) um1 um2 ->
  agree (delivered (logs_tenantHeader (cfg_logs cfg)) r) ul1 ul2 ->
  agree (delivered (traces_tenantHeader (cfg_traces cfg)) r) ut1 ut2 ->
  forall c, ServeHTTP rs1 r c = ServeHTTP rs2 r c.
Proof.
  intros Ht Hm Hl Htr E1 E2 Am Al At c.
  apply flow_bind_return in E1 as (a1 & E1 & <-%Return_inj), E2 as (a2 & E2 & <-%Return_inj).
  apply (ServeHTTP_agree (same_peer r)); [by intros ps r'| |done].
  apply Forall2_app; [|apply agree_routes_refl].
  eapply Group_agree; [eapply passes_cons; [|apply passes_nil]|by eapply api_writes_agree].
  apply passes_forward. intros r' [Hr Hc]. left. unfold WithAccessToken.
  destruct (_ && _); eexists; (split; [|done]); (split; [done|]); cbn [r_header map_ctx set_ctx set_header];
    [by rewrite header_set_other|done].
Qed.

(** ** A slash that avoids the enforcement *)

Lemma Split_slash y : Split "/" (y +:+ "/") = Split "/" y ++ [""].
Proof. change (y +:+ "/") with (y +:+ String "/" ""). by rewrite Split_concat. Qed.

Lemma HasPrefix_head c s s' : HasPrefix (String c s) "/" = HasPrefix (String c s') "/".
Proof. unfold HasPrefix. cbn [String.prefix]. destruct (ascii_dec _ _); [|done]. by destruct s, s'. Qed.

(** The path sent upstream does not show a slash at the end. *)
Lemma path_Join_slash b y :
  path_Join b ("/" +:+ y +:+ "/") = path_Join b ("/" +:+ y).
Proof.
  unfold path_Join.
  change (String.eqb ("/" +:+ ?z) "") with false. rewrite !andb_false_r.
  assert (forall z, Clean (z +:+ String "/" (y +:+ "/")) = Clean (z +:+ String "/" y)) as Hc.
  { intros z. unfold Clean.
    assert (HasPrefix (z +:+ String "/" (y +:+ "/")) "/" = HasPrefix (z +:+ String "/" y) "/") as ->
      by (destruct z; apply HasPrefix_head).
    rewrite !Split_concat, ?Split_slash, (app_assoc (Split "/" z)).
    assert (forall root st l, clean_components root st (l ++ [""]) = clean_components root st l) as ->; [|done].
    intros root st l. revert st. induction l as [|c l IH]; intros st; [done|]. cbn [app clean_components].
    rewrite !IH. destruct st as [|top st]; [done|]. by rewrite (IH st). }
  destruct (String.eqb b ""); [apply (Hc "")|].
  assert (forall z, b +:+ "/" +:+ "/" +:+ z = (b +:+ "/") +:+ String "/" z) as E by (intros; by rewrite <-str_app_assoc).
  rewrite !E. apply Hc.
Qed.

Lemma query_behind_slash x : metricSelectorParam (x +:+ "/") = "query".
Proof.
  unfold metricSelectorParam.
  assert (forall w, lacks "/" w = true -> HasSuffix (x +:+ "/") (String "/" w) = String.eqb "" w) as E.
  { intros w Hw. by apply (HasSuffix_last x "" w). }
  by rewrite !E by reflexivity.
Qed.

(** A client without a [Connection] header does not ask for an upgrade. *)
Lemma no_upgrade u r : header_values (r_header r) "Connection" = [] ->
  upgradeType (r_header (MetricsV1.endpoint_director u r)) = "".
Proof.
  intros Hc. unfold upgradeType.
  assert (header_values (r_header (MetricsV1.endpoint_director u r)) "Connection" = []) as ->; [|done].
  rewrite <-Hc. unfold MetricsV1.endpoint_director, Proxy.Middlewares. simpl. unfold MiddlewareSetPrefixHeader.
  destruct (ctx_prefix _); [|done]. destruct (negb _); [done|]. cbn [r_header set_header set_url].
  by apply header_set_other.
Qed.

(** C5: A slash at the end of the path avoids the enforcement of the metrics.
    Take any request for an API whose selectors are in [match[]] (series, label names
    and values, rules, federation), by its path with a slash at the end, that is no
    POST and has no parameter [query].  Behind the middlewares that authenticate, the
    enforcer takes it for a query and adds a parameter [query]; the proxy ignores the
    slash.  So the upstream is asked for that API, with all the selectors [match[]]
    as the caller wrote them, whatever the matchers of the caller's tenant are. *)
Theorem slash_avoids_enforcement {S} `{PromQL} `{MatcherPrinter} `{Mime} (u : URL) (r : Request)
    (y data : string) (mInfo : AuthzResponseData) (sel : list Matcher) :
  base_ok (u_path u) -> tame y -> metricSelectorParam ("/" +:+ y) = "match[]" ->
  u_path (r_url r) = "/api/metrics/v1/" +:+ y +:+ "/" ->
  r_method r <> "POST" -> values_all (URL_Query r) "query" = [] ->
  header_values (r_header r) "Connection" = [] ->
  GetData (r_ctx r) = Some data -> data <> "" -> Unmarshal data = Ok mInfo ->
  EnforceMatchers (ad_matchers mInfo) [] = Ok sel ->
  exists r',
    (forall (up : Handler S) c,
       chain [MetricsEnforcer.WithEnforceAuthorizationLabels; StripPrefix "/api/metrics/v1"]
         (ReverseProxy (MetricsV1.endpoint_director u) up) r c = up r' c) /\
    r_method r' = r_method r /\
    u_path (r_url r') = path_Join (u_path u) ("/" +:+ y) /\
    metricSelectorParam (u_path (r_url r')) = "match[]" /\
    values_all (URL_Query r') "match[]" = values_all (URL_Query r) "match[]".
Proof.
  intros Hb Hy Hapi Hpath Hm Hq Hc Hd Hne Hu Hsel.
  set (q := Encode (values_set (URL_Query r) "query" (matchersToString sel))).
  set (r1 := map_ctx (with_prefix "/api/metrics/v1") (set_path ("/" +:+ y +:+ "/") (set_rawQuery q r))).
  exists (outgoing r1 (MetricsV1.endpoint_director u r1)).
  destruct (endpoint_director_frame u r1) as (Ep & Eq & Em & _).
  assert (forall (next : Handler S) c,
    chain [MetricsEnforcer.WithEnforceAuthorizationLabels; StripPrefix "/api/metrics/v1"] next r c = next r1 c) as Hchain.
  { intros next c. cbn [chain]. unfold MetricsEnforcer.WithEnforceAuthorizationLabels.
    rewrite Hd, (proj2 (String.eqb_neq data "") Hne), Hu, Hpath.
    rewrite (str_app_assoc _ y), query_behind_slash. unfold enforceRequestQueryLabels, enforce_url, enforceQueryValues.
    rewrite (proj2 (String.eqb_neq _ _) Hm), Hq, Hsel. cbn [length Nat.eqb wrap_err mbind result_bind].
    unfold StripPrefix, WithPrefix. cbn [set_rawQuery set_url r_url u_path]. rewrite Hpath.
    change ("/api/metrics/v1/" +:+ y +:+ "/") with ("/api/metrics/v1" +:+ "/" +:+ y +:+ "/").
    assert (TrimPrefix ("/api/metrics/v1" +:+ "/" +:+ y +:+ "/") "/api/metrics/v1" = "/" +:+ y +:+ "/") as ->.
    { unfold TrimPrefix, HasPrefix. by rewrite prefix_app, str_drop_app. }
    rewrite (str_len_app "/api/metrics/v1"), (proj2 (Nat.ltb_lt _ _)) by (simpl; lia). reflexivity. }
  split_and!; cbn [outgoing r_url r_method].
  - intros up c. rewrite Hchain. unfold ReverseProxy, proxy_send. by rewrite no_upgrade.
  - by rewrite Em.
  - rewrite Ep. apply path_Join_slash.
  - rewrite Ep. change (u_path (r_url r1)) with ("/" +:+ y +:+ "/").
    rewrite path_Join_slash, (selector_param_kept _ _ "") by done. exact Hapi.
  - unfold URL_Query at 1. cbn [outgoing r_url]. rewrite Eq. unfold r1. cbn [map_ctx set_ctx set_path set_rawQuery set_url r_url u_rawQuery].
    unfold q. rewrite query_values_Encode by (apply no_empty_set, no_empty_query_values).
    unfold values_all, values_set. by rewrite lookup_insert_ne.
Qed.

(** ** Several tenants *)

Lemma Join_has_pipe a b ts : lacks "|" (Join (a :: b :: ts) "|") = false.
Proof.
  change (Join (a :: b :: ts) "|") with (a +:+ "|" +:+ Join (b :: ts) "|").
  unfold lacks. rewrite str_forallb_app. cbn. apply andb_false_r.
Qed.

(** The limits of the default tenant, as [rateLimitMiddleware] makes them. *)
Definition default_limits {C} (first : nat) (client : option (SharedRateLimiter C))
    (NewRateLimiter : Z -> Z -> Middleware (RLState C)) (configs : list Config) : list (@middleware C) :=
  match client with
  | Some client =>
      shared_middleware client <$> filter (fun ic => cfg_Tenant ic.2 = DefaultTenantName) (numbered first configs)
  | None => local_middleware NewRateLimiter <$> filter (fun c => cfg_Tenant c = DefaultTenantName) configs
  end.

(** A limiter, on a request of a tenant that no configuration is for. *)
Lemma unknown_tenant_limits {C} first (client : option (SharedRateLimiter C)) NewRateLimiter configs mw t next r :
  rateLimitMiddleware first client NewRateLimiter configs = Return mw ->
  Forall (fun c => cfg_Tenant c <> t) configs -> GetTenant (r_ctx r) = Some t ->
  mw next r = limit_by (default_limits first client NewRateLimiter configs) next r.
Proof.
  intros E Ht Hr. assert (forall {A} (f : A -> Config) (l : list A),
    Forall (fun a => cfg_Tenant (f a) <> t) l -> filter (fun a => cfg_Tenant (f a) = t) l = []) as Hnone.
  { intros A f l Hl. induction Hl as [|a l Ha _ IH]; [done|]. by rewrite filter_cons_False. }
  unfold rateLimitMiddleware in E. destruct client as [client|]; cbn [default_limits].
  - unfold WithSharedRateLimiter_from in E.
    pose proof (foldl_middlewares client (numbered first configs)) as Hf.
    destruct (foldl _ _ _) as [ms|]; [|done]. injection E as <-. destruct Hf as [_ Hms].
    rewrite (combine_limits ms (fun t => shared_middleware client <$>
      filter (fun ic => cfg_Tenant ic.2 = t) (numbered first configs)) t); [|intros t'|done].
    + by rewrite (Hnone _ snd) by by apply (numbered_Forall (fun c => cfg_Tenant c <> t)).
    + rewrite Hms. by destruct (filter _ _).
  - injection E as <-. unfold WithLocalRateLimiter.
    rewrite (combine_limits _ (fun t => local_middleware NewRateLimiter <$>
      filter (fun c => cfg_Tenant c = t) configs) t); [|intros t'|done].
    + by rewrite (Hnone _ id).
    + etransitivity; [apply local_limits|]. by destruct (filter _ _).
Qed.

(** C23: What applies to a request that names several tenants.  When no
    tenant of the configuration has a pipe in its name, a request that names two
    tenants or more is authenticated by the provider of the default tenant, and
    refused with 401 without one; and the limiter of the gateway, the shared one as
    well as the local one, applies to it the first limit of the default tenant that
    matches its path, or none, whatever the limits of the tenants it names. *)
Theorem several_tenants_use_default {C} (pm : @ProviderManager (RLState C)) (configs : list Config)
    (ts : list string) (r : Request) :
  (forall t, is_Some (middlewares pm !! t) -> lacks "|" t = true) ->
  Forall (fun c => lacks "|" (cfg_Tenant c) = true) configs ->
  (2 <= length ts)%nat -> GetTenant (r_ctx r) = Some (Join ts "|") ->
  (forall next, WithTenantMiddlewares [Middlewares pm] next r =
     match middlewares pm !! DefaultTenantName with
     | Some mw => mw next r
     | None => PrometheusAPIError "tenant not found, have you registered it?" 401
     end) /\
  (forall first (client : option (SharedRateLimiter C)) NewRateLimiter mw,
     rateLimitMiddleware first client NewRateLimiter configs = Return mw ->
     forall next, mw next r = limit_by (default_limits first client NewRateLimiter configs) next r).
Proof.
  intros Hpm Hcfg Hlen Ht. destruct ts as [|a [|b ts]]; [simpl in Hlen; lia..|].
  pose proof (Join_has_pipe a b ts) as Hpipe. set (t := Join (a :: b :: ts) "|") in *. clearbody t. split.
  - intros next. unfold WithTenantMiddlewares. rewrite Ht. simpl. unfold Middlewares.
    destruct (middlewares pm !! t) as [mw|] eqn:E; [rewrite Hpm in Hpipe by (by eexists); done|].
    by destruct (middlewares pm !! DefaultTenantName).
  - intros first client NewRateLimiter mw E next. eapply unknown_tenant_limits; [done| |done].
    eapply Forall_impl; [exact Hcfg|]. intros c Hc <-. simpl in Hc. congruence.
Qed.
