(* ===== verification/GatewayRuns.v ===== *)
(** * Runs of a small gateway

    One tenant, the default one, which authenticates by client certificate; a
    metrics and a Tempo endpoint whose upstreams answer with what they were asked;
    and the instances at which the theorems about the gateway apply. *)

From stdpp Require Import base tactics option list gmap strings.
From Stdlib Require Import ZArith Lia Ascii.
From S2P Require Import Prelude GoStrings Labels Url Strconv Json Http Tenant Authz LogqlAst LogsEnforcer.
From S2P Require Import MetricsEnforcer RateLimit Proxy Router Login Rules Providers Traces Config.
From S2P Require Import MetricsRoutes LogsRoutes TracesRoutes AlertsProbes Gateway Isolation LogsIsolation GatewayFacts.
Import TenantHeader MTLSTenant.

(** ** The parts *)

(** A router that looks for a pattern as it is, then for one that is the start of the
    path before a star, with the slash at the end of a path removed. *)
Definition pattern_matches (pattern path : string) : bool :=
  HasSuffix pattern "*" && HasPrefix path (str_take (String.length pattern - 1) pattern).

Definition plain_chi : Chi := {|
  chi_find := fun rts m path =>
    let path := if HasSuffix path "/" then str_take (String.length path - 1) path else path in
    let found := match list_find (fun rt => rt.2 = path) rts with
                 | Some x => Some x
                 | None => list_find (fun rt => pattern_matches rt.2 path = true) rts
                 end in
    match found with
    | Some (i, (m', _)) => if bool_decide (m' = None \/ m' = Some m) then Found i [] else MethodNotAllowed
    | None => RouteNotFound
    end
|}.

Definition no_yaml : Yaml := {|
  UnmarshalRules := fun _ => Err "no yaml"; MarshalRules := fun _ => Err "no yaml";
  UnmarshalRuleGroup := fun _ => Err "no yaml"; MarshalRuleGroup := fun _ => Err "no yaml"
|}.

Section runs.
#[local] Existing Instances plain_chi no_yaml toy_promql simple_env literal_engine canonical_range plain_mime
  toy_alertmanager simple_urls.

Abbreviation St := (RLState unit).

(** An upstream that answers with the path and the selectors it was asked for. *)
Definition echo : Handler St := fun r =>
  Write (Raw (u_path (r_url r) +:+ " " +:+
              Join (values_all (URL_Query r) (metricSelectorParam (u_path (r_url r)))) ";")).

Definition silent : Handler St := fun _ => mret tt.

Definition demo_world (read : Handler St) : World unit :=
  with_read read (mkWorld
    (MetricsV1.mkUpstreams silent echo (fun _ => None) silent (fun _ _ => GetSilenceNotFound))
    (LogsV1.mkUpstreams silent silent echo silent)
    (TracesV1.mkUpstreams silent echo echo (fun _ => ∅) (fun _ s => s))
    silent silent (fun _ r => r) true "" []).

Definition demo_cfg : config :=
  mkConfiguration
    (mkMetricsConfig (Some (mkURL "http" "thanos:9090" "" "")) (Some (mkURL "http" "receive:80" "" "")) None None
       "THANOS-TENANT" "tenant_id" true)
    (mkLogsConfig None None None None "X-Scope-OrgID" "tenant_id" false ∅ [] false)
    (mkTracesConfig "" None "" None (Some (mkURL "http" "tempo:3200" "" "")) "X-Tenant" true)
    (mkAlertmanagerConfig [] "X-Scope-OrgID") (mkProbesConfig None "X-Tenant" false) "" [] [].

Definition demo_pm : @ProviderManager St :=
  mkPM {["/oidc/{tenant}" := {[DefaultTenantName := silent]}]} {[DefaultTenantName := MTLSAuth.MTLS_Middleware]} ∅.

Definition demo_limit : Middleware St := WithLocalRateLimiter (fun _ _ next => next) [].

Definition demo_root (read : Handler St) : flow (Router St) :=
  rootRouter (fun _ => Err "unused") (fun _ => Return (Err "unused")) (fun s => s) demo_cfg ∅ "" demo_pm
    ["/oidc/{tenant}"] demo_limit demo_limit (demo_world read).

Definition demo_state : St := mkRLState ∅ tt.

(** A request of the tenant [mine] with a client certificate. *)
Definition demo_get (path query : string) : Request :=
  mkReq "GET" (mkURL "" "" path query) (header_add ∅ "THANOS-TENANT" "mine") (Ok "") 0
    (Some (mkTLS [mkCert ["ann@example.com"] [] [] [] "" ["mine"]])) background ∅ [].

(** What the client gets. *)
Definition served (r : Request) : option (Z * list Chunk) :=
  match demo_root echo with
  | Return rs =>
      match ServeHTTP rs r (mkConn fresh_writer demo_state) with
      | (Return _, c) => Some (response_status c, w_body (conn_w c))
      | (Panic _, _) => None
      end
  | Panic _ => None
  end.

(** ** The enforcement can be avoided *)

(** A caller that may see the tenant [mine] gets the series of the tenant [victim];
    without the slash its selector is replaced. *)
Example slash_run :
  served (demo_get "/api/metrics/v1/api/v1/series" "match%5B%5D=tenant_id%3Dvictim") =
    Some (200%Z, [Raw ("/api/v1/series {tenant_id=" +:+ dquote +:+ "mine" +:+ dquote +:+ "}")]) /\
  served (demo_get "/api/metrics/v1/api/v1/series/" "match%5B%5D=tenant_id%3Dvictim") =
    Some (200%Z, [Raw "/api/v1/series tenant_id=victim"]).
Proof. split; vm_compute; reflexivity. Qed.

(** The same request where the enforcer gets it. *)
Definition of_mine : AuthzResponseData := mkAuthz [mkMatcher MatchEqual "tenant_id" "mine"] "".
Definition victim_series : Request :=
  map_ctx (fun c => WithData c (encode (authz_json of_mine)))
    (demo_get "/api/metrics/v1/api/v1/series/" "match%5B%5D=tenant_id%3Dvictim").

Lemma slash_avoids_enforcement_witness :
  exists r', (forall (up : Handler St) c,
    chain [MetricsEnforcer.WithEnforceAuthorizationLabels; StripPrefix "/api/metrics/v1"]
      (ReverseProxy (MetricsV1.endpoint_director (mkURL "http" "thanos:9090" "" "")) up) victim_series c = up r' c) /\
    u_path (r_url r') = "/api/v1/series" /\ values_all (URL_Query r') "match[]" = ["tenant_id=victim"].
Proof.
  destruct (slash_avoids_enforcement (S := St) (mkURL "http" "thanos:9090" "" "") victim_series "api/v1/series"
    (encode (authz_json of_mine)) of_mine (ad_matchers of_mine)) as (r' & Hup & _ & Hp & _ & Hs).
  - by left.
  - split; [apply (bool_decide_unpack _); vm_compute; exact I|]. exists "series". by vm_compute.
  - reflexivity.
  - reflexivity.
  - discriminate.
  - vm_compute. reflexivity.
  - reflexivity.
  - reflexivity.
  - vm_compute. discriminate.
  - vm_compute. reflexivity.
  - reflexivity.
  - exists r'. split; [exact Hup|]. split; [by rewrite Hp|]. rewrite Hs. vm_compute. reflexivity.
Defined.

(** A dot at the end does the same, through the route of the user interface. *)
Example dot_avoids_enforcement :
  served (demo_get "/api/metrics/v1/api/v1/labels/." "match%5B%5D=tenant_id%3Dvictim") =
    Some (200%Z, [Raw "/api/v1/labels tenant_id=victim"]).
Proof. vm_compute. reflexivity. Qed.

(** ** Instances of the theorems *)

Lemma demo_root_made read : exists rs, demo_root read = Return rs.
Proof. unfold demo_root. apply routers_made. split; intros _; discriminate. Qed.

Lemma demo_limit_transparent : Transparent demo_limit.
Proof. apply local_transparent. intros l w r h1 h2 Ha r1 <- c. by apply Ha. Qed.

Lemma demo_setup tl : WithTenantLabel "tenant_id" = Return tl ->
  metrics_setup (cfg_metrics demo_cfg) demo_pm demo_limit tl.
Proof.
  intros Htl. split; [done|done|done| |apply demo_limit_transparent|].
  - intros t mw. unfold Middlewares, demo_pm. cbn [middlewares].
    destruct ({[DefaultTenantName := _]} !! t) as [m|] eqn:E.
    + apply lookup_singleton_Some in E as [_ <-]. intros [= <-]. apply MTLS_authenticates.
    + rewrite lookup_singleton_eq. intros [= <-]. apply MTLS_authenticates.
  - intros u [= <-]. by left.
Qed.

(** An upstream that would give everything to a request without selectors. *)
Definition generous : Handler St := fun r =>
  if bool_decide (selectors_sent (metricSelectorParam (u_path (r_url r))) r = [])
  then Write (Raw "everything") else echo r.

Lemma metrics_gateway_isolated_witness :
  let r := demo_get "/api/metrics/v1/api/v1/series" "" in
  exists rs1 rs2, demo_root echo = Return rs1 /\ demo_root generous = Return rs2 /\
    forall c, ServeHTTP rs1 r c = ServeHTTP rs2 r c.
Proof.
  intros r. destruct (demo_root_made echo) as [rs1 E1], (demo_root_made generous) as [rs2 E2].
  destruct (proj2 (@WithTenantLabel_made St "tenant_id")) as [tl Htl]; [done|].
  exists rs1, rs2. split; [done|]. split; [done|].
  apply (metrics_gateway_isolated (fun _ => Err "unused") (fun _ => Return (Err "unused")) (fun s => s)
           demo_cfg ∅ "" demo_pm ["/oidc/{tenant}"] demo_limit demo_limit tl (demo_world silent) echo generous rs1 rs2 r
           "api/v1/series" (demo_setup tl Htl) E1 E2); [done| |].
  - split; [apply (bool_decide_unpack _); vm_compute; exact I|]. exists "series". by vm_compute.
  - intros r' (_ & m & _ & _ & Hs & _) c. unfold generous. by rewrite bool_decide_eq_false_2.
Defined.

(** An upstream that stores what it gets for every tenant when none is named. *)
Definition naive_receiver : Handler St := fun r =>
  match header_values (r_header r) "THANOS-TENANT" with
  | [] => Write (Raw "stored for everyone")
  | _ => echo r
  end.

Definition write_root (receive : Handler St) : flow (Router St) :=
  rootRouter (fun _ => Err "unused") (fun _ => Return (Err "unused")) (fun s => s) demo_cfg ∅ "" demo_pm
    ["/oidc/{tenant}"] demo_limit demo_limit (with_writes receive silent silent (demo_world echo)).

Lemma writes_need_certificate_witness :
  let r := demo_get "/api/metrics/v1/api/v1/receive" "" in
  exists rs1 rs2, write_root echo = Return rs1 /\ write_root naive_receiver = Return rs2 /\
    forall c, ServeHTTP rs1 r c = ServeHTTP rs2 r c.
Proof.
  intros r.
  assert (forall receive, exists rs, write_root receive = Return rs) as Hmade.
  { intros receive. unfold write_root. apply routers_made. split; intros _; discriminate. }
  destruct (Hmade echo) as [rs1 E1], (Hmade naive_receiver) as [rs2 E2].
  exists rs1, rs2. split; [done|]. split; [done|].
  apply (writes_need_certificate (fun _ => Err "unused") (fun _ => Return (Err "unused")) (fun s => s)
           demo_cfg ∅ "" demo_pm ["/oidc/{tenant}"] demo_limit demo_limit (demo_world echo)
           echo naive_receiver silent silent silent silent rs1 rs2 r demo_limit_transparent);
    [apply tenant_key_intro; vm_compute; exact I..|exact E1|exact E2| |done|done].
  intros r' (ou & _ & Hv) c. unfold naive_receiver. change (header_values _ "THANOS-TENANT") with
    (header_values (r_header r') (metrics_tenantHeader (cfg_metrics demo_cfg))). by rewrite Hv.
Defined.

(** The tenant of a write, as the upstream gets it; a client that names the tenant
    header in its [Connection] header writes without a tenant. *)
Definition stored_for (connection : option string) : option (list Chunk) :=
  let r := demo_get "/api/metrics/v1/api/v1/receive" "" in
  let r := match connection with
           | Some v => set_header (header_set (r_header r) "Connection" v) r
           | None => r
           end in
  match write_root (fun r => Write (Raw (Join (header_values (r_header r) "THANOS-TENANT") ","))) with
  | Return rs => Some (w_body (conn_w (ServeHTTP rs r (mkConn fresh_writer demo_state)).2))
  | Panic _ => None
  end.

Example connection_removes_tenant :
  stored_for None = Some [Raw "mine"] /\ stored_for (Some "close, thanos-tenant") = Some [Raw ""].
Proof. split; vm_compute; reflexivity. Qed.

Lemma login_routes_fail_witness :
  exists rt, rt ∈ Group [WithAccessToken] (authn_routes demo_pm ["/oidc/{tenant}"]) /\
    rt_pattern rt = "/oidc/{tenant}/*" /\
    rt_handler rt (demo_get "/oidc/mine/login" "") = PrometheusAPIError "error finding tenant" 500.
Proof.
  eexists. split; [left|]. split; [reflexivity|].
  apply (login_routes_fail demo_pm ["/oidc/{tenant}"]); [left|reflexivity].
Defined.

Lemma tempo_unauthenticated_witness :
  exists rs rt, demo_root echo = Return rs /\ rt ∈ rs /\ rt_pattern rt = "/api/traces/v1/tempo/api*".
Proof.
  destruct (demo_root_made echo) as [rs E].
  destruct (tempo_unauthenticated (fun _ => Err "unused") (fun _ => Return (Err "unused")) (fun s => s)
    demo_cfg ∅ "" demo_pm ["/oidc/{tenant}"] (demo_world echo) demo_limit demo_limit (mkURL "http" "tempo:3200" "" "") rs)
    as (rt & Hin & _ & Hp & _); [reflexivity|reflexivity|exact E|].
  by exists rs, rt.
Defined.

(** The flags of a gateway that serves metrics, logs and traces. *)
Definition demo_flags : rawFlags :=
  mkRawFlags "" "" "http://thanos" "" "" "" "http://loki" "" "" "" "mine:severity,namespace" "app" "" "http://tempo"
    "otel:4317" "" "" [] "" false ":8090" "THANOS-TENANT" "tenant_id" "X-Scope-OrgID" "tenant_id" "X-Tenant"
    "X-Scope-OrgID" "X-Tenant".

Lemma parsed_flags_witness :
  exists cfg, @parseFlags latin1 (fun s => Ok (mkURL "http" s "" "")) (fun _ => Ok tt) demo_flags = Return (Ok cfg) /\
    @flags_ok (fun s => Ok (mkURL "http" s "" "")) cfg.
Proof.
  eexists. split; [reflexivity|].
  apply (@parsed_flags latin1 (fun s => Ok (mkURL "http" s "" "")) (fun _ => Ok tt) demo_flags). reflexivity.
Defined.

(** The tenant [mine] has a provider that refuses everything and a limit of its
    own; the default tenant asks for a certificate. *)
Definition strict_pm : @ProviderManager St :=
  mkPM ∅ {["mine" := fun _ _ => PrometheusAPIError "no" 401; DefaultTenantName := MTLSAuth.MTLS_Middleware]} ∅.

Definition strict_limits : list Config :=
  [mkConfig "mine" (Some (mkRegexp "query" (fun _ => true))) 1 1000000000 false 0 0].

Definition refuse : Z -> Z -> Middleware St := fun _ _ _ _ => http_Error "limited" 429.

Lemma several_tenants_use_default_witness :
  let r := map_ctx (with_tenant "mine|other") (demo_get "/api/metrics/v1/api/v1/query" "") in
  (forall next, WithTenantMiddlewares [Middlewares strict_pm] next r = MTLSAuth.MTLS_Middleware next r) /\
  (forall next, WithLocalRateLimiter refuse strict_limits next r = next r) /\
  (forall next, WithLocalRateLimiter refuse strict_limits next
     (map_ctx (with_tenant "mine") r) = http_Error "limited" 429).
Proof.
  intros r.
  destruct (several_tenants_use_default strict_pm strict_limits ["mine"; "other"] r) as [Hm Hs].
  - intros t [mw E]. unfold strict_pm in E. cbn [middlewares] in E.
    apply lookup_insert_Some in E as [[<- _]|[_ [<- _]%lookup_singleton_Some]]; reflexivity.
  - repeat constructor.
  - simpl. lia.
  - reflexivity.
  - split; [|split].
    + intros next. rewrite Hm. reflexivity.
    + intros next. rewrite (Hs 0%nat None refuse _ eq_refl). reflexivity.
    + intros next. reflexivity.
Defined.

(** ** Logs *)

Definition logs_cfg : config :=
  mkConfiguration (cfg_metrics demo_cfg)
    (mkLogsConfig (Some (mkURL "http" "loki:3100" "" "")) None (Some (mkURL "http" "loki:3101" "" "")) None
       "THANOS-TENANT" "tenant_id" false ∅ [] true)
    (cfg_traces demo_cfg) (cfg_alertmanager demo_cfg) (cfg_probes demo_cfg) "" [] [].

(** An upstream that answers with the path and the selectors it was asked for. *)
Definition echo_logs : Handler St := fun r =>
  Write (Raw (u_path (r_url r) +:+ " query=" +:+ Join (values_all (URL_Query r) queryParam) ";" +:+
              " match=" +:+ Join (values_all (URL_Query r) matchParam) ";" +:+
              " match[]=" +:+ Join (values_all (URL_Query r) "match[]") ";")).

Definition logs_root (read : Handler St) : flow (Router St) :=
  rootRouter (fun _ => Err "unused") (fun _ => Return (Err "unused")) (fun s => s) logs_cfg ∅ "" demo_pm
    ["/oidc/{tenant}"] demo_limit demo_limit (with_log_reads read silent (demo_world echo)).

Definition served_logs (r : Request) : option (Z * list Chunk) :=
  match logs_root echo_logs with
  | Return rs =>
      match ServeHTTP rs r (mkConn fresh_writer demo_state) with
      | (Return _, c) => Some (response_status c, w_body (conn_w c))
      | (Panic _, _) => None
      end
  | Panic _ => None
  end.

Definition mine : string := "{tenant_id=" +:+ dquote +:+ "mine" +:+ dquote +:+ "}".

(** C6: The series of the logs API are not isolated.  The API of the gateway
    documents the parameter [match[]] for them; the enforcer writes its matcher
    into [match], and whatever query it accepts, [match[]] reaches the upstream as
    the caller sent it.  With a slash at the end of the path [match] is left alone
    as well. *)
Theorem series_selectors_unenforced :
  (forall parse mInfo r r', enforceRequestLogQL parse mInfo r = Return (Ok r') ->
     values_all (URL_Query r') "match[]" = values_all (URL_Query r) "match[]") /\
  served_logs (demo_get "/api/logs/v1/loki/api/v1/series" "match%5B%5D=victim") =
    Some (200%Z, [Raw ("/loki/api/v1/series query= match=" +:+ mine +:+ " match[]=victim")]) /\
  served_logs (demo_get "/api/logs/v1/loki/api/v1/series/" "match=victim") =
    Some (200%Z, [Raw ("/loki/api/v1/series query=" +:+ mine +:+ " match=victim match[]=")]).
Proof.
  split; [apply series_selectors_kept|]. split; vm_compute; reflexivity.
Qed.

Definition generous_logs : Handler St := fun r =>
  match values_all (URL_Query r) (logQLParam (u_path (r_url r))) with
  | [] => Write (Raw "everything")
  | _ => echo_logs r
  end.

Lemma logs_gateway_isolated_witness :
  let r := demo_get "/api/logs/v1/loki/api/v1/query" "" in
  exists rs1 rs2, logs_root echo_logs = Return rs1 /\ logs_root generous_logs = Return rs2 /\
    forall c, ServeHTTP rs1 r c = ServeHTTP rs2 r c.
Proof.
  intros r.
  assert (forall read, exists rs, logs_root read = Return rs) as Hmade.
  { intros read. unfold logs_root. apply routers_made. split; intros _; discriminate. }
  destruct (Hmade echo_logs) as [rs1 E1], (Hmade generous_logs) as [rs2 E2].
  destruct (proj2 (@WithTenantLabel_made St "tenant_id")) as [tl Htl]; [done|].
  exists rs1, rs2. split; [done|]. split; [done|].
  apply (logs_gateway_isolated (fun _ => Err "unused") (fun _ => Return (Err "unused")) (fun s => s)
           logs_cfg ∅ "" demo_pm ["/oidc/{tenant}"] demo_limit demo_limit tl (demo_world echo) echo_logs generous_logs
           silent silent rs1 rs2 r "loki/api/v1/query"); [|exact E1|exact E2|done| | |done].
  - destruct (demo_setup tl Htl) as [? ? ? Hauth _ _]. split; [done|done|done|done|intros u [= <-]; by left|].
    intros u E. discriminate E || (injection E as <-; by left).
  - split; [apply (bool_decide_unpack _); vm_compute; exact I|]. exists "query". by vm_compute.
  - intros r' (_ & m & _ & _ & r1 & _ & _ & _ & (q & Hq & _) & _) c. unfold generous_logs. by rewrite Hq.
Defined.

End runs.
